(* ===== verification/_CoqProject ===== *)
-Q . S2P
Prelude.v
Table.v
Schema.v
Roles.v
Users.v
Memberships.v
Groups.v
Collections.v
Events.v
Policies.v
Vault.v
Ciphers.v
Util.v
Settings.v
Devices.v
AuthRequests.v
Auth.v
Demo.v
Sends.v
Emergency.v
Accounts.v
Orgs.v
TwoFactors.v
Login.v
AccountOps.v
CipherOps.v
KeyRotation.v
OrgCollections.v
Public.v
Admin.v
OrgInv.v
Guards.v
OrgSafety.v
RecoverySafety.v
AccountSafety.v
OrgSpec.v
PolicySpec.v
DeleteSpec.v
VaultSpec.v
EmergencySpec.v
TwoFactorSpec.v
LoginSpec.v
AccountSpec.v
SendSpec.v
Server.v
SendTrace.v
