(* ===== verification/Prelude.v ===== *)
(** HEADER *)
From stdpp Require Export base gmap strings list.
From Stdlib Require Export ZArith Lia.

Declare Scope vw_scope.
Delimit Scope vw_scope with vw.
Open Scope vw_scope.

(** ** Record update

    The Rust code mutates structs field by field ([member.status = ...]).
    [r <| f := v |>] is the record [r] with field [f] set to [v].  A record
    type declares its eta-expansion once ([Etable]); the updater of each field
    is derived from it by replacing that field's projection. *)
Class Etable (R : Type) := eta : R → R.

Class Updater {R T : Type} (proj : R → T) := update_field : (T → T) → R → R.
Arguments update_field {R T} proj {_} _ _ /.

Ltac solve_updater :=
  lazymatch goal with
  | |- @Updater ?R ?T ?proj =>
    let inst := constr:(_ : Etable R) in
    let body := eval red in inst in
    lazymatch eval pattern proj in body with
    | ?abs _ =>
      let u := eval cbv beta in (fun (f : T → T) => abs (fun r : R => f (proj r))) in
      exact u
    end
  end.

#[export] Hint Extern 0 (Updater _) => solve_updater : typeclass_instances.

Notation "r <| p := v |>" := (update_field p (λ _, v) r)
  (at level 1, left associativity, p constr at level 99, v constr at level 200,
   format "r  <| p  :=  v |>") : vw_scope.

(** ** Strings and optional columns

    Identifiers are strings; [a == b] is the comparison the code makes.  A
    nullable column compared with a value follows SQL: [NULL = v] is not true. *)
Infix "==" := String.eqb (at level 70, no associativity) : vw_scope.
Notation "a != b" := (negb (String.eqb a b)) (at level 70, no associativity) : vw_scope.

Definition opt_is (o : option string) (s : string) : bool :=
  match o with Some x => x == s | None => false end.

Definition is_some {A} (o : option A) : bool :=
  match o with Some _ => true | None => false end.

Definition is_none {A} (o : option A) : bool := negb (is_some o).

Definition is_empty {A} (l : list A) : bool :=
  match l with [] => true | _ :: _ => false end.

Definition str_is_empty (s : string) : bool := s == "".

Lemma eqb_str_true a b : (a == b) = true ↔ a = b.
Proof. apply String.eqb_eq. Qed.

Lemma eqb_str_false a b : (a == b) = false ↔ a ≠ b.
Proof. apply String.eqb_neq. Qed.

Lemma eqb_str_refl a : (a == a) = true.
Proof. apply String.eqb_refl. Qed.

Lemma opt_is_true o s : opt_is o s = true ↔ o = Some s.
Proof. destruct o; simpl; [rewrite eqb_str_true|]; naive_solver. Qed.

Lemma is_some_true {A} (o : option A) : is_some o = true ↔ is_Some o.
Proof. destruct o; simpl; split; [eauto | done | done | by intros []]. Qed.

Lemma is_none_true {A} (o : option A) : is_none o = true ↔ o = None.
Proof. destruct o; simpl; naive_solver. Qed.

Lemma is_empty_true {A} (l : list A) : is_empty l = true ↔ l = [].
Proof. destruct l; simpl; naive_solver. Qed.

Lemma is_empty_false {A} (l : list A) : is_empty l = false ↔ ∃ x, x ∈ l.
Proof.
  destruct l as [|x l]; simpl; split; try done.
  - intros [x ?]. set_solver.
  - intros _. exists x. set_solver.
Qed.

(** ** Machine integers and durations *)
Definition i64_MAX : Z := 2 ^ 63 - 1.
Definition i64_MIN : Z := - 2 ^ 63.
Definition i32_MAX : Z := 2 ^ 31 - 1.
Definition u64_MAX : Z := 2 ^ 64 - 1.

(** [TimeDelta::try_days(n)]: a [None] outside the range of chrono's
    [TimeDelta], which holds milliseconds in an [i64]. *)
Definition SECONDS_PER_DAY : Z := 86400.
Definition try_seconds (secs : Z) : option Z :=
  if (Z.abs secs <=? i64_MAX / 1000)%Z then Some secs else None.
Definition try_days (n : Z) : option Z := try_seconds (n * SECONDS_PER_DAY).

(** [NaiveDateTime + TimeDelta], [NaiveDateTime - TimeDelta]: chrono's dates end
    in the year 262142 and start in -262143; the operators panic outside. *)
Definition DATETIME_MIN : Z := -8334601228800.
Definition DATETIME_MAX : Z := 8210266876799.
Definition dt_checked (t : Z) : option Z :=
  if (DATETIME_MIN <=? t)%Z && (t <=? DATETIME_MAX)%Z then Some t else None.
Definition dt_from_timestamp (secs : Z) : option Z := dt_checked secs.
Definition dt_add (t delta : Z) : option Z := dt_checked (t + delta)%Z.
Definition dt_sub (t delta : Z) : option Z := dt_checked (t - delta)%Z.

(** Boolean conditions of the code and of its SQL filters, as propositions. *)
Create Rewrite HintDb vwbool.
#[export] Hint Rewrite andb_true_iff orb_true_iff negb_true_iff andb_false_iff
  orb_false_iff negb_false_iff eqb_str_true eqb_str_false eqb_str_refl opt_is_true
  @is_some_true @is_none_true @is_empty_true @is_empty_false
  Z.eqb_eq Z.eqb_neq Z.ltb_lt Z.ltb_ge Z.leb_le Z.leb_gt : vwbool.

Ltac bprop := autorewrite with vwbool in *.

(** ** Results, and handlers as a state and error monad

    A handler reads an environment [E] (configuration, clock, external
    services), and runs on a state [S] that survives errors: Vaultwarden wraps
    no handler in a database transaction, so what was written before an
    [err!] stays written.  [Msg] is an error returned with [err!]; [Panic] is
    an [unwrap]/[expect] on a missing value, which unwinds through every
    caller and is not caught by the bulk handlers. *)
Inductive error :=
| Msg (m : string)
| MsgEvent (m : string) (event : Z)
| Panic (m : string).

Inductive res (A : Type) :=
| Ok (a : A)
| Err (e : error).
Arguments Ok {_} _.
Arguments Err {_} _.

Definition is_ok {A} (r : res A) : bool := match r with Ok _ => true | Err _ => false end.

Definition M (E S A : Type) : Type := E → S → res A * S.

#[export] Instance M_ret {E S} : MRet (M E S) := λ A a e s, (Ok a, s).
#[export] Instance M_bind {E S} : MBind (M E S) := λ A B k m e s,
  match m e s with
  | (Ok a, s') => k a e s'
  | (Err x, s') => (Err x, s')
  end.

Section monad.
Context {E S : Type}.

(** [err!(msg)] *)
Definition err {A} (msg : string) : M E S A := λ e s, (Err (Msg msg), s).

(** [err!(msg, ErrorEvent { event })] *)
Definition err_event {A} (msg : string) (event : Z) : M E S A := λ e s, (Err (MsgEvent msg event), s).

Definition panic {A} (msg : string) : M E S A := λ e s, (Err (Panic msg), s).

(** Reading and writing the state *)
Definition gets {A} (f : E → S → A) : M E S A := λ e s, (Ok (f e s), s).
Definition modify (f : E → S → S) : M E S () := λ e s, (Ok (), f e s).

(** Rewriting one component [D] of the state *)
Definition modify_part {D} (get : S → D) (put : D → S → S) (f : D → D) : M E S () :=
  modify (λ _ s, put (f (get s)) s).

(** [opt.unwrap()] *)
Definition unwrap {A} (o : option A) (msg : string) : M E S A :=
  match o with Some a => mret a | None => panic msg end.

(** [if c { err!(msg) }] *)
Definition err_if (c : bool) (msg : string) : M E S () :=
  if c then err msg else mret ().

(** [match m.await { Ok(a) => Ok(a), Err(e) => Err(e) }] as a value: the
    error is handed to the caller, a panic still unwinds. *)
Definition try_ {A} (m : M E S A) : M E S (string + A) := λ e s,
  match m e s with
  | (Ok a, s') => (Ok (inr a), s')
  | (Err (Msg x), s') | (Err (MsgEvent x _), s') => (Ok (inl x), s')
  | (Err (Panic x), s') => (Err (Panic x), s')
  end.

(** The same with the event the error carries; [fail_with] hands it on. *)
Definition try_event {A} (m : M E S A) : M E S (string * option Z + A) := λ e s,
  match m e s with
  | (Ok a, s') => (Ok (inr a), s')
  | (Err (Msg x), s') => (Ok (inl (x, None)), s')
  | (Err (MsgEvent x ev), s') => (Ok (inl (x, Some ev)), s')
  | (Err (Panic x), s') => (Err (Panic x), s')
  end.

Definition fail_with {A} (x : string * option Z) : M E S A :=
  match x with (msg, Some ev) => err_event msg ev | (msg, None) => err msg end.

(** [m.await.ok();], [let _ = m.await;]: the error is dropped *)
Definition ignore {A} (m : M E S A) : M E S () := _ ← try_ m; mret ().

(** [for x in l { f(x)?; }] *)
Fixpoint mfor {A} (l : list A) (f : A → M E S ()) : M E S () :=
  match l with
  | [] => mret ()
  | x :: l' => _ ← f x; mfor l' f
  end.

(** a loop that carries mutable variables: [for x in l { acc = f(acc, x)?; }] *)
Fixpoint mfold {A B} (l : list A) (acc : B) (f : B → A → M E S B) : M E S B :=
  match l with
  | [] => mret acc
  | x :: l' => acc' ← f acc x; mfold l' acc' f
  end.
End monad.

(** ** What a computation does to the state

    [m_rel R m]: whatever the environment and state, the final state of [m]
    (of the error paths too) is related to the initial one by [R].  For a
    preorder [R] the statement is compositional, and [mrel] does the
    composition. *)
Definition m_rel {E S A} (R : E → S → S → Prop) (m : M E S A) : Prop :=
  ∀ e s, R e s (m e s).2.

Create HintDb mrel discriminated.
#[export] Hint Constants Opaque : mrel.

Section m_rel.
Context {E S : Type} (R : E → S → S → Prop) `{Hpre : ∀ e, PreOrder (R e)}.

Lemma m_rel_ret {A} (a : A) : m_rel R (mret a : M E S A).
Proof. intros e s. simpl. reflexivity. Qed.

Lemma m_rel_err {A} msg : m_rel R (err msg : M E S A).
Proof. intros e s. simpl. reflexivity. Qed.

Lemma m_rel_err_event {A} msg ev : m_rel R (err_event msg ev : M E S A).
Proof. intros e s. simpl. reflexivity. Qed.

Lemma m_rel_panic {A} msg : m_rel R (panic msg : M E S A).
Proof. intros e s. simpl. reflexivity. Qed.

Lemma m_rel_gets {A} (f : E → S → A) : m_rel R (gets f).
Proof. intros e s. simpl. reflexivity. Qed.

Lemma m_rel_modify (f : E → S → S) : (∀ e s, R e s (f e s)) → m_rel R (modify f).
Proof. intros H e s. apply H. Qed.

Lemma m_rel_bind {A B} (m : M E S A) (k : A → M E S B) :
  m_rel R m → (∀ a, m_rel R (k a)) → m_rel R (m ≫= k).
Proof.
  intros Hm Hk e s. specialize (Hm e s).
  unfold mbind, M_bind. destruct (m e s) as [[a|x] s'] eqn:Em; simpl in *.
  - etransitivity; [exact Hm | apply Hk].
  - exact Hm.
Qed.

Lemma m_rel_unwrap {A} (o : option A) msg : m_rel R (unwrap o msg : M E S A).
Proof. destruct o; [apply m_rel_ret | apply m_rel_panic]. Qed.

Lemma m_rel_err_if c msg : m_rel R (err_if c msg : M E S ()).
Proof. destruct c; [apply m_rel_err | apply m_rel_ret]. Qed.

Lemma m_rel_try {A} (m : M E S A) : m_rel R m → m_rel R (try_ m).
Proof.
  intros Hm e s. specialize (Hm e s). unfold try_.
  by destruct (m e s) as [[a|[]] s'].
Qed.

Lemma m_rel_try_event {A} (m : M E S A) : m_rel R m → m_rel R (try_event m).
Proof.
  intros Hm e s. specialize (Hm e s). unfold try_event.
  by destruct (m e s) as [[a|[]] s'].
Qed.

Lemma m_rel_ignore {A} (m : M E S A) : m_rel R m → m_rel R (ignore m).
Proof. intros Hm. apply m_rel_bind; [by apply m_rel_try | intros; apply m_rel_ret]. Qed.

Lemma m_rel_for {A} (l : list A) (f : A → M E S ()) :
  (∀ a, a ∈ l → m_rel R (f a)) → m_rel R (mfor l f).
Proof.
  induction l as [|x l IH]; intros Hf; simpl; [apply m_rel_ret|].
  apply m_rel_bind; [apply Hf; set_solver|]. intros _. apply IH. set_solver.
Qed.

Lemma m_rel_fold {A B} (l : list A) (acc : B) (f : B → A → M E S B) :
  (∀ b a, a ∈ l → m_rel R (f b a)) → m_rel R (mfold l acc f).
Proof.
  revert acc. induction l as [|x l IH]; intros acc Hf; simpl; [apply m_rel_ret|].
  apply m_rel_bind; [apply Hf; set_solver|]. intros b. apply IH. set_solver.
Qed.
End m_rel.

Lemma m_rel_weaken {E S A} (R R' : E → S → S → Prop) (m : M E S A) :
  (∀ e s s', R e s s' → R' e s s') → m_rel R m → m_rel R' m.
Proof. intros H Hm e s. apply H, Hm. Qed.

(** One syntactic step of an [m_rel] goal: a connective of the monad, a lemma of
    the [mrel] database, or the definition of the operation. *)
Ltac head_of t := lazymatch t with ?f _ => head_of f | _ => t end.

Ltac mrel_leaf :=
  first
    [ solve [eauto with mrel]
    | lazymatch goal with
      | |- m_rel _ (modify _) => fail 1
      | |- m_rel _ (modify_part _ _ _) => fail 1
      | |- m_rel _ ?m => let h := head_of m in progress (unfold h)
      end ].

Ltac mrel_step :=
  lazymatch goal with
  | |- m_rel _ (mret _) => apply m_rel_ret; try typeclasses eauto
  | |- m_rel _ (err _) => apply m_rel_err; try typeclasses eauto
  | |- m_rel _ (err_event _ _) => apply m_rel_err_event; try typeclasses eauto
  | |- m_rel _ (panic _) => apply m_rel_panic; try typeclasses eauto
  | |- m_rel _ (gets _) => apply m_rel_gets; try typeclasses eauto
  | |- m_rel _ (err_if _ _) => apply m_rel_err_if; try typeclasses eauto
  | |- m_rel _ (unwrap _ _) => apply m_rel_unwrap; try typeclasses eauto
  | |- m_rel _ (mbind _ _) => apply m_rel_bind; [try typeclasses eauto | | intros ?]
  | |- m_rel _ (try_ _) => apply m_rel_try
  | |- m_rel _ (try_event _) => apply m_rel_try_event
  | |- m_rel _ (ignore _) => apply m_rel_ignore; [try typeclasses eauto |]
  | |- m_rel _ (mfor _ _) => apply m_rel_for; [try typeclasses eauto | intros ? ?]
  | |- m_rel _ (mfold _ _ _) => apply m_rel_fold; [try typeclasses eauto | intros ? ? ?]
  | |- m_rel _ (if ?c then _ else _) => destruct c eqn:?
  | |- m_rel _ (match ?x with _ => _ end) => destruct x eqn:?
  | |- m_rel _ _ => mrel_leaf
  end.
Ltac mrel := repeat mrel_step.

(** ** What a computation returns

    [m_ret P m]: every result of [m] satisfies [P].  [m_rel_bind_ret] hands the
    fact on to the rest of the computation. *)
Definition m_ret {E S A} (P : A → Prop) (m : M E S A) : Prop :=
  ∀ e s a s', m e s = (Ok a, s') → P a.

Create HintDb mret discriminated.
#[export] Hint Constants Opaque : mret.

Section m_ret.
Context {E S : Type}.

Lemma m_ret_ret {A} (P : A → Prop) (a : A) : P a → m_ret P (mret a : M E S A).
Proof. by intros ? ? ? ? ? [= <- _]. Qed.

Lemma m_ret_err {A} (P : A → Prop) msg : m_ret P (err msg : M E S A).
Proof. done. Qed.

Lemma m_ret_err_event {A} (P : A → Prop) msg ev : m_ret P (err_event msg ev : M E S A).
Proof. done. Qed.

Lemma m_ret_panic {A} (P : A → Prop) msg : m_ret P (panic msg : M E S A).
Proof. done. Qed.

Lemma m_ret_bind {A B} (Q : A → Prop) (P : B → Prop) (m : M E S A) (k : A → M E S B) :
  m_ret Q m → (∀ a, Q a → m_ret P (k a)) → m_ret P (m ≫= k).
Proof.
  intros Hm Hk e s b s'. unfold mbind, M_bind. destruct (m e s) as [[a|x] s1] eqn:Em; [|done].
  apply Hk. by eapply Hm.
Qed.

Lemma m_ret_any {A} (m : M E S A) : m_ret (λ _, True) m.
Proof. done. Qed.

Lemma m_rel_bind_ret {A B} (R : E → S → S → Prop) `{∀ e, PreOrder (R e)} (P : A → Prop)
    (m : M E S A) (k : A → M E S B) :
  m_rel R m → m_ret P m → (∀ a, P a → m_rel R (k a)) → m_rel R (m ≫= k).
Proof.
  intros Hm HP Hk e s. specialize (Hm e s). unfold mbind, M_bind.
  destruct (m e s) as [[a|x] s'] eqn:Em; simpl in *; [|done].
  etransitivity; [exact Hm|]. apply Hk. by eapply HP.
Qed.
End m_ret.

(** [mrets tac] runs through the computation and leaves the facts about what it
    returns, those [tac] solves apart.  Operations with a rule of their own are in
    the [mret] database; a step whose result has the type of the whole may hand on
    the property of the whole. *)
Ltac mrets tac :=
  lazymatch goal with
  | |- m_ret _ (mret _) => apply m_ret_ret; try solve [tac]
  | |- m_ret _ (err _) => apply m_ret_err
  | |- m_ret _ (err_event _ _) => apply m_ret_err_event
  | |- m_ret _ (panic _) => apply m_ret_panic
  | |- m_ret _ (mbind _ _) =>
    first
      [ eapply m_ret_bind; [solve [eauto with mret] | intros ? ?; mrets tac]
      | lazymatch goal with
        | |- m_ret ?P (@mbind _ _ ?A ?A _ _) =>
          apply (m_ret_bind P); [solve [mrets tac] | intros ? ?; solve [mrets tac]]
        end
      | eapply m_ret_bind; [apply m_ret_any | intros ? _; mrets tac] ]
  | |- m_ret _ (if ?c then _ else _) => destruct c; mrets tac
  | |- m_ret _ (match ?x with _ => _ end) => destruct x; mrets tac
  | |- m_ret _ ?m =>
    first [ solve [eauto with mret] | let h := head_of m in progress (unfold h); mrets tac ]
  | |- _ => idtac
  end.

(** Running one handler on a known state: binds reduce step by step. *)
Lemma bind_ok {E S A B} (m : M E S A) (k : A → M E S B) e s a s' :
  m e s = (Ok a, s') → (m ≫= k) e s = k a e s'.
Proof. intros H. unfold mbind, M_bind. by rewrite H. Qed.

Lemma bind_inv_ok {E S A B} (m : M E S A) (k : A → M E S B) e s b s'' :
  (m ≫= k) e s = (Ok b, s'') → ∃ a s', m e s = (Ok a, s') ∧ k a e s' = (Ok b, s'').
Proof.
  unfold mbind, M_bind. destruct (m e s) as [[a|x] s']; intros H; [eauto | done].
Qed.

Lemma gets_eq {E S A} (f : E → S → A) e s : gets f e s = (Ok (f e s), s).
Proof. done. Qed.

Lemma err_if_inv {E S} c msg (e : E) (s s' : S) u :
  err_if c msg e s = (Ok u, s') → c = false ∧ s' = s.
Proof. destruct c; unfold err_if, err, mret, M_ret; naive_solver. Qed.

(** [minv H]: decompose the successful run [H : (x ← m; k) e s = (Ok a, s')]. *)
Ltac minv_step H :=
  lazymatch type of H with
  | (gets _ ≫= _) _ _ = (Ok _, _) => rewrite (bind_ok _ _ _ _ _ _ (gets_eq _ _ _)) in H
  | (err_if _ _ ≫= _) _ _ = (Ok _, _) =>
    let u := fresh "u" in let s1 := fresh "s" in let H1 := fresh "Hg" in
    apply bind_inv_ok in H as (u & s1 & H1 & H);
    apply err_if_inv in H1 as [H1 ->]
  | (err _) _ _ = (Ok _, _) => discriminate H
  | (if ?c then _ else _) _ _ = (Ok _, _) => let Hc := fresh "Hc" in destruct c eqn:Hc
  | (match ?x with _ => _ end) _ _ = (Ok _, _) =>
    let Hx := fresh "Hx" in destruct x eqn:Hx; try discriminate H
  end.
Ltac minv H := repeat (minv_step H).

(** ** Weakest preconditions

    [wp m e s Q]: the run of [m] from [s] ends in a result and a state that
    satisfy [Q].  There is no divergence, so this is total correctness. *)
Definition wp {E S A} (m : M E S A) (e : E) (s : S) (Q : res A → S → Prop) : Prop :=
  Q (m e s).1 (m e s).2.

Section wp.
Context {E S : Type}.
Implicit Types (e : E) (s : S).

Lemma wp_ret {A} (a : A) e s (Q : res A → S → Prop) : Q (Ok a) s → wp (mret a) e s Q.
Proof. done. Qed.

Lemma wp_err {A} msg e s (Q : res A → S → Prop) : Q (Err (Msg msg)) s → wp (err msg) e s Q.
Proof. done. Qed.

Lemma wp_err_event {A} msg ev e s (Q : res A → S → Prop) :
  Q (Err (MsgEvent msg ev)) s → wp (err_event msg ev) e s Q.
Proof. done. Qed.

Lemma wp_panic {A} msg e s (Q : res A → S → Prop) : Q (Err (Panic msg)) s → wp (panic msg) e s Q.
Proof. done. Qed.

Lemma wp_gets {A} (f : E → S → A) e s (Q : res A → S → Prop) :
  Q (Ok (f e s)) s → wp (gets f) e s Q.
Proof. done. Qed.

Lemma wp_bind {A B} (m : M E S A) (k : A → M E S B) e s (Q : res B → S → Prop) :
  wp m e s (λ r s', match r with Ok a => wp (k a) e s' Q | Err x => Q (Err x) s' end) →
  wp (m ≫= k) e s Q.
Proof. unfold wp, mbind, M_bind. by destruct (m e s) as [[a|x] s']. Qed.

Lemma wp_err_if c msg e s (Q : res () → S → Prop) :
  (c = true → Q (Err (Msg msg)) s) → (c = false → Q (Ok ()) s) → wp (err_if c msg) e s Q.
Proof. destruct c; unfold wp; simpl; auto. Qed.

Lemma wp_unwrap {A} (o : option A) msg e s (Q : res A → S → Prop) :
  (o = None → Q (Err (Panic msg)) s) → (∀ a, o = Some a → Q (Ok a) s) →
  wp (unwrap o msg) e s Q.
Proof. destruct o; unfold wp; simpl; auto. Qed.

Lemma wp_try {A} (m : M E S A) e s (Q : res (string + A) → S → Prop) :
  wp m e s (λ r s', match r with
                    | Ok a => Q (Ok (inr a)) s'
                    | Err (Msg x) | Err (MsgEvent x _) => Q (Ok (inl x)) s'
                    | Err (Panic x) => Q (Err (Panic x)) s'
                    end) →
  wp (try_ m) e s Q.
Proof. unfold wp, try_. by destruct (m e s) as [[a|[]] s']. Qed.

Lemma wp_try_event {A} (m : M E S A) e s (Q : res (string * option Z + A) → S → Prop) :
  wp m e s (λ r s', match r with
                    | Ok a => Q (Ok (inr a)) s'
                    | Err (Msg x) => Q (Ok (inl (x, None))) s'
                    | Err (MsgEvent x ev) => Q (Ok (inl (x, Some ev))) s'
                    | Err (Panic x) => Q (Err (Panic x)) s'
                    end) →
  wp (try_event m) e s Q.
Proof. unfold wp, try_event. by destruct (m e s) as [[a|[]] s']. Qed.

(** A sub-computation of which only its effect on the state is known. *)
Lemma wp_rel {A} R (m : M E S A) e s (Q : res A → S → Prop) :
  m_rel R m → (∀ r s', R e s s' → Q r s') → wp m e s Q.
Proof. intros Hm HQ. apply HQ, Hm. Qed.

Lemma wp_mono {A} (m : M E S A) e s (Q Q' : res A → S → Prop) :
  wp m e s Q → (∀ r s', Q r s' → Q' r s') → wp m e s Q'.
Proof. unfold wp. auto. Qed.

Lemma wp_and {A} (m : M E S A) e s (Q Q' : res A → S → Prop) :
  wp m e s Q → wp m e s Q' → wp m e s (λ r s', Q r s' ∧ Q' r s').
Proof. unfold wp. auto. Qed.

(** A loop keeps what each of its rounds keeps, an early error included. *)
Lemma wp_for {A} (I : S → Prop) (l : list A) (f : A → M E S ()) e s :
  I s → (∀ a s, a ∈ l → I s → wp (f a) e s (λ _ s', I s')) →
  wp (mfor l f) e s (λ _ s', I s').
Proof.
  revert s. induction l as [|x l IH]; intros s Hs Hf; simpl; [done|].
  apply wp_bind. eapply wp_mono; [apply Hf; [set_solver | done]|].
  intros [u|y] s' Hs'; [|done]. apply IH; [done|]. intros. apply Hf; [set_solver | done].
Qed.

(** A loop whose rounds all succeed succeeds. *)
Lemma wp_for_ok {A} (I : S → Prop) (l : list A) (f : A → M E S ()) e s :
  I s → (∀ a s, a ∈ l → I s → wp (f a) e s (λ r s', r = Ok () ∧ I s')) →
  wp (mfor l f) e s (λ r s', r = Ok () ∧ I s').
Proof.
  revert s. induction l as [|x l IH]; intros s Hs Hf; simpl; [done|].
  apply wp_bind. eapply wp_mono; [apply Hf; [set_solver | done]|].
  intros r s' [-> Hs']. apply IH; [done|]. intros. apply Hf; [set_solver | done].
Qed.

Lemma wp_fold {A B} (I : B → S → Prop) (J : S → Prop) (l : list A) (acc : B)
    (f : B → A → M E S B) e s :
  I acc s → (∀ b s, I b s → J s) →
  (∀ b a s, a ∈ l → I b s →
     wp (f b a) e s (λ r s', match r with Ok b' => I b' s' | Err _ => J s' end)) →
  wp (mfold l acc f) e s (λ r s', match r with Ok b => I b s' | Err _ => J s' end).
Proof.
  revert acc s. induction l as [|x l IH]; intros acc s Hs HJ Hf; simpl; [done|].
  apply wp_bind. eapply wp_mono; [apply Hf; [set_solver | done]|].
  intros [b|y] s' Hs'; [|done]. apply IH; [done..|]. intros. apply Hf; [set_solver | done].
Qed.
End wp.


(** One step of a [wp] goal.  Operations with their own rule are in the [wp]
    database; the others are unfolded with [wunf]. *)
Ltac wp_step :=
  lazymatch goal with
  | |- wp (mret _) _ _ _ => apply wp_ret
  | |- wp (err _) _ _ _ => apply wp_err
  | |- wp (err_event _ _) _ _ _ => apply wp_err_event
  | |- wp (panic _) _ _ _ => apply wp_panic
  | |- wp (gets _) _ _ _ => apply wp_gets
  | |- wp (mbind _ _) _ _ _ => apply wp_bind
  | |- wp (err_if _ _) _ _ _ => apply wp_err_if; intros ?
  | |- wp (unwrap _ _) _ _ _ => apply wp_unwrap; [intros ? | intros ? ?]
  | |- wp (try_ _) _ _ _ => apply wp_try
  | |- wp (try_event _) _ _ _ => apply wp_try_event
  | |- wp (if ?c then _ else _) _ _ _ => destruct c eqn:?
  | |- wp (match ?x with _ => _ end) _ _ _ => destruct x eqn:?
  | |- wp (let '(_, _) := ?x in _) _ _ _ => destruct x eqn:?
  end; cbv beta iota.

(** ** Computations that cannot fail *)
Definition succeeds {E S A} (m : M E S A) : Prop := ∀ e s, is_ok (m e s).1 = true.

Create HintDb succeeds discriminated.
#[export] Hint Constants Opaque : succeeds.

Section succeeds.
Context {E S : Type}.

Lemma succeeds_ret {A} (a : A) : succeeds (mret a : M E S A).
Proof. done. Qed.

Lemma succeeds_gets {A} (f : E → S → A) : succeeds (gets f).
Proof. done. Qed.

Lemma succeeds_modify (f : E → S → S) : succeeds (modify f).
Proof. done. Qed.

Lemma succeeds_bind {A B} (m : M E S A) (k : A → M E S B) :
  succeeds m → (∀ a, succeeds (k a)) → succeeds (m ≫= k).
Proof.
  intros Hm Hk e s. specialize (Hm e s). unfold mbind, M_bind.
  destruct (m e s) as [[a|x] s']; [apply Hk | done].
Qed.

Lemma succeeds_try {A} (m : M E S A) : succeeds m → succeeds (try_ m).
Proof. intros Hm e s. specialize (Hm e s). unfold try_. by destruct (m e s) as [[a|[]] s']. Qed.

Lemma succeeds_for {A} (l : list A) (f : A → M E S ()) : (∀ a, succeeds (f a)) → succeeds (mfor l f).
Proof.
  intros Hf. induction l as [|x l IH]; [apply succeeds_ret|]. simpl. apply succeeds_bind; auto.
Qed.

Lemma wp_succeeds {A} (m : M E S A) e s (Q : res A → S → Prop) :
  succeeds m → wp m e s (λ r s', ∀ a, r = Ok a → Q (Ok a) s') → wp m e s Q.
Proof.
  unfold wp. intros Hm HQ. specialize (Hm e s).
  destruct (m e s) as [[a|x] s']; simpl in *; [auto | done].
Qed.
End succeeds.

Ltac succeeds_step :=
  lazymatch goal with
  | |- succeeds (mret _) => apply succeeds_ret
  | |- succeeds (gets _) => apply succeeds_gets
  | |- succeeds (modify _) => apply succeeds_modify
  | |- succeeds (modify_part _ _ _) => apply succeeds_modify
  | |- succeeds (mbind _ _) => apply succeeds_bind; [| intros ?]
  | |- succeeds (try_ _) => apply succeeds_try
  | |- succeeds (mfor _ _) => apply succeeds_for; intros ?
  | |- succeeds (if ?c then _ else _) => destruct c
  | |- succeeds (match ?x with _ => _ end) => destruct x
  | |- succeeds ?m => first [ solve [eauto with succeeds] | let h := head_of m in progress (unfold h) ]
  end.
Ltac succeeds := repeat succeeds_step.
