(* ===== verification/Table.v ===== *)
(** The relational layer: what the Diesel queries of src/src/db/models use.

    A table is the list of its rows.  [upsert] is the save of a struct (a
    [REPLACE INTO] on sqlite and mysql, an [ON CONFLICT (pk) DO UPDATE] on
    postgresql): the row with the same primary key is replaced.  [sel] is a
    [filter(..).load()], [first_row] a [filter(..).first().ok()], [count] a
    [filter(..).count()], [delete_where] a [diesel::delete(..)],
    [update_where] a [diesel::update(..).set(..)]; [inner_join] and
    [left_join] are the joins, the missing right row of a left join being
    [None] (all its columns NULL). *)
From S2P Require Import Prelude.

(** A condition on the columns of a left-joined row: not true when the row is
    missing (a comparison with NULL). *)
Definition on_row {A} (o : option A) (p : A → bool) : bool :=
  match o with Some a => p a | None => false end.

Lemma on_row_true {A} (o : option A) p : on_row o p = true ↔ ∃ a, o = Some a ∧ p a = true.
Proof. destruct o; simpl; naive_solver. Qed.
#[export] Hint Rewrite @on_row_true : vwbool.

(** The primary key of a row type. *)
Class Keyed (R K : Type) := pk : R → K.
#[export] Hint Mode Keyed + - : typeclass_instances.

Section queries.
Context {R : Type}.

Definition sel (p : R → bool) (t : list R) : list R := List.filter p t.
Definition first_row (p : R → bool) (t : list R) : option R := head (sel p t).
Definition exists_row (p : R → bool) (t : list R) : bool := negb (is_empty (sel p t)).
Definition count (p : R → bool) (t : list R) : Z := Z.of_nat (length (sel p t)).
Definition delete_where (p : R → bool) (t : list R) : list R := sel (λ r, negb (p r)) t.
Definition update_where (p : R → bool) (f : R → R) (t : list R) : list R :=
  map (λ r, if p r then f r else r) t.

Definition inner_join {B} (on : R → B → bool) (t : list R) (u : list B) : list (R * B) :=
  flat_map (λ a, map (pair a) (List.filter (on a) u)) t.

Definition left_join {B} (on : R → B → bool) (t : list R) (u : list B) : list (R * option B) :=
  flat_map (λ a, match List.filter (on a) u with
                 | [] => [(a, None)]
                 | bs => map (λ b, (a, Some b)) bs
                 end) t.

(** [SELECT DISTINCT] *)
Definition distinct `{EqDecision R} (t : list R) : list R := remove_dups t.

Lemma elem_of_sel p t x : x ∈ sel p t ↔ p x = true ∧ x ∈ t.
Proof. unfold sel. rewrite !list_elem_of_In, List.filter_In. tauto. Qed.

Lemma elem_of_distinct `{EqDecision R} t x : x ∈ distinct t ↔ x ∈ t.
Proof. apply elem_of_remove_dups. Qed.

Lemma sel_app p t u : sel p (t ++ u) = sel p t ++ sel p u.
Proof. apply List.filter_app. Qed.

Lemma first_row_Some p t x : first_row p t = Some x → p x = true ∧ x ∈ t.
Proof.
  unfold first_row. intros H. apply elem_of_sel.
  destruct (sel p t); simplify_eq/=. set_solver.
Qed.

Lemma first_row_None p t : first_row p t = None ↔ ∀ x, x ∈ t → p x = false.
Proof.
  unfold first_row. split.
  - intros H x Hx. destruct (p x) eqn:Hp; [|done].
    assert (x ∈ sel p t) by by apply elem_of_sel.
    destruct (sel p t); [set_solver | done].
  - intros H. destruct (sel p t) as [|x l] eqn:E; [done|].
    assert (x ∈ sel p t) as [? ?]%elem_of_sel by (rewrite E; set_solver).
    rewrite H in *; naive_solver.
Qed.

Lemma first_row_is_Some p t : is_Some (first_row p t) ↔ ∃ x, x ∈ t ∧ p x = true.
Proof.
  split.
  - intros [x [? ?]%first_row_Some]. eauto.
  - intros (x & Hx & Hp). destruct (first_row p t) as [y|] eqn:E; [eauto|].
    rewrite first_row_None in E. rewrite E in Hp; done.
Qed.

Lemma exists_row_true p t : exists_row p t = true ↔ ∃ x, x ∈ t ∧ p x = true.
Proof.
  unfold exists_row. rewrite negb_true_iff, is_empty_false.
  setoid_rewrite elem_of_sel. naive_solver.
Qed.

Lemma exists_row_false p t : exists_row p t = false ↔ ∀ x, x ∈ t → p x = false.
Proof.
  rewrite <-not_true_iff_false, exists_row_true. split.
  - intros H x Hx. destruct (p x) eqn:?; naive_solver.
  - intros H (x & Hx & Hp). rewrite H in Hp; done.
Qed.

Lemma count_nonneg p t : (0 ≤ count p t)%Z.
Proof. unfold count. lia. Qed.

Lemma count_pos p t : (0 < count p t)%Z ↔ ∃ x, x ∈ t ∧ p x = true.
Proof.
  rewrite <-exists_row_true. unfold count, exists_row.
  destruct (sel p t); simpl; split; try done; lia.
Qed.

Lemma count_zero p t : (count p t = 0)%Z ↔ ∀ x, x ∈ t → p x = false.
Proof.
  rewrite <-exists_row_false. unfold count, exists_row.
  destruct (sel p t); simpl; split; try done; lia.
Qed.

Lemma elem_of_delete_where p t x : x ∈ delete_where p t ↔ x ∈ t ∧ p x = false.
Proof. unfold delete_where. rewrite elem_of_sel, negb_true_iff. tauto. Qed.

Lemma elem_of_update_where p f t x :
  x ∈ update_where p f t ↔ ∃ y, y ∈ t ∧ x = (if p y then f y else y).
Proof.
  unfold update_where. rewrite list_elem_of_In, in_map_iff.
  setoid_rewrite list_elem_of_In. naive_solver.
Qed.

Lemma sel_ext p q t : (∀ x, x ∈ t → p x = q x) → sel p t = sel q t.
Proof.
  intros H. unfold sel. apply List.filter_ext_in. intros x Hx.
  apply H. by apply list_elem_of_In.
Qed.

Lemma delete_where_none p t : (∀ x, x ∈ t → p x = false) → delete_where p t = t.
Proof.
  intros H. unfold delete_where, sel. induction t as [|x t IH]; simpl; [done|].
  rewrite H by set_solver. simpl. rewrite IH; [done | set_solver].
Qed.

Lemma delete_where_ext p q t :
  (∀ x, x ∈ t → p x = q x) → delete_where p t = delete_where q t.
Proof. intros H. apply sel_ext. intros x Hx. by rewrite H. Qed.

Lemma delete_where_twice p q t :
  delete_where p (delete_where q t) = delete_where (λ x, q x || p x) t.
Proof.
  unfold delete_where, sel. induction t as [|x t IH]; simpl; [done|].
  destruct (q x); simpl; [done|]. destruct (p x); simpl; by rewrite IH.
Qed.

Lemma delete_where_fmap {K} (key : R → K) p t :
  sublist (map key (delete_where p t)) (map key t).
Proof.
  unfold delete_where, sel. induction t as [|x t IH]; simpl; [done|].
  destruct (p x); simpl; by constructor.
Qed.

Lemma update_where_fmap {K} (key : R → K) p f t :
  (∀ x, key (f x) = key x) → map key (update_where p f t) = map key t.
Proof.
  intros H. unfold update_where. rewrite map_map. apply map_ext.
  intros x. by destruct (p x).
Qed.
End queries.

Section joins.
Context {A B : Type}.
Implicit Types (t : list A) (u : list B).

Lemma elem_of_inner_join on t u (a : A) (b : B) :
  (a, b) ∈ inner_join on t u ↔ a ∈ t ∧ b ∈ u ∧ on a b = true.
Proof.
  unfold inner_join. rewrite !list_elem_of_In, in_flat_map.
  setoid_rewrite in_map_iff. setoid_rewrite filter_In. naive_solver.
Qed.

Lemma elem_of_left_join_Some on t u (a : A) (b : B) :
  (a, Some b) ∈ left_join on t u ↔ a ∈ t ∧ b ∈ u ∧ on a b = true.
Proof.
  unfold left_join. rewrite !list_elem_of_In, in_flat_map. split.
  - intros (x & Hx & Hin).
    assert (In (a, Some b) (map (λ b, (x, Some b)) (List.filter (on x) u))) as Hin'.
    { destruct (List.filter (on x) u); [naive_solver | done]. }
    apply in_map_iff in Hin' as (b' & [= <- <-] & [? ?]%filter_In). naive_solver.
  - intros (Ha & Hb & Hon). exists a. split; [done|].
    assert (In (a, Some b) (map (λ b, (a, Some b)) (List.filter (on a) u))) as Hin'.
    { apply in_map_iff. exists b. split; [done|]. by apply filter_In. }
    destruct (List.filter (on a) u); [destruct Hin' | done].
Qed.

Lemma elem_of_left_join_None on t u (a : A) :
  (a, None) ∈ left_join on t u ↔ a ∈ t ∧ ∀ b, b ∈ u → on a b = false.
Proof.
  unfold left_join. rewrite !list_elem_of_In, in_flat_map. split.
  - intros (x & Hx & Hin). destruct (List.filter (on x) u) as [|b l] eqn:Ef.
    + destruct Hin as [[= <-]|[]]. split; [done|]. intros b Hb.
      destruct (on x b) eqn:?; [|done].
      assert (In b (List.filter (on x) u)) as Hf.
      { apply filter_In. by rewrite list_elem_of_In in Hb. }
      by rewrite Ef in Hf.
    + apply in_map_iff in Hin. naive_solver.
  - intros (Ha & Hn). exists a. split; [done|].
    destruct (List.filter (on a) u) as [|b l] eqn:Ef; [by left|].
    assert (In b (List.filter (on a) u)) as [? ?]%filter_In by (rewrite Ef; by left).
    rewrite Hn in *; [done | by apply list_elem_of_In].
Qed.

(** A left join keeps every left row. *)
Lemma left_join_total on t u (a : A) :
  a ∈ t → ∃ ob, (a, ob) ∈ left_join on t u.
Proof.
  intros Ha. destruct (exists_row (on a) u) eqn:E.
  - apply exists_row_true in E as (b & ? & ?).
    exists (Some b). by apply elem_of_left_join_Some.
  - exists None. apply elem_of_left_join_None. split; [done|].
    by apply exists_row_false.
Qed.

Lemma elem_of_left_join_l on t u (a : A) ob : (a, ob) ∈ left_join on t u → a ∈ t.
Proof.
  destruct ob.
  - by intros [? _]%elem_of_left_join_Some.
  - by intros [? _]%elem_of_left_join_None.
Qed.
End joins.

(** A key that is unique in a table determines the row. *)
Lemma NoDup_map_inj {R K} (f : R → K) (t : list R) x y :
  NoDup (map f t) → x ∈ t → y ∈ t → f x = f y → x = y.
Proof.
  intros Hnd Hx Hy Heq. induction t as [|z t IH]; [set_solver|].
  simpl in Hnd. apply NoDup_cons in Hnd as [Hz Hnd].
  assert (∀ w, w ∈ t → f w ≠ f z) as Hne.
  { intros w Hw E. apply Hz. rewrite <-E, list_elem_of_In. apply in_map.
    by apply list_elem_of_In. }
  apply elem_of_cons in Hx as [->|Hx]; apply elem_of_cons in Hy as [->|Hy]; try done.
  - by destruct (Hne y Hy).
  - by destruct (Hne x Hx).
  - auto.
Qed.

Lemma elem_of_map {R K} (f : R → K) (t : list R) k : k ∈ map f t ↔ ∃ x, x ∈ t ∧ k = f x.
Proof.
  rewrite list_elem_of_In, in_map_iff. setoid_rewrite list_elem_of_In. naive_solver.
Qed.

Lemma NoDup_map_snoc {R K} (f : R → K) (t : list R) x :
  NoDup (map f t) → (∀ y, y ∈ t → f y ≠ f x) → NoDup (map f (t ++ [x])).
Proof.
  intros Hnd Hne. rewrite map_app. apply NoDup_app. split_and!; [done| |apply NoDup_singleton].
  intros k Hk ->%list_elem_of_singleton. apply elem_of_map in Hk as (y & Hy & E).
  by destruct (Hne y Hy).
Qed.

Section keyed.
Context `{Keyed R K, !EqDecision K}.
Implicit Types (t : list R) (r : R).

Definition same_pk (r : R) : R → bool := λ x, bool_decide (pk x = pk r).
Definition upsert (r : R) (t : list R) : list R := delete_where (same_pk r) t ++ [r].
Definition delete_pk (r : R) (t : list R) : list R := delete_where (same_pk r) t.

(** Primary keys are unique. *)
Definition pk_unique (t : list R) : Prop := NoDup (map pk t).

Lemma elem_of_upsert r t x : x ∈ upsert r t ↔ x = r ∨ (x ∈ t ∧ pk x ≠ pk r).
Proof.
  unfold upsert. rewrite elem_of_app, elem_of_delete_where, list_elem_of_singleton.
  unfold same_pk. rewrite bool_decide_eq_false. naive_solver.
Qed.

Lemma elem_of_delete_pk r t x : x ∈ delete_pk r t ↔ x ∈ t ∧ pk x ≠ pk r.
Proof.
  unfold delete_pk. rewrite elem_of_delete_where. unfold same_pk.
  by rewrite bool_decide_eq_false.
Qed.

Lemma pk_unique_inj t x y : pk_unique t → x ∈ t → y ∈ t → pk x = pk y → x = y.
Proof. apply NoDup_map_inj. Qed.

Lemma pk_unique_delete_where p t : pk_unique t → pk_unique (delete_where p t).
Proof. intros Hnd. eapply sublist_NoDup; [exact Hnd | apply delete_where_fmap]. Qed.

Lemma pk_unique_update_where p f t :
  (∀ x, pk (f x) = pk x) → pk_unique t → pk_unique (update_where p f t).
Proof. intros Hf. unfold pk_unique. by rewrite update_where_fmap. Qed.

Lemma pk_unique_upsert r t : pk_unique t → pk_unique (upsert r t).
Proof.
  intros Hnd. apply NoDup_map_snoc; [by apply pk_unique_delete_where|].
  intros y [_ Hy]%elem_of_delete_pk. done.
Qed.

(** A second key [f] stays unique when a row is replaced by one with the same
    [f], or when a row with a new [f] is added. *)
Lemma NoDup_map_upsert {L} (f : R → L) r t :
  NoDup (map f t) → (∀ y, y ∈ t → f y = f r → pk y = pk r) → NoDup (map f (upsert r t)).
Proof.
  intros Hnd Hf. apply NoDup_map_snoc.
  - eapply sublist_NoDup; [exact Hnd | apply delete_where_fmap].
  - intros y [Hy Hne]%elem_of_delete_pk E. by apply Hne, Hf.
Qed.

(** Deleting, one by one, the rows a query found is deleting by the query. *)
Lemma delete_found (q : R → bool) t :
  pk_unique t →
  delete_where (λ x, existsb (λ r, bool_decide (pk x = pk r)) (sel q t)) t = delete_where q t.
Proof.
  intros Hnd. apply delete_where_ext. intros x Hx.
  apply eq_true_iff_eq. rewrite existsb_exists. split.
  - intros (r & Hr & E%bool_decide_eq_true). apply list_elem_of_In, elem_of_sel in Hr as [Hq Hr].
    by rewrite (pk_unique_inj t x r).
  - intros Hq. exists x. rewrite bool_decide_eq_true, <-list_elem_of_In, elem_of_sel. done.
Qed.

(** Two rows of a table that both match are two different keys: a count
    above one leaves a match after any single key is removed. *)
Lemma count_two p t r :
  pk_unique t → (1 < count p t)%Z → ∃ x, x ∈ t ∧ p x = true ∧ pk x ≠ pk r.
Proof.
  intros Hnd Hc.
  assert (pk_unique (sel p t)) as Hs.
  { replace (sel p t) with (delete_where (λ x, negb (p x)) t).
    - by apply pk_unique_delete_where.
    - apply sel_ext. intros. apply negb_involutive. }
  unfold count in Hc. unfold pk_unique in Hs.
  destruct (sel p t) as [|x [|y l]] eqn:E; simpl in Hc; [lia|lia|].
  assert (x ∈ sel p t) as [? ?]%elem_of_sel by (rewrite E; set_solver).
  assert (y ∈ sel p t) as [? ?]%elem_of_sel by (rewrite E; set_solver).
  simpl in Hs. apply NoDup_cons in Hs as [Hs _].
  destruct (decide (pk x = pk r)) as [Ex|]; [|eauto].
  exists y. split_and!; [done|done|]. rewrite <-Ex. set_solver.
Qed.
End keyed.

#[export] Hint Resolve pk_unique_upsert pk_unique_delete_where : mrel.

(** Rows that a change of other rows leaves in place. *)
Lemma sel_delete_where {R} (p q : R → bool) (t : list R) :
  (∀ x, x ∈ t → q x = true → p x = false) → sel p (delete_where q t) = sel p t.
Proof.
  unfold delete_where, sel. induction t as [|x t IH]; intros Hq; simpl; [done|].
  destruct (q x) eqn:Eq; simpl.
  - rewrite (Hq x) by (done || set_solver). apply IH. set_solver.
  - destruct (p x); [f_equal|]; apply IH; set_solver.
Qed.

Lemma sel_upsert {R K} `{Keyed R K} `{EqDecision K} (p : R → bool) r (t : list R) :
  (∀ x, x ∈ t → pk x = pk r → p x = false) → p r = false → sel p (upsert r t) = sel p t.
Proof.
  intros Hp Hr. unfold upsert. rewrite sel_app, sel_delete_where.
  - unfold sel at 2. simpl. by rewrite Hr, app_nil_r.
  - intros x Hx E. apply Hp; [done|]. unfold same_pk in E. by apply bool_decide_eq_true in E.
Qed.
