(* ===== verification/Schema.v ===== *)
(** The rows, the database, the environment and the world of the server.

    Every struct of src/src/db/models that the modelled code stores is a
    record with the struct's fields under a short prefix ([m_status] is
    [Membership.status]); [Db] is the database, one list of rows per table of
    src/src/db/schema.rs.  Ids are strings, [i32]/[i64] are [Z], a
    [NaiveDateTime] is its UTC timestamp in seconds as a [Z], a [Vec<u8>] is a
    string of 8-bit characters.  [Env] is what a handler reads and does not
    change: the configuration, the clock, and the services of crates that are
    not part of the repository (UUID generation, SMTP, object storage, Unicode
    case mapping, JSON parsing), as parameters.  [World] is what it changes:
    the database, the number of UUIDs drawn, and the messages sent out. *)
From S2P Require Import Prelude Table.

Abbreviation UserId := string (only parsing).
Abbreviation OrganizationId := string (only parsing).
Abbreviation MembershipId := string (only parsing).
Abbreviation CollectionId := string (only parsing).
Abbreviation CipherId := string (only parsing).
Abbreviation GroupId := string (only parsing).
Abbreviation DeviceId := string (only parsing).
Abbreviation FolderId := string (only parsing).
Abbreviation NaiveDateTime := Z (only parsing).

(** ** Rows *)

(** src/src/db/models/user.rs: User *)
Record User := mkUser {
  u_uuid : UserId;
  u_enabled : bool;
  u_created_at : NaiveDateTime;
  u_updated_at : NaiveDateTime;
  u_verified_at : option NaiveDateTime;
  u_last_verifying_at : option NaiveDateTime;
  u_login_verify_count : Z;
  u_email : string;
  u_email_new : option string;
  u_email_new_token : option string;
  u_name : string;
  u_password_hash : string;
  u_salt : string;
  u_password_iterations : Z;
  u_password_hint : option string;
  u_akey : string;
  u_private_key : option string;
  u_public_key : option string;
  u_totp_secret : option string;
  u_totp_recover : option string;
  u_security_stamp : string;
  u_stamp_exception : option string;
  u_equivalent_domains : string;
  u_excluded_globals : string;
  u_client_kdf_type : Z;
  u_client_kdf_iter : Z;
  u_client_kdf_memory : option Z;
  u_client_kdf_parallelism : option Z;
  u_api_key : option string;
  u_avatar_color : option string;
  u_external_id : option string }.

#[export] Instance User_eta : Etable User := λ u,
  mkUser (u_uuid u) (u_enabled u) (u_created_at u) (u_updated_at u) (u_verified_at u)
    (u_last_verifying_at u) (u_login_verify_count u) (u_email u) (u_email_new u)
    (u_email_new_token u) (u_name u) (u_password_hash u) (u_salt u)
    (u_password_iterations u) (u_password_hint u) (u_akey u) (u_private_key u)
    (u_public_key u) (u_totp_secret u) (u_totp_recover u) (u_security_stamp u)
    (u_stamp_exception u) (u_equivalent_domains u) (u_excluded_globals u)
    (u_client_kdf_type u) (u_client_kdf_iter u) (u_client_kdf_memory u)
    (u_client_kdf_parallelism u) (u_api_key u) (u_avatar_color u) (u_external_id u).

(** src/src/db/models/user.rs: Invitation *)
Record Invitation := mkInvitation { inv_email : string }.

(** src/src/db/models/organization.rs: Organization *)
Record Organization := mkOrganization {
  o_uuid : OrganizationId;
  o_name : string;
  o_billing_email : string;
  o_private_key : option string;
  o_public_key : option string }.

#[export] Instance Organization_eta : Etable Organization := λ o,
  mkOrganization (o_uuid o) (o_name o) (o_billing_email o) (o_private_key o) (o_public_key o).

(** src/src/db/models/organization.rs: Membership *)
Record Membership := mkMembership {
  m_uuid : MembershipId;
  m_user_uuid : UserId;
  m_org_uuid : OrganizationId;
  m_invited_by_email : option string;
  m_access_all : bool;
  m_akey : string;
  m_status : Z;
  m_atype : Z;
  m_reset_password_key : option string;
  m_external_id : option string }.

#[export] Instance Membership_eta : Etable Membership := λ m,
  mkMembership (m_uuid m) (m_user_uuid m) (m_org_uuid m) (m_invited_by_email m)
    (m_access_all m) (m_akey m) (m_status m) (m_atype m) (m_reset_password_key m)
    (m_external_id m).

(** src/src/db/models/organization.rs: OrganizationApiKey *)
Record OrganizationApiKey := mkOrganizationApiKey {
  ak_uuid : string;
  ak_org_uuid : OrganizationId;
  ak_atype : Z;
  ak_api_key : string;
  ak_revision_date : NaiveDateTime }.

(** src/src/db/models/collection.rs: Collection *)
Record Collection := mkCollection {
  c_uuid : CollectionId;
  c_org_uuid : OrganizationId;
  c_name : string;
  c_external_id : option string }.

(** src/src/db/models/collection.rs: CollectionUser *)
Record CollectionUser := mkCollectionUser {
  cu_user_uuid : UserId;
  cu_collection_uuid : CollectionId;
  cu_read_only : bool;
  cu_hide_passwords : bool;
  cu_manage : bool }.

(** src/src/db/models/collection.rs: CollectionCipher *)
Record CollectionCipher := mkCollectionCipher {
  cc_cipher_uuid : CipherId;
  cc_collection_uuid : CollectionId }.

(** src/src/db/models/group.rs: Group *)
Record Group := mkGroup {
  g_uuid : GroupId;
  g_organizations_uuid : OrganizationId;
  g_name : string;
  g_access_all : bool;
  g_external_id : option string;
  g_creation_date : NaiveDateTime;
  g_revision_date : NaiveDateTime }.

#[export] Instance Group_eta : Etable Group := λ g,
  mkGroup (g_uuid g) (g_organizations_uuid g) (g_name g) (g_access_all g) (g_external_id g)
    (g_creation_date g) (g_revision_date g).

(** src/src/db/models/group.rs: CollectionGroup *)
Record CollectionGroup := mkCollectionGroup {
  cg_collections_uuid : CollectionId;
  cg_groups_uuid : GroupId;
  cg_read_only : bool;
  cg_hide_passwords : bool;
  cg_manage : bool }.

(** src/src/db/models/group.rs: GroupUser *)
Record GroupUser := mkGroupUser {
  gu_groups_uuid : GroupId;
  gu_users_organizations_uuid : MembershipId }.

(** src/src/db/models/cipher.rs: Cipher *)
Record Cipher := mkCipher {
  ci_uuid : CipherId;
  ci_created_at : NaiveDateTime;
  ci_updated_at : NaiveDateTime;
  ci_user_uuid : option UserId;
  ci_organization_uuid : option OrganizationId;
  ci_key : option string;
  ci_atype : Z;
  ci_name : string;
  ci_notes : option string;
  ci_fields : option string;
  ci_data : string;
  ci_password_history : option string;
  ci_deleted_at : option NaiveDateTime;
  ci_reprompt : option Z }.

#[export] Instance Cipher_eta : Etable Cipher := λ c,
  mkCipher (ci_uuid c) (ci_created_at c) (ci_updated_at c) (ci_user_uuid c)
    (ci_organization_uuid c) (ci_key c) (ci_atype c) (ci_name c) (ci_notes c) (ci_fields c)
    (ci_data c) (ci_password_history c) (ci_deleted_at c) (ci_reprompt c).

(** src/src/db/models/folder.rs: Folder *)
Record Folder := mkFolder {
  f_uuid : FolderId;
  f_created_at : NaiveDateTime;
  f_updated_at : NaiveDateTime;
  f_user_uuid : UserId;
  f_name : string }.

#[export] Instance Folder_eta : Etable Folder := λ f,
  mkFolder (f_uuid f) (f_created_at f) (f_updated_at f) (f_user_uuid f) (f_name f).

(** src/src/db/models/folder.rs: FolderCipher *)
Record FolderCipher := mkFolderCipher {
  fc_cipher_uuid : CipherId;
  fc_folder_uuid : FolderId }.

(** src/src/db/models/attachment.rs: Attachment *)
Record Attachment := mkAttachment {
  at_id : string;
  at_cipher_uuid : CipherId;
  at_file_name : string;
  at_file_size : Z;
  at_akey : option string }.

#[export] Instance Attachment_eta : Etable Attachment := λ a,
  mkAttachment (at_id a) (at_cipher_uuid a) (at_file_name a) (at_file_size a) (at_akey a).

(** src/src/db/models/favorite.rs: Favorite *)
Record Favorite := mkFavorite {
  fav_user_uuid : UserId;
  fav_cipher_uuid : CipherId }.

(** src/src/db/models/archive.rs: Archive *)
Record Archive := mkArchive {
  ar_user_uuid : UserId;
  ar_cipher_uuid : CipherId;
  ar_archived_at : NaiveDateTime }.

(** src/src/db/models/send.rs: Send *)
Record Send := mkSend {
  s_uuid : string;
  s_user_uuid : option UserId;
  s_organization_uuid : option OrganizationId;
  s_name : string;
  s_notes : option string;
  s_atype : Z;
  s_data : string;
  s_akey : string;
  s_password_hash : option string;
  s_password_salt : option string;
  s_password_iter : option Z;
  s_max_access_count : option Z;
  s_access_count : Z;
  s_creation_date : NaiveDateTime;
  s_revision_date : NaiveDateTime;
  s_expiration_date : option NaiveDateTime;
  s_deletion_date : NaiveDateTime;
  s_disabled : bool;
  s_hide_email : option bool }.

#[export] Instance Send_eta : Etable Send := λ s,
  mkSend (s_uuid s) (s_user_uuid s) (s_organization_uuid s) (s_name s) (s_notes s) (s_atype s)
    (s_data s) (s_akey s) (s_password_hash s) (s_password_salt s) (s_password_iter s)
    (s_max_access_count s) (s_access_count s) (s_creation_date s) (s_revision_date s)
    (s_expiration_date s) (s_deletion_date s) (s_disabled s) (s_hide_email s).

(** src/src/db/models/emergency_access.rs: EmergencyAccess *)
Record EmergencyAccess := mkEmergencyAccess {
  ea_uuid : string;
  ea_grantor_uuid : UserId;
  ea_grantee_uuid : option UserId;
  ea_email : option string;
  ea_key_encrypted : option string;
  ea_atype : Z;
  ea_status : Z;
  ea_wait_time_days : Z;
  ea_recovery_initiated_at : option NaiveDateTime;
  ea_last_notification_at : option NaiveDateTime;
  ea_updated_at : NaiveDateTime;
  ea_created_at : NaiveDateTime }.

#[export] Instance EmergencyAccess_eta : Etable EmergencyAccess := λ e,
  mkEmergencyAccess (ea_uuid e) (ea_grantor_uuid e) (ea_grantee_uuid e) (ea_email e)
    (ea_key_encrypted e) (ea_atype e) (ea_status e) (ea_wait_time_days e)
    (ea_recovery_initiated_at e) (ea_last_notification_at e) (ea_updated_at e)
    (ea_created_at e).

(** src/src/db/models/device.rs: Device *)
Record Device := mkDevice {
  d_uuid : DeviceId;
  d_created_at : NaiveDateTime;
  d_updated_at : NaiveDateTime;
  d_user_uuid : UserId;
  d_name : string;
  d_atype : Z;
  d_push_uuid : option string;
  d_push_token : option string;
  d_refresh_token : string;
  d_twofactor_remember : option string }.

#[export] Instance Device_eta : Etable Device := λ d,
  mkDevice (d_uuid d) (d_created_at d) (d_updated_at d) (d_user_uuid d) (d_name d) (d_atype d)
    (d_push_uuid d) (d_push_token d) (d_refresh_token d) (d_twofactor_remember d).

(** src/src/db/models/auth_request.rs: AuthRequest *)
Record AuthRequest := mkAuthRequest {
  aq_uuid : string;
  aq_user_uuid : UserId;
  aq_organization_uuid : option OrganizationId;
  aq_request_device_identifier : DeviceId;
  aq_device_type : Z;
  aq_request_ip : string;
  aq_response_device_id : option DeviceId;
  aq_access_code : string;
  aq_public_key : string;
  aq_enc_key : option string;
  aq_master_password_hash : option string;
  aq_approved : option bool;
  aq_creation_date : NaiveDateTime;
  aq_response_date : option NaiveDateTime;
  aq_authentication_date : option NaiveDateTime }.

#[export] Instance AuthRequest_eta : Etable AuthRequest := λ r,
  mkAuthRequest (aq_uuid r) (aq_user_uuid r) (aq_organization_uuid r)
    (aq_request_device_identifier r) (aq_device_type r) (aq_request_ip r)
    (aq_response_device_id r) (aq_access_code r) (aq_public_key r) (aq_enc_key r)
    (aq_master_password_hash r) (aq_approved r) (aq_creation_date r) (aq_response_date r)
    (aq_authentication_date r).

(** src/src/db/models/two_factor.rs: TwoFactor *)
Record TwoFactor := mkTwoFactor {
  tf_uuid : string;
  tf_user_uuid : UserId;
  tf_atype : Z;
  tf_enabled : bool;
  tf_data : string;
  tf_last_used : Z }.

#[export] Instance TwoFactor_eta : Etable TwoFactor := λ t,
  mkTwoFactor (tf_uuid t) (tf_user_uuid t) (tf_atype t) (tf_enabled t) (tf_data t)
    (tf_last_used t).

(** src/src/db/models/two_factor_incomplete.rs: TwoFactorIncomplete *)
Record TwoFactorIncomplete := mkTwoFactorIncomplete {
  ti_user_uuid : UserId;
  ti_device_uuid : DeviceId;
  ti_device_name : string;
  ti_device_type : Z;
  ti_login_time : NaiveDateTime;
  ti_ip_address : string }.

(** src/src/db/models/org_policy.rs: OrgPolicy *)
Record OrgPolicy := mkOrgPolicy {
  p_uuid : string;
  p_org_uuid : OrganizationId;
  p_atype : Z;
  p_enabled : bool;
  p_data : string }.

#[export] Instance OrgPolicy_eta : Etable OrgPolicy := λ p,
  mkOrgPolicy (p_uuid p) (p_org_uuid p) (p_atype p) (p_enabled p) (p_data p).

(** src/src/db/models/event.rs: Event *)
Record Event := mkEvent {
  ev_uuid : string;
  ev_event_type : Z;
  ev_user_uuid : option UserId;
  ev_org_uuid : option OrganizationId;
  ev_cipher_uuid : option CipherId;
  ev_collection_uuid : option CollectionId;
  ev_group_uuid : option GroupId;
  ev_org_user_uuid : option MembershipId;
  ev_act_user_uuid : option UserId;
  ev_device_type : option Z;
  ev_ip_address : option string;
  ev_event_date : NaiveDateTime;
  ev_policy_uuid : option string;
  ev_provider_uuid : option string;
  ev_provider_user_uuid : option string;
  ev_provider_org_uuid : option string }.

#[export] Instance Event_eta : Etable Event := λ e,
  mkEvent (ev_uuid e) (ev_event_type e) (ev_user_uuid e) (ev_org_uuid e) (ev_cipher_uuid e)
    (ev_collection_uuid e) (ev_group_uuid e) (ev_org_user_uuid e) (ev_act_user_uuid e)
    (ev_device_type e) (ev_ip_address e) (ev_event_date e) (ev_policy_uuid e)
    (ev_provider_uuid e) (ev_provider_user_uuid e) (ev_provider_org_uuid e).

#[export] Instance Membership_eq_dec : EqDecision Membership.
Proof. solve_decision. Defined.
#[export] Instance Collection_eq_dec : EqDecision Collection.
Proof. solve_decision. Defined.
#[export] Instance Cipher_eq_dec : EqDecision Cipher.
Proof. solve_decision. Defined.
#[export] Instance CollectionCipher_eq_dec : EqDecision CollectionCipher.
Proof. solve_decision. Defined.

(** Primary keys, as [#[diesel(primary_key(..))]] declares them. *)
#[export] Instance User_pk : Keyed User string := u_uuid.
#[export] Instance Invitation_pk : Keyed Invitation string := inv_email.
#[export] Instance Organization_pk : Keyed Organization string := o_uuid.
#[export] Instance Membership_pk : Keyed Membership string := m_uuid.
#[export] Instance OrganizationApiKey_pk : Keyed OrganizationApiKey (string * string) :=
  λ k, (ak_uuid k, ak_org_uuid k).
#[export] Instance Collection_pk : Keyed Collection string := c_uuid.
#[export] Instance CollectionUser_pk : Keyed CollectionUser (string * string) :=
  λ r, (cu_user_uuid r, cu_collection_uuid r).
#[export] Instance CollectionCipher_pk : Keyed CollectionCipher (string * string) :=
  λ r, (cc_cipher_uuid r, cc_collection_uuid r).
#[export] Instance Group_pk : Keyed Group string := g_uuid.
#[export] Instance CollectionGroup_pk : Keyed CollectionGroup (string * string) :=
  λ r, (cg_collections_uuid r, cg_groups_uuid r).
#[export] Instance GroupUser_pk : Keyed GroupUser (string * string) :=
  λ r, (gu_groups_uuid r, gu_users_organizations_uuid r).
#[export] Instance Cipher_pk : Keyed Cipher string := ci_uuid.
#[export] Instance Folder_pk : Keyed Folder string := f_uuid.
#[export] Instance FolderCipher_pk : Keyed FolderCipher (string * string) :=
  λ r, (fc_cipher_uuid r, fc_folder_uuid r).
#[export] Instance Attachment_pk : Keyed Attachment string := at_id.
#[export] Instance Archive_pk : Keyed Archive (string * string) :=
  λ r, (ar_user_uuid r, ar_cipher_uuid r).
#[export] Instance Send_pk : Keyed Send string := s_uuid.
#[export] Instance EmergencyAccess_pk : Keyed EmergencyAccess string := ea_uuid.
#[export] Instance Device_pk : Keyed Device (string * string) :=
  λ d, (d_uuid d, d_user_uuid d).
#[export] Instance TwoFactor_pk : Keyed TwoFactor string := tf_uuid.
#[export] Instance OrgPolicy_pk : Keyed OrgPolicy string := p_uuid.
#[export] Instance Event_pk : Keyed Event string := ev_uuid.
#[export] Instance AuthRequest_pk : Keyed AuthRequest string := aq_uuid.

(** ** The database *)
Record Db := mkDb {
  users : list User;
  invitations : list Invitation;
  organizations : list Organization;
  users_organizations : list Membership;
  organization_api_key : list OrganizationApiKey;
  collections : list Collection;
  users_collections : list CollectionUser;
  ciphers_collections : list CollectionCipher;
  groups : list Group;
  collections_groups : list CollectionGroup;
  groups_users : list GroupUser;
  ciphers : list Cipher;
  folders : list Folder;
  folders_ciphers : list FolderCipher;
  attachments : list Attachment;
  favorites : list Favorite;
  archives : list Archive;
  sends : list Send;
  emergency_access : list EmergencyAccess;
  devices : list Device;
  twofactor : list TwoFactor;
  twofactor_incomplete : list TwoFactorIncomplete;
  org_policies : list OrgPolicy;
  event : list Event;
  auth_requests : list AuthRequest }.

#[export] Instance Db_eta : Etable Db := λ d,
  mkDb (users d) (invitations d) (organizations d) (users_organizations d)
    (organization_api_key d) (collections d) (users_collections d) (ciphers_collections d)
    (groups d) (collections_groups d) (groups_users d) (ciphers d) (folders d)
    (folders_ciphers d) (attachments d) (favorites d) (archives d) (sends d)
    (emergency_access d) (devices d) (twofactor d) (twofactor_incomplete d)
    (org_policies d) (event d) (auth_requests d).

Definition empty_db : Db :=
  mkDb [] [] [] [] [] [] [] [] [] [] [] [] [] [] [] [] [] [] [] [] [] [] [] [] [].

(** ** The environment *)

(** JSON values ([serde_json::Value]) *)
Inductive Value :=
| VNull
| VBool (b : bool)
| VNumber (n : Z)
| VString (s : string)
| VArray (l : list Value)
| VObject (l : list (string * Value)).

(** src/src/api/core/two_factor/email.rs: EmailTokenData *)
Record EmailTokenData := mkEmailTokenData {
  etd_email : string;
  etd_last_token : option string;
  etd_token_sent : Z;
  etd_attempts : Z }.

#[export] Instance EmailTokenData_eta : Etable EmailTokenData := λ d,
  mkEmailTokenData (etd_email d) (etd_last_token d) (etd_token_sent d) (etd_attempts d).

(** src/src/api/core/two_factor/protected_actions.rs: ProtectedActionData *)
Record ProtectedActionData := mkProtectedActionData {
  pad_token : string;
  pad_token_sent : Z;
  pad_attempts : Z }.

#[export] Instance ProtectedActionData_eta : Etable ProtectedActionData := λ d,
  mkProtectedActionData (pad_token d) (pad_token_sent d) (pad_attempts d).

(** src/src/db/models/user.rs: UserStampException *)
Record UserStampException := mkUserStampException {
  se_routes : list string;
  se_security_stamp : string;
  se_expire : Z }.

(** src/src/auth.rs: InviteJwtClaims (the claims the handlers read) *)
Record InviteJwtClaims := mkInviteJwtClaims {
  ic_email : string;
  ic_org_id : OrganizationId;
  ic_member_id : MembershipId;
  ic_invited_by_email : option string }.

(** src/src/auth.rs: EmergencyAccessInviteJwtClaims (the claims the handlers read) *)
Record EmergencyAccessInviteJwtClaims := mkEmergencyAccessInviteJwtClaims {
  ec_email : string;
  ec_emer_id : string;
  ec_grantor_name : string;
  ec_grantor_email : string }.

(** src/src/auth.rs: LoginJwtClaims (the claims the guards read) *)
Record LoginJwtClaims := mkLoginJwtClaims {
  lc_sub : UserId;
  lc_device : DeviceId;
  lc_sstamp : string }.

(** src/src/auth.rs: AuthMethod *)
Inductive AuthMethod := OrgApiKey | Password | Sso | UserApiKey.

(** src/src/auth.rs: RefreshJwtClaims (the claims the refresh of a login reads) *)
Record RefreshJwtClaims := mkRefreshJwtClaims {
  rc_sub : AuthMethod;
  rc_device_token : string }.

(** src/src/auth.rs: RegisterVerifyClaims (the claims the registration reads) *)
Record RegisterVerifyClaims := mkRegisterVerifyClaims {
  rv_sub : string;
  rv_name : option string;
  rv_verified : bool }.

(** The settings of src/src/config.rs that the modelled code reads. *)
Record Config := mkConfig {
  mail_enabled : bool;
  org_groups_enabled : bool;
  org_events_enabled : bool;
  events_days_retain : option Z;
  invitations_allowed : bool;
  signups_allowed : bool;
  sso_enabled : bool;
  sso_only : bool;
  signups_domains_whitelist : string;
  org_creation_users : string;
  invitation_org_name : string;
  email_2fa_auto_fallback : bool;
  enforce_single_org_with_reset_pw_policy : bool;
  emergency_access_allowed : bool;
  sends_allowed : bool;
  user_send_limit : option Z;
  incomplete_2fa_time_limit : Z;
  trash_auto_delete_days : option Z;
  authenticator_disable_time_drift : bool;
  password_iterations : Z;
  email_attempts_limit : Z;
  email_expiration_time : Z;
  email_token_size : Z;
  disable_2fa_remember : bool;
  enable_email_2fa : bool;              (** [_enable_email_2fa] *)
  enable_duo : bool;
  duo_host : option string;
  duo_ikey : option string;
  duo_skey : option string;
  enable_yubico : bool;
  yubico_client_id : option string;
  yubico_secret_key : option string;
  is_webauthn_2fa_supported : bool;
  signups_verify : bool;
  signups_verify_resend_time : Z;
  signups_verify_resend_limit : Z;
  require_device_email : bool;
  email_2fa_enforce_on_verified_invite : bool;
  password_hints_allowed : bool;
  show_password_hint : bool;
  email_change_allowed : bool;
  push_enabled : bool;
  sso_auth_only_not_session : bool;
  max_note_size : Z;                    (** [_max_note_size] *)
  user_attachment_limit : option Z;
  org_attachment_limit : option Z;
  disable_admin_token : bool;
  domain_origin : string }.

#[export] Instance Config_eta : Etable Config := λ c,
  mkConfig (mail_enabled c) (org_groups_enabled c) (org_events_enabled c) (events_days_retain c)
    (invitations_allowed c) (signups_allowed c) (sso_enabled c) (sso_only c)
    (signups_domains_whitelist c) (org_creation_users c) (invitation_org_name c)
    (email_2fa_auto_fallback c) (enforce_single_org_with_reset_pw_policy c)
    (emergency_access_allowed c) (sends_allowed c) (user_send_limit c)
    (incomplete_2fa_time_limit c) (trash_auto_delete_days c)
    (authenticator_disable_time_drift c) (password_iterations c) (email_attempts_limit c)
    (email_expiration_time c) (email_token_size c) (disable_2fa_remember c)
    (enable_email_2fa c) (enable_duo c) (duo_host c) (duo_ikey c) (duo_skey c)
    (enable_yubico c) (yubico_client_id c) (yubico_secret_key c)
    (is_webauthn_2fa_supported c) (signups_verify c) (signups_verify_resend_time c)
    (signups_verify_resend_limit c) (require_device_email c)
    (email_2fa_enforce_on_verified_invite c) (password_hints_allowed c)
    (show_password_hint c) (email_change_allowed c) (push_enabled c)
    (sso_auth_only_not_session c) (max_note_size c) (user_attachment_limit c)
    (org_attachment_limit c) (disable_admin_token c)
    (domain_origin c).

(** Mails of src/src/mail.rs, with the data the caller hands over. *)
Inductive Mail :=
| send_invite (user_id : UserId) (email : string) (org_id : OrganizationId) (member_id : MembershipId)
    (org_name : string) (invited_by_email : option string)
| send_invite_accepted (new_user_email address org_name : string)
| send_invite_confirmed (address org_name : string)
| send_2fa_removed_from_org (address org_name : string)
| send_single_org_removed_from_org (address org_name : string)
| send_emergency_access_invite (address : string) (user_id : UserId) (emer_id : string)
    (grantor_name grantor_email : string)
| send_emergency_access_invite_accepted (address grantee_email : string)
| send_emergency_access_invite_confirmed (address grantor_name : string)
| send_emergency_access_recovery_initiated (address grantee_name atype : string)
    (wait_time_days : Z)
| send_emergency_access_recovery_reminder (address grantee_name atype days_left : string)
| send_emergency_access_recovery_approved (address grantor_name : string)
| send_emergency_access_recovery_rejected (address grantor_name : string)
| send_emergency_access_recovery_timed_out (address grantee_name atype : string)
| send_incomplete_2fa_login (address ip : string) (login_time : NaiveDateTime)
    (device_name : string) (device_type : Z)
| send_protected_action_token (address token : string)
| send_token (address token : string)
| send_new_device_logged_in (address ip : string) (dt : NaiveDateTime) (device : DeviceId)
| send_verify_email (address : string) (user_id : UserId)
| send_welcome (address : string)
| send_welcome_must_verify (address : string) (user_id : UserId)
| send_change_email_invited (address acting_address : string)
| send_change_email_existing (address acting_address : string)
| send_change_email (address token : string)
| send_delete_account (address : string) (user_id : UserId)
| send_password_hint (address : string) (hint : option string)
| send_register_verify_email (address token : string)
| send_admin_reset_password (address user_name org_name : string).

(** src/src/auth.rs: OrgApiKeyLoginJwtClaims *)
Record OrgApiKeyLoginJwtClaims := mkOrgApiKeyLoginJwtClaims {
  oc_nbf : Z;
  oc_exp : Z;
  oc_iss : string;
  oc_sub : string;
  oc_client_id : string;
  oc_client_sub : OrganizationId;
  oc_scope : list string }.

Record Env := mkEnv {
  e_cfg : Config;
  e_now : Z;                            (** [Utc::now()] *)
  e_uuid : nat → string;                (** [uuid::Uuid::new_v4()], n-th draw *)
  e_random : nat → string;              (** random bytes, n-th draw, encoded *)
  e_smtp : Mail → bool;                 (** does the SMTP transport accept it *)
  e_storage_delete : string → bool;     (** does the object store delete succeed *)
  e_lowercase : string → string;        (** [str::to_lowercase] *)
  e_valid_email : string → bool;        (** [util::is_valid_email]: parsing crates *)
  e_parse_auto_enroll : string → option bool;       (** [ResetPasswordDataModel] *)
  e_parse_disable_hide_email : string → option bool; (** [SendOptionsPolicyData] *)
  e_json : option Value → string;       (** [serde_json::to_string] *)
  e_email_token_json : EmailTokenData → string;      (** [EmailTokenData::to_json] *)
  e_parse_email_token : string → option EmailTokenData; (** [EmailTokenData::from_json] *)
  e_pa_json : ProtectedActionData → string;          (** [ProtectedActionData::to_json] *)
  e_parse_pa : string → option ProtectedActionData;  (** [ProtectedActionData::from_json] *)
  e_stamp_json : UserStampException → string;        (** its [serde_json::to_string] *)
  e_parse_stamp : string → option UserStampException; (** its [serde_json::from_str] *)
  e_parse_json : string → option Value;              (** [serde_json::from_str::<Value>] *)
  e_access_id : string → option string;              (** BASE64URL_NOPAD + [Uuid::from_slice] *)
  e_decode_invite : string → option InviteJwtClaims; (** [auth::decode_invite] *)
  e_decode_emergency_invite : string → option EmergencyAccessInviteJwtClaims;
    (** [auth::decode_emergency_access_invite] *)
  e_decode_login : string → option LoginJwtClaims;   (** [auth::decode_login] *)
  e_uuid_ok : string → bool;                         (** [Uuid::parse_str(..).is_ok()] *)
  e_storage_save : string → bool;       (** does the object store accept a file *)
  e_trim : string → string;                          (** [str::trim] *)
  e_pbkdf2 : string → string → Z → string; (** [pbkdf2::derive]: secret, salt, iterations *)
  e_uppercase : string → string;                     (** [str::to_uppercase] *)
  e_all_numeric : string → bool;                     (** [s.chars().all(char::is_numeric)] *)
  e_base32_decode : string → option string;          (** [BASE32.decode]: the bytes *)
  e_totp : string → Z → string;         (** [totp_custom::<Sha1>(30, 6, secret, time)] *)
  e_yubikey_keys : string → option (list string);    (** the keys of [YubikeyMetadata] *)
  e_yubikey_verify : string → bool;                  (** the Yubico server accepts the code *)
  e_duo_data : string → option (string * string * string); (** host, ik, sk of the JSON text *)
  e_login_limit : string → bool;        (** [ratelimit::check_limit_login] lets the address pass *)
  e_version_2025_5 : string → bool;     (** the client version satisfies >=2025.5.0 *)
  e_decode_refresh : string → option RefreshJwtClaims; (** [auth::decode_refresh] *)
  e_encode_2fa_remember : DeviceId → UserId → Z → string;
    (** [encode_jwt(generate_2fa_remember_claims(..))] at a time *)
  e_decode_2fa_remember : string → option (DeviceId * UserId); (** [sub] and [user_uuid] *)
  e_encode_register_verify : RegisterVerifyClaims → Z → string; (** [encode_jwt] at a time *)
  e_decode_register_verify : string → option RegisterVerifyClaims;
  e_decode_verify_email : string → option string;    (** [sub] *)
  e_decode_delete : string → option string;          (** [sub] *)
  e_push_register : string → bool;      (** the push relay accepts the device *)
  e_push_unregister : string → bool;
  e_sso_refresh : RefreshJwtClaims → bool; (** the identity provider extends the session *)
  e_parse_datetime : string → option Z; (** [NaiveDateTime::parse_from_str(s, _)] with its ISO format *)
  e_hash_order : list string → list string; (** the order a [HashSet] of these values is read in *)
  e_decode_api_org : string → option OrgApiKeyLoginJwtClaims; (** [auth::decode_api_org] *)
  e_decode_admin : string → bool        (** [auth::decode_admin(..).is_ok()] *) }.

#[export] Instance Env_eta : Etable Env := λ e,
  mkEnv (e_cfg e) (e_now e) (e_uuid e) (e_random e) (e_smtp e) (e_storage_delete e)
    (e_lowercase e) (e_valid_email e) (e_parse_auto_enroll e) (e_parse_disable_hide_email e)
    (e_json e) (e_email_token_json e) (e_parse_email_token e) (e_pa_json e) (e_parse_pa e)
    (e_stamp_json e) (e_parse_stamp e) (e_parse_json e) (e_access_id e) (e_decode_invite e)
    (e_decode_emergency_invite e) (e_decode_login e) (e_uuid_ok e) (e_storage_save e) (e_trim e)
    (e_pbkdf2 e) (e_uppercase e) (e_all_numeric e) (e_base32_decode e) (e_totp e)
    (e_yubikey_keys e) (e_yubikey_verify e) (e_duo_data e) (e_login_limit e) (e_version_2025_5 e)
    (e_decode_refresh e) (e_encode_2fa_remember e) (e_decode_2fa_remember e)
    (e_encode_register_verify e)
    (e_decode_register_verify e) (e_decode_verify_email e) (e_decode_delete e) (e_push_register e)
    (e_push_unregister e) (e_sso_refresh e) (e_parse_datetime e) (e_hash_order e)
    (e_decode_api_org e) (e_decode_admin e).

(** ** The world *)

(** src/src/api/notifications.rs: UpdateType *)
Inductive UpdateType :=
| SyncCipherUpdate | SyncCipherCreate | SyncLoginDelete | SyncFolderDelete | SyncCiphers
| SyncVault | SyncOrgKeys | SyncFolderCreate | SyncFolderUpdate | SyncSettings | LogOut
| SyncSendCreate | SyncSendUpdate | SyncSendDelete | UT_AuthRequest | UT_AuthRequestResponse
| UpdateNone.

Inductive Effect :=
| MailSent (m : Mail)
| UserUpdate (ut : UpdateType) (user : UserId)
| SendUpdate (ut : UpdateType) (send : string) (users : list UserId)
| CipherUpdate (ut : UpdateType) (cipher : CipherId) (users : list UserId)
| FolderUpdate (ut : UpdateType) (folder : FolderId) (user : UserId)
| FileSaved (path : string)
| FileDeleted (path : string).

Record World := mkWorld {
  w_db : Db;
  w_draws : nat;
  w_out : list Effect }.

#[export] Instance World_eta : Etable World := λ w, mkWorld (w_db w) (w_draws w) (w_out w).

(** A handler. *)
Abbreviation Handler := (M Env World).

Definition cfg {A} (f : Config → A) : Handler A := gets (λ e _, f (e_cfg e)).
Definition now : Handler Z := gets (λ e _, e_now e).
Definition query {A} (f : Db → A) : Handler A := gets (λ _ w, f (w_db w)).
Definition put_db (d : Db) (w : World) : World := w <| w_db := d |>.
Abbreviation write f := (modify_part w_db put_db f : Handler ()).
Definition emit (x : Effect) : Handler () := modify (λ _ w, w <| w_out := w_out w ++ [x] |>).

(** src/src/util.rs: get_uuid *)
Definition get_uuid : Handler string := λ e w,
  (Ok (e_uuid e (w_draws w)), w <| w_draws := S (w_draws w) |>).

Definition get_random : Handler string := λ e w,
  (Ok (e_random e (w_draws w)), w <| w_draws := S (w_draws w) |>).

(** [mail::send_x(..).await]: an [Err] when the transport refuses. *)
Definition send_mail (m : Mail) : Handler () := λ e w,
  if e_smtp e m then (Ok (), w <| w_out := w_out w ++ [MailSent m] |>)
  else (Err (Msg "SMTP error"), w).

(** ** Frames: which part of the database a handler leaves alone *)

(** [keeps f m]: [m] does not change the part [f] of the database. *)
Definition same_part {A} (f : Db → A) (e : Env) (w w' : World) : Prop :=
  f (w_db w') = f (w_db w).

#[export] Instance same_part_preorder {A} (f : Db → A) e : PreOrder (same_part f e).
Proof. unfold same_part. split; [done | intros ??? ??; congruence]. Qed.

Abbreviation keeps f := (m_rel (same_part f)).

Lemma keeps_write {A} (f : Db → A) (g : Db → Db) :
  (∀ d, f (g d) = f d) → keeps f (write g).
Proof. intros Hg e w. unfold same_part. simpl. apply Hg. Qed.

Lemma m_rel_cfg {A} R `{∀ e : Env, PreOrder (R e)} (f : Config → A) : m_rel R (cfg f).
Proof. unfold cfg. mrel. Qed.

Lemma m_rel_now R `{∀ e : Env, PreOrder (R e)} : m_rel R now.
Proof. unfold now. mrel. Qed.

Lemma m_rel_query {A} R `{∀ e : Env, PreOrder (R e)} (f : Db → A) : m_rel R (query f).
Proof. unfold query. mrel. Qed.

Lemma keeps_get_uuid {A} (f : Db → A) : keeps f get_uuid.
Proof. done. Qed.

Lemma keeps_get_random {A} (f : Db → A) : keeps f get_random.
Proof. done. Qed.

Lemma keeps_emit {A} (f : Db → A) x : keeps f (emit x).
Proof. done. Qed.

Lemma keeps_send_mail {A} (f : Db → A) m : keeps f (send_mail m).
Proof. intros e w. unfold send_mail. by destruct (e_smtp e m). Qed.

#[export] Hint Resolve m_rel_cfg m_rel_now m_rel_query keeps_get_uuid keeps_get_random
  keeps_emit keeps_send_mail : mrel.
#[export] Hint Extern 1 (PreOrder _) => typeclasses eauto : mrel.
#[export] Hint Extern 1 (∀ _, PreOrder _) => intros; typeclasses eauto : mrel.
#[export] Hint Extern 2 (m_rel (same_part _) (modify_part _ _ _)) =>
  apply keeps_write; intros; reflexivity : mrel.

(** Evaluation of the primitive reads inside a run. *)
Lemma cfg_eq {A} (f : Config → A) e w : cfg f e w = (Ok (f (e_cfg e)), w).
Proof. done. Qed.

Lemma query_eq {A} (f : Db → A) e w : query f e w = (Ok (f (w_db w)), w).
Proof. done. Qed.

(** ** Weakest preconditions of the primitives *)
Lemma wp_cfg {A} (f : Config → A) e w (Q : res A → World → Prop) :
  Q (Ok (f (e_cfg e))) w → wp (cfg f) e w Q.
Proof. done. Qed.

Lemma wp_now e w (Q : res Z → World → Prop) : Q (Ok (e_now e)) w → wp now e w Q.
Proof. done. Qed.

Lemma wp_query {A} (f : Db → A) e w (Q : res A → World → Prop) :
  Q (Ok (f (w_db w))) w → wp (query f) e w Q.
Proof. done. Qed.

Lemma wp_write (f : Db → Db) e w (Q : res () → World → Prop) :
  Q (Ok ()) (put_db (f (w_db w)) w) → wp (write f) e w Q.
Proof. done. Qed.

Lemma wp_get_uuid e w (Q : res string → World → Prop) :
  Q (Ok (e_uuid e (w_draws w))) (w <| w_draws := S (w_draws w) |>) → wp get_uuid e w Q.
Proof. done. Qed.

Lemma wp_get_random e w (Q : res string → World → Prop) :
  Q (Ok (e_random e (w_draws w))) (w <| w_draws := S (w_draws w) |>) → wp get_random e w Q.
Proof. done. Qed.

Lemma wp_send_mail m e w (Q : res () → World → Prop) :
  (e_smtp e m = true → Q (Ok ()) (w <| w_out := w_out w ++ [MailSent m] |>)) →
  (e_smtp e m = false → Q (Err (Msg "SMTP error")) w) →
  wp (send_mail m) e w Q.
Proof. unfold wp, send_mail. destruct (e_smtp e m); simpl; auto. Qed.

(** [ws]: one step of the symbolic execution of a handler. *)
Ltac ws :=
  lazymatch goal with
  | |- wp (cfg _) _ _ _ => apply wp_cfg
  | |- wp now _ _ _ => apply wp_now
  | |- wp (query _) _ _ _ => apply wp_query
  | |- wp get_uuid _ _ _ => apply wp_get_uuid
  | |- wp get_random _ _ _ => apply wp_get_random
  | |- _ => wp_step
  end; cbv beta iota.
