(* ===== verification/Roles.v ===== *)
(** Membership roles and statuses: the enums of
    src/src/db/models/organization.rs, their order, and the revoke/restore
    encoding of the status column. *)
From S2P Require Import Prelude Table Schema.

(** src/src/db/models/organization.rs: MembershipStatus *)
Inductive MembershipStatus := Revoked | Invited | Accepted | Confirmed.

(** src/src/db/models/organization.rs:75-80: MembershipStatus *)
Definition MembershipStatus_as_i32 (s : MembershipStatus) : Z :=
  match s with Revoked => -1 | Invited => 0 | Accepted => 1 | Confirmed => 2 end.

(** src/src/db/models/organization.rs: MembershipStatus::from_i32 *)
Definition MembershipStatus_from_i32 (status : Z) : option MembershipStatus :=
  match status with
  | 0 => Some Invited
  | 1 => Some Accepted
  | 2 => Some Confirmed
  | _ => None
  end%Z.

(** src/src/db/models/organization.rs: MembershipType *)
Inductive MembershipType := Owner | Admin | MUser | Manager.

#[export] Instance MembershipType_eq_dec : EqDecision MembershipType.
Proof. solve_decision. Defined.

(** src/src/db/models/organization.rs:96-101: MembershipType *)
Definition MembershipType_as_i32 (t : MembershipType) : Z :=
  match t with Owner => 0 | Admin => 1 | MUser => 2 | Manager => 3 end.

(** [MembershipType::from_i32], derived by num_derive::FromPrimitive *)
(** src/src/db/models/organization.rs:95-101: MembershipType *)
Definition MembershipType_from_i32 (n : Z) : option MembershipType :=
  match n with
  | 0 => Some Owner
  | 1 => Some Admin
  | 2 => Some MUser
  | 3 => Some Manager
  | _ => None
  end%Z.

(** src/src/db/models/organization.rs: MembershipType::from_str *)
Definition MembershipType_from_str (s : string) : option MembershipType :=
  if (s == "0") || (s == "Owner") then Some Owner
  else if (s == "1") || (s == "Admin") then Some Admin
  else if (s == "2") || (s == "User") then Some MUser
  else if (s == "3") || (s == "Manager") then Some Manager
  (* HACK: We convert the custom role to a manager role *)
  else if (s == "4") || (s == "Custom") then Some Manager
  else None.

(** The [ACCESS_LEVEL] table of [MembershipType::cmp], indexed by the
    discriminant. *)
(** src/src/db/models/organization.rs:124-129: MembershipType::cmp *)
Definition ACCESS_LEVEL : list Z := [3; 2; 0; 1]%Z.

(** src/src/db/models/organization.rs:130-130: MembershipType::cmp *)
Definition access_level (t : MembershipType) : Z :=
  nth (Z.to_nat (MembershipType_as_i32 t)) ACCESS_LEVEL 0%Z.

(** src/src/db/models/organization.rs: MembershipType::cmp *)
Definition MembershipType_cmp (a b : MembershipType) : comparison :=
  Z.compare (access_level a) (access_level b).

Definition MembershipType_ge (a b : MembershipType) : bool :=
  match MembershipType_cmp a b with Lt => false | _ => true end.

(** src/src/db/models/organization.rs:147-152: MembershipType::partial_cmp *)
Definition MembershipType_partial_cmp_i32 (t : MembershipType) (n : Z) : option comparison :=
  match MembershipType_from_i32 n with
  | Some o => Some (MembershipType_cmp t o)
  | None => None
  end.

(** src/src/db/models/organization.rs:170-175: i32::partial_cmp *)
Definition i32_partial_cmp_MembershipType (n : Z) (t : MembershipType) : option comparison :=
  match MembershipType_from_i32 n with
  | Some s => Some (MembershipType_cmp s t)
  | None => None
  end.

(** src/src/db/models/organization.rs:163-167: i32::eq *)
Definition i32_eq (n : Z) (t : MembershipType) : bool := (n =? MembershipType_as_i32 t)%Z.

(** src/src/db/models/organization.rs:177-179: i32::lt *)
Definition i32_lt (n : Z) (t : MembershipType) : bool :=
  match i32_partial_cmp_MembershipType n t with
  | Some Lt | None => true
  | _ => false
  end.

(** src/src/db/models/organization.rs:181-183: i32::le *)
Definition i32_le (n : Z) (t : MembershipType) : bool :=
  match i32_partial_cmp_MembershipType n t with
  | Some Lt | Some Eq | None => true
  | _ => false
  end.

(** [i32 >= MembershipType], the default of [PartialOrd::ge] *)
Definition i32_ge (n : Z) (t : MembershipType) : bool :=
  match i32_partial_cmp_MembershipType n t with
  | Some Gt | Some Eq => true
  | _ => false
  end.

(** src/src/db/models/organization.rs: ACTIVATE_REVOKE_DIFF *)
Definition ACTIVATE_REVOKE_DIFF : Z := 128.

(** src/src/db/models/organization.rs: Membership::restore *)
Definition Membership_restore (m : Membership) : Membership * bool :=
  if (m_status m <? MembershipStatus_as_i32 Invited)%Z
  then (m <| m_status := (m_status m + ACTIVATE_REVOKE_DIFF)%Z |>, true)
  else (m, false).

(** src/src/db/models/organization.rs: Membership::revoke *)
Definition Membership_revoke (m : Membership) : Membership * bool :=
  if (MembershipStatus_as_i32 Revoked <? m_status m)%Z
  then (m <| m_status := (m_status m - ACTIVATE_REVOKE_DIFF)%Z |>, true)
  else (m, false).

(** src/src/db/models/organization.rs: Membership::get_unrevoked_status *)
Definition Membership_get_unrevoked_status (m : Membership) : Z :=
  if (m_status m <=? MembershipStatus_as_i32 Revoked)%Z
  then m_status m + ACTIVATE_REVOKE_DIFF
  else m_status m.

(** src/src/db/models/organization.rs: Membership::set_external_id *)
Definition Membership_set_external_id (m : Membership) (external_id : option string)
    : Membership * bool :=
  if bool_decide (m_external_id m = external_id) then (m, false)
  else (m <| m_external_id :=
               match external_id with
               | Some x => if str_is_empty x then None else Some x
               | None => None
               end |>, true).

(** src/src/db/models/organization.rs: Membership::type_manager_as_custom *)
Definition Membership_type_manager_as_custom (m : Membership) : Z :=
  if (m_atype m =? 3)%Z then 4 else m_atype m.

(** src/src/db/models/organization.rs: Membership::has_status *)
Definition Membership_has_status (m : Membership) (s : MembershipStatus) : bool :=
  (m_status m =? MembershipStatus_as_i32 s)%Z.

(** src/src/db/models/organization.rs: Membership::has_type *)
Definition Membership_has_type (m : Membership) (t : MembershipType) : bool :=
  (m_atype m =? MembershipType_as_i32 t)%Z.

(** src/src/db/models/organization.rs: Membership::has_full_access *)
Definition Membership_has_full_access (m : Membership) : bool :=
  (m_access_all m || i32_ge (m_atype m) Admin) && Membership_has_status m Confirmed.

(** The status values a membership row ever holds: an active status, or one
    that was revoked by subtracting [ACTIVATE_REVOKE_DIFF]. *)
Definition active_status (s : Z) : Prop := (0 ≤ s ≤ 2)%Z.
Definition revoked_status (s : Z) : Prop := (-128 ≤ s ≤ -126)%Z.
Definition valid_status (s : Z) : Prop := active_status s ∨ revoked_status s.
Definition valid_type (n : Z) : Prop := is_Some (MembershipType_from_i32 n).

Lemma from_i32_as_i32 t : MembershipType_from_i32 (MembershipType_as_i32 t) = Some t.
Proof. by destruct t. Qed.

Lemma valid_type_range n : valid_type n ↔ (0 ≤ n ≤ 3)%Z.
Proof.
  unfold valid_type, MembershipType_from_i32. split.
  - intros [t Ht]. repeat case_match; simplify_eq; lia.
  - intros Hn. assert (n = 0 ∨ n = 1 ∨ n = 2 ∨ n = 3)%Z as [->|[->|[->| ->]]] by lia; eauto.
Qed.

Lemma as_i32_inj a b : MembershipType_as_i32 a = MembershipType_as_i32 b → a = b.
Proof. by destruct a, b. Qed.

Lemma i32_ge_not_lt n t : i32_ge n t = negb (i32_lt n t).
Proof.
  unfold i32_ge, i32_lt. destruct (i32_partial_cmp_MembershipType n t) as [[]|]; done.
Qed.

(** SQL's [atype <= Admin as i32] is the Rust [atype >= MembershipType::Admin]
    on the types the table stores. *)
Lemma sql_le_admin n : valid_type n → (n <=? 1)%Z = i32_ge n Admin.
Proof.
  intros Hn%valid_type_range.
  assert (n = 0 ∨ n = 1 ∨ n = 2 ∨ n = 3)%Z as [->|[->|[->| ->]]] by lia; done.
Qed.
