(* ===== verification/Users.v ===== *)
(** Users and invitations: src/src/db/models/user.rs (the deletion of an
    account is in Accounts.v, above everything it deletes). *)
From S2P Require Import Prelude Table Schema Roles.

(** src/src/db/models/user.rs: User::find_by_uuid *)
Definition User_find_by_uuid (uuid : UserId) (db : Db) : option User :=
  first_row (λ u, u_uuid u == uuid) (users db).

(** src/src/db/models/user.rs: User::find_by_mail *)
Definition User_find_by_mail (mail : string) : Handler (option User) :=
  gets (λ e w, first_row (λ u, u_email u == e_lowercase e mail) (users (w_db w))).

(** src/src/db/models/user.rs: User::update_revision_impl *)
Definition User_update_revision_impl (uuid : UserId) (date : NaiveDateTime) : Handler () :=
  write (λ d, d <| users := update_where (λ u, u_uuid u == uuid)
                              (λ u, u <| u_updated_at := date |>) (users d) |>).

(** src/src/db/models/user.rs: User::update_uuid_revision *)
Definition User_update_uuid_revision (uuid : UserId) : Handler () :=
  t ← now; ignore (User_update_revision_impl uuid t).

(** src/src/db/models/user.rs: User::update_revision *)
Definition User_update_revision (u : User) : Handler User :=
  t ← now;
  _ ← User_update_revision_impl (u_uuid u) t;
  mret (u <| u_updated_at := t |>).

(** [users.email] is UNIQUE: the insert or update fails when another row has the
    address. *)
Definition email_taken (u : User) (db : Db) : bool :=
  existsb (λ v, (u_email v == u_email u) && (u_uuid v != u_uuid u)) (users db).

(** src/src/db/models/user.rs: User::save *)
Definition User_save (u : User) : Handler User :=
  valid ← gets (λ e _, e_valid_email e (u_email u));
  _ ← err_if (negb valid)
        ("User email " +:+ u_email u +:+ " is not a valid email address");
  t ← now;
  let u := u <| u_updated_at := t |> in
  taken ← query (email_taken u);
  _ ← err_if taken "Error saving user";
  _ ← write (λ d, d <| users := upsert u (users d) |>);
  mret u.

(** The one write of a save; every error comes before it. *)
Lemma wp_User_save u e w (Q : res User → World → Prop) :
  (∀ msg, Q (Err (Msg msg)) w) →
  (e_valid_email e (u_email u) = true → email_taken u (w_db w) = false →
   let u' := u <| u_updated_at := e_now e |> in
   Q (Ok u') (put_db ((w_db w) <| users := upsert u' (users (w_db w)) |>) w)) →
  wp (User_save u) e w Q.
Proof.
  intros HE HQ. unfold User_save. ws. ws. ws. ws; [apply HE|]. ws. ws. ws. ws. ws. ws; [apply HE|].
  ws. apply wp_write. ws. apply HQ; [by apply negb_false_iff|done].
Qed.

(** src/src/db/models/user.rs: User::new *)
Definition User_new (email : string) (name : option string) : Handler User :=
  t ← now;
  email ← gets (λ e _, e_lowercase e email);
  uuid ← get_uuid;
  salt ← get_random;
  iter ← cfg password_iterations;
  stamp ← get_uuid;
  mret (mkUser uuid true t t None None 0%Z email None None (default email name)
          "" salt iter None "" None None None None stamp None "[]" "[]"
          0%Z 600000%Z None None None None None).

(** src/src/db/models/user.rs: User::display_name *)
Definition User_display_name (u : User) : string :=
  if str_is_empty (u_name u) then u_email u else u_name u.

(** src/src/db/models/user.rs: Invitation::new *)
Definition Invitation_new (email : string) : Handler Invitation :=
  gets (λ e _, mkInvitation (e_lowercase e email)).

(** src/src/db/models/user.rs: Invitation::save *)
Definition Invitation_save (i : Invitation) : Handler () :=
  valid ← gets (λ e _, e_valid_email e (inv_email i));
  _ ← err_if (negb valid)
        ("Invitation email " +:+ inv_email i +:+ " is not a valid email address");
  write (λ d, d <| invitations := upsert i (invitations d) |>).

(** src/src/db/models/user.rs: Invitation::delete *)
Definition Invitation_delete (i : Invitation) : Handler () :=
  write (λ d, d <| invitations := delete_where (λ x, inv_email x == inv_email i)
                                    (invitations d) |>).

(** src/src/db/models/user.rs: Invitation::find_by_mail *)
Definition Invitation_find_by_mail (mail : string) : Handler (option Invitation) :=
  gets (λ e w, first_row (λ i, inv_email i == e_lowercase e mail) (invitations (w_db w))).

(** src/src/db/models/user.rs: Invitation::take *)
Definition Invitation_take (mail : string) : Handler bool :=
  o ← Invitation_find_by_mail mail;
  match o with
  | Some i => r ← try_ (Invitation_delete i);
              mret (match r with inr _ => true | inl _ => false end)
  | None => mret false
  end.
