(* ===== verification/Memberships.v ===== *)
(** Organization memberships in the database: the queries and the save of
    [Membership] in src/src/db/models/organization.rs.  ([Membership::delete]
    is in Collections.v, with the rows it also removes.) *)
From S2P Require Import Prelude Table Schema Roles Users.

Notation "m 'is' s" := (m_status m =? MembershipStatus_as_i32 s)%Z
  (at level 70, only parsing) : vw_scope.

(** src/src/db/models/organization.rs: Membership::new *)
Definition Membership_new (user_uuid : UserId) (org_uuid : OrganizationId)
    (invited_by_email : option string) : Handler Membership :=
  uuid ← get_uuid;
  mret (mkMembership uuid user_uuid org_uuid invited_by_email false ""
          (MembershipStatus_as_i32 Accepted) (MembershipType_as_i32 MUser) None None).

(** src/src/db/models/organization.rs: Membership::save *)
Definition Membership_save (m : Membership) : Handler () :=
  _ ← User_update_uuid_revision (m_user_uuid m);
  write (λ d, d <| users_organizations := upsert m (users_organizations d) |>).

(** src/src/db/models/organization.rs: Membership::find_by_uuid *)
Definition Membership_find_by_uuid (uuid : MembershipId) (db : Db) : option Membership :=
  first_row (λ m, m_uuid m == uuid) (users_organizations db).

(** src/src/db/models/organization.rs: Membership::find_by_uuid_and_org *)
Definition Membership_find_by_uuid_and_org (uuid : MembershipId) (org_uuid : OrganizationId)
    (db : Db) : option Membership :=
  first_row (λ m, (m_uuid m == uuid) && (m_org_uuid m == org_uuid)) (users_organizations db).

(** src/src/db/models/organization.rs: Membership::find_confirmed_by_user *)
Definition Membership_find_confirmed_by_user (user_uuid : UserId) (db : Db) : list Membership :=
  sel (λ m, (m_user_uuid m == user_uuid) && (m is Confirmed)) (users_organizations db).

(** src/src/db/models/organization.rs: Membership::find_invited_by_user *)
Definition Membership_find_invited_by_user (user_uuid : UserId) (db : Db) : list Membership :=
  sel (λ m, (m_user_uuid m == user_uuid) && (m is Invited)) (users_organizations db).

(** src/src/db/models/organization.rs: Membership::accept_user_invitations *)
Definition Membership_accept_user_invitations (user_uuid : UserId) : Handler () :=
  write (λ d, d <| users_organizations :=
    update_where (λ m, (m_user_uuid m == user_uuid) && (m is Invited))
      (λ m, m <| m_status := MembershipStatus_as_i32 Accepted |>) (users_organizations d) |>).

(** src/src/db/models/organization.rs: Membership::find_any_state_by_user *)
Definition Membership_find_any_state_by_user (user_uuid : UserId) (db : Db) : list Membership :=
  sel (λ m, m_user_uuid m == user_uuid) (users_organizations db).

(** src/src/db/models/organization.rs: Membership::count_accepted_and_confirmed_by_user *)
Definition Membership_count_accepted_and_confirmed_by_user (user_uuid : UserId)
    (excluded_org : OrganizationId) (db : Db) : Z :=
  count (λ m, (m_user_uuid m == user_uuid) && (m_org_uuid m != excluded_org) &&
              ((m is Accepted) || (m is Confirmed))) (users_organizations db).

(** src/src/db/models/organization.rs: Membership::find_by_org *)
Definition Membership_find_by_org (org_uuid : OrganizationId) (db : Db) : list Membership :=
  sel (λ m, m_org_uuid m == org_uuid) (users_organizations db).

(** src/src/db/models/organization.rs: Membership::find_confirmed_by_org *)
Definition Membership_find_confirmed_by_org (org_uuid : OrganizationId) (db : Db)
    : list Membership :=
  sel (λ m, (m_org_uuid m == org_uuid) && (m is Confirmed)) (users_organizations db).

(** src/src/db/models/organization.rs: Membership::find_confirmed_and_manage_all_by_org *)
Definition Membership_find_confirmed_and_manage_all_by_org (org_uuid : OrganizationId) (db : Db)
    : list Membership :=
  sel (λ m, (m_org_uuid m == org_uuid) && (m is Confirmed) &&
            (i32_eq (m_atype m) Owner || i32_eq (m_atype m) Admin ||
             (i32_eq (m_atype m) Manager && m_access_all m))) (users_organizations db).

(** src/src/db/models/organization.rs: Membership::count_by_org *)
Definition Membership_count_by_org (org_uuid : OrganizationId) (db : Db) : Z :=
  count (λ m, m_org_uuid m == org_uuid) (users_organizations db).

(** src/src/db/models/organization.rs: Membership::find_by_org_and_type *)
Definition Membership_find_by_org_and_type (org_uuid : OrganizationId) (atype : MembershipType)
    (db : Db) : list Membership :=
  sel (λ m, (m_org_uuid m == org_uuid) && i32_eq (m_atype m) atype) (users_organizations db).

(** src/src/db/models/organization.rs: Membership::count_confirmed_by_org_and_type *)
Definition Membership_count_confirmed_by_org_and_type (org_uuid : OrganizationId)
    (atype : MembershipType) (db : Db) : Z :=
  count (λ m, (m_org_uuid m == org_uuid) && i32_eq (m_atype m) atype && (m is Confirmed))
    (users_organizations db).

(** src/src/db/models/organization.rs: Membership::find_by_user_and_org *)
Definition Membership_find_by_user_and_org (user_uuid : UserId) (org_uuid : OrganizationId)
    (db : Db) : option Membership :=
  first_row (λ m, (m_user_uuid m == user_uuid) && (m_org_uuid m == org_uuid))
    (users_organizations db).

(** src/src/db/models/organization.rs: Membership::find_by_email_and_org *)
Definition Membership_find_by_email_and_org (email : string) (org_uuid : OrganizationId)
    : Handler (option Membership) :=
  u ← User_find_by_mail email;
  match u with
  | Some user => query (Membership_find_by_user_and_org (u_uuid user) org_uuid)
  | None => mret None
  end.

(** src/src/db/models/organization.rs: Membership::find_confirmed_by_user_and_org *)
Definition Membership_find_confirmed_by_user_and_org (user_uuid : UserId)
    (org_uuid : OrganizationId) (db : Db) : option Membership :=
  first_row (λ m, (m_user_uuid m == user_uuid) && (m_org_uuid m == org_uuid) &&
                  (m is Confirmed)) (users_organizations db).

(** src/src/db/models/organization.rs: Membership::find_by_user *)
Definition Membership_find_by_user (user_uuid : UserId) (db : Db) : list Membership :=
  sel (λ m, m_user_uuid m == user_uuid) (users_organizations db).

(** src/src/db/models/organization.rs: Membership::get_orgs_by_user *)
Definition Membership_get_orgs_by_user (user_uuid : UserId) (db : Db) : list OrganizationId :=
  map m_org_uuid (sel (λ m, m_user_uuid m == user_uuid) (users_organizations db)).

(** src/src/db/models/org_policy.rs: OrgPolicyType *)
Inductive OrgPolicyType :=
| TwoFactorAuthentication | MasterPassword | PasswordGenerator | SingleOrg
| PersonalOwnership | DisableSend | SendOptions | ResetPassword | RemoveUnlockWithPin
| RestrictedItemTypes | UriMatchDefaults.

#[export] Instance OrgPolicyType_eq_dec : EqDecision OrgPolicyType.
Proof. solve_decision. Defined.

(** src/src/db/models/org_policy.rs:31-52: OrgPolicyType *)
Definition OrgPolicyType_as_i32 (t : OrgPolicyType) : Z :=
  match t with
  | TwoFactorAuthentication => 0 | MasterPassword => 1 | PasswordGenerator => 2
  | SingleOrg => 3 | PersonalOwnership => 5 | DisableSend => 6 | SendOptions => 7
  | ResetPassword => 8 | RemoveUnlockWithPin => 14 | RestrictedItemTypes => 15
  | UriMatchDefaults => 16
  end.

(** src/src/db/models/organization.rs: Membership::find_by_user_and_policy *)
Definition Membership_find_by_user_and_policy (user_uuid : UserId) (policy_type : OrgPolicyType)
    (db : Db) : list Membership :=
  map fst (sel (λ '(m, _), m is Confirmed)
    (inner_join (λ m p, (p_org_uuid p == m_org_uuid m) && (m_user_uuid m == user_uuid) &&
                        (p_atype p =? OrgPolicyType_as_i32 policy_type)%Z && p_enabled p)
       (users_organizations db) (org_policies db))).

(** src/src/db/models/organization.rs: Membership::find_by_cipher_and_org *)
Definition Membership_find_by_cipher_and_org (cipher_uuid : CipherId) (org_uuid : OrganizationId)
    (db : Db) : list Membership :=
  distinct (map (fst ∘ fst)
    (sel (λ '(m, _, occ), m_access_all m ||
              match occ with Some cc => cc_cipher_uuid cc == cipher_uuid | None => false end)
      (left_join (λ '(_, ocu) cc,
                    match ocu with
                    | Some cu => (cc_collection_uuid cc == cu_collection_uuid cu) &&
                                 (cc_cipher_uuid cc == cipher_uuid)
                    | None => false
                    end)
        (left_join (λ m cu, cu_user_uuid cu == m_user_uuid m)
           (sel (λ m, m_org_uuid m == org_uuid) (users_organizations db))
           (users_collections db))
        (ciphers_collections db)))).

(** src/src/db/models/organization.rs: Membership::find_by_cipher_and_org_with_group *)
Definition Membership_find_by_cipher_and_org_with_group (cipher_uuid : CipherId)
    (org_uuid : OrganizationId) (db : Db) : list Membership :=
  distinct (map (λ '(m, _, _, _, _), m)
    (sel (λ '(_, _, _, og, occ),
            match og with Some g => g_access_all g | None => false end ||
            match occ with Some cc => cc_cipher_uuid cc == cipher_uuid | None => false end)
      (left_join (λ '(_, _, ocg, _) cc,
                    match ocg with
                    | Some cg => (cc_collection_uuid cc == cg_collections_uuid cg) &&
                                 (cc_cipher_uuid cc == cipher_uuid)
                    | None => false
                    end)
        (left_join (λ '(m, gu, _) g, (g_uuid g == gu_groups_uuid gu) &&
                                     (g_organizations_uuid g == m_org_uuid m))
          (left_join (λ '(_, gu) cg, cg_groups_uuid cg == gu_groups_uuid gu)
            (inner_join (λ m gu, gu_users_organizations_uuid gu == m_uuid m)
               (sel (λ m, m_org_uuid m == org_uuid) (users_organizations db))
               (groups_users db))
            (collections_groups db))
          (groups db))
        (ciphers_collections db)))).

(** src/src/db/models/organization.rs: Membership::user_has_ge_admin_access_to_cipher *)
Definition Membership_user_has_ge_admin_access_to_cipher (user_uuid : UserId)
    (cipher_uuid : CipherId) (db : Db) : bool :=
  negb (count (λ '(m, _), (m_user_uuid m == user_uuid) &&
                          (i32_eq (m_atype m) Owner || i32_eq (m_atype m) Admin))
         (inner_join (λ m c, (ci_uuid c == cipher_uuid) &&
                             opt_is (ci_organization_uuid c) (m_org_uuid m))
            (users_organizations db) (ciphers db)) =? 0)%Z.

(** src/src/db/models/organization.rs: Membership::find_by_collection_and_org *)
Definition Membership_find_by_collection_and_org (collection_uuid : CollectionId)
    (org_uuid : OrganizationId) (db : Db) : list Membership :=
  map fst
    (sel (λ '(m, ocu), m_access_all m ||
            match ocu with Some cu => cu_collection_uuid cu == collection_uuid | None => false end)
      (left_join (λ m cu, cu_user_uuid cu == m_user_uuid m)
         (sel (λ m, m_org_uuid m == org_uuid) (users_organizations db))
         (users_collections db))).

(** src/src/db/models/organization.rs: Membership::find_by_external_id_and_org *)
Definition Membership_find_by_external_id_and_org (ext_id : string) (org_uuid : OrganizationId)
    (db : Db) : option Membership :=
  first_row (λ m, opt_is (m_external_id m) ext_id && (m_org_uuid m == org_uuid))
    (users_organizations db).

(** [ORDER BY atype ASC .first()]: the first row of least type. *)
Fixpoint min_by {A} (f : A → Z) (l : list A) : option A :=
  match l with
  | [] => None
  | x :: l' => match min_by f l' with
               | Some y => if (f x <=? f y)%Z then Some x else Some y
               | None => Some x
               end
  end.

(** src/src/db/models/organization.rs: Membership::find_main_user_org *)
Definition Membership_find_main_user_org (user_uuid : UserId) (db : Db) : option Membership :=
  min_by m_atype
    (sel (λ m, (m_user_uuid m == user_uuid) &&
               negb (m_status m =? MembershipStatus_as_i32 Revoked)%Z)
       (users_organizations db)).

(** src/src/db/models/organization.rs: Organization::find_main_org_user_email *)
Definition Organization_find_main_org_user_email (user_email : string)
    : Handler (option Organization) :=
  gets (λ e w, let db := w_db w in
    option_map (λ '(o, _, _), o)
      (min_by (λ '(_, m, _), m_atype m)
        (sel (λ '(_, m, u), (u_email u == e_lowercase e user_email) &&
                            negb (m_status m =? MembershipStatus_as_i32 Revoked)%Z)
          (inner_join (λ '(_, m) u, u_uuid u == m_user_uuid m)
            (inner_join (λ o m, m_org_uuid m == o_uuid o)
               (organizations db) (users_organizations db))
            (users db))))).

(** src/src/db/models/organization.rs: Organization::find_by_uuid *)
Definition Organization_find_by_uuid (uuid : OrganizationId) (db : Db) : option Organization :=
  first_row (λ o, o_uuid o == uuid) (organizations db).

(** src/src/db/models/organization.rs: Organization::new *)
Definition Organization_new (name billing_email : string) (private_key public_key : option string)
    : Handler Organization :=
  billing_email ← gets (λ e _, e_lowercase e billing_email);
  uuid ← get_uuid;
  mret (mkOrganization uuid name billing_email private_key public_key).

(** src/src/db/models/organization.rs: Organization::save *)
Definition Organization_save (o : Organization) : Handler () :=
  valid ← gets (λ e _, e_valid_email e (o_billing_email o));
  _ ← err_if (negb valid)
        ("BillingEmail " +:+ o_billing_email o +:+ " is not a valid email address");
  ms ← query (Membership_find_by_org (o_uuid o));
  _ ← mfor ms (λ m, User_update_uuid_revision (m_user_uuid m));
  write (λ d, d <| organizations := upsert o (organizations d) |>).

(** ** The API key of an organization *)

(** src/src/db/models/organization.rs:321-330: OrganizationApiKey::new *)
Definition OrganizationApiKey_new (org_uuid : OrganizationId) (api_key : string)
    : Handler OrganizationApiKey :=
  uuid ← get_uuid;
  t ← now;
  mret (mkOrganizationApiKey uuid org_uuid 0 api_key t).

(** src/src/db/models/organization.rs:332-334: OrganizationApiKey::check_valid_api_key *)
Definition OrganizationApiKey_check_valid_api_key (k : OrganizationApiKey) (api_key : string) : bool :=
  ak_api_key k == api_key.

(** src/src/db/models/organization.rs:1174-1204: OrganizationApiKey::save *)
Definition OrganizationApiKey_save (k : OrganizationApiKey) : Handler () :=
  write (λ d, d <| organization_api_key := upsert k (organization_api_key d) |>).

(** src/src/db/models/organization.rs:1206-1211: OrganizationApiKey::find_by_org_uuid *)
Definition OrganizationApiKey_find_by_org_uuid (org_uuid : OrganizationId) (db : Db)
    : option OrganizationApiKey :=
  first_row (λ k, ak_org_uuid k == org_uuid) (organization_api_key db).


(** ** Lemmas *)

(** The whole effect of a save on the membership table. *)
Lemma Membership_save_run m e w :
  ∃ w', Membership_save m e w = (Ok (), w') ∧
        users_organizations (w_db w') = upsert m (users_organizations (w_db w)).
Proof. eexists. split; [reflexivity|]. reflexivity. Qed.

Lemma find_by_uuid_and_org_Some uuid org db m :
  Membership_find_by_uuid_and_org uuid org db = Some m →
  m_uuid m = uuid ∧ m_org_uuid m = org ∧ m ∈ users_organizations db.
Proof. intros [Hp ?]%first_row_Some. bprop. naive_solver. Qed.

Lemma find_by_user_and_org_Some user org db m :
  Membership_find_by_user_and_org user org db = Some m →
  m_user_uuid m = user ∧ m_org_uuid m = org ∧ m ∈ users_organizations db.
Proof. intros [Hp ?]%first_row_Some. bprop. naive_solver. Qed.

Lemma find_confirmed_by_user_and_org_Some user org db m :
  Membership_find_confirmed_by_user_and_org user org db = Some m →
  m_user_uuid m = user ∧ m_org_uuid m = org ∧
  m_status m = MembershipStatus_as_i32 Confirmed ∧ m ∈ users_organizations db.
Proof. intros [Hp ?]%first_row_Some. bprop. naive_solver. Qed.
