(* ===== verification/Groups.v ===== *)
(** Groups, their members and their collections: src/src/db/models/group.rs. *)
From S2P Require Import Prelude Table Schema Roles Users Memberships.

(** src/src/db/models/group.rs: Group::set_external_id *)
Definition Group_set_external_id (trim : string → string) (g : Group) (external_id : option string)
    : Group :=
  g <| g_external_id :=
         match external_id with
         | Some x => if str_is_empty (trim x) then None else Some x
         | None => None
         end |>.

(** src/src/db/models/group.rs: Group::save *)
Definition Group_save (g : Group) : Handler Group :=
  t ← now;
  let g := g <| g_revision_date := t |> in
  _ ← write (λ d, d <| groups := upsert g (groups d) |>);
  mret g.

(** src/src/db/models/group.rs: Group::find_by_organization *)
Definition Group_find_by_organization (org_uuid : OrganizationId) (db : Db) : list Group :=
  sel (λ g, g_organizations_uuid g == org_uuid) (groups db).

(** src/src/db/models/group.rs: Group::count_by_org *)
Definition Group_count_by_org (org_uuid : OrganizationId) (db : Db) : Z :=
  count (λ g, g_organizations_uuid g == org_uuid) (groups db).

(** src/src/db/models/group.rs: Group::find_by_uuid_and_org *)
Definition Group_find_by_uuid_and_org (uuid : GroupId) (org_uuid : OrganizationId) (db : Db)
    : option Group :=
  first_row (λ g, (g_uuid g == uuid) && (g_organizations_uuid g == org_uuid)) (groups db).

(** src/src/db/models/group.rs: Group::find_by_external_id_and_org *)
Definition Group_find_by_external_id_and_org (external_id : string) (org_uuid : OrganizationId)
    (db : Db) : option Group :=
  first_row (λ g, opt_is (g_external_id g) external_id && (g_organizations_uuid g == org_uuid))
    (groups db).

(** src/src/db/models/group.rs: Group::get_orgs_by_user_with_full_access *)
Definition Group_get_orgs_by_user_with_full_access (user_uuid : UserId) (db : Db)
    : list OrganizationId :=
  distinct (map (λ '(_, _, g), g_organizations_uuid g)
    (sel (λ '(_, m, g), (m_user_uuid m == user_uuid) && g_access_all g)
      (inner_join (λ '(gu, m) g, (g_uuid g == gu_groups_uuid gu) &&
                                 (g_organizations_uuid g == m_org_uuid m))
        (inner_join (λ gu m, m_uuid m == gu_users_organizations_uuid gu)
           (groups_users db) (users_organizations db))
        (groups db)))).

(** src/src/db/models/group.rs: Group::is_in_full_access_group *)
Definition Group_is_in_full_access_group (user_uuid : UserId) (org_uuid : OrganizationId)
    (db : Db) : bool :=
  default false
    (option_map (λ '(g, _, _), g_access_all g)
      (first_row (λ '(g, _, m), (m_user_uuid m == user_uuid) &&
                                (g_organizations_uuid g == org_uuid) && g_access_all g)
        (inner_join (λ '(_, gu) m, m_uuid m == gu_users_organizations_uuid gu)
          (inner_join (λ g gu, gu_groups_uuid gu == g_uuid g) (groups db) (groups_users db))
          (users_organizations db)))).

(** src/src/db/models/group.rs: Group::update_revision_impl *)
Definition Group_update_revision_impl (uuid : GroupId) (date : NaiveDateTime) : Handler () :=
  write (λ d, d <| groups := update_where (λ g, g_uuid g == uuid)
                               (λ g, g <| g_revision_date := date |>) (groups d) |>).

(** src/src/db/models/group.rs: Group::update_revision *)
Definition Group_update_revision (uuid : GroupId) : Handler () :=
  t ← now; ignore (Group_update_revision_impl uuid t).

(** src/src/db/models/group.rs: GroupUser::update_user_revision *)
Definition GroupUser_update_user_revision (gu : GroupUser) : Handler () :=
  o ← query (Membership_find_by_uuid (gu_users_organizations_uuid gu));
  match o with
  | Some m => User_update_uuid_revision (m_user_uuid m)
  | None => mret ()
  end.

(** src/src/db/models/group.rs: GroupUser::save *)
Definition GroupUser_save (gu : GroupUser) : Handler () :=
  _ ← GroupUser_update_user_revision gu;
  write (λ d, d <| groups_users := upsert gu (groups_users d) |>).

(** src/src/db/models/group.rs: GroupUser::find_by_group *)
Definition GroupUser_find_by_group (group_uuid : GroupId) (org_uuid : OrganizationId) (db : Db)
    : list GroupUser :=
  map (λ '(gu, _, _), gu)
    (sel (λ '(gu, g, _), (gu_groups_uuid gu == group_uuid) &&
                         (g_organizations_uuid g == org_uuid))
      (inner_join (λ '(gu, g) m, (m_uuid m == gu_users_organizations_uuid gu) &&
                                 (m_org_uuid m == g_organizations_uuid g))
        (inner_join (λ gu g, g_uuid g == gu_groups_uuid gu) (groups_users db) (groups db))
        (users_organizations db))).

(** src/src/db/models/group.rs: GroupUser::find_by_member *)
Definition GroupUser_find_by_member (member_uuid : MembershipId) (db : Db) : list GroupUser :=
  sel (λ gu, gu_users_organizations_uuid gu == member_uuid) (groups_users db).

(** src/src/db/models/group.rs: GroupUser::has_access_to_collection_by_member *)
Definition GroupUser_has_access_to_collection_by_member (collection_uuid : CollectionId)
    (member_uuid : MembershipId) (db : Db) : bool :=
  negb (count (λ '(gu, cg, _, _), (cg_collections_uuid cg == collection_uuid) &&
                                  (gu_users_organizations_uuid gu == member_uuid))
    (inner_join (λ '(_, cg, g) c, (c_uuid c == cg_collections_uuid cg) &&
                                  (c_org_uuid c == g_organizations_uuid g))
      (inner_join (λ '(gu, _) g, g_uuid g == gu_groups_uuid gu)
        (inner_join (λ gu cg, cg_groups_uuid cg == gu_groups_uuid gu)
           (groups_users db) (collections_groups db))
        (groups db))
      (collections db)) =? 0)%Z.

(** src/src/db/models/group.rs: GroupUser::has_full_access_by_member *)
Definition GroupUser_has_full_access_by_member (org_uuid : OrganizationId)
    (member_uuid : MembershipId) (db : Db) : bool :=
  negb (count (λ '(gu, g), (g_organizations_uuid g == org_uuid) && g_access_all g &&
                           (gu_users_organizations_uuid gu == member_uuid))
    (inner_join (λ gu g, g_uuid g == gu_groups_uuid gu) (groups_users db) (groups db)) =? 0)%Z.

(** src/src/db/models/group.rs: GroupUser::delete_by_group_and_member *)
Definition GroupUser_delete_by_group_and_member (group_uuid : GroupId)
    (member_uuid : MembershipId) : Handler () :=
  o ← query (Membership_find_by_uuid member_uuid);
  _ ← match o with
      | Some m => User_update_uuid_revision (m_user_uuid m)
      | None => mret ()
      end;
  write (λ d, d <| groups_users :=
    delete_where (λ gu, (gu_groups_uuid gu == group_uuid) &&
                        (gu_users_organizations_uuid gu == member_uuid)) (groups_users d) |>).

(** src/src/db/models/group.rs: GroupUser::delete_all_by_group *)
Definition GroupUser_delete_all_by_group (group_uuid : GroupId) (org_uuid : OrganizationId)
    : Handler () :=
  gus ← query (GroupUser_find_by_group group_uuid org_uuid);
  _ ← mfor gus GroupUser_update_user_revision;
  write (λ d, d <| groups_users :=
    delete_where (λ gu, gu_groups_uuid gu == group_uuid) (groups_users d) |>).

(** src/src/db/models/group.rs: GroupUser::delete_all_by_member *)
Definition GroupUser_delete_all_by_member (member_uuid : MembershipId) : Handler () :=
  o ← query (Membership_find_by_uuid member_uuid);
  _ ← match o with
      | Some m => User_update_uuid_revision (m_user_uuid m)
      | None => mret ()
      end;
  write (λ d, d <| groups_users :=
    delete_where (λ gu, gu_users_organizations_uuid gu == member_uuid) (groups_users d) |>).

(** src/src/db/models/group.rs: CollectionGroup::save *)
Definition CollectionGroup_save (cg : CollectionGroup) (org_uuid : OrganizationId) : Handler () :=
  gus ← query (GroupUser_find_by_group (cg_groups_uuid cg) org_uuid);
  _ ← mfor gus GroupUser_update_user_revision;
  write (λ d, d <| collections_groups := upsert cg (collections_groups d) |>).

(** src/src/db/models/group.rs: CollectionGroup::find_by_group *)
Definition CollectionGroup_find_by_group (group_uuid : GroupId) (org_uuid : OrganizationId)
    (db : Db) : list CollectionGroup :=
  map (λ '(cg, _, _), cg)
    (sel (λ '(cg, _, c), (cg_groups_uuid cg == group_uuid) && (c_org_uuid c == org_uuid))
      (inner_join (λ '(cg, g) c, (c_uuid c == cg_collections_uuid cg) &&
                                 (c_org_uuid c == g_organizations_uuid g))
        (inner_join (λ cg g, g_uuid g == cg_groups_uuid cg) (collections_groups db) (groups db))
        (collections db))).

(** src/src/db/models/group.rs: CollectionGroup::find_by_user *)
Definition CollectionGroup_find_by_user (user_uuid : UserId) (db : Db) : list CollectionGroup :=
  map (λ '(cg, _, _, _, _), cg)
    (sel (λ '(_, _, m, _, _), m_user_uuid m == user_uuid)
      (inner_join (λ '(cg, _, _, g) c, (c_uuid c == cg_collections_uuid cg) &&
                                       (c_org_uuid c == g_organizations_uuid g))
        (inner_join (λ '(cg, _, m) g, (g_uuid g == cg_groups_uuid cg) &&
                                      (g_organizations_uuid g == m_org_uuid m))
          (inner_join (λ '(_, gu) m, m_uuid m == gu_users_organizations_uuid gu)
            (inner_join (λ cg gu, gu_groups_uuid gu == cg_groups_uuid cg)
               (collections_groups db) (groups_users db))
            (users_organizations db))
          (groups db))
        (collections db))).

(** src/src/db/models/group.rs: CollectionGroup::find_by_collection *)
Definition CollectionGroup_find_by_collection (collection_uuid : CollectionId) (db : Db)
    : list CollectionGroup :=
  map (λ '(cg, _, _), cg)
    (inner_join (λ '(cg, c) g, (g_uuid g == cg_groups_uuid cg) &&
                               (g_organizations_uuid g == c_org_uuid c))
      (inner_join (λ cg c, c_uuid c == cg_collections_uuid cg)
         (sel (λ cg, cg_collections_uuid cg == collection_uuid) (collections_groups db))
         (collections db))
      (groups db)).

(** src/src/db/models/group.rs: CollectionGroup::delete *)
Definition CollectionGroup_delete (cg : CollectionGroup) (org_uuid : OrganizationId) : Handler () :=
  gus ← query (GroupUser_find_by_group (cg_groups_uuid cg) org_uuid);
  _ ← mfor gus GroupUser_update_user_revision;
  write (λ d, d <| collections_groups :=
    delete_where (λ x, (cg_collections_uuid x == cg_collections_uuid cg) &&
                       (cg_groups_uuid x == cg_groups_uuid cg)) (collections_groups d) |>).

(** src/src/db/models/group.rs: CollectionGroup::delete_all_by_group *)
Definition CollectionGroup_delete_all_by_group (group_uuid : GroupId) (org_uuid : OrganizationId)
    : Handler () :=
  gus ← query (GroupUser_find_by_group group_uuid org_uuid);
  _ ← mfor gus GroupUser_update_user_revision;
  write (λ d, d <| collections_groups :=
    delete_where (λ cg, cg_groups_uuid cg == group_uuid) (collections_groups d) |>).

(** src/src/db/models/group.rs: CollectionGroup::delete_all_by_collection *)
Definition CollectionGroup_delete_all_by_collection (collection_uuid : CollectionId)
    (org_uuid : OrganizationId) : Handler () :=
  cgs ← query (CollectionGroup_find_by_collection collection_uuid);
  _ ← mfor cgs (λ cg,
        gus ← query (GroupUser_find_by_group (cg_groups_uuid cg) org_uuid);
        mfor gus GroupUser_update_user_revision);
  write (λ d, d <| collections_groups :=
    delete_where (λ cg, cg_collections_uuid cg == collection_uuid) (collections_groups d) |>).

(** src/src/db/models/group.rs: Group::delete *)
Definition Group_delete (g : Group) (org_uuid : OrganizationId) : Handler () :=
  _ ← CollectionGroup_delete_all_by_group (g_uuid g) org_uuid;
  _ ← GroupUser_delete_all_by_group (g_uuid g) org_uuid;
  write (λ d, d <| groups := delete_where (λ x, g_uuid x == g_uuid g) (groups d) |>).

(** src/src/db/models/group.rs: Group::delete_all_by_organization *)
Definition Group_delete_all_by_organization (org_uuid : OrganizationId) : Handler () :=
  gs ← query (Group_find_by_organization org_uuid);
  mfor gs (λ g, Group_delete g org_uuid).
