(* ===== verification/Collections.v ===== *)
(** Collections, the users and ciphers assigned to them, and the access
    queries on them: src/src/db/models/collection.rs.  [Membership::delete] of
    src/src/db/models/organization.rs is here too, since it removes the
    member's collection and group assignments. *)
From S2P Require Import Prelude Table Schema Roles Users Memberships Groups.

(** src/src/db/models/collection.rs: Collection::set_external_id *)
Definition Collection_set_external_id (c : Collection) (external_id : option string) : Collection :=
  mkCollection (c_uuid c) (c_org_uuid c) (c_name c)
    match external_id with
    | Some x => if str_is_empty x then None else Some x
    | None => None
    end.

(** src/src/db/models/collection.rs: Collection::new *)
Definition Collection_new (org_uuid : OrganizationId) (name : string)
    (external_id : option string) : Handler Collection :=
  uuid ← get_uuid;
  mret (Collection_set_external_id (mkCollection uuid org_uuid name None) external_id).

(** src/src/db/models/collection.rs: Collection::find_by_uuid *)
Definition Collection_find_by_uuid (uuid : CollectionId) (db : Db) : option Collection :=
  first_row (λ c, c_uuid c == uuid) (collections db).

(** src/src/db/models/collection.rs: Collection::find_by_organization *)
Definition Collection_find_by_organization (org_uuid : OrganizationId) (db : Db)
    : list Collection :=
  sel (λ c, c_org_uuid c == org_uuid) (collections db).

(** src/src/db/models/collection.rs: Collection::count_by_org *)
Definition Collection_count_by_org (org_uuid : OrganizationId) (db : Db) : Z :=
  count (λ c, c_org_uuid c == org_uuid) (collections db).

(** src/src/db/models/collection.rs: Collection::find_by_uuid_and_org *)
Definition Collection_find_by_uuid_and_org (uuid : CollectionId) (org_uuid : OrganizationId)
    (db : Db) : option Collection :=
  first_row (λ c, (c_uuid c == uuid) && (c_org_uuid c == org_uuid)) (collections db).

(** ** The joins of the access queries *)

(** The joins shared by [find_by_user_uuid], [find_by_uuid_and_user],
    [hide_passwords_for_user] and [is_coll_manageable_by_user]: a collection
    with the user's assignment, the user's membership of its organization, the
    groups of that membership (kept only when they are of that organization),
    and the group's assignment to the collection. *)
Abbreviation CollJoin :=
  (Collection * option CollectionUser * option Membership * option GroupUser * option Group
   * option CollectionGroup)%type.

(** src/src/db/models/collection.rs:229-233: Collection::find_by_user_uuid *)
Definition join_users_collections (user_uuid : UserId) (db : Db) (t : list Collection)
    : list (Collection * option CollectionUser) :=
  left_join (λ c cu, (cu_collection_uuid cu == c_uuid c) && (cu_user_uuid cu == user_uuid))
    t (users_collections db).

(** src/src/db/models/collection.rs:234-238: Collection::find_by_user_uuid *)
Definition join_users_organizations (user_uuid : UserId) (db : Db)
    (t : list (Collection * option CollectionUser))
    : list (Collection * option CollectionUser * option Membership) :=
  left_join (λ '(c, _) m, (c_org_uuid c == m_org_uuid m) && (m_user_uuid m == user_uuid))
    t (users_organizations db).

(** src/src/db/models/collection.rs:239-251: Collection::find_by_user_uuid *)
Definition join_groups (db : Db)
    (t : list (Collection * option CollectionUser * option Membership)) : list CollJoin :=
  left_join (λ '(c, _, _, ogu, _) cg, on_row ogu (λ gu, cg_groups_uuid cg == gu_groups_uuid gu) &&
                                      (cg_collections_uuid cg == c_uuid c))
    (left_join (λ '(_, _, om, ogu) g,
                  on_row ogu (λ gu, g_uuid g == gu_groups_uuid gu) &&
                  on_row om (λ m, g_organizations_uuid g == m_org_uuid m))
      (left_join (λ '(_, _, om) gu, on_row om (λ m, gu_users_organizations_uuid gu == m_uuid m))
         t (groups_users db))
      (groups db))
    (collections_groups db).

Definition coll_join (user_uuid : UserId) (db : Db) (t : list Collection) : list CollJoin :=
  join_groups db (join_users_organizations user_uuid db (join_users_collections user_uuid db t)).

(** The membership of a join row is the one the group assignment was joined
    on: [groups_users.users_organizations_uuid = users_organizations.uuid]. *)
Definition gu_of_member (ogu : option GroupUser) (om : option Membership) : bool :=
  on_row ogu (λ gu, on_row om (λ m, gu_users_organizations_uuid gu == m_uuid m)).

(** src/src/db/models/collection.rs: Collection::find_by_user_uuid *)
Definition Collection_find_by_user_uuid (cf : Config) (user_uuid : UserId) (db : Db)
    : list Collection :=
  if org_groups_enabled cf then
    distinct (map (λ '(c, _, _, _, _, _), c)
      (sel (λ '(c, ocu, om, ogu, og, ocg),
              on_row om (λ m, m is Confirmed) &&
              (on_row ocu (λ cu, cu_user_uuid cu == user_uuid) ||
               on_row om m_access_all ||
               on_row og g_access_all ||
               (gu_of_member ogu om && is_some ocg)))
        (coll_join user_uuid db (collections db))))
  else
    distinct (map (λ '(c, _, _), c)
      (sel (λ '(c, ocu, om),
              on_row om (λ m, m is Confirmed) &&
              (on_row ocu (λ cu, cu_user_uuid cu == user_uuid) || on_row om m_access_all))
        (join_users_organizations user_uuid db
           (join_users_collections user_uuid db (collections db))))).

(** src/src/db/models/collection.rs: Collection::find_by_organization_and_user_uuid *)
Definition Collection_find_by_organization_and_user_uuid (cf : Config)
    (org_uuid : OrganizationId) (user_uuid : UserId) (db : Db) : list Collection :=
  sel (λ c, c_org_uuid c == org_uuid) (Collection_find_by_user_uuid cf user_uuid db).

(** src/src/db/models/collection.rs: Collection::find_by_uuid_and_user *)
Definition Collection_find_by_uuid_and_user (cf : Config) (uuid : CollectionId)
    (user_uuid : UserId) (db : Db) : option Collection :=
  if org_groups_enabled cf then
    option_map (λ '(c, _, _, _, _, _), c)
      (first_row (λ '(c, ocu, om, ogu, og, ocg),
              (c_uuid c == uuid) &&
              (on_row ocu (λ cu, cu_collection_uuid cu == uuid) ||
               (on_row om m_access_all || on_row om (λ m, m_atype m <=? 1)%Z) ||
               on_row og g_access_all ||
               (gu_of_member ogu om && is_some ocg)))
        (coll_join user_uuid db (collections db)))
  else
    option_map (λ '(c, _, _), c)
      (first_row (λ '(c, ocu, om),
              (c_uuid c == uuid) &&
              (on_row ocu (λ cu, cu_collection_uuid cu == uuid) ||
               (on_row om m_access_all || on_row om (λ m, m_atype m <=? 1)%Z)))
        (join_users_organizations user_uuid db
           (join_users_collections user_uuid db (collections db)))).

(** The inner and left joins of [is_writable_by_user]. *)
Definition writable_join (user_uuid : UserId) (db : Db) (t : list Collection)
    : list (Collection * Membership * option CollectionUser) :=
  left_join (λ '(c, _) cu, (cu_collection_uuid cu == c_uuid c) && (cu_user_uuid cu == user_uuid))
    (inner_join (λ c m, (c_org_uuid c == m_org_uuid m) && (m_user_uuid m == user_uuid))
       t (users_organizations db))
    (users_collections db).

(** src/src/db/models/collection.rs: Collection::is_writable_by_user *)
Definition Collection_is_writable_by_user (cf : Config) (self : Collection) (user_uuid : UserId)
    (db : Db) : bool :=
  let rows := writable_join user_uuid db (sel (λ c, c_uuid c == c_uuid self) (collections db)) in
  if org_groups_enabled cf then
    negb (count (λ '(c, m, ocu, ogu, og, ocg),
            (m_atype m <=? 1)%Z || m_access_all m ||
            on_row ocu (λ cu, (cu_collection_uuid cu == c_uuid self) && negb (cu_read_only cu)) ||
            on_row og g_access_all ||
            on_row ocg (λ cg, negb (cg_read_only cg)))
      (left_join (λ '(c, _, _, ogu, _) cg,
                    on_row ogu (λ gu, cg_groups_uuid cg == gu_groups_uuid gu) &&
                    (cg_collections_uuid cg == c_uuid c))
        (left_join (λ '(_, m, _, ogu) g,
                      on_row ogu (λ gu, g_uuid g == gu_groups_uuid gu) &&
                      (g_organizations_uuid g == m_org_uuid m))
          (left_join (λ '(_, m, _) gu, gu_users_organizations_uuid gu == m_uuid m)
             rows (groups_users db))
          (groups db))
        (collections_groups db)) =? 0)%Z
  else
    negb (count (λ '(c, m, ocu),
            (m_atype m <=? 1)%Z || m_access_all m ||
            on_row ocu (λ cu, (cu_collection_uuid cu == c_uuid self) && negb (cu_read_only cu)))
      rows =? 0)%Z.

(** src/src/db/models/collection.rs: Collection::hide_passwords_for_user *)
Definition Collection_hide_passwords_for_user (self : Collection) (user_uuid : UserId) (db : Db)
    : bool :=
  negb (count (λ '(c, ocu, om, ogu, og, ocg),
          (c_uuid c == c_uuid self) &&
          (on_row ocu (λ cu, (cu_collection_uuid cu == c_uuid self) && cu_hide_passwords cu) ||
           (on_row om m_access_all || on_row om (λ m, m_atype m <=? 1)%Z) ||
           on_row og g_access_all ||
           (gu_of_member ogu om && on_row ocg cg_hide_passwords)))
    (coll_join user_uuid db (collections db)) =? 0)%Z.

(** src/src/db/models/collection.rs: Collection::is_coll_manageable_by_user *)
Definition Collection_is_coll_manageable_by_user (uuid : CollectionId) (user_uuid : UserId)
    (db : Db) : bool :=
  negb (count (λ '(c, ocu, om, ogu, og, ocg),
          (c_uuid c == uuid) &&
          (on_row ocu (λ cu, (cu_collection_uuid cu == uuid) && cu_manage cu) ||
           (on_row om m_access_all || on_row om (λ m, m_atype m <=? 1)%Z) ||
           on_row og g_access_all ||
           (gu_of_member ogu om && on_row ocg cg_manage)))
    (coll_join user_uuid db (collections db)) =? 0)%Z.

(** src/src/db/models/collection.rs: Collection::is_manageable_by_user *)
Definition Collection_is_manageable_by_user (self : Collection) (user_uuid : UserId) (db : Db)
    : bool :=
  Collection_is_coll_manageable_by_user (c_uuid self) user_uuid db.

(** ** Assignments of users and ciphers *)

(** src/src/db/models/collection.rs: CollectionUser::find_by_organization_and_user_uuid *)
Definition CollectionUser_find_by_organization_and_user_uuid (org_uuid : OrganizationId)
    (user_uuid : UserId) (db : Db) : list CollectionUser :=
  map fst (sel (λ '(_, c), c_org_uuid c == org_uuid)
    (inner_join (λ cu c, c_uuid c == cu_collection_uuid cu)
       (sel (λ cu, cu_user_uuid cu == user_uuid) (users_collections db))
       (collections db))).

(** src/src/db/models/collection.rs: CollectionUser::save *)
Definition CollectionUser_save (user_uuid : UserId) (collection_uuid : CollectionId)
    (read_only hide_passwords manage : bool) : Handler () :=
  _ ← User_update_uuid_revision user_uuid;
  write (λ d, d <| users_collections :=
    upsert (mkCollectionUser user_uuid collection_uuid read_only hide_passwords manage)
      (users_collections d) |>).

(** src/src/db/models/collection.rs: CollectionUser::delete *)
Definition CollectionUser_delete (cu : CollectionUser) : Handler () :=
  _ ← User_update_uuid_revision (cu_user_uuid cu);
  write (λ d, d <| users_collections :=
    delete_where (λ x, (cu_user_uuid x == cu_user_uuid cu) &&
                       (cu_collection_uuid x == cu_collection_uuid cu))
      (users_collections d) |>).

(** src/src/db/models/collection.rs: CollectionUser::find_by_collection *)
Definition CollectionUser_find_by_collection (collection_uuid : CollectionId) (db : Db)
    : list CollectionUser :=
  sel (λ cu, cu_collection_uuid cu == collection_uuid) (users_collections db).

(** src/src/db/models/collection.rs: CollectionUser::find_by_collection_and_user *)
Definition CollectionUser_find_by_collection_and_user (collection_uuid : CollectionId)
    (user_uuid : UserId) (db : Db) : option CollectionUser :=
  first_row (λ cu, (cu_collection_uuid cu == collection_uuid) && (cu_user_uuid cu == user_uuid))
    (users_collections db).

(** src/src/db/models/collection.rs: CollectionUser::find_by_user *)
Definition CollectionUser_find_by_user (user_uuid : UserId) (db : Db) : list CollectionUser :=
  sel (λ cu, cu_user_uuid cu == user_uuid) (users_collections db).

(** src/src/db/models/collection.rs: CollectionUser::delete_all_by_collection *)
Definition CollectionUser_delete_all_by_collection (collection_uuid : CollectionId) : Handler () :=
  cus ← query (CollectionUser_find_by_collection collection_uuid);
  _ ← mfor cus (λ cu, User_update_uuid_revision (cu_user_uuid cu));
  write (λ d, d <| users_collections :=
    delete_where (λ cu, cu_collection_uuid cu == collection_uuid) (users_collections d) |>).

(** src/src/db/models/collection.rs: CollectionUser::delete_all_by_user_and_org *)
Definition CollectionUser_delete_all_by_user_and_org (user_uuid : UserId)
    (org_uuid : OrganizationId) : Handler () :=
  cus ← query (CollectionUser_find_by_organization_and_user_uuid org_uuid user_uuid);
  mfor cus (λ cu, write (λ d, d <| users_collections :=
    delete_where (λ x, (cu_user_uuid x == user_uuid) &&
                       (cu_collection_uuid x == cu_collection_uuid cu))
      (users_collections d) |>)).

(** src/src/db/models/collection.rs: CollectionUser::has_access_to_collection_by_user *)
Definition CollectionUser_has_access_to_collection_by_user (col_id : CollectionId)
    (user_uuid : UserId) (db : Db) : bool :=
  is_some (CollectionUser_find_by_collection_and_user col_id user_uuid db).

(** src/src/db/models/collection.rs: Collection::can_access_collection *)
Definition Collection_can_access_collection (cf : Config) (member : Membership)
    (col_id : CollectionId) (db : Db) : bool :=
  Membership_has_status member Confirmed &&
  (Membership_has_full_access member ||
   CollectionUser_has_access_to_collection_by_user col_id (m_user_uuid member) db ||
   (org_groups_enabled cf &&
    (GroupUser_has_full_access_by_member (m_org_uuid member) (m_uuid member) db ||
     GroupUser_has_access_to_collection_by_member col_id (m_uuid member) db))).

(** src/src/db/models/collection.rs: Collection::update_users_revision *)
Definition Collection_update_users_revision (c : Collection) : Handler () :=
  ms ← query (Membership_find_by_collection_and_org (c_uuid c) (c_org_uuid c));
  mfor ms (λ m, User_update_uuid_revision (m_user_uuid m)).

(** src/src/db/models/collection.rs: Collection::save *)
Definition Collection_save (c : Collection) : Handler () :=
  _ ← Collection_update_users_revision c;
  write (λ d, d <| collections := upsert c (collections d) |>).

(** src/src/db/models/collection.rs: CollectionCipher::update_users_revision *)
Definition CollectionCipher_update_users_revision (collection_uuid : CollectionId) : Handler () :=
  o ← query (Collection_find_by_uuid collection_uuid);
  match o with
  | Some c => Collection_update_users_revision c
  | None => mret ()
  end.

(** src/src/db/models/collection.rs: CollectionCipher::save *)
Definition CollectionCipher_save (cipher_uuid : CipherId) (collection_uuid : CollectionId)
    : Handler () :=
  _ ← CollectionCipher_update_users_revision collection_uuid;
  write (λ d, d <| ciphers_collections :=
    upsert (mkCollectionCipher cipher_uuid collection_uuid) (ciphers_collections d) |>).

(** src/src/db/models/collection.rs: CollectionCipher::delete *)
Definition CollectionCipher_delete (cipher_uuid : CipherId) (collection_uuid : CollectionId)
    : Handler () :=
  _ ← CollectionCipher_update_users_revision collection_uuid;
  write (λ d, d <| ciphers_collections :=
    delete_where (λ x, (cc_cipher_uuid x == cipher_uuid) &&
                       (cc_collection_uuid x == collection_uuid)) (ciphers_collections d) |>).

(** src/src/db/models/collection.rs: CollectionCipher::delete_all_by_cipher *)
Definition CollectionCipher_delete_all_by_cipher (cipher_uuid : CipherId) : Handler () :=
  write (λ d, d <| ciphers_collections :=
    delete_where (λ x, cc_cipher_uuid x == cipher_uuid) (ciphers_collections d) |>).

(** src/src/db/models/collection.rs: CollectionCipher::delete_all_by_collection *)
Definition CollectionCipher_delete_all_by_collection (collection_uuid : CollectionId)
    : Handler () :=
  write (λ d, d <| ciphers_collections :=
    delete_where (λ x, cc_collection_uuid x == collection_uuid) (ciphers_collections d) |>).

(** src/src/db/models/collection.rs: Collection::delete *)
Definition Collection_delete (c : Collection) : Handler () :=
  _ ← Collection_update_users_revision c;
  _ ← CollectionCipher_delete_all_by_collection (c_uuid c);
  _ ← CollectionUser_delete_all_by_collection (c_uuid c);
  _ ← CollectionGroup_delete_all_by_collection (c_uuid c) (c_org_uuid c);
  write (λ d, d <| collections := delete_where (λ x, c_uuid x == c_uuid c) (collections d) |>).

(** src/src/db/models/collection.rs: Collection::delete_all_by_organization *)
Definition Collection_delete_all_by_organization (org_uuid : OrganizationId) : Handler () :=
  cs ← query (Collection_find_by_organization org_uuid);
  mfor cs Collection_delete.

(** src/src/db/models/organization.rs: Membership::delete *)
Definition Membership_delete (m : Membership) : Handler () :=
  _ ← User_update_uuid_revision (m_user_uuid m);
  _ ← CollectionUser_delete_all_by_user_and_org (m_user_uuid m) (m_org_uuid m);
  _ ← GroupUser_delete_all_by_member (m_uuid m);
  write (λ d, d <| users_organizations :=
    delete_where (λ x, m_uuid x == m_uuid m) (users_organizations d) |>).

(** src/src/db/models/organization.rs: Membership::delete_all_by_organization *)
Definition Membership_delete_all_by_organization (org_uuid : OrganizationId) : Handler () :=
  ms ← query (Membership_find_by_org org_uuid);
  mfor ms Membership_delete.

(** src/src/db/models/organization.rs: Membership::delete_all_by_user *)
Definition Membership_delete_all_by_user (user_uuid : UserId) : Handler () :=
  ms ← query (Membership_find_any_state_by_user user_uuid);
  mfor ms Membership_delete.
