(* ===== verification/Events.v ===== *)
(** The event log: src/src/db/models/event.rs and the [log_event] functions of
    src/src/api/core/events.rs. *)
From S2P Require Import Prelude Table Schema Roles Users Memberships.

(** src/src/db/models/event.rs: EventType *)
Inductive EventType :=
| UserLoggedIn | UserChangedPassword | UserUpdated2fa | UserDisabled2fa | UserRecovered2fa
| UserFailedLogIn | UserFailedLogIn2fa | UserClientExportedVault | UserRequestedDeviceApproval
| CipherCreated | CipherUpdated | CipherDeleted | CipherAttachmentCreated
| CipherAttachmentDeleted | CipherShared | CipherUpdatedCollections | CipherClientViewed
| CipherClientToggledPasswordVisible | CipherClientToggledHiddenFieldVisible
| CipherClientToggledCardCodeVisible | CipherClientCopiedPassword
| CipherClientCopiedHiddenField | CipherClientCopiedCardCode | CipherClientAutofilled
| CipherSoftDeleted | CipherRestored | CipherClientToggledCardNumberVisible
| CollectionCreated | CollectionUpdated | CollectionDeleted
| GroupCreated | GroupUpdated | GroupDeleted
| OrganizationUserInvited | OrganizationUserConfirmed | OrganizationUserUpdated
| OrganizationUserRemoved | OrganizationUserUpdatedGroups | OrganizationUserUnlinkedSso
| OrganizationUserResetPasswordEnroll | OrganizationUserResetPasswordWithdraw
| OrganizationUserAdminResetPassword | OrganizationUserRevoked | OrganizationUserRestored
| OrganizationUserApprovedAuthRequest | OrganizationUserRejectedAuthRequest
| OrganizationUserDeleted | OrganizationUserLeft
| OrganizationUpdated | OrganizationPurgedVault | OrganizationClientExportedVault
| PolicyUpdated.

(** src/src/db/models/event.rs: EventType *)
Definition EventType_as_i32 (t : EventType) : Z :=
  match t with
  | UserLoggedIn => 1000 | UserChangedPassword => 1001 | UserUpdated2fa => 1002
  | UserDisabled2fa => 1003 | UserRecovered2fa => 1004 | UserFailedLogIn => 1005
  | UserFailedLogIn2fa => 1006 | UserClientExportedVault => 1007
  | UserRequestedDeviceApproval => 1010
  | CipherCreated => 1100 | CipherUpdated => 1101 | CipherDeleted => 1102
  | CipherAttachmentCreated => 1103 | CipherAttachmentDeleted => 1104 | CipherShared => 1105
  | CipherUpdatedCollections => 1106 | CipherClientViewed => 1107
  | CipherClientToggledPasswordVisible => 1108 | CipherClientToggledHiddenFieldVisible => 1109
  | CipherClientToggledCardCodeVisible => 1110 | CipherClientCopiedPassword => 1111
  | CipherClientCopiedHiddenField => 1112 | CipherClientCopiedCardCode => 1113
  | CipherClientAutofilled => 1114 | CipherSoftDeleted => 1115 | CipherRestored => 1116
  | CipherClientToggledCardNumberVisible => 1117
  | CollectionCreated => 1300 | CollectionUpdated => 1301 | CollectionDeleted => 1302
  | GroupCreated => 1400 | GroupUpdated => 1401 | GroupDeleted => 1402
  | OrganizationUserInvited => 1500 | OrganizationUserConfirmed => 1501
  | OrganizationUserUpdated => 1502 | OrganizationUserRemoved => 1503
  | OrganizationUserUpdatedGroups => 1504 | OrganizationUserUnlinkedSso => 1505
  | OrganizationUserResetPasswordEnroll => 1506 | OrganizationUserResetPasswordWithdraw => 1507
  | OrganizationUserAdminResetPassword => 1508 | OrganizationUserRevoked => 1511
  | OrganizationUserRestored => 1512 | OrganizationUserApprovedAuthRequest => 1513
  | OrganizationUserRejectedAuthRequest => 1514 | OrganizationUserDeleted => 1515
  | OrganizationUserLeft => 1516
  | OrganizationUpdated => 1600 | OrganizationPurgedVault => 1601
  | OrganizationClientExportedVault => 1602
  | PolicyUpdated => 1700
  end.

(** src/src/db/models/event.rs: Event::new *)
Definition Event_new (event_type : Z) (event_date : option NaiveDateTime) : Handler Event :=
  t ← now;
  uuid ← get_uuid;
  mret (mkEvent uuid event_type None None None None None None None None None
          (default t event_date) None None None None).

(** src/src/db/models/event.rs: Event::save *)
Definition Event_save (ev : Event) : Handler () :=
  write (λ d, d <| event := upsert ev (event d) |>).

(** [INSERT OR IGNORE]: a row whose key exists is left as it is. *)
Definition insert_or_ignore (ev : Event) (t : list Event) : list Event :=
  if exists_row (λ x, ev_uuid x == ev_uuid ev) t then t else t ++ [ev].

(** src/src/db/models/event.rs: Event::save_user_event *)
Definition Event_save_user_event (events : list Event) : Handler () :=
  mfor events (λ ev, write (λ d, d <| event := insert_or_ignore ev (event d) |>)).

(** src/src/db/models/event.rs: Event::delete *)
Definition Event_delete (ev : Event) : Handler () :=
  write (λ d, d <| event := delete_where (λ x, ev_uuid x == ev_uuid ev) (event d) |>).

(** src/src/db/models/event.rs: PAGE_SIZE *)
Definition Event_PAGE_SIZE : nat := 30.

(** [ORDER BY event_date DESC] *)
Fixpoint insert_desc (ev : Event) (l : list Event) : list Event :=
  match l with
  | [] => [ev]
  | x :: l' => if (ev_event_date x <=? ev_event_date ev)%Z then ev :: l
               else x :: insert_desc ev l'
  end.

Definition order_desc (l : list Event) : list Event := foldr insert_desc [] l.

Definition between (t start fin : Z) : bool := (start <=? t)%Z && (t <=? fin)%Z.

(** src/src/db/models/event.rs: Event::find_by_organization_uuid *)
Definition Event_find_by_organization_uuid (org_uuid : OrganizationId) (start fin : NaiveDateTime)
    (db : Db) : list Event :=
  take Event_PAGE_SIZE (order_desc
    (sel (λ ev, opt_is (ev_org_uuid ev) org_uuid && between (ev_event_date ev) start fin)
       (event db))).

(** src/src/db/models/event.rs: Event::count_by_org *)
Definition Event_count_by_org (org_uuid : OrganizationId) (db : Db) : Z :=
  count (λ ev, opt_is (ev_org_uuid ev) org_uuid) (event db).

(** src/src/db/models/event.rs: Event::find_by_org_and_member *)
Definition Event_find_by_org_and_member (org_uuid : OrganizationId) (member_uuid : MembershipId)
    (start fin : NaiveDateTime) (db : Db) : list Event :=
  take Event_PAGE_SIZE (order_desc (map fst
    (sel (λ '(ev, m), opt_is (ev_org_uuid ev) org_uuid && between (ev_event_date ev) start fin &&
                      (opt_is (ev_user_uuid ev) (m_user_uuid m) ||
                       opt_is (ev_act_user_uuid ev) (m_user_uuid m)))
      (inner_join (λ _ m, m_uuid m == member_uuid) (event db) (users_organizations db))))).

(** src/src/db/models/event.rs: Event::find_by_cipher_uuid *)
Definition Event_find_by_cipher_uuid (cipher_uuid : CipherId) (start fin : NaiveDateTime)
    (db : Db) : list Event :=
  take Event_PAGE_SIZE (order_desc
    (sel (λ ev, opt_is (ev_cipher_uuid ev) cipher_uuid && between (ev_event_date ev) start fin)
       (event db))).

(** src/src/db/models/event.rs: Event::clean_events *)
Definition Event_clean_events : Handler () :=
  retain ← cfg events_days_retain;
  match (retain : option Z) with
  | Some days_to_retain =>
    t ← now;
    delta ← unwrap (try_days days_to_retain) "try_days";
    dt ← unwrap (dt_sub t delta) "NaiveDateTime - TimeDelta overflowed";
    write (λ d, d <| event := delete_where (λ ev, ev_event_date ev <? dt)%Z (event d) |>)
  | None => mret ()
  end.

Definition in_range (n lo hi : Z) : bool := (lo <=? n)%Z && (n <=? hi)%Z.

(** src/src/api/core/events.rs: log_event_impl *)
Definition log_event_impl (event_type : Z) (source_uuid : string) (org_id : OrganizationId)
    (act_user_id : UserId) (device_type : Z) (event_date : option NaiveDateTime) (ip : string)
    : Handler () :=
  ev ← Event_new event_type event_date;
  let ev :=
    if in_range event_type 1100 1199 then ev <| ev_cipher_uuid := Some source_uuid |>
    else if in_range event_type 1300 1399 then ev <| ev_collection_uuid := Some source_uuid |>
    else if in_range event_type 1400 1499 then ev <| ev_group_uuid := Some source_uuid |>
    else if in_range event_type 1500 1599 then ev <| ev_org_user_uuid := Some source_uuid |>
    else if in_range event_type 1700 1799 then ev <| ev_policy_uuid := Some source_uuid |>
    else ev in
  ignore (Event_save
    (ev <| ev_org_uuid := Some org_id |> <| ev_act_user_uuid := Some act_user_id |>
        <| ev_device_type := Some device_type |> <| ev_ip_address := Some ip |>)).

(** src/src/api/core/events.rs: log_event *)
Definition log_event (event_type : EventType) (source_uuid : string) (org_id : OrganizationId)
    (act_user_id : UserId) (device_type : Z) (ip : string) : Handler () :=
  enabled ← cfg org_events_enabled;
  if negb enabled then mret ()
  else log_event_impl (EventType_as_i32 event_type) source_uuid org_id act_user_id device_type
         None ip.

(** src/src/api/core/events.rs: log_user_event_impl *)
Definition log_user_event_impl (event_type : Z) (user_id : UserId) (device_type : Z)
    (event_date : option NaiveDateTime) (ip : string) : Handler () :=
  memberships ← query (Membership_find_confirmed_by_user user_id);
  ev ← Event_new event_type event_date;
  let ev := ev <| ev_user_uuid := Some user_id |> <| ev_act_user_uuid := Some user_id |>
               <| ev_device_type := Some device_type |> <| ev_ip_address := Some ip |> in
  events ← mfold memberships [ev] (λ events m,
    ev ← Event_new event_type event_date;
    let ev := ev <| ev_user_uuid := Some user_id |> <| ev_org_uuid := Some (m_org_uuid m) |>
                 <| ev_org_user_uuid := Some (m_uuid m) |> <| ev_act_user_uuid := Some user_id |>
                 <| ev_device_type := Some device_type |> <| ev_ip_address := Some ip |> in
    mret (events ++ [ev]));
  ignore (Event_save_user_event events).

(** src/src/api/core/events.rs: log_user_event *)
Definition log_user_event_i32 (event_type : Z) (user_id : UserId) (device_type : Z)
    (ip : string) : Handler () :=
  enabled ← cfg org_events_enabled;
  if negb enabled then mret ()
  else log_user_event_impl event_type user_id device_type None ip.

(** [log_user_event(EventType::X as i32, ..)] *)
Definition log_user_event (event_type : EventType) (user_id : UserId) (device_type : Z)
    (ip : string) : Handler () :=
  log_user_event_i32 (EventType_as_i32 event_type) user_id device_type ip.
