(* ===== verification/Policies.v ===== *)
(** Organization policies: src/src/db/models/org_policy.rs, with the
    two-factor rows they look at (src/src/db/models/two_factor.rs) and the
    automatic e-mail second factor
    (src/src/api/core/two_factor/email.rs). *)
From S2P Require Import Prelude Table Schema Roles Users Memberships.

(** ** Two-factor rows *)

(** src/src/db/models/two_factor.rs: TwoFactorType *)
Inductive TwoFactorType :=
| Authenticator | Email | Duo | YubiKey | U2f | Remember | OrganizationDuo | Webauthn
| RecoveryCode | U2fRegisterChallenge | U2fLoginChallenge | EmailVerificationChallenge
| WebauthnRegisterChallenge | WebauthnLoginChallenge | ProtectedActions.

(** src/src/db/models/two_factor.rs:28-48: TwoFactorType *)
Definition TwoFactorType_as_i32 (t : TwoFactorType) : Z :=
  match t with
  | Authenticator => 0 | Email => 1 | Duo => 2 | YubiKey => 3 | U2f => 4 | Remember => 5
  | OrganizationDuo => 6 | Webauthn => 7 | RecoveryCode => 8
  | U2fRegisterChallenge => 1000 | U2fLoginChallenge => 1001
  | EmailVerificationChallenge => 1002 | WebauthnRegisterChallenge => 1003
  | WebauthnLoginChallenge => 1004 | ProtectedActions => 2000
  end.

(** src/src/db/models/two_factor.rs: TwoFactor::new *)
Definition TwoFactor_new (user_uuid : UserId) (atype : TwoFactorType) (data : string)
    : Handler TwoFactor :=
  uuid ← get_uuid;
  mret (mkTwoFactor uuid user_uuid (TwoFactorType_as_i32 atype) true data 0%Z).

(** src/src/db/models/two_factor.rs: TwoFactor::save

    The postgresql branch: the row of the same user and type is deleted first,
    as the [UNIQUE (user_uuid, atype)] constraint makes [REPLACE INTO] do on the
    other backends. *)
Definition TwoFactor_save (t : TwoFactor) : Handler () :=
  write (λ d, d <| twofactor :=
    upsert t (delete_where (λ x, (tf_user_uuid x == tf_user_uuid t) &&
                                 (tf_atype x =? tf_atype t)%Z) (twofactor d)) |>).

(** src/src/db/models/two_factor.rs: TwoFactor::delete *)
Definition TwoFactor_delete (t : TwoFactor) : Handler () :=
  write (λ d, d <| twofactor := delete_where (λ x, tf_uuid x == tf_uuid t) (twofactor d) |>).

(** src/src/db/models/two_factor.rs: TwoFactor::find_by_user *)
Definition TwoFactor_find_by_user (user_uuid : UserId) (db : Db) : list TwoFactor :=
  sel (λ t, (tf_user_uuid t == user_uuid) && (tf_atype t <? 1000)%Z) (twofactor db).

(** src/src/db/models/two_factor.rs: TwoFactor::find_by_user_and_type *)
Definition TwoFactor_find_by_user_and_type (user_uuid : UserId) (atype : Z) (db : Db)
    : option TwoFactor :=
  first_row (λ t, (tf_user_uuid t == user_uuid) && (tf_atype t =? atype)%Z) (twofactor db).

(** src/src/db/models/two_factor.rs: TwoFactor::delete_all_by_user *)
Definition TwoFactor_delete_all_by_user (user_uuid : UserId) : Handler () :=
  write (λ d, d <| twofactor := delete_where (λ t, tf_user_uuid t == user_uuid) (twofactor d) |>).

(** src/src/api/core/two_factor/email.rs: EmailTokenData::new *)
Definition EmailTokenData_new (email token : string) : Handler EmailTokenData :=
  t ← now; mret (mkEmailTokenData email (Some token) t 0%Z).

(** src/src/api/core/two_factor/email.rs: activate_email_2fa *)
Definition activate_email_2fa (user : User) : Handler () :=
  _ ← err_if (is_none (u_verified_at user))
        "Auto-enabling of email 2FA failed because the users email address has not been verified!";
  data ← EmailTokenData_new (u_email user) "";
  json ← gets (λ e _, e_email_token_json e data);
  tf ← TwoFactor_new (u_uuid user) Email json;
  TwoFactor_save tf.

(** src/src/api/core/two_factor/email.rs: find_and_activate_email_2fa *)
Definition find_and_activate_email_2fa (user_id : UserId) : Handler () :=
  o ← query (User_find_by_uuid user_id);
  match o with
  | Some user => activate_email_2fa user
  | None => err "User not found!"
  end.

(** ** Policies *)

(** [OrgPolicyType::from_i32], derived by num_derive::FromPrimitive *)
(** src/src/db/models/org_policy.rs:30-52: OrgPolicyType *)
Definition OrgPolicyType_from_i32 (n : Z) : option OrgPolicyType :=
  match n with
  | 0 => Some TwoFactorAuthentication | 1 => Some MasterPassword
  | 2 => Some PasswordGenerator | 3 => Some SingleOrg | 5 => Some PersonalOwnership
  | 6 => Some DisableSend | 7 => Some SendOptions | 8 => Some ResetPassword
  | 14 => Some RemoveUnlockWithPin | 15 => Some RestrictedItemTypes
  | 16 => Some UriMatchDefaults
  | _ => None
  end%Z.

(** src/src/db/models/org_policy.rs: OrgPolicy::new *)
Definition OrgPolicy_new (org_uuid : OrganizationId) (atype : OrgPolicyType) (enabled : bool)
    (data : string) : Handler OrgPolicy :=
  uuid ← get_uuid;
  mret (mkOrgPolicy uuid org_uuid (OrgPolicyType_as_i32 atype) enabled data).

(** src/src/db/models/org_policy.rs: OrgPolicy::has_type *)
Definition OrgPolicy_has_type (p : OrgPolicy) (t : OrgPolicyType) : bool :=
  (p_atype p =? OrgPolicyType_as_i32 t)%Z.

(** src/src/db/models/org_policy.rs: OrgPolicy::save

    As for [TwoFactor_save], with the constraint [UNIQUE (org_uuid, atype)]. *)
Definition OrgPolicy_save (p : OrgPolicy) : Handler () :=
  write (λ d, d <| org_policies :=
    upsert p (delete_where (λ x, (p_org_uuid x == p_org_uuid p) &&
                                 (p_atype x =? p_atype p)%Z) (org_policies d)) |>).

(** src/src/db/models/org_policy.rs: OrgPolicy::find_by_org *)
Definition OrgPolicy_find_by_org (org_uuid : OrganizationId) (db : Db) : list OrgPolicy :=
  sel (λ p, p_org_uuid p == org_uuid) (org_policies db).

(** src/src/db/models/org_policy.rs: OrgPolicy::find_confirmed_by_user *)
Definition OrgPolicy_find_confirmed_by_user (user_uuid : UserId) (db : Db) : list OrgPolicy :=
  map fst (sel (λ '(_, m), m is Confirmed)
    (inner_join (λ p m, (m_org_uuid m == p_org_uuid p) && (m_user_uuid m == user_uuid))
       (org_policies db) (users_organizations db))).

(** src/src/db/models/org_policy.rs: OrgPolicy::find_by_org_and_type *)
Definition OrgPolicy_find_by_org_and_type (org_uuid : OrganizationId) (policy_type : OrgPolicyType)
    (db : Db) : option OrgPolicy :=
  first_row (λ p, (p_org_uuid p == org_uuid) && (p_atype p =? OrgPolicyType_as_i32 policy_type)%Z)
    (org_policies db).

(** src/src/db/models/org_policy.rs: OrgPolicy::delete_all_by_organization *)
Definition OrgPolicy_delete_all_by_organization (org_uuid : OrganizationId) : Handler () :=
  write (λ d, d <| org_policies := delete_where (λ p, p_org_uuid p == org_uuid) (org_policies d) |>).

(** src/src/db/models/org_policy.rs: OrgPolicy::find_accepted_and_confirmed_by_user_and_active_policy *)
Definition OrgPolicy_find_accepted_and_confirmed_by_user_and_active_policy (user_uuid : UserId)
    (policy_type : OrgPolicyType) (db : Db) : list OrgPolicy :=
  map fst (sel (λ '(p, m), ((m is Accepted) || (m is Confirmed)) &&
                           (p_atype p =? OrgPolicyType_as_i32 policy_type)%Z && p_enabled p)
    (inner_join (λ p m, (m_org_uuid m == p_org_uuid p) && (m_user_uuid m == user_uuid))
       (org_policies db) (users_organizations db))).

(** src/src/db/models/org_policy.rs: OrgPolicy::find_confirmed_by_user_and_active_policy *)
Definition OrgPolicy_find_confirmed_by_user_and_active_policy (user_uuid : UserId)
    (policy_type : OrgPolicyType) (db : Db) : list OrgPolicy :=
  map fst (sel (λ '(p, m), (m is Confirmed) &&
                           (p_atype p =? OrgPolicyType_as_i32 policy_type)%Z && p_enabled p)
    (inner_join (λ p m, (m_org_uuid m == p_org_uuid p) && (m_user_uuid m == user_uuid))
       (org_policies db) (users_organizations db))).

(** src/src/db/models/org_policy.rs: OrgPolicy::is_applicable_to_user

    The loop returns [true] at the first policy whose organization is not
    excluded and where the user is a confirmed non-admin. *)
Definition OrgPolicy_is_applicable_to_user (user_uuid : UserId) (policy_type : OrgPolicyType)
    (exclude_org_uuid : option OrganizationId) (db : Db) : bool :=
  existsb
    (λ p,
      if opt_is exclude_org_uuid (p_org_uuid p) then false
      else match Membership_find_confirmed_by_user_and_org user_uuid (p_org_uuid p) db with
           | Some m => i32_lt (m_atype m) Admin
           | None => false
           end)
    (OrgPolicy_find_accepted_and_confirmed_by_user_and_active_policy user_uuid policy_type db).

(** src/src/db/models/org_policy.rs: OrgPolicy::check_user_allowed *)
Definition OrgPolicy_check_user_allowed (m : Membership) (action : string) : Handler () :=
  if i32_lt (m_atype m) Admin && (MembershipStatus_as_i32 Invited <? m_status m)%Z then
    (* Enforce TwoFactor/TwoStep login *)
    p2fa ← query (OrgPolicy_find_by_org_and_type (m_org_uuid m) TwoFactorAuthentication);
    factors ← query (TwoFactor_find_by_user (m_user_uuid m));
    fallback ← cfg email_2fa_auto_fallback;
    _ ← (if on_row p2fa p_enabled && is_empty factors then
           if (fallback : bool) then find_and_activate_email_2fa (m_user_uuid m)
           else err ("Cannot " +:+ action +:+ " because 2FA is required (membership "
                     +:+ m_uuid m +:+ ")")
         else mret ());
    (* Check if the user is part of another Organization with SingleOrg activated *)
    other ← query (OrgPolicy_is_applicable_to_user (m_user_uuid m) SingleOrg
                     (Some (m_org_uuid m)));
    _ ← err_if other ("Cannot " +:+ action +:+
                      " because another organization policy forbids it (membership "
                      +:+ m_uuid m +:+ ")");
    pso ← query (OrgPolicy_find_by_org_and_type (m_org_uuid m) SingleOrg);
    n ← query (Membership_count_accepted_and_confirmed_by_user (m_user_uuid m) (m_org_uuid m));
    err_if (on_row pso p_enabled && (0 <? n)%Z)
      ("Cannot " +:+ action +:+
       " because the organization policy forbids being part of other organization (membership "
       +:+ m_uuid m +:+ ")")
  else mret ().

(** src/src/db/models/org_policy.rs: OrgPolicy::org_is_reset_password_auto_enroll *)
Definition OrgPolicy_org_is_reset_password_auto_enroll (org_uuid : OrganizationId)
    : Handler bool :=
  gets (λ e w,
    match OrgPolicy_find_by_org_and_type org_uuid ResetPassword (w_db w) with
    | Some p => match e_parse_auto_enroll e (p_data p) with
                | Some auto_enroll => p_enabled p && auto_enroll
                | None => false
                end
    | None => false
    end).

(** src/src/db/models/org_policy.rs: OrgPolicy::is_hide_email_disabled *)
Definition OrgPolicy_is_hide_email_disabled (user_uuid : UserId) : Handler bool :=
  gets (λ e w,
    existsb
      (λ p, match Membership_find_confirmed_by_user_and_org user_uuid (p_org_uuid p) (w_db w) with
            | Some m => i32_lt (m_atype m) Admin &&
                        default false (e_parse_disable_hide_email e (p_data p))
            | None => false
            end)
      (OrgPolicy_find_confirmed_by_user_and_active_policy user_uuid SendOptions (w_db w))).

(** src/src/db/models/org_policy.rs: OrgPolicy::is_enabled_for_member *)
Definition OrgPolicy_is_enabled_for_member (member_uuid : MembershipId)
    (policy_type : OrgPolicyType) (db : Db) : bool :=
  match Membership_find_by_uuid member_uuid db with
  | Some m => on_row (OrgPolicy_find_by_org_and_type (m_org_uuid m) policy_type db) p_enabled
  | None => false
  end.
