(* ===== verification/Vault.v ===== *)
(** What hangs on a cipher or a user besides collections: attachments
    (src/src/db/models/attachment.rs), favorites (favorite.rs), folders
    (folder.rs) and archive marks (archive.rs). *)
From S2P Require Import Prelude Table Schema Users.

(** [BigDecimal::to_i64] *)
Definition to_i64 (n : Z) : option Z :=
  if (i64_MIN <=? n)%Z && (n <=? i64_MAX)%Z then Some n else None.

(** [diesel::dsl::sum]: NULL on no rows *)
Definition sql_sum (l : list Z) : option Z :=
  match l with [] => None | _ => Some (foldr Z.add 0%Z l) end.

(** ** Attachments *)

(** src/src/db/models/attachment.rs: Attachment::get_file_path *)
Definition Attachment_get_file_path (a : Attachment) : string :=
  at_cipher_uuid a +:+ "/" +:+ at_id a.

(** src/src/db/models/attachment.rs: Attachment::new *)
Definition Attachment_new (id : string) (cipher_uuid : CipherId) (file_name : string)
    (file_size : Z) (akey : option string) : Attachment :=
  mkAttachment id cipher_uuid file_name file_size akey.

(** src/src/db/models/attachment.rs: Attachment::save *)
Definition Attachment_save (a : Attachment) : Handler () :=
  write (λ d, d <| attachments := upsert a (attachments d) |>).

(** src/src/db/models/attachment.rs: Attachment::delete

    The row goes first; the file after it, so an error of the object store
    leaves a file without a row, never a row without a file. *)
Definition Attachment_delete (a : Attachment) : Handler () :=
  _ ← write (λ d, d <| attachments := delete_where (λ x, at_id x == at_id a) (attachments d) |>);
  let file_path := Attachment_get_file_path a in
  deleted ← gets (λ e _, e_storage_delete e file_path);
  _ ← err_if (negb deleted) "Storage error";
  emit (FileDeleted file_path).

(** src/src/db/models/attachment.rs: Attachment::find_by_id *)
Definition Attachment_find_by_id (id : string) : Handler (option Attachment) :=
  gets (λ e w, first_row (λ a, at_id a == e_lowercase e id) (attachments (w_db w))).

(** src/src/db/models/attachment.rs: Attachment::find_by_cipher *)
Definition Attachment_find_by_cipher (cipher_uuid : CipherId) (db : Db) : list Attachment :=
  sel (λ a, at_cipher_uuid a == cipher_uuid) (attachments db).

(** src/src/db/models/attachment.rs: Attachment::delete_all_by_cipher *)
Definition Attachment_delete_all_by_cipher (cipher_uuid : CipherId) : Handler () :=
  l ← query (Attachment_find_by_cipher cipher_uuid);
  mfor l Attachment_delete.

Definition attachments_with_ciphers (db : Db) : list (Attachment * option Cipher) :=
  left_join (λ a c, ci_uuid c == at_cipher_uuid a) (attachments db) (ciphers db).

Definition sum_or_max (l : list Z) : Z :=
  match option_map to_i64 (sql_sum l) with
  | Some (Some r) => r
  | Some None => i64_MAX
  | None => 0
  end.

(** src/src/db/models/attachment.rs: Attachment::size_by_user *)
Definition Attachment_size_by_user (user_uuid : UserId) (db : Db) : Z :=
  sum_or_max (map (at_file_size ∘ fst)
    (sel (λ '(_, oc), on_row oc (λ c, opt_is (ci_user_uuid c) user_uuid))
       (attachments_with_ciphers db))).

(** src/src/db/models/attachment.rs: Attachment::count_by_user *)
Definition Attachment_count_by_user (user_uuid : UserId) (db : Db) : Z :=
  count (λ '(_, oc), on_row oc (λ c, opt_is (ci_user_uuid c) user_uuid))
    (attachments_with_ciphers db).

(** src/src/db/models/attachment.rs: Attachment::size_by_org *)
Definition Attachment_size_by_org (org_uuid : OrganizationId) (db : Db) : Z :=
  sum_or_max (map (at_file_size ∘ fst)
    (sel (λ '(_, oc), on_row oc (λ c, opt_is (ci_organization_uuid c) org_uuid))
       (attachments_with_ciphers db))).

(** src/src/db/models/attachment.rs: Attachment::count_by_org *)
Definition Attachment_count_by_org (org_uuid : OrganizationId) (db : Db) : Z :=
  count (λ '(_, oc), on_row oc (λ c, opt_is (ci_organization_uuid c) org_uuid))
    (attachments_with_ciphers db).

(** src/src/db/models/attachment.rs: Attachment::find_all_by_user_and_orgs *)
Definition Attachment_find_all_by_user_and_orgs (user_uuid : UserId)
    (org_uuids : list OrganizationId) (db : Db) : list Attachment :=
  map fst
    (sel (λ '(_, oc), on_row oc (λ c, opt_is (ci_user_uuid c) user_uuid) ||
                      on_row oc (λ c, existsb (opt_is (ci_organization_uuid c)) org_uuids))
       (attachments_with_ciphers db)).

(** ** Favorites *)

(** src/src/db/models/favorite.rs: Favorite::is_favorite *)
Definition Favorite_is_favorite (cipher_uuid : CipherId) (user_uuid : UserId) (db : Db) : bool :=
  negb (count (λ f, (fav_cipher_uuid f == cipher_uuid) && (fav_user_uuid f == user_uuid))
          (favorites db) =? 0)%Z.

(** src/src/db/models/favorite.rs: Favorite::set_favorite *)
Definition Favorite_set_favorite (favorite : bool) (cipher_uuid : CipherId) (user_uuid : UserId)
    : Handler () :=
  old ← query (Favorite_is_favorite cipher_uuid user_uuid);
  match (old : bool), favorite with
  | false, true =>
    _ ← User_update_uuid_revision user_uuid;
    write (λ d, d <| favorites := favorites d ++ [mkFavorite user_uuid cipher_uuid] |>)
  | true, false =>
    _ ← User_update_uuid_revision user_uuid;
    write (λ d, d <| favorites :=
      delete_where (λ f, (fav_user_uuid f == user_uuid) && (fav_cipher_uuid f == cipher_uuid))
        (favorites d) |>)
  | _, _ => mret ()
  end.

(** src/src/db/models/favorite.rs: Favorite::delete_all_by_cipher *)
Definition Favorite_delete_all_by_cipher (cipher_uuid : CipherId) : Handler () :=
  write (λ d, d <| favorites := delete_where (λ f, fav_cipher_uuid f == cipher_uuid) (favorites d) |>).

(** src/src/db/models/favorite.rs: Favorite::delete_all_by_user *)
Definition Favorite_delete_all_by_user (user_uuid : UserId) : Handler () :=
  write (λ d, d <| favorites := delete_where (λ f, fav_user_uuid f == user_uuid) (favorites d) |>).

(** src/src/db/models/favorite.rs: Favorite::get_all_cipher_uuid_by_user *)
Definition Favorite_get_all_cipher_uuid_by_user (user_uuid : UserId) (db : Db) : list CipherId :=
  map fav_cipher_uuid (sel (λ f, fav_user_uuid f == user_uuid) (favorites db)).

(** ** Archive marks *)

(** src/src/db/models/archive.rs: Archive::get_archived_at *)
Definition Archive_get_archived_at (cipher_uuid : CipherId) (user_uuid : UserId) (db : Db)
    : option NaiveDateTime :=
  option_map ar_archived_at
    (first_row (λ a, (ar_cipher_uuid a == cipher_uuid) && (ar_user_uuid a == user_uuid))
       (archives db)).

(** src/src/db/models/archive.rs: Archive::save *)
Definition Archive_save (user_uuid : UserId) (cipher_uuid : CipherId) (archived_at : NaiveDateTime)
    : Handler () :=
  _ ← User_update_uuid_revision user_uuid;
  write (λ d, d <| archives := upsert (mkArchive user_uuid cipher_uuid archived_at) (archives d) |>).

(** src/src/db/models/archive.rs: Archive::delete_by_cipher *)
Definition Archive_delete_by_cipher (user_uuid : UserId) (cipher_uuid : CipherId) : Handler () :=
  _ ← User_update_uuid_revision user_uuid;
  write (λ d, d <| archives :=
    delete_where (λ a, (ar_user_uuid a == user_uuid) && (ar_cipher_uuid a == cipher_uuid))
      (archives d) |>).

(** src/src/db/models/archive.rs: Archive::find_by_user *)
Definition Archive_find_by_user (user_uuid : UserId) (db : Db) : list (CipherId * NaiveDateTime) :=
  map (λ a, (ar_cipher_uuid a, ar_archived_at a))
    (sel (λ a, ar_user_uuid a == user_uuid) (archives db)).

(** ** Folders *)

(** src/src/db/models/folder.rs: Folder::new *)
Definition Folder_new (user_uuid : UserId) (name : string) : Handler Folder :=
  t ← now;
  uuid ← get_uuid;
  mret (mkFolder uuid t t user_uuid name).

(** src/src/db/models/folder.rs: FolderCipher::save *)
Definition FolderCipher_save (fc : FolderCipher) : Handler () :=
  write (λ d, d <| folders_ciphers := upsert fc (folders_ciphers d) |>).

(** src/src/db/models/folder.rs: FolderCipher::delete *)
Definition FolderCipher_delete (fc : FolderCipher) : Handler () :=
  write (λ d, d <| folders_ciphers :=
    delete_where (λ x, (fc_cipher_uuid x == fc_cipher_uuid fc) &&
                       (fc_folder_uuid x == fc_folder_uuid fc)) (folders_ciphers d) |>).

(** src/src/db/models/folder.rs: FolderCipher::delete_all_by_cipher *)
Definition FolderCipher_delete_all_by_cipher (cipher_uuid : CipherId) : Handler () :=
  write (λ d, d <| folders_ciphers :=
    delete_where (λ x, fc_cipher_uuid x == cipher_uuid) (folders_ciphers d) |>).

(** src/src/db/models/folder.rs: FolderCipher::delete_all_by_folder *)
Definition FolderCipher_delete_all_by_folder (folder_uuid : FolderId) : Handler () :=
  write (λ d, d <| folders_ciphers :=
    delete_where (λ x, fc_folder_uuid x == folder_uuid) (folders_ciphers d) |>).

(** src/src/db/models/folder.rs: FolderCipher::find_by_folder_and_cipher *)
Definition FolderCipher_find_by_folder_and_cipher (folder_uuid : FolderId)
    (cipher_uuid : CipherId) (db : Db) : option FolderCipher :=
  first_row (λ x, (fc_folder_uuid x == folder_uuid) && (fc_cipher_uuid x == cipher_uuid))
    (folders_ciphers db).

(** src/src/db/models/folder.rs: FolderCipher::find_by_folder *)
Definition FolderCipher_find_by_folder (folder_uuid : FolderId) (db : Db) : list FolderCipher :=
  sel (λ x, fc_folder_uuid x == folder_uuid) (folders_ciphers db).

(** src/src/db/models/folder.rs: FolderCipher::find_by_user *)
Definition FolderCipher_find_by_user (user_uuid : UserId) (db : Db) : list (CipherId * FolderId) :=
  map (λ '(fc, _), (fc_cipher_uuid fc, fc_folder_uuid fc))
    (sel (λ '(_, f), f_user_uuid f == user_uuid)
      (inner_join (λ fc f, f_uuid f == fc_folder_uuid fc) (folders_ciphers db) (folders db))).

(** src/src/db/models/folder.rs: Folder::save *)
Definition Folder_save (f : Folder) : Handler Folder :=
  _ ← User_update_uuid_revision (f_user_uuid f);
  t ← now;
  let f := f <| f_updated_at := t |> in
  _ ← write (λ d, d <| folders := upsert f (folders d) |>);
  mret f.

(** src/src/db/models/folder.rs: Folder::delete *)
Definition Folder_delete (f : Folder) : Handler () :=
  _ ← User_update_uuid_revision (f_user_uuid f);
  _ ← FolderCipher_delete_all_by_folder (f_uuid f);
  write (λ d, d <| folders := delete_where (λ x, f_uuid x == f_uuid f) (folders d) |>).

(** src/src/db/models/folder.rs: Folder::find_by_uuid_and_user *)
Definition Folder_find_by_uuid_and_user (uuid : FolderId) (user_uuid : UserId) (db : Db)
    : option Folder :=
  first_row (λ f, (f_uuid f == uuid) && (f_user_uuid f == user_uuid)) (folders db).

(** src/src/db/models/folder.rs: Folder::find_by_user *)
Definition Folder_find_by_user (user_uuid : UserId) (db : Db) : list Folder :=
  sel (λ f, f_user_uuid f == user_uuid) (folders db).

(** src/src/db/models/folder.rs: Folder::delete_all_by_user *)
Definition Folder_delete_all_by_user (user_uuid : UserId) : Handler () :=
  l ← query (Folder_find_by_user user_uuid);
  mfor l Folder_delete.
