(* ===== verification/Ciphers.v ===== *)
(** Ciphers: who may read and write them, where they are, and their removal
    (src/src/db/models/cipher.rs, and [CipherSyncData] of
    src/src/api/core/ciphers.rs). *)
From S2P Require Import Prelude Table Schema Roles Users Memberships Groups Collections Vault.

(** ** The data of a full sync *)

(** [iter.collect::<HashMap<_, _>>()]: the last entry of a key wins. *)
Definition collect_map {A} (l : list (string * A)) : gmap string A :=
  foldl (λ m kv, <[kv.1 := kv.2]> m) ∅ l.

(** [map.entry(k).or_default().push(v)] in a loop *)
Definition collect_vecs {A} (l : list (string * A)) : gmap string (list A) :=
  foldl (λ m kv, <[kv.1 := default [] (m !! kv.1) ++ [kv.2]]> m) ∅ l.

(** src/src/api/core/ciphers.rs: CipherSyncData *)
Record CipherSyncData := mkCipherSyncData {
  csd_cipher_attachments : gmap string (list Attachment);
  csd_cipher_folders : gmap string FolderId;
  csd_cipher_favorites : gset string;
  csd_cipher_collections : gmap string (list CollectionId);
  csd_cipher_archives : gmap string NaiveDateTime;
  csd_members : gmap string Membership;
  csd_user_collections : gmap string CollectionUser;
  csd_user_collections_groups : gmap string CollectionGroup;
  csd_user_group_full_access_for_organizations : gset string }.

(** src/src/api/core/ciphers.rs: CipherSyncType *)
Inductive CipherSyncType := SyncUser | SyncOrganization.

(** src/src/db/models/cipher.rs: Cipher::get_collections_with_cipher_by_user *)
Definition Cipher_get_collections_with_cipher_by_user (user_uuid : UserId) (db : Db)
    : list (CipherId * CollectionId) :=
  map (λ cc, (cc_cipher_uuid cc, cc_collection_uuid cc))
    (distinct (map (λ '(cc, _, _, _, _, _, _), cc)
      (sel (λ '(cc, c, m, ocu, ogu, og, ocg),
              on_row ocu (λ cu, cu_user_uuid cu == user_uuid) ||
              m_access_all m ||
              (m_atype m <=? 1)%Z ||
              on_row og g_access_all ||
              is_some ocg)
        (left_join (λ '(cc, _, _, _, _, og) cg,
                      (cg_collections_uuid cg == cc_collection_uuid cc) &&
                      on_row og (λ g, cg_groups_uuid cg == g_uuid g))
          (left_join (λ '(_, _, m, _, ogu) g,
                        on_row ogu (λ gu, g_uuid g == gu_groups_uuid gu) &&
                        (g_organizations_uuid g == m_org_uuid m))
            (left_join (λ '(_, _, m, _) gu, gu_users_organizations_uuid gu == m_uuid m)
              (left_join (λ '(cc, _, _) cu, (cu_collection_uuid cu == cc_collection_uuid cc) &&
                                            (cu_user_uuid cu == user_uuid))
                (inner_join (λ '(_, c) m, (m_org_uuid m == c_org_uuid c) &&
                                          (m_user_uuid m == user_uuid))
                  (inner_join (λ cc c, c_uuid c == cc_collection_uuid cc)
                     (ciphers_collections db) (collections db))
                  (users_organizations db))
                (users_collections db))
              (groups_users db))
            (groups db))
          (collections_groups db))))).

(** The fold over the user's group assignments: the most permissive flags. *)
(** src/src/api/core/ciphers.rs:2175-2193: CipherSyncData::new *)
Definition combine_groups (m : gmap string CollectionGroup) (cg : CollectionGroup)
    : gmap string CollectionGroup :=
  <[cg_collections_uuid cg :=
      match m !! cg_collections_uuid cg with
      | Some ex => mkCollectionGroup (cg_collections_uuid ex) (cg_groups_uuid ex)
                     (cg_read_only ex && cg_read_only cg)
                     (cg_hide_passwords ex && cg_hide_passwords cg)
                     (cg_manage ex || cg_manage cg)
      | None => cg
      end]> m.

(** src/src/api/core/ciphers.rs: CipherSyncData::new *)
Definition CipherSyncData_new (cf : Config) (user_id : UserId) (sync_type : CipherSyncType)
    (db : Db) : CipherSyncData :=
  mkCipherSyncData
    (collect_vecs (map (λ a, (at_cipher_uuid a, a))
       (Attachment_find_all_by_user_and_orgs user_id (Membership_get_orgs_by_user user_id db) db)))
    match sync_type with
    | SyncUser => collect_map (FolderCipher_find_by_user user_id db)
    | SyncOrganization => ∅
    end
    match sync_type with
    | SyncUser => list_to_set (Favorite_get_all_cipher_uuid_by_user user_id db)
    | SyncOrganization => ∅
    end
    (collect_vecs (Cipher_get_collections_with_cipher_by_user user_id db))
    match sync_type with
    | SyncUser => collect_map (Archive_find_by_user user_id db)
    | SyncOrganization => ∅
    end
    (collect_map (map (λ m, (m_org_uuid m, m)) (Membership_find_confirmed_by_user user_id db)))
    (collect_map (map (λ cu, (cu_collection_uuid cu, cu)) (CollectionUser_find_by_user user_id db)))
    (if org_groups_enabled cf
     then foldl combine_groups ∅ (CollectionGroup_find_by_user user_id db) else ∅)
    (if org_groups_enabled cf
     then list_to_set (Group_get_orgs_by_user_with_full_access user_id db) else ∅).

(** ** Access *)

Section access.
Context (cf : Config).

(** src/src/db/models/cipher.rs: Cipher::is_owned_by_user *)
Definition Cipher_is_owned_by_user (self : Cipher) (user_uuid : UserId) : bool :=
  opt_is (ci_user_uuid self) user_uuid.

(** src/src/db/models/cipher.rs: Cipher::is_in_full_access_org *)
Definition Cipher_is_in_full_access_org (self : Cipher) (user_uuid : UserId)
    (cipher_sync_data : option CipherSyncData) (db : Db) : bool :=
  match ci_organization_uuid self with
  | Some org_uuid =>
    match cipher_sync_data with
    | Some csd => match csd_members csd !! org_uuid with
                  | Some cached_member => Membership_has_full_access cached_member
                  | None => false
                  end
    | None => match Membership_find_confirmed_by_user_and_org user_uuid org_uuid db with
              | Some member => Membership_has_full_access member
              | None => false
              end
    end
  | None => false
  end.

(** src/src/db/models/cipher.rs: Cipher::is_in_full_access_group *)
Definition Cipher_is_in_full_access_group (self : Cipher) (user_uuid : UserId)
    (cipher_sync_data : option CipherSyncData) (db : Db) : bool :=
  if negb (org_groups_enabled cf) then false
  else match ci_organization_uuid self with
       | Some org_uuid =>
         match cipher_sync_data with
         | Some csd =>
           bool_decide (org_uuid ∈ csd_user_group_full_access_for_organizations csd)
         | None => Group_is_in_full_access_group user_uuid org_uuid db
         end
       | None => false
       end.

Abbreviation Flags := (bool * bool * bool)%type.

(** src/src/db/models/cipher.rs: Cipher::get_user_collections_access_flags *)
Definition Cipher_get_user_collections_access_flags (self : Cipher) (user_uuid : UserId)
    (db : Db) : list Flags :=
  map (λ '(_, _, cu), (cu_read_only cu, cu_hide_passwords cu, cu_manage cu))
    (inner_join (λ '(_, cc) cu, (cu_collection_uuid cu == cc_collection_uuid cc) &&
                                (cu_user_uuid cu == user_uuid))
      (inner_join (λ c cc, cc_cipher_uuid cc == ci_uuid c)
         (sel (λ c, ci_uuid c == ci_uuid self) (ciphers db)) (ciphers_collections db))
      (users_collections db)).

(** src/src/db/models/cipher.rs: Cipher::get_group_collections_access_flags *)
Definition Cipher_get_group_collections_access_flags (self : Cipher) (user_uuid : UserId)
    (db : Db) : list Flags :=
  if negb (org_groups_enabled cf) then []
  else
    map (λ '(_, _, cg, _, _, _), (cg_read_only cg, cg_hide_passwords cg, cg_manage cg))
      (sel (λ '(_, _, _, _, m, _), m_user_uuid m == user_uuid)
        (inner_join (λ '(_, _, cg, _, m) g, (g_uuid g == cg_groups_uuid cg) &&
                                            (g_organizations_uuid g == m_org_uuid m))
          (inner_join (λ '(_, _, _, gu) m, m_uuid m == gu_users_organizations_uuid gu)
            (inner_join (λ '(_, _, cg) gu, gu_groups_uuid gu == cg_groups_uuid cg)
              (inner_join (λ '(_, cc) cg, cg_collections_uuid cg == cc_collection_uuid cc)
                (inner_join (λ c cc, cc_cipher_uuid cc == ci_uuid c)
                   (sel (λ c, ci_uuid c == ci_uuid self) (ciphers db)) (ciphers_collections db))
                (collections_groups db))
              (groups_users db))
            (users_organizations db))
          (groups db))).

(** The rows of [get_access_restrictions] from the sync data. *)
(** src/src/db/models/cipher.rs:617-630: Cipher::get_access_restrictions *)
Definition sync_rows (csd : CipherSyncData) (self : Cipher) : list Flags :=
  flat_map (λ collection,
    match csd_user_collections csd !! collection with
    | Some cu => [(cu_read_only cu, cu_hide_passwords cu, cu_manage cu)]
    | None => match csd_user_collections_groups csd !! collection with
              | Some cg => [(cg_read_only cg, cg_hide_passwords cg, cg_manage cg)]
              | None => []
              end
    end) (default [] (csd_cipher_collections csd !! ci_uuid self)).

(** The final loop of [get_access_restrictions]. *)
(** src/src/db/models/cipher.rs:659-668: Cipher::get_access_restrictions *)
Definition combine_rows (rows : list Flags) : Flags :=
  foldl (λ '(read_only, hide_passwords, manage) '(ro, hp, mn),
           (read_only && ro, hide_passwords && hp, manage || mn))
    (true, true, false) rows.

(** src/src/db/models/cipher.rs: Cipher::get_access_restrictions *)
Definition Cipher_get_access_restrictions (self : Cipher) (user_uuid : UserId)
    (cipher_sync_data : option CipherSyncData) (db : Db) : option Flags :=
  if Cipher_is_owned_by_user self user_uuid ||
     Cipher_is_in_full_access_org self user_uuid cipher_sync_data db ||
     Cipher_is_in_full_access_group self user_uuid cipher_sync_data db
  then Some (false, false, true)
  else
    let rows :=
      match cipher_sync_data with
      | Some csd => sync_rows csd self
      | None =>
        let user_permissions := Cipher_get_user_collections_access_flags self user_uuid db in
        if is_empty user_permissions
        then Cipher_get_group_collections_access_flags self user_uuid db
        else user_permissions
      end in
    if is_empty rows then None else Some (combine_rows rows).

(** src/src/db/models/cipher.rs: Cipher::is_write_accessible_to_user *)
Definition Cipher_is_write_accessible_to_user (self : Cipher) (user_uuid : UserId) (db : Db)
    : bool :=
  match Cipher_get_access_restrictions self user_uuid None db with
  | Some (read_only, _, manage) => negb read_only || manage
  | None => false
  end.

(** src/src/db/models/cipher.rs: Cipher::is_in_editable_collection_by_user *)
Definition Cipher_is_in_editable_collection_by_user (self : Cipher) (user_uuid : UserId)
    (db : Db) : bool :=
  match Cipher_get_access_restrictions self user_uuid None db with
  | Some (read_only, hide_passwords, manage) => (negb read_only && negb hide_passwords) || manage
  | None => false
  end.

(** src/src/db/models/cipher.rs: Cipher::is_accessible_to_user *)
Definition Cipher_is_accessible_to_user (self : Cipher) (user_uuid : UserId) (db : Db) : bool :=
  is_some (Cipher_get_access_restrictions self user_uuid None db).

(** The first three joins of [find_by_user]: only a confirmed membership is
    joined, and the user's collection rows only through it. *)
(** src/src/db/models/cipher.rs:816-829: Cipher::find_by_user *)
Definition visible_join (user_uuid : UserId) (db : Db)
    : list (Cipher * option CollectionCipher * option Membership * option CollectionUser) :=
  left_join (λ '(_, occ, om) cu,
               on_row occ (λ cc, cc_collection_uuid cc == cu_collection_uuid cu) &&
               on_row om (λ m, m_user_uuid m == cu_user_uuid cu))
    (left_join (λ '(c, _) m, opt_is (ci_organization_uuid c) (m_org_uuid m) &&
                             (m_user_uuid m == user_uuid) && (m is Confirmed))
      (left_join (λ c cc, cc_cipher_uuid cc == ci_uuid c)
         (ciphers db) (ciphers_collections db))
      (users_organizations db))
    (users_collections db).

(** src/src/db/models/cipher.rs: Cipher::find_by_user *)
Definition Cipher_find_by_user (user_uuid : UserId) (visible_only : bool)
    (cipher_uuids : list CipherId) (db : Db) : list Cipher :=
  let wanted c := is_empty cipher_uuids || existsb (String.eqb (ci_uuid c)) cipher_uuids in
  if org_groups_enabled cf then
    distinct (map (λ '(c, _, _, _, _, _, _), c)
      (sel (λ '(c, occ, om, ocu, ogu, og, ocg),
              (opt_is (ci_user_uuid c) user_uuid ||
               on_row om m_access_all ||
               on_row ocu (λ cu, cu_user_uuid cu == user_uuid) ||
               on_row og g_access_all ||
               is_some ocg ||
               (negb visible_only && on_row om (λ m, m_atype m <=? 1)%Z)) && wanted c)
        (left_join (λ '(_, occ, _, _, _, og) cg,
                      on_row occ (λ cc, cg_collections_uuid cg == cc_collection_uuid cc) &&
                      on_row og (λ g, cg_groups_uuid cg == g_uuid g))
          (left_join (λ '(_, _, om, _, ogu) g,
                        on_row ogu (λ gu, g_uuid g == gu_groups_uuid gu) &&
                        on_row om (λ m, g_organizations_uuid g == m_org_uuid m))
            (left_join (λ '(_, _, om, _) gu,
                          on_row om (λ m, gu_users_organizations_uuid gu == m_uuid m))
               (visible_join user_uuid db) (groups_users db))
            (groups db))
          (collections_groups db))))
  else
    distinct (map (λ '(c, _, _, _), c)
      (sel (λ '(c, occ, om, ocu),
              (opt_is (ci_user_uuid c) user_uuid ||
               on_row om m_access_all ||
               on_row ocu (λ cu, cu_user_uuid cu == user_uuid) ||
               (negb visible_only && on_row om (λ m, m_atype m <=? 1)%Z)) && wanted c)
        (visible_join user_uuid db))).

(** src/src/db/models/cipher.rs: Cipher::find_by_user_visible *)
Definition Cipher_find_by_user_visible (user_uuid : UserId) (db : Db) : list Cipher :=
  Cipher_find_by_user user_uuid true [] db.

(** src/src/db/models/cipher.rs: Cipher::find_by_user_and_ciphers *)
Definition Cipher_find_by_user_and_ciphers (user_uuid : UserId) (cipher_uuids : list CipherId)
    (db : Db) : list Cipher :=
  Cipher_find_by_user user_uuid true cipher_uuids db.

(** src/src/db/models/cipher.rs: Cipher::find_by_user_and_cipher *)
Definition Cipher_find_by_user_and_cipher (user_uuid : UserId) (cipher_uuid : CipherId)
    (db : Db) : option Cipher :=
  last (Cipher_find_by_user user_uuid true [cipher_uuid] db).
End access.

(** ** Queries *)

(** src/src/db/models/cipher.rs: Cipher::find_by_uuid *)
Definition Cipher_find_by_uuid (uuid : CipherId) (db : Db) : option Cipher :=
  first_row (λ c, ci_uuid c == uuid) (ciphers db).

(** src/src/db/models/cipher.rs: Cipher::find_by_uuid_and_org *)
Definition Cipher_find_by_uuid_and_org (cipher_uuid : CipherId) (org_uuid : OrganizationId)
    (db : Db) : option Cipher :=
  first_row (λ c, (ci_uuid c == cipher_uuid) && opt_is (ci_organization_uuid c) org_uuid)
    (ciphers db).

(** src/src/db/models/cipher.rs: Cipher::find_owned_by_user *)
Definition Cipher_find_owned_by_user (user_uuid : UserId) (db : Db) : list Cipher :=
  sel (λ c, opt_is (ci_user_uuid c) user_uuid && is_none (ci_organization_uuid c)) (ciphers db).

(** src/src/db/models/cipher.rs: Cipher::count_owned_by_user *)
Definition Cipher_count_owned_by_user (user_uuid : UserId) (db : Db) : Z :=
  count (λ c, opt_is (ci_user_uuid c) user_uuid) (ciphers db).

(** src/src/db/models/cipher.rs: Cipher::find_by_org *)
Definition Cipher_find_by_org (org_uuid : OrganizationId) (db : Db) : list Cipher :=
  sel (λ c, opt_is (ci_organization_uuid c) org_uuid) (ciphers db).

(** src/src/db/models/cipher.rs: Cipher::count_by_org *)
Definition Cipher_count_by_org (org_uuid : OrganizationId) (db : Db) : Z :=
  count (λ c, opt_is (ci_organization_uuid c) org_uuid) (ciphers db).

(** src/src/db/models/cipher.rs: Cipher::find_by_folder *)
Definition Cipher_find_by_folder (folder_uuid : FolderId) (db : Db) : list Cipher :=
  map snd (sel (λ '(fc, _), fc_folder_uuid fc == folder_uuid)
    (inner_join (λ fc c, ci_uuid c == fc_cipher_uuid fc) (folders_ciphers db) (ciphers db))).

(** src/src/db/models/cipher.rs: Cipher::find_deleted_before *)
Definition Cipher_find_deleted_before (dt : NaiveDateTime) (db : Db) : list Cipher :=
  sel (λ c, on_row (ci_deleted_at c) (λ t, t <? dt)%Z) (ciphers db).

(** src/src/db/models/cipher.rs: Cipher::get_folder_uuid *)
Definition Cipher_get_folder_uuid (self : Cipher) (user_uuid : UserId) (db : Db)
    : option FolderId :=
  option_map (λ '(fc, _), fc_folder_uuid fc)
    (first_row (λ '(fc, f), (f_user_uuid f == user_uuid) && (fc_cipher_uuid fc == ci_uuid self))
      (inner_join (λ fc f, f_uuid f == fc_folder_uuid fc) (folders_ciphers db) (folders db))).

(** The joins of [get_collections] and [get_admin_collections] with groups:
    the collections of a cipher with the user's membership of their
    organization, the user's and the user's groups' assignment to them. *)
(** src/src/db/models/cipher.rs:979-1004: Cipher::get_collections *)
Definition cipher_collections_join (self : Cipher) (user_uuid : UserId) (db : Db)
    : list (CollectionCipher * Collection * option Membership * option CollectionUser *
            option GroupUser * option Group * option CollectionGroup) :=
  left_join (λ '(cc, _, _, _, _, og) cg,
               (cg_collections_uuid cg == cc_collection_uuid cc) &&
               on_row og (λ g, cg_groups_uuid cg == g_uuid g))
    (left_join (λ '(_, _, om, _, ogu) g,
                  on_row ogu (λ gu, g_uuid g == gu_groups_uuid gu) &&
                  on_row om (λ m, g_organizations_uuid g == m_org_uuid m))
      (left_join (λ '(_, _, om, _) gu, on_row om (λ m, gu_users_organizations_uuid gu == m_uuid m))
        (left_join (λ '(cc, _, _) cu, (cu_collection_uuid cu == cc_collection_uuid cc) &&
                                      (cu_user_uuid cu == user_uuid))
          (left_join (λ '(_, c) m, (m_org_uuid m == c_org_uuid c) && (m_user_uuid m == user_uuid))
            (inner_join (λ cc c, c_uuid c == cc_collection_uuid cc)
               (sel (λ cc, cc_cipher_uuid cc == ci_uuid self) (ciphers_collections db))
               (collections db))
            (users_organizations db))
          (users_collections db))
        (groups_users db))
      (groups db))
    (collections_groups db).

(** The same without groups; here the membership is an inner join. *)
Definition cipher_collections_join_nogroups (self : Cipher) (user_uuid : UserId) (db : Db)
    : list (CollectionCipher * Collection * Membership * option CollectionUser) :=
  left_join (λ '(cc, _, _) cu, (cu_collection_uuid cu == cc_collection_uuid cc) &&
                               (cu_user_uuid cu == user_uuid))
    (inner_join (λ '(_, c) m, (m_org_uuid m == c_org_uuid c) && (m_user_uuid m == user_uuid))
      (inner_join (λ cc c, c_uuid c == cc_collection_uuid cc)
         (sel (λ cc, cc_cipher_uuid cc == ci_uuid self) (ciphers_collections db))
         (collections db))
      (users_organizations db))
    (users_collections db).

(** src/src/db/models/cipher.rs: Cipher::get_collections *)
Definition Cipher_get_collections (cf : Config) (self : Cipher) (user_uuid : UserId) (db : Db)
    : list CollectionId :=
  if org_groups_enabled cf then
    map (λ '(cc, _, _, _, _, _, _), cc_collection_uuid cc)
      (sel (λ '(_, _, om, ocu, _, og, ocg),
              on_row om m_access_all ||
              on_row ocu (λ cu, (cu_user_uuid cu == user_uuid) && negb (cu_read_only cu)) ||
              on_row og g_access_all ||
              on_row ocg (λ cg, negb (cg_read_only cg)))
        (cipher_collections_join self user_uuid db))
  else
    map (λ '(cc, _, _, _), cc_collection_uuid cc)
      (sel (λ '(_, _, m, ocu),
              m_access_all m ||
              on_row ocu (λ cu, (cu_user_uuid cu == user_uuid) && negb (cu_read_only cu)))
        (cipher_collections_join_nogroups self user_uuid db)).

(** src/src/db/models/cipher.rs: Cipher::get_admin_collections *)
Definition Cipher_get_admin_collections (cf : Config) (self : Cipher) (user_uuid : UserId)
    (db : Db) : list CollectionId :=
  if org_groups_enabled cf then
    map (λ '(cc, _, _, _, _, _, _), cc_collection_uuid cc)
      (sel (λ '(_, _, om, ocu, _, og, ocg),
              on_row om m_access_all ||
              on_row ocu (λ cu, (cu_user_uuid cu == user_uuid) && negb (cu_read_only cu)) ||
              on_row og g_access_all ||
              on_row ocg (λ cg, negb (cg_read_only cg)) ||
              on_row om (λ m, m_atype m <=? 1)%Z)
        (cipher_collections_join self user_uuid db))
  else
    map (λ '(cc, _, _, _), cc_collection_uuid cc)
      (sel (λ '(_, _, m, ocu),
              m_access_all m ||
              on_row ocu (λ cu, (cu_user_uuid cu == user_uuid) && negb (cu_read_only cu)) ||
              (m_atype m <=? 1)%Z)
        (cipher_collections_join_nogroups self user_uuid db)).

(** ** Changes *)

(** src/src/db/models/cipher.rs: Cipher::new *)
Definition Cipher_new (atype : Z) (name : string) : Handler Cipher :=
  t ← now;
  uuid ← get_uuid;
  mret (mkCipher uuid t t None None None atype name None None "" None None None).


(** src/src/db/models/cipher.rs: Cipher::update_users_revision *)
Definition Cipher_update_users_revision (c : Cipher) : Handler (list UserId) :=
  match ci_user_uuid c with
  | Some user_uuid => _ ← User_update_uuid_revision user_uuid; mret [user_uuid]
  | None =>
    match ci_organization_uuid c with
    | Some org_uuid =>
      collection_users ← query (Membership_find_by_cipher_and_org (ci_uuid c) org_uuid);
      groups_on ← cfg org_groups_enabled;
      group_users ← (if (groups_on : bool)
                     then query (Membership_find_by_cipher_and_org_with_group (ci_uuid c) org_uuid)
                     else mret []);
      let members := collection_users ++ group_users in
      _ ← mfor members (λ m, User_update_uuid_revision (m_user_uuid m));
      mret (map m_user_uuid members)
    | None => mret []
    end
  end.

(** src/src/db/models/cipher.rs: Cipher::save *)
Definition Cipher_save (c : Cipher) : Handler Cipher :=
  _ ← Cipher_update_users_revision c;
  t ← now;
  let c := c <| ci_updated_at := t |> in
  _ ← write (λ d, d <| ciphers := upsert c (ciphers d) |>);
  mret c.

(** src/src/db/models/cipher.rs: Cipher::delete *)
Definition Cipher_delete (c : Cipher) : Handler () :=
  _ ← Cipher_update_users_revision c;
  _ ← FolderCipher_delete_all_by_cipher (ci_uuid c);
  _ ← CollectionCipher_delete_all_by_cipher (ci_uuid c);
  _ ← Attachment_delete_all_by_cipher (ci_uuid c);
  _ ← Favorite_delete_all_by_cipher (ci_uuid c);
  write (λ d, d <| ciphers := delete_where (λ x, ci_uuid x == ci_uuid c) (ciphers d) |>).

(** src/src/db/models/cipher.rs: Cipher::delete_all_by_organization *)
Definition Cipher_delete_all_by_organization (org_uuid : OrganizationId) : Handler () :=
  l ← query (Cipher_find_by_org org_uuid);
  mfor l Cipher_delete.

(** src/src/db/models/cipher.rs: Cipher::delete_all_by_user *)
Definition Cipher_delete_all_by_user (user_uuid : UserId) : Handler () :=
  l ← query (Cipher_find_owned_by_user user_uuid);
  mfor l Cipher_delete.

(** src/src/db/models/cipher.rs: Cipher::purge_trash *)
Definition Cipher_purge_trash : Handler () :=
  days ← cfg trash_auto_delete_days;
  match (days : option Z) with
  | Some auto_delete_days =>
    t ← now;
    delta ← unwrap (try_days auto_delete_days) "try_days";
    dt ← unwrap (dt_sub t delta) "NaiveDateTime - TimeDelta overflowed";
    l ← query (Cipher_find_deleted_before dt);
    mfor l (λ c, ignore (Cipher_delete c))
  | None => mret ()
  end.

(** src/src/db/models/cipher.rs: Cipher::move_to_folder *)
Definition Cipher_move_to_folder (self : Cipher) (folder_uuid : option FolderId)
    (user_uuid : UserId) : Handler () :=
  _ ← User_update_uuid_revision user_uuid;
  old ← query (Cipher_get_folder_uuid self user_uuid);
  match old, folder_uuid with
  | None, None => mret ()
  | Some old_folder, Some new_folder =>
    if old_folder == new_folder then mret ()
    else
      fc ← query (FolderCipher_find_by_folder_and_cipher old_folder (ci_uuid self));
      _ ← match (fc : option FolderCipher) with
          | Some fc => FolderCipher_delete fc
          | None => mret ()
          end;
      FolderCipher_save (mkFolderCipher (ci_uuid self) new_folder)
  | None, Some new_folder => FolderCipher_save (mkFolderCipher (ci_uuid self) new_folder)
  | Some old_folder, None =>
    fc ← query (FolderCipher_find_by_folder_and_cipher old_folder (ci_uuid self));
    match (fc : option FolderCipher) with
    | Some fc => FolderCipher_delete fc
    | None => err "Couldn't move from previous folder"
    end
  end.

(** src/src/db/models/cipher.rs: Cipher::set_favorite *)
Definition Cipher_set_favorite (self : Cipher) (favorite : option bool) (user_uuid : UserId)
    : Handler () :=
  match favorite with
  | None => mret ()
  | Some status => Favorite_set_favorite status (ci_uuid self) user_uuid
  end.

(** src/src/db/models/cipher.rs: Cipher::set_archived_at *)
Definition Cipher_set_archived_at (self : Cipher) (archived_at : NaiveDateTime)
    (user_uuid : UserId) : Handler () :=
  Archive_save user_uuid (ci_uuid self) archived_at.

(** src/src/db/models/cipher.rs: Cipher::unarchive *)
Definition Cipher_unarchive (self : Cipher) (user_uuid : UserId) : Handler () :=
  Archive_delete_by_cipher user_uuid (ci_uuid self).
