(* ===== verification/Util.v ===== *)
(** The parsing helpers of src/src/util.rs the handlers use: a JSON field that
    holds a number or its decimal text, and the lookup of object members. *)
From S2P Require Import Prelude Table Schema.
From stdpp Require Export pretty.

(** src/src/util.rs: NumberOrString *)
Inductive NumberOrString :=
| Number (n : Z)
| NString (s : string).

(** [<i64 as FromStr>::from_str]: an optional sign, then one or more decimal
    digits; the value must fit. *)
Definition digit_of (c : Ascii.ascii) : option Z :=
  let n := Z.of_nat (Ascii.nat_of_ascii c) in
  if (48 <=? n)%Z && (n <=? 57)%Z then Some (n - 48)%Z else None.

Fixpoint parse_digits (acc : Z) (s : string) : option Z :=
  match s with
  | EmptyString => Some acc
  | String c s' => match digit_of c with
                   | Some d => parse_digits (10 * acc + d)%Z s'
                   | None => None
                   end
  end.

Definition parse_nat_digits (s : string) : option Z :=
  if str_is_empty s then None else parse_digits 0 s.

Definition parse_int (s : string) : option Z :=
  match s with
  | String c s' =>
    if Ascii.eqb c (Ascii.ascii_of_nat 45) then option_map Z.opp (parse_nat_digits s')
    else if Ascii.eqb c (Ascii.ascii_of_nat 43) then parse_nat_digits s'
    else parse_nat_digits s
  | EmptyString => None
  end.

Definition fits (lo hi n : Z) : option Z :=
  if (lo <=? n)%Z && (n <=? hi)%Z then Some n else None.

Definition i32_MIN : Z := - 2 ^ 31.

(** src/src/util.rs: NumberOrString::into_string *)
Definition into_string (x : NumberOrString) : string :=
  match x with Number n => pretty n | NString s => s end.

(** src/src/util.rs: NumberOrString::into_i32 *)
Definition into_i32 (x : NumberOrString) : res Z :=
  match x with
  | Number n => match fits i32_MIN i32_MAX n with
                | Some n => Ok n
                | None => Err (Msg "Number does not fit in i32")
                end
  | NString s => match parse_int s ≫= fits i32_MIN i32_MAX with
                 | Some n => Ok n
                 | None => Err (Msg "Can't convert to number")
                 end
  end.

(** src/src/util.rs: NumberOrString::into_i64 *)
Definition into_i64 (x : NumberOrString) : res Z :=
  match x with
  | Number n => Ok n
  | NString s => match parse_int s ≫= fits i64_MIN i64_MAX with
                 | Some n => Ok n
                 | None => Err (Msg "Can't convert to number")
                 end
  end.

(** [?] on a result *)
Definition lift {A} (r : res A) : Handler A := λ e w, (r, w).

(** [i32] addition in a release build *)
Definition i32_wrap (n : Z) : Z := ((n + 2 ^ 31) mod 2 ^ 32 - 2 ^ 31)%Z.

(** [i64::checked_add], [checked_mul], [checked_sub] *)
Definition checked_add (a b : Z) : option Z := fits i64_MIN i64_MAX (a + b)%Z.
Definition checked_sub (a b : Z) : option Z := fits i64_MIN i64_MAX (a - b)%Z.
Definition checked_mul (a b : Z) : option Z := fits i64_MIN i64_MAX (a * b)%Z.

(** The members of a JSON object *)
Fixpoint assoc {A} (k : string) (l : list (string * A)) : option A :=
  match l with
  | [] => None
  | (k', v) :: l' => if k' == k then Some v else assoc k l'
  end.

Definition member (k : string) (v : Value) : option Value :=
  match v with VObject l => assoc k l | _ => None end.

Definition remove_member (k : string) (v : Value) : Value :=
  match v with
  | VObject l => VObject (List.filter (λ kv, kv.1 != k) l)
  | _ => v
  end.

(** [o.insert(k, v)] when [v0] is an object *)
Definition insert_member (k : string) (v v0 : Value) : Value :=
  match v0 with
  | VObject l => VObject (List.filter (λ kv, kv.1 != k) l ++ [(k, v)])
  | _ => v0
  end.

Lemma m_rel_lift {A} R `{∀ e : Env, PreOrder (R e)} (r : res A) : m_rel R (lift r).
Proof. intros e w. simpl. reflexivity. Qed.
#[export] Hint Resolve m_rel_lift : mrel.

(** A [max_access_count] in range never makes the counter wrap. *)
Lemma i32_wrap_id n : (i32_MIN ≤ n ≤ i32_MAX)%Z → i32_wrap n = n.
Proof. unfold i32_wrap, i32_MIN, i32_MAX. intros. rewrite Z.mod_small; lia. Qed.
