(* ===== verification/Settings.v ===== *)
(** The decisions src/src/config.rs takes from the settings: who may sign up,
    be invited, or create an organization. *)
From S2P Require Import Prelude Table Schema.

(** The characters of a string, split at every [sep]: [str::split(sep)]. *)
Fixpoint split_aux (sep : Ascii.ascii) (acc s : string) : list string :=
  match s with
  | EmptyString => [acc]
  | String c s' => if Ascii.eqb c sep then acc :: split_aux sep "" s'
                   else split_aux sep (acc +:+ String c EmptyString) s'
  end.
Definition split (sep : Ascii.ascii) (s : string) : list string := split_aux sep "" s.

(** [s.rsplitn(2, sep)]: [None] when [sep] does not occur, otherwise what is
    after its last occurrence and what is before it. *)
Fixpoint rsplit_once (sep : Ascii.ascii) (s : string) : option (string * string) :=
  match s with
  | EmptyString => None
  | String c s' =>
    match rsplit_once sep s' with
    | Some (after, before) => Some (after, String c before)
    | None => if Ascii.eqb c sep then Some (s', EmptyString) else None
    end
  end.

Definition comma : Ascii.ascii := Ascii.ascii_of_nat 44.
Definition at_sign : Ascii.ascii := Ascii.ascii_of_nat 64.

(** src/src/config.rs: is_email_domain_allowed *)
Definition is_email_domain_allowed (e : Env) (email : string) : bool :=
  match rsplit_once at_sign email with
  | None => false
  | Some (domain, name) =>
    if str_is_empty domain || str_is_empty name then false
    else
      let email_domain := e_lowercase e domain in
      let whitelist := signups_domains_whitelist (e_cfg e) in
      str_is_empty whitelist ||
      existsb (λ d, e_trim e d == email_domain) (split comma whitelist)
  end.

(** src/src/config.rs: is_signup_allowed *)
Definition is_signup_allowed (e : Env) (email : string) : bool :=
  if str_is_empty (signups_domains_whitelist (e_cfg e)) then signups_allowed (e_cfg e)
  else is_email_domain_allowed e email.

(** src/src/config.rs: is_signup_disabled *)
Definition is_signup_disabled (cf : Config) : bool :=
  (negb (signups_allowed cf) && str_is_empty (signups_domains_whitelist cf) &&
   (mail_enabled cf || negb (invitations_allowed cf)))
  || (sso_enabled cf && sso_only cf).

(** src/src/config.rs: is_org_creation_allowed *)
Definition is_org_creation_allowed (e : Env) (email : string) : bool :=
  let users := org_creation_users (e_cfg e) in
  if str_is_empty users || (users == "all") then true
  else if users == "none" then false
  else existsb (λ u, e_trim e u == e_lowercase e email) (split comma users).
