(* ===== verification/Devices.v ===== *)
(** Devices, the login attempts waiting for a second factor, and the security
    stamp of an account: src/src/db/models/device.rs,
    src/src/db/models/two_factor_incomplete.rs and the stamp and password
    methods of src/src/db/models/user.rs. *)
From S2P Require Import Prelude Table Schema Users.

(** src/src/db/models/device.rs: Device::new *)
Definition Device_new (uuid : DeviceId) (user_uuid : UserId) (name : string) (atype : Z)
    : Handler Device :=
  t ← now;
  push ← get_uuid;
  token ← get_random;
  mret (mkDevice uuid t t user_uuid name atype (Some push) None token None).

(** src/src/db/models/device.rs: Device::is_new *)
Definition Device_is_new (d : Device) : bool := (d_created_at d =? d_updated_at d)%Z.

(** src/src/db/models/device.rs: Device::delete_twofactor_remember *)
Definition Device_delete_twofactor_remember (d : Device) : Device :=
  d <| d_twofactor_remember := None |>.

(** src/src/db/models/device.rs: Device::save *)
Definition Device_save (d : Device) (update_time : bool) : Handler Device :=
  t ← now;
  let d := if update_time then d <| d_updated_at := t |> else d in
  _ ← write (λ b, b <| devices := upsert d (devices b) |>);
  mret d.

(** src/src/db/models/device.rs: Device::delete_all_by_user *)
Definition Device_delete_all_by_user (user_uuid : UserId) : Handler () :=
  write (λ b, b <| devices := delete_where (λ d, d_user_uuid d == user_uuid) (devices b) |>).

(** src/src/db/models/device.rs: Device::find_by_uuid_and_user *)
Definition Device_find_by_uuid_and_user (uuid : DeviceId) (user_uuid : UserId) (db : Db)
    : option Device :=
  first_row (λ d, (d_uuid d == uuid) && (d_user_uuid d == user_uuid)) (devices db).

(** src/src/db/models/device.rs: Device::find_by_user *)
Definition Device_find_by_user (user_uuid : UserId) (db : Db) : list Device :=
  sel (λ d, d_user_uuid d == user_uuid) (devices db).

(** src/src/db/models/device.rs: Device::find_by_uuid *)
Definition Device_find_by_uuid (uuid : DeviceId) (db : Db) : option Device :=
  first_row (λ d, d_uuid d == uuid) (devices db).

(** src/src/db/models/device.rs: Device::clear_push_token_by_uuid *)
Definition Device_clear_push_token_by_uuid (uuid : DeviceId) : Handler () :=
  write (λ b, b <| devices := update_where (λ d, d_uuid d == uuid)
                                (λ d, d <| d_push_token := None |>) (devices b) |>).

(** src/src/db/models/device.rs: Device::find_by_refresh_token *)
Definition Device_find_by_refresh_token (refresh_token : string) (db : Db) : option Device :=
  first_row (λ d, d_refresh_token d == refresh_token) (devices db).

(** src/src/db/models/device.rs: Device::find_push_devices_by_user *)
Definition Device_find_push_devices_by_user (user_uuid : UserId) (db : Db) : list Device :=
  sel (λ d, (d_user_uuid d == user_uuid) && is_some (d_push_token d)) (devices db).

(** src/src/db/models/device.rs: Device::check_user_has_push_device *)
Definition Device_check_user_has_push_device (user_uuid : UserId) (db : Db) : bool :=
  negb (count (λ d, (d_user_uuid d == user_uuid) && is_some (d_push_token d)) (devices db) =? 0)%Z.

(** src/src/db/models/device.rs: Device::rotate_refresh_tokens_by_user *)
Definition Device_rotate_refresh_tokens_by_user (user_uuid : UserId) : Handler () :=
  l ← query (Device_find_by_user user_uuid);
  mfor l (λ d,
    token ← get_random;
    _ ← Device_save (d <| d_refresh_token := token |>) false;
    mret ()).

(** ** Passwords and the security stamp *)

(** src/src/crypto.rs: verify_password_hash *)
Definition verify_password_hash (e : Env) (secret salt previous : string) (iterations : Z) : bool :=
  e_pbkdf2 e secret salt iterations == previous.

(** src/src/db/models/user.rs: User::check_valid_password *)
Definition User_check_valid_password (u : User) (password : string) : Handler bool :=
  _ ← (if (u_password_iterations u =? 0)%Z then panic "Iterations can't be zero" else mret ());
  gets (λ e _, verify_password_hash e password (u_salt u) (u_password_hash u)
                 (u_password_iterations u)).

(** src/src/db/models/user.rs: User::check_valid_recovery_code *)
Definition User_check_valid_recovery_code (e : Env) (u : User) (recovery_code : string) : bool :=
  match u_totp_recover u with
  | Some totp_recover => recovery_code == e_lowercase e totp_recover
  | None => false
  end.

(** src/src/db/models/user.rs: User::check_valid_api_key *)
Definition User_check_valid_api_key (u : User) (key : string) : bool :=
  match u_api_key u with Some api_key => api_key == key | None => false end.

(** src/src/db/models/user.rs: User::reset_security_stamp *)
Definition User_reset_security_stamp (u : User) : Handler User :=
  stamp ← get_uuid;
  let u := u <| u_security_stamp := stamp |> in
  _ ← Device_rotate_refresh_tokens_by_user (u_uuid u);
  mret u.

(** src/src/db/models/user.rs: User::set_stamp_exception *)
Definition User_set_stamp_exception (u : User) (route_exception : list string) : Handler User :=
  t ← now;
  s ← gets (λ e _, e_stamp_json e
              (mkUserStampException route_exception (u_security_stamp u) (t + 2 * 60)%Z));
  mret (u <| u_stamp_exception := Some s |>).

(** src/src/db/models/user.rs: User::reset_stamp_exception *)
Definition User_reset_stamp_exception (u : User) : User := u <| u_stamp_exception := None |>.

(** src/src/db/models/user.rs: User::set_password *)
Definition User_set_password (u : User) (password : string) (new_key : option string)
    (reset_security_stamp : bool) (allow_next_route : option (list string)) : Handler User :=
  _ ← (if (u_password_iterations u =? 0)%Z then panic "Iterations can't be zero" else mret ());
  hash ← gets (λ e _, e_pbkdf2 e password (u_salt u) (u_password_iterations u));
  let u := u <| u_password_hash := hash |> in
  u ← match allow_next_route with
      | Some route => User_set_stamp_exception u route
      | None => mret u
      end;
  let u := match new_key with Some k => u <| u_akey := k |> | None => u end in
  if reset_security_stamp then User_reset_security_stamp u else mret u.

(** ** Logins waiting for a second factor *)

(** src/src/db/models/two_factor_incomplete.rs: TwoFactorIncomplete::find_by_user_and_device *)
Definition TwoFactorIncomplete_find_by_user_and_device (user_uuid : UserId)
    (device_uuid : DeviceId) (db : Db) : option TwoFactorIncomplete :=
  first_row (λ t, (ti_user_uuid t == user_uuid) && (ti_device_uuid t == device_uuid))
    (twofactor_incomplete db).

(** src/src/db/models/two_factor_incomplete.rs: TwoFactorIncomplete::mark_incomplete *)
Definition TwoFactorIncomplete_mark_incomplete (user_uuid : UserId) (device_uuid : DeviceId)
    (device_name : string) (device_type : Z) (ip : string) : Handler () :=
  limit ← cfg incomplete_2fa_time_limit;
  mail ← cfg mail_enabled;
  if (limit <=? 0)%Z || negb mail then mret ()
  else
    existing ← query (TwoFactorIncomplete_find_by_user_and_device user_uuid device_uuid);
    if is_some existing then mret ()
    else
      t ← now;
      write (λ d, d <| twofactor_incomplete := twofactor_incomplete d ++
        [mkTwoFactorIncomplete user_uuid device_uuid device_name device_type t ip] |>).

(** src/src/db/models/two_factor_incomplete.rs: TwoFactorIncomplete::delete_by_user_and_device *)
Definition TwoFactorIncomplete_delete_by_user_and_device (user_uuid : UserId)
    (device_uuid : DeviceId) : Handler () :=
  write (λ d, d <| twofactor_incomplete :=
    delete_where (λ t, (ti_user_uuid t == user_uuid) && (ti_device_uuid t == device_uuid))
      (twofactor_incomplete d) |>).

(** src/src/db/models/two_factor_incomplete.rs: TwoFactorIncomplete::mark_complete *)
Definition TwoFactorIncomplete_mark_complete (user_uuid : UserId) (device_uuid : DeviceId)
    : Handler () :=
  limit ← cfg incomplete_2fa_time_limit;
  mail ← cfg mail_enabled;
  if (limit <=? 0)%Z || negb mail then mret ()
  else TwoFactorIncomplete_delete_by_user_and_device user_uuid device_uuid.

(** src/src/db/models/two_factor_incomplete.rs: TwoFactorIncomplete::find_logins_before *)
Definition TwoFactorIncomplete_find_logins_before (dt : NaiveDateTime) (db : Db)
    : list TwoFactorIncomplete :=
  sel (λ t, ti_login_time t <? dt)%Z (twofactor_incomplete db).

(** src/src/db/models/two_factor_incomplete.rs: TwoFactorIncomplete::delete *)
Definition TwoFactorIncomplete_delete (t : TwoFactorIncomplete) : Handler () :=
  TwoFactorIncomplete_delete_by_user_and_device (ti_user_uuid t) (ti_device_uuid t).

(** src/src/db/models/two_factor_incomplete.rs: TwoFactorIncomplete::delete_all_by_user *)
Definition TwoFactorIncomplete_delete_all_by_user (user_uuid : UserId) : Handler () :=
  write (λ d, d <| twofactor_incomplete :=
    delete_where (λ t, ti_user_uuid t == user_uuid) (twofactor_incomplete d) |>).
