(* ===== verification/AuthRequests.v ===== *)
(** Requests to sign in from another device, waiting for the approval of a
    device that is signed in: src/src/db/models/auth_request.rs. *)
From S2P Require Import Prelude Table Schema.

(** src/src/db/models/auth_request.rs: AuthRequest::new *)
Definition AuthRequest_new (user_uuid : UserId) (request_device_identifier : DeviceId)
    (device_type : Z) (request_ip access_code public_key : string) : Handler AuthRequest :=
  t ← now;
  uuid ← get_uuid;
  mret (mkAuthRequest uuid user_uuid None request_device_identifier device_type request_ip None
          access_code public_key None None None t None None).

(** src/src/db/models/auth_request.rs: AuthRequest::save *)
Definition AuthRequest_save (r : AuthRequest) : Handler () :=
  write (λ d, d <| auth_requests := upsert r (auth_requests d) |>).

(** src/src/db/models/auth_request.rs: AuthRequest::find_by_uuid *)
Definition AuthRequest_find_by_uuid (uuid : string) (db : Db) : option AuthRequest :=
  first_row (λ r, aq_uuid r == uuid) (auth_requests db).

(** src/src/db/models/auth_request.rs: AuthRequest::find_by_uuid_and_user *)
Definition AuthRequest_find_by_uuid_and_user (uuid : string) (user_uuid : UserId) (db : Db)
    : option AuthRequest :=
  first_row (λ r, (aq_uuid r == uuid) && (aq_user_uuid r == user_uuid)) (auth_requests db).

(** src/src/db/models/auth_request.rs: AuthRequest::find_by_user *)
Definition AuthRequest_find_by_user (user_uuid : UserId) (db : Db) : list AuthRequest :=
  sel (λ r, aq_user_uuid r == user_uuid) (auth_requests db).

(** [ORDER BY creation_date DESC LIMIT 1] *)
Definition latest (l : list AuthRequest) : option AuthRequest :=
  foldl (λ best r, match best with
                   | Some b => if (aq_creation_date b <? aq_creation_date r)%Z then Some r else best
                   | None => Some r
                   end) None l.

(** src/src/db/models/auth_request.rs: AuthRequest::find_by_user_and_requested_device *)
Definition AuthRequest_find_by_user_and_requested_device (user_uuid : UserId)
    (device_uuid : DeviceId) (db : Db) : option AuthRequest :=
  latest (sel (λ r, (aq_user_uuid r == user_uuid) &&
                    (aq_request_device_identifier r == device_uuid) &&
                    is_none (aq_approved r)) (auth_requests db)).

(** src/src/db/models/auth_request.rs: AuthRequest::find_created_before *)
Definition AuthRequest_find_created_before (dt : NaiveDateTime) (db : Db) : list AuthRequest :=
  sel (λ r, aq_creation_date r <? dt)%Z (auth_requests db).

(** src/src/db/models/auth_request.rs: AuthRequest::delete *)
Definition AuthRequest_delete (r : AuthRequest) : Handler () :=
  write (λ d, d <| auth_requests := delete_where (λ x, aq_uuid x == aq_uuid r) (auth_requests d) |>).

(** src/src/db/models/auth_request.rs: AuthRequest::check_access_code *)
Definition AuthRequest_check_access_code (r : AuthRequest) (access_code : string) : bool :=
  aq_access_code r == access_code.

(** src/src/db/models/auth_request.rs: AuthRequest::purge_expired_auth_requests *)
Definition AuthRequest_purge_expired_auth_requests : Handler () :=
  t ← now;
  l ← query (AuthRequest_find_created_before (t - 15 * 60)%Z);
  mfor l (λ r, ignore (AuthRequest_delete r)).
