(* ===== verification/Auth.v ===== *)
(** The request guards, in src/src/auth.rs, say who is calling, and with which role
    in which organization. *)
From S2P Require Import Prelude Table Schema Roles Users Memberships Groups Collections Devices.

(** What a guard reads of a request.  [rq_param_org] is [request.param(1)]
    when it parses as an id, [rq_query_org] the [organizationId] query value;
    [rq_param_col] and [rq_query_col] the same for collections. *)
Record Request := mkRequest {
  rq_authorization : option string;
  rq_route : option string;
  rq_host : string;
  rq_ip : string;
  rq_param_org : option string;
  rq_query_org : option string;
  rq_param_col : option string;
  rq_query_col : option string }.

(** src/src/auth.rs: Headers *)
Record Headers := mkHeaders {
  h_host : string;
  h_device : Device;
  h_user : User;
  h_ip : string }.

(** src/src/auth.rs: OrgHeaders *)
Record OrgHeaders := mkOrgHeaders {
  oh_host : string;
  oh_device : Device;
  oh_user : User;
  oh_membership_type : MembershipType;
  oh_membership_status : MembershipStatus;
  oh_membership : Membership;
  oh_ip : string }.

(** src/src/auth.rs: AdminHeaders *)
Record AdminHeaders := mkAdminHeaders {
  ah_host : string;
  ah_device : Device;
  ah_user : User;
  ah_membership_type : MembershipType;
  ah_ip : string;
  ah_org_id : OrganizationId }.

(** src/src/auth.rs: ManagerHeaders *)
Record ManagerHeaders := mkManagerHeaders {
  mh_host : string;
  mh_device : Device;
  mh_user : User;
  mh_ip : string;
  mh_org_id : OrganizationId }.

(** src/src/auth.rs: ManagerHeadersLoose *)
Record ManagerHeadersLoose := mkManagerHeadersLoose {
  ml_host : string;
  ml_device : Device;
  ml_user : User;
  ml_membership : Membership;
  ml_ip : string }.

(** src/src/auth.rs: OwnerHeaders *)
Record OwnerHeaders := mkOwnerHeaders {
  owh_device : Device;
  owh_user : User;
  owh_ip : string;
  owh_org_id : OrganizationId }.

(** src/src/auth.rs: OrgMemberHeaders *)
Record OrgMemberHeaders := mkOrgMemberHeaders {
  om_host : string;
  om_device : Device;
  om_user : User;
  om_membership : Membership;
  om_ip : string }.

(** [s.rsplit(sep).next()]: what follows the last [sep], or all of [s]. *)
Fixpoint after_last (sep s : string) : option string :=
  match s with
  | EmptyString => None
  | String c s' =>
    match after_last sep s' with
    | Some r => Some r
    | None => if String.prefix sep s
              then Some (String.substring (String.length sep) (String.length s) s) else None
    end
  end.
Definition rsplit_next (sep s : string) : string := default s (after_last sep s).

(** src/src/auth.rs: impl FromRequest for Headers *)
Definition Headers_from_request (rq : Request) : Handler Headers :=
  match rq_authorization rq with
  | None => err "No access token provided"
  | Some a =>
    let access_token := rsplit_next "Bearer " a in
    oclaims ← gets (λ e _, e_decode_login e access_token);
    match (oclaims : option LoginJwtClaims) with
    | None => err "Invalid claim"
    | Some claims =>
      odevice ← query (Device_find_by_uuid_and_user (lc_device claims) (lc_sub claims));
      match (odevice : option Device) with
      | None => err "Invalid device id"
      | Some device =>
        ouser ← query (User_find_by_uuid (lc_sub claims));
        match (ouser : option User) with
        | None => err "Device has no user associated"
        | Some user =>
          _ ← (if u_security_stamp user == lc_sstamp claims then mret ()
               else
                 oexc ← gets (λ e _, u_stamp_exception user ≫= e_parse_stamp e);
                 match (oexc : option UserStampException) with
                 | None => err "Invalid security stamp"
                 | Some exc =>
                   match rq_route rq with
                   | None => err "Error getting current route for stamp exception"
                   | Some current_route =>
                     t ← now;
                     if (se_expire exc <? t)%Z then
                       (* an expired exception is removed from the database *)
                       _ ← ignore (User_save (User_reset_stamp_exception user));
                       err "Stamp exception is expired"
                     else if negb (existsb (String.eqb current_route) (se_routes exc)) then
                       err "Invalid security stamp: Current route and exception route do not match"
                     else if se_security_stamp exc != lc_sstamp claims then
                       err "Invalid security stamp for matched stamp exception"
                     else mret ()
                   end
                 end);
          mret (mkHeaders (rq_host rq) device user (rq_ip rq))
        end
      end
    end
  end.

(** src/src/auth.rs: get_org_id *)
Definition get_org_id (rq : Request) : option OrganizationId :=
  match rq_param_org rq with
  | Some org_id => Some org_id
  | None => rq_query_org rq
  end.

(** src/src/auth.rs: impl FromRequest for OrgHeaders *)
Definition OrgHeaders_from_request (rq : Request) : Handler OrgHeaders :=
  headers ← Headers_from_request rq;
  match get_org_id rq with
  | None => err "Error getting the organization id"
  | Some org_id =>
    ok ← gets (λ e _, e_uuid_ok e org_id);
    _ ← err_if (negb ok) "Error getting the organization id";
    om ← query (Membership_find_by_user_and_org (u_uuid (h_user headers)) org_id);
    match (om : option Membership) with
    | None => err "The current user isn't member of the organization"
    | Some membership =>
      match MembershipType_from_i32 (m_atype membership) with
      | None => err "Unknown user type in the database"
      | Some member_type =>
        match MembershipStatus_from_i32 (m_status membership) with
        | None => err "User status is either revoked or invalid."
        | Some member_status =>
          mret (mkOrgHeaders (h_host headers) (h_device headers) (h_user headers) member_type
                  member_status membership (h_ip headers))
        end
      end
    end
  end.

Definition status_is (a b : MembershipStatus) : bool :=
  (MembershipStatus_as_i32 a =? MembershipStatus_as_i32 b)%Z.

(** src/src/auth.rs: is_member *)
Definition OrgHeaders_is_member (h : OrgHeaders) : bool :=
  negb (status_is (oh_membership_status h) Revoked) &&
  MembershipType_ge (oh_membership_type h) MUser.

(** src/src/auth.rs: is_confirmed_and_admin *)
Definition OrgHeaders_is_confirmed_and_admin (h : OrgHeaders) : bool :=
  status_is (oh_membership_status h) Confirmed &&
  MembershipType_ge (oh_membership_type h) Admin.

(** src/src/auth.rs: is_confirmed_and_manager *)
Definition OrgHeaders_is_confirmed_and_manager (h : OrgHeaders) : bool :=
  status_is (oh_membership_status h) Confirmed &&
  MembershipType_ge (oh_membership_type h) Manager.

(** src/src/auth.rs: is_confirmed_and_owner *)
Definition OrgHeaders_is_confirmed_and_owner (h : OrgHeaders) : bool :=
  status_is (oh_membership_status h) Confirmed &&
  bool_decide (oh_membership_type h = Owner).

(** src/src/auth.rs: impl FromRequest for AdminHeaders *)
Definition AdminHeaders_from_request (rq : Request) : Handler AdminHeaders :=
  h ← OrgHeaders_from_request rq;
  if OrgHeaders_is_confirmed_and_admin h then
    mret (mkAdminHeaders (oh_host h) (oh_device h) (oh_user h) (oh_membership_type h) (oh_ip h)
            (m_org_uuid (oh_membership h)))
  else err "You need to be Admin or Owner to call this endpoint".

(** src/src/auth.rs: get_col_id *)
Definition get_col_id (e : Env) (rq : Request) : option CollectionId :=
  match rq_param_col rq with
  | Some c => if e_uuid_ok e c then Some c
              else match rq_query_col rq with
                   | Some q => if e_uuid_ok e q then Some q else None
                   | None => None
                   end
  | None => match rq_query_col rq with
            | Some q => if e_uuid_ok e q then Some q else None
            | None => None
            end
  end.

(** src/src/auth.rs: impl FromRequest for ManagerHeaders *)
Definition ManagerHeaders_from_request (rq : Request) : Handler ManagerHeaders :=
  h ← OrgHeaders_from_request rq;
  if OrgHeaders_is_confirmed_and_manager h then
    ocol ← gets (λ e _, get_col_id e rq);
    match (ocol : option CollectionId) with
    | None => err "Error getting the collection id"
    | Some col_id =>
      manageable ← query (Collection_is_coll_manageable_by_user col_id
                            (m_user_uuid (oh_membership h)));
      _ ← err_if (negb manageable) "The current user isn't a manager for this collection";
      mret (mkManagerHeaders (oh_host h) (oh_device h) (oh_user h) (oh_ip h)
              (m_org_uuid (oh_membership h)))
    end
  else err "You need to be a Manager, Admin or Owner to call this endpoint".

(** src/src/auth.rs: impl FromRequest for ManagerHeadersLoose *)
Definition ManagerHeadersLoose_from_request (rq : Request) : Handler ManagerHeadersLoose :=
  h ← OrgHeaders_from_request rq;
  if OrgHeaders_is_confirmed_and_manager h then
    mret (mkManagerHeadersLoose (oh_host h) (oh_device h) (oh_user h) (oh_membership h) (oh_ip h))
  else err "You need to be a Manager, Admin or Owner to call this endpoint".

(** src/src/auth.rs: from_loose *)
Definition ManagerHeaders_from_loose (h : ManagerHeadersLoose) (cols : list CollectionId)
    : Handler ManagerHeaders :=
  _ ← mfor cols (λ col_id,
        ok ← gets (λ e _, e_uuid_ok e col_id);
        _ ← err_if (negb ok) "Collection Id is malformed!";
        manageable ← query (Collection_is_coll_manageable_by_user col_id
                              (m_user_uuid (ml_membership h)));
        err_if (negb manageable) "Collection not found");
  mret (mkManagerHeaders (ml_host h) (ml_device h) (ml_user h) (ml_ip h)
          (m_org_uuid (ml_membership h))).

(** src/src/auth.rs: impl FromRequest for OwnerHeaders *)
Definition OwnerHeaders_from_request (rq : Request) : Handler OwnerHeaders :=
  h ← OrgHeaders_from_request rq;
  if OrgHeaders_is_confirmed_and_owner h then
    mret (mkOwnerHeaders (oh_device h) (oh_user h) (oh_ip h) (m_org_uuid (oh_membership h)))
  else err "You need to be Owner to call this endpoint".

(** src/src/auth.rs: impl FromRequest for OrgMemberHeaders *)
Definition OrgMemberHeaders_from_request (rq : Request) : Handler OrgMemberHeaders :=
  h ← OrgHeaders_from_request rq;
  if OrgHeaders_is_member h then
    mret (mkOrgMemberHeaders (oh_host h) (oh_device h) (oh_user h) (oh_membership h) (oh_ip h))
  else err "You need to be a Member of the Organization to call this endpoint".
