(* ===== verification/Demo.v ===== *)
(** A small concrete server, on which the theorems with hypotheses are applied:
    accounts, devices, an organization with two members, and an environment in
    which every service answers. *)
From S2P Require Import Prelude Table Schema Roles Users Memberships Devices Auth.

(** The n-th drawn id: n strokes. *)
Fixpoint tally (n : nat) : string :=
  match n with O => EmptyString | S n => "i" +:+ tally n end.

Lemma tally_length n : String.length (tally n) = n.
Proof. induction n as [|n IH]; [done|]. apply (f_equal S IH). Qed.

Lemma tally_inj i j : tally i = tally j → i = j.
Proof. intros H. by rewrite <-(tally_length i), H, tally_length. Qed.

(** A text format that can be read back, for any countable type. *)
Fixpoint bits (p : positive) : string :=
  match p with xH => "" | xO p => "0" +:+ bits p | xI p => "1" +:+ bits p end.
Fixpoint unbits (s : string) : positive :=
  match s with
  | EmptyString => xH
  | String c s => if Ascii.eqb c (Ascii.ascii_of_nat 48) then xO (unbits s) else xI (unbits s)
  end.

Lemma unbits_bits p : unbits (bits p) = p.
Proof. induction p as [p IH|p IH|]; [by apply (f_equal xI)|by apply (f_equal xO)|done]. Qed.

Definition email_token_text (d : EmailTokenData) : string :=
  bits (encode (etd_email d, etd_last_token d, etd_token_sent d, etd_attempts d)).
Definition parse_email_token_text (s : string) : option EmailTokenData :=
  option_map (λ '(m, t, sent, n), mkEmailTokenData m t sent n) (decode (unbits s)).

Lemma parse_email_token_codec d : parse_email_token_text (email_token_text d) = Some d.
Proof.
  unfold parse_email_token_text, email_token_text. rewrite unbits_bits, decode_encode. by destruct d.
Qed.

Definition stamp_text (x : UserStampException) : string :=
  bits (encode (se_routes x, se_security_stamp x, se_expire x)).
Definition parse_stamp_text (s : string) : option UserStampException :=
  option_map (λ '(l, s, t), mkUserStampException l s t) (decode (unbits s)).

Lemma parse_stamp_codec x : parse_stamp_text (stamp_text x) = Some x.
Proof. unfold parse_stamp_text, stamp_text. rewrite unbits_bits, decode_encode. by destruct x. Qed.

Definition demo_config : Config :=
  mkConfig false true true None true true false false "" "" "Demo" false false true true
    (Some 10%Z) 3%Z None false 600000%Z 3%Z 600%Z 6%Z
    false true false None None None false None None true true 3600%Z 6%Z false false true false
    true false false 10000%Z (Some 10%Z) (Some 10%Z) false "https://vault".

(** Tokens are the user's id; JSON texts and hashes are the identity where they
    need to be read back. *)
Definition demo_env : Env :=
  {| e_cfg := demo_config;
     e_now := 1000%Z;
     e_uuid := tally;
     e_random := λ n, "r" +:+ tally n;
     e_smtp := λ _, true;
     e_storage_delete := λ _, true;
     e_lowercase := λ s, s;
     e_valid_email := λ _, true;
     e_parse_auto_enroll := λ _, None;
     e_parse_disable_hide_email := λ _, None;
     e_json := λ _, "{}";
     e_email_token_json := etd_email;
     e_parse_email_token := λ s, Some (mkEmailTokenData s None 0 0);
     e_pa_json := λ d, String (Ascii.ascii_of_nat (Z.to_nat (pad_attempts d))) (pad_token d);
     e_parse_pa := λ s, match s with
                        | String c s => Some (mkProtectedActionData s 900 (Z.of_nat (Ascii.nat_of_ascii c)))
                        | EmptyString => None
                        end;
     e_stamp_json := se_security_stamp;
     e_parse_stamp := λ s, Some (mkUserStampException [] s 0);
     e_parse_json := λ s, Some (VObject [("size", VNumber 100)]);
     e_access_id := Some;
     e_decode_invite := λ s, None;
     e_decode_emergency_invite := λ s, None;
     e_decode_login := λ s, Some (mkLoginJwtClaims s "dev" "stamp");
     e_uuid_ok := λ _, true;
     e_storage_save := λ _, true;
     e_trim := λ s, s;
     e_pbkdf2 := λ secret salt iter, secret +:+ salt;
     e_uppercase := λ s, s;
     e_all_numeric := λ s, true;
     e_base32_decode := Some;
     e_totp := λ secret t, secret +:+ tally (Z.to_nat (t / 30));
     e_yubikey_keys := λ s, None;
     e_yubikey_verify := λ s, true;
     e_duo_data := λ s, None;
     e_login_limit := λ s, true;
     e_version_2025_5 := λ s, true;
     e_decode_refresh := λ s, Some (mkRefreshJwtClaims Password s);
     e_encode_2fa_remember := λ d u t, d +:+ u;
     e_decode_2fa_remember := λ s, None;
     e_encode_register_verify := λ c _, rv_sub c;
     e_decode_register_verify := λ s, Some (mkRegisterVerifyClaims s None true);
     e_decode_verify_email := Some;
     e_decode_delete := Some;
     e_push_register := λ s, true;
     e_push_unregister := λ s, true;
     e_sso_refresh := λ c, true;
     e_parse_datetime := λ s, None;
     e_hash_order := λ l, l;
     e_decode_api_org := λ s, None;
     e_decode_admin := λ s, s == "admin" |}.

(** The same with e-mail token data that is read back as it was written. *)
Definition token_env : Env :=
  demo_env <| e_email_token_json := email_token_text |> <| e_parse_email_token := parse_email_token_text |>.

Definition stamp_env : Env :=
  demo_env <| e_stamp_json := stamp_text |> <| e_parse_stamp := parse_stamp_text |>.

Definition demo_user (id mail : string) : User :=
  mkUser id true 0 0 None None 0 mail None None mail (id +:+ "salt") "salt" 600000 None "" None None
    None None "stamp" None "[]" "[]" 0 600000 None None None None None.

Definition demo_device (user : string) : Device :=
  mkDevice "dev" 0 0 user "web" 9 None None "" None.

Definition alice := demo_user "alice" "alice@x".
Definition bob := demo_user "bob" "bob@x".
Definition carol := demo_user "carol" "carol@x".

Definition accounts_db : Db :=
  empty_db <| users := [alice; bob; carol] |>
           <| devices := [demo_device "alice"; demo_device "bob"; demo_device "carol"] |>.

(** Registered accounts, no organization yet. *)
Definition accounts_world : World := mkWorld accounts_db 0 [].

Definition demo_member (id user : string) (status atype : Z) : Membership :=
  mkMembership id user "org" None true "key" status atype None None.

(** An organization owned by alice, with bob as an admin and carol as a user. *)
Definition org_db : Db :=
  accounts_db <| organizations := [mkOrganization "org" "Org" "billing@x" None None] |>
    <| users_organizations := [demo_member "m-alice" "alice" 2 0; demo_member "m-bob" "bob" 2 1;
                               demo_member "m-carol" "carol" 2 2] |>.
Definition org_world : World := mkWorld org_db 0 [].

Definition demo_request (user : string) : Request :=
  mkRequest (Some ("Bearer " +:+ user)) (Some "/") "host" "ip" None None None None.

Definition admin_headers (user : User) (t : MembershipType) : AdminHeaders :=
  mkAdminHeaders "host" (demo_device (u_uuid user)) user t "ip" "org".

Definition user_headers (user : User) : Headers :=
  mkHeaders "host" (demo_device (u_uuid user)) user "ip".
