(* ===== verification/Sends.v ===== *)
(** Sends: src/src/db/models/send.rs and the handlers of
    src/src/api/core/sends.rs. *)
From S2P Require Import Prelude Table Schema Roles Users Memberships Policies Util Devices Auth.

(** src/src/db/models/send.rs: SendType *)
Inductive SendType := SendText | SendFile.

(** src/src/db/models/send.rs:52-55: SendType *)
Definition SendType_as_i32 (t : SendType) : Z := match t with SendText => 0 | SendFile => 1 end.

(** src/src/api/core/sends.rs: SIZE_525_MB *)
Definition SIZE_525_MB : Z := 550502400.

(** src/src/api/core/sends.rs: SEND_INACCESSIBLE_MSG *)
Definition SEND_INACCESSIBLE_MSG : string := "Send does not exist or is no longer available".

(** ** The model *)

(** src/src/db/models/send.rs: Send::new *)
Definition Send_new (atype : Z) (name data akey : string) (deletion_date : NaiveDateTime)
    : Handler Send :=
  t ← now;
  uuid ← get_uuid;
  mret (mkSend uuid None None name None atype data akey None None None None 0%Z t t None
          deletion_date false None).

(** src/src/db/models/send.rs:100-100: Send::set_password *)
Definition PASSWORD_ITER : Z := 100000.

(** src/src/db/models/send.rs: Send::set_password *)
Definition Send_set_password (s : Send) (password : option string) : Handler Send :=
  match password with
  | Some password =>
    salt ← get_random;
    hash ← gets (λ e _, e_pbkdf2 e password salt PASSWORD_ITER);
    mret (s <| s_password_iter := Some PASSWORD_ITER |> <| s_password_salt := Some salt |>
            <| s_password_hash := Some hash |>)
  | None =>
    mret (s <| s_password_iter := None |> <| s_password_salt := None |>
            <| s_password_hash := None |>)
  end.

(** src/src/db/models/send.rs: Send::check_password *)
Definition Send_check_password (s : Send) (password : string) : Handler bool :=
  match s_password_hash s, s_password_salt s, s_password_iter s with
  | Some hash, Some salt, Some iter =>
    _ ← (if (iter =? 0)%Z then panic "Iterations can't be zero" else mret ());
    gets (λ e _, verify_password_hash e password salt hash iter)
  | _, _, _ => mret false
  end.

(** src/src/db/models/send.rs: Send::creator_identifier *)
Definition Send_creator_identifier (s : Send) (db : Db) : option string :=
  if default false (s_hide_email s) then None
  else match s_user_uuid s with
       | Some user_uuid => option_map u_email (User_find_by_uuid user_uuid db)
       | None => None
       end.

(** src/src/db/models/send.rs: Send::update_users_revision *)
Definition Send_update_users_revision (s : Send) : Handler (list UserId) :=
  match s_user_uuid s with
  | Some user_uuid => _ ← User_update_uuid_revision user_uuid; mret [user_uuid]
  | None => mret []
  end.

(** src/src/db/models/send.rs: Send::save *)
Definition Send_save (s : Send) : Handler Send :=
  _ ← Send_update_users_revision s;
  t ← now;
  let s := s <| s_revision_date := t |> in
  _ ← write (λ d, d <| sends := upsert s (sends d) |>);
  mret s.

(** src/src/db/models/send.rs: Send::delete *)
Definition Send_delete (s : Send) : Handler () :=
  _ ← Send_update_users_revision s;
  _ ← (if (s_atype s =? SendType_as_i32 SendFile)%Z then
         deleted ← gets (λ e _, e_storage_delete e (s_uuid s));
         if (deleted : bool) then emit (FileDeleted (s_uuid s)) else mret ()
       else mret ());
  write (λ d, d <| sends := delete_where (λ x, s_uuid x == s_uuid s) (sends d) |>).

(** src/src/db/models/send.rs: Send::find_by_past_deletion_date *)
Definition Send_find_by_past_deletion_date : Handler (list Send) :=
  gets (λ e w, sel (λ s, s_deletion_date s <? e_now e)%Z (sends (w_db w))).

(** src/src/db/models/send.rs: Send::purge *)
Definition Send_purge : Handler () :=
  l ← Send_find_by_past_deletion_date;
  mfor l (λ s, ignore (Send_delete s)).

(** src/src/db/models/send.rs: Send::find_by_user *)
Definition Send_find_by_user (user_uuid : UserId) (db : Db) : list Send :=
  sel (λ s, opt_is (s_user_uuid s) user_uuid) (sends db).

(** src/src/db/models/send.rs: Send::delete_all_by_user *)
Definition Send_delete_all_by_user (user_uuid : UserId) : Handler () :=
  l ← query (Send_find_by_user user_uuid);
  mfor l Send_delete.

(** src/src/db/models/send.rs: Send::find_by_uuid *)
Definition Send_find_by_uuid (uuid : string) (db : Db) : option Send :=
  first_row (λ s, s_uuid s == uuid) (sends db).

(** src/src/db/models/send.rs: Send::find_by_access_id *)
Definition Send_find_by_access_id (access_id : string) : Handler (option Send) :=
  gets (λ e w, e_access_id e access_id ≫= λ uuid, Send_find_by_uuid uuid (w_db w)).

(** src/src/db/models/send.rs: Send::find_by_uuid_and_user *)
Definition Send_find_by_uuid_and_user (uuid : string) (user_uuid : UserId) (db : Db)
    : option Send :=
  first_row (λ s, (s_uuid s == uuid) && opt_is (s_user_uuid s) user_uuid) (sends db).

(** src/src/db/models/send.rs: Send::find_by_org *)
Definition Send_find_by_org (org_uuid : OrganizationId) (db : Db) : list Send :=
  sel (λ s, opt_is (s_organization_uuid s) org_uuid) (sends db).

(** [serde_json::from_str::<FileData>(..)]: the member ["size"] or its alias
    ["Size"], a number or its text. *)
(** src/src/db/models/send.rs:302-313: Send::size_by_user *)
Definition file_data_size (e : Env) (data : string) : option Z :=
  v ← e_parse_json e data;
  x ← match member "size" v, member "Size" v with
      | Some x, None | None, Some x => Some x
      | _, _ => None
      end;
  match x with
  | VNumber n => Some n
  | VString s => match into_i64 (NString s) with Ok n => Some n | Err _ => None end
  | _ => None
  end.

(** src/src/db/models/send.rs: Send::size_by_user *)
Definition Send_size_by_user (e : Env) (user_uuid : UserId) (db : Db) : option Z :=
  foldl (λ total s,
           match total with
           | None => None
           | Some total =>
             if (s_atype s =? SendType_as_i32 SendFile)%Z then
               match file_data_size e (s_data s) with
               | Some size => checked_add total size
               | None => Some total
               end
             else Some total
           end) (Some 0%Z) (Send_find_by_user user_uuid db).

(** ** The handlers *)

(** src/src/api/core/sends.rs: SendData *)
Record SendData := mkSendData {
  sd_type : Z;
  sd_key : string;
  sd_password : option string;
  sd_max_access_count : option NumberOrString;
  sd_expiration_date : option NaiveDateTime;
  sd_deletion_date : NaiveDateTime;
  sd_disabled : bool;
  sd_hide_email : option bool;
  sd_name : string;
  sd_notes : option string;
  sd_text : option Value;
  sd_file : option Value;
  sd_file_length : option NumberOrString;
  sd_id : option string }.

(** src/src/api/core/sends.rs: enforce_disable_send_policy *)
Definition enforce_disable_send_policy (headers : Headers) : Handler () :=
  allowed ← cfg sends_allowed;
  applicable ← query (OrgPolicy_is_applicable_to_user (u_uuid (h_user headers)) DisableSend None);
  err_if (negb allowed || applicable)
    "Due to an Enterprise Policy, you are only able to delete an existing Send.".

(** src/src/api/core/sends.rs: enforce_disable_hide_email_policy *)
Definition enforce_disable_hide_email_policy (data : SendData) (headers : Headers) : Handler () :=
  disabled ← OrgPolicy_is_hide_email_disabled (u_uuid (h_user headers));
  err_if (default false (sd_hide_email data) && disabled)
    "Due to an Enterprise Policy, you are not allowed to hide your email address from recipients when creating or editing a Send.".

(** [Utc::now() + TimeDelta::try_days(31).unwrap()] *)
(** src/src/api/core/sends.rs:145-145: create_send *)
Definition DELETION_LIMIT : Z := 31 * SECONDS_PER_DAY.
Definition DELETION_MSG : string :=
  "You cannot have a Send with a deletion date that far into the future. Adjust the Deletion Date to a value less than 31 days from now and try again.".

(** src/src/api/core/sends.rs:154-157: create_send *)
Definition opt_i32 (x : option NumberOrString) : Handler (option Z) :=
  match x with
  | Some m => n ← lift (into_i32 m); mret (Some n)
  | None => mret None
  end.

(** src/src/api/core/sends.rs: create_send *)
Definition create_send (data : SendData) (user_id : UserId) : Handler Send :=
  data_val ← (if (sd_type data =? SendType_as_i32 SendText)%Z then mret (sd_text data)
              else if (sd_type data =? SendType_as_i32 SendFile)%Z then mret (sd_file data)
              else err "Invalid Send type");
  data_str ← match (data_val : option Value) with
             | Some d => gets (λ e _, e_json e (Some (remove_member "response" d)))
             | None => err "Send data not provided"
             end;
  t ← now;
  _ ← err_if (t + DELETION_LIMIT <? sd_deletion_date data)%Z DELETION_MSG;
  send ← Send_new (sd_type data) (sd_name data) data_str (sd_key data) (sd_deletion_date data);
  let send := send <| s_user_uuid := Some user_id |> <| s_notes := sd_notes data |> in
  max_access_count ← opt_i32 (sd_max_access_count data);
  let send := send <| s_max_access_count := max_access_count |>
                   <| s_expiration_date := sd_expiration_date data |>
                   <| s_disabled := sd_disabled data |>
                   <| s_hide_email := sd_hide_email data |>
                   <| s_atype := sd_type data |> in
  Send_set_password send (sd_password data).

(** [nt.send_send_update(ut, &send, &send.update_users_revision(&conn).await, ..)] *)
Definition send_send_update (ut : UpdateType) (send : Send) : Handler () :=
  users ← Send_update_users_revision send;
  emit (SendUpdate ut (s_uuid send) users).

(** src/src/api/core/sends.rs: post_send *)
Definition post_send (data : SendData) (headers : Headers) : Handler Send :=
  _ ← enforce_disable_send_policy headers;
  _ ← enforce_disable_hide_email_policy data headers;
  _ ← err_if (sd_type data =? SendType_as_i32 SendFile)%Z "File sends should use /api/sends/file";
  send ← create_send data (u_uuid (h_user headers));
  send ← Send_save send;
  _ ← send_send_update SyncSendCreate send;
  mret send.

(** src/src/api/core/sends.rs:323-339: post_send_file_v2 *)
Definition send_size_limit (user_id : UserId) : Handler Z :=
  limit ← cfg user_send_limit;
  match (limit : option Z) with
  | Some limit_kb =>
    _ ← err_if (limit_kb =? 0)%Z "File uploads are disabled";
    used ← gets (λ e w, Send_size_by_user e user_id (w_db w));
    match (used : option Z) with
    | None => err "Existing sends overflow"
    | Some already_used =>
      match checked_mul limit_kb 1024 ≫= λ l, checked_sub l already_used with
      | None => err "Send size overflow"
      | Some left_ =>
        _ ← err_if (left_ <=? 0)%Z
              "Send storage limit reached! Delete some sends to free up space";
        mret (Z.min (Z.max left_ 0) SIZE_525_MB)
      end
    end
  | None => mret SIZE_525_MB
  end.

(** The ["id"], ["size"] and ["sizeName"] members a file send stores. *)
Definition file_members (display_size : Z → string) (file_id : string) (size : Z) (v : Value)
    : Value :=
  insert_member "sizeName" (VString (display_size size))
    (insert_member "size" (VNumber size) (insert_member "id" (VString file_id) v)).

(** src/src/api/core/sends.rs: post_send_file *)
Definition post_send_file (display_size : Z → string) (model : SendData) (size : Z)
    (headers : Headers) : Handler Send :=
  _ ← enforce_disable_send_policy headers;
  _ ← err_if (i64_MAX <? size)%Z "Invalid send size";
  _ ← err_if (size <? 0)%Z "Send size can't be negative";
  _ ← enforce_disable_hide_email_policy model headers;
  size_limit ← send_size_limit (u_uuid (h_user headers));
  _ ← err_if (size_limit <? size)%Z "Send storage limit exceeded with this file";
  send ← create_send model (u_uuid (h_user headers));
  _ ← err_if (negb (s_atype send =? SendType_as_i32 SendFile)%Z) "Send content is not a file";
  file_id ← get_random;
  let path := s_uuid send +:+ "/" +:+ file_id in
  saved ← gets (λ e _, e_storage_save e path);
  _ ← err_if (negb saved) "Storage error";
  _ ← emit (FileSaved path);
  odata ← gets (λ e _, e_parse_json e (s_data send));
  match (odata : option Value) with
  | None => err "JSON error"
  | Some v =>
    s ← gets (λ e _, e_json e (Some (file_members display_size file_id size v)));
    send ← Send_save (send <| s_data := s |>);
    _ ← send_send_update SyncSendCreate send;
    mret send
  end.

(** src/src/api/core/sends.rs: post_send_file_v2 *)
Definition post_send_file_v2 (display_size : Z → string) (data : SendData) (headers : Headers)
    : Handler (Send * string) :=
  _ ← enforce_disable_send_policy headers;
  _ ← err_if (negb (sd_type data =? SendType_as_i32 SendFile)%Z) "Send content is not a file";
  _ ← enforce_disable_hide_email_policy data headers;
  file_length ← match sd_file_length data with
                | Some m => lift (into_i64 m)
                | None => err "Invalid send length"
                end;
  _ ← err_if (file_length <? 0)%Z "Send size can't be negative";
  size_limit ← send_size_limit (u_uuid (h_user headers));
  _ ← err_if (size_limit <? file_length)%Z "Send storage limit exceeded with this file";
  send ← create_send data (u_uuid (h_user headers));
  file_id ← get_random;
  odata ← gets (λ e _, e_parse_json e (s_data send));
  match (odata : option Value) with
  | None => err "JSON error"
  | Some v =>
    s ← gets (λ e _, e_json e (Some (file_members display_size file_id file_length v)));
    send ← Send_save (send <| s_data := s |>);
    mret (send, file_id)
  end.

(** src/src/api/core/sends.rs: SendFileData *)
Record SendFileData := mkSendFileData {
  sfd_id : string;
  sfd_size : Z;
  sfd_fileName : string }.

(** [serde_json::from_str::<SendFileData>] *)
Definition parse_send_file_data (e : Env) (data : string) : option SendFileData :=
  v ← e_parse_json e data;
  match member "id" v, member "size" v, member "fileName" v with
  | Some (VString id), Some (VNumber size), Some (VString fileName) =>
    if (0 <=? size)%Z && (size <=? u64_MAX)%Z then Some (mkSendFileData id size fileName) else None
  | _, _, _ => None
  end.

(** [s.ends_with(suffix)] *)
Fixpoint ends_with (s suffix : string) : bool :=
  (s == suffix) || match s with EmptyString => false | String _ s' => ends_with s' suffix end.

(** src/src/db/models/device.rs: Device::is_cli *)
Definition Device_is_cli (d : Device) : bool :=
  (d_atype d =? 23)%Z || (d_atype d =? 24)%Z || (d_atype d =? 25)%Z.

(** src/src/api/core/sends.rs: post_send_file_v2_data *)
Definition post_send_file_v2_data (send_id file_id : string) (raw_name : option string) (size : Z)
    (headers : Headers) : Handler () :=
  _ ← enforce_disable_send_policy headers;
  osend ← query (Send_find_by_uuid_and_user send_id (u_uuid (h_user headers)));
  match (osend : option Send) with
  | None => err "Send not found. Unable to save the file."
  | Some send =>
    _ ← err_if (negb (s_atype send =? SendType_as_i32 SendFile)%Z) "Send is not a file type send.";
    odata ← gets (λ e _, parse_send_file_data e (s_data send));
    match (odata : option SendFileData) with
    | None => err "Unable to decode send data as json."
    | Some send_data =>
      _ ← match raw_name with
          | Some raw_file_name =>
            err_if (negb ((raw_file_name == sfd_fileName send_data) ||
                          (Device_is_cli (h_device headers) &&
                           ends_with (sfd_fileName send_data) raw_file_name)))
              "Send file name does not match."
          | None => err "Send file name does not match or is not provided."
          end;
      _ ← err_if (file_id != sfd_id send_data) "Send file does not match send data.";
      _ ← err_if (negb (size =? sfd_size send_data)%Z) "Send file size does not match.";
      let file_path := send_id +:+ "/" +:+ file_id in
      saved ← gets (λ e _, e_storage_save e file_path);
      _ ← err_if (negb saved) "Storage error";
      _ ← emit (FileSaved file_path);
      send_send_update SyncSendCreate send
    end
  end.

(** The checks [post_access] and [post_access_file] share, on the send they
    found: access count, expiration, deletion date, disabled flag, password. *)
(** src/src/api/core/sends.rs:462-488: post_access *)
Definition send_access_checks (send : Send) (password : option string) : Handler () :=
  _ ← err_if (on_row (s_max_access_count send) (λ m, m <=? s_access_count send)%Z)
        SEND_INACCESSIBLE_MSG;
  t ← now;
  _ ← err_if (on_row (s_expiration_date send) (λ x, x <=? t)%Z) SEND_INACCESSIBLE_MSG;
  _ ← err_if (s_deletion_date send <=? t)%Z SEND_INACCESSIBLE_MSG;
  _ ← err_if (s_disabled send) SEND_INACCESSIBLE_MSG;
  if is_some (s_password_hash send) then
    match password with
    | Some p => ok ← Send_check_password send p; err_if (negb ok) "Invalid password"
    | None => err "Password not provided"
    end
  else mret ().

(** src/src/api/core/sends.rs: post_access

    The result is the send with the creator's address it discloses. *)
Definition post_access (access_id : string) (password : option string)
    : Handler (Send * option string) :=
  osend ← Send_find_by_access_id access_id;
  match (osend : option Send) with
  | None => err SEND_INACCESSIBLE_MSG
  | Some send =>
    _ ← send_access_checks send password;
    let send := if (s_atype send =? SendType_as_i32 SendText)%Z
                then send <| s_access_count := i32_wrap (s_access_count send + 1) |>
                else send in
    send ← Send_save send;
    _ ← send_send_update SyncSendUpdate send;
    creator ← query (Send_creator_identifier send);
    mret (send, creator)
  end.

(** src/src/api/core/sends.rs: post_access_file

    The result is the path the download URL gives access to. *)
Definition post_access_file (send_id file_id : string) (password : option string)
    : Handler string :=
  osend ← query (Send_find_by_uuid send_id);
  match (osend : option Send) with
  | None => err SEND_INACCESSIBLE_MSG
  | Some send =>
    _ ← send_access_checks send password;
    send ← Send_save (send <| s_access_count := i32_wrap (s_access_count send + 1) |>);
    _ ← send_send_update SyncSendUpdate send;
    mret (send_id +:+ "/" +:+ file_id)
  end.

(** src/src/api/core/sends.rs: update_send_from_data *)
Definition update_send_from_data (send : Send) (data : SendData) (headers : Headers)
    (ut : UpdateType) : Handler Send :=
  _ ← err_if (negb (opt_is (s_user_uuid send) (u_uuid (h_user headers)))) "Send is not owned by user";
  _ ← err_if (negb (s_atype send =? sd_type data)%Z) "Sends can't change type";
  t ← now;
  _ ← err_if (t + DELETION_LIMIT <? sd_deletion_date data)%Z DELETION_MSG;
  send ← (if (sd_type data =? SendType_as_i32 SendText)%Z then
            match sd_text data with
            | Some d => s ← gets (λ e _, e_json e (Some (remove_member "response" d)));
                        mret (send <| s_data := s |>)
            | None => err "Send data not provided"
            end
          else mret send);
  max_access_count ← opt_i32 (sd_max_access_count data);
  let send := send <| s_name := sd_name data |> <| s_akey := sd_key data |>
                   <| s_deletion_date := sd_deletion_date data |> <| s_notes := sd_notes data |>
                   <| s_max_access_count := max_access_count |>
                   <| s_expiration_date := sd_expiration_date data |>
                   <| s_hide_email := sd_hide_email data |>
                   <| s_disabled := sd_disabled data |> in
  send ← match sd_password data with
         | Some password => Send_set_password send (Some password)
         | None => mret send
         end;
  send ← Send_save send;
  _ ← match ut with UpdateNone => mret () | _ => send_send_update ut send end;
  mret send.

(** src/src/api/core/sends.rs: put_send *)
Definition put_send (send_id : string) (data : SendData) (headers : Headers) : Handler Send :=
  _ ← enforce_disable_send_policy headers;
  _ ← enforce_disable_hide_email_policy data headers;
  osend ← query (Send_find_by_uuid_and_user send_id (u_uuid (h_user headers)));
  match (osend : option Send) with
  | None => err "Send not found"
  | Some send => update_send_from_data send data headers SyncSendUpdate
  end.

(** src/src/api/core/sends.rs: delete_send *)
Definition delete_send (send_id : string) (headers : Headers) : Handler () :=
  osend ← query (Send_find_by_uuid_and_user send_id (u_uuid (h_user headers)));
  match (osend : option Send) with
  | None => err "Send not found"
  | Some send =>
    _ ← Send_delete send;
    send_send_update SyncSendDelete send
  end.

(** src/src/api/core/sends.rs: put_remove_password *)
Definition put_remove_password (send_id : string) (headers : Headers) : Handler Send :=
  _ ← enforce_disable_send_policy headers;
  osend ← query (Send_find_by_uuid_and_user send_id (u_uuid (h_user headers)));
  match (osend : option Send) with
  | None => err "Send not found"
  | Some send =>
    send ← Send_set_password send None;
    send ← Send_save send;
    _ ← send_send_update SyncSendUpdate send;
    mret send
  end.
