(* ===== verification/Emergency.v ===== *)
(** Emergency access: src/src/db/models/emergency_access.rs, and the handlers
    and jobs of src/src/api/core/emergency_access.rs. *)
From S2P Require Import Prelude Table Schema Roles Users Memberships Groups Collections Policies.
From S2P Require Import Vault Ciphers Util Settings Devices Auth.

(** src/src/db/models/emergency_access.rs: EmergencyAccessType *)
Inductive EmergencyAccessType := View | Takeover.

(** src/src/db/models/emergency_access.rs:118-121: EmergencyAccessType *)
Definition EmergencyAccessType_as_i32 (t : EmergencyAccessType) : Z :=
  match t with View => 0 | Takeover => 1 end.

(** src/src/db/models/emergency_access.rs: EmergencyAccessType::from_str *)
Definition EmergencyAccessType_from_str (s : string) : option EmergencyAccessType :=
  if (s == "0") || (s == "View") then Some View
  else if (s == "1") || (s == "Takeover") then Some Takeover
  else None.

(** src/src/db/models/emergency_access.rs: EmergencyAccessStatus *)
Inductive EmergencyAccessStatus :=
| EAInvited | EAAccepted | EAConfirmed | RecoveryInitiated | RecoveryApproved.

(** src/src/db/models/emergency_access.rs:133-139: EmergencyAccessStatus *)
Definition EmergencyAccessStatus_as_i32 (s : EmergencyAccessStatus) : Z :=
  match s with
  | EAInvited => 0 | EAAccepted => 1 | EAConfirmed => 2 | RecoveryInitiated => 3
  | RecoveryApproved => 4
  end.

Notation "a 'at' s" := (ea_status a =? EmergencyAccessStatus_as_i32 s)%Z
  (at level 70, only parsing) : vw_scope.

(** ** The model *)

(** src/src/db/models/emergency_access.rs: EmergencyAccess::new *)
Definition EmergencyAccess_new (grantor_uuid : UserId) (email : string) (status atype wait_time_days : Z)
    : Handler EmergencyAccess :=
  t ← now;
  uuid ← get_uuid;
  mret (mkEmergencyAccess uuid grantor_uuid None (Some email) None atype status wait_time_days
          None None t t).

(** src/src/db/models/emergency_access.rs: EmergencyAccess::get_type_as_str *)
Definition EmergencyAccess_get_type_as_str (a : EmergencyAccess) : string :=
  if (ea_atype a =? EmergencyAccessType_as_i32 View)%Z then "View" else "Takeover".

(** src/src/db/models/emergency_access.rs: EmergencyAccess::save *)
Definition EmergencyAccess_save (a : EmergencyAccess) : Handler EmergencyAccess :=
  _ ← User_update_uuid_revision (ea_grantor_uuid a);
  t ← now;
  let a := a <| ea_updated_at := t |> in
  _ ← write (λ d, d <| emergency_access := upsert a (emergency_access d) |>);
  mret a.

(** src/src/db/models/emergency_access.rs: EmergencyAccess::update_access_status_and_save *)
Definition EmergencyAccess_update_access_status_and_save (a : EmergencyAccess) (status : Z)
    (date : NaiveDateTime) : Handler EmergencyAccess :=
  grantee ← unwrap (ea_grantee_uuid a) "Error getting grantee";
  _ ← User_update_uuid_revision grantee;
  _ ← write (λ d, d <| emergency_access :=
        update_where (λ x, ea_uuid x == ea_uuid a)
          (λ x, x <| ea_status := status |> <| ea_updated_at := date |>) (emergency_access d) |>);
  mret (a <| ea_status := status |> <| ea_updated_at := date |>).

(** src/src/db/models/emergency_access.rs: EmergencyAccess::update_last_notification_date_and_save *)
Definition EmergencyAccess_update_last_notification_date_and_save (a : EmergencyAccess)
    (date : NaiveDateTime) : Handler EmergencyAccess :=
  _ ← write (λ d, d <| emergency_access :=
        update_where (λ x, ea_uuid x == ea_uuid a)
          (λ x, x <| ea_last_notification_at := Some date |> <| ea_updated_at := date |>)
          (emergency_access d) |>);
  mret (a <| ea_last_notification_at := Some date |> <| ea_updated_at := date |>).

(** src/src/db/models/emergency_access.rs: EmergencyAccess::delete *)
Definition EmergencyAccess_delete (a : EmergencyAccess) : Handler () :=
  _ ← User_update_uuid_revision (ea_grantor_uuid a);
  write (λ d, d <| emergency_access :=
    delete_where (λ x, ea_uuid x == ea_uuid a) (emergency_access d) |>).

(** src/src/db/models/emergency_access.rs: EmergencyAccess::find_by_grantor_uuid_and_grantee_uuid_or_email *)
Definition EmergencyAccess_find_by_grantor_uuid_and_grantee_uuid_or_email (grantor_uuid : UserId)
    (grantee_uuid : UserId) (email : string) (db : Db) : option EmergencyAccess :=
  first_row (λ a, (ea_grantor_uuid a == grantor_uuid) &&
                  (opt_is (ea_grantee_uuid a) grantee_uuid || opt_is (ea_email a) email))
    (emergency_access db).

(** src/src/db/models/emergency_access.rs: EmergencyAccess::find_all_recoveries_initiated *)
Definition EmergencyAccess_find_all_recoveries_initiated (db : Db) : list EmergencyAccess :=
  sel (λ a, (a at RecoveryInitiated) && is_some (ea_recovery_initiated_at a))
    (emergency_access db).

(** src/src/db/models/emergency_access.rs: EmergencyAccess::find_by_uuid_and_grantor_uuid *)
Definition EmergencyAccess_find_by_uuid_and_grantor_uuid (uuid : string) (grantor_uuid : UserId)
    (db : Db) : option EmergencyAccess :=
  first_row (λ a, (ea_uuid a == uuid) && (ea_grantor_uuid a == grantor_uuid))
    (emergency_access db).

(** src/src/db/models/emergency_access.rs: EmergencyAccess::find_by_uuid_and_grantee_uuid *)
Definition EmergencyAccess_find_by_uuid_and_grantee_uuid (uuid : string) (grantee_uuid : UserId)
    (db : Db) : option EmergencyAccess :=
  first_row (λ a, (ea_uuid a == uuid) && opt_is (ea_grantee_uuid a) grantee_uuid)
    (emergency_access db).

(** src/src/db/models/emergency_access.rs: EmergencyAccess::find_by_uuid_and_grantee_email *)
Definition EmergencyAccess_find_by_uuid_and_grantee_email (uuid grantee_email : string) (db : Db)
    : option EmergencyAccess :=
  first_row (λ a, (ea_uuid a == uuid) && opt_is (ea_email a) grantee_email) (emergency_access db).

(** src/src/db/models/emergency_access.rs: EmergencyAccess::find_all_by_grantee_uuid *)
Definition EmergencyAccess_find_all_by_grantee_uuid (grantee_uuid : UserId) (db : Db)
    : list EmergencyAccess :=
  sel (λ a, opt_is (ea_grantee_uuid a) grantee_uuid) (emergency_access db).

(** src/src/db/models/emergency_access.rs: EmergencyAccess::find_invited_by_grantee_email *)
Definition EmergencyAccess_find_invited_by_grantee_email (grantee_email : string) (db : Db)
    : option EmergencyAccess :=
  first_row (λ a, opt_is (ea_email a) grantee_email && (a at EAInvited)) (emergency_access db).

(** src/src/db/models/emergency_access.rs: EmergencyAccess::find_all_invited_by_grantee_email *)
Definition EmergencyAccess_find_all_invited_by_grantee_email (grantee_email : string) (db : Db)
    : list EmergencyAccess :=
  sel (λ a, opt_is (ea_email a) grantee_email && (a at EAInvited)) (emergency_access db).

(** src/src/db/models/emergency_access.rs: EmergencyAccess::find_all_by_grantor_uuid *)
Definition EmergencyAccess_find_all_by_grantor_uuid (grantor_uuid : UserId) (db : Db)
    : list EmergencyAccess :=
  sel (λ a, ea_grantor_uuid a == grantor_uuid) (emergency_access db).

(** src/src/db/models/emergency_access.rs: EmergencyAccess::find_all_confirmed_by_grantor_uuid *)
Definition EmergencyAccess_find_all_confirmed_by_grantor_uuid (grantor_uuid : UserId) (db : Db)
    : list EmergencyAccess :=
  sel (λ a, (ea_grantor_uuid a == grantor_uuid) &&
            (EmergencyAccessStatus_as_i32 EAConfirmed <=? ea_status a)%Z) (emergency_access db).

(** src/src/db/models/emergency_access.rs: EmergencyAccess::delete_all_by_user *)
Definition EmergencyAccess_delete_all_by_user (user_uuid : UserId) : Handler () :=
  l ← query (EmergencyAccess_find_all_by_grantor_uuid user_uuid);
  _ ← mfor l EmergencyAccess_delete;
  l ← query (EmergencyAccess_find_all_by_grantee_uuid user_uuid);
  mfor l EmergencyAccess_delete.

(** src/src/db/models/emergency_access.rs: EmergencyAccess::delete_all_by_grantee_email *)
Definition EmergencyAccess_delete_all_by_grantee_email (grantee_email : string) : Handler () :=
  l ← query (EmergencyAccess_find_all_invited_by_grantee_email grantee_email);
  mfor l EmergencyAccess_delete.

(** src/src/db/models/emergency_access.rs: EmergencyAccess::accept_invite *)
Definition EmergencyAccess_accept_invite (a : EmergencyAccess) (grantee_uuid : UserId)
    (grantee_email : string) : Handler EmergencyAccess :=
  _ ← err_if (negb (opt_is (ea_email a) grantee_email)) "User email does not match invite.";
  _ ← err_if (a at EAAccepted) "Emergency contact already accepted.";
  EmergencyAccess_save
    (a <| ea_status := EmergencyAccessStatus_as_i32 EAAccepted |>
       <| ea_grantee_uuid := Some grantee_uuid |> <| ea_email := None |>).

(** ** The handlers *)

(** src/src/api/core/emergency_access.rs: check_emergency_access_enabled *)
Definition check_emergency_access_enabled : Handler () :=
  allowed ← cfg emergency_access_allowed;
  err_if (negb allowed) "Emergency access is not enabled.".

(** src/src/api/core/emergency_access.rs: is_valid_request *)
Definition is_valid_request (a : EmergencyAccess) (requesting_user_id : UserId)
    (requested_access_type : EmergencyAccessType) : bool :=
  opt_is (ea_grantee_uuid a) requesting_user_id && (a at RecoveryApproved) &&
  (ea_atype a =? EmergencyAccessType_as_i32 requested_access_type)%Z.

(** [let Some(x) = m.await else { err!(msg) }] *)
Definition some_or {A} (m : Handler (option A)) (msg : string) : Handler A :=
  o ← m;
  match (o : option A) with Some a => mret a | None => err msg end.

Definition NOT_VALID : string := "Emergency access not valid.".

(** src/src/api/core/emergency_access.rs: EmergencyAccessUpdateData *)
Record EmergencyAccessUpdateData := mkEmergencyAccessUpdateData {
  ud_type : NumberOrString;
  ud_wait_time_days : Z;
  ud_key_encrypted : option string }.

(** src/src/api/core/emergency_access.rs: post_emergency_access *)
Definition post_emergency_access (emer_id : string) (data : EmergencyAccessUpdateData)
    (headers : Headers) : Handler EmergencyAccess :=
  _ ← check_emergency_access_enabled;
  a ← some_or (query (EmergencyAccess_find_by_uuid_and_grantor_uuid emer_id
                        (u_uuid (h_user headers)))) NOT_VALID;
  match EmergencyAccessType_from_str (into_string (ud_type data)) with
  | None => err "Invalid emergency access type."
  | Some new_type =>
    let a := a <| ea_atype := EmergencyAccessType_as_i32 new_type |>
               <| ea_wait_time_days := ud_wait_time_days data |> in
    let a := if is_some (ud_key_encrypted data)
             then a <| ea_key_encrypted := ud_key_encrypted data |> else a in
    EmergencyAccess_save a
  end.

(** src/src/api/core/emergency_access.rs: delete_emergency_access *)
Definition delete_emergency_access (emer_id : string) (headers : Headers) : Handler () :=
  _ ← check_emergency_access_enabled;
  og ← query (EmergencyAccess_find_by_uuid_and_grantor_uuid emer_id (u_uuid (h_user headers)));
  oe ← query (EmergencyAccess_find_by_uuid_and_grantee_uuid emer_id (u_uuid (h_user headers)));
  match (og : option EmergencyAccess), (oe : option EmergencyAccess) with
  | Some grantor_emer, None => EmergencyAccess_delete grantor_emer
  | None, Some grantee_emer => EmergencyAccess_delete grantee_emer
  | _, _ => err NOT_VALID
  end.

(** src/src/api/core/emergency_access.rs: EmergencyAccessInviteData *)
Record EmergencyAccessInviteData := mkEmergencyAccessInviteData {
  id_email : string;
  id_type : NumberOrString;
  id_wait_time_days : Z }.

(** src/src/api/core/emergency_access.rs: send_invite *)
Definition ea_send_invite (data : EmergencyAccessInviteData) (headers : Headers) : Handler () :=
  _ ← check_emergency_access_enabled;
  email ← gets (λ e _, e_lowercase e (id_email data));
  match EmergencyAccessType_from_str (into_string (id_type data)) with
  | None => err "Invalid emergency access type."
  | Some new_type =>
    let grantor_user := h_user headers in
    _ ← err_if (email == u_email grantor_user)
          "You can not set yourself as an emergency contact.";
    ou ← User_find_by_mail email;
    mail_on ← cfg mail_enabled;
    gu ← match (ou : option User) with
         | None =>
           invitations ← cfg invitations_allowed;
           _ ← err_if (negb invitations) ("Grantee user does not exist: " +:+ email);
           domain ← gets (λ e _, is_email_domain_allowed e email);
           _ ← err_if (negb domain) "Email domain not eligible for invitations";
           _ ← (if (mail_on : bool) then mret ()
                else i ← Invitation_new email; Invitation_save i);
           user ← User_new email None;
           user ← User_save user;
           mret (user, true)
         | Some user => mret (user, str_is_empty (u_password_hash user))
         end;
    let '(grantee_user, new_user) := (gu : User * bool) in
    existing ← query (EmergencyAccess_find_by_grantor_uuid_and_grantee_uuid_or_email
                        (u_uuid grantor_user) (u_uuid grantee_user) (u_email grantee_user));
    _ ← err_if (is_some existing) ("Grantee user already invited: " +:+ u_email grantee_user);
    a ← EmergencyAccess_new (u_uuid grantor_user) (u_email grantee_user)
          (EmergencyAccessStatus_as_i32 EAInvited) (EmergencyAccessType_as_i32 new_type)
          (id_wait_time_days data);
    a ← EmergencyAccess_save a;
    if (mail_on : bool) then
      address ← unwrap (ea_email a) "Grantee email does not exists";
      send_mail (send_emergency_access_invite address (u_uuid grantee_user) (ea_uuid a)
                   (u_name grantor_user) (u_email grantor_user))
    else if negb new_user then
      _ ← EmergencyAccess_accept_invite a (u_uuid grantee_user) email; mret ()
    else mret ()
  end.

(** src/src/api/core/emergency_access.rs: resend_invite *)
Definition resend_invite (emer_id : string) (headers : Headers) : Handler () :=
  _ ← check_emergency_access_enabled;
  a ← some_or (query (EmergencyAccess_find_by_uuid_and_grantor_uuid emer_id
                        (u_uuid (h_user headers)))) NOT_VALID;
  _ ← err_if (negb (a at EAInvited))
        "The grantee user is already accepted or confirmed to the organization";
  match ea_email a with
  | None => err "Email not valid."
  | Some email =>
    grantee_user ← some_or (User_find_by_mail email) "Grantee user not found.";
    let grantor_user := h_user headers in
    mail_on ← cfg mail_enabled;
    if (mail_on : bool) then
      send_mail (send_emergency_access_invite email (u_uuid grantor_user) (ea_uuid a)
                   (u_name grantor_user) (u_email grantor_user))
    else if negb (str_is_empty (u_password_hash grantee_user)) then
      _ ← EmergencyAccess_accept_invite a (u_uuid grantee_user) email; mret ()
    else
      invitations ← cfg invitations_allowed;
      oi ← Invitation_find_by_mail email;
      if invitations && is_none oi then i ← Invitation_new email; Invitation_save i else mret ()
  end.

(** src/src/api/core/emergency_access.rs: accept_invite *)
Definition ea_accept_invite (emer_id token : string) (headers : Headers) : Handler () :=
  _ ← check_emergency_access_enabled;
  claims ← some_or (gets (λ e _, e_decode_emergency_invite e token)) "Invalid token";
  _ ← err_if (ec_email claims != u_email (h_user headers))
        "Claim email does not match current users email";
  grantee_user ← some_or (User_find_by_mail (ec_email claims)) "Invited user not found";
  _ ← Invitation_take (ec_email claims);
  a ← some_or (query (EmergencyAccess_find_by_uuid_and_grantee_email emer_id
                        (u_email (h_user headers)))) NOT_VALID;
  grantor_user ← some_or (query (User_find_by_uuid (ea_grantor_uuid a))) "Grantor user not found.";
  if (emer_id == ec_emer_id claims) && (u_name grantor_user == ec_grantor_name claims) &&
     (u_email grantor_user == ec_grantor_email claims)
  then
    _ ← EmergencyAccess_accept_invite a (u_uuid grantee_user) (u_email grantee_user);
    mail_on ← cfg mail_enabled;
    if (mail_on : bool)
    then send_mail (send_emergency_access_invite_accepted (u_email grantor_user)
                      (u_email grantee_user))
    else mret ()
  else err "Emergency access invitation error.".

(** The grantee of the record, with the errors of the handlers. *)
Definition grantee_of (a : EmergencyAccess) : Handler User :=
  match ea_grantee_uuid a with
  | Some grantee_uuid =>
    some_or (query (User_find_by_uuid grantee_uuid)) "Grantee user not found."
  | None => err "Grantee user not found."
  end.

Definition mail_if_enabled (m : Mail) : Handler () :=
  mail_on ← cfg mail_enabled;
  if (mail_on : bool) then send_mail m else mret ().

(** src/src/api/core/emergency_access.rs: confirm_emergency_access *)
Definition confirm_emergency_access (emer_id key : string) (headers : Headers)
    : Handler EmergencyAccess :=
  _ ← check_emergency_access_enabled;
  let confirming_user := h_user headers in
  a ← some_or (query (EmergencyAccess_find_by_uuid_and_grantor_uuid emer_id
                        (u_uuid confirming_user))) NOT_VALID;
  _ ← err_if (negb (a at EAAccepted) || (ea_grantor_uuid a != u_uuid confirming_user)) NOT_VALID;
  grantor_user ← some_or (query (User_find_by_uuid (u_uuid confirming_user)))
                   "Grantor user not found.";
  grantee_user ← grantee_of a;
  a ← EmergencyAccess_save
        (a <| ea_status := EmergencyAccessStatus_as_i32 EAConfirmed |>
           <| ea_key_encrypted := Some key |> <| ea_email := None |>);
  _ ← mail_if_enabled (send_emergency_access_invite_confirmed (u_email grantee_user)
                         (u_name grantor_user));
  mret a.

(** src/src/api/core/emergency_access.rs: initiate_emergency_access *)
Definition initiate_emergency_access (emer_id : string) (headers : Headers)
    : Handler EmergencyAccess :=
  _ ← check_emergency_access_enabled;
  let initiating_user := h_user headers in
  a ← some_or (query (EmergencyAccess_find_by_uuid_and_grantee_uuid emer_id
                        (u_uuid initiating_user))) NOT_VALID;
  _ ← err_if (negb (a at EAConfirmed)) NOT_VALID;
  grantor_user ← some_or (query (User_find_by_uuid (ea_grantor_uuid a))) "Grantor user not found.";
  t ← now;
  a ← EmergencyAccess_save
        (a <| ea_status := EmergencyAccessStatus_as_i32 RecoveryInitiated |>
           <| ea_updated_at := t |> <| ea_recovery_initiated_at := Some t |>
           <| ea_last_notification_at := Some t |>);
  _ ← mail_if_enabled (send_emergency_access_recovery_initiated (u_email grantor_user)
                         (u_name initiating_user) (EmergencyAccess_get_type_as_str a)
                         (ea_wait_time_days a));
  mret a.

(** src/src/api/core/emergency_access.rs: approve_emergency_access *)
Definition approve_emergency_access (emer_id : string) (headers : Headers)
    : Handler EmergencyAccess :=
  _ ← check_emergency_access_enabled;
  a ← some_or (query (EmergencyAccess_find_by_uuid_and_grantor_uuid emer_id
                        (u_uuid (h_user headers)))) NOT_VALID;
  _ ← err_if (negb (a at RecoveryInitiated)) NOT_VALID;
  grantor_user ← some_or (query (User_find_by_uuid (u_uuid (h_user headers))))
                   "Grantor user not found.";
  grantee_user ← grantee_of a;
  a ← EmergencyAccess_save (a <| ea_status := EmergencyAccessStatus_as_i32 RecoveryApproved |>);
  _ ← mail_if_enabled (send_emergency_access_recovery_approved (u_email grantee_user)
                         (u_name grantor_user));
  mret a.

(** src/src/api/core/emergency_access.rs: reject_emergency_access *)
Definition reject_emergency_access (emer_id : string) (headers : Headers)
    : Handler EmergencyAccess :=
  _ ← check_emergency_access_enabled;
  a ← some_or (query (EmergencyAccess_find_by_uuid_and_grantor_uuid emer_id
                        (u_uuid (h_user headers)))) NOT_VALID;
  _ ← err_if (negb (a at RecoveryInitiated) && negb (a at RecoveryApproved)) NOT_VALID;
  grantee_user ← grantee_of a;
  a ← EmergencyAccess_save (a <| ea_status := EmergencyAccessStatus_as_i32 EAConfirmed |>);
  _ ← mail_if_enabled (send_emergency_access_recovery_rejected (u_email grantee_user)
                         (u_name (h_user headers)));
  mret a.

(** src/src/api/core/emergency_access.rs: view_emergency_access

    The result: the grantor's ciphers and the encrypted key. *)
Definition view_emergency_access (emer_id : string) (headers : Headers)
    : Handler (list Cipher * option string) :=
  _ ← check_emergency_access_enabled;
  a ← some_or (query (EmergencyAccess_find_by_uuid_and_grantee_uuid emer_id
                        (u_uuid (h_user headers)))) NOT_VALID;
  _ ← err_if (negb (is_valid_request a (u_uuid (h_user headers)) View)) NOT_VALID;
  l ← query (Cipher_find_owned_by_user (ea_grantor_uuid a));
  mret (l, ea_key_encrypted a).

(** src/src/api/core/emergency_access.rs: takeover_emergency_access

    The result: the grantor, whose KDF parameters are returned, and the
    encrypted key. *)
Definition takeover_emergency_access (emer_id : string) (headers : Headers)
    : Handler (User * option string) :=
  _ ← check_emergency_access_enabled;
  a ← some_or (query (EmergencyAccess_find_by_uuid_and_grantee_uuid emer_id
                        (u_uuid (h_user headers)))) NOT_VALID;
  _ ← err_if (negb (is_valid_request a (u_uuid (h_user headers)) Takeover)) NOT_VALID;
  grantor_user ← some_or (query (User_find_by_uuid (ea_grantor_uuid a))) "Grantor user not found.";
  mret (grantor_user, ea_key_encrypted a).

(** src/src/api/core/emergency_access.rs: password_emergency_access *)
Definition password_emergency_access (emer_id new_master_password_hash key : string)
    (headers : Headers) : Handler () :=
  _ ← check_emergency_access_enabled;
  a ← some_or (query (EmergencyAccess_find_by_uuid_and_grantee_uuid emer_id
                        (u_uuid (h_user headers)))) NOT_VALID;
  _ ← err_if (negb (is_valid_request a (u_uuid (h_user headers)) Takeover)) NOT_VALID;
  grantor_user ← some_or (query (User_find_by_uuid (ea_grantor_uuid a))) "Grantor user not found.";
  grantor_user ← User_set_password grantor_user new_master_password_hash (Some key) true None;
  grantor_user ← User_save grantor_user;
  _ ← TwoFactor_delete_all_by_user (u_uuid grantor_user);
  ms ← query (Membership_find_any_state_by_user (u_uuid grantor_user));
  mfor ms (λ m, if negb (i32_eq (m_atype m) Owner) then Membership_delete m else mret ()).

(** src/src/api/core/emergency_access.rs: policies_emergency_access *)
Definition policies_emergency_access (emer_id : string) (headers : Headers)
    : Handler (list OrgPolicy) :=
  a ← some_or (query (EmergencyAccess_find_by_uuid_and_grantee_uuid emer_id
                        (u_uuid (h_user headers)))) NOT_VALID;
  _ ← err_if (negb (is_valid_request a (u_uuid (h_user headers)) Takeover)) NOT_VALID;
  grantor_user ← some_or (query (User_find_by_uuid (ea_grantor_uuid a))) "Grantor user not found.";
  query (OrgPolicy_find_confirmed_by_user (u_uuid grantor_user)).

(** ** The jobs *)

Definition expect_mail (m : Mail) : Handler () :=
  r ← try_ (send_mail m);
  match (r : string + ()) with inr _ => mret () | inl _ => panic "Error on sending email" end.

(** One record of the loop of [emergency_request_timeout_job]. *)
(** src/src/api/core/emergency_access.rs:736-770: emergency_request_timeout_job *)
Definition timeout_one (t : NaiveDateTime) (emer : EmergencyAccess) : Handler () :=
  initiated ← unwrap (ea_recovery_initiated_at emer) "recovery_initiated_at";
  delta ← unwrap (try_days (ea_wait_time_days emer)) "try_days";
  recovery_allowed_at ← unwrap (dt_add initiated delta) "NaiveDateTime + TimeDelta overflowed";
  if (recovery_allowed_at <=? t)%Z then
    emer ← EmergencyAccess_update_access_status_and_save emer
             (EmergencyAccessStatus_as_i32 RecoveryApproved) t;
    mail_on ← cfg mail_enabled;
    if (mail_on : bool) then
      og ← query (User_find_by_uuid (ea_grantor_uuid emer));
      grantor_user ← unwrap og "Grantor user not found";
      grantee ← unwrap (ea_grantee_uuid emer) "Grantee user invalid";
      oe ← query (User_find_by_uuid grantee);
      grantee_user ← unwrap oe "Grantee user not found";
      _ ← expect_mail (send_emergency_access_recovery_timed_out (u_email grantor_user)
                         (u_name grantee_user) (EmergencyAccess_get_type_as_str emer));
      expect_mail (send_emergency_access_recovery_approved (u_email grantee_user)
                     (u_name grantor_user))
    else mret ()
  else mret ().

(** src/src/api/core/emergency_access.rs: emergency_request_timeout_job *)
Definition emergency_request_timeout_job : Handler () :=
  allowed ← cfg emergency_access_allowed;
  if negb allowed then mret ()
  else
    l ← query EmergencyAccess_find_all_recoveries_initiated;
    t ← now;
    mfor l (timeout_one t).

(** One record of the loop of [emergency_notification_reminder_job]. *)
(** src/src/api/core/emergency_access.rs:791-829: emergency_notification_reminder_job *)
Definition reminder_one (t : NaiveDateTime) (emer : EmergencyAccess) : Handler () :=
  initiated ← unwrap (ea_recovery_initiated_at emer) "recovery_initiated_at";
  delta ← unwrap (try_days (i32_wrap (ea_wait_time_days emer - 1))) "try_days";
  final_recovery_reminder_at ← unwrap (dt_add initiated delta)
                                 "NaiveDateTime + TimeDelta overflowed";
  next_recovery_reminder_at ← match ea_last_notification_at emer with
                              | Some l => unwrap (dt_add l SECONDS_PER_DAY)
                                            "NaiveDateTime + TimeDelta overflowed"
                              | None => mret t
                              end;
  if (final_recovery_reminder_at <=? t)%Z && (next_recovery_reminder_at <=? t)%Z then
    emer ← EmergencyAccess_update_last_notification_date_and_save emer t;
    mail_on ← cfg mail_enabled;
    if (mail_on : bool) then
      og ← query (User_find_by_uuid (ea_grantor_uuid emer));
      grantor_user ← unwrap og "Grantor user not found";
      grantee ← unwrap (ea_grantee_uuid emer) "Grantee user invalid";
      oe ← query (User_find_by_uuid grantee);
      grantee_user ← unwrap oe "Grantee user not found";
      expect_mail (send_emergency_access_recovery_reminder (u_email grantor_user)
                     (u_name grantee_user) (EmergencyAccess_get_type_as_str emer) "1")
    else mret ()
  else mret ().

(** src/src/api/core/emergency_access.rs: emergency_notification_reminder_job *)
Definition emergency_notification_reminder_job : Handler () :=
  allowed ← cfg emergency_access_allowed;
  if negb allowed then mret ()
  else
    l ← query EmergencyAccess_find_all_recoveries_initiated;
    t ← now;
    mfor l (reminder_one t).
