(* ===== verification/Accounts.v ===== *)
(** The removal of accounts and organizations, with everything below them
    (src/src/db/models/user.rs, src/src/db/models/organization.rs), and the
    proof of identity the destructive handlers ask for
    ([PasswordOrOtpData::validate] of src/src/api/mod.rs with
    src/src/api/core/two_factor/protected_actions.rs). *)
From S2P Require Import Prelude Table Schema Roles Users Memberships Groups Collections Policies.
From S2P Require Import Vault Ciphers Util Devices Auth Sends Emergency.

(** src/src/db/models/user.rs: User::delete *)
Definition User_delete (u : User) : Handler () :=
  ms ← query (Membership_find_confirmed_by_user (u_uuid u));
  _ ← mfor ms (λ m,
        n ← query (Membership_count_confirmed_by_org_and_type (m_org_uuid m) Owner);
        err_if (i32_eq (m_atype m) Owner && (n <=? 1)%Z) "Can't delete last owner");
  _ ← Send_delete_all_by_user (u_uuid u);
  _ ← EmergencyAccess_delete_all_by_user (u_uuid u);
  _ ← EmergencyAccess_delete_all_by_grantee_email (u_email u);
  _ ← Membership_delete_all_by_user (u_uuid u);
  _ ← Cipher_delete_all_by_user (u_uuid u);
  _ ← Favorite_delete_all_by_user (u_uuid u);
  _ ← Folder_delete_all_by_user (u_uuid u);
  _ ← Device_delete_all_by_user (u_uuid u);
  _ ← TwoFactor_delete_all_by_user (u_uuid u);
  _ ← TwoFactorIncomplete_delete_all_by_user (u_uuid u);
  _ ← Invitation_take (u_email u);
  write (λ d, d <| users := delete_where (λ x, u_uuid x == u_uuid u) (users d) |>).

(** src/src/db/models/organization.rs: OrganizationApiKey::delete_all_by_organization *)
Definition OrganizationApiKey_delete_all_by_organization (org_uuid : OrganizationId) : Handler () :=
  write (λ d, d <| organization_api_key :=
    delete_where (λ k, ak_org_uuid k == org_uuid) (organization_api_key d) |>).

(** src/src/db/models/organization.rs: Organization::delete *)
Definition Organization_delete (o : Organization) : Handler () :=
  _ ← Cipher_delete_all_by_organization (o_uuid o);
  _ ← Collection_delete_all_by_organization (o_uuid o);
  _ ← Membership_delete_all_by_organization (o_uuid o);
  _ ← OrgPolicy_delete_all_by_organization (o_uuid o);
  _ ← Group_delete_all_by_organization (o_uuid o);
  _ ← OrganizationApiKey_delete_all_by_organization (o_uuid o);
  write (λ d, d <| organizations := delete_where (λ x, o_uuid x == o_uuid o) (organizations d) |>).

(** ** Protected actions *)

(** [u64::saturating_add] *)
Definition saturating_add (a b : Z) : Z := Z.min (a + b) u64_MAX.

(** src/src/api/core/two_factor/protected_actions.rs: ProtectedActionData::new *)
Definition ProtectedActionData_new (token : string) : Handler ProtectedActionData :=
  t ← now; mret (mkProtectedActionData token t 0%Z).

(** src/src/api/core/two_factor/protected_actions.rs: ProtectedActionData::add_attempt *)
Definition ProtectedActionData_add_attempt (d : ProtectedActionData) : ProtectedActionData :=
  d <| pad_attempts := saturating_add (pad_attempts d) 1 |>.

(** src/src/api/core/two_factor/protected_actions.rs: ProtectedActionData::from_json *)
Definition ProtectedActionData_from_json (s : string) : Handler ProtectedActionData :=
  some_or (gets (λ e _, e_parse_pa e s)) "Could not decode ProtectedActionData from string".

(** [time_since_sent().num_seconds()] *)
(** src/src/api/core/two_factor/protected_actions.rs: ProtectedActionData::time_since_sent *)
Definition time_since_sent (d : ProtectedActionData) : Handler Z :=
  t ← now; mret (t - pad_token_sent d)%Z.

(** src/src/api/core/two_factor/protected_actions.rs: request_otp *)
Definition request_otp (headers : Headers) : Handler () :=
  mail_on ← cfg mail_enabled;
  _ ← err_if (negb mail_on)
        "Email is disabled for this server. Either enable email or login using your master password instead of login via device.";
  let user := h_user headers in
  opa ← query (TwoFactor_find_by_user_and_type (u_uuid user)
                 (TwoFactorType_as_i32 ProtectedActions));
  _ ← match (opa : option TwoFactor) with
      | Some pa =>
        pa_data ← ProtectedActionData_from_json (tf_data pa);
        elapsed ← time_since_sent pa_data;
        _ ← err_if (elapsed <? 30)%Z
              ("Please wait " +:+ pretty (30 - elapsed)%Z +:+
               " seconds before requesting another code.");
        TwoFactor_delete pa
      | None => mret ()
      end;
  generated_token ← get_random;
  pa_data ← ProtectedActionData_new generated_token;
  json ← gets (λ e _, e_pa_json e pa_data);
  tf ← TwoFactor_new (u_uuid user) ProtectedActions json;
  _ ← TwoFactor_save tf;
  send_mail (send_protected_action_token (u_email user) (pad_token pa_data)).

(** src/src/api/core/two_factor/protected_actions.rs: validate_protected_action_otp *)
Definition validate_protected_action_otp (otp : string) (user_id : UserId) (delete_if_valid : bool)
    : Handler () :=
  pa ← some_or (query (TwoFactor_find_by_user_and_type user_id
                         (TwoFactorType_as_i32 ProtectedActions)))
         "Protected action token not found, try sending the code again or restart the process";
  pa_data ← ProtectedActionData_from_json (tf_data pa);
  let pa_data := ProtectedActionData_add_attempt pa_data in
  json ← gets (λ e _, e_pa_json e pa_data);
  let pa := pa <| tf_data := json |> in
  limit ← cfg email_attempts_limit;
  _ ← err_if (limit <=? pad_attempts pa_data)%Z "Token has expired";
  max_time ← cfg email_expiration_time;
  elapsed ← time_since_sent pa_data;
  _ ← (if (max_time <? elapsed)%Z
       then _ ← TwoFactor_delete pa; err "Token has expired" else mret ());
  _ ← (if pad_token pa_data == otp then mret ()
       else _ ← TwoFactor_save pa; err "Token is invalid");
  if delete_if_valid then TwoFactor_delete pa else mret ().

(** src/src/api/core/two_factor/protected_actions.rs: verify_otp *)
Definition verify_otp (otp : string) (headers : Headers) : Handler () :=
  mail_on ← cfg mail_enabled;
  _ ← err_if (negb mail_on)
        "Email is disabled for this server. Either enable email or login using your master password instead of login via device.";
  validate_protected_action_otp otp (u_uuid (h_user headers)) true.

(** src/src/api/mod.rs: PasswordOrOtpData *)
Record PasswordOrOtpData := mkPasswordOrOtpData {
  pod_master_password_hash : option string;
  pod_otp : option string }.

(** src/src/api/mod.rs: PasswordOrOtpData::validate *)
Definition PasswordOrOtpData_validate (d : PasswordOrOtpData) (user : User)
    (delete_if_valid : bool) : Handler () :=
  match pod_master_password_hash d, pod_otp d with
  | Some pw_hash, None =>
    ok ← User_check_valid_password user pw_hash;
    err_if (negb ok) "Invalid password"
  | None, Some otp => validate_protected_action_otp otp (u_uuid user) delete_if_valid
  | _, _ => err "No validation provided"
  end.
