(* ===== verification/Orgs.v ===== *)
(** The organization handlers of src/src/api/core/organizations.rs: creation
    and deletion, invitations, the life of a membership, policies, and the
    two-factor enforcement of src/src/api/core/two_factor/mod.rs. *)
From S2P Require Import Prelude Table Schema Roles Users Memberships Groups Collections Events.
From S2P Require Import Policies Util Settings Devices Auth Sends Emergency Accounts.

(** ** Organizations *)

(** src/src/api/core/organizations.rs: OrgKeyData *)
Record OrgKeyData := mkOrgKeyData {
  ok_encrypted_private_key : string;
  ok_public_key : string }.

(** src/src/api/core/organizations.rs: OrgData *)
Record OrgData := mkOrgData {
  od_billing_email : string;
  od_collection_name : string;
  od_key : string;
  od_name : string;
  od_keys : option OrgKeyData }.

(** src/src/api/core/organizations.rs: create_organization *)
Definition create_organization (headers : Headers) (data : OrgData) : Handler Organization :=
  allowed ← gets (λ e _, is_org_creation_allowed e (u_email (h_user headers)));
  _ ← err_if (negb allowed) "User not allowed to create organizations";
  single ← query (OrgPolicy_is_applicable_to_user (u_uuid (h_user headers)) SingleOrg None);
  _ ← err_if single
        "You may not create an organization. You belong to an organization which has a policy that prohibits you from being a member of any other organization.";
  let '(private_key, public_key) :=
    match od_keys data with
    | Some keys => (Some (ok_encrypted_private_key keys), Some (ok_public_key keys))
    | None => (None, None)
    end in
  org ← Organization_new (od_name data) (od_billing_email data) private_key public_key;
  member ← Membership_new (u_uuid (h_user headers)) (o_uuid org) None;
  collection ← Collection_new (o_uuid org) (od_collection_name data) None;
  let member := member <| m_akey := od_key data |> <| m_access_all := true |>
                       <| m_atype := MembershipType_as_i32 Owner |>
                       <| m_status := MembershipStatus_as_i32 Confirmed |> in
  _ ← Organization_save org;
  _ ← Membership_save member;
  _ ← Collection_save collection;
  mret org.

(** src/src/api/core/organizations.rs: delete_organization *)
Definition delete_organization (org_id : OrganizationId) (data : PasswordOrOtpData)
    (headers : OwnerHeaders) : Handler () :=
  _ ← err_if (org_id != owh_org_id headers) "Organization not found";
  _ ← PasswordOrOtpData_validate data (owh_user headers) true;
  org ← some_or (query (Organization_find_by_uuid org_id)) "Organization not found";
  Organization_delete org.

(** src/src/api/core/organizations.rs: leave_organization *)
Definition leave_organization (org_id : OrganizationId) (headers : OrgMemberHeaders) : Handler () :=
  let membership := om_membership headers in
  _ ← err_if (negb (membership is Confirmed))
        "You need to be a Member of the Organization to call this endpoint";
  n ← query (Membership_count_confirmed_by_org_and_type org_id Owner);
  _ ← err_if (i32_eq (m_atype membership) Owner && (n <=? 1)%Z) "The last owner can't leave";
  _ ← log_event OrganizationUserLeft (m_uuid membership) org_id (u_uuid (om_user headers))
        (d_atype (om_device headers)) (om_ip headers);
  Membership_delete membership.

(** src/src/api/core/organizations.rs: post_organization *)
Definition post_organization (org_id : OrganizationId) (headers : OwnerHeaders)
    (name billing_email : string) : Handler Organization :=
  _ ← err_if (org_id != owh_org_id headers) "Organization not found";
  org ← some_or (query (Organization_find_by_uuid org_id)) "Organization not found";
  billing_email ← gets (λ e _, e_lowercase e billing_email);
  let org := org <| o_name := name |> <| o_billing_email := billing_email |> in
  _ ← Organization_save org;
  _ ← log_event OrganizationUpdated org_id org_id (u_uuid (owh_user headers))
        (d_atype (owh_device headers)) (owh_ip headers);
  mret org.

(** ** Invitations *)

(** src/src/api/core/organizations.rs: CollectionData *)
Record CollectionData := mkCollectionData {
  cd_id : CollectionId;
  cd_read_only : bool;
  cd_hide_passwords : bool;
  cd_manage : bool }.

(** src/src/api/core/organizations.rs: InviteData *)
Record InviteData := mkInviteData {
  ivd_emails : list string;
  ivd_groups : list GroupId;
  ivd_type : NumberOrString;
  ivd_collections : option (list CollectionData);
  ivd_permissions : gmap string Value }.

(** src/src/api/core/organizations.rs: InviteData::validate *)
Definition InviteData_validate (d : InviteData) (org_id : OrganizationId) : Handler () :=
  cols ← query (Collection_find_by_organization org_id);
  _ ← err_if (existsb (λ c, negb (existsb (λ x, c_uuid x == cd_id c) cols))
                (default [] (ivd_collections d))) "Invalid collection";
  grps ← query (Group_find_by_organization org_id);
  err_if (existsb (λ g, negb (existsb (λ x, g_uuid x == g) grps)) (ivd_groups d)) "Invalid group".

Definition is_json_true (o : option Value) : bool :=
  match o with Some (VBool true) => true | _ => false end.

(** The custom role with the `Manage all collections` box checked. *)
(** src/src/api/core/organizations.rs:1059-1063: send_invite *)
Definition custom_access_all (raw_type : string) (permissions : gmap string Value) : bool :=
  (raw_type == "4") &&
  is_json_true (permissions !! "editAnyCollection") &&
  is_json_true (permissions !! "deleteAnyCollection") &&
  is_json_true (permissions !! "createNewCollections").

(** The collections of the request, for a member without [access_all]. *)
(** src/src/api/core/organizations.rs:1145-1162: send_invite *)
Definition assign_collections (org_id : OrganizationId) (user_id : UserId)
    (cols : list CollectionData) : Handler () :=
  mfor cols (λ col,
    collection ← some_or (query (Collection_find_by_uuid_and_org (cd_id col) org_id))
                   "Collection not found in Organization";
    CollectionUser_save user_id (c_uuid collection) (cd_read_only col) (cd_hide_passwords col)
      (cd_manage col)).

(** The account of an invited address, created when there is none; the flag is
    the mutable [user_created], the number the status of the membership. *)
(** src/src/api/core/organizations.rs:1067-1100: send_invite *)
Definition invite_user (org_id : OrganizationId) (mail_on : bool) (user_created : bool)
    (email : string) : Handler (User * bool * Z) :=
  ou ← User_find_by_mail email;
  match (ou : option User) with
  | None =>
    invitations ← cfg invitations_allowed;
    _ ← err_if (negb invitations) ("User does not exist: " +:+ email);
    domain ← gets (λ e _, is_email_domain_allowed e email);
    _ ← err_if (negb domain) "Email domain not eligible for invitations";
    _ ← (if mail_on then mret () else i ← Invitation_new email; Invitation_save i);
    new_user ← User_new email None;
    new_user ← User_save new_user;
    mret (new_user, true, MembershipStatus_as_i32 Invited)
  | Some user =>
    om ← query (Membership_find_by_user_and_org (u_uuid user) org_id);
    _ ← err_if (is_some om) ("User already in organization: " +:+ email);
    mret (user, user_created,
          if negb mail_on && negb (str_is_empty (u_password_hash user))
          then MembershipStatus_as_i32 Accepted else MembershipStatus_as_i32 Invited)
  end.

(** One address of the loop of [send_invite]; [user_created] is the mutable
    variable declared before the loop. *)
(** src/src/api/core/organizations.rs:1066-1168: send_invite *)
Definition invite_one (org_id : OrganizationId) (data : InviteData) (headers : AdminHeaders)
    (new_type : Z) (access_all : bool) (user_created : bool) (email : string) : Handler bool :=
  mail_on ← cfg mail_enabled;
  ucs ← invite_user org_id mail_on user_created email;
  let '(user, user_created, member_status) := (ucs : User * bool * Z) in
  new_member ← Membership_new (u_uuid user) org_id (Some (u_email (ah_user headers)));
  let new_member := new_member <| m_access_all := access_all |> <| m_atype := new_type |>
                               <| m_status := member_status |> in
  _ ← Membership_save new_member;
  _ ← (if (mail_on : bool) then
         org ← some_or (query (Organization_find_by_uuid org_id)) "Error looking up organization";
         r ← try_ (send_mail (send_invite (u_uuid user) (u_email user) org_id (m_uuid new_member)
                                (o_name org) (Some (u_email (ah_user headers)))));
         match (r : string + ()) with
         | inr _ => mret ()
         | inl x =>
           _ ← (if (user_created : bool) then User_delete user else Membership_delete new_member);
           err ("Error sending invite: " +:+ x +:+ " ")
         end
       else mret ());
  _ ← log_event OrganizationUserInvited (m_uuid new_member) org_id (u_uuid (ah_user headers))
        (d_atype (ah_device headers)) (ah_ip headers);
  _ ← (if access_all then mret ()
       else assign_collections org_id (u_uuid user) (default [] (ivd_collections data)));
  _ ← mfor (ivd_groups data) (λ group_id, GroupUser_save (mkGroupUser group_id (m_uuid new_member)));
  mret user_created.

(** src/src/api/core/organizations.rs: send_invite *)
Definition org_send_invite (org_id : OrganizationId) (data : InviteData) (headers : AdminHeaders)
    : Handler () :=
  _ ← err_if (org_id != ah_org_id headers) "Organization not found";
  _ ← InviteData_validate data org_id;
  let raw_type := into_string (ivd_type data) in
  match MembershipType_from_str raw_type with
  | None => err "Invalid type"
  | Some new_type =>
    let new_type := MembershipType_as_i32 new_type in
    _ ← err_if (negb (i32_eq new_type MUser) && negb (bool_decide (ah_membership_type headers = Owner)))
          "Only Owners can invite Managers, Admins or Owners";
    let access_all := i32_ge new_type Admin ||
                      custom_access_all raw_type (ivd_permissions data) in
    _ ← mfold (ivd_emails data) false (invite_one org_id data headers new_type access_all);
    mret ()
  end.

(** src/src/api/core/organizations.rs: reinvite_member_impl *)
Definition reinvite_member_impl (org_id : OrganizationId) (member_id : MembershipId)
    (invited_by_email : string) : Handler () :=
  member ← some_or (query (Membership_find_by_uuid_and_org member_id org_id))
             "The user hasn't been invited to the organization.";
  _ ← err_if (negb (member is Invited))
        "The user is already accepted or confirmed to the organization";
  user ← some_or (query (User_find_by_uuid (m_user_uuid member))) "User not found.";
  invitations ← cfg invitations_allowed;
  _ ← err_if (negb invitations && str_is_empty (u_password_hash user)) "Invitations are not allowed.";
  org ← some_or (query (Organization_find_by_uuid org_id)) "Error looking up organization.";
  mail_on ← cfg mail_enabled;
  if (mail_on : bool) then
    send_mail (send_invite (u_uuid user) (u_email user) org_id (m_uuid member) (o_name org)
                 (Some invited_by_email))
  else if str_is_empty (u_password_hash user) then
    i ← Invitation_new (u_email user); Invitation_save i
  else
    _ ← Invitation_take (u_email user);
    Membership_save (member <| m_status := MembershipStatus_as_i32 Accepted |>).

(** src/src/api/core/organizations.rs: reinvite_member *)
Definition reinvite_member (org_id : OrganizationId) (member_id : MembershipId)
    (headers : AdminHeaders) : Handler () :=
  _ ← err_if (org_id != ah_org_id headers) "Organization not found";
  reinvite_member_impl org_id member_id (u_email (ah_user headers)).

(** The bulk handlers run the single operation for every id and answer with
    its error text, empty on success. *)
(** src/src/api/core/organizations.rs:1185-1200: bulk_reinvite_members *)
Definition bulk {A} (ids : list A) (key : A → MembershipId) (op : A → Handler ())
    : Handler (list (MembershipId * string)) :=
  mfold ids [] (λ resp x,
    r ← try_ (op x);
    mret (resp ++ [(key x, match (r : string + ()) with inl msg => msg | inr _ => "" end)])).

(** src/src/api/core/organizations.rs: bulk_reinvite_members *)
Definition bulk_reinvite_members (org_id : OrganizationId) (ids : list MembershipId)
    (headers : AdminHeaders) : Handler (list (MembershipId * string)) :=
  _ ← err_if (org_id != ah_org_id headers) "Organization not found";
  bulk ids id (λ member_id, reinvite_member_impl org_id member_id (u_email (ah_user headers))).

(** src/src/api/core/mod.rs: accept_org_invite *)
Definition accept_org_invite (user : User) (member : Membership)
    (reset_password_key : option string) : Handler () :=
  _ ← err_if (negb (member is Invited)) "User already accepted the invitation";
  let member := member <| m_status := MembershipStatus_as_i32 Accepted |>
                       <| m_reset_password_key := reset_password_key |> in
  _ ← OrgPolicy_check_user_allowed member "join";
  _ ← Membership_save member;
  mail_on ← cfg mail_enabled;
  if (mail_on : bool) then
    org ← some_or (query (Organization_find_by_uuid (m_org_uuid member))) "Organization not found.";
    send_mail (send_invite_accepted (u_email user)
                 (default (o_billing_email org) (m_invited_by_email member)) (o_name org))
  else mret ().

(** src/src/api/admin.rs: FAKE_ADMIN_UUID *)
Definition FAKE_ADMIN_UUID : string := "00000000-0000-0000-0000-000000000000".

(** src/src/api/core/organizations.rs: accept_invite *)
Definition accept_invite (org_id : OrganizationId) (member_id : MembershipId) (token : string)
    (reset_password_key : option string) (headers : Headers) : Handler () :=
  claims ← some_or (gets (λ e _, e_decode_invite e token)) "Invalid token";
  _ ← err_if (ic_email claims != u_email (h_user headers))
        "Invitation was issued to a different account";
  _ ← err_if (ic_org_id claims != org_id) "Error accepting the invitation";
  _ ← err_if (ic_member_id claims != member_id) "Error accepting the invitation";
  let member_id := ic_member_id claims in
  _ ← Invitation_take (ic_email claims);
  mail_on ← cfg mail_enabled;
  if member_id != FAKE_ADMIN_UUID then
    membership ← some_or (query (Membership_find_by_uuid_and_org member_id (ic_org_id claims)))
                   "Error accepting the invitation";
    auto_enroll ← OrgPolicy_org_is_reset_password_auto_enroll (m_org_uuid membership);
    _ ← err_if (auto_enroll && is_none reset_password_key)
          "Reset password key is required, but not provided.";
    let reset_password_key := if (auto_enroll : bool) then reset_password_key else None in
    let membership := membership <| m_invited_by_email :=
                        match m_invited_by_email membership with
                        | Some x => Some x
                        | None => ic_invited_by_email claims
                        end |> in
    accept_org_invite (h_user headers) membership reset_password_key
  else if (mail_on : bool) then
    org_name ← cfg invitation_org_name;
    send_mail (send_invite_confirmed (ic_email claims) org_name)
  else mret ().

(** ** The life of a membership *)

Definition send_user_update (ut : UpdateType) (user_id : UserId) : Handler () :=
  o ← query (User_find_by_uuid user_id);
  match (o : option User) with
  | Some user => emit (UserUpdate ut (u_uuid user))
  | None => mret ()
  end.

(** src/src/api/core/organizations.rs: confirm_invite_impl *)
Definition confirm_invite_impl (org_id : OrganizationId) (member_id : MembershipId) (key : string)
    (headers : AdminHeaders) : Handler () :=
  _ ← err_if (org_id != ah_org_id headers) "Organization not found";
  _ ← err_if (str_is_empty key || str_is_empty member_id)
        "Key or UserId is not set, unable to process request";
  member ← some_or (query (Membership_find_by_uuid_and_org member_id org_id))
             "The specified user isn't a member of the organization";
  _ ← err_if (negb (i32_eq (m_atype member) MUser) &&
              negb (bool_decide (ah_membership_type headers = Owner)))
        "Only Owners can confirm Managers, Admins or Owners";
  _ ← err_if (negb (member is Accepted)) "User in invalid state";
  let member := member <| m_status := MembershipStatus_as_i32 Confirmed |> <| m_akey := key |> in
  _ ← OrgPolicy_check_user_allowed member "confirm";
  _ ← log_event OrganizationUserConfirmed (m_uuid member) org_id (u_uuid (ah_user headers))
        (d_atype (ah_device headers)) (ah_ip headers);
  mail_on ← cfg mail_enabled;
  _ ← (if (mail_on : bool) then
         org ← some_or (query (Organization_find_by_uuid org_id)) "Error looking up organization.";
         user ← some_or (query (User_find_by_uuid (m_user_uuid member))) "Error looking up user.";
         send_mail (send_invite_confirmed (u_email user) (o_name org))
       else mret ());
  save_result ← try_ (Membership_save member);
  _ ← send_user_update SyncOrgKeys (m_user_uuid member);
  match (save_result : string + ()) with inr _ => mret () | inl x => err x end.

(** src/src/api/core/organizations.rs: confirm_invite *)
Definition confirm_invite (org_id : OrganizationId) (member_id : MembershipId)
    (key : option string) (headers : AdminHeaders) : Handler () :=
  confirm_invite_impl org_id member_id (default "" key) headers.

(** src/src/api/core/organizations.rs: bulk_confirm_invite

    [invite.id.unwrap()] panics on a missing id. *)
Definition bulk_confirm_invite (org_id : OrganizationId)
    (keys : option (list (option MembershipId * option string))) (headers : AdminHeaders)
    : Handler (list (MembershipId * string)) :=
  _ ← err_if (org_id != ah_org_id headers) "Organization not found";
  match keys with
  | Some keys =>
    mfold keys [] (λ resp '(oid, okey),
      member_id ← unwrap oid "called `Option::unwrap()` on a `None` value";
      r ← try_ (confirm_invite_impl org_id member_id (default "" okey) headers);
      mret (resp ++ [(member_id, match (r : string + ()) with inl msg => msg | inr _ => "" end)]))
  | None => mret []
  end.

(** src/src/api/core/organizations.rs: EditUserData *)
Record EditUserData := mkEditUserData {
  ed_type : NumberOrString;
  ed_collections : option (list CollectionData);
  ed_groups : option (list GroupId);
  ed_permissions : gmap string Value }.

(** src/src/api/core/organizations.rs: edit_member *)
Definition edit_member (org_id : OrganizationId) (member_id : MembershipId) (data : EditUserData)
    (headers : AdminHeaders) : Handler () :=
  _ ← err_if (org_id != ah_org_id headers) "Organization not found";
  let raw_type := into_string (ed_type data) in
  match MembershipType_from_str raw_type with
  | None => err "Invalid type"
  | Some new_type =>
    let access_all := MembershipType_ge new_type Admin ||
                      custom_access_all raw_type (ed_permissions data) in
    member ← some_or (query (Membership_find_by_uuid_and_org member_id org_id))
               "The specified user isn't member of the organization";
    _ ← err_if (negb (i32_eq (m_atype member) new_type) &&
                (i32_ge (m_atype member) Admin || MembershipType_ge new_type Admin) &&
                negb (bool_decide (ah_membership_type headers = Owner)))
          "Only Owners can grant and remove Admin or Owner privileges";
    _ ← err_if (i32_eq (m_atype member) Owner &&
                negb (bool_decide (ah_membership_type headers = Owner)))
          "Only Owners can edit Owner users";
    n ← query (Membership_count_confirmed_by_org_and_type org_id Owner);
    _ ← err_if (i32_eq (m_atype member) Owner && negb (bool_decide (new_type = Owner)) &&
                (member is Confirmed) && (n <=? 1)%Z) "Can't delete the last owner";
    let member := member <| m_access_all := access_all |>
                         <| m_atype := MembershipType_as_i32 new_type |> in
    _ ← OrgPolicy_check_user_allowed member "modify";
    cus ← query (CollectionUser_find_by_organization_and_user_uuid org_id (m_user_uuid member));
    _ ← mfor cus CollectionUser_delete;
    _ ← (if access_all then mret ()
         else assign_collections org_id (m_user_uuid member) (default [] (ed_collections data)));
    _ ← GroupUser_delete_all_by_member (m_uuid member);
    _ ← mfor (default [] (ed_groups data))
          (λ group_id, GroupUser_save (mkGroupUser group_id (m_uuid member)));
    _ ← log_event OrganizationUserUpdated (m_uuid member) org_id (u_uuid (ah_user headers))
          (d_atype (ah_device headers)) (ah_ip headers);
    Membership_save member
  end.

(** src/src/api/core/organizations.rs: delete_member_impl *)
Definition delete_member_impl (org_id : OrganizationId) (member_id : MembershipId)
    (headers : AdminHeaders) : Handler () :=
  _ ← err_if (org_id != ah_org_id headers) "Organization not found";
  member ← some_or (query (Membership_find_by_uuid_and_org member_id org_id))
             "User to delete isn't member of the organization";
  _ ← err_if (negb (i32_eq (m_atype member) MUser) &&
              negb (bool_decide (ah_membership_type headers = Owner)))
        "Only Owners can delete Admins or Owners";
  n ← query (Membership_count_confirmed_by_org_and_type org_id Owner);
  _ ← err_if (i32_eq (m_atype member) Owner && (member is Confirmed) && (n <=? 1)%Z)
        "Can't delete the last owner";
  _ ← log_event OrganizationUserRemoved (m_uuid member) org_id (u_uuid (ah_user headers))
        (d_atype (ah_device headers)) (ah_ip headers);
  _ ← send_user_update SyncOrgKeys (m_user_uuid member);
  Membership_delete member.

(** src/src/api/core/organizations.rs: delete_member *)
Definition delete_member (org_id : OrganizationId) (member_id : MembershipId)
    (headers : AdminHeaders) : Handler () :=
  delete_member_impl org_id member_id headers.

(** src/src/api/core/organizations.rs: bulk_delete_member *)
Definition bulk_delete_member (org_id : OrganizationId) (ids : list MembershipId)
    (headers : AdminHeaders) : Handler (list (MembershipId * string)) :=
  _ ← err_if (org_id != ah_org_id headers) "Organization not found";
  bulk ids id (λ member_id, delete_member_impl org_id member_id headers).

(** src/src/api/core/organizations.rs: revoke_member_impl *)
Definition revoke_member_impl (org_id : OrganizationId) (member_id : MembershipId)
    (headers : AdminHeaders) : Handler () :=
  _ ← err_if (org_id != ah_org_id headers) "Organization not found";
  om ← query (Membership_find_by_uuid_and_org member_id org_id);
  match (om : option Membership) with
  | Some member =>
    if (MembershipStatus_as_i32 Revoked <? m_status member)%Z then
      _ ← err_if (m_user_uuid member == u_uuid (ah_user headers)) "You cannot revoke yourself";
      _ ← err_if (i32_eq (m_atype member) Owner &&
                  negb (bool_decide (ah_membership_type headers = Owner)))
            "Only owners can revoke other owners";
      n ← query (Membership_count_confirmed_by_org_and_type org_id Owner);
      _ ← err_if (i32_eq (m_atype member) Owner && (n <=? 1)%Z)
            "Organization must have at least one confirmed owner";
      let member := (Membership_revoke member).1 in
      _ ← Membership_save member;
      log_event OrganizationUserRevoked (m_uuid member) org_id (u_uuid (ah_user headers))
        (d_atype (ah_device headers)) (ah_ip headers)
    else err "User is already revoked"
  | None => err "User not found in organization"
  end.

(** src/src/api/core/organizations.rs: revoke_member *)
Definition revoke_member (org_id : OrganizationId) (member_id : MembershipId)
    (headers : AdminHeaders) : Handler () :=
  revoke_member_impl org_id member_id headers.

(** src/src/api/core/organizations.rs: bulk_revoke_members *)
Definition bulk_revoke_members (org_id : OrganizationId) (ids : option (list MembershipId))
    (headers : AdminHeaders) : Handler (list (MembershipId * string)) :=
  _ ← err_if (org_id != ah_org_id headers) "Organization not found";
  bulk (default [] ids) id (λ member_id, revoke_member_impl org_id member_id headers).

(** src/src/api/core/organizations.rs: restore_member_impl *)
Definition restore_member_impl (org_id : OrganizationId) (member_id : MembershipId)
    (headers : AdminHeaders) : Handler () :=
  _ ← err_if (org_id != ah_org_id headers) "Organization not found";
  om ← query (Membership_find_by_uuid_and_org member_id org_id);
  match (om : option Membership) with
  | Some member =>
    if (m_status member <? MembershipStatus_as_i32 Accepted)%Z then
      _ ← err_if (m_user_uuid member == u_uuid (ah_user headers)) "You cannot restore yourself";
      _ ← err_if (i32_eq (m_atype member) Owner &&
                  negb (bool_decide (ah_membership_type headers = Owner)))
            "Only owners can restore other owners";
      let member := (Membership_restore member).1 in
      _ ← OrgPolicy_check_user_allowed member "restore";
      _ ← Membership_save member;
      log_event OrganizationUserRestored (m_uuid member) org_id (u_uuid (ah_user headers))
        (d_atype (ah_device headers)) (ah_ip headers)
    else err "User is already active"
  | None => err "User not found in organization"
  end.

(** src/src/api/core/organizations.rs: restore_member *)
Definition restore_member (org_id : OrganizationId) (member_id : MembershipId)
    (headers : AdminHeaders) : Handler () :=
  restore_member_impl org_id member_id headers.

(** src/src/api/core/organizations.rs: bulk_restore_members *)
Definition bulk_restore_members (org_id : OrganizationId) (ids : list MembershipId)
    (headers : AdminHeaders) : Handler (list (MembershipId * string)) :=
  _ ← err_if (org_id != ah_org_id headers) "Organization not found";
  bulk ids id (λ member_id, restore_member_impl org_id member_id headers).

(** ** Policies and their enforcement *)

(** src/src/api/core/two_factor/mod.rs: enforce_2fa_policy *)
Definition enforce_2fa_policy (user : User) (act_user_id : UserId) (device_type : Z) (ip : string)
    : Handler () :=
  ms ← query (Membership_find_by_user_and_policy (u_uuid user) TwoFactorAuthentication);
  mfor ms (λ member,
    if i32_lt (m_atype member) Admin then
      mail_on ← cfg mail_enabled;
      _ ← (if (mail_on : bool) then
             oo ← query (Organization_find_by_uuid (m_org_uuid member));
             org ← unwrap oo "called `Option::unwrap()` on a `None` value";
             send_mail (send_2fa_removed_from_org (u_email user) (o_name org))
           else mret ());
      let member := (Membership_revoke member).1 in
      _ ← Membership_save member;
      log_event OrganizationUserRevoked (m_uuid member) (m_org_uuid member) act_user_id
        device_type ip
    else mret ()).

(** src/src/api/core/two_factor/mod.rs: enforce_2fa_policy_for_org *)
Definition enforce_2fa_policy_for_org (org_id : OrganizationId) (act_user_id : UserId)
    (device_type : Z) (ip : string) : Handler () :=
  oo ← query (Organization_find_by_uuid org_id);
  org ← unwrap oo "called `Option::unwrap()` on a `None` value";
  ms ← query (Membership_find_confirmed_by_org org_id);
  mfor ms (λ member,
    factors ← query (TwoFactor_find_by_user (m_user_uuid member));
    if i32_lt (m_atype member) Admin && is_empty factors then
      mail_on ← cfg mail_enabled;
      _ ← (if (mail_on : bool) then
             ou ← query (User_find_by_uuid (m_user_uuid member));
             user ← unwrap ou "called `Option::unwrap()` on a `None` value";
             send_mail (send_2fa_removed_from_org (u_email user) (o_name org))
           else mret ());
      let member := (Membership_revoke member).1 in
      _ ← Membership_save member;
      log_event OrganizationUserRevoked (m_uuid member) org_id act_user_id device_type ip
    else mret ()).

(** src/src/api/core/two_factor/mod.rs: disable_twofactor *)
Definition disable_twofactor (data : PasswordOrOtpData) (type_ : NumberOrString) (headers : Headers)
    : Handler Z :=
  let user := h_user headers in
  _ ← PasswordOrOtpData_validate data user true;
  type_ ← lift (into_i32 type_);
  otf ← query (TwoFactor_find_by_user_and_type (u_uuid user) type_);
  _ ← match (otf : option TwoFactor) with
      | Some tf =>
        _ ← TwoFactor_delete tf;
        log_user_event UserDisabled2fa (u_uuid user) (d_atype (h_device headers)) (h_ip headers)
      | None => mret ()
      end;
  factors ← query (TwoFactor_find_by_user (u_uuid user));
  _ ← (if is_empty factors
       then enforce_2fa_policy user (u_uuid user) (d_atype (h_device headers)) (h_ip headers)
       else mret ());
  mret type_.

(** The loop of [put_policy] over the members, when SingleOrg is enabled. *)
(** src/src/api/core/organizations.rs:2084-2117: put_policy *)
Definition enforce_single_org (org_id : OrganizationId) (headers : AdminHeaders) : Handler () :=
  ms ← query (Membership_find_by_org org_id);
  mfor ms (λ member,
    n ← query (Membership_count_accepted_and_confirmed_by_user (m_user_uuid member)
                 (m_org_uuid member));
    if i32_lt (m_atype member) Admin && negb (member is Invited) && (0 <? n)%Z then
      mail_on ← cfg mail_enabled;
      _ ← (if (mail_on : bool) then
             oo ← query (Organization_find_by_uuid (m_org_uuid member));
             org ← unwrap oo "called `Option::unwrap()` on a `None` value";
             ou ← query (User_find_by_uuid (m_user_uuid member));
             user ← unwrap ou "called `Option::unwrap()` on a `None` value";
             send_mail (send_single_org_removed_from_org (u_email user) (o_name org))
           else mret ());
      _ ← log_event OrganizationUserRemoved (m_uuid member) org_id (u_uuid (ah_user headers))
            (d_atype (ah_device headers)) (ah_ip headers);
      Membership_save (Membership_revoke member).1
    else mret ()).

(** src/src/api/core/organizations.rs: PolicyData *)
Record PolicyData := mkPolicyData {
  pd_enabled : bool;
  pd_data : option Value }.

(** src/src/api/core/organizations.rs: put_policy *)
Definition put_policy (org_id : OrganizationId) (pol_type : Z) (data : PolicyData)
    (headers : AdminHeaders) : Handler OrgPolicy :=
  _ ← err_if (org_id != ah_org_id headers) "Organization not found";
  match OrgPolicyType_from_i32 pol_type with
  | None => err "Invalid or unsupported policy type"
  | Some pol_type_enum =>
    enforce ← cfg enforce_single_org_with_reset_pw_policy;
    pso ← query (OrgPolicy_find_by_org_and_type org_id SingleOrg);
    _ ← err_if (enforce && bool_decide (pol_type_enum = ResetPassword) && pd_enabled data &&
                negb (on_row pso p_enabled))
          "Single Organization policy is not enabled. It is mandatory for this policy to be enabled.";
    prp ← query (OrgPolicy_find_by_org_and_type org_id ResetPassword);
    _ ← err_if (enforce && bool_decide (pol_type_enum = SingleOrg) && negb (pd_enabled data) &&
                on_row prp p_enabled)
          "Account recovery policy is enabled. It is not allowed to disable this policy.";
    _ ← (if bool_decide (pol_type_enum = TwoFactorAuthentication) && pd_enabled data
         then enforce_2fa_policy_for_org org_id (u_uuid (ah_user headers))
                (d_atype (ah_device headers)) (ah_ip headers)
         else mret ());
    _ ← (if bool_decide (pol_type_enum = SingleOrg) && pd_enabled data
         then enforce_single_org org_id headers else mret ());
    op ← query (OrgPolicy_find_by_org_and_type org_id pol_type_enum);
    policy ← match (op : option OrgPolicy) with
             | Some p => mret p
             | None => OrgPolicy_new org_id pol_type_enum false "{}"
             end;
    json ← gets (λ e _, e_json e (pd_data data));
    let policy := policy <| p_enabled := pd_enabled data |> <| p_data := json |> in
    _ ← OrgPolicy_save policy;
    _ ← log_event PolicyUpdated (p_uuid policy) org_id (u_uuid (ah_user headers))
          (d_atype (ah_device headers)) (ah_ip headers);
    mret policy
  end.
