(* ===== verification/TwoFactors.v ===== *)
(** The second factors the server checks itself: authenticator codes
    (src/src/api/core/two_factor/authenticator.rs), codes by e-mail
    (email.rs), YubiKey codes (yubikey.rs, the code is verified by Yubico's
    server), recovery codes and the mails on unfinished logins (mod.rs). *)
From S2P Require Import Prelude Table Schema Roles Users Memberships Policies Util Devices Events.
From S2P Require Import AuthRequests Auth Emergency Accounts Orgs.

(** src/src/db/models/two_factor.rs:27-48: TwoFactorType *)
Definition TwoFactorType_from_i32 (n : Z) : option TwoFactorType :=
  if (n =? 0)%Z then Some Authenticator else if (n =? 1)%Z then Some Email
  else if (n =? 2)%Z then Some Duo else if (n =? 3)%Z then Some YubiKey
  else if (n =? 4)%Z then Some U2f else if (n =? 5)%Z then Some Remember
  else if (n =? 6)%Z then Some OrganizationDuo else if (n =? 7)%Z then Some Webauthn
  else if (n =? 8)%Z then Some RecoveryCode
  else if (n =? 1000)%Z then Some U2fRegisterChallenge
  else if (n =? 1001)%Z then Some U2fLoginChallenge
  else if (n =? 1002)%Z then Some EmailVerificationChallenge
  else if (n =? 1003)%Z then Some WebauthnRegisterChallenge
  else if (n =? 1004)%Z then Some WebauthnLoginChallenge
  else if (n =? 2000)%Z then Some ProtectedActions else None.

(** ** Which providers can be used *)

(** src/src/api/core/two_factor/mod.rs: has_global_duo_credentials *)
Definition has_global_duo_credentials (cf : Config) : bool :=
  enable_duo cf && is_some (duo_host cf) && is_some (duo_ikey cf) && is_some (duo_skey cf).

(** src/src/api/core/two_factor/mod.rs: is_twofactor_provider_usable *)
Definition is_twofactor_provider_usable (e : Env) (provider_type : TwoFactorType)
    (provider_data : option string) : bool :=
  match provider_type with
  | Authenticator | RecoveryCode => true
  | Email => enable_email_2fa (e_cfg e)
  | Duo | OrganizationDuo =>
    match provider_data ≫= e_duo_data e with
    | Some (host, ik, sk) =>
      negb (str_is_empty host) && negb (str_is_empty ik) && negb (str_is_empty sk)
    | None => false
    end || has_global_duo_credentials (e_cfg e)
  | YubiKey =>
    enable_yubico (e_cfg e) && is_some (yubico_client_id (e_cfg e)) &&
    is_some (yubico_secret_key (e_cfg e))
  | Webauthn => is_webauthn_2fa_supported (e_cfg e)
  | Remember => negb (disable_2fa_remember (e_cfg e))
  | U2f | U2fRegisterChallenge | U2fLoginChallenge | EmailVerificationChallenge
  | WebauthnRegisterChallenge | WebauthnLoginChallenge | ProtectedActions => false
  end.

(** src/src/api/core/two_factor/mod.rs: generate_recover_code *)
Definition generate_recover_code (user : User) : Handler () :=
  if is_none (u_totp_recover user) then
    totp_recover ← get_random;
    ignore (User_save (user <| u_totp_recover := Some totp_recover |>))
  else mret ().

(** src/src/api/core/two_factor/mod.rs: get_recover *)
Definition get_recover (data : PasswordOrOtpData) (headers : Headers) : Handler (option string) :=
  _ ← PasswordOrOtpData_validate data (h_user headers) true;
  mret (u_totp_recover (h_user headers)).

(** ** Authenticator codes *)

(** [User_failed_log_in_2fa] of the events *)
Abbreviation UserFailedLogIn2fa_event := (EventType_as_i32 UserFailedLogIn2fa).

(** One round of the loop over the time steps of [validate_totp_code]; [None]
    goes on to the next one. *)
(** src/src/api/core/two_factor/authenticator.rs:144-171: validate_totp_code *)
Definition totp_round (e : Env) (decoded_secret totp_code : string) (twofactor : TwoFactor)
    (step : Z) : option (res TwoFactor) :=
  let time_step := (Z.quot (e_now e) 30 + step)%Z in
  let time := ((e_now e + step * 30) mod 2 ^ 64)%Z in
  let generated := e_totp e decoded_secret time in
  if (generated == totp_code) && (tf_last_used twofactor <? time_step)%Z then
    Some (Ok (twofactor <| tf_last_used := time_step |>))
  else if (generated == totp_code) && (time_step <=? tf_last_used twofactor)%Z then
    Some (Err (MsgEvent "Invalid TOTP code!" UserFailedLogIn2fa_event))
  else None.

(** [-steps..=steps] *)
(** src/src/api/core/two_factor/authenticator.rs:137-137: validate_totp_code *)
Definition totp_steps (cf : Config) : list Z :=
  if authenticator_disable_time_drift cf then [0%Z] else [(-1)%Z; 0%Z; 1%Z].

(** The loop: the first round that decides. *)
(** src/src/api/core/two_factor/authenticator.rs:143-180: validate_totp_code *)
Fixpoint totp_loop (e : Env) (decoded_secret totp_code : string) (twofactor : TwoFactor)
    (steps : list Z) : res TwoFactor :=
  match steps with
  | [] => Err (MsgEvent "Invalid TOTP code!" UserFailedLogIn2fa_event)
  | step :: steps =>
    match totp_round e decoded_secret totp_code twofactor step with
    | Some r => r
    | None => totp_loop e decoded_secret totp_code twofactor steps
    end
  end.

(** src/src/api/core/two_factor/authenticator.rs: validate_totp_code *)
Definition validate_totp_code (user_id : UserId) (totp_code secret : string) : Handler () :=
  osecret ← gets (λ e _, e_base32_decode e secret);
  match (osecret : option string) with
  | None => err "Invalid TOTP secret"
  | Some decoded_secret =>
    otf ← query (TwoFactor_find_by_user_and_type user_id (TwoFactorType_as_i32 Authenticator));
    twofactor ← match (otf : option TwoFactor) with
                | Some tf => mret tf
                | None => TwoFactor_new user_id Authenticator secret
                end;
    r ← gets (λ e _, totp_loop e decoded_secret totp_code twofactor (totp_steps (e_cfg e)));
    twofactor ← lift r;
    TwoFactor_save twofactor
  end.

(** src/src/api/core/two_factor/authenticator.rs: validate_totp_code_str *)
Definition validate_totp_code_str (user_id : UserId) (totp_code secret : string) : Handler () :=
  numeric ← gets (λ e _, e_all_numeric e totp_code);
  _ ← err_if (negb numeric) "TOTP code is not a number";
  validate_totp_code user_id totp_code secret.

(** src/src/api/core/two_factor/authenticator.rs: generate_authenticator *)
Definition generate_authenticator (data : PasswordOrOtpData) (headers : Headers)
    : Handler (bool * string) :=
  let user := h_user headers in
  _ ← PasswordOrOtpData_validate data user false;
  otf ← query (TwoFactor_find_by_user_and_type (u_uuid user) (TwoFactorType_as_i32 Authenticator));
  match (otf : option TwoFactor) with
  | Some tf => mret (true, tf_data tf)
  | None => key ← get_random; mret (false, key)
  end.

(** src/src/api/core/two_factor/authenticator.rs: EnableAuthenticatorData *)
Record EnableAuthenticatorData := mkEnableAuthenticatorData {
  ead_key : string;
  ead_token : NumberOrString;
  ead_master_password_hash : option string;
  ead_otp : option string }.

(** src/src/api/core/two_factor/authenticator.rs: activate_authenticator *)
Definition activate_authenticator (data : EnableAuthenticatorData) (headers : Headers)
    : Handler string :=
  let user := h_user headers in
  let token := into_string (ead_token data) in
  _ ← PasswordOrOtpData_validate
        (mkPasswordOrOtpData (ead_master_password_hash data) (ead_otp data)) user true;
  odecoded ← gets (λ e _, e_base32_decode e (ead_key data));
  match (odecoded : option string) with
  | None => err "Invalid totp secret"
  | Some decoded_key =>
    _ ← err_if (negb (String.length decoded_key =? 20)%nat) "Invalid key length";
    secret ← gets (λ e _, e_uppercase e (ead_key data));
    _ ← validate_totp_code (u_uuid user) token secret;
    _ ← generate_recover_code user;
    _ ← log_user_event UserUpdated2fa (u_uuid user) (d_atype (h_device headers)) (h_ip headers);
    mret (ead_key data)
  end.

(** src/src/api/core/two_factor/authenticator.rs: DisableAuthenticatorData *)
Record DisableAuthenticatorData := mkDisableAuthenticatorData {
  dad_key : string;
  dad_master_password_hash : string;
  dad_type : NumberOrString }.

(** src/src/api/core/two_factor/authenticator.rs: disable_authenticator *)
Definition disable_authenticator (data : DisableAuthenticatorData) (headers : Headers)
    : Handler Z :=
  let user := h_user headers in
  type_ ← lift (into_i32 (dad_type data));
  ok ← User_check_valid_password user (dad_master_password_hash data);
  _ ← err_if (negb ok) "Invalid password";
  otf ← query (TwoFactor_find_by_user_and_type (u_uuid user) type_);
  _ ← match (otf : option TwoFactor) with
      | Some twofactor =>
        if tf_data twofactor == dad_key data then
          _ ← TwoFactor_delete twofactor;
          log_user_event UserDisabled2fa (u_uuid user) (d_atype (h_device headers)) (h_ip headers)
        else err ("TOTP key for user " +:+ u_email user +:+
                  " does not match recorded value, cannot deactivate")
      | None => mret ()
      end;
  factors ← query (TwoFactor_find_by_user (u_uuid user));
  _ ← (if is_empty factors then
         enforce_2fa_policy user (u_uuid user) (d_atype (h_device headers)) (h_ip headers)
       else mret ());
  mret type_.

(** ** Codes by e-mail *)

(** src/src/api/core/two_factor/email.rs: EmailTokenData::set_token *)
Definition EmailTokenData_set_token (d : EmailTokenData) (token : string) : Handler EmailTokenData :=
  t ← now; mret (d <| etd_last_token := Some token |> <| etd_token_sent := t |>).

(** src/src/api/core/two_factor/email.rs: EmailTokenData::reset_token *)
Definition EmailTokenData_reset_token (d : EmailTokenData) : EmailTokenData :=
  d <| etd_last_token := None |> <| etd_attempts := 0%Z |>.

(** src/src/api/core/two_factor/email.rs: EmailTokenData::add_attempt *)
Definition EmailTokenData_add_attempt (d : EmailTokenData) : EmailTokenData :=
  d <| etd_attempts := saturating_add (etd_attempts d) 1 |>.

(** src/src/api/core/two_factor/email.rs: EmailTokenData::to_json *)
Definition EmailTokenData_to_json (d : EmailTokenData) : Handler string :=
  gets (λ e _, e_email_token_json e d).

(** src/src/api/core/two_factor/email.rs: EmailTokenData::from_json *)
Definition EmailTokenData_from_json (s : string) : Handler EmailTokenData :=
  some_or (gets (λ e _, e_parse_email_token e s)) "Could not decode EmailTokenData from string".

(** src/src/api/core/two_factor/email.rs: send_token *)
Definition email_send_token (user_id : UserId) : Handler () :=
  twofactor ← some_or (query (TwoFactor_find_by_user_and_type user_id (TwoFactorType_as_i32 Email)))
                "Two factor not found";
  generated_token ← get_random;
  twofactor_data ← EmailTokenData_from_json (tf_data twofactor);
  twofactor_data ← EmailTokenData_set_token twofactor_data generated_token;
  json ← EmailTokenData_to_json twofactor_data;
  _ ← TwoFactor_save (twofactor <| tf_data := json |>);
  match etd_last_token twofactor_data with
  | Some token => send_mail (send_token (etd_email twofactor_data) token)
  | None => err "Token is empty"
  end.

(** [ORDER BY login_time DESC LIMIT 1] *)
Definition last_login (l : list TwoFactorIncomplete) : option TwoFactorIncomplete :=
  foldl (λ best t, match best with
                   | Some b => if (ti_login_time b <? ti_login_time t)%Z then Some t else best
                   | None => Some t
                   end) None l.

(** src/src/db/models/user.rs: User::find_by_device_for_email2fa *)
Definition User_find_by_device_for_email2fa (device_uuid : DeviceId) (db : Db) : option User :=
  t ← last_login (sel (λ t, ti_device_uuid t == device_uuid) (twofactor_incomplete db));
  User_find_by_uuid (ti_user_uuid t) db.

(** src/src/auth.rs: ClientHeaders *)
Record ClientHeaders := mkClientHeaders {
  ch_device_type : Z;
  ch_ip : string }.

(** src/src/ratelimit.rs: check_limit_login *)
Definition check_limit_login (ip : string) : Handler () :=
  ok ← gets (λ e _, e_login_limit e ip);
  err_if (negb ok) "Too many login requests".

(** src/src/api/core/two_factor/email.rs: SendEmailLoginData *)
Record SendEmailLoginData := mkSendEmailLoginData {
  seld_device_identifier : option DeviceId;
  seld_email : option string;
  seld_master_password_hash : option string;
  seld_auth_request_id : option string;
  seld_auth_request_access_code : option string }.

Definition nonempty (o : option string) : option string :=
  match o with Some s => if str_is_empty s then None else Some s | None => None end.

(** src/src/api/core/two_factor/email.rs: send_email_login *)
Definition send_email_login (data : SendEmailLoginData) (client : ClientHeaders) : Handler () :=
  on ← cfg enable_email_2fa;
  _ ← err_if (negb on) "Email 2FA is disabled";
  _ ← check_limit_login (ch_ip client);
  user ← match nonempty (seld_email data) with
         | Some email =>
           user ← some_or (User_find_by_mail email) "Username or password is incorrect. Try again.";
           _ ← match nonempty (seld_master_password_hash data), nonempty (seld_auth_request_id data) with
               | Some master_password_hash, _ =>
                 ok ← User_check_valid_password user master_password_hash;
                 err_if (negb ok) "Username or password is incorrect. Try again."
               | None, Some auth_request_id =>
                 r ← some_or (query (AuthRequest_find_by_uuid auth_request_id))
                       "AuthRequest doesn't exist";
                 match seld_auth_request_access_code data with
                 | None => err "no auth request access code"
                 | Some code =>
                   err_if (negb (aq_device_type r =? ch_device_type client)%Z ||
                           (aq_request_ip r != ch_ip client) ||
                           negb (AuthRequest_check_access_code r code))
                     "AuthRequest doesn't exist"
                 end
               | None, None => err "No password hash has been submitted."
               end;
           mret user
         | None =>
           match seld_device_identifier data with
           | None => err "No device identifier has been submitted."
           | Some device_identifier =>
             some_or (query (User_find_by_device_for_email2fa device_identifier))
               "Username or password is incorrect. Try again."
           end
         end;
  email_send_token (u_uuid user).

(** src/src/api/core/two_factor/email.rs: get_email *)
Definition get_email (data : PasswordOrOtpData) (headers : Headers)
    : Handler (bool * option string) :=
  let user := h_user headers in
  _ ← PasswordOrOtpData_validate data user false;
  otf ← query (TwoFactor_find_by_user_and_type (u_uuid user) (TwoFactorType_as_i32 Email));
  match (otf : option TwoFactor) with
  | Some x => d ← EmailTokenData_from_json (tf_data x); mret (true, Some (etd_email d))
  | None => mret (false, None)
  end.

(** src/src/api/core/two_factor/email.rs: SendEmailData *)
Record SendEmailData := mkSendEmailData {
  sed_email : string;
  sed_master_password_hash : option string;
  sed_otp : option string }.

(** src/src/api/core/two_factor/email.rs: send_email *)
Definition send_email (data : SendEmailData) (headers : Headers) : Handler () :=
  let user := h_user headers in
  _ ← PasswordOrOtpData_validate
        (mkPasswordOrOtpData (sed_master_password_hash data) (sed_otp data)) user false;
  on ← cfg enable_email_2fa;
  _ ← err_if (negb on) "Email 2FA is disabled";
  otf ← query (TwoFactor_find_by_user_and_type (u_uuid user) (TwoFactorType_as_i32 Email));
  _ ← match (otf : option TwoFactor) with Some tf => TwoFactor_delete tf | None => mret () end;
  generated_token ← get_random;
  twofactor_data ← EmailTokenData_new (sed_email data) generated_token;
  json ← EmailTokenData_to_json twofactor_data;
  twofactor ← TwoFactor_new (u_uuid user) EmailVerificationChallenge json;
  _ ← TwoFactor_save twofactor;
  match etd_last_token twofactor_data with
  | Some token => send_mail (send_token (etd_email twofactor_data) token)
  | None => err "Token is empty"
  end.

(** src/src/api/core/two_factor/email.rs: EmailData *)
Record EmailData := mkEmailData {
  emd_token : string;
  emd_master_password_hash : option string;
  emd_otp : option string }.

(** src/src/api/core/two_factor/email.rs: email *)
Definition email_activate (data : EmailData) (headers : Headers) : Handler string :=
  let user := h_user headers in
  _ ← PasswordOrOtpData_validate
        (mkPasswordOrOtpData (emd_master_password_hash data) (emd_otp data)) user true;
  twofactor ← some_or (query (TwoFactor_find_by_user_and_type (u_uuid user)
                                (TwoFactorType_as_i32 EmailVerificationChallenge)))
                "Two factor not found";
  email_data ← EmailTokenData_from_json (tf_data twofactor);
  match etd_last_token email_data with
  | None => err "No token available"
  | Some issued_token =>
    _ ← err_if (issued_token != emd_token data) "Token is invalid";
    let email_data := EmailTokenData_reset_token email_data in
    json ← EmailTokenData_to_json email_data;
    _ ← TwoFactor_save (twofactor <| tf_atype := TwoFactorType_as_i32 Email |> <| tf_data := json |>);
    _ ← generate_recover_code user;
    _ ← log_user_event UserUpdated2fa (u_uuid user) (d_atype (h_device headers)) (h_ip headers);
    mret (etd_email email_data)
  end.

(** src/src/api/core/two_factor/email.rs: validate_email_code_str *)
Definition validate_email_code_str (user_id : UserId) (token data : string) : Handler () :=
  email_data ← EmailTokenData_from_json data;
  twofactor ← some_or (query (TwoFactor_find_by_user_and_type user_id (TwoFactorType_as_i32 Email)))
                "Two factor not found";
  match etd_last_token email_data with
  | None => err_event "No token available!" UserFailedLogIn2fa_event
  | Some issued_token =>
    if issued_token != token then
      let email_data := EmailTokenData_add_attempt email_data in
      limit ← cfg email_attempts_limit;
      let email_data := if (limit <=? etd_attempts email_data)%Z
                        then EmailTokenData_reset_token email_data else email_data in
      json ← EmailTokenData_to_json email_data;
      _ ← TwoFactor_save (twofactor <| tf_data := json |>);
      err_event "Token is invalid!" UserFailedLogIn2fa_event
    else
      let email_data := EmailTokenData_reset_token email_data in
      json ← EmailTokenData_to_json email_data;
      _ ← TwoFactor_save (twofactor <| tf_data := json |>);
      dt ← unwrap (dt_from_timestamp (etd_token_sent email_data)) "Email token timestamp invalid.";
      max_time ← cfg email_expiration_time;
      delta ← unwrap (try_seconds max_time) "try_seconds";
      limit ← unwrap (dt_add dt delta) "NaiveDateTime + TimeDelta overflowed";
      t ← now;
      if (limit <? t)%Z then err_event "Token has expired" UserFailedLogIn2fa_event else mret ()
  end.

(** ** YubiKey codes *)

(** [s.is_char_boundary(n)] *)
Definition is_char_boundary (n : nat) (s : string) : bool :=
  match String.get n s with
  | Some c => let k := Ascii.nat_of_ascii c in negb ((128 <=? k)%nat && (k <? 192)%nat)
  | None => true
  end.

(** src/src/api/core/two_factor/yubikey.rs: validate_yubikey_login *)
Definition validate_yubikey_login (response twofactor_data : string) : Handler () :=
  _ ← err_if (negb (String.length response =? 44)%nat) "Invalid Yubikey OTP length";
  okeys ← gets (λ e _, e_yubikey_keys e twofactor_data);
  keys ← unwrap okeys "Can't parse Yubikey Metadata";
  _ ← (if is_char_boundary 12 response then mret () else panic "not a char boundary");
  let response_id := String.substring 0 12 response in
  _ ← err_if (negb (existsb (String.eqb response_id) keys)) "Given Yubikey is not registered";
  ok ← gets (λ e _, e_yubikey_verify e response);
  err_if (negb ok) "Failed to verify Yubikey against OTP server".

(** ** Mails on logins that were never finished *)

(** src/src/api/core/two_factor/mod.rs: send_incomplete_2fa_notifications *)
Definition send_incomplete_2fa_notifications : Handler () :=
  time_limit ← cfg incomplete_2fa_time_limit;
  mail_on ← cfg mail_enabled;
  if (time_limit <=? 0)%Z || negb mail_on then mret ()
  else
    t ← now;
    delta ← unwrap (try_seconds (time_limit * 60)) "try_minutes";
    time_before ← unwrap (dt_sub t delta) "NaiveDateTime - TimeDelta overflowed";
    incomplete_logins ← query (TwoFactorIncomplete_find_logins_before time_before);
    mfor incomplete_logins (λ login,
      ou ← query (User_find_by_uuid (ti_user_uuid login));
      user ← unwrap ou "User not found";
      sent ← try_ (send_mail (send_incomplete_2fa_login (u_email user) (ti_ip_address login)
                                (ti_login_time login) (ti_device_name login) (ti_device_type login)));
      match (sent : string + ()) with
      | inr _ => ignore (TwoFactorIncomplete_delete login)
      | inl _ => mret ()
      end).
