(* ===== verification/Login.v ===== *)
(** Signing in: the token endpoint of src/src/api/identity.rs with its grants
    (password, API keys, refresh token), and the tokens of src/src/auth.rs it
    hands out.

    WebAuthn and Duo run through libraries and services of third parties; the
    record [Providers] is the interface they are used through, with the part of
    the database they may touch.  Signing in through an identity provider (the
    grant [authorization_code]) is an argument of [login]. *)
From S2P Require Import Prelude Table Schema Roles Users Memberships Policies Util Devices Events.
From S2P Require Import AuthRequests Auth Emergency Accounts Orgs TwoFactors.

(** ** Tokens *)

(** src/src/auth.rs: AuthMethod::scope *)
Definition AuthMethod_scope (m : AuthMethod) : string :=
  match m with
  | OrgApiKey => "api.organization"
  | UserApiKey => "api"
  | Password | Sso => "api offline_access"
  end.

(** src/src/auth.rs: AuthMethod::check_scope *)
Definition AuthMethod_check_scope (m : AuthMethod) (scope : option string) : Handler string :=
  let method_scope := AuthMethod_scope m in
  match scope with
  | None => err "Missing scope"
  | Some scope => if scope == method_scope then mret method_scope
                  else err ("Scope (" +:+ scope +:+ ") not supported")
  end.

(** src/src/auth.rs: LoginJwtClaims::default *)
Definition LoginJwtClaims_default (device : Device) (user : User) : LoginJwtClaims :=
  mkLoginJwtClaims (u_uuid user) (d_uuid device) (u_security_stamp user).

(** src/src/auth.rs: AuthTokens *)
Record AuthTokens := mkAuthTokens {
  at_refresh_claims : RefreshJwtClaims;
  at_access_claims : LoginJwtClaims }.

(** src/src/auth.rs: AuthTokens::new *)
Definition AuthTokens_new (device : Device) (user : User) (sub : AuthMethod) : AuthTokens :=
  mkAuthTokens (mkRefreshJwtClaims sub (d_refresh_token device)) (LoginJwtClaims_default device user).

(** src/src/auth.rs: refresh_tokens *)
Definition refresh_tokens (refresh_token : string) : Handler (Device * AuthTokens) :=
  oclaims ← gets (λ e _, e_decode_refresh e refresh_token);
  let refresh_claims := default (mkRefreshJwtClaims Password refresh_token) oclaims in
  device ← some_or (query (Device_find_by_refresh_token (rc_device_token refresh_claims)))
             "Invalid refresh token";
  device ← Device_save device true;
  user ← some_or (query (User_find_by_uuid (d_user_uuid device))) "Impossible to find user";
  sso_on ← cfg sso_enabled;
  only ← cfg sso_only;
  not_session ← cfg sso_auth_only_not_session;
  auth_tokens ← match rc_sub refresh_claims with
    | Sso =>
      if (sso_on : bool) && (not_session : bool) then mret (AuthTokens_new device user Sso)
      else if (sso_on : bool) then
        ok ← gets (λ e _, e_sso_refresh e refresh_claims);
        if (ok : bool) then mret (AuthTokens_new device user Sso) else err "SSO refresh failed"
      else err "SSO is now disabled, Login again using email and master password"
    | Password =>
      if (sso_on : bool) && (only : bool) then err "SSO is now required, Login again"
      else mret (AuthTokens_new device user Password)
    | OrgApiKey | UserApiKey => err "Invalid auth method, cannot refresh token"
    end;
  mret (device, auth_tokens).

(** src/src/db/models/device.rs: Device::refresh_twofactor_remember *)
Definition Device_refresh_twofactor_remember (d : Device) : Handler (Device * string) :=
  token ← gets (λ e _, e_encode_2fa_remember e (d_uuid d) (d_user_uuid d) (e_now e));
  mret (d <| d_twofactor_remember := Some token |>, token).

(** src/src/db/models/device.rs: Device::is_push_device *)
Definition Device_is_push_device (d : Device) : bool := (d_atype d =? 0)%Z || (d_atype d =? 1)%Z.

(** src/src/api/push.rs: register_push_device *)
Definition register_push_device (device : Device) : Handler Device :=
  on ← cfg push_enabled;
  if negb on || negb (Device_is_push_device device) then mret device
  else if is_none (d_push_token device) then mret device
  else
    device ← match d_push_uuid device with
             | Some _ => mret device
             | None => uuid ← get_uuid; mret (device <| d_push_uuid := Some uuid |>)
             end;
    ok ← gets (λ e _, e_push_register e (d_uuid device));
    _ ← err_if (negb ok) "An error occurred while proceeding registration of a device";
    Device_save device true.

(** ** The request *)

(** src/src/api/identity.rs: ConnectData *)
Record ConnectData := mkConnectData {
  cd_grant_type : string;
  cd_refresh_token : option string;
  cd_client_id : option string;
  cd_client_secret : option string;
  cd_password : option string;
  cd_scope : option string;
  cd_username : option string;
  cd_device_identifier : option DeviceId;
  cd_device_name : option string;
  cd_device_type : option string;
  cd_two_factor_provider : option Z;
  cd_two_factor_token : option string;
  cd_two_factor_remember : option Z;
  cd_auth_request : option string;
  cd_code : option string;
  cd_code_verifier : option string }.

(** src/src/api/identity.rs: check_is_some *)
Definition check_is_some {A} (value : option A) (msg : string) : Handler () :=
  err_if (is_none value) msg.

(** The answer: the tokens, and the token that lets the device skip the second
    factor the next time.  An API key login hands out no refresh token. *)
Inductive LoginResponse :=
| LoggedIn (tokens : AuthTokens) (two_factor_token : option string)
| LoggedInApiKey (access_claims : LoginJwtClaims)
| LoggedInOrganization (api_key org : string)
| Refreshed (tokens : AuthTokens).

(** ** The interface of WebAuthn and Duo *)

(** What the providers may touch: second-factor rows of WebAuthn, and the supply
    of ids. *)
Definition webauthn_row (t : TwoFactor) : bool :=
  (tf_atype t =? TwoFactorType_as_i32 Webauthn)%Z ||
  (tf_atype t =? TwoFactorType_as_i32 WebauthnLoginChallenge)%Z.

Definition provider_frame (e : Env) (w w' : World) : Prop :=
  w_db w' = (w_db w) <| twofactor := twofactor (w_db w') |> ∧
  delete_where webauthn_row (twofactor (w_db w')) = delete_where webauthn_row (twofactor (w_db w)) ∧
  w_draws w ≤ w_draws w' ∧ w_out w' = w_out w.

Record Providers := mkProviders {
  generate_webauthn_login : UserId → Handler ();
  validate_webauthn_login : UserId → string → Handler ();
  generate_duo : string → ConnectData → Handler ();
  validate_duo_login : string → string → ConnectData → Handler ();
  generate_webauthn_frame : ∀ user, m_rel provider_frame (generate_webauthn_login user);
  validate_webauthn_frame : ∀ user code, m_rel provider_frame (validate_webauthn_login user code);
  generate_duo_frame : ∀ mail data, m_rel provider_frame (generate_duo mail data);
  validate_duo_frame : ∀ mail code data, m_rel provider_frame (validate_duo_login mail code data) }.

Section login.
Context (pv : Providers).

(** ** The second factor *)

(** The steps of [json_err_twofactor] that reach the database, the mail server or
    a provider; the answer itself only lists the providers. *)
(** src/src/api/identity.rs: json_err_twofactor *)
Definition json_err_twofactor (providers : list Z) (user_id : UserId) (data : ConnectData)
    (client_version : option string) : Handler () :=
  mfor providers (λ provider,
    match TwoFactorType_from_i32 provider with
    | Some Webauthn =>
      on ← cfg is_webauthn_2fa_supported;
      if (on : bool) then generate_webauthn_login pv user_id else mret ()
    | Some Duo =>
      ou ← query (User_find_by_uuid user_id);
      match (ou : option User) with
      | Some u => generate_duo pv (u_email u) data
      | None => err "User does not exist"
      end
    | Some YubiKey =>
      twofactor ← some_or (query (TwoFactor_find_by_user_and_type user_id (TwoFactorType_as_i32 YubiKey)))
                    "No YubiKey devices registered";
      okeys ← gets (λ e _, e_yubikey_keys e (tf_data twofactor));
      err_if (is_none (okeys : option (list string))) "JSON error"
    | Some Email =>
      twofactor ← some_or (query (TwoFactor_find_by_user_and_type user_id (TwoFactorType_as_i32 Email)))
                    "No twofactor email registered";
      disabled_send ← gets (λ e _, on_row client_version (e_version_2025_5 e));
      _ ← (if (length providers =? 1)%nat && negb disabled_send then email_send_token user_id
           else mret ());
      _ ← EmailTokenData_from_json (tf_data twofactor);
      mret ()
    | _ => mret ()
    end).

(** [err_json!(json_err_twofactor(..).await?, msg)] *)
Definition err_twofactor {A} (providers : list Z) (user_id : UserId) (data : ConnectData)
    (client_version : option string) (msg : string) : Handler A :=
  _ ← json_err_twofactor providers user_id data client_version;
  err msg.

(** src/src/api/identity.rs: selected_data *)
Definition selected_data (tf : option TwoFactor) : Handler string :=
  match tf with Some t => mret (tf_data t) | None => err "Two factor doesn't exist" end.

(** The factors a login may be finished with. *)
(** src/src/api/identity.rs:779-786: twofactor_auth *)
Definition usable_factors (e : Env) (twofactors : list TwoFactor) : list Z :=
  map tf_atype (List.filter (λ tf,
    match TwoFactorType_from_i32 (tf_atype tf) with
    | Some provider_type =>
      tf_enabled tf && is_twofactor_provider_usable e provider_type (Some (tf_data tf))
    | None => false
    end) twofactors).

(** The code the client typed in, against the factor it selected. *)
(** src/src/api/identity.rs:808-882: twofactor_auth *)
Definition check_factor (user : User) (data : ConnectData) (device : Device) (ip : string)
    (client_version : option string) (twofactors : list TwoFactor) (twofactor_ids : list Z)
    (selected_id : Z) (twofactor_code : string) : Handler (User * Device) :=
  let selected_twofactor :=
    List.find (λ tf, (tf_atype tf =? selected_id)%Z && tf_enabled tf) twofactors in
  match TwoFactorType_from_i32 selected_id with
  | Some Authenticator =>
    secret ← selected_data selected_twofactor;
    _ ← validate_totp_code_str (u_uuid user) twofactor_code secret;
    mret (user, device)
  | Some Webauthn =>
    _ ← validate_webauthn_login pv (u_uuid user) twofactor_code; mret (user, device)
  | Some YubiKey =>
    d ← selected_data selected_twofactor;
    _ ← validate_yubikey_login twofactor_code d; mret (user, device)
  | Some Duo =>
    _ ← validate_duo_login pv (u_email user) twofactor_code data; mret (user, device)
  | Some Email =>
    d ← selected_data selected_twofactor;
    _ ← validate_email_code_str (u_uuid user) twofactor_code d; mret (user, device)
  | Some Remember =>
    off ← cfg disable_2fa_remember;
    claims ← gets (λ e _, e_decode_2fa_remember e twofactor_code);
    if on_row (d_twofactor_remember device) (λ token,
         negb off && (token == twofactor_code) &&
         on_row (claims : option (DeviceId * UserId))
           (λ c, (c.1 == d_uuid device) && (c.2 == u_uuid user)))
    then mret (user, device)
    else
      _ ← (if is_some (d_twofactor_remember device)
           then _ ← Device_save (Device_delete_twofactor_remember device) true; mret ()
           else mret ());
      err_twofactor twofactor_ids (u_uuid user) data client_version
        "2FA Remember token not provided or expired"
  | Some RecoveryCode =>
    ok ← gets (λ e _, User_check_valid_recovery_code e user twofactor_code);
    _ ← err_if (negb ok) "Recovery code is incorrect. Try again.";
    _ ← TwoFactor_delete_all_by_user (u_uuid user);
    _ ← enforce_2fa_policy user (u_uuid user) (d_atype device) ip;
    _ ← log_user_event UserRecovered2fa (u_uuid user) (d_atype device) ip;
    user ← User_save (user <| u_totp_recover := None |>);
    mret (user, device)
  | _ => err_event "Invalid two factor provider" UserFailedLogIn2fa_event
  end.

(** src/src/api/identity.rs: twofactor_auth

    [user] and [device] are updated in place by the code: the handler hands them
    back. *)
Definition twofactor_auth (user : User) (data : ConnectData) (device : Device) (ip : string)
    (client_version : option string) : Handler (User * Device * option string) :=
  twofactors ← query (TwoFactor_find_by_user (u_uuid user));
  if is_empty twofactors then
    _ ← enforce_2fa_policy user (u_uuid user) (d_atype device) ip;
    mret (user, device, None)
  else
  _ ← TwoFactorIncomplete_mark_incomplete (u_uuid user) (d_uuid device) (d_name device)
        (d_atype device) ip;
  twofactor_ids ← gets (λ e _, usable_factors e twofactors);
  match (twofactor_ids : list Z) with
  | [] => err "No enabled and usable two factor providers are available for this account"
  | first_id :: _ =>
    let selected_id := default first_id (cd_two_factor_provider data) in
    _ ← (if negb ((selected_id =? TwoFactorType_as_i32 Remember)%Z ||
                  (selected_id =? TwoFactorType_as_i32 RecoveryCode)%Z) &&
            negb (existsb (Z.eqb selected_id) twofactor_ids)
         then err_twofactor twofactor_ids (u_uuid user) data client_version
                "Invalid two factor provider"
         else mret ());
    match cd_two_factor_token data with
    | None => err_twofactor twofactor_ids (u_uuid user) data client_version "2FA token not provided"
    | Some twofactor_code =>
      '(user, device) ←
        check_factor user data device ip client_version twofactors twofactor_ids selected_id
          twofactor_code;
      _ ← TwoFactorIncomplete_mark_complete (u_uuid user) (d_uuid device);
      let remember := default 0%Z (cd_two_factor_remember data) in
      off ← cfg disable_2fa_remember;
      if negb off && (remember =? 1)%Z then
        '(device, token) ← Device_refresh_twofactor_remember device;
        mret (user, device, Some token)
      else mret (user, device, None)
    end
  end.

(** ** The grants *)

(** src/src/util.rs: try_parse_string *)
Definition try_parse_string (o : option string) : option Z :=
  match o with
  | Some s => match parse_int s with
              | Some n => fits i32_MIN i32_MAX n
              | None => None
              end
  | None => None
  end.

(** src/src/api/identity.rs: get_device *)
Definition get_device (data : ConnectData) (user : User) : Handler Device :=
  let device_type := default 14%Z (try_parse_string (cd_device_type data)) in
  device_id ← unwrap (cd_device_identifier data) "No device id provided";
  device_name ← unwrap (cd_device_name data) "No device name provided";
  odevice ← query (Device_find_by_uuid_and_user device_id (u_uuid user));
  match (odevice : option Device) with
  | Some device => mret device
  | None =>
    device ← Device_new device_id (u_uuid user) device_name device_type;
    Device_save device false
  end.

(** The mail about a new device; a refused mail fails the login only if it is
    required. *)
(** src/src/api/identity.rs:478-491: authenticated_response *)
Definition notify_new_device (user : User) (device : Device) (ip : string) : Handler () :=
  mail_on ← cfg mail_enabled;
  if (mail_on : bool) && Device_is_new device then
    t ← now;
    sent ← try_ (send_mail (send_new_device_logged_in (u_email user) ip t (d_uuid device)));
    match (sent : string + ()) with
    | inr _ => mret ()
    | inl _ =>
      required ← cfg require_device_email;
      if (required : bool) then
        err_event "Could not send login notification email. Please contact your administrator."
          (EventType_as_i32 UserFailedLogIn)
      else mret ()
    end
  else mret ().

(** src/src/api/identity.rs: authenticated_response *)
Definition authenticated_response (user : User) (device : Device) (auth_tokens : AuthTokens)
    (twofactor_token : option string) (ip : string) : Handler LoginResponse :=
  _ ← notify_new_device user device ip;
  device ← (if negb (Device_is_new device) then register_push_device device else mret device);
  _ ← Device_save device true;
  mret (LoggedIn auth_tokens twofactor_token).

(** [if let Err(e) = user.save(conn).await { error!(..) }] *)
Definition save_or_log (user : User) : Handler User :=
  r ← try_ (User_save user);
  mret (match r with inr u => u | inl _ => user end).

(** src/src/api/core/accounts.rs: kdf_upgrade *)
Definition kdf_upgrade (user : User) (pwd_hash : string) : Handler User :=
  iterations ← cfg password_iterations;
  if (u_password_iterations user <? iterations)%Z then
    user ← User_set_password (user <| u_password_iterations := iterations |>) pwd_hash None false None;
    save_or_log user
  else mret user.

(** [u64::cast_signed], [u32::cast_signed] *)
Definition i64_wrap (n : Z) : Z := ((n + 2 ^ 63) mod 2 ^ 64 - 2 ^ 63)%Z.

(** The error of a failed attempt, with the event that records it. *)
Abbreviation UserFailedLogIn_event := (EventType_as_i32 UserFailedLogIn).

(** What the code keeps of an attempt: the account it was for, which the event
    log needs whether the attempt failed or not, and its result.  An error before
    the account is known is an error of the whole. *)
Abbreviation Attempt A := (UserId * (string * option Z + A))%type.
Definition attempt {A} (user : User) (m : Handler A) : Handler (Attempt A) :=
  r ← try_event m; mret (u_uuid user, r).

(** src/src/api/identity.rs:383-420: password_login *)
Definition check_login_secret (user : User) (auth_request : option string) (password ip : string)
    : Handler () :=
  match auth_request with
  | Some auth_request_id =>
    oreq ← query (AuthRequest_find_by_uuid_and_user auth_request_id (u_uuid user));
    match (oreq : option AuthRequest) with
    | None => err_event "Auth request not found. Try again." UserFailedLogIn_event
    | Some r =>
      expiration_time ← unwrap (dt_add (aq_creation_date r) (5 * 60))
                          "NaiveDateTime + TimeDelta overflowed";
      t ← now;
      if (aq_user_uuid r != u_uuid user) || negb (default false (aq_approved r)) ||
         (expiration_time <=? t)%Z || (ip != aq_request_ip r) ||
         negb (AuthRequest_check_access_code r password)
      then err_event "Username or access code is incorrect. Try again" UserFailedLogIn_event
      else mret ()
    end
  | None =>
    ok ← User_check_valid_password user password;
    if (ok : bool) then mret ()
    else err_event "Username or password is incorrect. Try again" UserFailedLogIn_event
  end.

(** src/src/api/identity.rs:427-459: password_login *)
Definition check_verified (user : User) : Handler () :=
  mail_on ← cfg mail_enabled;
  verify ← cfg signups_verify;
  if is_none (u_verified_at user) && mail_on && verify then
    t ← now;
    resend_time ← cfg signups_verify_resend_time;
    resend_limit ← cfg signups_verify_resend_limit;
    _ ← (if match u_last_verifying_at user with
            | None => true
            | Some last => (i64_wrap resend_time <? t - last)%Z
            end &&
            ((i32_wrap resend_limit =? 0)%Z ||
             (u_login_verify_count user <? i32_wrap resend_limit)%Z)
         then
           user ← save_or_log (user <| u_last_verifying_at := Some t |>
                                    <| u_login_verify_count :=
                                         i32_wrap (u_login_verify_count user + 1) |>);
           ignore (send_mail (send_verify_email (u_email user) (u_uuid user)))
         else mret ());
    err_event "Please verify your email before trying again." UserFailedLogIn_event
  else mret ().

(** What [password_login] does once it knows the account. *)
(** src/src/api/identity.rs:370-467: password_login *)
Definition password_login_as (user : User) (data : ConnectData) (ip : string)
    (client_version : option string) : Handler LoginResponse :=
  if negb (u_enabled user) then err_event "This user has been disabled" UserFailedLogIn_event
  else
    password ← unwrap (cd_password data) "called `Option::unwrap()` on a `None` value";
    _ ← check_login_secret user (cd_auth_request data) password ip;
    user ← (if is_none (cd_auth_request data) then kdf_upgrade user password else mret user);
    _ ← check_verified user;
    device ← get_device data user;
    '(user, device, twofactor_token) ← twofactor_auth user data device ip client_version;
    authenticated_response user device (AuthTokens_new device user Password) twofactor_token ip.

(** src/src/api/identity.rs:348-368: password_login *)
Definition password_login (data : ConnectData) (ip : string) (client_version : option string)
    : Handler (Attempt LoginResponse) :=
  _ ← AuthMethod_check_scope Password (cd_scope data);
  _ ← check_limit_login ip;
  username ← unwrap (cd_username data) "called `Option::unwrap()` on a `None` value";
  username ← gets (λ e _, e_trim e username);
  user ← some_or (User_find_by_mail username) "Username or password is incorrect. Try again";
  attempt user (password_login_as user data ip client_version).

(** [s.strip_prefix(p)] *)
Definition strip_prefix (p s : string) : option string :=
  if String.prefix p s
  then Some (String.substring (String.length p) (String.length s - String.length p) s) else None.

(** src/src/api/identity.rs: user_api_key_login *)
Definition user_api_key_login (data : ConnectData) (ip : string) : Handler (Attempt LoginResponse) :=
  client_id ← unwrap (cd_client_id data) "called `Option::unwrap()` on a `None` value";
  match strip_prefix "user." client_id with
  | None => err "Malformed client_id"
  | Some client_user_id =>
    user ← some_or (query (User_find_by_uuid client_user_id)) "Invalid client_id";
    attempt user
      (if negb (u_enabled user)
       then err_event "This user has been disabled (API key login)" UserFailedLogIn_event
       else
         client_secret ← unwrap (cd_client_secret data)
                           "called `Option::unwrap()` on a `None` value";
         _ ← (if User_check_valid_api_key user client_secret then mret ()
              else err_event "Incorrect client_secret" UserFailedLogIn_event);
         device ← get_device data user;
         _ ← notify_new_device user device ip;
         let access_claims := LoginJwtClaims_default device user in
         _ ← Device_save device true;
         mret (LoggedInApiKey access_claims))
  end.

(** src/src/api/identity.rs: organization_api_key_login *)
Definition organization_api_key_login (data : ConnectData) : Handler LoginResponse :=
  client_id ← unwrap (cd_client_id data) "called `Option::unwrap()` on a `None` value";
  match strip_prefix "organization." client_id with
  | None => err "Malformed client_id"
  | Some org_id =>
    org_api_key ← some_or (query (OrganizationApiKey_find_by_org_uuid org_id)) "Invalid client_id";
    client_secret ← unwrap (cd_client_secret data) "called `Option::unwrap()` on a `None` value";
    _ ← err_if (negb (OrganizationApiKey_check_valid_api_key org_api_key client_secret))
          "Incorrect client_secret";
    mret (LoggedInOrganization (ak_uuid org_api_key) (ak_org_uuid org_api_key))
  end.

(** An attempt that is for no account. *)
Definition no_account (m : Handler LoginResponse)
    : Handler (option UserId * (string * option Z + LoginResponse)) :=
  r ← m; mret (None, inr r).
Definition of_account (m : Handler (Attempt LoginResponse))
    : Handler (option UserId * (string * option Z + LoginResponse)) :=
  '(user, r) ← m; mret (Some user, r).

(** src/src/api/identity.rs: api_key_login *)
Definition api_key_login (data : ConnectData) (ip : string)
    : Handler (option UserId * (string * option Z + LoginResponse)) :=
  _ ← check_limit_login ip;
  if opt_is (cd_scope data) (AuthMethod_scope UserApiKey)
  then of_account (user_api_key_login data ip)
  else if opt_is (cd_scope data) (AuthMethod_scope OrgApiKey)
  then no_account (organization_api_key_login data)
  else err "Scope not supported".

(** src/src/api/identity.rs: refresh_login *)
Definition refresh_login (data : ConnectData) : Handler LoginResponse :=
  match cd_refresh_token data with
  | None => err "Missing refresh_token"
  | Some refresh_token =>
    r ← try_ (refresh_tokens refresh_token);
    match (r : string + Device * AuthTokens) with
    | inl m => err ("Unable to refresh login credentials: " +:+ m)
    | inr (device, auth_tokens) => _ ← Device_save device true; mret (Refreshed auth_tokens)
    end
  end.

Section dispatch.
(** The grant of the identity provider: src/src/sso.rs and [sso_login]. *)
Context (sso_login : ConnectData → ClientHeaders → option string →
                     Handler (option UserId * (string * option Z + LoginResponse))).

(** The grants: the guards of [login]'s match and the handler each runs. *)
(** src/src/api/identity.rs:70-116: login *)
Definition login_result (data : ConnectData) (client : ClientHeaders)
    (client_version : option string) : Handler (option UserId * (string * option Z + LoginResponse)) :=
  sso_on ← cfg sso_enabled;
  only ← cfg sso_only;
  let grant := cd_grant_type data in
  let device_checks :=
    _ ← check_is_some (cd_device_identifier data) "device_identifier cannot be blank";
    _ ← check_is_some (cd_device_name data) "device_name cannot be blank";
    check_is_some (cd_device_type data) "device_type cannot be blank" in
  if grant == "refresh_token" then
    _ ← check_is_some (cd_refresh_token data) "refresh_token cannot be blank";
    no_account (refresh_login data)
  else if grant == "password" then
    _ ← err_if (sso_on && only) "SSO sign-in is required";
    _ ← check_is_some (cd_client_id data) "client_id cannot be blank";
    _ ← check_is_some (cd_password data) "password cannot be blank";
    _ ← check_is_some (cd_scope data) "scope cannot be blank";
    _ ← check_is_some (cd_username data) "username cannot be blank";
    _ ← device_checks;
    of_account (password_login data (ch_ip client) client_version)
  else if grant == "client_credentials" then
    _ ← check_is_some (cd_client_id data) "client_id cannot be blank";
    _ ← check_is_some (cd_client_secret data) "client_secret cannot be blank";
    _ ← check_is_some (cd_scope data) "scope cannot be blank";
    _ ← device_checks;
    api_key_login data (ch_ip client)
  else if grant == "authorization_code" then
    if (sso_on : bool) then
      _ ← check_is_some (cd_client_id data) "client_id cannot be blank";
      _ ← check_is_some (cd_code data) "code cannot be blank";
      _ ← check_is_some (cd_code_verifier data) "code verifier cannot be blank";
      _ ← device_checks;
      sso_login data client client_version
    else err "SSO sign-in is not available"
  else err "Invalid type".

(** src/src/api/identity.rs: login *)
Definition login (data : ConnectData) (client : ClientHeaders) (client_version : option string)
    : Handler LoginResponse :=
  '(user_id, result) ← login_result data client client_version;
  _ ← match user_id, result with
      | Some user_id, inr _ => log_user_event UserLoggedIn user_id (ch_device_type client) (ch_ip client)
      | Some user_id, inl (_, Some ev) =>
        log_user_event_i32 ev user_id (ch_device_type client) (ch_ip client)
      | _, _ => mret ()
      end;
  match result with
  | inr response => mret response
  | inl x => fail_with x
  end.
End dispatch.
End login.

(** A server on which neither WebAuthn nor Duo is set up. *)
#[export] Instance provider_frame_preorder e : PreOrder (provider_frame e).
Proof.
  split.
  - intros w. split_and!; [by destruct w as [[] ? ?]|done|lia|done].
  - intros w1 w2 w3 (H1 & H2 & H3 & H4) (K1 & K2 & K3 & K4).
    split_and!; [by rewrite K1, H1|congruence|lia|congruence].
Qed.

Definition no_providers : Providers :=
  mkProviders (λ _, err "not configured") (λ _ _, err "not configured")
    (λ _ _, err "not configured") (λ _ _ _, err "not configured")
    (λ _, m_rel_err provider_frame _) (λ _ _, m_rel_err provider_frame _)
    (λ _ _, m_rel_err provider_frame _) (λ _ _ _, m_rel_err provider_frame _).

(** A server without an identity provider: the grant is not served. *)
Definition no_sso (data : ConnectData) (client : ClientHeaders) (version : option string)
    : Handler (option UserId * (string * option Z + LoginResponse)) :=
  err "SSO sign-in is not available".
