(* ===== verification/AccountOps.v ===== *)
(** The account handlers of src/src/api/core/accounts.rs, and the registration
    endpoints of src/src/api/identity.rs that lead to [register]: creating an
    account, its profile, its password, its keys and its address, the removal of
    the account, and the requests to sign in from another device.  The rotation
    of the account keys is in KeyRotation.v. *)
From S2P Require Import Prelude Table Schema Roles Users Memberships Policies Util Settings Devices.
From S2P Require Import Events AuthRequests Auth Emergency Accounts Orgs TwoFactors Login.

(** ** Requests *)

(** src/src/api/core/accounts.rs: KDFData *)
Record KDFData := mkKDFData {
  kdf : Z;
  kdf_iterations : Z;
  kdf_memory : option Z;
  kdf_parallelism : option Z }.

#[export] Instance KDFData_eq_dec : EqDecision KDFData.
Proof. solve_decision. Defined.

(** src/src/api/core/accounts.rs: KeysData *)
Record KeysData := mkKeysData {
  encrypted_private_key : string;
  public_key : string }.

(** src/src/api/core/accounts.rs: RegisterData *)
Record RegisterData := mkRegisterData {
  rd_email : string;
  rd_kdf : KDFData;
  rd_key : string;
  rd_keys : option KeysData;
  rd_master_password_hash : string;
  rd_master_password_hint : option string;
  rd_name : option string;
  rd_organization_user_id : option MembershipId;
  rd_email_verification_token : option string;
  rd_accept_emergency_access_id : option string;
  rd_accept_emergency_access_invite_token : option string;
  rd_org_invite_token : option string }.

(** src/src/api/core/accounts.rs: SetPasswordData *)
Record SetPasswordData := mkSetPasswordData {
  spd_kdf : KDFData;
  spd_key : string;
  spd_keys : option KeysData;
  spd_master_password_hash : string;
  spd_master_password_hint : option string;
  spd_org_identifier : option string }.

(** ** Helpers *)

Definition FAKE_SSO_IDENTIFIER : string := "00000000-01DC-01DC-01DC-000000000000".


(** src/src/api/core/accounts.rs: clean_password_hint *)
Definition clean_password_hint (e : Env) (password_hint : option string) : option string :=
  match password_hint with
  | None => None
  | Some h => let ht := e_trim e h in if str_is_empty ht then None else Some ht
  end.

(** src/src/api/core/accounts.rs: enforce_password_hint_setting *)
Definition enforce_password_hint_setting (password_hint : option string) : Handler () :=
  allowed ← cfg password_hints_allowed;
  err_if (is_some password_hint && negb allowed)
    "Password hints have been disabled by the administrator. Remove the hint and try again.".

(** src/src/api/core/accounts.rs: is_email_2fa_required *)
Definition is_email_2fa_required (member_id : option MembershipId) : Handler bool :=
  on ← cfg enable_email_2fa;
  enforce ← cfg email_2fa_enforce_on_verified_invite;
  if negb on then mret false
  else if (enforce : bool) then mret true
  else match member_id with
       | Some member_id => query (OrgPolicy_is_enabled_for_member member_id TwoFactorAuthentication)
       | None => mret false
       end.

(** src/src/api/core/accounts.rs: set_kdf_data *)
Definition set_kdf_data (user : User) (data : KDFData) : Handler User :=
  _ ← err_if ((kdf data =? 0)%Z && (kdf_iterations data <? 100000)%Z)
        "PBKDF2 KDF iterations must be at least 100000.";
  user ← (if (kdf data =? 1)%Z then
            _ ← err_if (kdf_iterations data <? 1)%Z "Argon2 KDF iterations must be at least 1.";
            user ← match kdf_memory data with
                   | Some m =>
                     _ ← err_if (negb ((15 <=? m) && (m <=? 1024))%Z)
                           "Argon2 memory must be between 15 MB and 1024 MB.";
                     mret (user <| u_client_kdf_memory := kdf_memory data |>)
                   | None => err "Argon2 memory parameter is required."
                   end;
            match kdf_parallelism data with
            | Some p =>
              _ ← err_if (negb ((1 <=? p) && (p <=? 16))%Z)
                    "Argon2 parallelism must be between 1 and 16.";
              mret (user <| u_client_kdf_parallelism := kdf_parallelism data |>)
            | None => err "Argon2 parallelism parameter is required."
            end
          else mret (user <| u_client_kdf_memory := None |> <| u_client_kdf_parallelism := None |>));
  mret (user <| u_client_kdf_iter := kdf_iterations data |> <| u_client_kdf_type := kdf data |>).

(** src/src/api/notifications.rs: send_logout *)
Definition send_logout (user : User) : Handler () := emit (UserUpdate LogOut (u_uuid user)).

(** The keys a new account brings along. *)
Definition set_keys (user : User) (keys : option KeysData) : User :=
  match keys with
  | Some k => user <| u_private_key := Some (encrypted_private_key k) |>
                   <| u_public_key := Some (public_key k) |>
  | None => user
  end.

(** ** Registration *)

(** The tokens of [register_finish]: what they say of the name and the address,
    and whether they are for an emergency access. *)
(** src/src/api/core/accounts.rs:180-239: register *)
Definition check_register_tokens (data : RegisterData)
    : Handler (option string * bool * bool) :=
  match rd_email_verification_token data, rd_accept_emergency_access_id data,
        rd_accept_emergency_access_invite_token data, rd_organization_user_id data,
        rd_org_invite_token data with
  | Some email_verification_token, None, None, None, None =>
    claims ← some_or (gets (λ e _, e_decode_register_verify e email_verification_token))
               "Invalid token";
    _ ← err_if (rv_sub claims != rd_email data) "Email verification token does not match email";
    let name := match rv_name claims with Some n => Some n | None => rd_name data end in
    mret (name, rv_verified claims, false)
  | None, Some accept_emergency_access_id, Some accept_emergency_access_invite_token, None, None =>
    on ← cfg emergency_access_allowed;
    _ ← err_if (negb on) "Emergency access is not enabled.";
    claims ← some_or (gets (λ e _, e_decode_emergency_invite e accept_emergency_access_invite_token))
               "Invalid token";
    _ ← err_if (ec_email claims != rd_email data) "Claim email does not match email";
    _ ← err_if (ec_emer_id claims != accept_emergency_access_id)
          "Claim emer_id does not match accept_emergency_access_id";
    mret (rd_name data, true, true)
  | None, None, None, Some organization_user_id, Some org_invite_token =>
    claims ← some_or (gets (λ e _, e_decode_invite e org_invite_token)) "Invalid token";
    _ ← err_if (ic_email claims != rd_email data) "Claim email does not match email";
    _ ← err_if (ic_member_id claims != organization_user_id)
          "Claim org_user_id does not match organization_user_id";
    mret (rd_name data, true, false)
  | _, _, _, _, _ => err "Registration is missing required parameters"
  end.

(** The account to register: an invited one that has no password yet, or a new
    one if its owner may sign up; with the address verified or not. *)
(** src/src/api/core/accounts.rs:254-294: register *)
Definition register_user (data : RegisterData) (email : string)
    (email_verified pending_emergency_access : bool) : Handler (User * bool) :=
  ouser ← User_find_by_mail email;
  match (ouser : option User) with
  | Some user =>
    _ ← err_if (negb (str_is_empty (u_password_hash user)))
          "Registration not allowed or user already exists";
    match rd_org_invite_token data with
    | Some token =>
      claims ← some_or (gets (λ e _, e_decode_invite e token)) "Invalid token";
      _ ← err_if (ic_email claims != email) "Registration email does not match invite email";
      mret (user, true)
    | None =>
      taken ← Invitation_take email;
      if (taken : bool) then
        _ ← Membership_accept_user_invitations (u_uuid user);
        mret (user, email_verified)
      else
        allowed ← gets (λ e _, is_signup_allowed e email);
        ea_on ← cfg emergency_access_allowed;
        invited ← query (EmergencyAccess_find_invited_by_grantee_email email);
        if (allowed : bool) || ((ea_on : bool) && is_some invited) then mret (user, email_verified)
        else err "Registration not allowed or user already exists"
    end
  | None =>
    taken ← Invitation_take email;
    allowed ← gets (λ e _, is_signup_allowed e email);
    if (taken : bool) || (allowed : bool) || pending_emergency_access then
      user ← User_new email None;
      mret (user, email_verified)
    else err "Registration not allowed or user already exists"
  end.

(** The mails of a registration, the reminder date and the automatic second
    factor. *)
(** src/src/api/core/accounts.rs:318-331: register *)
Definition welcome (data : RegisterData) (user : User) (email_verified : bool) : Handler User :=
  mail_on ← cfg mail_enabled;
  if (mail_on : bool) then
    verify ← cfg signups_verify;
    user ← (if (verify : bool) && negb email_verified then
              _ ← ignore (send_mail (send_welcome_must_verify (u_email user) (u_uuid user)));
              mret (user <| u_last_verifying_at := Some (u_created_at user) |>)
            else
              _ ← ignore (send_mail (send_welcome (u_email user)));
              mret user);
    required ← (if email_verified then is_email_2fa_required (rd_organization_user_id data)
                else mret false);
    _ ← (if (required : bool) then ignore (activate_email_2fa user) else mret ());
    mret user
  else mret user.

(** src/src/api/core/accounts.rs: register *)
Definition register (data : RegisterData) (email_verification : bool) : Handler () :=
  email ← gets (λ e _, e_lowercase e (rd_email data));
  '(name, email_verified, pending_emergency_access) ←
    (if email_verification then check_register_tokens data else mret (rd_name data, false, false));
  _ ← err_if (on_row name (λ n, (50 <? String.length n)%nat))
        "The field Name must be a string with a maximum length of 50.";
  password_hint ← gets (λ e _, clean_password_hint e (rd_master_password_hint data));
  _ ← enforce_password_hint_setting password_hint;
  '(user, email_verified) ← register_user data email email_verified pending_emergency_access;
  _ ← Invitation_take email;
  user ← set_kdf_data user (rd_kdf data);
  user ← User_set_password user (rd_master_password_hash data) (Some (rd_key data)) true None;
  let user := user <| u_password_hint := password_hint |> in
  let user := match name with Some n => user <| u_name := n |> | None => user end in
  let user := set_keys user (rd_keys data) in
  t ← now;
  let user := if (email_verified : bool) then user <| u_verified_at := Some t |> else user in
  user ← welcome data user email_verified;
  user ← User_save user;
  mail_on ← cfg mail_enabled;
  ea_on ← cfg emergency_access_allowed;
  if negb mail_on && (ea_on : bool) then
    invites ← query (EmergencyAccess_find_all_invited_by_grantee_email (u_email user));
    mfor invites (λ emergency_invite,
      ignore (EmergencyAccess_accept_invite emergency_invite (u_uuid user) (u_email user)))
  else mret ().

(** src/src/api/identity.rs: identity_register *)
Definition identity_register (data : RegisterData) : Handler () := register data false.

(** src/src/api/identity.rs: register_finish *)
Definition register_finish (data : RegisterData) : Handler () := register data true.

(** The token a registration that needs no mail gets back at once. *)
(** src/src/api/identity.rs: register_verification_email *)
Definition register_verification_email (email : string) (name : option string)
    : Handler (option string) :=
  allowed ← gets (λ e _, is_signup_allowed e email);
  mail_on ← cfg mail_enabled;
  oinv ← Invitation_find_by_mail email;
  _ ← err_if (negb (allowed || (negb mail_on && is_some oinv)))
        "Registration not allowed or user already exists";
  verify ← cfg signups_verify;
  let should_send_mail := (mail_on : bool) && (verify : bool) in
  t ← now;
  token ← gets (λ e _, e_encode_register_verify e (mkRegisterVerifyClaims email name should_send_mail) t);
  if should_send_mail then
    ouser ← User_find_by_mail email;
    _ ← (if on_row (ouser : option User) (λ u, is_some (u_private_key u)) then mret ()
         else send_mail (send_register_verify_email email token));
    mret None
  else mret (Some token).

(** src/src/api/core/accounts.rs: post_set_password *)
Definition post_set_password (data : SetPasswordData) (headers : Headers) : Handler () :=
  let user := h_user headers in
  _ ← err_if (is_some (u_private_key user)) "Account already initialized, cannot set password";
  password_hint ← gets (λ e _, clean_password_hint e (spd_master_password_hint data));
  _ ← enforce_password_hint_setting password_hint;
  user ← set_kdf_data user (spd_kdf data);
  user ← User_set_password user (spd_master_password_hash data) (Some (spd_key data)) false
           (Some ["revision_date"]);
  let user := set_keys (user <| u_password_hint := password_hint |>) (spd_keys data) in
  _ ← match spd_org_identifier data with
      | Some identifier =>
        if (identifier != FAKE_SSO_IDENTIFIER) && (identifier != FAKE_ADMIN_UUID) then
          org ← some_or (query (Organization_find_by_uuid identifier))
                  "Failed to retrieve the associated organization";
          membership ← some_or (query (Membership_find_by_user_and_org (u_uuid user) (o_uuid org)))
                         "Failed to retrieve the invitation";
          accept_org_invite user membership None
        else mret ()
      | None => mret ()
      end;
  mail_on ← cfg mail_enabled;
  _ ← (if (mail_on : bool) then
         address ← gets (λ e _, e_lowercase e (u_email user));
         send_mail (send_welcome address)
       else Membership_accept_user_invitations (u_uuid user));
  _ ← log_user_event UserChangedPassword (u_uuid user) (d_atype (h_device headers)) (h_ip headers);
  _ ← User_save user;
  mret ().

(** ** Profile *)

(** src/src/api/core/accounts.rs: post_profile *)
Definition post_profile (name : string) (headers : Headers) : Handler () :=
  _ ← err_if (50 <? String.length name)%nat
        "The field Name must be a string with a maximum length of 50.";
  _ ← User_save ((h_user headers) <| u_name := name |>);
  mret ().

(** src/src/api/core/accounts.rs: put_avatar *)
Definition put_avatar (avatar_color : option string) (headers : Headers) : Handler () :=
  _ ← err_if (on_row avatar_color (λ c, negb (String.length c =? 7)%nat))
        "The field AvatarColor must be a HTML/Hex color code with a length of 7 characters";
  _ ← User_save ((h_user headers) <| u_avatar_color := avatar_color |>);
  mret ().

(** src/src/api/core/accounts.rs: get_public_keys *)
Definition get_public_keys (user_id : UserId) (headers : Headers) : Handler string :=
  user ← some_or (query (User_find_by_uuid user_id)) "User doesn't exist";
  match u_public_key user with
  | Some k => mret k
  | None => err "User has no public_key"
  end.

(** src/src/api/core/accounts.rs: post_keys *)
Definition post_keys (data : KeysData) (headers : Headers) : Handler () :=
  _ ← User_save (set_keys (h_user headers) (Some data));
  mret ().

(** src/src/api/core/accounts.rs: revision_date *)
Definition revision_date (headers : Headers) : Z := (u_updated_at (h_user headers) * 1000)%Z.

(** ** Password, KDF, security stamp *)

(** src/src/api/core/accounts.rs: ChangePassData *)
Record ChangePassData := mkChangePassData {
  cpd_master_password_hash : string;
  cpd_new_master_password_hash : string;
  cpd_master_password_hint : option string;
  cpd_key : string }.

(** [let r = user.save(conn).await; nt.send_logout(..); r] *)
Definition save_then_logout (user : User) : Handler () :=
  r ← try_ (User_save user);
  let user := match (r : string + User) with inr u => u | inl _ => user end in
  _ ← send_logout user;
  match r with inr _ => mret () | inl m => err m end.

(** src/src/api/core/accounts.rs: post_password *)
Definition post_password (data : ChangePassData) (headers : Headers) : Handler () :=
  let user := h_user headers in
  ok ← User_check_valid_password user (cpd_master_password_hash data);
  _ ← err_if (negb ok) "Invalid password";
  hint ← gets (λ e _, clean_password_hint e (cpd_master_password_hint data));
  let user := user <| u_password_hint := hint |> in
  _ ← enforce_password_hint_setting hint;
  _ ← log_user_event UserChangedPassword (u_uuid user) (d_atype (h_device headers)) (h_ip headers);
  user ← User_set_password user (cpd_new_master_password_hash data) (Some (cpd_key data)) true
           (Some ["post_rotatekey"; "get_contacts"; "get_public_keys"; "get_api_webauthn"]);
  save_then_logout user.

(** src/src/api/core/accounts.rs: AuthenticationData *)
Record AuthenticationData := mkAuthenticationData {
  ad_salt : string;
  ad_kdf : KDFData;
  ad_master_password_authentication_hash : string }.

(** src/src/api/core/accounts.rs: UnlockData *)
Record UnlockData := mkUnlockData {
  ud_salt : string;
  ud_kdf : KDFData;
  ud_master_key_wrapped_user_key : string }.

(** src/src/api/core/accounts.rs: ChangeKdfData *)
Record ChangeKdfData := mkChangeKdfData {
  ckd_authentication_data : AuthenticationData;
  ckd_unlock_data : UnlockData;
  ckd_master_password_hash : string }.

(** src/src/api/core/accounts.rs: post_kdf *)
Definition post_kdf (data : ChangeKdfData) (headers : Headers) : Handler () :=
  let user := h_user headers in
  ok ← User_check_valid_password user (ckd_master_password_hash data);
  _ ← err_if (negb ok) "Invalid password";
  _ ← err_if (negb (bool_decide (ad_kdf (ckd_authentication_data data) = ud_kdf (ckd_unlock_data data))))
        "KDF settings must be equal for authentication and unlock";
  _ ← err_if ((u_email user != ad_salt (ckd_authentication_data data)) ||
              (u_email user != ud_salt (ckd_unlock_data data)))
        "Invalid master password salt";
  user ← set_kdf_data user (ud_kdf (ckd_unlock_data data));
  user ← User_set_password user
           (ad_master_password_authentication_hash (ckd_authentication_data data))
           (Some (ud_master_key_wrapped_user_key (ckd_unlock_data data))) true None;
  save_then_logout user.

(** src/src/api/core/accounts.rs: post_sstamp *)
Definition post_sstamp (data : PasswordOrOtpData) (headers : Headers) : Handler () :=
  let user := h_user headers in
  _ ← PasswordOrOtpData_validate data user true;
  user ← User_reset_security_stamp user;
  r ← try_ (User_save user);
  _ ← send_logout user;
  _ ← Device_delete_all_by_user (u_uuid user);
  match (r : string + User) with inr _ => mret () | inl m => err m end.

(** src/src/api/core/accounts.rs: verify_password *)
Definition verify_password (master_password_hash : string) (headers : Headers) : Handler () :=
  let user := h_user headers in
  ok ← User_check_valid_password user master_password_hash;
  _ ← err_if (negb ok) "Invalid password";
  _ ← kdf_upgrade user master_password_hash;
  mret ().

(** ** The address *)

(** src/src/api/core/accounts.rs: EmailTokenData *)
Record EmailChangeData := mkEmailChangeData {
  etk_master_password_hash : string;
  etk_new_email : string }.

(** src/src/api/core/accounts.rs: post_email_token *)
Definition post_email_token (data : EmailChangeData) (headers : Headers) : Handler () :=
  allowed ← cfg email_change_allowed;
  _ ← err_if (negb allowed) "Email change is not allowed.";
  let user := h_user headers in
  ok ← User_check_valid_password user (etk_master_password_hash data);
  _ ← err_if (negb ok) "Invalid password";
  let new_email := etk_new_email data in
  mail_on ← cfg mail_enabled;
  oexisting ← User_find_by_mail new_email;
  match (oexisting : option User) with
  | Some existing_user =>
    _ ← (if (mail_on : bool) then
           if str_is_empty (u_password_hash existing_user)
           then ignore (send_mail (send_change_email_invited new_email (u_email user)))
           else ignore (send_mail (send_change_email_existing new_email (u_email user)))
         else mret ());
    err "Email already in use"
  | None =>
    domain_ok ← gets (λ e _, is_email_domain_allowed e new_email);
    _ ← err_if (negb domain_ok) "Email domain not allowed";
    token ← get_random;
    _ ← (if (mail_on : bool) then ignore (send_mail (send_change_email new_email token)) else mret ());
    _ ← User_save (user <| u_email_new := Some new_email |> <| u_email_new_token := Some token |>);
    mret ()
  end.

(** src/src/api/core/accounts.rs: ChangeEmailData *)
Record ChangeEmailData := mkChangeEmailData {
  ced_master_password_hash : string;
  ced_new_email : string;
  ced_key : string;
  ced_new_master_password_hash : string;
  ced_token : NumberOrString }.

(** src/src/api/core/accounts.rs: post_email *)
Definition post_email (data : ChangeEmailData) (headers : Headers) : Handler () :=
  allowed ← cfg email_change_allowed;
  _ ← err_if (negb allowed) "Email change is not allowed.";
  let user := h_user headers in
  ok ← User_check_valid_password user (ced_master_password_hash data);
  _ ← err_if (negb ok) "Invalid password";
  oexisting ← User_find_by_mail (ced_new_email data);
  _ ← err_if (is_some (oexisting : option User)) "Email already in use";
  _ ← match u_email_new user with
      | Some val => err_if (val != ced_new_email data) "Email change mismatch"
      | None => err "No email change pending"
      end;
  mail_on ← cfg mail_enabled;
  user ← (if (mail_on : bool) then
            _ ← match u_email_new_token user with
                | Some val => err_if (val != into_string (ced_token data)) "Token mismatch"
                | None => err "No email change pending"
                end;
            t ← now;
            mret (user <| u_verified_at := Some t |>)
          else mret (user <| u_verified_at := None |>));
  let user := user <| u_email := ced_new_email data |> <| u_email_new := None |>
                   <| u_email_new_token := None |> in
  user ← User_set_password user (ced_new_master_password_hash data) (Some (ced_key data)) true None;
  save_then_logout user.

(** src/src/api/core/accounts.rs: post_verify_email *)
Definition post_verify_email (headers : Headers) : Handler () :=
  let user := h_user headers in
  mail_on ← cfg mail_enabled;
  _ ← err_if (negb mail_on) "Cannot verify email address";
  ignore (send_mail (send_verify_email (u_email user) (u_uuid user))).

(** src/src/api/core/accounts.rs: post_verify_email_token *)
Definition post_verify_email_token (user_id : UserId) (token : string) : Handler () :=
  user ← some_or (query (User_find_by_uuid user_id)) "User doesn't exist";
  sub ← some_or (gets (λ e _, e_decode_verify_email e token)) "Invalid claim";
  _ ← err_if (sub != u_uuid user) "Invalid claim";
  t ← now;
  ignore (User_save (user <| u_verified_at := Some t |> <| u_last_verifying_at := None |>
                          <| u_login_verify_count := 0%Z |>)).

(** ** Removal of the account *)

(** src/src/api/core/accounts.rs: post_delete_recover *)
Definition post_delete_recover (email : string) : Handler () :=
  mail_on ← cfg mail_enabled;
  if (mail_on : bool) then
    ouser ← User_find_by_mail email;
    match (ouser : option User) with
    | Some user => ignore (send_mail (send_delete_account (u_email user) (u_uuid user)))
    | None => mret ()
    end
  else err "Please contact the administrator to delete your account".

(** src/src/api/core/accounts.rs: post_delete_recover_token *)
Definition post_delete_recover_token (user_id : UserId) (token : string) : Handler () :=
  sub ← some_or (gets (λ e _, e_decode_delete e token)) "Invalid claim";
  user ← some_or (query (User_find_by_uuid user_id)) "User doesn't exist";
  _ ← err_if (sub != u_uuid user) "Invalid claim";
  User_delete user.

(** src/src/api/core/accounts.rs: delete_account *)
Definition delete_account (data : PasswordOrOtpData) (headers : Headers) : Handler () :=
  let user := h_user headers in
  _ ← PasswordOrOtpData_validate data user true;
  User_delete user.

(** ** What anybody may ask *)

(** src/src/api/core/accounts.rs:1184-1184: password_hint *)
Definition NO_HINT : string := "Sorry, you have no password hint...".

(** src/src/api/core/accounts.rs: password_hint *)
Definition password_hint (email : string) : Handler () :=
  hints_on ← cfg password_hints_allowed;
  mail_on ← cfg mail_enabled;
  show ← cfg show_password_hint;
  _ ← err_if (negb hints_on || (negb mail_on && negb show))
        "This server is not configured to provide password hints.";
  ouser ← User_find_by_mail email;
  match (ouser : option User) with
  | None => if (mail_on : bool) then mret () else err NO_HINT
  | Some user =>
    let hint := u_password_hint user in
    if (mail_on : bool) then send_mail (send_password_hint email hint)
    else match hint with
         | Some hint => err ("Your password hint is: " +:+ hint)
         | None => err NO_HINT
         end
  end.

(** src/src/api/core/accounts.rs: prelogin *)
Definition prelogin (email : string) : Handler (Z * Z * option Z * option Z) :=
  ouser ← User_find_by_mail email;
  mret match (ouser : option User) with
       | Some user => (u_client_kdf_type user, u_client_kdf_iter user, u_client_kdf_memory user,
                       u_client_kdf_parallelism user)
       | None => (0%Z, 600000%Z, None, None)
       end.

(** src/src/api/core/accounts.rs: get_known_device *)
Definition get_known_device (email : string) (device : DeviceId) : Handler bool :=
  ouser ← User_find_by_mail email;
  match (ouser : option User) with
  | Some user => query (λ d, is_some (Device_find_by_uuid_and_user device (u_uuid user) d))
  | None => mret false
  end.

(** ** API key and devices *)

(** src/src/api/core/accounts.rs: update_api_key *)
Definition update_api_key (data : PasswordOrOtpData) (rotate : bool) (headers : Headers)
    : Handler (option string) :=
  let user := h_user headers in
  _ ← PasswordOrOtpData_validate data user true;
  if rotate || is_none (u_api_key user) then
    key ← get_random;
    r ← try_ (User_save (user <| u_api_key := Some key |>));
    match (r : string + User) with
    | inr user => mret (u_api_key user)
    | inl _ => panic "Error saving API key"
    end
  else mret (u_api_key user).

(** src/src/api/core/accounts.rs: put_device_token *)
Definition put_device_token (device_id : DeviceId) (push_token : string) (headers : Headers)
    : Handler () :=
  device ← some_or (query (Device_find_by_uuid_and_user (d_uuid (h_device headers))
                             (u_uuid (h_user headers))))
             ("Error: device " +:+ device_id +:+ " should be present before a token can be assigned");
  if opt_is (d_push_token device) push_token then mret ()
  else
    device ← Device_save (device <| d_push_token := Some push_token |>) true;
    _ ← register_push_device device;
    mret ().

(** src/src/api/push.rs: unregister_push_device *)
Definition unregister_push_device (push_id : option string) : Handler () :=
  on ← cfg push_enabled;
  match push_id with
  | Some id =>
    if (on : bool) then
      ok ← gets (λ e _, e_push_unregister e id);
      err_if (negb ok) "An error occurred during device unregistration"
    else mret ()
  | None => mret ()
  end.

(** src/src/api/core/accounts.rs: put_clear_device_token *)
Definition put_clear_device_token (device_id : DeviceId) : Handler () :=
  on ← cfg push_enabled;
  if negb on then mret ()
  else
    odevice ← query (Device_find_by_uuid device_id);
    match (odevice : option Device) with
    | Some device =>
      _ ← Device_clear_push_token_by_uuid device_id;
      unregister_push_device (d_push_uuid device)
    | None => mret ()
    end.

(** ** Signing in from another device *)

(** src/src/api/core/accounts.rs: AuthRequestRequest *)
Record AuthRequestRequest := mkAuthRequestRequest {
  arr_access_code : string;
  arr_device_identifier : DeviceId;
  arr_email : string;
  arr_public_key : string }.

(** src/src/api/core/accounts.rs: post_auth_request *)
Definition post_auth_request (data : AuthRequestRequest) (client : ClientHeaders)
    : Handler AuthRequest :=
  user ← some_or (User_find_by_mail (arr_email data)) "AuthRequest doesn't exist";
  device ← some_or (query (Device_find_by_uuid_and_user (arr_device_identifier data) (u_uuid user)))
             "AuthRequest doesn't exist";
  _ ← err_if (negb (d_atype device =? ch_device_type client)%Z) "AuthRequest doesn't exist";
  auth_request ← AuthRequest_new (u_uuid user) (arr_device_identifier data) (ch_device_type client)
                   (ch_ip client) (arr_access_code data) (arr_public_key data);
  _ ← AuthRequest_save auth_request;
  _ ← emit (UserUpdate UT_AuthRequest (u_uuid user));
  _ ← log_user_event UserRequestedDeviceApproval (u_uuid user) (ch_device_type client) (ch_ip client);
  mret auth_request.

(** src/src/api/core/accounts.rs: get_auth_request *)
Definition get_auth_request (auth_request_id : string) (headers : Headers) : Handler AuthRequest :=
  some_or (query (AuthRequest_find_by_uuid_and_user auth_request_id (u_uuid (h_user headers))))
    "AuthRequest doesn't exist".

(** src/src/api/core/accounts.rs: AuthResponseRequest *)
Record AuthResponseRequest := mkAuthResponseRequest {
  arp_device_identifier : DeviceId;
  arp_key : string;
  arp_master_password_hash : option string;
  arp_request_approved : bool }.

(** src/src/api/core/accounts.rs: put_auth_request *)
Definition put_auth_request (auth_request_id : string) (data : AuthResponseRequest)
    (headers : Headers) : Handler AuthRequest :=
  let user_id := u_uuid (h_user headers) in
  let log ev := log_user_event ev user_id (d_atype (h_device headers)) (h_ip headers) in
  auth_request ← some_or (query (AuthRequest_find_by_uuid_and_user auth_request_id user_id))
                   "AuthRequest doesn't exist";
  _ ← err_if (d_uuid (h_device headers) != arp_device_identifier data) "AuthRequest doesn't exist";
  _ ← err_if (is_some (aq_approved auth_request))
        "An authentication request with the same device already exists";
  response_date ← now;
  if arp_request_approved data then
    let auth_request :=
      auth_request <| aq_approved := Some (arp_request_approved data) |>
                   <| aq_enc_key := Some (arp_key data) |>
                   <| aq_master_password_hash := arp_master_password_hash data |>
                   <| aq_response_device_id := Some (arp_device_identifier data) |>
                   <| aq_response_date := Some response_date |> in
    _ ← AuthRequest_save auth_request;
    _ ← emit (UserUpdate UT_AuthRequestResponse (aq_user_uuid auth_request));
    _ ← log OrganizationUserApprovedAuthRequest;
    mret auth_request
  else
    _ ← AuthRequest_delete auth_request;
    _ ← log OrganizationUserRejectedAuthRequest;
    mret auth_request.

(** src/src/api/core/accounts.rs: get_auth_request_response *)
Definition get_auth_request_response (auth_request_id code : string) (client : ClientHeaders)
    : Handler AuthRequest :=
  auth_request ← some_or (query (AuthRequest_find_by_uuid auth_request_id)) "AuthRequest doesn't exist";
  _ ← err_if (negb (aq_device_type auth_request =? ch_device_type client)%Z ||
              (aq_request_ip auth_request != ch_ip client) ||
              negb (AuthRequest_check_access_code auth_request code))
        "AuthRequest doesn't exist";
  mret auth_request.

(** src/src/api/core/accounts.rs: get_auth_requests_pending *)
Definition get_auth_requests_pending (headers : Headers) : Handler (list AuthRequest) :=
  l ← query (AuthRequest_find_by_user (u_uuid (h_user headers)));
  mret (List.filter (λ r, is_none (aq_approved r)) l).
