(* ===== verification/CipherOps.v ===== *)
(** The handlers of src/src/api/core/ciphers.rs that create, change, share, move,
    delete and restore ciphers, the uploads of attachments, the purge of a vault,
    and the folders of src/src/api/core/folders.rs.  The JSON view a handler
    answers with is not built: the handler returns the cipher. *)
From S2P Require Import Prelude Table Schema Roles Users Memberships Groups Collections Policies.
From S2P Require Import Vault Ciphers Util Settings Devices Events Auth Sends Emergency Accounts Orgs.

(** ** Requests *)

(** src/src/api/core/ciphers.rs: Attachments2Data *)
Record Attachments2Data := mkAttachments2Data {
  a2_file_name : string;
  a2_key : string }.

(** [attachments2] is a [HashMap]: its list is in the order it is read in. *)
(** src/src/api/core/ciphers.rs: CipherData *)
Record CipherData := mkCipherData {
  cp_id : option CipherId;
  cp_folder_id : option FolderId;
  cp_organization_id : option OrganizationId;
  cp_key : option string;
  cp_type : Z;
  cp_name : string;
  cp_notes : option string;
  cp_fields : option Value;
  cp_login : option Value;
  cp_secure_note : option Value;
  cp_card : option Value;
  cp_identity : option Value;
  cp_ssh_key : option Value;
  cp_favorite : option bool;
  cp_reprompt : option Z;
  cp_password_history : option Value;
  cp_attachments2 : option (list (string * Attachments2Data));
  cp_last_known_revision_date : option string;
  cp_archived_date : option string }.

#[export] Instance CipherData_eta : Etable CipherData := λ d,
  mkCipherData (cp_id d) (cp_folder_id d) (cp_organization_id d) (cp_key d) (cp_type d)
    (cp_name d) (cp_notes d) (cp_fields d) (cp_login d) (cp_secure_note d) (cp_card d)
    (cp_identity d) (cp_ssh_key d) (cp_favorite d) (cp_reprompt d) (cp_password_history d)
    (cp_attachments2 d) (cp_last_known_revision_date d) (cp_archived_date d).

(** src/src/api/core/ciphers.rs: PartialCipherData *)
Record PartialCipherData := mkPartialCipherData {
  pcd_folder_id : option FolderId;
  pcd_favorite : bool }.

(** src/src/api/core/ciphers.rs: ShareCipherData *)
Record ShareCipherData := mkShareCipherData {
  scd_cipher : CipherData;
  scd_collection_ids : list CollectionId }.

(** ** Notifications and checks *)

(** src/src/api/notifications.rs: send_cipher_update *)
Definition send_cipher_update (ut : UpdateType) (cipher : Cipher) (users : list UserId)
    : Handler () :=
  emit (CipherUpdate ut (ci_uuid cipher) users).

(** [nt.send_cipher_update(ut, &cipher, &cipher.update_users_revision(conn).await, ..)] *)
Definition notify_cipher (ut : UpdateType) (cipher : Cipher) : Handler () :=
  users ← Cipher_update_users_revision cipher;
  send_cipher_update ut cipher users.

(** [if let Some(org_id) = &cipher.organization_uuid { log_event(..) }] *)
Definition log_cipher_event (ev : EventType) (cipher : Cipher) (headers : Headers) : Handler () :=
  match ci_organization_uuid cipher with
  | Some org_id => log_event ev (ci_uuid cipher) org_id (u_uuid (h_user headers))
                     (d_atype (h_device headers)) (h_ip headers)
  | None => mret ()
  end.

(** The cipher, if the user may read it, or write it. *)
Definition readable_cipher (cipher_id : CipherId) (headers : Headers) (msg denied : string)
    : Handler Cipher :=
  cipher ← some_or (query (Cipher_find_by_uuid cipher_id)) msg;
  ok ← gets (λ e w, Cipher_is_accessible_to_user (e_cfg e) cipher (u_uuid (h_user headers)) (w_db w));
  _ ← err_if (negb ok) denied;
  mret cipher.

Definition writable_cipher (cipher_id : CipherId) (headers : Headers) (denied : string)
    : Handler Cipher :=
  cipher ← some_or (query (Cipher_find_by_uuid cipher_id)) "Cipher doesn't exist";
  ok ← gets (λ e w, Cipher_is_write_accessible_to_user (e_cfg e) cipher (u_uuid (h_user headers)) (w_db w));
  _ ← err_if (negb ok) denied;
  mret cipher.

Definition check_folder (folder_id : option FolderId) (headers : Headers) : Handler () :=
  match folder_id with
  | Some folder_id =>
    f ← query (Folder_find_by_uuid_and_user folder_id (u_uuid (h_user headers)));
    err_if (is_none (f : option Folder)) "Invalid folder"
  | None => mret ()
  end.

(** src/src/api/core/ciphers.rs: get_cipher *)
Definition get_cipher (cipher_id : CipherId) (headers : Headers) : Handler Cipher :=
  readable_cipher cipher_id headers "Cipher doesn't exist" "Cipher is not owned by user".

(** src/src/api/core/ciphers.rs: enforce_personal_ownership_policy *)
Definition enforce_personal_ownership_policy (data : option CipherData) (headers : Headers)
    : Handler () :=
  if on_row data (λ d, is_some (cp_organization_id d)) then mret ()
  else
    applicable ← query (OrgPolicy_is_applicable_to_user (u_uuid (h_user headers)) PersonalOwnership None);
    err_if applicable
      "Due to an Enterprise Policy, you are restricted from saving items to your personal vault.".

(** [f.as_object_mut().unwrap().remove("response")] *)
Definition remove_response (v : Value) : Handler Value :=
  match v with
  | VObject _ => mret (remove_member "response" v)
  | _ => panic "called `Option::unwrap()` on a `None` value"
  end.

(** src/src/api/core/ciphers.rs:409-416: update_cipher_from_data *)
Definition clean_cipher_data (json_data : Value) : Handler Value :=
  match json_data with
  | VArray l => l ← mfold l [] (λ acc f, f ← remove_response f; mret (acc ++ [f])); mret (VArray l)
  | _ => mret json_data
  end.

(** [o[k] = v] when [k] is a member of the object [o] *)
Definition replace_member (k : string) (v v0 : Value) : Value :=
  match v0 with
  | VObject l => VObject (map (λ kv, if kv.1 == k then (k, v) else kv) l)
  | _ => v0
  end.

(** The data of the cipher's type, without the "response" members. *)
(** src/src/api/core/ciphers.rs:505-524: update_cipher_from_data *)
Definition cipher_type_data (data : CipherData) : Handler Value :=
  type_data_opt ← match cp_type data with
                  | 1%Z => mret (cp_login data)
                  | 2%Z => mret (cp_secure_note data)
                  | 3%Z => mret (cp_card data)
                  | 4%Z => mret (cp_identity data)
                  | 5%Z => mret (cp_ssh_key data)
                  | _ => err "Invalid type"
                  end;
  match type_data_opt with
  | Some data =>
    data ← remove_response data;
    match member "uris" data with
    | Some (VArray l) => uris ← clean_cipher_data (VArray l); mret (replace_member "uris" uris data)
    | _ => mret data
    end
  | None => err "Data missing"
  end.

(** The attachments named by the request, up to the first that is of another
    cipher. *)
(** src/src/api/core/ciphers.rs:479-503: update_cipher_from_data *)
Fixpoint update_attachments (cipher_id : CipherId) (l : list (string * Attachments2Data))
    : Handler () :=
  match l with
  | [] => mret ()
  | (id, attachment) :: l =>
    osaved ← Attachment_find_by_id id;
    match (osaved : option Attachment) with
    | None => update_attachments cipher_id l
    | Some saved_att =>
      if at_cipher_uuid saved_att != cipher_id then mret ()
      else
        _ ← Attachment_save (saved_att <| at_akey := Some (a2_key attachment) |>
                                       <| at_file_name := a2_file_name attachment |>);
        update_attachments cipher_id l
    end
  end.

Lemma m_rel_update_attachments R `{∀ e : Env, PreOrder (R e)} cipher_id l :
  (∀ a, m_rel R (write (λ d, d <| attachments := upsert a (attachments d) |>))) →
  m_rel R (update_attachments cipher_id l).
Proof.
  intros Hw. induction l as [|[id a] l IH]; simpl; [apply m_rel_ret; done|].
  mrel; apply Hw.
Qed.
#[export] Hint Resolve m_rel_update_attachments : mrel.

(** Whose the cipher is after the update: the organization's, if the user may
    add it there, or the user's. *)
(** src/src/api/core/ciphers.rs:449-471: update_cipher_from_data *)
Definition update_cipher_owner (cipher : Cipher) (organization_id : option OrganizationId)
    (headers : Headers) (shared : bool) : Handler Cipher :=
  let user_id := u_uuid (h_user headers) in
  match organization_id with
  | Some org_id =>
    om ← query (Membership_find_confirmed_by_user_and_org user_id org_id);
    match (om : option Membership) with
    | None => err "You don't have permission to add item to organization"
    | Some member =>
      writable ← gets (λ e w, Cipher_is_write_accessible_to_user (e_cfg e) cipher user_id (w_db w));
      if shared || Membership_has_full_access member || (writable : bool)
      then mret (cipher <| ci_organization_uuid := Some org_id |> <| ci_user_uuid := None |>)
      else err "You don't have permission to add cipher directly to organization"
    end
  | None => mret (cipher <| ci_user_uuid := Some user_id |>)
  end.

(** [ut != UpdateType::None] *)
Definition notifies (ut : UpdateType) : bool := match ut with UpdateNone => false | _ => true end.

(** src/src/api/core/ciphers.rs: update_cipher_from_data *)
Definition update_cipher_from_data (cipher : Cipher) (data : CipherData) (headers : Headers)
    (shared_to_collections : option (list CollectionId)) (ut : UpdateType) : Handler Cipher :=
  let user_id := u_uuid (h_user headers) in
  _ ← enforce_personal_ownership_policy (Some data) headers;
  odt ← gets (λ e _, cp_last_known_revision_date data ≫= e_parse_datetime e);
  _ ← err_if (notifies ut && on_row (odt : option Z) (λ dt, (1 <? ci_updated_at cipher - dt)%Z))
        "The client copy of this cipher is out of date. Resync the client and try again.";
  _ ← err_if (is_some (ci_organization_uuid cipher) &&
              negb (bool_decide (ci_organization_uuid cipher = cp_organization_id data)))
        "Organization mismatch. Please resync the client before updating the cipher";
  max_note ← cfg max_note_size;
  _ ← err_if (on_row (cp_notes data) (λ note, (max_note <? Z.of_nat (String.length note))%Z))
        ("The field Notes exceeds the maximum encrypted value length of " +:+ pretty max_note +:+
         " characters.");
  let transfer_cipher := is_none (ci_organization_uuid cipher) && is_some (cp_organization_id data) in
  cipher ← update_cipher_owner cipher (cp_organization_id data) headers (is_some shared_to_collections);
  _ ← check_folder (cp_folder_id data) headers;
  _ ← match cp_attachments2 data with
      | Some l => update_attachments (ci_uuid cipher) l
      | None => mret ()
      end;
  type_data ← cipher_type_data data;
  fields ← match cp_fields data with
           | Some f => f ← clean_cipher_data f; s ← gets (λ e _, e_json e (Some f)); mret (Some s)
           | None => mret None
           end;
  data_text ← gets (λ e _, e_json e (Some type_data));
  history ← gets (λ e _, option_map (λ f, e_json e (Some f)) (cp_password_history data));
  let reprompt := match cp_reprompt data with
                  | Some r => if (r =? 0)%Z || (r =? 1)%Z then Some r else None
                  | None => None
                  end in
  cipher ← Cipher_save (cipher <| ci_key := cp_key data |> <| ci_name := cp_name data |>
                               <| ci_notes := cp_notes data |> <| ci_fields := fields |>
                               <| ci_data := data_text |> <| ci_password_history := history |>
                               <| ci_reprompt := reprompt |>);
  _ ← Cipher_move_to_folder cipher (cp_folder_id data) user_id;
  _ ← Cipher_set_favorite cipher (cp_favorite data) user_id;
  oarchived ← gets (λ e _, cp_archived_date data ≫= e_parse_datetime e);
  _ ← match (oarchived : option Z) with
      | Some dt => Cipher_set_archived_at cipher dt user_id
      | None => mret ()
      end;
  _ ← (if notifies ut then
         let event_type := match ut, transfer_cipher with
                           | SyncCipherCreate, true => CipherCreated
                           | SyncCipherUpdate, true => CipherShared
                           | _, _ => CipherUpdated
                           end in
         _ ← log_cipher_event event_type cipher headers;
         notify_cipher ut cipher
       else mret ());
  mret cipher.

(** ** Creating, updating and sharing a cipher *)

(** src/src/api/core/ciphers.rs: share_cipher_by_uuid *)
Definition share_cipher_by_uuid (cipher_id : CipherId) (data : ShareCipherData)
    (headers : Headers) (override_ut : option UpdateType) : Handler Cipher :=
  let user_id := u_uuid (h_user headers) in
  cipher ← writable_cipher cipher_id headers "Cipher is not write accessible";
  shared_to_collections ←
    match cp_organization_id (scd_cipher data) with
    | Some organization_id =>
      mfold (scd_collection_ids data) [] (λ shared col_id,
        collection ← some_or (query (Collection_find_by_uuid_and_org col_id organization_id))
                       "Invalid collection ID provided";
        writable ← gets (λ e w, Collection_is_writable_by_user (e_cfg e) collection user_id (w_db w));
        if (writable : bool) then
          _ ← CollectionCipher_save (ci_uuid cipher) (c_uuid collection);
          mret (shared ++ [c_uuid collection])
        else err "No rights to modify the collection")
    | None => mret []
    end;
  let ut := match override_ut with
            | Some ut => ut
            | None => if is_some (cp_last_known_revision_date (scd_cipher data))
                      then SyncCipherUpdate else SyncCipherCreate
            end in
  update_cipher_from_data cipher (scd_cipher data) headers (Some shared_to_collections) ut.

(** src/src/api/core/ciphers.rs: post_ciphers_create *)
Definition post_ciphers_create (data : ShareCipherData) (headers : Headers) : Handler Cipher :=
  _ ← enforce_personal_ownership_policy (Some (scd_cipher data)) headers;
  cipher ← Cipher_new (cp_type (scd_cipher data)) (cp_name (scd_cipher data));
  cipher ← Cipher_save (cipher <| ci_user_uuid := Some (u_uuid (h_user headers)) |>);
  let data := mkShareCipherData ((scd_cipher data) <| cp_last_known_revision_date := None |>)
                (scd_collection_ids data) in
  res ← try_ (share_cipher_by_uuid (ci_uuid cipher) data headers None);
  match res with
  | inr c => mret c
  | inl msg => _ ← Cipher_delete cipher; err msg
  end.

(** src/src/api/core/ciphers.rs: post_ciphers *)
Definition post_ciphers (data : CipherData) (headers : Headers) : Handler Cipher :=
  let data := data <| cp_last_known_revision_date := None |> in
  cipher ← Cipher_new (cp_type data) (cp_name data);
  update_cipher_from_data cipher data headers None SyncCipherCreate.

(** src/src/api/core/ciphers.rs: put_cipher *)
Definition put_cipher (cipher_id : CipherId) (data : CipherData) (headers : Headers)
    : Handler Cipher :=
  cipher ← writable_cipher cipher_id headers "Cipher is not write accessible";
  update_cipher_from_data cipher data headers None SyncCipherUpdate.

(** src/src/api/core/ciphers.rs: put_cipher_partial *)
Definition put_cipher_partial (cipher_id : CipherId) (data : PartialCipherData)
    (headers : Headers) : Handler Cipher :=
  cipher ← readable_cipher cipher_id headers "Cipher does not exist" "Cipher does not exist";
  _ ← check_folder (pcd_folder_id data) headers;
  _ ← Cipher_move_to_folder cipher (pcd_folder_id data) (u_uuid (h_user headers));
  _ ← Cipher_set_favorite cipher (Some (pcd_favorite data)) (u_uuid (h_user headers));
  mret cipher.

(** src/src/api/core/ciphers.rs: post_cipher_share *)
Definition post_cipher_share (cipher_id : CipherId) (data : ShareCipherData) (headers : Headers)
    : Handler Cipher :=
  share_cipher_by_uuid cipher_id data headers None.

(** The ciphers are popped from the end of the request's list. *)
(** src/src/api/core/ciphers.rs: put_cipher_share_selected *)
Definition put_cipher_share_selected (ciphers : list CipherData)
    (collection_ids : list CollectionId) (headers : Headers) : Handler () :=
  _ ← err_if (is_empty ciphers) "You must select at least one cipher.";
  _ ← err_if (is_empty collection_ids) "You must select at least one collection.";
  _ ← mfor ciphers (λ c, err_if (is_none (cp_id c)) "Request missing ids field");
  _ ← mfor (rev ciphers) (λ c,
        match cp_id c with
        | Some id =>
          _ ← share_cipher_by_uuid id (mkShareCipherData (c <| cp_id := None |>) collection_ids)
                headers (Some UpdateNone);
          mret ()
        | None => err "Request missing ids field"
        end);
  emit (UserUpdate SyncCiphers (u_uuid (h_user headers))).

(** ** Collections of a cipher *)

(** [a.symmetric_difference(&b)] of two sets, in the order it is read in *)
(** src/src/api/core/ciphers.rs:821-821: post_collections_update *)
Definition symmetric_difference (order : list string → list string) (a b : list string)
    : list string :=
  List.filter (λ x, negb (existsb (String.eqb x) b)) (order (remove_dups a)) ++
  List.filter (λ x, negb (existsb (String.eqb x) a)) (order (remove_dups b)).

(** What [post_collections_update] and [post_collections_admin] do with the
    collections the user sees the cipher in. *)
(** src/src/api/core/ciphers.rs:817-842: post_collections_update *)
Definition change_collections (cipher : Cipher) (org_uuid : OrganizationId)
    (posted_collections current_collections : list CollectionId) (headers : Headers) : Handler () :=
  order ← gets (λ e _, e_hash_order e);
  _ ← mfor (symmetric_difference order posted_collections current_collections) (λ col_id,
    collection ← some_or (query (Collection_find_by_uuid_and_org col_id org_uuid))
                   "Invalid collection ID provided";
    writable ← gets (λ e w, Collection_is_writable_by_user (e_cfg e) collection
                              (u_uuid (h_user headers)) (w_db w));
    if (writable : bool) then
      if existsb (String.eqb (c_uuid collection)) posted_collections
      then CollectionCipher_save (ci_uuid cipher) (c_uuid collection)
      else CollectionCipher_delete (ci_uuid cipher) (c_uuid collection)
    else err "No rights to modify the collection");
  _ ← notify_cipher SyncCipherUpdate cipher;
  log_event CipherUpdatedCollections (ci_uuid cipher) org_uuid (u_uuid (h_user headers))
    (d_atype (h_device headers)) (h_ip headers).

(** The cipher of an organization whose collections the user may change. *)
Definition editable_org_cipher (cipher_id : CipherId) (headers : Headers)
    : Handler (Cipher * OrganizationId) :=
  cipher ← some_or (query (Cipher_find_by_uuid cipher_id)) "Cipher doesn't exist";
  ok ← gets (λ e w, Cipher_is_in_editable_collection_by_user (e_cfg e) cipher
                      (u_uuid (h_user headers)) (w_db w));
  _ ← err_if (negb ok) "Collection cannot be changed";
  match ci_organization_uuid cipher with
  | Some org_uuid => mret (cipher, org_uuid)
  | None => err "Cipher is not owned by an organization"
  end.

(** src/src/api/core/ciphers.rs: post_collections_update *)
Definition post_collections_update (cipher_id : CipherId) (collection_ids : list CollectionId)
    (headers : Headers) : Handler Cipher :=
  '(cipher, org_uuid) ← editable_org_cipher cipher_id headers;
  current ← gets (λ e w, Cipher_get_collections (e_cfg e) cipher (u_uuid (h_user headers)) (w_db w));
  _ ← change_collections cipher org_uuid collection_ids current headers;
  mret cipher.

(** src/src/api/core/ciphers.rs: post_collections_admin *)
Definition post_collections_admin (cipher_id : CipherId) (collection_ids : list CollectionId)
    (headers : Headers) : Handler () :=
  '(cipher, org_uuid) ← editable_org_cipher cipher_id headers;
  current ← gets (λ e w, Cipher_get_admin_collections (e_cfg e) cipher (u_uuid (h_user headers)) (w_db w));
  change_collections cipher org_uuid collection_ids current headers.

(** ** Deleting and restoring *)

(** src/src/api/core/ciphers.rs: CipherDeleteOptions *)
Inductive CipherDeleteOptions := SoftSingle | SoftMulti | HardSingle | HardMulti.

(** src/src/api/core/ciphers.rs: delete_cipher_by_uuid *)
Definition delete_cipher_by_uuid (cipher_id : CipherId) (headers : Headers)
    (delete_options : CipherDeleteOptions) : Handler () :=
  cipher ← writable_cipher cipher_id headers "Cipher can't be deleted by user";
  cipher ← match delete_options with
           | SoftSingle | SoftMulti =>
             t ← now;
             cipher ← Cipher_save (cipher <| ci_deleted_at := Some t |>);
             _ ← match delete_options with
                 | SoftSingle => notify_cipher SyncCipherUpdate cipher
                 | _ => mret ()
                 end;
             mret cipher
           | HardSingle | HardMulti =>
             _ ← Cipher_delete cipher;
             _ ← match delete_options with
                 | HardSingle => notify_cipher SyncLoginDelete cipher
                 | _ => mret ()
                 end;
             mret cipher
           end;
  log_cipher_event (match delete_options with
                    | SoftSingle | SoftMulti => CipherSoftDeleted
                    | HardSingle | HardMulti => CipherDeleted
                    end) cipher headers.

(** src/src/api/core/ciphers.rs: delete_multiple_ciphers *)
Definition delete_multiple_ciphers (ids : list CipherId) (delete_options : CipherDeleteOptions)
    (headers : Headers) : Handler () :=
  _ ← mfor ids (λ cipher_id, delete_cipher_by_uuid cipher_id headers delete_options);
  emit (UserUpdate SyncCiphers (u_uuid (h_user headers))).

(** src/src/api/core/ciphers.rs: restore_cipher_by_uuid *)
Definition restore_cipher_by_uuid (cipher_id : CipherId) (headers : Headers)
    (multi_restore : bool) : Handler Cipher :=
  cipher ← writable_cipher cipher_id headers "Cipher can't be restored by user";
  cipher ← Cipher_save (cipher <| ci_deleted_at := None |>);
  _ ← (if negb multi_restore then notify_cipher SyncCipherUpdate cipher else mret ());
  _ ← log_cipher_event CipherRestored cipher headers;
  mret cipher.

(** src/src/api/core/ciphers.rs: restore_multiple_ciphers *)
Definition restore_multiple_ciphers (ids : list CipherId) (headers : Headers)
    : Handler (list Cipher) :=
  ciphers ← mfold ids [] (λ ciphers cipher_id,
              c ← restore_cipher_by_uuid cipher_id headers true; mret (ciphers ++ [c]));
  _ ← emit (UserUpdate SyncCiphers (u_uuid (h_user headers)));
  mret ciphers.

(** src/src/api/core/ciphers.rs: move_cipher_selected *)
Definition move_cipher_selected (folder_id : option FolderId) (ids : list CipherId)
    (headers : Headers) : Handler () :=
  let user_id := u_uuid (h_user headers) in
  _ ← check_folder folder_id headers;
  let cipher_count := length ids in
  accessible_ciphers ← gets (λ e w, Cipher_find_by_user_and_ciphers (e_cfg e) user_id ids (w_db w));
  let accessible_ciphers_count := length accessible_ciphers in
  single_cipher ← mfold accessible_ciphers None (λ single cipher,
    _ ← Cipher_move_to_folder cipher folder_id user_id;
    mret (if (cipher_count =? 1)%nat then Some cipher else single));
  _ ← match (single_cipher : option Cipher) with
      | Some cipher => send_cipher_update SyncCipherUpdate cipher [user_id]
      | None => emit (UserUpdate SyncCiphers user_id)
      end;
  err_if (negb (cipher_count =? accessible_ciphers_count)%nat)
    ("Not all ciphers are moved! " +:+ pretty (Z.of_nat accessible_ciphers_count) +:+
     " of the selected " +:+ pretty (Z.of_nat cipher_count) +:+ " were moved.").

(** src/src/api/core/ciphers.rs: purge_org_vault *)
Definition purge_org_vault (org_id : OrganizationId) (data : PasswordOrOtpData)
    (headers : OwnerHeaders) : Handler () :=
  _ ← err_if (org_id != owh_org_id headers) "Organization not found";
  let user := owh_user headers in
  _ ← PasswordOrOtpData_validate data user true;
  om ← query (Membership_find_confirmed_by_user_and_org (u_uuid user) org_id);
  if on_row (om : option Membership) (λ m, i32_eq (m_atype m) Owner) then
    _ ← Cipher_delete_all_by_organization org_id;
    _ ← emit (UserUpdate SyncVault (u_uuid user));
    log_event OrganizationPurgedVault org_id org_id (u_uuid user) (d_atype (owh_device headers))
      (owh_ip headers)
  else err "You don't have permission to purge the organization vault".

(** src/src/api/core/ciphers.rs: purge_personal_vault *)
Definition purge_personal_vault (data : PasswordOrOtpData) (headers : Headers) : Handler () :=
  let user := h_user headers in
  _ ← PasswordOrOtpData_validate data user true;
  l ← query (Cipher_find_owned_by_user (u_uuid user));
  _ ← mfor l Cipher_delete;
  fs ← query (Folder_find_by_user (u_uuid user));
  _ ← mfor fs Folder_delete;
  _ ← User_update_revision user;
  emit (UserUpdate SyncVault (u_uuid user)).

(** ** Archive *)

(** src/src/api/core/ciphers.rs: archive_cipher *)
Definition archive_cipher (cipher_id : CipherId) (headers : Headers) (multi_archive : bool)
    : Handler Cipher :=
  cipher ← readable_cipher cipher_id headers "Cipher doesn't exist"
             "Cipher is not accessible for the current user";
  t ← now;
  _ ← Cipher_set_archived_at cipher t (u_uuid (h_user headers));
  _ ← (if negb multi_archive then notify_cipher SyncCipherUpdate cipher else mret ());
  mret cipher.

(** src/src/api/core/ciphers.rs: unarchive_cipher *)
Definition unarchive_cipher (cipher_id : CipherId) (headers : Headers) (multi_unarchive : bool)
    : Handler Cipher :=
  cipher ← readable_cipher cipher_id headers "Cipher doesn't exist"
             "Cipher is not accessible for the current user";
  _ ← Cipher_unarchive cipher (u_uuid (h_user headers));
  _ ← (if negb multi_unarchive then notify_cipher SyncCipherUpdate cipher else mret ());
  mret cipher.

(** src/src/api/core/ciphers.rs: archive_multiple_ciphers *)
Definition archive_multiple_ciphers (ids : list CipherId) (headers : Headers)
    : Handler (list Cipher) :=
  ciphers ← mfold ids [] (λ ciphers cipher_id,
              c ← archive_cipher cipher_id headers true; mret (ciphers ++ [c]));
  _ ← emit (UserUpdate SyncCiphers (u_uuid (h_user headers)));
  mret ciphers.

(** src/src/api/core/ciphers.rs: unarchive_multiple_ciphers *)
Definition unarchive_multiple_ciphers (ids : list CipherId) (headers : Headers)
    : Handler (list Cipher) :=
  ciphers ← mfold ids [] (λ ciphers cipher_id,
              c ← unarchive_cipher cipher_id headers true; mret (ciphers ++ [c]));
  _ ← emit (UserUpdate SyncCiphers (u_uuid (h_user headers)));
  mret ciphers.

(** ** Import *)

(** src/src/api/core/folders.rs: FolderData *)
Record FolderData := mkFolderData {
  fd_name : string;
  fd_id : option FolderId }.

(** src/src/api/core/ciphers.rs: ImportData *)
Record ImportData := mkImportData {
  imd_ciphers : list CipherData;
  imd_folders : list FolderData;
  imd_folder_relationships : list (Z * Z) }.

(** Does a password history hold an entry whose password is not a string? *)
Definition bad_password_history (v : option Value) : bool :=
  match v with
  | Some (VArray l) =>
    existsb (λ pwh, match pwh with
                    | VObject _ => match member "password" pwh with
                                   | Some (VString _) | None => false
                                   | Some _ => true
                                   end
                    | _ => false
                    end) l
  | _ => false
  end.

(** src/src/db/models/cipher.rs: Cipher::validate_cipher_data *)
Definition Cipher_validate_cipher_data (cipher_data : list CipherData) : Handler () :=
  max_note ← cfg max_note_size;
  err_if (existsb (λ c, on_row (cp_notes c) (λ note, (max_note <? Z.of_nat (String.length note))%Z) ||
                        bad_password_history (cp_password_history c)) cipher_data)
    "Import validation errors".

(** [HashMap::insert] in a row, then [get]: the last pair with the key *)
Definition last_assoc (k : Z) (l : list (Z * Z)) : option Z :=
  match List.find (λ kv, (kv.1 =? k)%Z) (rev l) with Some kv => Some kv.2 | None => None end.

(** src/src/api/core/ciphers.rs: post_ciphers_import *)
Definition post_ciphers_import (data : ImportData) (headers : Headers) : Handler () :=
  let user := h_user headers in
  _ ← enforce_personal_ownership_policy None headers;
  _ ← Cipher_validate_cipher_data (imd_ciphers data);
  existing ← query (Folder_find_by_user (u_uuid user));
  folders ← mfold (imd_folders data) [] (λ folders folder,
    folder_id ← match fd_id folder with
                | Some id =>
                  if existsb (λ f, f_uuid f == id) existing then mret id
                  else
                    new_folder ← Folder_new (u_uuid user) (fd_name folder);
                    new_folder ← Folder_save new_folder;
                    mret (f_uuid new_folder)
                | None =>
                  new_folder ← Folder_new (u_uuid user) (fd_name folder);
                  new_folder ← Folder_save new_folder;
                  mret (f_uuid new_folder)
                end;
    mret (folders ++ [folder_id]));
  _ ← mfor (combine (seq 0 (length (imd_ciphers data))) (imd_ciphers data)) (λ '(index, cipher_data),
    folder_id ← match last_assoc (Z.of_nat index) (imd_folder_relationships data) with
                | Some i => f ← unwrap (folders !! Z.to_nat i) "index out of bounds"; mret (Some f)
                | None => mret None
                end;
    let cipher_data := cipher_data <| cp_folder_id := folder_id |> in
    cipher ← Cipher_new (cp_type cipher_data) (cp_name cipher_data);
    _ ← update_cipher_from_data cipher cipher_data headers None UpdateNone;
    mret ());
  _ ← User_update_revision user;
  emit (UserUpdate SyncVault (u_uuid user)).

(** ** Attachments *)

(** src/src/api/core/ciphers.rs: get_attachment *)
Definition get_attachment (cipher_id : CipherId) (attachment_id : string) (headers : Headers)
    : Handler Attachment :=
  _ ← readable_cipher cipher_id headers "Cipher doesn't exist" "Cipher is not accessible";
  attachment ← some_or (Attachment_find_by_id attachment_id) "Attachment doesn't exist";
  _ ← err_if (cipher_id != at_cipher_uuid attachment) "Attachment doesn't belong to cipher";
  mret attachment.

(** src/src/api/core/ciphers.rs: AttachmentRequestData *)
Record AttachmentRequestData := mkAttachmentRequestData {
  atr_key : string;
  atr_file_name : string;
  atr_file_size : NumberOrString }.

(** src/src/api/core/ciphers.rs: post_attachment_v2 *)
Definition post_attachment_v2 (cipher_id : CipherId) (data : AttachmentRequestData)
    (headers : Headers) : Handler string :=
  cipher ← writable_cipher cipher_id headers "Cipher is not write accessible";
  file_size ← lift (into_i64 (atr_file_size data));
  _ ← err_if (file_size <? 0)%Z "Attachment size can't be negative";
  attachment_id ← get_random;
  _ ← Attachment_save (Attachment_new attachment_id (ci_uuid cipher) (atr_file_name data) file_size
                         (Some (atr_key data)));
  mret attachment_id.

(** src/src/api/core/ciphers.rs: UploadData *)
Record UploadData := mkUploadData {
  up_key : option string;
  up_size : Z;                          (** the length of the uploaded file *)
  up_raw_name : option string }.

(** src/src/api/core/ciphers.rs:1217-1220: save_attachment *)
Definition bytes_left (limit_kb already_used size_adjust : Z) : option Z :=
  match checked_mul limit_kb 1024 with
  | Some l => match checked_sub l already_used with
              | Some l => checked_add l size_adjust
              | None => None
              end
  | None => None
  end.

(** What is left of a storage limit of [limit_kb]. *)
(** src/src/api/core/ciphers.rs:1213-1233: save_attachment *)
Definition storage_left (limit_kb : option Z) (already_used size_adjust : Z) : Handler (option Z) :=
  match limit_kb with
  | None => mret None
  | Some limit_kb =>
    _ ← err_if (limit_kb =? 0)%Z "Attachments are disabled";
    room ← match bytes_left limit_kb already_used size_adjust with
           | Some n => mret n
           | None => err "Attachment size overflow"
           end;
    _ ← err_if (room <=? 0)%Z
          "Attachment storage limit reached! Delete some attachments to free up space";
    mret (Some room)
  end.

(** How many bytes the owner of a cipher may still store. *)
(** src/src/api/core/ciphers.rs:1212-1258: save_attachment *)
Definition attachment_size_limit (cipher : Cipher) (size_adjust : Z) : Handler (option Z) :=
  match ci_user_uuid cipher, ci_organization_uuid cipher with
  | Some user_id, _ =>
    limit ← cfg user_attachment_limit;
    already_used ← query (Attachment_size_by_user user_id);
    storage_left limit already_used size_adjust
  | None, Some org_id =>
    limit ← cfg org_attachment_limit;
    already_used ← query (Attachment_size_by_org org_id);
    storage_left limit already_used size_adjust
  | None, None => err "Cipher is neither owned by a user nor an organization"
  end.

(** src/src/api/core/ciphers.rs:1277-1277: save_attachment *)
Definition LEEWAY : Z := 1024 * 1024.

(** src/src/api/core/ciphers.rs: save_attachment *)
Definition save_attachment (attachment : option Attachment) (cipher_id : CipherId)
    (data : UploadData) (headers : Headers) : Handler Cipher :=
  _ ← err_if (i64_MAX <? up_size data)%Z "Attachment data size overflow";
  let size := up_size data in
  _ ← err_if (size <? 0)%Z "Attachment size can't be negative";
  cipher ← writable_cipher cipher_id headers "Cipher is not write accessible";
  let size_adjust := match attachment with None => 0%Z | Some a => at_file_size a end in
  size_limit ← attachment_size_limit cipher size_adjust;
  _ ← err_if (on_row (size_limit : option Z) (λ l, (l <? size)%Z))
        "Attachment storage limit exceeded with this file";
  file_id ← match attachment with Some a => mret (at_id a) | None => get_random end;
  _ ← match attachment with
      | Some a =>
        match checked_add (at_file_size a) LEEWAY with
        | None => err "Invalid attachment size max"
        | Some max_size =>
          match checked_sub (at_file_size a) LEEWAY with
          | None => err "Invalid attachment size min"
          | Some min_size =>
            if (min_size <=? size)%Z && (size <=? max_size)%Z then
              if (size =? at_file_size a)%Z then mret ()
              else Attachment_save (a <| at_file_size := size |>)
            else
              _ ← ignore (Attachment_delete a);
              err ("Attachment size mismatch (expected within [" +:+ pretty min_size +:+ ", " +:+
                   pretty max_size +:+ "], got " +:+ pretty size +:+ ")")
          end
        end
      | None =>
        match up_raw_name data with
        | None => err "No filename provided"
        | Some encrypted_filename =>
          _ ← err_if (is_none (up_key data)) "No attachment key provided";
          Attachment_save (Attachment_new file_id cipher_id encrypted_filename size (up_key data))
        end
      end;
  let path := cipher_id +:+ "/" +:+ file_id in
  saved ← gets (λ e _, e_storage_save e path);
  _ ← err_if (negb saved) "Storage error";
  _ ← emit (FileSaved path);
  _ ← notify_cipher SyncCipherUpdate cipher;
  _ ← log_cipher_event CipherAttachmentCreated cipher headers;
  mret cipher.

(** src/src/api/core/ciphers.rs: post_attachment_v2_data *)
Definition post_attachment_v2_data (cipher_id : CipherId) (attachment_id : string)
    (data : UploadData) (headers : Headers) : Handler () :=
  attachment ← some_or (Attachment_find_by_id attachment_id) "Attachment doesn't exist";
  _ ← err_if (cipher_id != at_cipher_uuid attachment) "Attachment doesn't belong to cipher";
  _ ← save_attachment (Some attachment) cipher_id data headers;
  mret ().

(** src/src/api/core/ciphers.rs: post_attachment *)
Definition post_attachment (cipher_id : CipherId) (data : UploadData) (headers : Headers)
    : Handler Cipher :=
  save_attachment None cipher_id data headers.

(** src/src/api/core/ciphers.rs: delete_cipher_attachment_by_id *)
Definition delete_cipher_attachment_by_id (cipher_id : CipherId) (attachment_id : string)
    (headers : Headers) : Handler Cipher :=
  attachment ← some_or (Attachment_find_by_id attachment_id) "Attachment doesn't exist";
  _ ← err_if (at_cipher_uuid attachment != cipher_id) "Attachment from other cipher";
  cipher ← writable_cipher cipher_id headers "Cipher cannot be deleted by user";
  _ ← Attachment_delete attachment;
  _ ← notify_cipher SyncCipherUpdate cipher;
  _ ← log_cipher_event CipherAttachmentDeleted cipher headers;
  mret cipher.

(** src/src/api/core/ciphers.rs: post_attachment_share *)
Definition post_attachment_share (cipher_id : CipherId) (attachment_id : string)
    (data : UploadData) (headers : Headers) : Handler Cipher :=
  _ ← delete_cipher_attachment_by_id cipher_id attachment_id headers;
  post_attachment cipher_id data headers.

(** ** Folders *)

(** src/src/api/core/folders.rs: get_folder *)
Definition get_folder (folder_id : FolderId) (headers : Headers) : Handler Folder :=
  some_or (query (Folder_find_by_uuid_and_user folder_id (u_uuid (h_user headers)))) "Invalid folder".

(** src/src/api/core/folders.rs: post_folders *)
Definition post_folders (data : FolderData) (headers : Headers) : Handler Folder :=
  folder ← Folder_new (u_uuid (h_user headers)) (fd_name data);
  folder ← Folder_save folder;
  _ ← emit (FolderUpdate SyncFolderCreate (f_uuid folder) (f_user_uuid folder));
  mret folder.

(** src/src/api/core/folders.rs: put_folder *)
Definition put_folder (folder_id : FolderId) (data : FolderData) (headers : Headers)
    : Handler Folder :=
  folder ← get_folder folder_id headers;
  folder ← Folder_save (folder <| f_name := fd_name data |>);
  _ ← emit (FolderUpdate SyncFolderUpdate (f_uuid folder) (f_user_uuid folder));
  mret folder.

(** src/src/api/core/folders.rs: delete_folder *)
Definition delete_folder (folder_id : FolderId) (headers : Headers) : Handler () :=
  folder ← get_folder folder_id headers;
  _ ← Folder_delete folder;
  emit (FolderUpdate SyncFolderDelete (f_uuid folder) (f_user_uuid folder)).
