(* ===== verification/KeyRotation.v ===== *)
(** The rotation of the account keys, [post_rotatekey] of
    src/src/api/core/accounts.rs: everything encrypted with the old key comes back
    encrypted with the new one in a single request. *)
From S2P Require Import Prelude Table Schema Roles Users Memberships Policies Vault Ciphers Util.
From S2P Require Import Devices Auth Sends Emergency Accounts Orgs AccountOps CipherOps.

(** src/src/api/core/accounts.rs: UpdateFolderData *)
Record UpdateFolderData := mkUpdateFolderData {
  ufd_id : option FolderId;
  ufd_name : string }.

(** src/src/api/core/accounts.rs: UpdateEmergencyAccessData *)
Record UpdateEmergencyAccessData := mkUpdateEmergencyAccessData {
  uea_id : string;
  uea_key_encrypted : string }.

(** src/src/api/core/accounts.rs: UpdateResetPasswordData *)
Record UpdateResetPasswordData := mkUpdateResetPasswordData {
  urp_organization_id : OrganizationId;
  urp_reset_password_key : string }.

(** src/src/api/core/accounts.rs: MasterPasswordUnlockData *)
Record MasterPasswordUnlockData := mkMasterPasswordUnlockData {
  mpu_kdf_type : Z;
  mpu_kdf_iterations : Z;
  mpu_kdf_parallelism : option Z;
  mpu_kdf_memory : option Z;
  mpu_email : string;
  mpu_master_key_authentication_hash : string;
  mpu_master_key_encrypted_user_key : string }.

(** src/src/api/core/accounts.rs: RotateAccountUnlockData *)
Record RotateAccountUnlockData := mkRotateAccountUnlockData {
  emergency_access_unlock_data : list UpdateEmergencyAccessData;
  master_password_unlock_data : MasterPasswordUnlockData;
  organization_account_recovery_unlock_data : list UpdateResetPasswordData }.

(** src/src/api/core/accounts.rs: RotateAccountKeys *)
Record RotateAccountKeys := mkRotateAccountKeys {
  user_key_encrypted_account_private_key : string;
  account_public_key : string }.

(** src/src/api/core/accounts.rs: RotateAccountData *)
Record RotateAccountData := mkRotateAccountData {
  rot_ciphers : list CipherData;
  rot_folders : list UpdateFolderData;
  rot_sends : list SendData }.

(** src/src/api/core/accounts.rs: KeyData *)
Record KeyData := mkKeyData {
  account_unlock_data : RotateAccountUnlockData;
  account_keys : RotateAccountKeys;
  account_data : RotateAccountData;
  old_master_key_authentication_hash : string }.

(** What the account has, read before anything is changed. *)
(** src/src/api/core/accounts.rs:816-821: post_rotatekey *)
Record Existing := mkExisting {
  ex_ciphers : list Cipher;
  ex_folders : list Folder;
  ex_emergency_access : list EmergencyAccess;
  ex_memberships : list Membership;
  ex_sends : list Send }.

(** src/src/api/core/accounts.rs:816-821: post_rotatekey *)
Definition find_existing (user_id : UserId) (db : Db) : Existing :=
  mkExisting (Cipher_find_owned_by_user user_id db) (Folder_find_by_user user_id db)
    (EmergencyAccess_find_all_confirmed_by_grantor_uuid user_id db)
    (List.filter (λ m, is_some (m_reset_password_key m)) (Membership_find_by_user user_id db))
    (Send_find_by_user user_id db).

(** [provided.is_superset(&existing)] *)
Definition is_superset (provided existing : list string) : bool :=
  forallb (λ x, existsb (String.eqb x) provided) existing.

Definition filter_map {A B} (f : A → option B) (l : list A) : list B :=
  flat_map (λ a, match f a with Some b => [b] | None => [] end) l.

(** The ids the request names. *)
(** src/src/api/core/accounts.rs:742-748: validate_keydata *)
Definition provided_cipher_ids (data : KeyData) : list CipherId :=
  filter_map cp_id (List.filter (λ c, is_none (cp_organization_id c)) (rot_ciphers (account_data data))).
(** src/src/api/core/accounts.rs:755-756: validate_keydata *)
Definition provided_folder_ids (data : KeyData) : list FolderId :=
  filter_map ufd_id (rot_folders (account_data data)).
(** src/src/api/core/accounts.rs:763-768: validate_keydata *)
Definition provided_emergency_access_ids (data : KeyData) : list string :=
  map uea_id (emergency_access_unlock_data (account_unlock_data data)).
(** src/src/api/core/accounts.rs:777-782: validate_keydata *)
Definition provided_reset_password_ids (data : KeyData) : list OrganizationId :=
  map urp_organization_id (organization_account_recovery_unlock_data (account_unlock_data data)).
(** src/src/api/core/accounts.rs:789-789: validate_keydata *)
Definition provided_send_ids (data : KeyData) : list string :=
  filter_map sd_id (rot_sends (account_data data)).

(** src/src/api/core/accounts.rs: validate_keydata *)
Definition validate_keydata (data : KeyData) (ex : Existing) (user : User) : Handler () :=
  let mpu := master_password_unlock_data (account_unlock_data data) in
  _ ← err_if (negb (u_client_kdf_type user =? mpu_kdf_type mpu)%Z ||
              negb (u_client_kdf_iter user =? mpu_kdf_iterations mpu)%Z ||
              negb (bool_decide (u_client_kdf_memory user = mpu_kdf_memory mpu)) ||
              negb (bool_decide (u_client_kdf_parallelism user = mpu_kdf_parallelism mpu)) ||
              (u_email user != mpu_email mpu))
        "Changing the kdf variant or email is not supported during key rotation";
  _ ← err_if (negb (opt_is (u_public_key user) (account_public_key (account_keys data))))
        "Changing the asymmetric keypair is not possible during key rotation";
  _ ← err_if (negb (is_superset (provided_cipher_ids data) (map ci_uuid (ex_ciphers ex))))
        "All existing ciphers must be included in the rotation";
  _ ← err_if (negb (is_superset (provided_folder_ids data) (map f_uuid (ex_folders ex))))
        "All existing folders must be included in the rotation";
  _ ← err_if (negb (is_superset (provided_emergency_access_ids data)
                      (map ea_uuid (ex_emergency_access ex))))
        "All existing emergency access keys must be included in the rotation";
  _ ← err_if (negb (is_superset (provided_reset_password_ids data)
                      (map m_org_uuid (ex_memberships ex))))
        "All existing reset password keys must be included in the rotation";
  err_if (negb (is_superset (provided_send_ids data) (map s_uuid (ex_sends ex))))
    "All existing sends must be included in the rotation".

(** [l.iter_mut().find(p)], changed with [f]: the row, and the list with the row
    replaced by what [f] makes of it. *)
Definition update_found {A} (p : A → bool) (l : list A) (msg : string) (f : A → Handler A)
    : Handler (list A) :=
  match List.find p l with
  | None => err msg
  | Some a =>
    a' ← f a;
    mret ((fix go l := match l with
                       | [] => []
                       | x :: l => if p x then a' :: l else x :: go l
                       end) l)
  end.

(** [id.as_ref().unwrap()], read only when there is a row to compare it with *)
Definition id_of {A} (l : list A) (id : option string) : Handler string :=
  match l, id with
  | [], _ => mret ""
  | _, Some id => mret id
  | _, None => panic "called `Option::unwrap()` on a `None` value"
  end.

(** src/src/api/core/accounts.rs:834-846: post_rotatekey *)
Definition rotate_folders (ex : list Folder) (l : list UpdateFolderData) : Handler (list Folder) :=
  mfold l ex (λ ex folder_data,
    match ufd_id folder_data with
    | Some folder_id =>
      update_found (λ f, f_uuid f == folder_id) ex "Folder doesn't exist"
        (λ f, Folder_save (f <| f_name := ufd_name folder_data |>))
    | None => mret ex
    end).

(** src/src/api/core/accounts.rs:848-858: post_rotatekey *)
Definition rotate_emergency_access (ex : list EmergencyAccess) (l : list UpdateEmergencyAccessData)
    : Handler (list EmergencyAccess) :=
  mfold l ex (λ ex d,
    update_found (λ ea, ea_uuid ea == uea_id d) ex
      "Emergency access doesn't exist or is not owned by the user"
      (λ ea, EmergencyAccess_save (ea <| ea_key_encrypted := Some (uea_key_encrypted d) |>))).

(** src/src/api/core/accounts.rs:860-870: post_rotatekey *)
Definition rotate_reset_passwords (ex : list Membership) (l : list UpdateResetPasswordData)
    : Handler (list Membership) :=
  mfold l ex (λ ex d,
    update_found (λ m, m_org_uuid m == urp_organization_id d) ex "Reset password doesn't exist"
      (λ m, let m := m <| m_reset_password_key := Some (urp_reset_password_key d) |> in
            _ ← Membership_save m; mret m)).

(** src/src/api/core/accounts.rs:872-879: post_rotatekey *)
Definition rotate_sends (headers : Headers) (ex : list Send) (l : list SendData)
    : Handler (list Send) :=
  mfold l ex (λ ex d,
    id ← id_of ex (sd_id d);
    update_found (λ s, s_uuid s == id) ex "Send doesn't exist"
      (λ s, update_send_from_data s d headers UpdateNone)).

(** src/src/api/core/accounts.rs:881-894: post_rotatekey *)
Definition rotate_ciphers (headers : Headers) (ex : list Cipher) (l : list CipherData)
    : Handler (list Cipher) :=
  mfold l ex (λ ex d,
    if is_some (cp_organization_id d) then mret ex
    else
      id ← id_of ex (cp_id d);
      update_found (λ c, ci_uuid c == id) ex "Cipher doesn't exist"
        (λ c, update_cipher_from_data c d headers None UpdateNone)).

(** src/src/api/core/accounts.rs: post_rotatekey *)
Definition post_rotatekey (data : KeyData) (headers : Headers) : Handler () :=
  let user := h_user headers in
  let unlock := account_unlock_data data in
  let mpu := master_password_unlock_data unlock in
  ok ← User_check_valid_password user (old_master_key_authentication_hash data);
  _ ← err_if (negb ok) "Invalid password";
  _ ← Cipher_validate_cipher_data (rot_ciphers (account_data data));
  ex ← query (find_existing (u_uuid user));
  _ ← validate_keydata data ex user;
  _ ← rotate_folders (ex_folders ex) (rot_folders (account_data data));
  _ ← rotate_emergency_access (ex_emergency_access ex) (emergency_access_unlock_data unlock);
  _ ← rotate_reset_passwords (ex_memberships ex) (organization_account_recovery_unlock_data unlock);
  _ ← rotate_sends headers (ex_sends ex) (rot_sends (account_data data));
  _ ← rotate_ciphers headers (ex_ciphers ex) (rot_ciphers (account_data data));
  let user := user <| u_private_key := Some (user_key_encrypted_account_private_key (account_keys data)) |> in
  user ← User_set_password user (mpu_master_key_authentication_hash mpu)
           (Some (mpu_master_key_encrypted_user_key mpu)) true None;
  save_then_logout user.
