(* ===== verification/OrgCollections.v ===== *)
(** The handlers of src/src/api/core/organizations.rs for the collections and the
    groups of an organization, the import into it, its keys, its API key and the
    account recovery by its administrators. *)
From S2P Require Import Prelude Table Schema Roles Users Memberships Groups Collections Policies.
From S2P Require Import Vault Ciphers Util Settings Devices Events Auth Sends Emergency Accounts.
From S2P Require Import Orgs CipherOps AccountOps.

(** ** Collections *)

(** src/src/api/core/organizations.rs: CollectionGroupData *)
Record CollectionGroupData := mkCollectionGroupData {
  cgd_id : GroupId;
  cgd_read_only : bool;
  cgd_hide_passwords : bool;
  cgd_manage : bool }.

(** src/src/api/core/organizations.rs: CollectionMembershipData *)
Record CollectionMembershipData := mkCollectionMembershipData {
  cmd_id : MembershipId;
  cmd_read_only : bool;
  cmd_hide_passwords : bool;
  cmd_manage : bool }.

(** src/src/api/core/organizations.rs: FullCollectionData *)
Record FullCollectionData := mkFullCollectionData {
  fcd_name : string;
  fcd_groups : list CollectionGroupData;
  fcd_users : list CollectionMembershipData;
  fcd_id : option CollectionId;
  fcd_external_id : option string }.

(** src/src/api/core/organizations.rs: FullCollectionData::validate *)
Definition FullCollectionData_validate (d : FullCollectionData) (org_id : OrganizationId)
    : Handler () :=
  org_groups ← query (Group_find_by_organization org_id);
  _ ← err_if (existsb (λ g, negb (existsb (λ x, g_uuid x == cgd_id g) org_groups)) (fcd_groups d))
        "Invalid group";
  org_memberships ← query (Membership_find_by_org org_id);
  err_if (existsb (λ m, negb (existsb (λ x, m_uuid x == cmd_id m) org_memberships)) (fcd_users d))
    "Invalid member".

(** The groups and the members of the request get their access to the
    collection; a member with access to everything needs none. *)
(** src/src/api/core/organizations.rs:526-530: post_organization_collections *)
Definition assign_groups (org_id : OrganizationId) (col_id : CollectionId)
    (groups : list CollectionGroupData) : Handler () :=
  mfor groups (λ group,
    CollectionGroup_save (mkCollectionGroup col_id (cgd_id group) (cgd_read_only group)
                            (cgd_hide_passwords group) (cgd_manage group)) org_id).

(** src/src/api/core/organizations.rs:532-552: post_organization_collections *)
Definition assign_members (org_id : OrganizationId) (col_id : CollectionId)
    (users : list CollectionMembershipData) : Handler () :=
  mfor users (λ user,
    member ← some_or (query (Membership_find_by_uuid_and_org (cmd_id user) org_id))
               "User is not part of organization";
    if m_access_all member then mret ()
    else CollectionUser_save (m_user_uuid member) col_id (cmd_read_only user)
           (cmd_hide_passwords user) (cmd_manage user)).

(** src/src/api/core/organizations.rs: post_organization_collections *)
Definition post_organization_collections (org_id : OrganizationId) (data : FullCollectionData)
    (headers : ManagerHeadersLoose) : Handler Collection :=
  _ ← err_if (org_id != m_org_uuid (ml_membership headers)) "Organization not found";
  _ ← FullCollectionData_validate data org_id;
  _ ← err_if (i32_eq (m_atype (ml_membership headers)) Manager &&
              negb (m_access_all (ml_membership headers)))
        "You don't have permission to create collections";
  collection ← Collection_new org_id (fcd_name data) (fcd_external_id data);
  _ ← Collection_save collection;
  _ ← log_event CollectionCreated (c_uuid collection) org_id (u_uuid (ml_user headers))
        (d_atype (ml_device headers)) (ml_ip headers);
  _ ← assign_groups org_id (c_uuid collection) (fcd_groups data);
  _ ← assign_members org_id (c_uuid collection) (fcd_users data);
  mret collection.

(** src/src/api/core/organizations.rs: BulkCollectionAccessData *)
Record BulkCollectionAccessData := mkBulkCollectionAccessData {
  bca_collection_ids : list CollectionId;
  bca_groups : list CollectionGroupData;
  bca_users : list CollectionMembershipData }.

(** The access of groups and members to a collection, replaced. *)
(** src/src/api/core/organizations.rs:676-700: post_organization_collection_update *)
Definition replace_access (org_id : OrganizationId) (col_id : CollectionId)
    (groups : list CollectionGroupData) (users : list CollectionMembershipData) : Handler () :=
  _ ← CollectionGroup_delete_all_by_collection col_id org_id;
  _ ← assign_groups org_id col_id groups;
  _ ← CollectionUser_delete_all_by_collection col_id;
  assign_members org_id col_id users.

(** src/src/api/core/organizations.rs: post_bulk_access_collections *)
Definition post_bulk_access_collections (org_id : OrganizationId) (data : BulkCollectionAccessData)
    (headers : ManagerHeadersLoose) : Handler () :=
  _ ← err_if (org_id != m_org_uuid (ml_membership headers)) "Organization not found";
  _ ← some_or (query (Organization_find_by_uuid org_id)) "Can't find organization details";
  mfor (bca_collection_ids data) (λ col_id,
    collection ← some_or (query (Collection_find_by_uuid_and_org col_id org_id))
                   "Collection not found";
    manageable ← query (Collection_is_manageable_by_user collection
                          (m_user_uuid (ml_membership headers)));
    _ ← err_if (negb manageable) "Collection not found";
    _ ← Collection_save collection;
    _ ← log_event CollectionUpdated (c_uuid collection) org_id (u_uuid (ml_user headers))
          (d_atype (ml_device headers)) (ml_ip headers);
    replace_access org_id col_id (bca_groups data) (bca_users data)).

(** src/src/api/core/organizations.rs: post_organization_collection_update *)
Definition post_organization_collection_update (org_id : OrganizationId) (col_id : CollectionId)
    (data : FullCollectionData) (headers : ManagerHeaders) : Handler Collection :=
  _ ← err_if (org_id != mh_org_id headers) "Organization not found";
  _ ← FullCollectionData_validate data org_id;
  _ ← some_or (query (Organization_find_by_uuid org_id)) "Can't find organization details";
  collection ← some_or (query (Collection_find_by_uuid_and_org col_id org_id))
                 "Collection not found";
  external_id ← gets (λ e _, match fcd_external_id data with
                             | Some x => if str_is_empty (e_trim e x) then None else Some x
                             | None => None
                             end);
  let collection := mkCollection (c_uuid collection) (c_org_uuid collection) (fcd_name data)
                      external_id in
  _ ← Collection_save collection;
  _ ← log_event CollectionUpdated (c_uuid collection) org_id (u_uuid (mh_user headers))
        (d_atype (mh_device headers)) (mh_ip headers);
  _ ← replace_access org_id col_id (fcd_groups data) (fcd_users data);
  mret collection.

(** src/src/api/core/organizations.rs: delete_organization_collection_impl *)
Definition delete_organization_collection_impl (org_id : OrganizationId) (col_id : CollectionId)
    (headers : ManagerHeaders) : Handler () :=
  _ ← err_if (org_id != mh_org_id headers) "Organization not found";
  collection ← some_or (query (Collection_find_by_uuid_and_org col_id org_id))
                 "Collection not found";
  _ ← log_event CollectionDeleted (c_uuid collection) org_id (u_uuid (mh_user headers))
        (d_atype (mh_device headers)) (mh_ip headers);
  Collection_delete collection.

(** src/src/api/core/organizations.rs: bulk_delete_organization_collections *)
Definition bulk_delete_organization_collections (org_id : OrganizationId)
    (ids : list CollectionId) (headers : ManagerHeadersLoose) : Handler () :=
  _ ← err_if (org_id != m_org_uuid (ml_membership headers)) "Organization not found";
  headers ← ManagerHeaders_from_loose headers ids;
  mfor ids (λ col_id, delete_organization_collection_impl org_id col_id headers).

(** ** Groups *)

(** src/src/db/models/group.rs:53-73: Group::new *)
Definition Group_new (organizations_uuid : OrganizationId) (name : string) (access_all : bool)
    (external_id : option string) : Handler Group :=
  t ← now;
  uuid ← get_uuid;
  trim ← gets (λ e _, e_trim e);
  mret (Group_set_external_id trim (mkGroup uuid organizations_uuid name access_all None t t)
          external_id).

(** src/src/api/core/organizations.rs: GroupRequest *)
Record GroupRequest := mkGroupRequest {
  gr_name : string;
  gr_access_all : bool;
  gr_external_id : option string;
  gr_collections : list CollectionData;
  gr_users : list MembershipId }.

(** src/src/api/core/organizations.rs: GroupRequest::to_group *)
Definition GroupRequest_to_group (r : GroupRequest) (org_uuid : OrganizationId) : Handler Group :=
  Group_new org_uuid (gr_name r) (gr_access_all r) (gr_external_id r).

(** src/src/api/core/organizations.rs: GroupRequest::update_group *)
Definition GroupRequest_update_group (r : GroupRequest) (group : Group) : Group :=
  group <| g_name := gr_name r |> <| g_access_all := gr_access_all r |>.

(** src/src/api/core/organizations.rs: GroupRequest::validate *)
Definition GroupRequest_validate (r : GroupRequest) (org_id : OrganizationId) : Handler () :=
  org_collections ← query (Collection_find_by_organization org_id);
  _ ← err_if (existsb (λ c, negb (existsb (λ x, c_uuid x == cd_id c) org_collections))
                (gr_collections r)) "Invalid collection";
  org_memberships ← query (Membership_find_by_org org_id);
  err_if (existsb (λ m, negb (existsb (λ x, m_uuid x == m) org_memberships)) (gr_users r))
    "Invalid member".

(** src/src/api/core/organizations.rs: CollectionData::to_collection_group *)
Definition CollectionData_to_collection_group (c : CollectionData) (groups_uuid : GroupId)
    : CollectionGroup :=
  mkCollectionGroup (cd_id c) groups_uuid (cd_read_only c) (cd_hide_passwords c) (cd_manage c).

(** src/src/api/core/organizations.rs:2624-2640: add_update_group *)
Definition add_group_members (group_id : GroupId) (members : list MembershipId)
    (org_id : OrganizationId) (headers : AdminHeaders) : Handler () :=
  mfor members (λ assigned_member,
    _ ← GroupUser_save (mkGroupUser group_id assigned_member);
    log_event OrganizationUserUpdatedGroups assigned_member org_id (u_uuid (ah_user headers))
      (d_atype (ah_device headers)) (ah_ip headers)).

(** src/src/api/core/organizations.rs: add_update_group *)
Definition add_update_group (group : Group) (collections : list CollectionData)
    (members : list MembershipId) (org_id : OrganizationId) (headers : AdminHeaders)
    : Handler Group :=
  group ← Group_save group;
  _ ← mfor collections (λ c,
        CollectionGroup_save (CollectionData_to_collection_group c (g_uuid group)) org_id);
  _ ← add_group_members (g_uuid group) members org_id headers;
  mret group.

(** What every group handler checks first. *)
(** src/src/api/core/organizations.rs:2544-2549: post_groups *)
Definition check_groups (org_id : OrganizationId) (headers : AdminHeaders) : Handler () :=
  _ ← err_if (org_id != ah_org_id headers) "Organization not found";
  enabled ← cfg org_groups_enabled;
  err_if (negb enabled) "Group support is disabled".

(** src/src/api/core/organizations.rs: post_groups *)
Definition post_groups (org_id : OrganizationId) (data : GroupRequest) (headers : AdminHeaders)
    : Handler Group :=
  _ ← check_groups org_id headers;
  _ ← GroupRequest_validate data org_id;
  group ← GroupRequest_to_group data org_id;
  _ ← log_event GroupCreated (g_uuid group) org_id (u_uuid (ah_user headers))
        (d_atype (ah_device headers)) (ah_ip headers);
  add_update_group group (gr_collections data) (gr_users data) org_id headers.

(** src/src/api/core/organizations.rs: put_group *)
Definition put_group (org_id : OrganizationId) (group_id : GroupId) (data : GroupRequest)
    (headers : AdminHeaders) : Handler Group :=
  _ ← check_groups org_id headers;
  group ← some_or (query (Group_find_by_uuid_and_org group_id org_id)) "Group not found";
  _ ← GroupRequest_validate data org_id;
  let updated_group := GroupRequest_update_group data group in
  _ ← CollectionGroup_delete_all_by_group group_id org_id;
  _ ← GroupUser_delete_all_by_group group_id org_id;
  _ ← log_event GroupUpdated (g_uuid updated_group) org_id (u_uuid (ah_user headers))
        (d_atype (ah_device headers)) (ah_ip headers);
  add_update_group updated_group (gr_collections data) (gr_users data) org_id headers.

(** src/src/api/core/organizations.rs: delete_group_impl *)
Definition delete_group_impl (org_id : OrganizationId) (group_id : GroupId)
    (headers : AdminHeaders) : Handler () :=
  _ ← check_groups org_id headers;
  group ← some_or (query (Group_find_by_uuid_and_org group_id org_id)) "Group not found";
  _ ← log_event GroupDeleted (g_uuid group) org_id (u_uuid (ah_user headers))
        (d_atype (ah_device headers)) (ah_ip headers);
  Group_delete group org_id.

(** src/src/api/core/organizations.rs: bulk_delete_groups *)
Definition bulk_delete_groups (org_id : OrganizationId) (ids : list GroupId)
    (headers : AdminHeaders) : Handler () :=
  _ ← check_groups org_id headers;
  mfor ids (λ group_id, delete_group_impl org_id group_id headers).

(** src/src/api/core/organizations.rs: get_group_members *)
Definition get_group_members (org_id : OrganizationId) (group_id : GroupId)
    (headers : AdminHeaders) : Handler (list MembershipId) :=
  _ ← check_groups org_id headers;
  _ ← some_or (query (Group_find_by_uuid_and_org group_id org_id)) "Group could not be found!";
  entries ← query (GroupUser_find_by_group group_id org_id);
  mret (map gu_users_organizations_uuid entries).

(** src/src/api/core/organizations.rs: put_group_members *)
Definition put_group_members (org_id : OrganizationId) (group_id : GroupId)
    (assigned_members : list MembershipId) (headers : AdminHeaders) : Handler () :=
  _ ← check_groups org_id headers;
  _ ← some_or (query (Group_find_by_uuid_and_org group_id org_id)) "Group could not be found!";
  org_memberships ← query (Membership_find_by_org org_id);
  _ ← err_if (existsb (λ m, negb (existsb (λ x, m_uuid x == m) org_memberships)) assigned_members)
        "Invalid member";
  _ ← GroupUser_delete_all_by_group group_id org_id;
  add_group_members group_id assigned_members org_id headers.

(** src/src/api/core/organizations.rs: post_delete_group_member *)
Definition post_delete_group_member (org_id : OrganizationId) (group_id : GroupId)
    (member_id : MembershipId) (headers : AdminHeaders) : Handler () :=
  _ ← check_groups org_id headers;
  _ ← some_or (query (Membership_find_by_uuid_and_org member_id org_id))
        "User could not be found or does not belong to the organization.";
  _ ← some_or (query (Group_find_by_uuid_and_org group_id org_id))
        "Group could not be found or does not belong to the organization.";
  _ ← log_event OrganizationUserUpdatedGroups member_id org_id (u_uuid (ah_user headers))
        (d_atype (ah_device headers)) (ah_ip headers);
  GroupUser_delete_by_group_and_member group_id member_id.

(** ** Imports and bulk assignments *)

(** src/src/api/core/organizations.rs: RelationsData *)
Record RelationsData := mkRelationsData {
  rl_key : nat;
  rl_value : nat }.

(** src/src/api/core/organizations.rs: ImportData *)
Record OrgImportData := mkOrgImportData {
  oid_ciphers : list CipherData;
  oid_collections : list FullCollectionData;
  oid_collection_relationships : list RelationsData }.

(** One collection of the import: an existing one, or a new one. *)
(** src/src/api/core/organizations.rs:1806-1828: post_org_import *)
Definition import_collection (org_id : OrganizationId) (membership : Membership)
    (existing : list CollectionId) (col : FullCollectionData) : Handler CollectionId :=
  match fcd_id col with
  | Some col_id =>
    if existsb (String.eqb col_id) existing then
      access ← gets (λ e w, Collection_can_access_collection (e_cfg e) membership col_id (w_db w));
      _ ← err_if (i32_lt (m_atype membership) Admin && negb access)
            "The current user isn't allowed to manage this collection";
      mret col_id
    else
      _ ← err_if (i32_le (m_atype membership) Manager && negb (Membership_has_full_access membership))
            "The current user isn't allowed to create new collections";
      new_collection ← Collection_new org_id (fcd_name col) (fcd_external_id col);
      _ ← Collection_save new_collection;
      mret (c_uuid new_collection)
  | None =>
    _ ← err_if (i32_le (m_atype membership) Manager && negb (Membership_has_full_access membership))
          "The current user isn't allowed to create new collections";
    new_collection ← Collection_new org_id (fcd_name col) (fcd_external_id col);
    _ ← Collection_save new_collection;
    mret (c_uuid new_collection)
  end.

(** src/src/api/core/organizations.rs: post_org_import *)
Definition post_org_import (org_id : OrganizationId) (data : OrgImportData)
    (headers : OrgMemberHeaders) : Handler () :=
  let membership := om_membership headers in
  _ ← err_if (org_id != m_org_uuid membership) "Organization not found";
  _ ← Cipher_validate_cipher_data (oid_ciphers data);
  existing ← query (λ db, map c_uuid (Collection_find_by_organization org_id db));
  collections ← mfold (oid_collections data) [] (λ acc col,
    id ← import_collection org_id membership existing col; mret (acc ++ [id]));
  let headers := mkHeaders (om_host headers) (om_device headers) (om_user headers) (om_ip headers) in
  ciphers ← mfold (oid_ciphers data) [] (λ acc cipher_data,
    let cipher_data := cipher_data <| cp_folder_id := None |> in
    cipher ← Cipher_new (cp_type cipher_data) (cp_name cipher_data);
    _ ← ignore (update_cipher_from_data cipher cipher_data headers (Some collections) UpdateNone);
    mret (acc ++ [ci_uuid cipher]));
  _ ← mfor (oid_collection_relationships data) (λ r,
    cipher_id ← unwrap ((ciphers : list CipherId) !! rl_key r) "index out of bounds";
    col_id ← unwrap ((collections : list CollectionId) !! rl_value r) "index out of bounds";
    CollectionCipher_save cipher_id col_id);
  _ ← User_update_revision (h_user headers);
  mret ().

(** src/src/api/core/organizations.rs: BulkCollectionsData *)
Record BulkCollectionsData := mkBulkCollectionsData {
  bcd_organization_id : OrganizationId;
  bcd_cipher_ids : list CipherId;
  bcd_collection_ids : list CollectionId;
  bcd_remove_collections : bool }.

(** [collection_ids] is a [HashSet]. *)
(** src/src/api/core/organizations.rs: post_bulk_collections *)
Definition post_bulk_collections (data : BulkCollectionsData) (headers : Headers) : Handler () :=
  let user_id := u_uuid (h_user headers) in
  let org_id := bcd_organization_id data in
  _ ← some_or (query (Membership_find_confirmed_by_user_and_org user_id org_id))
        "You need to be a Member of the Organization to call this endpoint";
  collection_ids ← gets (λ e _, e_hash_order e (remove_dups (bcd_collection_ids data)));
  user_collections ← gets (λ e w, collect_map (map (λ c, (c_uuid c, c))
    (List.filter (λ c, existsb (String.eqb (c_uuid c)) collection_ids)
       (Collection_find_by_organization_and_user_uuid (e_cfg e) org_id user_id (w_db w)))));
  _ ← mfor collection_ids (λ collection_uuid,
    ok ← gets (λ e w, on_row ((user_collections : gmap string Collection) !! collection_uuid)
                        (λ c, Collection_is_writable_by_user (e_cfg e) c user_id (w_db w)));
    err_if (negb ok) "Resource not found");
  mfor (bcd_cipher_ids data) (λ cipher_id,
    oc ← query (Cipher_find_by_uuid_and_org cipher_id org_id);
    match (oc : option Cipher) with
    | Some cipher =>
      ok ← gets (λ e w, Cipher_is_write_accessible_to_user (e_cfg e) cipher user_id (w_db w));
      if (ok : bool) then
        mfor collection_ids (λ collection,
          if bcd_remove_collections data then CollectionCipher_delete (ci_uuid cipher) collection
          else CollectionCipher_save (ci_uuid cipher) collection)
      else mret ()
    | None => mret ()
    end).

(** ** Keys and account recovery *)

(** src/src/api/core/organizations.rs: post_org_keys *)
Definition post_org_keys (org_id : OrganizationId) (data : OrgKeyData) (headers : AdminHeaders)
    : Handler Organization :=
  _ ← err_if (org_id != ah_org_id headers) "Organization not found";
  org ← some_or (query (Organization_find_by_uuid org_id)) "Can't find organization details";
  _ ← err_if (is_some (o_private_key org) && is_some (o_public_key org))
        "Organization Keys already exist";
  let org := org <| o_private_key := Some (ok_encrypted_private_key data) |>
                 <| o_public_key := Some (ok_public_key data) |> in
  _ ← Organization_save org;
  mret org.

(** src/src/api/core/organizations.rs: check_reset_password_applicable *)
Definition check_reset_password_applicable (org_id : OrganizationId) : Handler () :=
  mail_on ← cfg mail_enabled;
  _ ← err_if (negb mail_on) "Password reset is not supported on an email-disabled instance.";
  policy ← some_or (query (OrgPolicy_find_by_org_and_type org_id ResetPassword)) "Policy not found";
  err_if (negb (p_enabled policy)) "Reset password policy not enabled".

(** src/src/api/core/organizations.rs: check_reset_password_applicable_and_permissions *)
Definition check_reset_password_applicable_and_permissions (org_id : OrganizationId)
    (member_id : MembershipId) (headers : AdminHeaders) : Handler () :=
  _ ← check_reset_password_applicable org_id;
  target_user ← some_or (query (Membership_find_by_uuid_and_org member_id org_id))
                  "Reset target user not found";
  match ah_membership_type headers with
  | Owner => mret ()
  | Admin => err_if (negb (i32_le (m_atype target_user) Admin))
               "No permission to reset this user's password"
  | _ => err "No permission to reset this user's password"
  end.

(** src/src/api/core/organizations.rs: OrganizationUserResetPasswordRequest *)
Record OrganizationUserResetPasswordRequest := mkOrganizationUserResetPasswordRequest {
  rpr_new_master_password_hash : string;
  rpr_key : string }.

(** src/src/api/core/organizations.rs: put_reset_password *)
Definition put_reset_password (org_id : OrganizationId) (member_id : MembershipId)
    (reset_request : OrganizationUserResetPasswordRequest) (headers : AdminHeaders) : Handler () :=
  _ ← err_if (org_id != ah_org_id headers) "Organization not found";
  org ← some_or (query (Organization_find_by_uuid org_id)) "Required organization not found";
  member ← some_or (query (Membership_find_by_uuid_and_org member_id (o_uuid org)))
             "User to reset isn't member of required organization";
  user ← some_or (query (User_find_by_uuid (m_user_uuid member))) "User not found";
  _ ← check_reset_password_applicable_and_permissions org_id member_id headers;
  _ ← err_if (is_none (m_reset_password_key member))
        "Password reset not or not correctly enrolled";
  _ ← err_if (negb (member is Confirmed))
        "Organization user must be confirmed for password reset functionality";
  r ← try_ (send_mail (send_admin_reset_password (u_email user) (User_display_name user) (o_name org)));
  _ ← match (r : string + ()) with
      | inr _ => mret ()
      | inl x => err ("Error sending user reset password email: " +:+ x)
      end;
  user ← User_set_password user (rpr_new_master_password_hash reset_request)
           (Some (rpr_key reset_request)) true None;
  user ← User_save user;
  _ ← send_logout user;
  log_event OrganizationUserAdminResetPassword member_id org_id (u_uuid (ah_user headers))
    (d_atype (ah_device headers)) (ah_ip headers).

(** src/src/api/core/organizations.rs: get_reset_password_details *)
Definition get_reset_password_details (org_id : OrganizationId) (member_id : MembershipId)
    (headers : AdminHeaders) : Handler (Organization * Membership * User) :=
  _ ← err_if (org_id != ah_org_id headers) "Organization not found";
  org ← some_or (query (Organization_find_by_uuid org_id)) "Required organization not found";
  member ← some_or (query (Membership_find_by_uuid_and_org member_id org_id))
             "User to reset isn't member of required organization";
  user ← some_or (query (User_find_by_uuid (m_user_uuid member))) "User not found";
  _ ← check_reset_password_applicable_and_permissions org_id member_id headers;
  mret (org, member, user).

(** src/src/api/core/organizations.rs: OrganizationUserResetPasswordEnrollmentRequest *)
Record ResetPasswordEnrollmentRequest := mkResetPasswordEnrollmentRequest {
  rpe_reset_password_key : option string;
  rpe_master_password_hash : option string;
  rpe_otp : option string }.

(** src/src/api/core/organizations.rs: put_reset_password_enrollment *)
Definition put_reset_password_enrollment (org_id : OrganizationId) (user_id : UserId)
    (reset_request : ResetPasswordEnrollmentRequest) (headers : OrgMemberHeaders) : Handler () :=
  _ ← err_if (user_id != u_uuid (om_user headers))
        "User to enroll isn't member of required organization";
  _ ← check_reset_password_applicable org_id;
  let reset_password_key := match rpe_reset_password_key reset_request with
                            | Some key => if str_is_empty key then None else Some key
                            | None => None
                            end in
  auto_enroll ← OrgPolicy_org_is_reset_password_auto_enroll org_id;
  _ ← err_if (is_none reset_password_key && auto_enroll)
        "Reset password can't be withdrawn due to an enterprise policy";
  _ ← (if is_some reset_password_key then
         PasswordOrOtpData_validate (mkPasswordOrOtpData (rpe_master_password_hash reset_request)
                                       (rpe_otp reset_request)) (om_user headers) true
       else mret ());
  let membership := (om_membership headers) <| m_reset_password_key := reset_password_key |> in
  _ ← Membership_save membership;
  log_event (if is_some reset_password_key then OrganizationUserResetPasswordEnroll
             else OrganizationUserResetPasswordWithdraw)
    (m_uuid membership) org_id (u_uuid (om_user headers)) (d_atype (om_device headers))
    (om_ip headers).

(** [generate_api_key()] draws random bytes; a failing save panics. *)
(** src/src/api/core/organizations.rs: api_key *)
Definition org_api_key (org_id : OrganizationId) (data : PasswordOrOtpData) (rotate : bool)
    (headers : AdminHeaders) : Handler OrganizationApiKey :=
  _ ← err_if (org_id != ah_org_id headers) "Organization not found";
  _ ← PasswordOrOtpData_validate data (ah_user headers) true;
  okey ← query (OrganizationApiKey_find_by_org_uuid org_id);
  match (okey : option OrganizationApiKey) with
  | Some key =>
    if rotate then
      api_key ← get_random;
      t ← now;
      let key := mkOrganizationApiKey (ak_uuid key) (ak_org_uuid key) (ak_atype key) api_key t in
      _ ← OrganizationApiKey_save key;
      mret key
    else mret key
  | None =>
    api_key ← get_random;
    key ← OrganizationApiKey_new org_id api_key;
    _ ← OrganizationApiKey_save key;
    mret key
  end.
