(* ===== verification/Public.v ===== *)
(** The directory import of src/src/api/core/public.rs: an external directory
    service keeps the members and the groups of an organization up to date, with
    the organization's API key. *)
From S2P Require Import Prelude Table Schema Roles Users Memberships Groups Collections Policies.
From S2P Require Import Vault Ciphers Util Settings Devices Events Auth Sends Emergency Accounts.
From S2P Require Import Orgs TwoFactors Login OrgCollections.

(** src/src/api/core/public.rs: OrgImportGroupData *)
Record OrgImportGroupData := mkOrgImportGroupData {
  ig_name : string;
  ig_external_id : string;
  ig_member_external_ids : list string }.

(** src/src/api/core/public.rs: OrgImportUserData *)
Record OrgImportUserData := mkOrgImportUserData {
  iu_email : string;
  iu_external_id : string;
  iu_deleted : bool }.

(** src/src/api/core/public.rs: OrgImportData *)
Record DirectoryData := mkDirectoryData {
  dd_groups : list OrgImportGroupData;
  dd_members : list OrgImportUserData;
  dd_overwrite_existing : bool }.

(** src/src/api/core/public.rs: impl FromRequest for PublicToken *)
Definition PublicToken_from_request (rq : Request) : Handler OrganizationId :=
  match rq_authorization rq with
  | None => err "No access token provided"
  | Some a =>
    claims ← some_or (gets (λ e _, e_decode_api_org e (rsplit_next "Bearer " a))) "Invalid claim";
    t ← now;
    _ ← err_if (t <? oc_nbf claims)%Z "Token issued in the future";
    _ ← err_if (oc_exp claims <? t)%Z "Token expired";
    scope ← unwrap (head (oc_scope claims)) "index out of bounds";
    origin ← cfg domain_origin;
    _ ← err_if (origin +:+ "|" +:+ scope != oc_iss claims) "Token not issued by this server";
    match strip_prefix "organization." (oc_client_id claims) with
    | None => err "Malformed client_id"
    | Some org_id =>
      org_api_key ← some_or (query (OrganizationApiKey_find_by_org_uuid org_id)) "Invalid client_id";
      _ ← err_if (ak_org_uuid org_api_key != oc_client_sub claims) "Token not issued for this org";
      _ ← err_if (ak_uuid org_api_key != oc_sub claims) "Token not issued for this client";
      mret (oc_client_sub claims)
    end
  end.

(** A member the directory marks as deleted is revoked, unless it is the last
    confirmed owner. *)
(** src/src/api/core/public.rs:63-84: ldap_import *)
Definition import_deleted (org_id : OrganizationId) (user_data : OrgImportUserData) : Handler () :=
  om ← Membership_find_by_email_and_org (iu_email user_data) org_id;
  match (om : option Membership) with
  | None => mret ()
  | Some member =>
    n ← query (Membership_count_confirmed_by_org_and_type org_id Owner);
    let '(member, revoked) :=
      if i32_eq (m_atype member) Owner && (member is Confirmed) then
        if (n <=? 1)%Z then (member, false) else Membership_revoke member
      else Membership_revoke member in
    let '(member, ext_modified) := Membership_set_external_id member (Some (iu_external_id user_data)) in
    if revoked || ext_modified then Membership_save member else mret ()
  end.

(** The account of the address, created when there is none. *)
(** src/src/api/core/public.rs:94-106: ldap_import *)
Definition import_account (email : string) : Handler (User * bool) :=
  ou ← User_find_by_mail email;
  match (ou : option User) with
  | Some user => mret (user, false)
  | None =>
    new_user ← User_new email None;
    new_user ← User_save new_user;
    mail_on ← cfg mail_enabled;
    _ ← (if (mail_on : bool) then mret ()
         else i ← Invitation_new (u_email new_user); Invitation_save i);
    mret (new_user, true)
  end.

(** src/src/api/core/public.rs:93-140: ldap_import *)
Definition import_new_member (org_id : OrganizationId) (user_data : OrgImportUserData) : Handler () :=
  uc ← import_account (iu_email user_data);
  let '(user, user_created) := (uc : User * bool) in
  mail_on ← cfg mail_enabled;
  let member_status := if (mail_on : bool) || str_is_empty (u_password_hash user)
                       then MembershipStatus_as_i32 Invited else MembershipStatus_as_i32 Accepted in
  org ← some_or (query (Organization_find_by_uuid org_id)) "Error looking up organization";
  new_member ← Membership_new (u_uuid user) org_id (Some (o_billing_email org));
  let '(new_member, _) := Membership_set_external_id new_member (Some (iu_external_id user_data)) in
  let new_member := new_member <| m_access_all := false |>
                               <| m_atype := MembershipType_as_i32 MUser |>
                               <| m_status := member_status |> in
  _ ← Membership_save new_member;
  if (mail_on : bool) then
    r ← try_ (send_mail (send_invite (u_uuid user) (u_email user) org_id (m_uuid new_member)
                           (o_name org) (Some (o_billing_email org))));
    match (r : string + ()) with
    | inr _ => mret ()
    | inl x =>
      _ ← (if (user_created : bool) then User_delete user else Membership_delete new_member);
      err ("Error sending invite: " +:+ x +:+ " ")
    end
  else mret ().

(** src/src/api/core/public.rs:61-141: ldap_import *)
Definition import_member (org_id : OrganizationId) (user_data : OrgImportUserData) : Handler () :=
  if iu_deleted user_data then import_deleted org_id user_data
  else
    om ← Membership_find_by_email_and_org (iu_email user_data) org_id;
    match (om : option Membership) with
    | Some member =>
      let '(member, restored) := Membership_restore member in
      let '(member, ext_modified) :=
        Membership_set_external_id member (Some (iu_external_id user_data)) in
      if restored || ext_modified then Membership_save member else mret ()
    | None => import_new_member org_id user_data
    end.

(** src/src/api/core/public.rs:144-164: ldap_import *)
Definition import_group (org_id : OrganizationId) (group_data : OrgImportGroupData) : Handler () :=
  og ← query (Group_find_by_external_id_and_org (ig_external_id group_data) org_id);
  group_uuid ← match (og : option Group) with
               | Some group => mret (g_uuid group)
               | None =>
                 group ← Group_new org_id (ig_name group_data) false (Some (ig_external_id group_data));
                 group ← Group_save group;
                 mret (g_uuid group)
               end;
  _ ← GroupUser_delete_all_by_group group_uuid org_id;
  mfor (ig_member_external_ids group_data) (λ ext_id,
    om ← query (Membership_find_by_external_id_and_org ext_id org_id);
    match (om : option Membership) with
    | Some member => GroupUser_save (mkGroupUser group_uuid (m_uuid member))
    | None => mret ()
    end).

(** A member the directory no longer lists is removed, the last confirmed owner
    excepted. *)
(** src/src/api/core/public.rs:170-187: ldap_import *)
Definition import_remove_unlisted (org_id : OrganizationId) (listed : list string) : Handler () :=
  ms ← query (Membership_find_by_org org_id);
  mfor ms (λ member,
    match m_external_id member with
    | Some user_external_id =>
      if existsb (String.eqb user_external_id) listed then mret ()
      else
        n ← query (Membership_count_confirmed_by_org_and_type org_id Owner);
        if i32_eq (m_atype member) Owner && (member is Confirmed) && (n <=? 1)%Z then mret ()
        else Membership_delete member
    | None => mret ()
    end).

(** src/src/api/core/public.rs: ldap_import *)
Definition ldap_import (data : DirectoryData) (org_id : OrganizationId) : Handler () :=
  _ ← mfor (dd_members data) (import_member org_id);
  groups ← cfg org_groups_enabled;
  _ ← (if (groups : bool) then mfor (dd_groups data) (import_group org_id) else mret ());
  if dd_overwrite_existing data
  then import_remove_unlisted org_id (map iu_external_id (dd_members data))
  else mret ().
