(* ===== verification/Admin.v ===== *)
(** The admin panel of src/src/api/admin.rs: the operations on accounts and
    organizations, behind the admin token. *)
From S2P Require Import Prelude Table Schema Roles Users Memberships Groups Collections Policies.
From S2P Require Import Vault Ciphers Util Settings Devices Events Auth Sends Emergency Accounts.
From S2P Require Import Orgs TwoFactors AccountOps.

(** src/src/api/admin.rs: ACTING_ADMIN_USER *)
Definition ACTING_ADMIN_USER : string := "vaultwarden-admin-00000-000000000000".

(** The address of the caller, when the session cookie is valid or the token is
    switched off. *)
(** src/src/api/admin.rs: impl FromRequest for AdminToken *)
Definition AdminToken_from_request (cookie : option string) (ip : string) : Handler string :=
  disabled ← cfg disable_admin_token;
  if (disabled : bool) then mret ip
  else match cookie with
       | None => err "Unauthorized"
       | Some access_token =>
         ok ← gets (λ e _, e_decode_admin e access_token);
         _ ← err_if (negb ok) "Session expired";
         mret ip
       end.

(** src/src/api/admin.rs: get_user_or_404 *)
Definition get_user_or_404 (user_id : UserId) : Handler User :=
  some_or (query (User_find_by_uuid user_id)) "User doesn't exist".

(** The organization an invitation of the panel is for. *)
(** src/src/api/admin.rs:311-316: invite_user *)
Definition invitation_org : Handler OrganizationId :=
  sso ← cfg sso_enabled;
  mret (if (sso : bool) then FAKE_SSO_IDENTIFIER else FAKE_ADMIN_UUID).

(** src/src/api/admin.rs:309-322: generate_invite *)
Definition generate_invite (user : User) : Handler () :=
  mail_on ← cfg mail_enabled;
  if (mail_on : bool) then
    org_id ← invitation_org;
    org_name ← cfg invitation_org_name;
    send_mail (send_invite (u_uuid user) (u_email user) org_id FAKE_ADMIN_UUID org_name None)
  else
    invitation ← Invitation_new (u_email user);
    Invitation_save invitation.

(** src/src/api/admin.rs: invite_user *)
Definition admin_invite_user (email : string) : Handler User :=
  ou ← User_find_by_mail email;
  _ ← err_if (is_some (ou : option User)) "User already exists";
  user ← User_new email None;
  _ ← generate_invite user;
  User_save user.

(** An event of the panel in the name of no user. *)
Definition log_admin_event (event_type : EventType) (member : Membership) (ip : string) : Handler () :=
  log_event event_type (m_uuid member) (m_org_uuid member) ACTING_ADMIN_USER 14 ip.

(** src/src/api/admin.rs: delete_user *)
Definition admin_delete_user (user_id : UserId) (ip : string) : Handler () :=
  user ← get_user_or_404 user_id;
  memberships ← query (Membership_find_any_state_by_user user_id);
  res ← try_ (User_delete user);
  _ ← mfor memberships (λ m, log_admin_event OrganizationUserDeleted m ip);
  match (res : string + ()) with inr _ => mret () | inl x => err x end.

(** src/src/api/admin.rs: deauth_user *)
Definition deauth_user (user_id : UserId) : Handler () :=
  user ← get_user_or_404 user_id;
  _ ← send_logout user;
  push ← cfg push_enabled;
  _ ← (if (push : bool) then
         devices ← query (Device_find_push_devices_by_user (u_uuid user));
         mfor devices (λ device, ignore (unregister_push_device (d_push_uuid device)))
       else mret ());
  _ ← Device_delete_all_by_user (u_uuid user);
  user ← User_reset_security_stamp user;
  _ ← User_save user;
  mret ().

(** src/src/api/admin.rs: disable_user *)
Definition disable_user (user_id : UserId) : Handler () :=
  user ← get_user_or_404 user_id;
  user ← User_reset_security_stamp user;
  let user := user <| u_enabled := false |> in
  save_result ← try_ (User_save user);
  _ ← send_logout user;
  _ ← Device_delete_all_by_user (u_uuid user);
  match (save_result : string + User) with inr _ => mret () | inl x => err x end.

(** src/src/api/admin.rs: enable_user *)
Definition enable_user (user_id : UserId) : Handler () :=
  user ← get_user_or_404 user_id;
  _ ← User_save (user <| u_enabled := true |>);
  mret ().

(** src/src/api/admin.rs: remove_2fa *)
Definition remove_2fa (user_id : UserId) (ip : string) : Handler () :=
  user ← get_user_or_404 user_id;
  _ ← TwoFactor_delete_all_by_user (u_uuid user);
  _ ← enforce_2fa_policy user ACTING_ADMIN_USER 14 ip;
  _ ← User_save (user <| u_totp_recover := None |>);
  mret ().

(** src/src/api/admin.rs: resend_user_invite *)
Definition resend_user_invite (user_id : UserId) : Handler () :=
  user ← some_or (query (User_find_by_uuid user_id)) "User doesn't exist";
  _ ← err_if (negb (str_is_empty (u_password_hash user))) "User already accepted invitation";
  mail_on ← cfg mail_enabled;
  if (mail_on : bool) then
    org_id ← invitation_org;
    org_name ← cfg invitation_org_name;
    send_mail (send_invite (u_uuid user) (u_email user) org_id FAKE_ADMIN_UUID org_name None)
  else mret ().

(** src/src/api/admin.rs: MembershipTypeData *)
Record MembershipTypeData := mkMembershipTypeData {
  mtd_user_type : NumberOrString;
  mtd_user_uuid : UserId;
  mtd_org_uuid : OrganizationId }.

(** src/src/api/admin.rs: update_membership_type *)
Definition update_membership_type (data : MembershipTypeData) (ip : string) : Handler () :=
  member_to_edit ← some_or (query (Membership_find_by_user_and_org (mtd_user_uuid data) (mtd_org_uuid data)))
                     "The specified user isn't member of the organization";
  match MembershipType_from_str (into_string (mtd_user_type data)) with
  | None => err "Invalid type"
  | Some new_type =>
    n ← query (Membership_count_confirmed_by_org_and_type (mtd_org_uuid data) Owner);
    _ ← err_if (i32_eq (m_atype member_to_edit) Owner &&
                negb (i32_eq (MembershipType_as_i32 new_type) Owner) && (n <=? 1)%Z)
          "Can't change the type of the last owner";
    let member_to_edit := member_to_edit <| m_atype := MembershipType_as_i32 new_type |> in
    _ ← OrgPolicy_check_user_allowed member_to_edit "modify";
    _ ← log_event OrganizationUserUpdated (m_uuid member_to_edit) (mtd_org_uuid data)
          ACTING_ADMIN_USER 14 ip;
    Membership_save member_to_edit
  end.

(** src/src/db/models/user.rs: User::update_all_revisions *)
Definition User_update_all_revisions : Handler () :=
  t ← now;
  write (λ d, d <| users := map (λ u, u <| u_updated_at := t |>) (users d) |>).

(** src/src/api/admin.rs: update_revision_users *)
Definition update_revision_users : Handler () := User_update_all_revisions.

(** src/src/api/admin.rs: delete_organization *)
Definition admin_delete_organization (org_id : OrganizationId) : Handler () :=
  org ← some_or (query (Organization_find_by_uuid org_id)) "Organization doesn't exist";
  Organization_delete org.
