(* ===== verification/OrgInv.v ===== *)
(** The invariant of organizations and memberships, and the two ways a handler
    may change a membership without breaking it.

    An organization always has a confirmed owner; a user has at most one
    membership per organization; membership ids are unique; statuses and types
    are the ones the enums define; ids that [get_uuid] has not drawn yet are in
    use nowhere. *)
From S2P Require Import Prelude Table Schema Roles Users Memberships Groups Collections Events.
From S2P Require Import Policies Vault Ciphers Util Settings Devices Auth Sends Emergency Accounts.
From S2P Require Import Orgs.

Abbreviation ms w := (users_organizations (w_db w)).

Definition is_confirmed_owner (org : OrganizationId) (m : Membership) : bool :=
  (m_org_uuid m == org) && i32_eq (m_atype m) Owner && (m is Confirmed).

Definition has_owner (org : OrganizationId) (t : list Membership) : Prop :=
  ∃ m, m ∈ t ∧ is_confirmed_owner org m = true.

Definition user_org (m : Membership) : string * string := (m_user_uuid m, m_org_uuid m).

(** The ids [get_uuid] will draw are not in [s]. *)
Definition unused (uuid : nat → string) (w : World) (s : string) : Prop :=
  ∀ n, w_draws w ≤ n → uuid n ≠ s.

Record org_inv (uuid : nat → string) (w : World) : Prop := {
  inv_pk : pk_unique (ms w);
  inv_user_org : NoDup (map user_org (ms w));
  inv_status : ∀ m, m ∈ ms w → valid_status (m_status m);
  inv_type : ∀ m, m ∈ ms w → valid_type (m_atype m);
  inv_member_ids : ∀ m, m ∈ ms w →
    unused uuid w (m_uuid m) ∧ unused uuid w (m_user_uuid m) ∧ unused uuid w (m_org_uuid m);
  inv_user_ids : ∀ u, u ∈ users (w_db w) → unused uuid w (u_uuid u);
  inv_owner : ∀ o, o ∈ organizations (w_db w) → has_owner (o_uuid o) (ms w) }.

(** ** What the other operations leave alone *)

(** Memberships and organizations unchanged, no new user id, ids only drawn. *)
Definition org_frame (e : Env) (w w' : World) : Prop :=
  ms w' = ms w ∧ organizations (w_db w') = organizations (w_db w) ∧
  map u_uuid (users (w_db w')) ⊆ map u_uuid (users (w_db w)) ∧
  w_draws w ≤ w_draws w'.

#[export] Instance org_frame_preorder e : PreOrder (org_frame e).
Proof.
  split.
  - intros w. split_and!; [done|done|done|lia].
  - intros w1 w2 w3 (H1&H2&H3&H4) (K1&K2&K3&K4). split_and!; [congruence..| |lia].
    by etransitivity.
Qed.

Lemma frame_get_uuid : m_rel org_frame get_uuid.
Proof. intros e w. split_and!; simpl; [done..|lia]. Qed.

Lemma frame_get_random : m_rel org_frame get_random.
Proof. intros e w. split_and!; simpl; [done..|lia]. Qed.

Lemma frame_emit x : m_rel org_frame (emit x).
Proof. intros e w. split_and!; simpl; [done..|lia]. Qed.

Lemma frame_send_mail m : m_rel org_frame (send_mail m).
Proof.
  intros e w. unfold send_mail. destruct (e_smtp e m); split_and!; simpl; try done; lia.
Qed.

Lemma frame_write (f : Db → Db) :
  (∀ d, users_organizations (f d) = users_organizations d) →
  (∀ d, organizations (f d) = organizations d) →
  (∀ d, users (f d) = users d) →
  m_rel org_frame (write f).
Proof. intros H1 H2 H3 e w. split_and!; simpl; [done|done| |lia]. by rewrite H3. Qed.

Lemma frame_user_revision uuid date : m_rel org_frame (User_update_revision_impl uuid date).
Proof.
  intros e w. split_and!; simpl; [done|done| |lia].
  by rewrite update_where_fmap.
Qed.

#[export] Hint Resolve frame_get_uuid frame_get_random frame_emit frame_send_mail
  frame_user_revision : mrel.
#[export] Hint Extern 2 (m_rel org_frame (modify_part _ _ _)) =>
  apply frame_write; intros; reflexivity : mrel.

Lemma frame_log_event t s o a d i : m_rel org_frame (log_event t s o a d i).
Proof. mrel. Qed.

Lemma frame_check_user_allowed m a : m_rel org_frame (OrgPolicy_check_user_allowed m a).
Proof. mrel. Qed.

Lemma frame_send_user_update t u : m_rel org_frame (send_user_update t u).
Proof. mrel. Qed.

Lemma frame_Invitation_take a : m_rel org_frame (Invitation_take a).
Proof. mrel. Qed.

Lemma frame_Invitation_save a : m_rel org_frame (Invitation_save a).
Proof. mrel. Qed.

Lemma frame_assign_collections o u l : m_rel org_frame (assign_collections o u l).
Proof. mrel. Qed.

Lemma frame_Collection_save c : m_rel org_frame (Collection_save c).
Proof. mrel. Qed.

Lemma frame_CollectionUser_delete c : m_rel org_frame (CollectionUser_delete c).
Proof. mrel. Qed.

Lemma frame_GroupUser_save g : m_rel org_frame (GroupUser_save g).
Proof. mrel. Qed.

Lemma frame_GroupUser_delete_all_by_member m : m_rel org_frame (GroupUser_delete_all_by_member m).
Proof. mrel. Qed.

Lemma frame_Invitation_new a : m_rel org_frame (Invitation_new a).
Proof. mrel. Qed.

Lemma frame_auto_enroll o : m_rel org_frame (OrgPolicy_org_is_reset_password_auto_enroll o).
Proof. mrel. Qed.

Lemma frame_for_CollectionUser_delete l : m_rel org_frame (mfor l CollectionUser_delete).
Proof. mrel. Qed.

Lemma frame_for_GroupUser_save {A} (l : list A) f :
  m_rel org_frame (mfor l (λ x, GroupUser_save (f x))).
Proof. mrel. Qed.

Lemma frame_User_find_by_mail a : m_rel org_frame (User_find_by_mail a).
Proof. mrel. Qed.

#[export] Hint Resolve frame_Invitation_new frame_auto_enroll frame_for_CollectionUser_delete
  frame_for_GroupUser_save frame_User_find_by_mail frame_log_event frame_check_user_allowed frame_send_user_update
  frame_Invitation_take frame_Invitation_save frame_assign_collections frame_Collection_save
  frame_CollectionUser_delete frame_GroupUser_save frame_GroupUser_delete_all_by_member : mrel.

(** ** Preservation *)

Lemma unused_frame uuid e w w' s : org_frame e w w' → unused uuid w s → unused uuid w' s.
Proof. intros (_&_&_&Hd) Hs n Hn. apply Hs. lia. Qed.

Lemma inv_frame uuid e w w' : org_frame e w w' → org_inv uuid w → org_inv uuid w'.
Proof.
  intros Hf [H1 H2 H3 H4 H5 H6 H7]. pose proof Hf as (Em & Eo & Eu & Hd).
  split; rewrite ?Em, ?Eo; try done.
  - intros m Hm. destruct (H5 m Hm) as (?&?&?). split_and!; by eapply unused_frame.
  - intros u Hu. eapply unused_frame; [done|].
    assert (u_uuid u ∈ map u_uuid (users (w_db w))) as (u0 & Hu0 & ->)%elem_of_map.
    { apply Eu, elem_of_map. eauto. }
    by apply H6.
Qed.

Section preserve.
Context (uuid : nat → string).
Implicit Types (w : World) (m : Membership).

(** A membership table [t] in place of the current one. *)
Definition with_ms (t : list Membership) (w : World) : World :=
  put_db ((w_db w) <| users_organizations := t |>) w.

(** Saving a changed row over [m0]: same ids, and if [m0] was a confirmed owner
    then so is [m], or another one is there. *)
Lemma inv_update w m0 m :
  org_inv uuid w → m0 ∈ ms w → m_uuid m = m_uuid m0 → user_org m = user_org m0 →
  valid_status (m_status m) → valid_type (m_atype m) →
  (is_confirmed_owner (m_org_uuid m0) m0 = true →
     is_confirmed_owner (m_org_uuid m0) m = true ∨
     ∃ x, x ∈ ms w ∧ is_confirmed_owner (m_org_uuid m0) x = true ∧ m_uuid x ≠ m_uuid m0) →
  org_inv uuid (with_ms (upsert m (ms w)) w).
Proof.
  intros [H1 H2 H3 H4 H5 H6 H7] Hm0 Eid Euo Hs Ht Ho. split; simpl.
  - by apply pk_unique_upsert.
  - apply NoDup_map_upsert; [done|]. intros y Hy E. unfold pk, Membership_pk.
    rewrite Eid. f_equal. eapply NoDup_map_inj; [exact H2|done|done|congruence].
  - intros x [->|[? _]]%elem_of_upsert; auto.
  - intros x [->|[? _]]%elem_of_upsert; auto.
  - intros x [->|[? _]]%elem_of_upsert; [|by apply H5].
    injection Euo as -> ->. rewrite Eid. by apply H5.
  - done.
  - intros o Hor. destruct (H7 o Hor) as (y & Hy & Hyo).
    assert (∀ x, x ∈ ms w → is_confirmed_owner (o_uuid o) x = true → m_uuid x ≠ m_uuid m0 →
                 has_owner (o_uuid o) (upsert m (ms w))) as Hother.
    { intros x Hx Hxo Hne. exists x. split; [|done]. apply elem_of_upsert. right.
      split; [done|]. unfold pk, Membership_pk. congruence. }
    destruct (decide (m_uuid y = m_uuid m0)) as [E|]; [|by eapply Hother].
    assert (y = m0) as -> by (by eapply (pk_unique_inj (ms w))).
    assert (m_org_uuid m0 = o_uuid o) as Eorg.
    { unfold is_confirmed_owner in Hyo. bprop. naive_solver. }
    rewrite Eorg in Ho. destruct (Ho Hyo) as [Hm | (x & Hx & Hxo & Hne)]; [|by eapply Hother].
    exists m. split; [|done]. apply elem_of_upsert. by left.
Qed.

(** Adding a membership with a new id for a new (user, organization) pair. *)
Lemma inv_insert w m :
  org_inv uuid w →
  (∀ x, x ∈ ms w → m_uuid x ≠ m_uuid m ∧ user_org x ≠ user_org m) →
  valid_status (m_status m) → valid_type (m_atype m) →
  unused uuid w (m_uuid m) → unused uuid w (m_user_uuid m) → unused uuid w (m_org_uuid m) →
  org_inv uuid (with_ms (upsert m (ms w)) w).
Proof.
  intros [H1 H2 H3 H4 H5 H6 H7] Hnew Hs Ht U1 U2 U3. split; simpl.
  - by apply pk_unique_upsert.
  - apply NoDup_map_upsert; [done|]. intros y Hy E. by destruct (Hnew y Hy).
  - intros x [->|[? _]]%elem_of_upsert; auto.
  - intros x [->|[? _]]%elem_of_upsert; auto.
  - intros x [->|[? _]]%elem_of_upsert; [done | by apply H5].
  - done.
  - intros o Hor. destruct (H7 o Hor) as (y & Hy & Hyo). exists y. split; [|done].
    apply elem_of_upsert. right. split; [done|]. by destruct (Hnew y Hy).
Qed.

(** Removing memberships. *)
Lemma inv_delete w p :
  org_inv uuid w →
  (∀ o, o ∈ organizations (w_db w) →
     ∃ x, x ∈ ms w ∧ is_confirmed_owner (o_uuid o) x = true ∧ p x = false) →
  org_inv uuid (with_ms (delete_where p (ms w)) w).
Proof.
  intros [H1 H2 H3 H4 H5 H6 H7] Ho. split; simpl.
  - by apply pk_unique_delete_where.
  - eapply sublist_NoDup; [exact H2 | apply delete_where_fmap].
  - intros x [? _]%elem_of_delete_where; auto.
  - intros x [? _]%elem_of_delete_where; auto.
  - intros x [? _]%elem_of_delete_where; by apply H5.
  - done.
  - intros o Hor. destruct (Ho o Hor) as (x & Hx & Hxo & Hp). exists x. split; [|done].
    by apply elem_of_delete_where.
Qed.

(** The guard [count_confirmed_by_org_and_type(.., Owner) <= 1] of the code,
    passed: another confirmed owner is there. *)
Lemma another_owner w org m :
  org_inv uuid w →
  (Membership_count_confirmed_by_org_and_type org Owner (w_db w) <=? 1)%Z = false →
  ∃ x, x ∈ ms w ∧ is_confirmed_owner org x = true ∧ m_uuid x ≠ m_uuid m.
Proof.
  intros [H1 _ _ _ _ _ _] Hc%Z.leb_gt. by eapply (count_two _ _ m) in Hc.
Qed.
End preserve.

(** ** Rules for the operations on memberships *)

Lemma wp_some_or {A} (m : Handler (option A)) msg e w (Q : res A → World → Prop) :
  wp m e w (λ r w', match r with
                    | Ok (Some a) => Q (Ok a) w'
                    | Ok None => Q (Err (Msg msg)) w'
                    | Err x => Q (Err x) w'
                    end) →
  wp (some_or m msg) e w Q.
Proof.
  intros H. unfold some_or. apply wp_bind. eapply wp_mono; [exact H|].
  by intros [[a|]|x] w'.
Qed.

Lemma wp_Membership_save m e w (Q : res () → World → Prop) :
  (∀ w', org_frame e (with_ms (upsert m (ms w)) w) w' → Q (Ok ()) w') →
  wp (Membership_save m) e w Q.
Proof.
  intros HQ. unfold wp. simpl. apply HQ. split_and!; simpl; [done|done| |lia].
  by rewrite update_where_fmap.
Qed.

Lemma succeeds_Membership_delete m : succeeds (Membership_delete m).
Proof. succeeds. Qed.
#[export] Hint Resolve succeeds_Membership_delete : succeeds.

Lemma wp_Membership_delete m e w (Q : res () → World → Prop) :
  (∀ w', org_frame e (with_ms (delete_where (λ x, m_uuid x == m_uuid m) (ms w)) w) w' →
         Q (Ok ()) w') →
  wp (Membership_delete m) e w Q.
Proof.
  intros HQ. apply wp_succeeds; [apply succeeds_Membership_delete|].
  unfold Membership_delete. ws. eapply (wp_rel org_frame); [mrel|]. intros [] w1 F1; [|done].
  ws. eapply (wp_rel org_frame); [mrel|]. intros [] w2 F2; [|done].
  ws. eapply (wp_rel org_frame); [mrel|]. intros [] w3 F3; [|done].
  apply wp_write. intros [] _. apply HQ.
  assert (org_frame e w w3) as (Em & Eo & Eu & Ed) by (do 2 (etransitivity; [|eassumption]); done).
  split_and!; simpl; [by rewrite Em|done|done|done].
Qed.

(** The membership table after the rows [l] are deleted one by one. *)
Lemma wp_for_Membership_delete l e w :
  wp (mfor l Membership_delete) e w (λ r w', r = Ok () ∧
    org_frame e (with_ms (delete_where
      (λ x, existsb (λ r, bool_decide (pk x = pk r)) l) (ms w)) w) w').
Proof.
  revert w. induction l as [|m l IH]; intros w; simpl.
  { split; [done|]. split_and!; simpl; [|done..]. symmetry. by apply delete_where_none. }
  ws. apply wp_Membership_delete. intros w1 F1. eapply wp_mono; [apply IH|].
  intros r w2 [-> F2]. split; [done|]. etransitivity; [|exact F2].
  destruct F1 as (Em & Eo & Eu & Ed). split_and!; simpl; [|done..].
  rewrite Em. simpl. rewrite delete_where_twice. apply delete_where_ext. intros x _.
  unfold pk, Membership_pk. destruct (bool_decide_reflect (m_uuid x = m_uuid m)) as [E|E].
  - by rewrite (proj2 (eqb_str_true _ _) E).
  - by rewrite (proj2 (eqb_str_false _ _) E).
Qed.

(** ** Organizations *)

Definition with_orgs (t : list Organization) (w : World) : World :=
  put_db ((w_db w) <| organizations := t |>) w.

(** A save of an organization writes nothing when the address is rejected. *)
Lemma wp_Organization_save o e w (Q : res () → World → Prop) :
  (∀ msg, Q (Err (Msg msg)) w) →
  (∀ w', org_frame e (with_orgs (upsert o (organizations (w_db w))) w) w' → Q (Ok ()) w') →
  wp (Organization_save o) e w Q.
Proof.
  intros HE HQ. unfold Organization_save. ws. ws. ws. ws; [done|]. ws. ws. ws.
  apply wp_succeeds; [succeeds|]. eapply (wp_rel org_frame); [mrel|].
  intros r w1 (Em & Eo & Eu & Ed) a ->. apply wp_write, HQ.
  split_and!; simpl; [done | by rewrite Eo | done | done].
Qed.

Lemma inv_org uuid w o :
  org_inv uuid w → has_owner (o_uuid o) (ms w) →
  org_inv uuid (with_orgs (upsert o (organizations (w_db w))) w).
Proof.
  intros [H1 H2 H3 H4 H5 H6 H7] Ho. split; try done.
  intros o' [->|[? _]]%elem_of_upsert; auto.
Qed.

(** An organization and all its memberships go together. *)
Lemma inv_remove_org uuid w org :
  org_inv uuid w →
  org_inv uuid (with_orgs (delete_where (λ o, o_uuid o == org) (organizations (w_db w)))
    (with_ms (delete_where (λ m, m_org_uuid m == org) (ms w)) w)).
Proof.
  intros [H1 H2 H3 H4 H5 H6 H7]. split; simpl.
  - by apply pk_unique_delete_where.
  - eapply sublist_NoDup; [exact H2 | apply delete_where_fmap].
  - intros x [? _]%elem_of_delete_where; auto.
  - intros x [? _]%elem_of_delete_where; auto.
  - intros x [? _]%elem_of_delete_where; by apply H5.
  - done.
  - intros o [Ho Hne]%elem_of_delete_where. destruct (H7 o Ho) as (x & Hx & Hxo).
    exists x. split; [|done]. apply elem_of_delete_where. split; [done|].
    unfold is_confirmed_owner in Hxo. bprop. naive_solver.
Qed.
