(* ===== verification/Guards.v ===== *)
(** What the request guards of src/src/auth.rs establish: a guard that lets a
    request through has changed nothing, and the headers it hands to the handler
    name a user, a device and a membership that are in the database. *)
From S2P Require Import Prelude Table Schema Roles Users Memberships Groups Collections Devices.
From S2P Require Import Auth Demo OrgInv.

(** The request carries a valid token of [h_user h] on [h_device h]: it was
    issued for the user's current security stamp, or a stamp exception that has
    not expired covers this route and the token's stamp. *)
Definition authenticated (e : Env) (w : World) (rq : Request) (h : Headers) : Prop :=
  ∃ a claims,
    rq_authorization rq = Some a ∧
    e_decode_login e (rsplit_next "Bearer " a) = Some claims ∧
    h_user h ∈ users (w_db w) ∧ u_uuid (h_user h) = lc_sub claims ∧
    h_device h ∈ devices (w_db w) ∧ d_uuid (h_device h) = lc_device claims ∧
    d_user_uuid (h_device h) = lc_sub claims ∧
    (u_security_stamp (h_user h) = lc_sstamp claims ∨
     ∃ text exc route,
       u_stamp_exception (h_user h) = Some text ∧ e_parse_stamp e text = Some exc ∧
       rq_route rq = Some route ∧ route ∈ se_routes exc ∧
       (e_now e ≤ se_expire exc)%Z ∧ se_security_stamp exc = lc_sstamp claims) ∧
    h_host h = rq_host rq ∧ h_ip h = rq_ip rq.

(** The caller has a membership [m] of type [t] and status [s] in the
    organization the request names. *)
Definition org_member (e : Env) (w : World) (rq : Request) (user : User) (m : Membership)
    (t : MembershipType) (s : MembershipStatus) : Prop :=
  (∃ h, authenticated e w rq h ∧ h_user h = user) ∧
  get_org_id rq = Some (m_org_uuid m) ∧ m ∈ ms w ∧ m_user_uuid m = u_uuid user ∧
  m_atype m = MembershipType_as_i32 t ∧ m_status m = MembershipStatus_as_i32 s ∧ s ≠ Revoked.

Lemma type_from_i32_Some n t : MembershipType_from_i32 n = Some t → n = MembershipType_as_i32 t.
Proof. unfold MembershipType_from_i32. intros H. repeat case_match; by simplify_eq/=. Qed.

Lemma status_from_i32_Some n s :
  MembershipStatus_from_i32 n = Some s → n = MembershipStatus_as_i32 s ∧ s ≠ Revoked.
Proof. unfold MembershipStatus_from_i32. intros H. repeat case_match; by simplify_eq/=. Qed.

Lemma existsb_eqb s l : existsb (String.eqb s) l = true ↔ s ∈ l.
Proof.
  rewrite existsb_exists. split.
  - intros (x & Hx & <-%String.eqb_eq). by apply list_elem_of_In.
  - intros H. exists s. split; [by apply list_elem_of_In | apply String.eqb_refl].
Qed.

Section guards.
Implicit Types (rq : Request) (e : Env) (w : World).

(** Saving a row of an account that exists. *)
Lemma frame_known_user e w u u' :
  u ∈ users (w_db w) → u_uuid u' = u_uuid u →
  org_frame e w (put_db ((w_db w) <| users := upsert u' (users (w_db w)) |>) w).
Proof.
  intros Hu E. split_and!; simpl; [done..| |lia].
  intros x (y & [->|[Hy _]]%elem_of_upsert & ->)%elem_of_map; apply elem_of_map; eauto.
Qed.

(** An expired stamp exception is cleared on the way to the error. *)
Lemma wp_Headers rq e w (Q : res Headers → World → Prop) :
  (∀ x w', org_frame e w w' → Q (Err x) w') → (∀ h, authenticated e w rq h → Q (Ok h) w) →
  wp (Headers_from_request rq) e w Q.
Proof.
  intros HE HQ. assert (∀ x, Q (Err x) w) as HE0 by (intros; by apply HE).
  unfold Headers_from_request. destruct (rq_authorization rq) as [a|] eqn:Ea; [|simpl; ws; by auto].
  ws. ws. destruct (e_decode_login e _) as [claims|] eqn:Ec; [|simpl; ws; by auto].
  ws. ws. destruct (Device_find_by_uuid_and_user _ _ _) as [d|] eqn:Ed; [|simpl; ws; by auto].
  ws. ws. destruct (User_find_by_uuid _ _) as [u|] eqn:Eu; [|simpl; ws; by auto].
  apply first_row_Some in Ed as [Hd Hind], Eu as [Hu Hinu]. bprop. destruct Hd as [Hd1 Hd2].
  set (h := mkHeaders (rq_host rq) d u (rq_ip rq)).
  ws. destruct (u_security_stamp u == lc_sstamp claims) eqn:Es.
  { ws. ws. apply (HQ h). exists a, claims. bprop. split_and!; try done. by left; bprop. }
  ws. ws. destruct (u_stamp_exception u) as [text|] eqn:Et; [|simpl; ws; by auto]. simpl.
  destruct (e_parse_stamp e text) as [exc|] eqn:Ex; [|simpl; ws; by auto].
  destruct (rq_route rq) as [route|] eqn:Er; [|simpl; ws; by auto]. ws. ws.
  destruct (se_expire exc <? e_now e)%Z eqn:Hexp.
  { ws. unfold ignore. ws. ws. apply wp_User_save; [intros; repeat ws; by auto|].
    intros _ _ u'. repeat ws. apply HE. by eapply frame_known_user. }
  destruct (existsb (String.eqb route) (se_routes exc)) eqn:Hr; [|simpl; ws; by auto].
  simpl. destruct (se_security_stamp exc == lc_sstamp claims) eqn:Hs; [|simpl; ws; by auto]. simpl.
  ws. ws. apply (HQ h). apply existsb_eqb in Hr. bprop.
  exists a, claims. split_and!; try done. right. by exists text, exc, route.
Qed.

Lemma wp_OrgHeaders rq e w (Q : res OrgHeaders → World → Prop) :
  (∀ x w', org_frame e w w' → Q (Err x) w') →
  (∀ h, org_member e w rq (oh_user h) (oh_membership h) (oh_membership_type h)
          (oh_membership_status h) → Q (Ok h) w) →
  wp (OrgHeaders_from_request rq) e w Q.
Proof.
  intros HE HQ. assert (∀ x, Q (Err x) w) as HE0 by (intros; by apply HE).
  unfold OrgHeaders_from_request. ws. apply wp_Headers; [by auto|]. intros h Hh.
  destruct (get_org_id rq) as [org|] eqn:Eorg; [|simpl; ws; by auto]. do 3 ws. ws; [by auto|]. ws. ws.
  destruct (Membership_find_by_user_and_org _ _ _) as [m|] eqn:Em; [|simpl; ws; by auto].
  destruct (MembershipType_from_i32 _) as [t|] eqn:Et; [|simpl; ws; by auto].
  destruct (MembershipStatus_from_i32 _) as [s|] eqn:Es; [|simpl; ws; by auto]. ws.
  apply find_by_user_and_org_Some in Em as (E1 & E2 & Hm).
  apply type_from_i32_Some in Et. apply status_from_i32_Some in Es as [Es Hne].
  apply HQ. split_and!; simpl; try done; [by exists h|by subst].
Qed.

(** The role and status checks of the guards, on the enums. *)
Lemma status_is_true a b : status_is a b = true → a = b.
Proof. by destruct a, b. Qed.

Lemma type_ge_admin t : MembershipType_ge t Admin = true → t = Owner ∨ t = Admin.
Proof. destruct t; naive_solver. Qed.

Lemma type_ge_manager t : MembershipType_ge t Manager = true → t ≠ MUser.
Proof. by destruct t. Qed.

Lemma wp_AdminHeaders rq e w (Q : res AdminHeaders → World → Prop) :
  (∀ x w', org_frame e w w' → Q (Err x) w') →
  (∀ h m, org_member e w rq (ah_user h) m (ah_membership_type h) Confirmed →
          ah_org_id h = m_org_uuid m → ah_membership_type h ∈ [Owner; Admin] → Q (Ok h) w) →
  wp (AdminHeaders_from_request rq) e w Q.
Proof.
  intros HE HQ. unfold AdminHeaders_from_request. ws. apply wp_OrgHeaders; [by auto|]. intros h Hm.
  ws; [|ws; by apply HE]. ws. unfold OrgHeaders_is_confirmed_and_admin in *. bprop.
  destruct Heqb as [Hs%status_is_true Ht%type_ge_admin]. rewrite Hs in Hm.
  eapply HQ; [done|done|]. simpl. set_solver.
Qed.

Lemma wp_OwnerHeaders rq e w (Q : res OwnerHeaders → World → Prop) :
  (∀ x w', org_frame e w w' → Q (Err x) w') →
  (∀ h m, org_member e w rq (owh_user h) m Owner Confirmed → owh_org_id h = m_org_uuid m →
          Q (Ok h) w) →
  wp (OwnerHeaders_from_request rq) e w Q.
Proof.
  intros HE HQ. unfold OwnerHeaders_from_request. ws. apply wp_OrgHeaders; [by auto|]. intros h Hm.
  ws; [|ws; by apply HE]. ws. unfold OrgHeaders_is_confirmed_and_owner in *. bprop.
  destruct Heqb as [Hs%status_is_true Ht%bool_decide_eq_true]. rewrite Hs, Ht in Hm. by eapply HQ.
Qed.

Lemma wp_OrgMemberHeaders rq e w (Q : res OrgMemberHeaders → World → Prop) :
  (∀ x w', org_frame e w w' → Q (Err x) w') →
  (∀ h t s, org_member e w rq (om_user h) (om_membership h) t s → Q (Ok h) w) →
  wp (OrgMemberHeaders_from_request rq) e w Q.
Proof.
  intros HE HQ. unfold OrgMemberHeaders_from_request. ws. apply wp_OrgHeaders; [by auto|]. intros h Hm.
  ws; [|ws; by apply HE]. ws. by eapply HQ.
Qed.

Lemma wp_ManagerHeaders rq e w (Q : res ManagerHeaders → World → Prop) :
  (∀ x w', org_frame e w w' → Q (Err x) w') →
  (∀ h m t col, org_member e w rq (mh_user h) m t Confirmed → mh_org_id h = m_org_uuid m →
     t ≠ MUser → get_col_id e rq = Some col →
     Collection_is_coll_manageable_by_user col (u_uuid (mh_user h)) (w_db w) = true →
     Q (Ok h) w) →
  wp (ManagerHeaders_from_request rq) e w Q.
Proof.
  intros HE HQ. assert (∀ x, Q (Err x) w) as HE0 by (intros; by apply HE).
  unfold ManagerHeaders_from_request. ws. apply wp_OrgHeaders; [by auto|]. intros h Hm.
  ws; [|simpl; ws; by auto]. unfold OrgHeaders_is_confirmed_and_manager in *. bprop.
  destruct Heqb as [Hs%status_is_true Ht%type_ge_manager]. rewrite Hs in Hm.
  ws. ws. destruct (get_col_id e rq) as [col|] eqn:Ec; [|simpl; ws; by auto]. do 3 ws. ws; [by auto|]. ws.
  eapply HQ; try done. simpl. destruct Hm as (_ & _ & _ & <- & _). by apply negb_false_iff.
Qed.

Lemma wp_ManagerHeadersLoose rq e w (Q : res ManagerHeadersLoose → World → Prop) :
  (∀ x w', org_frame e w w' → Q (Err x) w') →
  (∀ h t, org_member e w rq (ml_user h) (ml_membership h) t Confirmed → t ≠ MUser → Q (Ok h) w) →
  wp (ManagerHeadersLoose_from_request rq) e w Q.
Proof.
  intros HE HQ. unfold ManagerHeadersLoose_from_request. ws. apply wp_OrgHeaders; [by auto|]. intros h Hm.
  ws; [|ws; by apply HE]. unfold OrgHeaders_is_confirmed_and_manager in *. bprop.
  destruct Heqb as [Hs%status_is_true Ht%type_ge_manager]. rewrite Hs in Hm. ws. by eapply HQ.
Qed.
End guards.

(** ** The theorems *)

(** The state a successful run ends in, and what its result satisfies. *)
Lemma wp_Ok {E S A} (m : M E S A) e s a s' (P : A → S → Prop) :
  wp m e s (λ r s', ∀ a, r = Ok a → P a s') → m e s = (Ok a, s') → P a s'.
Proof. unfold wp. intros H E1. rewrite E1 in H. by apply H. Qed.

(** A query by primary key finds the row. *)
Lemma first_row_pk {A K} `{Keyed A K} (p : A → bool) (t : list A) x :
  pk_unique t → x ∈ t → (∀ y, p y = true ↔ pk y = pk x) → first_row p t = Some x.
Proof.
  intros Hpk Hx Hp. destruct (first_row p t) as [y|] eqn:Ey.
  - apply first_row_Some in Ey as [Hy%Hp Hin]. f_equal. by apply (pk_unique_inj t).
  - rewrite first_row_None in Ey. specialize (Ey x Hx). by rewrite (proj2 (Hp x)) in Ey.
Qed.

Lemma authenticated_passes rq e w h :
  pk_unique (users (w_db w)) → pk_unique (devices (w_db w)) → authenticated e w rq h →
  Headers_from_request rq e w = (Ok h, w).
Proof.
  intros Hpu Hpd (a & claims & Ea & Ec & Hu & Eu & Hd & Ed & Edu & Hs & Eh & Ei).
  destruct h as [host d u ip]; simpl in *. subst.
  unfold Headers_from_request. rewrite Ea. rewrite (bind_ok _ _ _ _ _ _ (gets_eq _ _ _)), Ec.
  rewrite (bind_ok _ _ _ _ _ _ (query_eq _ _ _)). unfold Device_find_by_uuid_and_user.
  rewrite (first_row_pk _ _ d); [|done|done|].
  2:{ intros y. unfold pk, Device_pk. bprop. split; [by intros [-> ->]; congruence|].
      intros [= -> ->]. by split. }
  rewrite (bind_ok _ _ _ _ _ _ (query_eq _ _ _)). unfold User_find_by_uuid.
  rewrite (first_row_pk _ _ u); [|done|done|].
  2:{ intros y. unfold pk, User_pk. bprop. by rewrite Eu. }
  destruct (u_security_stamp u == lc_sstamp claims) eqn:Es; [done|].
  destruct Hs as [Hs|(text & exc & route & Et & Ex & Er & Hr & Hexp & Hst)]; [bprop; congruence|].
  unfold mbind, M_bind, gets. rewrite Et. simpl. rewrite Ex, Er. simpl.
  assert ((se_expire exc <? e_now e)%Z = false) as -> by (apply Z.ltb_ge; lia).
  assert (existsb (String.eqb route) (se_routes exc) = true) as -> by by apply existsb_eqb.
  assert ((se_security_stamp exc == lc_sstamp claims) = true) as -> by by apply eqb_str_true.
  done.
Qed.

(** C3: the [Headers] guard lets a request through exactly when it carries a
    token of an existing user and device whose security stamp is current, or is
    covered by an unexpired stamp exception for this route; it then changes
    nothing, and the headers are that user, that device and the request's host
    and address. *)
Theorem Headers_from_request_spec rq e w h w' :
  pk_unique (users (w_db w)) → pk_unique (devices (w_db w)) →
  Headers_from_request rq e w = (Ok h, w') ↔ w' = w ∧ authenticated e w rq h.
Proof.
  intros Hpu Hpd. split; [|intros [-> Ha]; by apply authenticated_passes].
  apply (wp_Ok _ _ _ _ _ (λ h w', w' = w ∧ authenticated e w rq h)).
  apply wp_Headers; [done|]. by intros h' Hh' _ [= <-].
Qed.

Lemma Headers_from_request_spec_witness :
  Headers_from_request (demo_request "bob") demo_env org_world
    = (Ok (user_headers bob), org_world).
Proof.
  apply Headers_from_request_spec.
  - apply (bool_decide_unpack (NoDup _)). by vm_compute.
  - apply (bool_decide_unpack (NoDup _)). by vm_compute.
  - split; [done|]. exists "Bearer bob", (mkLoginJwtClaims "bob" "dev" "stamp").
    split_and!; try done; [vm_compute; set_solver..|by left].
Defined.


