(* ===== verification/OrgSafety.v ===== *)
(** Every handler keeps the invariant of organizations and memberships. *)
From S2P Require Import Prelude Table Schema Roles Users Memberships Groups Collections Events.
From S2P Require Import Policies Vault Ciphers Util Settings Devices Auth Sends Emergency Accounts.
From S2P Require Import Orgs OrgInv Guards.

Abbreviation keeps_inv uuid m e w := (wp m e w (λ _ w', org_inv uuid w')).

(** A step that changes neither memberships nor organizations. *)
Ltac wframe_with tac :=
  eapply (wp_rel org_frame);
  [ solve [tac]
  | let r := fresh "r" in let w1 := fresh "w" in let F := fresh "F" in
    intros r w1 F;
    repeat match goal with H : org_inv _ ?w |- _ =>
      lazymatch type of F with org_frame _ w _ => apply (inv_frame _ _ _ _ F) in H end end;
    let Em := fresh "Em" in pose proof F as [Em _];
    rewrite <-?Em in *; clear Em; destruct r; [|done] ].
Ltac wframe := wframe_with ltac:(eauto with mrel).

(** The symbolic execution of a handler up to its next change of memberships.
    A conditional in the middle of the code that changes none is one step; the
    member a query found is kept as [Eid], [Eorg], [Hm]. *)
Ltac wo :=
  cbv beta iota;
  lazymatch goal with
  | |- wp (some_or _ _) _ _ _ => apply wp_some_or
  | |- match ?x with _ => _ end =>
    let H := fresh "Hx" in
    destruct x eqn:H; try (apply find_by_uuid_and_org_Some in H as (Eid & Eorg & Hm))
  | |- wp (if _ then _ else _) _ _ (λ _ w, org_inv _ w) => ws
  | |- wp (if _ then _ else _) _ _ _ => first [wframe_with ltac:(mrel) | ws]
  | |- _ => first [ws | wframe]
  end; cbv beta iota.
Ltac wrun := try done; repeat (wo; try done).

(** The role enums on the values the table holds. *)
Lemma valid_type_as_i32 t : valid_type (MembershipType_as_i32 t).
Proof. apply valid_type_range. by destruct t. Qed.

Lemma valid_status_as_i32 s : s ≠ Revoked → valid_status (MembershipStatus_as_i32 s).
Proof. destruct s; [done|..]; intros _; left; unfold active_status; simpl; lia. Qed.

Lemma valid_status_revoke m : valid_status (m_status m) → valid_status (m_status (Membership_revoke m).1).
Proof.
  unfold Membership_revoke, valid_status, active_status, revoked_status, ACTIVATE_REVOKE_DIFF.
  simpl. case_match; simpl; bprop; lia.
Qed.

Lemma valid_status_restore m :
  valid_status (m_status m) → valid_status (m_status (Membership_restore m).1).
Proof.
  unfold Membership_restore, valid_status, active_status, revoked_status, ACTIVATE_REVOKE_DIFF.
  simpl. case_match; simpl; bprop; lia.
Qed.

Lemma revoke_ids m : m_uuid (Membership_revoke m).1 = m_uuid m ∧
  user_org (Membership_revoke m).1 = user_org m ∧ m_atype (Membership_revoke m).1 = m_atype m.
Proof. unfold Membership_revoke. by case_match. Qed.

Lemma restore_ids m : m_uuid (Membership_restore m).1 = m_uuid m ∧
  user_org (Membership_restore m).1 = user_org m ∧ m_atype (Membership_restore m).1 = m_atype m.
Proof. unfold Membership_restore. by case_match. Qed.

Lemma owner_type org m : is_confirmed_owner org m = true → i32_eq (m_atype m) Owner = true.
Proof. unfold is_confirmed_owner. bprop. naive_solver. Qed.

Lemma owner_org org m : is_confirmed_owner org m = true → m_org_uuid m = org.
Proof. unfold is_confirmed_owner. bprop. naive_solver. Qed.

Lemma owner_confirmed org m :
  is_confirmed_owner org m = true → m_status m = MembershipStatus_as_i32 Confirmed.
Proof. unfold is_confirmed_owner. bprop. naive_solver. Qed.

Section handlers.
Context (uuid : nat → string).

(** A member below Admin is revoked: no owner is affected. *)
Lemma keeps_revoke_save w e m :
  org_inv uuid w → m ∈ ms w →
  (i32_eq (m_atype m) Owner = true →
     ∃ x, x ∈ ms w ∧ is_confirmed_owner (m_org_uuid m) x = true ∧ m_uuid x ≠ m_uuid m) →
  keeps_inv uuid (Membership_save (Membership_revoke m).1) e w.
Proof.
  intros HI Hm Ho. apply wp_Membership_save. intros w' F.
  eapply inv_frame; [exact F|]. destruct (revoke_ids m) as (E1 & E2 & E3).
  eapply (inv_update _ w m); try done.
  - by apply valid_status_revoke, (inv_status _ _ HI).
  - rewrite E3. by apply (inv_type _ _ HI).
  - intros Hc. right. by eapply Ho, owner_type.
Qed.

Lemma keeps_revoke_member_impl org_id member_id h e w :
  org_inv uuid w → keeps_inv uuid (revoke_member_impl org_id member_id h) e w.
Proof.
  intros HI. unfold revoke_member_impl. wo. wo; [done|]. wo. wo. wo; [|by wo].
  apply find_by_uuid_and_org_Some in Heqo as (Eid & Eorg & Hm). wrun.
  eapply wp_mono; [apply keeps_revoke_save; [done|done|]|].
  - intros Ho. rewrite Eorg. eapply another_owner; [done|]. by rewrite Ho in *.
  - intros [] w' HI'; wrun.
Qed.

(** Saving a row with a new status, type, or other columns, that keeps the ids
    and does not take a confirmed owner away. *)
Lemma keeps_save w e m0 m :
  org_inv uuid w → m0 ∈ ms w → m_uuid m = m_uuid m0 → user_org m = user_org m0 →
  valid_status (m_status m) → valid_type (m_atype m) →
  (is_confirmed_owner (m_org_uuid m0) m0 = true →
     is_confirmed_owner (m_org_uuid m0) m = true ∨
     ∃ x, x ∈ ms w ∧ is_confirmed_owner (m_org_uuid m0) x = true ∧ m_uuid x ≠ m_uuid m0) →
  keeps_inv uuid (Membership_save m) e w.
Proof.
  intros. apply wp_Membership_save. intros w' F. eapply inv_frame; [exact F|].
  by eapply inv_update.
Qed.

Lemma keeps_restore_member_impl org_id member_id h e w :
  org_inv uuid w → keeps_inv uuid (restore_member_impl org_id member_id h) e w.
Proof.
  intros HI. unfold restore_member_impl. wo. wo; [done|]. wo. wo. wo; [|by wo].
  apply find_by_uuid_and_org_Some in Heqo as (E1 & E2 & Hm). wrun.
  destruct (restore_ids m) as (I1 & I2 & I3).
  eapply wp_mono; [eapply (keeps_save _ _ m); try done|].
  - by apply valid_status_restore, (inv_status _ _ HI).
  - rewrite I3. by apply (inv_type _ _ HI).
  - intros Hc%owner_confirmed. rewrite Hc in *. done.
  - intros [] w' HI'; wrun.
Qed.

(** The side conditions of [keeps_save] for a row that is [m] with some columns
    changed: ids by computation, status and type from the enums or from [m]. *)
Ltac kept m HI :=
  eapply wp_mono;
  [ eapply (keeps_save _ _ m);
    [ exact HI | done | done | done
    | simpl; first [by apply (inv_status _ _ HI) | left; unfold active_status; simpl; lia]
    | simpl; first [by apply (inv_type _ _ HI) | apply valid_type_as_i32
                   | match goal with H : m_atype _ = m_atype m |- _ =>
                       rewrite H; by apply (inv_type _ _ HI) end ]
    | ]
  | intros [|] ? ?; wrun ].

(** A row that was not confirmed was no confirmed owner. *)
Ltac not_confirmed := let Hc := fresh "Hc" in
  intros Hc%owner_confirmed; bprop; rewrite Hc in *; done.

Lemma keeps_confirm_invite_impl org_id member_id key h e w :
  org_inv uuid w → keeps_inv uuid (confirm_invite_impl org_id member_id key h) e w.
Proof.
  intros HI. unfold confirm_invite_impl. wrun. kept m HI. not_confirmed.
Qed.

Lemma keeps_accept_org_invite user m0 m key e w :
  org_inv uuid w → m0 ∈ ms w → m_uuid m = m_uuid m0 → user_org m = user_org m0 →
  m_atype m = m_atype m0 → m_status m = m_status m0 →
  keeps_inv uuid (accept_org_invite user m key) e w.
Proof.
  intros HI Hm E1 E2 E3 E4. unfold accept_org_invite. wrun.
  kept m0 HI. rewrite E4 in *. not_confirmed.
Qed.

Lemma keeps_accept_invite org_id member_id token key h e w :
  org_inv uuid w → keeps_inv uuid (accept_invite org_id member_id token key h) e w.
Proof.
  intros HI. unfold accept_invite. wrun. by eapply (keeps_accept_org_invite _ m).
Qed.

Lemma keeps_reinvite_member_impl org_id member_id by_email e w :
  org_inv uuid w → keeps_inv uuid (reinvite_member_impl org_id member_id by_email) e w.
Proof.
  intros HI. unfold reinvite_member_impl. wrun. kept m HI. not_confirmed.
Qed.

Lemma keeps_edit_member org_id member_id data h e w :
  org_inv uuid w → keeps_inv uuid (edit_member org_id member_id data h) e w.
Proof.
  intros HI. unfold edit_member. do 2 (wo; try done). wo; [|wrun]. do 13 (wo; try done).
  assert (is_confirmed_owner org_id m0 = true → m ≠ Owner →
    ∃ x, x ∈ ms w ∧ is_confirmed_owner org_id x = true ∧ m_uuid x ≠ m_uuid m0) as Ho.
  { intros Hc Hne. eapply another_owner; [done|].
    rewrite (owner_type _ _ Hc), (owner_confirmed _ _ Hc), bool_decide_eq_false_2 in H2; done. }
  wrun. kept m0 HI.
  intros Hc. rewrite Eorg in *.
  destruct (decide (m = Owner)) as [->|]; [left|by right; apply Ho].
  revert Hc. unfold is_confirmed_owner. simpl. bprop. naive_solver.
Qed.

Lemma keeps_delete w e m :
  org_inv uuid w → m ∈ ms w →
  (is_confirmed_owner (m_org_uuid m) m = true →
     ∃ x, x ∈ ms w ∧ is_confirmed_owner (m_org_uuid m) x = true ∧ m_uuid x ≠ m_uuid m) →
  keeps_inv uuid (Membership_delete m) e w.
Proof.
  intros HI Hm Ho. apply wp_Membership_delete. intros w' F. eapply inv_frame; [exact F|].
  apply inv_delete; [done|]. intros o Hor. destruct (inv_owner _ _ HI o Hor) as (y & Hy & Hyo).
  destruct (decide (m_uuid y = m_uuid m)) as [E|Hne].
  - assert (y = m) as -> by (by eapply pk_unique_inj; [apply (inv_pk _ _ HI)|..]).
    pose proof (owner_org _ _ Hyo) as Eo.
    rewrite Eo in Ho. destruct (Ho Hyo) as (x & ? & ? & ?). exists x. by rewrite eqb_str_false.
  - exists y. by rewrite eqb_str_false.
Qed.

Lemma keeps_delete_member_impl org_id member_id h e w :
  org_inv uuid w → keeps_inv uuid (delete_member_impl org_id member_id h) e w.
Proof.
  intros HI. unfold delete_member_impl. do 12 (wo; try done).
  assert (is_confirmed_owner org_id m = true →
    ∃ x, x ∈ ms w ∧ is_confirmed_owner org_id x = true ∧ m_uuid x ≠ m_uuid m) as Ho.
  { intros Hc. eapply another_owner; [done|].
    rewrite (owner_type _ _ Hc), (owner_confirmed _ _ Hc) in H1; done. }
  wrun. apply keeps_delete; [done|done|]. by rewrite Eorg.
Qed.

Lemma keeps_leave_organization org_id h e w :
  org_inv uuid w → om_membership h ∈ ms w → m_org_uuid (om_membership h) = org_id →
  keeps_inv uuid (leave_organization org_id h) e w.
Proof.
  intros HI Hm Eorg. unfold leave_organization. do 6 (wo; try done).
  assert (is_confirmed_owner org_id (om_membership h) = true →
    ∃ x, x ∈ ms w ∧ is_confirmed_owner org_id x = true ∧ m_uuid x ≠ m_uuid (om_membership h)) as Ho.
  { intros Hc. eapply another_owner; [done|]. rewrite (owner_type _ _ Hc) in H0; done. }
  wrun. apply keeps_delete; [done|done|]. by rewrite Eorg.
Qed.

(** *** Loops that revoke

    The loops save copies of rows read before the loop.  What a copy must still
    agree on with the table is its ids and its type. *)
Definition row_ids (m : Membership) : string * (string * string) * Z :=
  (m_uuid m, user_org m, m_atype m).

(** What the rows agree on, key by key, when a row of the table is saved with its
    key unchanged. *)
Lemma key_upsert {K} (key : Membership → K) t m k :
  (∀ x y, key x = key y → m_uuid x = m_uuid y) →
  pk_unique t → key m ∈ map key t → k ∈ map key t → k ∈ map key (upsert m t).
Proof.
  intros Hkey Hpk (m0 & Hm0 & E)%elem_of_map (x & Hx & ->)%elem_of_map. apply elem_of_map.
  destruct (decide (m_uuid x = m_uuid m)) as [Eid|Hne].
  - exists m. split; [apply elem_of_upsert; by left|]. rewrite E. f_equal.
    eapply (pk_unique_inj t); [done..|]. unfold pk, Membership_pk.
    rewrite Eid. by apply Hkey.
  - exists x. split; [|done]. apply elem_of_upsert. by right.
Qed.

Lemma row_ids_upsert t m k :
  pk_unique t → row_ids m ∈ map row_ids t → k ∈ map row_ids t → k ∈ map row_ids (upsert m t).
Proof. apply key_upsert. by intros x y [= ? _ _]. Qed.

Definition loop_inv (l : list Membership) (w : World) : Prop :=
  org_inv uuid w ∧ ∀ m, m ∈ l → row_ids m ∈ map row_ids (ms w) ∧ valid_status (m_status m).

Lemma loop_inv_start l w : org_inv uuid w → (∀ m, m ∈ l → m ∈ ms w) → loop_inv l w.
Proof.
  intros HI Hl. split; [done|]. intros m Hm. split; [apply elem_of_map; eauto|].
  by apply (inv_status _ _ HI), Hl.
Qed.

Lemma loop_inv_frame l e w w' : org_frame e w w' → loop_inv l w → loop_inv l w'.
Proof.
  intros F [HI Hl]. split; [by eapply inv_frame|]. destruct F as [-> _]. done.
Qed.

Lemma below_admin n : i32_lt n Admin = true → i32_eq n Owner = false.
Proof.
  unfold i32_eq. intros H. apply Z.eqb_neq. intros ->. done.
Qed.

Lemma revoke_row_ids m : row_ids (Membership_revoke m).1 = row_ids m.
Proof. unfold row_ids. by destruct (revoke_ids m) as (-> & -> & ->). Qed.

Lemma loop_inv_revoke l m e w :
  loop_inv l w → m ∈ l → i32_lt (m_atype m) Admin = true →
  wp (Membership_save (Membership_revoke m).1) e w (λ _ w', loop_inv l w').
Proof.
  intros [HI Hl] Hm Hlt. destruct (Hl m Hm) as [(m0 & Hm0 & E)%elem_of_map Hs].
  apply wp_Membership_save. intros w' F. eapply loop_inv_frame; [exact F|].
  pose proof (revoke_row_ids m) as Er. rewrite E in Er. split.
  - injection Er as E1 E2 E3 E4. eapply (inv_update _ w m0); try done.
    + unfold user_org. congruence.
    + by apply valid_status_revoke.
    + rewrite E4. by apply (inv_type _ _ HI).
    + intros Hc%owner_type. injection E as _ _ _ E'. rewrite E' in Hlt.
      by rewrite below_admin in Hc.
  - intros m' Hm'. destruct (Hl m' Hm') as [? ?]. split; [|done]. simpl.
    apply row_ids_upsert; [apply (inv_pk _ _ HI)| |done]. rewrite Er. apply elem_of_map. eauto.
Qed.

Lemma keeps_revoke_loop l (f : Membership → Handler ()) e w :
  org_inv uuid w → (∀ m, m ∈ l → m ∈ ms w) →
  (∀ m w, m ∈ l → loop_inv l w → wp (f m) e w (λ _ w', loop_inv l w')) →
  keeps_inv uuid (mfor l f) e w.
Proof.
  intros HI Hl Hf. eapply wp_mono; [apply (wp_for (loop_inv l)); [|done]|by intros r w' [? _]].
  by apply loop_inv_start.
Qed.

(** A step of a loop body that changes neither memberships nor organizations. *)
Ltac lframe :=
  eapply (wp_rel org_frame); [solve [mrel]|];
  let r := fresh "r" in let w1 := fresh "w" in let F := fresh "F" in
  intros r w1 F;
  match goal with H : loop_inv _ ?w |- _ =>
    lazymatch type of F with org_frame _ w _ => apply (loop_inv_frame _ _ _ _ F) in H end end;
  destruct r; [|done].

Lemma keeps_enforce_2fa_policy_for_org org_id u d i e w :
  org_inv uuid w → keeps_inv uuid (enforce_2fa_policy_for_org org_id u d i) e w.
Proof.
  intros HI. unfold enforce_2fa_policy_for_org. ws. ws. ws. ws; [done|]. ws. ws.
  apply keeps_revoke_loop; [done|by intros m [_ ?]%elem_of_sel|].
  intros m w1 Hm HL. ws. ws. ws; [|done]. apply andb_true_iff in Heqb as [Hlt _].
  ws. ws. ws. lframe. ws. eapply wp_mono; [by apply loop_inv_revoke|].
  intros [] w2 HL2; [|done]. by lframe.
Qed.

Lemma keeps_enforce_2fa_policy user u d i e w :
  org_inv uuid w → keeps_inv uuid (enforce_2fa_policy user u d i) e w.
Proof.
  intros HI. unfold enforce_2fa_policy. ws. ws.
  apply keeps_revoke_loop; [done| |].
  { unfold Membership_find_by_user_and_policy.
    intros m ([m1 p] & Hin & ->)%elem_of_map.
    apply elem_of_sel in Hin as [_ Hin]. by apply elem_of_inner_join in Hin as [? _]. }
  intros m w1 Hm HL. ws; [|done]. ws. ws. ws. lframe. ws.
  eapply wp_mono; [by apply loop_inv_revoke|]. intros [] w2 HL2; [|done]. by lframe.
Qed.

Lemma keeps_enforce_single_org org_id h e w :
  org_inv uuid w → keeps_inv uuid (enforce_single_org org_id h) e w.
Proof.
  intros HI. unfold enforce_single_org. ws. ws.
  apply keeps_revoke_loop; [done|by intros m [_ ?]%elem_of_sel|].
  intros m w1 Hm HL. ws. ws. ws; [|done]. bprop. destruct Heqb as [[Hlt _] _].
  ws. ws. ws. lframe. ws. lframe. by apply loop_inv_revoke.
Qed.

Lemma keeps_put_policy org_id t data h e w :
  org_inv uuid w → keeps_inv uuid (put_policy org_id t data h) e w.
Proof.
  intros HI. unfold put_policy. do 14 (wo; try done).
  eapply (wp_mono _ _ _ (λ _ w, org_inv uuid w)).
  { wo; [by apply keeps_enforce_2fa_policy_for_org | by wo]. }
  intros [] w1 HI1; [|done]. wo. eapply (wp_mono _ _ _ (λ _ w, org_inv uuid w)).
  { wo; [by apply keeps_enforce_single_org | by wo]. }
  intros [] w2 HI2; [|done]. wo. wo. wo. wframe_with ltac:(mrel). wrun.
  all: wframe_with ltac:(mrel); wrun.
Qed.

Lemma keeps_disable_twofactor data t h e w :
  org_inv uuid w → keeps_inv uuid (disable_twofactor data t h) e w.
Proof.
  intros HI. unfold disable_twofactor. wo. wframe_with ltac:(mrel). wo. wframe. wo. wo. wo.
  wframe_with ltac:(mrel). wo. wo. wo. eapply (wp_mono _ _ _ (λ _ w, org_inv uuid w)).
  { wo; [by apply keeps_enforce_2fa_policy | by wo]. }
  intros [] w9 HI9; wrun.
Qed.

(** *** Organizations *)

Lemma keeps_post_organization org_id h name billing e w :
  org_inv uuid w → keeps_inv uuid (post_organization org_id h name billing) e w.
Proof.
  intros HI. unfold post_organization. do 8 (wo; try done).
  wo. apply wp_Organization_save; [done|]. intros w1 F1.
  apply (inv_frame uuid) in F1.
  - rename F1 into HI1. wrun.
  - apply inv_org; [done|]. apply first_row_Some in Hx as [_ Ho]. simpl.
    by apply (inv_owner _ _ HI).
Qed.

(** The ids of a run are drawn from [uuid], which never repeats. *)
Context (uuid_inj : ∀ i j, uuid i = uuid j → i = j).

Lemma unused_drawn w i : i < w_draws w → unused uuid w (uuid i).
Proof. intros Hi n Hn E%uuid_inj. lia. Qed.

Lemma not_drawn w n m : org_inv uuid w → w_draws w ≤ n → m ∈ ms w →
  m_uuid m ≠ uuid n ∧ m_user_uuid m ≠ uuid n ∧ m_org_uuid m ≠ uuid n.
Proof.
  intros HI Hn Hm. destruct (inv_member_ids _ _ HI m Hm) as (U1 & U2 & U3).
  split_and!; apply not_eq_sym; [by apply U1|by apply U2|by apply U3].
Qed.

(** A membership that may be added. *)
Definition addable (w : World) (m : Membership) : Prop :=
  (∀ x, x ∈ ms w → m_uuid x ≠ m_uuid m ∧ user_org x ≠ user_org m) ∧
  valid_status (m_status m) ∧ valid_type (m_atype m) ∧
  unused uuid w (m_uuid m) ∧ unused uuid w (m_user_uuid m) ∧ unused uuid w (m_org_uuid m).

Lemma keeps_new_org o m c e w :
  org_inv uuid w → addable w m → is_confirmed_owner (o_uuid o) m = true →
  keeps_inv uuid (_ ← Organization_save o; _ ← Membership_save m; _ ← Collection_save c; mret o) e w.
Proof.
  intros HI (A1 & A2 & A3 & A4 & A5 & A6) Ho. ws. apply wp_Organization_save; [done|].
  intros w4 F4. ws. apply wp_Membership_save. intros w5 F5.
  assert (org_frame e (with_orgs (upsert o (organizations (w_db w)))
                         (with_ms (upsert m (ms w)) w)) w5) as F5'.
  { etransitivity; [|exact F5]. destruct F4 as (Em & Eo & Eu & Ed).
    split_and!; simpl; [by rewrite Em|done..]. }
  assert (org_inv uuid w5) as HI5; [|wrun].
  eapply inv_frame; [exact F5'|]. apply (inv_org _ (with_ms (upsert m (ms w)) w)); [by apply inv_insert|].
  exists m. split; [apply elem_of_upsert; by left | done].
Qed.

Lemma keeps_create_organization h data e w :
  e_uuid e = uuid → h_user h ∈ users (w_db w) → org_inv uuid w →
  keeps_inv uuid (create_organization h data) e w.
Proof.
  intros He Hu HI. unfold create_organization. do 8 (wo; try done).
  unfold Organization_new, Membership_new, Collection_new. do 12 ws.
  apply keeps_new_org.
  - eapply (inv_frame _ e w); [|done]. split_and!; simpl; [done..|lia].
  - split_and!; simpl; rewrite ?He.
    + intros x Hx. destruct (not_drawn w (S (w_draws w)) x) as (? & _ & _); [done|lia|done|].
      destruct (not_drawn w (w_draws w) x) as (_ & _ & ?); [done|lia|done|].
      split; [done|]. unfold user_org. simpl. congruence.
    + left. unfold active_status. simpl. lia.
    + apply (valid_type_as_i32 Owner).
    + apply unused_drawn. simpl. lia.
    + intros n Hn. apply (inv_user_ids _ _ HI); [done|]. simpl in Hn. lia.
    + apply unused_drawn. simpl. lia.
  - unfold is_confirmed_owner. simpl. by rewrite eqb_str_refl.
Qed.

(** *** Accounts *)

(** A loop of checks: it changes nothing, and after it every check has passed. *)
Lemma wp_for_check {A} (l : list A) (f : A → Db → Z) (c : A → Z → bool) msg e w :
  wp (mfor l (λ a, n ← query (f a); err_if (c a n) msg)) e w
    (λ r w', w' = w ∧ (r = Ok () → ∀ a, a ∈ l → c a (f a (w_db w)) = false)).
Proof.
  induction l as [|x l IH]; simpl.
  { split; [done|]. intros _ a Ha. set_solver. }
  ws. ws. ws. ws; [done|]. eapply wp_mono; [exact IH|]. intros r w' [-> Hr].
  split; [done|]. intros ->. intros a [->|Ha]%elem_of_cons; auto.
Qed.

Lemma frame_user_delete u :
  m_rel org_frame (write (λ d, d <| users := delete_where (λ x, u_uuid x == u) (users d) |>)).
Proof.
  intros e w. split_and!; simpl; [done|done| |lia].
  apply sublist_subseteq, delete_where_fmap.
Qed.

(** Every organization has an owner that is not [user]. *)
Definition owned_without (user : UserId) (w : World) : Prop :=
  ∀ o, o ∈ organizations (w_db w) →
    ∃ x, x ∈ ms w ∧ is_confirmed_owner (o_uuid o) x = true ∧ m_user_uuid x ≠ user.

Lemma owned_without_frame user e w w' :
  org_frame e w w' → owned_without user w → owned_without user w'.
Proof. intros (Em & Eo & _ & _) H. unfold owned_without. by rewrite Em, Eo. Qed.

(** The check of [User::delete] passed. *)
Lemma not_last_owner user w :
  org_inv uuid w →
  (∀ m, m ∈ Membership_find_confirmed_by_user user (w_db w) →
     i32_eq (m_atype m) Owner &&
     (Membership_count_confirmed_by_org_and_type (m_org_uuid m) Owner (w_db w) <=? 1)%Z = false) →
  owned_without user w.
Proof.
  intros HI Hc o Ho. destruct (inv_owner _ _ HI o Ho) as (y & Hy & Hyo).
  destruct (decide (m_user_uuid y = user)) as [Eu|]; [|eauto].
  pose proof (owner_org _ _ Hyo) as Eo.
  destruct (another_owner uuid w (o_uuid o) y HI) as (x & Hx & Hxo & Hne).
  { rewrite <-Eo. rewrite <-(andb_true_l (_ <=? _)%Z), <-(owner_type _ _ Hyo). apply Hc, elem_of_sel.
    split; [|done]. bprop. split; [done|]. by rewrite (owner_confirmed _ _ Hyo). }
  exists x. split_and!; [done..|]. intros E. apply Hne. f_equal.
  eapply NoDup_map_inj; [apply (inv_user_org _ _ HI)|done|done|].
  unfold user_org. f_equal; [congruence|]. by rewrite (owner_org _ _ Hxo).
Qed.

(** A step of [User::delete] before the memberships are removed. *)
Ltac uframe :=
  eapply (wp_rel org_frame); [solve [mrel]|];
  let r := fresh "r" in let w1 := fresh "w" in let F := fresh "F" in
  intros r w1 F;
  match goal with HI : org_inv _ _, Hw : owned_without _ _ |- _ =>
    apply (inv_frame _ _ _ _ F) in HI; apply (owned_without_frame _ _ _ _ F) in Hw end;
  destruct r; [|done]; ws.

Lemma keeps_Membership_delete_all_by_user user e w :
  org_inv uuid w → owned_without user w → keeps_inv uuid (Membership_delete_all_by_user user) e w.
Proof.
  intros HI Hw. unfold Membership_delete_all_by_user. ws. ws.
  eapply wp_mono; [apply wp_for_Membership_delete|]. intros r w' [_ F].
  eapply inv_frame; [exact F|]. unfold Membership_find_any_state_by_user.
  rewrite delete_found by apply (inv_pk _ _ HI). apply inv_delete; [done|].
  intros o Ho. destruct (Hw o Ho) as (x & ? & ? & ?). exists x. by rewrite eqb_str_false.
Qed.

Lemma keeps_User_delete u e w :
  org_inv uuid w → keeps_inv uuid (User_delete u) e w.
Proof.
  intros HI. unfold User_delete. ws. ws. ws. eapply wp_mono; [apply wp_for_check|].
  intros r w1 [-> Hc]. destruct r as [[]|]; [|done].
  assert (owned_without (u_uuid u) w) as Hw by (apply not_last_owner; auto). clear Hc.
  ws. do 3 uframe. eapply wp_mono; [by apply keeps_Membership_delete_all_by_user|].
  clear HI Hw. intros [] w4 HI; [|done]. do 7 (wo; wframe_with ltac:(mrel)).
  by wframe_with ltac:(apply frame_user_delete).
Qed.

(** [Organization::delete]: only the ciphers' attachments can make it stop, and
    they go first; from the memberships on everything succeeds. *)
Lemma keeps_Organization_delete o e w :
  org_inv uuid w → keeps_inv uuid (Organization_delete o) e w.
Proof.
  intros HI. unfold Organization_delete. do 2 (ws; wframe_with ltac:(mrel)). ws.
  unfold Membership_delete_all_by_organization. do 2 ws.
  eapply wp_mono; [apply wp_for_Membership_delete|]. intros r w2 [-> F2].
  unfold Membership_find_by_org in F2. rewrite delete_found in F2 by apply (inv_pk _ _ HI).
  do 3 (ws; apply wp_succeeds; [succeeds|]; eapply (wp_rel org_frame); [mrel|];
        let F := fresh in intros ? ? F ? ->; apply (PreOrder_Transitive _ _ _ F2) in F;
        clear F2; rename F into F2).
  apply wp_write. eapply (inv_frame _ e); [|apply (inv_remove_org uuid _ (o_uuid o) HI)].
  destruct F2 as (Em & Eo & Eu & Ed). split_and!; simpl; [done| |done|done]. by rewrite Eo.
Qed.

Lemma keeps_delete_organization org_id data h e w :
  org_inv uuid w → keeps_inv uuid (delete_organization org_id data h) e w.
Proof.
  intros HI. unfold delete_organization. wo. wo; [done|]. wo. wframe_with ltac:(mrel).
  wrun. by apply keeps_Organization_delete.
Qed.

(** *** Invitations *)

(** What [invite_user] guarantees: the user may be given a membership. *)
Definition joinable (org : OrganizationId) (w : World) (r : User * bool * Z) : Prop :=
  let '(user, _, status) := r in
  org_inv uuid w ∧ unused uuid w org ∧ unused uuid w (u_uuid user) ∧
  (∀ x, x ∈ ms w → user_org x ≠ (u_uuid user, org)) ∧ active_status status ∧
  status ≠ MembershipStatus_as_i32 Confirmed.

Lemma wp_User_new email name e w (Q : res User → World → Prop) :
  (∀ u w', u_uuid u = e_uuid e (w_draws w) → w_db w' = w_db w → w_draws w < w_draws w' →
           Q (Ok u) w') →
  wp (User_new email name) e w Q.
Proof. intros HQ. unfold User_new. repeat ws. apply HQ; simpl; [done|done|lia]. Qed.

(** A new account with a drawn id. *)
Lemma inv_new_user w u i :
  org_inv uuid w → u_uuid u = uuid i → i < w_draws w →
  org_inv uuid (put_db ((w_db w) <| users := upsert u (users (w_db w)) |>) w).
Proof.
  intros [H1 H2 H3 H4 H5 H6 H7] Eu Hi. split; try done.
  intros x [->|[Hx _]]%elem_of_upsert; [|by apply H6]. rewrite Eu. by apply unused_drawn.
Qed.

Lemma wp_invite_user org mail_on uc email e w :
  e_uuid e = uuid → org_inv uuid w → unused uuid w org →
  wp (invite_user org mail_on uc email) e w
    (λ r w', match r with Ok a => joinable org w' a | Err _ => org_inv uuid w' end).
Proof.
  intros He HI Hu. unfold invite_user. ws. unfold User_find_by_mail. ws. ws.
  - apply first_row_Some in Heqo as [_ Hin]. do 3 ws. ws; [done|]. ws. split_and!; try done.
    + by apply (inv_user_ids _ _ HI).
    + intros x Hx [= E1 E2]. apply not_true_iff_false in H. apply H, is_some_true, first_row_is_Some.
      exists x. split; [done|]. bprop. done.
    + unfold active_status. case_match; simpl; lia.
    + by case_match.
  - do 3 ws. ws; [done|]. do 3 ws. ws; [done|]. ws.
    eapply (wp_rel org_frame); [mrel|]. intros r w1 F1. pose proof (inv_frame _ _ _ _ F1 HI) as HI1.
    destruct r; [|done]. ws. apply wp_User_new. intros u w2 Eu Edb Hlt. ws.
    assert (org_inv uuid w2) as HI2.
    { eapply (inv_frame _ e w1); [|done]. unfold org_frame. rewrite Edb. split_and!; done || lia. }
    apply wp_User_save; [done|]. intros _ _ u'. ws.
    assert (u_uuid u' = u_uuid u) as Eu' by done.
    assert (w_draws w ≤ w_draws w1) as Hd by apply F1.
    assert (u_uuid u' = uuid (w_draws w1)) as E by congruence.
    split_and!; try done.
    + by eapply inv_new_user.
    + intros n Hn. apply Hu. simpl in Hn. lia.
    + rewrite E. apply unused_drawn. done.
    + simpl. rewrite Edb. intros x Hx [= Ex _]. simpl in E. rewrite E in Ex.
      destruct (not_drawn w1 (w_draws w1) x) as (_ & ? & _); done || lia.
Qed.

Lemma keeps_delete_unconfirmed w e m :
  org_inv uuid w → m ∈ ms w → m_status m ≠ MembershipStatus_as_i32 Confirmed →
  keeps_inv uuid (Membership_delete m) e w.
Proof. intros HI Hm Hs. apply keeps_delete; [done|done|]. by intros Hc%owner_confirmed. Qed.

(** The membership [m] with the drawn id of a user that may join. *)
Lemma wp_save_new_member org r m e w (Q : res () → World → Prop) :
  joinable org w r → m_uuid m = uuid (w_draws w) → user_org m = (u_uuid r.1.1, org) →
  m_status m = r.2 → valid_type (m_atype m) →
  (∀ w', org_inv uuid w' → unused uuid w' org → m ∈ ms w' → Q (Ok ()) w') →
  wp (Membership_save m) e (w <| w_draws := S (w_draws w) |>) Q.
Proof.
  destruct r as [[user uc] status]. intros (HI & Hu & Huu & Hnew & Hs & _) Eid Euo Est Ht HQ.
  set (w1 := w <| w_draws := S (w_draws w) |>).
  assert (org_frame e w w1) as F by (split_and!; simpl; [done..|lia]).
  apply wp_Membership_save. intros w2 F2. pose proof Euo as Euo'; injection Euo' as Eu Eo. apply HQ.
  - eapply inv_frame; [exact F2|]. apply inv_insert; try rewrite ?Eid, ?Eu, ?Eo.
    + by eapply inv_frame.
    + intros x Hx. split; [by apply (not_drawn w (w_draws w) x)|]. rewrite Euo. by apply Hnew.
    + rewrite Est. by left.
    + done.
    + apply unused_drawn. simpl. lia.
    + by eapply unused_frame.
    + by eapply unused_frame.
  - eapply unused_frame; [exact F2|]. intros n Hn. apply Hu. simpl in Hn. lia.
  - destruct F2 as [-> _]. apply elem_of_upsert. by left.
Qed.

(** What holds between the steps of the invitation loop, errors included. *)
Definition inviting {A} (org : OrganizationId) (r : res A) (w : World) : Prop :=
  org_inv uuid w ∧ (is_ok r = true → unused uuid w org).

Lemma inviting_frame {A} org (m : Handler A) e w :
  m_rel org_frame m → org_inv uuid w → unused uuid w org → wp m e w (inviting org).
Proof.
  intros Hm HI Hu. eapply wp_rel; [exact Hm|]. intros r w' F.
  split; [by eapply inv_frame|]. intros _. by eapply unused_frame.
Qed.

Lemma inviting_bind {A B} org (m : Handler A) (k : A → Handler B) e w :
  wp m e w (inviting org) →
  (∀ a w', org_inv uuid w' → unused uuid w' org → wp (k a) e w' (inviting org)) →
  wp (m ≫= k) e w (inviting org).
Proof.
  intros Hm Hk. ws. eapply wp_mono; [exact Hm|]. intros [a|x] w' [HI Hu]; [|by split].
  apply Hk; [done|by apply Hu].
Qed.

(** The mail of an invitation; the membership (or the account) is removed again
    when it cannot be sent. *)
Lemma inviting_mail org (mail_on : bool) uc user (m : Membership) mail e w :
  org_inv uuid w → unused uuid w org → m ∈ ms w → m_status m ≠ MembershipStatus_as_i32 Confirmed →
  wp (if mail_on then
        o ← some_or (query (Organization_find_by_uuid org)) "Error looking up organization";
        r ← try_ (send_mail (mail o));
        match (r : string + ()) with
        | inr _ => mret ()
        | inl x =>
          _ ← (if (uc : bool) then User_delete user else Membership_delete m);
          err ("Error sending invite: " +:+ x +:+ " ")
        end
      else mret ()) e w (inviting org).
Proof.
  intros HI Hu Hm Hs. destruct mail_on; [|by ws]. ws. apply wp_some_or. ws.
  destruct (Organization_find_by_uuid org (w_db w)); [|by split]. ws. ws. eapply (wp_rel org_frame); [mrel|]. intros r w3 F3.
  pose proof (inv_frame _ _ _ _ F3 HI). pose proof (unused_frame _ _ _ _ _ F3 Hu).
  assert (∀ x, wp (_ ← (if uc then User_delete user else Membership_delete m) : Handler ();
                   err ("Error sending invite: " +:+ x +:+ " ") : Handler ()) e w3 (inviting org)) as Hdel.
  { intros x. ws. eapply (wp_mono _ _ _ (λ _ w, org_inv uuid w)); [|by intros [] ? ?; [ws|]; split].
    destruct uc; [by apply keeps_User_delete|].
    apply keeps_delete_unconfirmed; [done| |done]. by destruct F3 as [-> _]. }
  destruct r as [|[| |]]; [by ws|apply Hdel|apply Hdel|by split].
Qed.

Lemma inviting_one org data h t access_all uc email e w :
  e_uuid e = uuid → org_inv uuid w → unused uuid w org → valid_type t →
  wp (invite_one org data h t access_all uc email) e w (inviting org).
Proof.
  intros He HI Hu Ht. unfold invite_one. do 3 ws.
  eapply wp_mono; [by apply wp_invite_user|]. clear HI Hu.
  intros [[[user uc'] status]|] w1 HJ; [|by split]. ws. unfold Membership_new. do 3 ws.
  ws. eapply wp_save_new_member; [exact HJ|by rewrite <-He|done|done|done|].
  intros w2 HI Hu Hm. apply inviting_bind; [apply inviting_mail; [done..|apply HJ]|].
  do 3 (intros; apply inviting_bind; [apply inviting_frame; [mrel|done..]|]).
  intros. by ws.
Qed.

Lemma keeps_org_send_invite org data h e w :
  e_uuid e = uuid → org_inv uuid w → unused uuid w org →
  keeps_inv uuid (org_send_invite org data h) e w.
Proof.
  intros He HI Hu. unfold org_send_invite.
  do 2 (ws; eapply (wp_rel org_frame); [solve [mrel]|]; intros r ? F;
    apply (inv_frame _ _ _ _ F) in HI; apply (unused_frame _ _ _ _ _ F) in Hu;
    destruct r; [clear F|done]).
  ws; [|done]. ws. ws; [done|]. ws.
  eapply wp_mono; [apply (wp_fold (λ r, inviting org (Ok r)) (org_inv uuid))|].
  - by split.
  - by intros b s [? _].
  - intros b email s _ [HIs Hus]. eapply wp_mono; [apply inviting_one; auto using valid_type_as_i32|].
    intros [] s2 [? ?]; [by split|done].
  - intros [] s2 H1; [by destruct H1; ws|done].
Qed.

(** *** Bulk handlers: every round keeps the invariant, whatever the others do. *)
Lemma keeps_bulk {A} (ids : list A) key (op : A → Handler ()) e w :
  org_inv uuid w → (∀ x w, org_inv uuid w → keeps_inv uuid (op x) e w) →
  keeps_inv uuid (bulk ids key op) e w.
Proof.
  intros HI Hop. eapply wp_mono.
  - apply (wp_fold (λ _, org_inv uuid) (org_inv uuid)); [done|done|]. intros b x w1 _ HI1.
    ws. ws. eapply wp_mono; [by apply Hop|]. by intros [|[]] w2 HI2; [ws|ws|ws|].
  - by intros [].
Qed.

Lemma keeps_bulk_confirm_invite org keys h e w :
  org_inv uuid w → keeps_inv uuid (bulk_confirm_invite org keys h) e w.
Proof.
  intros HI. unfold bulk_confirm_invite. ws. ws; [done|]. destruct keys as [keys|]; [|by ws].
  eapply wp_mono.
  - apply (wp_fold (λ _, org_inv uuid) (org_inv uuid)); [done|done|].
    intros b [oid okey] w1 _ HI1. ws. ws; [done|]. ws. ws.
    eapply wp_mono; [by apply keeps_confirm_invite_impl|]. by intros [|[]] w2 HI2; [ws|ws|ws|].
  - by intros [].
Qed.

(** *** Emergency access *)

(** A takeover removes the grantor from the organizations it does not own. *)
Lemma keeps_leave_not_owned l e w :
  org_inv uuid w →
  (∀ m x, m ∈ l → i32_eq (m_atype m) Owner = false → x ∈ ms w → m_uuid x = m_uuid m →
          i32_eq (m_atype x) Owner = false) →
  keeps_inv uuid
    (mfor l (λ m, if negb (i32_eq (m_atype m) Owner) then Membership_delete m else mret ())) e w.
Proof.
  revert w. induction l as [|m l IH]; intros w HI Hl; simpl; [done|]. ws.
  destruct (i32_eq (m_atype m) Owner) eqn:Ho; simpl.
  { ws. apply IH; [done|]. intros m' x Hm'. apply Hl. set_solver. }
  apply wp_Membership_delete. intros w' F. apply IH.
  - eapply inv_frame; [exact F|]. apply inv_delete; [done|].
    intros o Hor. destruct (inv_owner _ _ HI o Hor) as (x & Hx & Hxo). exists x.
    split_and!; [done|done|]. apply eqb_str_false. intros E.
    pose proof (owner_type _ _ Hxo). rewrite (Hl m x) in *; set_solver.
  - destruct F as [-> _]. intros m' x Hm' ? [Hx _]%elem_of_delete_where. apply Hl; set_solver.
Qed.

Lemma set_password_uuid u p k b n e w :
  wp (User_set_password u p k b n) e w (λ r _, ∀ u', r = Ok u' → u_uuid u' = u_uuid u).
Proof.
  unfold User_set_password, User_set_stamp_exception, User_reset_security_stamp.
  ws. ws; [by ws|]. do 4 ws. destruct n, k, b; repeat ws; try by intros ? [= <-].
  all: eapply (wp_rel (λ _ _ _, True)); [done|].
  all: intros [|] ? _; repeat ws; by (intros ? [= <-]).
Qed.

(** A new password for an account that exists touches no membership. *)
Lemma keeps_new_password {A} u p k b n (rest : User → Handler A) e w :
  org_inv uuid w → u ∈ users (w_db w) →
  (∀ u' w', ms w' = ms w → org_inv uuid w' → keeps_inv uuid (rest u') e w') →
  keeps_inv uuid (user ← User_set_password u p k b n; user ← User_save user; rest user) e w.
Proof.
  intros HI Hu Hrest. ws. eapply wp_mono; [apply wp_and; [apply set_password_uuid|apply wp_and]|].
  { apply (wp_rel org_frame _ _ _ (λ _ w', org_frame e w w')); [mrel|done]. }
  { apply (wp_rel (same_part users) _ _ _ (λ _ w', same_part users e w w')); [mrel|done]. }
  intros [u1|x] w1 (Eu & F1 & Es); [|by eapply inv_frame]. specialize (Eu u1 eq_refl).
  pose proof F1 as [Em1 _]. apply (inv_frame uuid _ _ _ F1) in HI. rewrite <-Es in Hu.
  ws. apply wp_User_save; [done|]. intros _ _ u2. assert (u_uuid u2 = u_uuid u1) as Eu2 by done.
  pose proof (frame_known_user e w1 u u2 Hu (eq_trans Eu2 Eu)) as F2. pose proof F2 as [Em2 _].
  apply (inv_frame uuid _ _ _ F2) in HI. apply Hrest; [congruence|done].
Qed.

Lemma keeps_password_emergency_access emer hash key h e w :
  org_inv uuid w → keeps_inv uuid (password_emergency_access emer hash key h) e w.
Proof.
  intros HI. unfold password_emergency_access. wo. wframe_with ltac:(mrel). do 10 (wo; try done).
  apply first_row_Some in Hx0 as [_ Hu].
  apply keeps_new_password; [done|done|]. intros u2 w2 _ HI2.
  ws. wframe_with ltac:(mrel). ws. ws. apply keeps_leave_not_owned; [done|].
  intros m x [_ Hm]%elem_of_sel Ho Hx' E. assert (x = m) as ->; [|done].
  by eapply pk_unique_inj; [apply (inv_pk _ _ HI2)|..].
Qed.

(** An account for an invited address. *)
Lemma keeps_new_account email e w :
  e_uuid e = uuid → org_inv uuid w →
  keeps_inv uuid (user ← User_new email None; user ← User_save user; mret (user, true)) e w.
Proof.
  intros He HI. ws. apply wp_User_new. intros u w2 Eu Edb Hlt. ws.
  assert (org_inv uuid w2) as HI2.
  { eapply (inv_frame _ e w); [|done]. unfold org_frame. rewrite Edb. split_and!; done || lia. }
  apply wp_User_save; [done|]. intros _ _ u'. ws.
  eapply inv_new_user; [done| |exact Hlt]. simpl. congruence.
Qed.

Lemma keeps_ea_send_invite data h e w :
  e_uuid e = uuid → org_inv uuid w → keeps_inv uuid (ea_send_invite data h) e w.
Proof.
  intros He HI. unfold ea_send_invite. wo. wframe_with ltac:(mrel). wo. wo. wo; [|by wo].
  wo. wo; [done|]. wo. unfold User_find_by_mail. ws. ws. ws. ws.
  eapply (wp_mono _ _ _ (λ _ w, org_inv uuid w)).
  { ws; [by ws|]. ws. ws. ws. ws; [done|]. ws. ws. ws. ws; [done|]. ws. wframe_with ltac:(mrel).
    by apply keeps_new_account. }
  intros [[u b]|] w2 HI2; [|done]. eapply (wp_rel org_frame); [mrel|]. intros. by eapply inv_frame.
Qed.
End handlers.
