(* ===== verification/RecoverySafety.v ===== *)
(** The handlers for the keys of an organization and the recovery of its members'
    accounts keep the memberships and the organizations well formed. *)
From S2P Require Import Prelude Table Schema Roles Users Memberships Policies Vault Devices Auth.
From S2P Require Import Settings Emergency Accounts Orgs AccountOps CipherOps OrgCollections.
From S2P Require Import OrgInv Guards OrgSafety.

Section recovery.
Context (uuid : nat → string).
Implicit Types (e : Env) (w : World).

Lemma keeps_post_org_keys org_id data h e w :
  org_inv uuid w → keeps_inv uuid (post_org_keys org_id data h) e w.
Proof.
  intros HI. unfold post_org_keys. do 8 (wo; try done).
  wo. apply wp_Organization_save; [done|]. intros w1 F1.
  apply (inv_frame uuid) in F1; [by ws|].
  apply inv_org; [done|]. apply first_row_Some in Hx as [_ Ho]. simpl.
  by apply (inv_owner _ _ HI).
Qed.

(** A step that leaves accounts, memberships and organizations alone. *)
Lemma wp_quiet {A} (m : Handler A) e w (Q : res A → World → Prop) :
  m_rel org_frame m → m_rel (same_part users) m → org_inv uuid w →
  (∀ r w', users (w_db w') = users (w_db w) → ms w' = ms w → org_inv uuid w' → Q r w') →
  wp m e w Q.
Proof.
  intros H1 H2 HI HQ. eapply wp_mono; [apply wp_and|].
  { apply (wp_rel org_frame _ _ _ (λ _ w', org_frame e w w')); [done|done]. }
  { apply (wp_rel (same_part users) _ _ _ (λ _ w', same_part users e w w')); [done|done]. }
  intros r w1 [F Es]. apply HQ; [done|by destruct F|by eapply inv_frame].
Qed.

Lemma keeps_put_reset_password org_id member_id d h e w :
  org_inv uuid w → keeps_inv uuid (put_reset_password org_id member_id d h) e w.
Proof.
  intros HI. unfold put_reset_password. do 10 (wo; try done).
  do 4 (wo; try done). apply first_row_Some in Hx0 as [_ Hu]. ws.
  apply wp_quiet; [mrel|mrel|done|]. intros r w1 Ew _ HI1. rewrite <-Ew in Hu.
  destruct r as [[]|x]; [|done]. ws. ws; [done|]. ws. ws; [done|]. ws.
  apply wp_quiet; [mrel|mrel|done|]. intros r w2 Ew2 _ HI2. rewrite <-Ew2 in Hu.
  destruct r as [r|x]; [|done]. ws. destruct r as [x|[]]; [by ws|]. ws.
  apply keeps_new_password; [done|done|]. intros u2 w3 _ HI3.
  eapply (wp_rel org_frame); [mrel|]. intros. by eapply inv_frame.
Qed.

Lemma keeps_put_reset_password_enrollment org_id user_id d h e w :
  org_inv uuid w → om_membership h ∈ ms w →
  keeps_inv uuid (put_reset_password_enrollment org_id user_id d h) e w.
Proof.
  intros HI Hm. unfold put_reset_password_enrollment. cbv zeta.
  set (key := match rpe_reset_password_key d with Some _ => _ | None => _ end). clearbody key.
  ws. ws; [done|]. do 4 (ws; first [wframe_with ltac:(mrel) | ws; [done|]]).
  ws. eapply wp_mono.
  { eapply (keeps_save uuid _ _ (om_membership h)).
    all: try done; simpl.
    - by apply (inv_status _ _ HI).
    - by apply (inv_type _ _ HI).
    - by left. }
  intros [|] w4 HI4; [|done]. eapply (wp_rel org_frame); [mrel|]. intros. by eapply inv_frame.
Qed.
End recovery.
