(* ===== verification/AccountSafety.v ===== *)
(** The handlers of accounts, logins, second factors and ciphers keep the
    invariant of organizations and memberships.  Most of them change neither;
    they save the caller's account ([user_frame]).  A few revoke memberships
    (the second factor policy), accept invitations or remove the account: they
    are followed with [preserves], which also says what a handler hands on. *)
From S2P Require Import Prelude Table Schema Roles Users Memberships Groups Collections Events.
From S2P Require Import Policies Vault Ciphers Util Settings Devices AuthRequests Auth Sends Emergency Accounts.
From S2P Require Import Orgs TwoFactors Login AccountOps CipherOps KeyRotation OrgInv Guards OrgSafety.

(** ** Saving the caller's own account *)

(** Memberships and organizations unchanged; the only new account id there may
    be is [uid]. *)
Definition user_frame (uid : UserId) (e : Env) (w w' : World) : Prop :=
  ms w' = ms w ∧ organizations (w_db w') = organizations (w_db w) ∧
  map u_uuid (users (w_db w')) ⊆ uid :: map u_uuid (users (w_db w)) ∧
  w_draws w ≤ w_draws w'.

#[export] Instance user_frame_preorder uid e : PreOrder (user_frame uid e).
Proof.
  split.
  - intros w. split_and!; [done|done|set_solver|lia].
  - intros w1 w2 w3 (H1&H2&H3&H4) (K1&K2&K3&K4). split_and!; [congruence..| |lia]. set_solver.
Qed.

Lemma user_frame_org uid {A} (m : Handler A) : m_rel org_frame m → m_rel (user_frame uid) m.
Proof.
  apply m_rel_weaken. intros e w w' (H1&H2&H3&H4). split_and!; [done..|set_solver|done].
Qed.

Lemma inv_user_frame uuid uid e w w' :
  user_frame uid e w w' → unused uuid w uid → org_inv uuid w → org_inv uuid w'.
Proof.
  intros (Em & Eo & Eu & Hd) Huid [H1 H2 H3 H4 H5 H6 H7].
  split; rewrite ?Em, ?Eo; try done.
  - intros m Hm. destruct (H5 m Hm) as (U1 & U2 & U3). split_and!; intros n ?; [apply U1|apply U2|apply U3]; lia.
  - intros u Hu n Hn. assert (w_draws w ≤ n) as Hn' by lia.
    assert (u_uuid u ∈ uid :: map u_uuid (users (w_db w))) as [->|(u0 & Hu0 & ->)%elem_of_map]%elem_of_cons.
    { apply Eu, elem_of_map. eauto. }
    + by apply Huid.
    + by apply H6.
Qed.

Lemma user_frame_save uid u : u_uuid u = uid → m_rel (user_frame uid) (User_save u).
Proof.
  intros <- e w. change (wp (User_save u) e w (λ _ w', user_frame (u_uuid u) e w w')).
  apply wp_User_save; [done|]. intros _ _ u'. split_and!; simpl; [done..| |lia].
  intros x (y & [->|[Hy _]]%elem_of_upsert & ->)%elem_of_map; [left|right; apply elem_of_map; eauto].
Qed.


(** The account a step hands on is the one it was given. *)
Definition is_user (uid : UserId) (u : User) : Prop := u_uuid u = uid.

Ltac same_user := unfold is_user, set_keys in *; repeat case_match; simpl in *; congruence.
#[export] Hint Extern 1 (is_user _ _) => same_user : mret mrel.
#[export] Hint Extern 1 (u_uuid _ = _) => same_user : mrel.

Lemma ret_User_save uid u : is_user uid u → m_ret (is_user uid) (User_save u).
Proof. intros. mrets same_user. Qed.

Lemma ret_reset_security_stamp uid u :
  is_user uid u → m_ret (is_user uid) (User_reset_security_stamp u).
Proof. intros. mrets same_user. Qed.

Lemma ret_set_stamp_exception uid u l :
  is_user uid u → m_ret (is_user uid) (User_set_stamp_exception u l).
Proof. intros. mrets same_user. Qed.
#[export] Hint Resolve ret_User_save ret_reset_security_stamp ret_set_stamp_exception : mret.

Lemma ret_set_password uid u p k b l :
  is_user uid u → m_ret (is_user uid) (User_set_password u p k b l).
Proof. intros. mrets same_user. Qed.

Lemma ret_set_kdf_data uid u d : is_user uid u → m_ret (is_user uid) (set_kdf_data u d).
Proof. intros. mrets same_user. Qed.

Lemma ret_save_or_log uid u : is_user uid u → m_ret (is_user uid) (save_or_log u).
Proof.
  intros H e w u' w'. unfold save_or_log, mbind, M_bind, try_.
  pose proof (ret_User_save uid u H e w). destruct (User_save u e w) as [[a|[]] s']; intros [= <- _]; eauto.
Qed.
#[export] Hint Resolve ret_set_password ret_set_kdf_data ret_save_or_log : mret.

Lemma ret_kdf_upgrade uid u p : is_user uid u → m_ret (is_user uid) (kdf_upgrade u p).
Proof. intros. mrets same_user. Qed.
#[export] Hint Resolve ret_kdf_upgrade : mret.

(** An operation that hands on the caller's account. *)
Ltac urel_step :=
  first
    [ lazymatch goal with
      | |- m_rel (user_frame ?uid) (@mbind _ _ User _ _ _) =>
        apply (m_rel_bind_ret (user_frame uid) (is_user uid)); [| solve [mrets same_user] | intros ? ?]
      end
    | solve [eauto with mrel]
    | mrel_step ].
Ltac urel := repeat urel_step.

#[export] Hint Resolve user_frame_save : mrel.
#[export] Hint Resolve user_frame_org | 5 : mrel.

Lemma user_frame_set_password uid u p k b l : m_rel (user_frame uid) (User_set_password u p k b l).
Proof. urel. Qed.

Lemma user_frame_post_profile a h : m_rel (user_frame (u_uuid (h_user h))) (post_profile a h).
Proof. unfold post_profile. urel. Qed.

Lemma user_frame_put_avatar a h : m_rel (user_frame (u_uuid (h_user h))) (put_avatar a h).
Proof. unfold put_avatar. urel. Qed.

Lemma user_frame_post_keys a h : m_rel (user_frame (u_uuid (h_user h))) (post_keys a h).
Proof. unfold post_keys. urel. Qed.

Lemma user_frame_post_password a h : m_rel (user_frame (u_uuid (h_user h))) (post_password a h).
Proof. unfold post_password. urel. Qed.

Lemma user_frame_post_kdf a h : m_rel (user_frame (u_uuid (h_user h))) (post_kdf a h).
Proof. unfold post_kdf. urel. Qed.

Lemma user_frame_post_sstamp a h : m_rel (user_frame (u_uuid (h_user h))) (post_sstamp a h).
Proof. unfold post_sstamp. urel. Qed.

Lemma user_frame_post_email_token a h : m_rel (user_frame (u_uuid (h_user h))) (post_email_token a h).
Proof. unfold post_email_token. urel. Qed.

Lemma user_frame_post_email a h : m_rel (user_frame (u_uuid (h_user h))) (post_email a h).
Proof. unfold post_email. urel. Qed.

Lemma user_frame_update_api_key a b h : m_rel (user_frame (u_uuid (h_user h))) (update_api_key a b h).
Proof. unfold update_api_key. urel. Qed.

Lemma user_frame_verify_password a h : m_rel (user_frame (u_uuid (h_user h))) (verify_password a h).
Proof. unfold verify_password. urel. Qed.

Lemma user_frame_put_device_token a b h : m_rel (user_frame (u_uuid (h_user h))) (put_device_token a b h).
Proof. unfold put_device_token. urel. Qed.

Lemma user_frame_get_public_keys a h : m_rel (user_frame (u_uuid (h_user h))) (get_public_keys a h).
Proof. unfold get_public_keys. urel. Qed.

Lemma user_frame_post_verify_email  h : m_rel (user_frame (u_uuid (h_user h))) (post_verify_email  h).
Proof. unfold post_verify_email. urel. Qed.

#[export] Hint Resolve user_frame_post_profile user_frame_put_avatar user_frame_post_keys user_frame_post_password user_frame_post_kdf user_frame_post_sstamp user_frame_post_email_token user_frame_post_email user_frame_update_api_key user_frame_verify_password user_frame_put_device_token user_frame_get_public_keys user_frame_post_verify_email : mrel.

(** ** Handlers that also touch memberships *)

(** Ids are drawn, never given back. *)
Definition draws_grow (e : Env) (w w' : World) : Prop := w_draws w ≤ w_draws w'.

#[export] Instance draws_grow_preorder e : PreOrder (draws_grow e).
Proof. split; [intros w; apply Nat.le_refl | intros w1 w2 w3; apply Nat.le_trans]. Qed.

Lemma draws_get_uuid : m_rel draws_grow get_uuid.
Proof. intros e w. unfold draws_grow. simpl. lia. Qed.
Lemma draws_get_random : m_rel draws_grow get_random.
Proof. intros e w. unfold draws_grow. simpl. lia. Qed.
Lemma draws_emit x : m_rel draws_grow (emit x).
Proof. intros e w. unfold draws_grow. simpl. lia. Qed.
Lemma draws_send_mail m : m_rel draws_grow (send_mail m).
Proof. intros e w. unfold draws_grow, send_mail. case_match; simpl; lia. Qed.
#[export] Hint Resolve draws_get_uuid draws_get_random draws_emit draws_send_mail : mrel.
#[export] Hint Extern 2 (m_rel draws_grow (modify_part _ _ _)) =>
  apply m_rel_modify; intros; apply Nat.le_refl : mrel.

Create HintDb pres discriminated.
#[export] Hint Constants Opaque : pres.

Section account.
Context (uuid : nat → string) (uid : UserId).

(** The invariant, and the caller's id is not drawn again. *)
Definition inv_with (w : World) : Prop := org_inv uuid w ∧ unused uuid w uid.

(** From a state with [inv_with], to one with it again, on every path; the
    result satisfies [P]. *)
Definition preserves {A} (P : A → Prop) (m : Handler A) : Prop :=
  ∀ e w, e_uuid e = uuid → inv_with w →
    wp m e w (λ r w', inv_with w' ∧ ∀ a, r = Ok a → P a).

Lemma preserves_bind {A B} (Q : A → Prop) (P : B → Prop) (m : Handler A) (k : A → Handler B) :
  preserves Q m → (∀ a, Q a → preserves P (k a)) → preserves P (m ≫= k).
Proof.
  intros Hm Hk e w He HI. ws. eapply wp_mono; [by apply Hm|].
  intros [a|x] w' [HI' HQ]; [|done]. apply Hk; auto.
Qed.

Lemma preserves_frame {A} (P : A → Prop) (m : Handler A) :
  m_rel (user_frame uid) m → m_ret P m → preserves P m.
Proof.
  intros Hm HP e w He [HI Hu]. unfold wp. split.
  - pose proof (Hm e w) as F. split; [by eapply inv_user_frame|].
    intros n Hn. apply Hu. destruct F as (_ & _ & _ & ?). lia.
  - intros a Ha. eapply HP. by rewrite (surjective_pairing (m e w)), Ha.
Qed.

Lemma preserves_keeps {A} (P : A → Prop) (m : Handler A) :
  (∀ e w, e_uuid e = uuid → inv_with w → keeps_inv uuid m e w) → m_rel draws_grow m → m_ret P m →
  preserves P m.
Proof.
  intros Hm Hd HP e w He HI. unfold wp. split.
  - split; [by apply Hm|]. intros n Hn. apply HI. pose proof (Hd e w). unfold draws_grow in *. lia.
  - intros a Ha. eapply HP. by rewrite (surjective_pairing (m e w)), Ha.
Qed.

Lemma preserves_weaken {A} (P : A → Prop) (m : Handler A) : preserves P m → preserves (λ _, True) m.
Proof. intros H e w He HI. eapply wp_mono; [by apply H|]. naive_solver. Qed.

Lemma preserves_run {A} (P : A → Prop) (m : Handler A) e w :
  preserves P m → e_uuid e = uuid → inv_with w → keeps_inv uuid m e w.
Proof. intros H He HI. eapply wp_mono; [by apply H|]. by intros r w' [[? ?] _]. Qed.

Lemma preserves_try {A} (m : Handler A) : preserves (λ _, True) m → preserves (λ _, True) (try_ m).
Proof. intros H e w He HI. apply wp_try. eapply wp_mono; [by apply H|]. by intros [a|[]] w' [? _]. Qed.

Lemma preserves_try_event {A} (m : Handler A) :
  preserves (λ _, True) m → preserves (λ _, True) (try_event m).
Proof. intros H e w He HI. apply wp_try_event. eapply wp_mono; [by apply H|]. by intros [a|[]] w' [? _]. Qed.

Lemma preserves_enforce_2fa_policy u i d ip : preserves (λ _, True) (enforce_2fa_policy u i d ip).
Proof.
  apply preserves_keeps; [intros e w _ [HI _]; by apply keeps_enforce_2fa_policy|mrel|apply m_ret_any].
Qed.
End account.

(** A [preserves] proof: the account is followed through the binds; a leaf is an
    operation with a lemma of its own, or a frame. *)
Ltac pres :=
  first [solve [eauto with nocore pres] | pres_step]
with pres_step :=
  lazymatch goal with
  | |- preserves ?uu ?uid _ (@mbind _ _ User _ _ _) =>
    apply (preserves_bind uu uid (is_user uid)); [pres | intros ? ?; pres]
  | |- preserves ?uu ?uid _ (@mbind _ _ (User * Device) _ _ _) =>
    apply (preserves_bind uu uid (λ r, is_user uid r.1)); [pres | intros [? ?] ?; pres]
  | |- preserves ?uu ?uid _ (@mbind _ _ (User * Device * option string) _ _ _) =>
    apply (preserves_bind uu uid (λ r, is_user uid r.1.1)); [pres | intros [[? ?] ?] ?; pres]
  | |- preserves ?uu ?uid _ (mbind _ _) =>
    apply (preserves_bind uu uid (λ _, True)); [pres | intros ? _; pres]
  | |- preserves _ _ _ (if ?c then _ else _) => destruct c; pres
  | |- preserves _ _ _ (match ?x with _ => _ end) => destruct x eqn:?; pres
  | |- preserves _ _ _ (try_ _) => apply preserves_try; pres
  | |- preserves _ _ _ (try_event _) => apply preserves_try_event; pres
  | |- _ => try (apply preserves_frame; [solve [urel] | first [apply m_ret_any | solve [mrets ltac:(same_user)]]])
  end.
#[export] Hint Resolve preserves_enforce_2fa_policy : pres.

Section login_handlers.
Context (uuid : nat → string) (pv : Providers).

Lemma user_frame_provider uid {A} (m : Handler A) :
  m_rel provider_frame m → m_rel (user_frame uid) m.
Proof.
  apply m_rel_weaken. intros e w w' (E & _ & D & _). unfold user_frame. rewrite E.
  split_and!; simpl; [done..|set_solver|done].
Qed.

Lemma user_frame_generate_webauthn uid u : m_rel (user_frame uid) (generate_webauthn_login pv u).
Proof. apply user_frame_provider, generate_webauthn_frame. Qed.
Lemma user_frame_validate_webauthn uid u c : m_rel (user_frame uid) (validate_webauthn_login pv u c).
Proof. apply user_frame_provider, validate_webauthn_frame. Qed.
Lemma user_frame_generate_duo uid m d : m_rel (user_frame uid) (generate_duo pv m d).
Proof. apply user_frame_provider, generate_duo_frame. Qed.
Lemma user_frame_validate_duo uid m c d : m_rel (user_frame uid) (validate_duo_login pv m c d).
Proof. apply user_frame_provider, validate_duo_frame. Qed.
Hint Resolve user_frame_generate_webauthn user_frame_validate_webauthn user_frame_generate_duo
  user_frame_validate_duo : mrel.

Lemma draws_provider {A} (m : Handler A) : m_rel provider_frame m → m_rel draws_grow m.
Proof. apply m_rel_weaken. by intros e w w' (_ & _ & D & _). Qed.

Lemma user_frame_json_err uid l u d v : m_rel (user_frame uid) (json_err_twofactor pv l u d v).
Proof. urel. Qed.
Lemma user_frame_err_twofactor uid {A} l u d v msg :
  m_rel (user_frame uid) (err_twofactor pv l u d v msg : Handler A).
Proof. unfold err_twofactor. pose proof user_frame_json_err. urel. Qed.
Hint Resolve user_frame_json_err user_frame_err_twofactor : mrel.


Lemma preserves_check_factor uid u data device ip v tfs ids id code :
  is_user uid u → preserves uuid uid (λ r, is_user uid r.1)
    (check_factor pv u data device ip v tfs ids id code).
Proof. intros Hu. unfold check_factor. pres. Qed.
Hint Resolve preserves_check_factor : pres.


Lemma preserves_twofactor_auth uid u data device ip v :
  is_user uid u → preserves uuid uid (λ r, is_user uid r.1.1) (twofactor_auth pv u data device ip v).
Proof.
  intros Hu. unfold twofactor_auth. pres.
Qed.
Hint Resolve preserves_twofactor_auth : pres.

Lemma preserves_password_login_as u data ip v :
  preserves uuid (u_uuid u) (λ _, True) (password_login_as pv u data ip v).
Proof. unfold password_login_as. assert (is_user (u_uuid u) u) by done. pres. Qed.

(** A part that keeps the invariant, and a rest that is a frame. *)
Lemma keeps_then_frame {A B} (m : Handler A) (k : A → Handler B) e w :
  keeps_inv uuid m e w → (∀ a, m_rel org_frame (k a)) → keeps_inv uuid (m ≫= k) e w.
Proof.
  intros Hm Hk. ws. eapply wp_mono; [exact Hm|]. intros [a|] w' HI; [|done].
  eapply wp_rel; [apply Hk|]. intros. by eapply inv_frame.
Qed.

(** An operation on an account that is there. *)
Lemma keeps_for_user {A} (P : A → Prop) (m : Handler A) u e w :
  e_uuid e = uuid → org_inv uuid w → u ∈ users (w_db w) → preserves uuid (u_uuid u) P m →
  keeps_inv uuid m e w.
Proof. intros He HI Hu Hm. eapply preserves_run; [exact Hm|done|]. split; [done|by apply (inv_user_ids _ _ HI)]. Qed.

Lemma preserves_attempt u {A} (m : Handler A) :
  preserves uuid (u_uuid u) (λ _, True) m → preserves uuid (u_uuid u) (λ _, True) (attempt u m).
Proof. intros Hm. unfold attempt. pres. Qed.

Lemma keeps_password_login data ip v e w :
  e_uuid e = uuid → org_inv uuid w → keeps_inv uuid (password_login pv data ip v) e w.
Proof.
  intros He HI. unfold password_login. wo. wframe_with ltac:(mrel). wo. wframe_with ltac:(mrel).
  wo. wframe_with ltac:(mrel). wo. wframe_with ltac:(mrel). wo. wo. unfold User_find_by_mail. wo. wo; [|done].
  apply first_row_Some in Hx as [_ Hu].
  eapply keeps_for_user; [done|done|exact Hu|]. apply preserves_attempt, preserves_password_login_as.
Qed.

Lemma keeps_user_api_key_login data ip e w :
  e_uuid e = uuid → org_inv uuid w → keeps_inv uuid (user_api_key_login data ip) e w.
Proof.
  intros He HI. unfold user_api_key_login. wo. wframe_with ltac:(mrel). wo; [|done]. wo. wo. wo. wo; [|done].
  apply first_row_Some in Hx as [_ Hu].
  eapply keeps_for_user; [done|done|exact Hu|]. apply preserves_attempt. pres.
Qed.

(** A check that a field is there comes first. *)
Lemma keeps_check {A B} (v : option A) msg (k : () → Handler B) e w :
  org_inv uuid w → keeps_inv uuid (k ()) e w → keeps_inv uuid (check_is_some v msg ≫= k) e w.
Proof. intros HI Hk. ws. unfold check_is_some. by ws. Qed.

Lemma keeps_device_checks {A B C D} (v1 : option A) (v2 : option B) (v3 : option C) m1 m2 m3
    (k : () → Handler D) e w :
  org_inv uuid w → keeps_inv uuid (k ()) e w →
  keeps_inv uuid ((_ ← check_is_some v1 m1; _ ← check_is_some v2 m2; check_is_some v3 m3) ≫= k) e w.
Proof.
  intros HI Hk. unfold check_is_some. ws. ws. ws; [done|]. ws. ws; [done|]. by ws.
Qed.

Ltac checks HI := repeat first [apply keeps_device_checks; [exact HI|] | apply keeps_check; [exact HI|]].

Lemma keeps_login sso data client v e w :
  (∀ d c v, keeps_inv uuid (sso d c v) e w) →
  e_uuid e = uuid → org_inv uuid w → keeps_inv uuid (login pv sso data client v) e w.
Proof.
  intros Hsso He HI. unfold login. apply keeps_then_frame; [|intros [? ?]; mrel].
  unfold login_result. ws. ws. ws. ws. ws; [|ws; [|ws; [|ws]]]; try done.
  - checks HI. eapply (wp_rel org_frame); [mrel|]. intros. by eapply inv_frame.
  - ws. ws; [done|]. checks HI. apply keeps_then_frame; [by apply keeps_password_login|intros [? ?]; mrel].
  - checks HI. unfold api_key_login. wo. wframe_with ltac:(mrel). ws.
    + apply keeps_then_frame; [by apply keeps_user_api_key_login|intros [? ?]; mrel].
    + eapply (wp_rel org_frame); [mrel|]. intros. by eapply inv_frame.
  - ws; [|done]. checks HI. apply Hsso.
Qed.
End login_handlers.

(** ** The larger operations on ciphers and sends *)
Lemma frame_update_cipher_from_data c d h s u : m_rel org_frame (update_cipher_from_data c d h s u).
Proof. mrel. Qed.
Lemma frame_update_send_from_data s d h u : m_rel org_frame (update_send_from_data s d h u).
Proof. mrel. Qed.
#[export] Hint Resolve frame_update_cipher_from_data frame_update_send_from_data : mrel.
Lemma frame_share_cipher i d h u : m_rel org_frame (share_cipher_by_uuid i d h u).
Proof. mrel. Qed.
Lemma frame_save_attachment a i d h : m_rel org_frame (save_attachment a i d h).
Proof. mrel. Qed.
Lemma frame_rotate_sends h ex l : m_rel org_frame (rotate_sends h ex l).
Proof. mrel. Qed.
Lemma frame_rotate_ciphers h ex l : m_rel org_frame (rotate_ciphers h ex l).
Proof. mrel. Qed.
#[export] Hint Resolve frame_share_cipher frame_save_attachment frame_rotate_sends
  frame_rotate_ciphers : mrel.

(** ** Second factors, registration, removal *)
Section more_handlers.
Context (uuid : nat → string) (uuid_inj : ∀ i j, uuid i = uuid j → i = j).

Lemma user_frame_activate_authenticator d h :
  m_rel (user_frame (u_uuid (h_user h))) (activate_authenticator d h).
Proof. unfold activate_authenticator. urel. Qed.

Lemma user_frame_email_activate d h :
  m_rel (user_frame (u_uuid (h_user h))) (email_activate d h).
Proof. unfold email_activate. urel. Qed.

Lemma preserves_disable_authenticator d h :
  preserves uuid (u_uuid (h_user h)) (λ _, True) (disable_authenticator d h).
Proof. unfold disable_authenticator. pres. Qed.

(** Invitations that turn into accepted memberships. *)
Lemma keeps_accept_user_invitations user e w :
  org_inv uuid w → keeps_inv uuid (Membership_accept_user_invitations user) e w.
Proof.
  intros [H1 H2 H3 H4 H5 H6 H7]. apply wp_write.
  set (t := update_where _ _ _).
  assert (∀ m, m ∈ t → ∃ m0, m0 ∈ ms w ∧ m_uuid m = m_uuid m0 ∧ user_org m = user_org m0 ∧
    m_atype m = m_atype m0 ∧ (m_status m = m_status m0 ∨ m_status m = MembershipStatus_as_i32 Accepted)) as Ht.
  { intros m (y & Hy & ->)%elem_of_update_where. exists y. split; [done|]. by case_match; naive_solver. }
  split; simpl.
  - unfold pk_unique, t in *. rewrite update_where_fmap; [done|]. by intros.
  - unfold t. rewrite update_where_fmap; [done|]. by intros.
  - intros m (m0 & Hm0 & _ & _ & _ & [->| ->])%Ht; [by apply H3|by apply valid_status_as_i32].
  - intros m (m0 & Hm0 & _ & _ & -> & _)%Ht. by apply H4.
  - intros m (m0 & Hm0 & -> & [= -> ->] & _)%Ht. by apply H5.
  - done.
  - intros o Ho. destruct (H7 o Ho) as (x & Hx & Hxo). exists x. split; [|done].
    apply elem_of_update_where. exists x. split; [done|].
    by rewrite (owner_confirmed _ _ Hxo), andb_false_r.
Qed.

Lemma preserves_accept_user_invitations uid user :
  preserves uuid uid (λ _, True) (Membership_accept_user_invitations user).
Proof.
  apply preserves_keeps; [|mrel|apply m_ret_any]. intros e w _ [HI _].
  by apply keeps_accept_user_invitations.
Qed.
Hint Resolve preserves_accept_user_invitations : pres.

(** A membership found, and its invitation accepted. *)
Lemma preserves_accept_found uid user org msg key :
  preserves uuid uid (λ _, True)
    (membership ← some_or (query (Membership_find_by_user_and_org (u_uuid user) org)) msg;
     accept_org_invite user membership key).
Proof.
  apply preserves_keeps; [|mrel|apply m_ret_any]. intros e w _ [HI _]. wo. wo. wo. wo; [|done].
  apply first_row_Some in Hx as [_ Hm]. by eapply keeps_accept_org_invite.
Qed.
Hint Resolve preserves_accept_found : pres.

Lemma preserves_post_set_password d h :
  preserves uuid (u_uuid (h_user h)) (λ _, True) (post_set_password d h).
Proof.
  unfold post_set_password. pres.
Qed.

Lemma keeps_post_verify_email_token id token e w :
  org_inv uuid w → keeps_inv uuid (post_verify_email_token id token) e w.
Proof.
  intros HI. unfold post_verify_email_token. wo. wo. wo. wo; [|done]. do 8 (wo; try done).
  apply first_row_Some in Hx as [_ Hu]. unfold ignore. ws. ws. apply wp_User_save; [by repeat ws|].
  intros _ _ u'. repeat ws. eapply (inv_frame uuid e); [by apply (frame_known_user _ _ u u')|]. done.
Qed.

Lemma keeps_delete_account d h e w : org_inv uuid w → keeps_inv uuid (delete_account d h) e w.
Proof. intros HI. unfold delete_account. wo. wframe_with ltac:(mrel). by apply keeps_User_delete. Qed.

Lemma keeps_post_delete_recover_token id token e w :
  org_inv uuid w → keeps_inv uuid (post_delete_recover_token id token) e w.
Proof.
  intros HI. unfold post_delete_recover_token. wo. wo. wo. wo; [|done].
  wo. wo. wo. wo; [|done]. wo. wo; [done|]. by apply keeps_User_delete.
Qed.

(** Registration: the account is there already, or its id was just drawn. *)
Lemma register_user_ok data email verified pending e w :
  e_uuid e = uuid → org_inv uuid w →
  wp (register_user data email verified pending) e w
    (λ r w', org_inv uuid w' ∧ ∀ a, r = Ok a → unused uuid w' (u_uuid a.1)).
Proof.
  intros He HI. unfold register_user. ws. unfold User_find_by_mail. ws. ws.
  - apply first_row_Some in Heqo as [_ Hu%(inv_user_ids _ _ HI)].
    match goal with |- wp ?m _ _ _ =>
      assert (preserves uuid (u_uuid u) (λ a, is_user (u_uuid u) a.1) m) as Hp end.
    { assert (is_user (u_uuid u) u) by done. pres. }
    eapply wp_mono; [by apply Hp|]. intros r w' [[HI' Hu'] Hr]. split; [done|].
    intros a Ha. by rewrite (Hr a Ha).
  - ws. eapply (wp_rel org_frame); [mrel|]. intros r w0 F. apply (inv_frame uuid _ _ _ F) in HI.
    destruct r; [|done]. ws. ws. ws; [|done]. ws. apply wp_User_new. intros u w2 Eu Edb Hlt. ws.
    assert (org_inv uuid w2) as HI2.
    { eapply (inv_frame _ e w0); [|done]. unfold org_frame. rewrite Edb. split_and!; done || lia. }
    split; [done|]. intros a' [= <-]. simpl. rewrite Eu, He. intros n Hn E%uuid_inj. lia.
Qed.

Lemma keeps_register data verification e w :
  e_uuid e = uuid → org_inv uuid w →
  keeps_inv uuid (register data verification) e w.
Proof.
  intros He HI. unfold register. wo. wo. wo. wframe_with ltac:(mrel). destruct a as [[name ev] pend].
  wo. wframe_with ltac:(mrel). wo. wo. wo. wframe_with ltac:(mrel). wo.
  eapply wp_mono; [by apply register_user_ok|]. intros [[user b]|] w3 [HI3 Hu]; [|done].
  specialize (Hu _ eq_refl). simpl in Hu.
  apply (preserves_run uuid (u_uuid user) (λ _, True)); [|done|split; [exact HI3|exact Hu]].
  assert (is_user (u_uuid user) user) by done. pres.
Qed.

(** ** The rotation of the account keys *)


Lemma wp_update_found {A} p (l : list A) msg (f : A → Handler A) e w (Q : res (list A) → World → Prop) :
  Q (Err (Msg msg)) w →
  (∀ a, a ∈ l → p a = true →
     wp (f a) e w (λ r w', match r with
                           | Ok a' => ∀ l', (∀ x, x ∈ l' → x = a' ∨ x ∈ l) → Q (Ok l') w'
                           | Err x => Q (Err x) w'
                           end)) →
  wp (update_found p l msg f) e w Q.
Proof.
  intros HE Hf. unfold update_found. destruct (List.find p l) as [a|] eqn:Ea; [|done].
  apply List.find_some in Ea as [Ha%list_elem_of_In Hp]. ws. eapply wp_mono; [by apply Hf|].
  intros [a'|x] w' H; [|done]. ws. apply H. clear. induction l as [|y l IH]; simpl; [set_solver|].
  destruct (p y); set_solver.
Qed.

(** A membership with its reset password key left aside. *)
Definition row_key (m : Membership) : string * (string * string) * Z * Z := (row_ids m, m_status m).

Lemma keeps_rotate_reset_passwords ex l e w :
  org_inv uuid w → (∀ m, m ∈ ex → m ∈ ms w) → keeps_inv uuid (rotate_reset_passwords ex l) e w.
Proof.
  intros HI Hex. unfold rotate_reset_passwords.
  set (I := λ (ex : list Membership) w, org_inv uuid w ∧ ∀ m, m ∈ ex → row_key m ∈ map row_key (ms w)).
  eapply wp_mono; [apply (wp_fold I (org_inv uuid))|].
  - split; [done|]. intros m Hm. apply elem_of_map. eauto.
  - by intros b s [? _].
  - clear. intros ex d w _ [HI Hex]. apply wp_update_found; [done|]. intros m Hm _. cbv beta zeta.
    pose proof (Hex m Hm) as (m0 & Hm0 & E)%elem_of_map. injection E as E1 E2 E3 E4 E5.
    ws. apply wp_Membership_save. intros w1 F1. ws. intros l' Hl'.
    assert (org_inv uuid w1) as HI1.
    { eapply inv_frame; [exact F1|]. eapply (inv_update uuid w m0); try done; simpl.
      - unfold user_org. simpl. congruence.
      - rewrite E5. by apply (inv_status _ _ HI).
      - rewrite E4. by apply (inv_type _ _ HI).
      - unfold is_confirmed_owner. simpl. rewrite E3, E4, E5. by left. }
    split; [done|]. destruct F1 as [-> _]. simpl.
    assert (row_key (m <| m_reset_password_key := Some (urp_reset_password_key d) |>) ∈ map row_key (ms w)) as Hk
      by exact (Hex m Hm).
    assert (∀ k, k ∈ map row_key (ms w) → k ∈ map row_key
      (upsert (m <| m_reset_password_key := Some (urp_reset_password_key d) |>) (ms w))) as Hup.
    { intros k. apply key_upsert; [by intros x y [= ? _ _ _ _]|apply (inv_pk _ _ HI)|done]. }
    intros x [->|Hx]%Hl'; apply Hup; [done|by apply Hex].
  - by intros [] w' H; [destruct H|].
Qed.

Lemma keeps_post_rotatekey data h e w :
  e_uuid e = uuid → org_inv uuid w → h_user h ∈ users (w_db w) →
  keeps_inv uuid (post_rotatekey data h) e w.
Proof.
  intros He HI Hu. apply (inv_user_ids _ _ HI) in Hu. unfold post_rotatekey.
  wo. wframe_with ltac:(mrel). wo. wo; [done|]. wo. wframe_with ltac:(mrel). wo. wo.
  set (ex := find_existing _ _).
  assert (∀ m, m ∈ ex_memberships ex → m ∈ ms w1) as Hex.
  { intros m Hm. apply elem_of_sel in Hm as [_ Hm]. by apply elem_of_sel in Hm as [_ Hm]. }
  clearbody ex. do 3 (wo; wframe_with ltac:(mrel)).
  assert (w_draws w ≤ w_draws w4) as Hd by (destruct F as (_&_&_&?), F0 as (_&_&_&?), F1 as (_&_&_&?), F2 as (_&_&_&?), F3 as (_&_&_&?); lia).
  ws. eapply wp_mono; [apply wp_and; [by apply keeps_rotate_reset_passwords|]|].
  { apply (wp_rel draws_grow _ _ _ (λ _ w', draws_grow e w4 w')); [mrel|done]. }
  intros [x|] w5 [HI5 Hd5]; [|done]. unfold draws_grow in Hd5.
  apply (preserves_run uuid (u_uuid (h_user h)) (λ _, True)); [|done|split; [done|intros n Hn; apply Hu; lia]].
  assert (is_user (u_uuid (h_user h)) (h_user h)) by done. pres.
Qed.
End more_handlers.
