(* ===== verification/OrgSpec.v ===== *)
(** What the handlers on single memberships do to the membership table, and what
    follows: who may change an owner, and that one organization's administrators
    cannot reach another organization's members. *)
From S2P Require Import Prelude Table Schema Roles Users Memberships Groups Collections Events.
From S2P Require Import Policies Vault Ciphers Util Settings Devices Auth Demo Sends Emergency.
From S2P Require Import Accounts Orgs OrgInv Guards OrgSafety.

(** The operations an administrator has on one member. *)
Inductive MemberOp :=
| Edit (data : EditUserData)
| Confirm (key : option string)
| Revoke
| RestoreMember
| Remove.

Definition run_op (op : MemberOp) (org : OrganizationId) (member : MembershipId)
    (h : AdminHeaders) : Handler () :=
  match op with
  | Edit data => edit_member org member data h
  | Confirm key => confirm_invite org member key h
  | Revoke => revoke_member org member h
  | RestoreMember => restore_member org member h
  | Remove => delete_member org member h
  end.

Definition owner_row (m : Membership) : bool := i32_eq (m_atype m) Owner.

(** Nothing happened, or the row [member] of [org], the organization of the
    caller's headers, was saved or deleted; an owner row was involved only if
    the caller is an owner. *)
Inductive member_change (h : AdminHeaders) (org : OrganizationId) (member : MembershipId)
    (t : list Membership) : list Membership → Prop :=
| change_none : member_change h org member t t
| change_save m0 m :
    org = ah_org_id h → m0 ∈ t → m_uuid m0 = member → m_org_uuid m0 = org →
    m_uuid m = member → user_org m = user_org m0 →
    (ah_membership_type h = Owner ∨ owner_row m0 = false ∧ owner_row m = false) →
    member_change h org member t (upsert m t)
| change_delete m0 :
    org = ah_org_id h → m0 ∈ t → m_uuid m0 = member → m_org_uuid m0 = org →
    (ah_membership_type h = Owner ∨ owner_row m0 = false) →
    member_change h org member t (delete_where (λ x, m_uuid x == member) t).

Section changes.
Context (h : AdminHeaders) (org : OrganizationId) (member : MembershipId).
Implicit Types (e : Env) (w : World) (t : list Membership).

Definition changes {A} (m : Handler A) e w t : Prop :=
  wp m e w (λ _ w', member_change h org member t (ms w')).

(** A step that leaves the membership table alone. *)
Ltac tframe :=
  eapply (wp_rel org_frame); [solve [eauto with mrel | mrel]|];
  let r := fresh "r" in let w1 := fresh "w" in let F := fresh "F" in
  intros r w1 [F _];
  match goal with H : ms _ = ?t |- _ => rewrite H in F; clear H; rename F into H end;
  match goal with H : ms _ = _ |- _ => destruct r; [|rewrite H; first [assumption | by constructor]] end.

Ltac tdone := first [done | match goal with H : ms ?w = _ |- member_change _ _ _ _ (ms ?w) =>
                             rewrite H; first [assumption | by constructor] end].
Ltac to :=
  cbv beta iota;
  lazymatch goal with
  | |- wp (some_or _ _) _ _ _ => apply wp_some_or
  | |- match ?x with _ => _ end => let H := fresh "Hx" in destruct x eqn:H
  | |- wp (if _ then _ else _) _ _ (λ _ w, member_change _ _ _ _ (ms w)) => ws
  | |- wp (if _ then _ else _) _ _ _ => first [tframe | ws]
  | |- _ => first [ws | tframe]
  end; cbv beta iota; try tdone;
  try match goal with
      | Hf : Membership_find_by_uuid_and_org _ _ (w_db ?w) = Some _, HT : ms ?w = _ |- _ =>
        apply find_by_uuid_and_org_Some in Hf as (Eid & Eorg & Hm); rewrite HT in Hm
      end.

(** The guard [atype is .. && the caller is no owner], passed. *)
Lemma owner_guard (a : bool) :
  a && negb (bool_decide (ah_membership_type h = Owner)) = false →
  ah_membership_type h = Owner ∨ a = false.
Proof.
  intros Hg. destruct (decide (ah_membership_type h = Owner)); [by left|right].
  rewrite bool_decide_false in Hg by done. by destruct a.
Qed.

(** The write of the handlers, on the row [m0] they found; what follows it
    leaves the table alone. *)
Ltac saved m0 Hg :=
  match goal with HT : ms ?w = ?t |- wp (Membership_save ?m) _ ?w _ =>
    assert (member_change h org member t (upsert m t));
    [ eapply (change_save _ _ _ _ m0);
      [by bprop|done|done|done|first [congruence|simpl; congruence]|done|]; apply owner_guard in Hg
    | apply wp_Membership_save; intros ? [F _]; simpl in F; rewrite HT in F; clear HT; try tdone; repeat to ]
  end.

Lemma changes_revoke e w : changes (revoke_member org member h) e w (ms w).
Proof.
  unfold changes, revoke_member, revoke_member_impl. remember (ms w) as t eqn:Ht. symmetry in Ht.
  repeat to. pose proof (revoke_ids m) as (E1 & E2 & E3). saved m H1.
  unfold owner_row. rewrite E3. tauto.
Qed.

Lemma changes_restore e w : changes (restore_member org member h) e w (ms w).
Proof.
  unfold changes, restore_member, restore_member_impl. remember (ms w) as t eqn:Ht. symmetry in Ht.
  repeat to. pose proof (restore_ids m) as (E1 & E2 & E3). saved m H1.
  unfold owner_row. rewrite E3. tauto.
Qed.

Lemma not_user_is_no_owner m : negb (i32_eq (m_atype m) MUser) = false → owner_row m = false.
Proof. intros H%negb_false_iff. unfold owner_row, i32_eq in *. simpl in *. bprop. lia. Qed.

Lemma changes_confirm key e w : changes (confirm_invite org member key h) e w (ms w).
Proof.
  unfold changes, confirm_invite, confirm_invite_impl. remember (ms w) as t eqn:Ht. symmetry in Ht.
  repeat to. saved m H1. destruct H1 as [|E%not_user_is_no_owner]; [by left|by right].
Qed.

Lemma changes_edit data e w : changes (edit_member org member data h) e w (ms w).
Proof.
  unfold changes, edit_member. remember (ms w) as t eqn:Ht. symmetry in Ht.
  repeat to. saved m0 H1. apply owner_guard in H0 as [|H0]; [by left|].
  destruct H1 as [|E]; [by left|right]. split; [done|]. unfold owner_row, i32_eq in *. simpl.
  destruct m; try done. rewrite E in H0. simpl in H0. by rewrite orb_true_r in H0.
Qed.

Lemma changes_delete e w : changes (delete_member org member h) e w (ms w).
Proof.
  unfold changes, delete_member, delete_member_impl. remember (ms w) as t eqn:Ht. symmetry in Ht.
  repeat to. apply wp_Membership_delete. intros w2 [F _]. rewrite F. simpl. rewrite Ht, Eid.
  eapply (change_delete _ _ _ _ m); [by bprop|done|done|done|].
  apply owner_guard in H0 as [|E%not_user_is_no_owner]; auto.
Qed.

Lemma changes_run_op op e w : changes (run_op op org member h) e w (ms w).
Proof.
  destruct op; [apply changes_edit|apply changes_confirm|apply changes_revoke
               |apply changes_restore|apply changes_delete].
Qed.
End changes.

(** ** The theorems *)

(** C14: an administrator who is not an owner cannot touch ownership: editing,
    confirming, revoking, restoring or removing a member leaves the rows of all
    owners exactly as they were, and makes no one an owner. *)
Theorem admins_do_not_touch_owners op org member h e w r w' :
  pk_unique (users_organizations (w_db w)) → ah_membership_type h ≠ Owner →
  run_op op org member h e w = (r, w') →
  sel owner_row (users_organizations (w_db w')) = sel owner_row (users_organizations (w_db w)).
Proof.
  intros Hpk Hno Hrun. pose proof (changes_run_op h org member op e w) as Hc.
  unfold changes, wp in Hc. rewrite Hrun in Hc. simpl in Hc.
  destruct Hc as [|m0 m _ H1 H2 _ H4 _ [|[H5 H6]]|m0 _ H1 H2 _ [|H5]]; try done.
  - apply sel_upsert; [|done]. intros x Hx E. rewrite (pk_unique_inj _ x m0 Hpk Hx H1); [done|].
    unfold pk, Membership_pk in *. congruence.
  - apply sel_delete_where. intros x Hx E%eqb_str_true.
    rewrite (pk_unique_inj _ x m0 Hpk Hx H1); [done|]. unfold pk, Membership_pk. congruence.
Qed.

Lemma admins_do_not_touch_owners_witness :
  sel owner_row (users_organizations (w_db (run_op Revoke "org" "m-carol" (admin_headers bob Admin)
                                              demo_env org_world).2))
    = [demo_member "m-alice" "alice" 2 0].
Proof.
  rewrite (admins_do_not_touch_owners Revoke "org" "m-carol" (admin_headers bob Admin) demo_env
             org_world _ _ ltac:(apply (bool_decide_unpack (NoDup _)); by vm_compute)
             ltac:(discriminate) (surjective_pairing _)).
  by vm_compute.
Defined.

(** C15: the operations on one member reach only that member of that
    organization, and only when it is the organization of the caller's
    membership: every other membership row, of this organization or another
    one, is in the table afterwards exactly when it was before. *)
Theorem member_ops_are_isolated op org member h e w r w' m :
  pk_unique (users_organizations (w_db w)) → run_op op org member h e w = (r, w') →
  m_uuid m ≠ member ∨ org ≠ ah_org_id h ∨ m_org_uuid m ≠ org →
  m ∈ users_organizations (w_db w') ↔ m ∈ users_organizations (w_db w).
Proof.
  intros Hpk Hrun Hm. pose proof (changes_run_op h org member op e w) as Hc.
  unfold changes, wp in Hc. rewrite Hrun in Hc. simpl in Hc.
  assert (∀ m0, org = ah_org_id h → m0 ∈ ms w → m_uuid m0 = member → m_org_uuid m0 = org →
          m ∈ ms w → m_uuid m ≠ member) as Hne.
  { intros m0 H0 H1 H2 H3 H4 H5. assert (m = m0) as -> by (apply (pk_unique_inj _ _ _ Hpk); unfold pk, Membership_pk; congruence).
    naive_solver. }
  destruct Hc as [|m0 m1 H0 H1 H2 H3 H4 H5 _|m0 H0 H1 H2 H3 _]; [done|..].
  - rewrite elem_of_upsert. unfold pk, Membership_pk. rewrite H4. split; [|by eauto].
    intros [->|[? _]]; [|done]. injection H5 as H5 H6. destruct Hm as [|[|]]; congruence.
  - rewrite elem_of_delete_where, eqb_str_false. split; [by intros [? _]|]. by eauto.
Qed.

Lemma member_ops_are_isolated_witness :
  demo_member "m-carol" "carol" 2 2 ∈
    users_organizations (w_db (run_op Remove "org" "m-bob" (admin_headers alice Owner) demo_env
                                  org_world).2) ∧
  demo_member "m-bob" "bob" 2 1 ∉
    users_organizations (w_db (run_op Remove "org" "m-bob" (admin_headers alice Owner) demo_env
                                  org_world).2).
Proof.
  split; [|vm_compute; set_solver].
  apply (member_ops_are_isolated Remove "org" "m-bob" (admin_headers alice Owner) demo_env
    org_world _ _ (demo_member "m-carol" "carol" 2 2)
    ltac:(apply (bool_decide_unpack (NoDup _)); by vm_compute) (surjective_pairing _)).
  - by left.
  - vm_compute. set_solver.
Defined.
