(* ===== verification/PolicySpec.v ===== *)
(** What the organization policies guarantee: the check a member must pass, when
    a policy of another organization applies, and what enabling the two-factor
    and the single-organization policies does to the members. *)
From S2P Require Import Prelude Table Schema Roles Users Memberships Groups Collections Events.
From S2P Require Import Policies Vault Ciphers Util Settings Devices Auth Demo Sends Emergency.
From S2P Require Import Accounts Orgs OrgInv Guards OrgSafety.

(** ** Loops that revoke *)

(** One round: [m] is saved revoked when [c] says so. *)
Definition revoke_if (c : Membership → bool) (t : list Membership) (m : Membership)
    : list Membership :=
  if c m then upsert (Membership_revoke m).1 t else t.

Lemma elem_of_revoke_all c l t x :
  x ∈ foldl (revoke_if c) t l →
  (x ∈ t ∧ ∀ m, m ∈ l → c m = true → m_uuid x ≠ m_uuid m) ∨
  (∃ m, m ∈ l ∧ x = (Membership_revoke m).1).
Proof.
  revert t. induction l as [|m l IH]; intros t; simpl; [intros ?; left; set_solver|].
  intros [[Hx Hl]|(m' & Hm' & ->)]%IH; [|right; exists m'; set_solver].
  unfold revoke_if in Hx. destruct (c m) eqn:Hc.
  - apply elem_of_upsert in Hx as [->|[Hx Hne]]; [right; set_solver|left].
    split; [done|]. intros m' [->|Hm']%elem_of_cons Hc'; [|by apply Hl].
    unfold pk, Membership_pk in Hne. by destruct (revoke_ids m) as (<- & _).
  - left. split; [done|]. intros m' [->|Hm']%elem_of_cons Hc'; [congruence|by apply Hl].
Qed.

Lemma wp_revoke_loop c (P : World → Prop) l (f : Membership → Handler ()) e w :
  P w →
  (∀ m w, m ∈ l → P w →
     wp (f m) e w (λ r w', P w' ∧ (r = Ok () → ms w' = revoke_if c (ms w) m))) →
  wp (mfor l f) e w (λ r w', P w' ∧ (r = Ok () → ms w' = foldl (revoke_if c) (ms w) l)).
Proof.
  intros HS Hf. revert w HS. induction l as [|m l IH]; intros w HS; simpl; [done|].
  ws. eapply wp_mono; [apply Hf; [set_solver|done]|]. intros [[]|x] w1 [HS1 Em]; [|done].
  rewrite <-(Em eq_refl). apply IH; [|done]. intros; apply Hf; set_solver.
Qed.

(** A revoked row is not active. *)
Lemma revoked_inactive m s :
  m_status (Membership_revoke m).1 = MembershipStatus_as_i32 s → s ≠ Revoked →
  ¬ (m_status m ≤ 2)%Z.
Proof.
  unfold Membership_revoke. simpl. destruct (-1 <? m_status m)%Z eqn:E; simpl;
    bprop; unfold ACTIVATE_REVOKE_DIFF; destruct s; simpl; try done; lia.
Qed.

(** What the steps between the writes leave alone: memberships and factors. *)
Definition same_factors (e : Env) (w w' : World) : Prop :=
  ms w' = ms w ∧ twofactor (w_db w') = twofactor (w_db w).

#[export] Instance same_factors_preorder e : PreOrder (same_factors e).
Proof. split; [done|]. intros w1 w2 w3 [] []. split; congruence. Qed.

Lemma same_factors_write (f : Db → Db) :
  (∀ d, users_organizations (f d) = users_organizations d) →
  (∀ d, twofactor (f d) = twofactor d) → m_rel same_factors (write f).
Proof. intros H1 H2 e w. split; simpl; auto. Qed.

Lemma same_factors_send_mail m : m_rel same_factors (send_mail m).
Proof. intros e w. unfold send_mail. by destruct (e_smtp e m). Qed.

Lemma same_factors_emit x : m_rel same_factors (emit x).
Proof. done. Qed.

Lemma same_factors_get_uuid : m_rel same_factors get_uuid.
Proof. done. Qed.

#[export] Hint Resolve same_factors_send_mail same_factors_emit same_factors_get_uuid : mrel.
#[export] Hint Extern 2 (m_rel same_factors (modify_part _ _ _)) =>
  apply same_factors_write; intros; reflexivity : mrel.

Ltac sframe :=
  eapply (wp_rel same_factors); [solve [mrel]|];
  let r := fresh "r" in let w1 := fresh "w" in let F1 := fresh "F" in let F2 := fresh "G" in
  intros r w1 [F1 F2]; destruct r; [|try done].

(** ** The two-factor policy *)
Section twofactor_policy.
Context (org : OrganizationId).

(** The members the enforcement revokes. *)
Definition lacks_factor (tf : list TwoFactor) (m : Membership) : bool :=
  i32_lt (m_atype m) Admin &&
  is_empty (sel (λ t, (tf_user_uuid t == m_user_uuid m) && (tf_atype t <? 1000)%Z) tf).

Lemma wp_enforce_2fa u d i e w :
  wp (enforce_2fa_policy_for_org org u d i) e w (λ r w',
    twofactor (w_db w') = twofactor (w_db w) ∧
    (r = Ok () → ms w' = foldl (revoke_if (lacks_factor (twofactor (w_db w)))) (ms w)
                           (Membership_find_confirmed_by_org org (w_db w)))).
Proof.
  unfold enforce_2fa_policy_for_org. do 3 ws. ws; [done|]. ws. ws.
  apply (wp_revoke_loop (lacks_factor (twofactor (w_db w)))
           (λ w', twofactor (w_db w') = twofactor (w_db w))); [done|].
  intros m w1 Hm HS. ws. ws. unfold revoke_if, lacks_factor, TwoFactor_find_by_user.
  rewrite HS. ws; [|by ws]. ws. ws. ws. sframe; [|by rewrite G]. ws.
  eapply (wp_mono _ _ _ (λ r w', r = Ok () ∧ ms w' = upsert (Membership_revoke m).1 (ms w0) ∧
                                 twofactor (w_db w') = twofactor (w_db w0))); [done|].
  intros r w3 (-> & E1 & E2). sframe; split; congruence.
Qed.

(** After the loop, the confirmed members below Admin have a factor. *)
Lemma enforced_2fa tf t m :
  m ∈ foldl (revoke_if (lacks_factor tf)) t (sel (λ m, (m_org_uuid m == org) && (m is Confirmed)) t) →
  m_org_uuid m = org → m_status m = MembershipStatus_as_i32 Confirmed → lacks_factor tf m = false.
Proof.
  intros [[Hm Hl]|(m' & Hm' & ->)]%elem_of_revoke_all Eo Es.
  - apply not_true_is_false. intros Hc. apply (Hl m); [|done|done].
    apply elem_of_sel. split; [|done]. bprop. by rewrite Es.
  - apply elem_of_sel in Hm' as [Hm' _]. bprop. destruct Hm' as [_ Hs].
    exfalso. eapply (revoked_inactive m' Confirmed); [done|done|]. rewrite Hs. done.
Qed.
End twofactor_policy.

(** ** The single-organization policy *)
Section single_org.
Context (org : OrganizationId).

Definition elsewhere (t : list Membership) (user : UserId) : Z :=
  count (λ m, (m_user_uuid m == user) && (m_org_uuid m != org) &&
              ((m is Accepted) || (m is Confirmed))) t.

Definition belongs_elsewhere (t : list Membership) (m : Membership) : bool :=
  i32_lt (m_atype m) Admin && negb (m is Invited) && (0 <? elsewhere t (m_user_uuid m))%Z.

(** Changing a row of this organization changes no membership elsewhere. *)
Lemma elsewhere_upsert t m user :
  (∀ x, x ∈ t → pk x = pk m → m_org_uuid x = org) → m_org_uuid m = org →
  elsewhere (upsert m t) user = elsewhere t user.
Proof.
  intros Ht Hm. unfold elsewhere, count. rewrite sel_upsert; [done| |].
  - intros x Hx E. rewrite (Ht x Hx E), eqb_str_refl. simpl. by rewrite andb_false_r.
  - by rewrite Hm, eqb_str_refl, andb_false_r.
Qed.

Lemma wp_enforce_single_org h e w :
  pk_unique (ms w) →
  wp (enforce_single_org org h) e w (λ r w',
    (∀ user, elsewhere (ms w') user = elsewhere (ms w) user) ∧
    (r = Ok () → ms w' = foldl (revoke_if (belongs_elsewhere (ms w))) (ms w)
                           (Membership_find_by_org org (w_db w)))).
Proof.
  intros Hpk. unfold enforce_single_org. ws. ws.
  set (l := Membership_find_by_org org (w_db w)).
  assert (∀ m, m ∈ l → m ∈ ms w ∧ m_org_uuid m = org) as Hl.
  { intros m [Ho Hm]%elem_of_sel. by bprop. }
  set (P := λ w', (∀ user, elsewhere (ms w') user = elsewhere (ms w) user) ∧
                  (∀ x m, x ∈ ms w' → m ∈ l → pk x = pk m → m_org_uuid x = org)).
  assert (∀ w1 w2, ms w2 = ms w1 → P w1 → P w2) as HP by (unfold P; intros ? ? ->; done).
  eapply wp_mono; [apply (wp_revoke_loop (belongs_elsewhere (ms w)) P)|]; [| |by intros r w' [[? _] ?]].
  { split; [done|]. intros x m Hx Hm E. destruct (Hl m Hm) as [Hm' <-].
    by rewrite (pk_unique_inj _ x m Hpk Hx Hm' E). }
  clearbody l. intros m w1 Hm HP1. destruct (Hl m Hm) as [_ Ho]. ws. ws.
  rewrite Ho; change (Membership_count_accepted_and_confirmed_by_user (m_user_uuid m) org (w_db w1))
    with (elsewhere (ms w1) (m_user_uuid m)).
  pose proof HP1 as [He Hx]. unfold revoke_if, belongs_elsewhere. rewrite He.
  ws; [|by ws]. ws. ws. ws. sframe; [|by split; [apply (HP w1); [congruence|done]|]]. ws.
  sframe; [|by split; [apply (HP w1); [congruence|done]|]].
  assert (ms w2 = ms w1) as E2 by congruence.
  apply wp_Membership_save. intros w3 [F3 _]. simpl in F3. rewrite E2 in F3.
  split; [|by intros _]. unfold P. rewrite F3. destruct (revoke_ids m) as (Eid & Euo & _).
  assert (m_org_uuid (Membership_revoke m).1 = org) as Er by exact (eq_trans (f_equal snd Euo) Ho).
  split.
  - intros user. rewrite elsewhere_upsert; [done| |done]. intros x Hxin E. eapply Hx; [done|exact Hm|].
    rewrite E. unfold pk, Membership_pk. done.
  - intros x m' [->|[Hxin _]]%elem_of_upsert Hm' E; [done|by eapply Hx].
Qed.

(** After the loop, the active members below Admin are in no other organization. *)
Lemma enforced_single t m :
  (∀ x, x ∈ t → valid_status (m_status x)) →
  m ∈ foldl (revoke_if (belongs_elsewhere t)) t (sel (λ m, m_org_uuid m == org) t) →
  m_org_uuid m = org → (m is Accepted) || (m is Confirmed) = true → belongs_elsewhere t m = false.
Proof.
  intros Hv [[Hm Hl]|(m' & [_ Hm']%elem_of_sel & ->)]%elem_of_revoke_all Eo Es.
  - apply not_true_is_false. intros Hc. apply (Hl m); [|done|done].
    apply elem_of_sel. split; [|done]. by bprop.
  - exfalso. assert (m_status m' ≤ 2)%Z by (destruct (Hv m' Hm') as [[]|[]]; lia).
    apply orb_true_iff in Es as [Es%Z.eqb_eq|Es%Z.eqb_eq]; by eapply revoked_inactive.
Qed.
End single_org.

(** ** Saving a policy *)
Lemma first_row_app_fresh {R} (p : R → bool) (t : list R) r :
  (∀ x, x ∈ t → p x = false) → p r = true → first_row p (t ++ [r]) = Some r.
Proof.
  intros Ht Hr. unfold first_row. rewrite sel_app.
  assert (sel p t = []) as ->.
  { apply is_empty_true, not_false_iff_true. intros (x & [Hx ?]%elem_of_sel)%is_empty_false.
    rewrite Ht in Hx; done. }
  simpl. by rewrite Hr.
Qed.

Lemma policy_saved p t db :
  p_atype p = OrgPolicyType_as_i32 t →
  OrgPolicy_find_by_org_and_type (p_org_uuid p) t
    (db <| org_policies := upsert p (delete_where (λ x, (p_org_uuid x == p_org_uuid p) &&
                                 (p_atype x =? p_atype p)%Z) (org_policies db)) |>) = Some p.
Proof.
  intros Et. unfold OrgPolicy_find_by_org_and_type. simpl. apply first_row_app_fresh.
  - intros x [[_ Hx]%elem_of_delete_where _]%elem_of_delete_where. by rewrite <-Et.
  - bprop. by rewrite Et.
Qed.

(** What follows the enforcement in [put_policy]. *)
Lemma wp_put_policy_tail org t data h e w :
  wp (op ← query (OrgPolicy_find_by_org_and_type org t);
      policy ← match (op : option OrgPolicy) with
               | Some p => mret p
               | None => OrgPolicy_new org t false "{}"
               end;
      json ← gets (λ e _, e_json e (pd_data data));
      let policy := policy <| p_enabled := pd_enabled data |> <| p_data := json |> in
      _ ← OrgPolicy_save policy;
      _ ← log_event PolicyUpdated (p_uuid policy) org (u_uuid (ah_user h))
            (d_atype (ah_device h)) (ah_ip h);
      mret policy) e w
    (λ r w', same_factors e w w' ∧ ∀ p, r = Ok p →
       p_enabled p = pd_enabled data ∧ p_org_uuid p = org ∧
       OrgPolicy_find_by_org_and_type org t (w_db w') = Some p).
Proof.
  ws. ws. ws.
  eapply (wp_mono _ _ _ (λ r w', same_factors e w w' ∧ org_policies (w_db w') = org_policies (w_db w) ∧
    ∀ p, r = Ok p → p_org_uuid p = org ∧ p_atype p = OrgPolicyType_as_i32 t)).
  { destruct (OrgPolicy_find_by_org_and_type org t (w_db w)) as [p|] eqn:Ep.
    - ws. apply first_row_Some in Ep as [Ep _]. bprop. split_and!; [done|done|].
      by intros ? [= <-].
    - unfold OrgPolicy_new. ws. ws. ws. split_and!; [done|done|]. by intros ? [= <-]. }
  intros [p|] w1 (F1 & Ep & Hp); [|done]. destruct (Hp p eq_refl) as [Eo Et].
  ws. ws. cbv zeta. ws. unfold OrgPolicy_save. apply wp_write.
  match goal with |- context [put_db ?d w1] => set (w2 := put_db d w1) end.
  set (p1 := p <| p_enabled := pd_enabled data |> <| p_data := e_json e (pd_data data) |>).
  assert (same_factors e w w2) as F2 by (etransitivity; [exact F1|done]).
  assert (OrgPolicy_find_by_org_and_type org t (w_db w2) = Some p1) as Ef.
  { rewrite <-Eo. by apply (policy_saved p1 t (w_db w1)). }
  clearbody w2. ws. eapply wp_mono; [apply wp_and|].
  { apply (wp_rel same_factors _ _ _ (λ _ w', same_factors e w2 w')); [mrel|done]. }
  { apply (wp_rel (same_part org_policies) _ _ _ (λ _ w', same_part org_policies e w2 w')); [mrel|done]. }
  intros [u|x] w3 [F3 E3]; [ws|]; (split; [by etransitivity|]).
  - intros ? [= <-]. split_and!; [done|done|]. unfold OrgPolicy_find_by_org_and_type in *.
    by rewrite E3.
  - done.
Qed.

(** ** The theorems *)

(** The single-organization side conditions of [put_policy] and its enforcement
    loops, for an enabled policy [t]. *)
Lemma put_policy_unfold org t data h e w (Q : res OrgPolicy → World → Prop) :
  pd_enabled data = true → (∀ msg, Q (Err (Msg msg)) w) →
  wp (_ ← (if bool_decide (t = TwoFactorAuthentication)
           then enforce_2fa_policy_for_org org (u_uuid (ah_user h)) (d_atype (ah_device h)) (ah_ip h)
           else mret ());
      _ ← (if bool_decide (t = SingleOrg)
           then enforce_single_org org h else mret ());
      op ← query (OrgPolicy_find_by_org_and_type org t);
      policy ← match (op : option OrgPolicy) with
               | Some p => mret p
               | None => OrgPolicy_new org t false "{}"
               end;
      json ← gets (λ e _, e_json e (pd_data data));
      let policy := policy <| p_enabled := pd_enabled data |> <| p_data := json |> in
      _ ← OrgPolicy_save policy;
      _ ← log_event PolicyUpdated (p_uuid policy) org (u_uuid (ah_user h))
            (d_atype (ah_device h)) (ah_ip h);
      mret policy) e w Q →
  wp (put_policy org (OrgPolicyType_as_i32 t) data h) e w Q.
Proof.
  intros He HE HQ. assert (∀ b, b && pd_enabled data = b) as Hb.
  { intros b. by rewrite He, andb_true_r. }
  unfold put_policy. assert (OrgPolicyType_from_i32 (OrgPolicyType_as_i32 t) = Some t)
    as -> by by destruct t.
  do 2 ws; [apply HE|]. do 6 ws; [apply HE|]. do 4 ws; [apply HE|].
  by rewrite !Hb.
Qed.

(** Whether a member may be active in its organization: the administrators and
    the members that are not active may; the others need a second factor where
    the two-factor policy is enabled, must not be barred by the
    single-organization policy of another organization, and must not be active
    elsewhere where this organization has it. *)
Definition complies (m : Membership) (db : Db) : bool :=
  negb (i32_lt (m_atype m) Admin && (MembershipStatus_as_i32 Invited <? m_status m)%Z) ||
  negb (on_row (OrgPolicy_find_by_org_and_type (m_org_uuid m) TwoFactorAuthentication db) p_enabled
        && is_empty (TwoFactor_find_by_user (m_user_uuid m) db)) &&
  negb (OrgPolicy_is_applicable_to_user (m_user_uuid m) SingleOrg (Some (m_org_uuid m)) db) &&
  negb (on_row (OrgPolicy_find_by_org_and_type (m_org_uuid m) SingleOrg db) p_enabled
        && (0 <? Membership_count_accepted_and_confirmed_by_user (m_user_uuid m) (m_org_uuid m) db)%Z).

(** The e-mail factor, when it can be activated, is a factor. *)
Lemma wp_find_and_activate_email_2fa user e w (Q : res () → World → Prop) :
  (∀ x, Q (Err x) w) →
  (∀ w', TwoFactor_find_by_user user (w_db w') ≠ [] → ms w' = ms w →
         org_policies (w_db w') = org_policies (w_db w) → Q (Ok ()) w') →
  wp (find_and_activate_email_2fa user) e w Q.
Proof.
  intros HE HQ. unfold find_and_activate_email_2fa, activate_email_2fa. ws. ws. ws; [|ws; apply HE].
  apply first_row_Some in Heqo as [Hu _]. bprop. ws. ws; [apply HE|]. ws. unfold EmailTokenData_new.
  ws. ws. ws. ws. ws. ws. unfold TwoFactor_new. ws. ws. ws. unfold TwoFactor_save. apply wp_write.
  apply HQ; [|done|done]. intros E. unfold TwoFactor_find_by_user in E. simpl in E.
  apply (f_equal is_empty) in E. simpl in E. apply is_empty_true in E.
  eapply (not_elem_of_nil (A:=TwoFactor)). rewrite <-E. apply elem_of_sel. split.
  2:{ apply elem_of_upsert. by left. }
  simpl. rewrite Hu. by rewrite eqb_str_refl.
Qed.

Lemma applicable_ext user t x d1 d2 :
  users_organizations d2 = users_organizations d1 → org_policies d2 = org_policies d1 →
  OrgPolicy_is_applicable_to_user user t x d2 = OrgPolicy_is_applicable_to_user user t x d1.
Proof.
  intros Em Ep. unfold OrgPolicy_is_applicable_to_user,
    OrgPolicy_find_accepted_and_confirmed_by_user_and_active_policy,
    Membership_find_confirmed_by_user_and_org. by rewrite Em, Ep.
Qed.

(** C16: [OrgPolicy::check_user_allowed] decides compliance. When it succeeds,
    the member complies with the policies of every organization in the state it
    leaves (the e-mail factor may have been activated on the way); a member that
    complies passes and nothing changes; a member that does not is refused with
    an error unless the e-mail fallback is configured. *)
Theorem check_user_allowed_spec m action e w :
  (∀ w', OrgPolicy_check_user_allowed m action e w = (Ok (), w') → complies m (w_db w') = true) ∧
  (complies m (w_db w) = true → OrgPolicy_check_user_allowed m action e w = (Ok (), w)) ∧
  (complies m (w_db w) = false → email_2fa_auto_fallback (e_cfg e) = false →
   ∃ msg, OrgPolicy_check_user_allowed m action e w = (Err (Msg msg), w)).
Proof.
  split_and!.
  - intros w'. apply (wp_Ok _ _ _ _ _ (λ _ w', complies m (w_db w') = true)).
    unfold OrgPolicy_check_user_allowed, complies.
    ws; [|ws; by intros ? _]. do 7 ws.
    eapply (wp_mono _ _ _ (λ r w1, ms w1 = ms w ∧ org_policies (w_db w1) = org_policies (w_db w) ∧
      (r = Ok () → on_row (OrgPolicy_find_by_org_and_type (m_org_uuid m) TwoFactorAuthentication
         (w_db w1)) p_enabled && is_empty (TwoFactor_find_by_user (m_user_uuid m) (w_db w1)) = false))).
    { ws; [|ws; by split_and!]. ws; [|ws; by split_and!].
      apply wp_find_and_activate_email_2fa; [intros x; by split_and!|]. intros w1 Hf Em Ep.
      split_and!; [done|done|intros _]. apply andb_false_iff. right.
      apply not_true_is_false. by intros ?%is_empty_true. }
    intros [[]|x] w1 (Em & Ep & H2); [|done]. specialize (H2 eq_refl).
    do 3 ws. ws; [done|]. do 5 ws; [done|]. intros _ _. simpl.
    by rewrite H2, H, H0.
  - unfold OrgPolicy_check_user_allowed, complies, mbind, M_bind, query, gets, cfg, err_if.
    destruct (_ && _); [simpl|done].
    destruct (_ && is_empty _); [done|simpl]. destruct (OrgPolicy_is_applicable_to_user _ _ _ _); [done|simpl].
    by destruct (_ && _).
  - unfold OrgPolicy_check_user_allowed, complies, mbind, M_bind, query, gets, cfg, err_if.
    destruct (_ && _); [simpl|done]. intros Hc ->.
    destruct (_ && is_empty _); [by eexists|simpl in *].
    destruct (OrgPolicy_is_applicable_to_user _ _ _ _); [by eexists|simpl in *].
    destruct (_ && _); [by eexists|done].
Qed.

Lemma check_user_allowed_spec_witness :
  OrgPolicy_check_user_allowed (demo_member "m-carol" "carol" 2 2) "confirm" demo_env org_world
    = (Ok (), org_world).
Proof. apply check_user_allowed_spec. by vm_compute. Defined.

(** C17: a policy binds a user exactly when it is enabled in an organization,
    other than the excluded one, of which the user is a confirmed member below
    Admin. An accepted membership that is not confirmed never binds, although
    the query asks for accepted and confirmed ones. *)
Theorem is_applicable_to_user_spec user t excluded db :
  NoDup (map user_org (users_organizations db)) →
  OrgPolicy_is_applicable_to_user user t excluded db = true ↔
  ∃ p m, p ∈ org_policies db ∧ p_atype p = OrgPolicyType_as_i32 t ∧ p_enabled p = true ∧
         excluded ≠ Some (p_org_uuid p) ∧
         m ∈ users_organizations db ∧ m_user_uuid m = user ∧ m_org_uuid m = p_org_uuid p ∧
         m_status m = MembershipStatus_as_i32 Confirmed ∧ i32_lt (m_atype m) Admin = true.
Proof.
  intros Hnd. unfold OrgPolicy_is_applicable_to_user.
  rewrite existsb_exists. setoid_rewrite <-list_elem_of_In. split.
  - intros (p & Hp & Hm). destruct (opt_is excluded (p_org_uuid p)) eqn:Hx; [done|].
    destruct (Membership_find_confirmed_by_user_and_org _ _ _) as [m|] eqn:Em; [|done].
    apply find_confirmed_by_user_and_org_Some in Em as (E1 & E2 & E3 & Hin).
    unfold OrgPolicy_find_accepted_and_confirmed_by_user_and_active_policy in Hp.
    apply elem_of_map in Hp as ([p' m'] & [Hf Hj]%elem_of_sel & ->).
    apply elem_of_inner_join in Hj as (Hp & _). bprop. destruct Hf as [[_ Et] He].
    exists p', m. split_and!; try done. intros ->. simpl in Hx. by rewrite eqb_str_refl in Hx.
  - intros (p & m & Hp & Et & He & Hx & Hm & Eu & Eo & Es & Ht). exists p. split.
    + apply elem_of_map. exists (p, m). split; [|done]. apply elem_of_sel. split.
      * by rewrite Es, Et, He, !Z.eqb_refl, orb_true_r.
      * apply elem_of_inner_join. split_and!; [done|done|]. by bprop.
    + destruct (opt_is excluded (p_org_uuid p)) eqn:Hx'; [bprop; congruence|].
      destruct (Membership_find_confirmed_by_user_and_org _ _ _) as [m'|] eqn:Em.
      * apply find_confirmed_by_user_and_org_Some in Em as (E1 & E2 & E3 & Hin).
        assert (m' = m) as ->; [|done]. apply (NoDup_map_inj user_org _ _ _ Hnd); [done|done|].
        unfold user_org. congruence.
      * unfold Membership_find_confirmed_by_user_and_org in Em. rewrite first_row_None in Em.
        specialize (Em m Hm). rewrite Eu, Eo, Es, !eqb_str_refl in Em. done.
Qed.

Definition single_org_db : Db :=
  org_db <| org_policies := [mkOrgPolicy "p" "org" 3 true "{}"] |>.

Lemma is_applicable_to_user_spec_witness :
  OrgPolicy_is_applicable_to_user "carol" SingleOrg (Some "other") single_org_db = true.
Proof.
  apply is_applicable_to_user_spec; [apply (bool_decide_unpack (NoDup _)); by vm_compute|].
  exists (mkOrgPolicy "p" "org" 3 true "{}"), (demo_member "m-carol" "carol" 2 2).
  split_and!; try done; vm_compute; set_solver.
Defined.


Definition put_2fa := put_policy "org" 0 (mkPolicyData true None) (admin_headers alice Owner).


(** C19: when enabling the single-organization policy succeeds, the policy is
    stored and enabled, and no accepted or confirmed member below Admin that is
    left is accepted or confirmed in another organization. *)
Theorem put_policy_enforces_single_org org data h e w p w' :
  pk_unique (users_organizations (w_db w)) →
  (∀ m, m ∈ users_organizations (w_db w) → valid_status (m_status m)) →
  put_policy org (OrgPolicyType_as_i32 SingleOrg) data h e w = (Ok p, w') →
  pd_enabled data = true →
  OrgPolicy_find_by_org_and_type org SingleOrg (w_db w') = Some p ∧ p_enabled p = true ∧
  ∀ m, m ∈ users_organizations (w_db w') → m_org_uuid m = org →
    (m is Accepted) || (m is Confirmed) = true → i32_lt (m_atype m) Admin = true →
    Membership_count_accepted_and_confirmed_by_user (m_user_uuid m) org (w_db w') = 0%Z.
Proof.
  intros Hpk Hv Hrun He. revert Hrun. apply (wp_Ok _ _ _ _ _ (λ p w', _)), put_policy_unfold; [done|done|].
  change (bool_decide (SingleOrg = TwoFactorAuthentication)) with false.
  change (bool_decide (SingleOrg = SingleOrg)) with true. cbv iota. ws. ws. ws.
  eapply wp_mono; [by apply wp_enforce_single_org|]. intros [[]|] w1 [Ee Em]; [|done].
  specialize (Em eq_refl). eapply wp_mono; [apply wp_put_policy_tail|]. intros r w2 [[Em2 _] Hp] p' ->.
  destruct (Hp p' eq_refl) as (Hen & _ & Hfind). split_and!; [done|congruence|].
  intros m Hm Eo Es Ht. rewrite Em2, Em in Hm.
  pose proof (enforced_single org _ _ Hv Hm Eo Es) as Hno. unfold belongs_elsewhere in Hno.
  change (elsewhere org (ms w2) (m_user_uuid m) = 0%Z). rewrite Em2, Ee.
  assert (negb (m is Invited) = true) as Hi.
  { apply negb_true_iff, Z.eqb_neq. apply orb_true_iff in Es as [Es|Es]; apply Z.eqb_eq in Es; by rewrite Es. }
  rewrite Ht, Hi in Hno. simpl in Hno. apply Z.ltb_ge in Hno.
  pose proof (count_nonneg (λ x, (m_user_uuid x == m_user_uuid m) && (m_org_uuid x != org) &&
              ((x is Accepted) || (x is Confirmed))) (ms w)). unfold elsewhere in *. lia.
Qed.

(** carol is also an accepted member of another organization. *)
Definition two_orgs_world : World :=
  mkWorld (org_db <| users_organizations := users_organizations org_db ++
                       [mkMembership "m2-carol" "carol" "org2" None false "" 1 2 None None] |>) 0 [].

Definition put_single := put_policy "org" 3 (mkPolicyData true None) (admin_headers alice Owner).

Lemma put_policy_enforces_single_org_witness :
  (∀ m, m ∈ users_organizations (w_db (put_single demo_env two_orgs_world).2) → m_org_uuid m = "org" →
     (m is Accepted) || (m is Confirmed) = true → i32_lt (m_atype m) Admin = true →
     Membership_count_accepted_and_confirmed_by_user (m_user_uuid m) "org"
       (w_db (put_single demo_env two_orgs_world).2) = 0%Z) ∧
  demo_member "m-carol" "carol" (-126) 2 ∈
    users_organizations (w_db (put_single demo_env two_orgs_world).2).
Proof.
  split; [|vm_compute; set_solver].
  apply (put_policy_enforces_single_org "org" (mkPolicyData true None) (admin_headers alice Owner)
           demo_env two_orgs_world (mkOrgPolicy "i" "org" 3 true "{}")); [| | |done].
  - apply (bool_decide_unpack (NoDup _)). by vm_compute.
  - intros m Hm. left. unfold active_status. vm_compute in Hm.
    repeat (apply elem_of_cons in Hm as [->|Hm]; [simpl; lia|]). by apply not_elem_of_nil in Hm.
  - by vm_compute.
Defined.
