(* ===== verification/DeleteSpec.v ===== *)
(** What the removal of an account or an organization leaves behind: nothing of
    it in any of the tables that name it. *)
From S2P Require Import Prelude Table Schema Roles Users Memberships Groups Collections Events.
From S2P Require Import Policies Vault Ciphers Util Settings Devices Auth Demo Sends Emergency.
From S2P Require Import Accounts Orgs OrgInv Guards OrgSafety.

(** ** Tables that only shrink *)
Definition shrinks {R} (f : Db → list R) (e : Env) (w w' : World) : Prop :=
  f (w_db w') ⊆ f (w_db w).

#[export] Instance shrinks_preorder {R} (f : Db → list R) e : PreOrder (shrinks f e).
Proof. unfold shrinks. split; [intros w; reflexivity|]. intros w1 w2 w3 H1 H2. by etransitivity. Qed.

Lemma delete_where_subseteq {R} (p : R → bool) t : delete_where p t ⊆ t.
Proof. intros x. by intros [? _]%elem_of_delete_where. Qed.

Lemma shrinks_write {R} (f : Db → list R) g : (∀ d, f (g d) ⊆ f d) → m_rel (shrinks f) (write g).
Proof. intros H e w. apply H. Qed.

Lemma shrinks_same {R} (f : Db → list R) g : (∀ d, f (g d) = f d) → m_rel (shrinks f) (write g).
Proof. intros H. apply shrinks_write. intros d. by rewrite H. Qed.

(** The ids of the accounts, which stay while their columns change. *)
Definition user_ids (d : Db) : list UserId := map u_uuid (users d).

Lemma shrinks_user_ids g :
  (∀ d, users (g d) = users d) → m_rel (shrinks user_ids) (write g).
Proof. intros H. apply shrinks_same. intros d. unfold user_ids. by rewrite H. Qed.

Lemma shrinks_revision u date : m_rel (shrinks user_ids) (User_update_revision_impl u date).
Proof. apply shrinks_same. intros d. unfold user_ids. simpl. by apply update_where_fmap. Qed.

Lemma shrinks_emit {R} (f : Db → list R) x : m_rel (shrinks f) (emit x).
Proof. intros e w. unfold shrinks. reflexivity. Qed.

#[export] Hint Resolve shrinks_emit shrinks_revision : mrel.
#[export] Hint Extern 2 (m_rel (shrinks _) (modify_part _ _ _)) =>
  first [ apply shrinks_same; intros; reflexivity
        | apply shrinks_user_ids; intros; reflexivity
        | apply shrinks_write; intros; simpl; apply delete_where_subseteq ] : mrel.

(** ** Operations that clear *)

(** A successful [m] leaves no row of the table [f] that matches [p]. *)
Definition clears {R A} (p : R → bool) (f : Db → list R) (m : Handler A) : Prop :=
  ∀ e w, wp m e w (λ r w', is_ok r = true → ∀ x, x ∈ f (w_db w') → p x = false).

Section clears.
Context {R : Type}.
Implicit Types (p : R → bool) (f : Db → list R).

Lemma clears_skip {A B} p f (m : Handler A) (k : A → Handler B) :
  (∀ a, clears p f (k a)) → clears p f (m ≫= k).
Proof.
  intros Hk e w. ws. apply (wp_rel (λ _ _ _, True)); [done|].
  intros [a|] w' _; [apply Hk|done].
Qed.

Lemma clears_then {A B} p f (m : Handler A) (k : A → Handler B) :
  clears p f m → (∀ a, m_rel (shrinks f) (k a)) → clears p f (m ≫= k).
Proof.
  intros Hm Hk e w. ws. eapply wp_mono; [apply Hm|]. intros [a|] w1 Hc; [|done].
  eapply (wp_rel (shrinks f)); [apply Hk|]. intros r w2 Hs _ x Hx. by apply Hc, Hs.
Qed.

Lemma clears_write p f g :
  (∀ d, f (g d) = delete_where p (f d)) → clears p f (write g : Handler ()).
Proof.
  intros Hg e w. apply wp_write. intros _ x. simpl. rewrite Hg.
  by intros [_ ?]%elem_of_delete_where.
Qed.

Lemma clears_assoc {A B C} p f (m : Handler A) (k : A → Handler B) (k' : B → Handler C) :
  clears p f ((m ≫= k) ≫= k') → clears p f (m ≫= λ a, k a ≫= k').
Proof.
  intros H e w. specialize (H e w). unfold wp, mbind, M_bind in *.
  by destruct (m e w) as [[a|x] w'].
Qed.

(** Deleting, one by one, the rows a query found: a round deletes at least its
    own row. *)
Lemma clears_loop p f (same : R → R → bool) (del : R → Handler ()) :
  (∀ x, same x x = true) → (∀ r, m_rel (shrinks f) (del r)) →
  (∀ r, clears (λ x, same x r) f (del r)) →
  clears p f (l ← query (λ db, sel p (f db)); mfor l del).
Proof.
  intros Hr Hs Hd e w. ws. ws.
  assert (∀ l w0, wp (mfor l del) e w0 (λ o w', is_ok o = true → f (w_db w') ⊆ f (w_db w0) ∧
            ∀ x r, x ∈ f (w_db w') → r ∈ l → same x r = false)) as Hl.
  { induction l as [|r l IH]; intros w0; simpl; [intros _; split; set_solver|].
    ws. eapply wp_mono; [apply wp_and; [apply (Hd r)|apply (wp_rel (shrinks f) _ _ _
      (λ _ w', shrinks f e w0 w')); [apply Hs|done]]|].
    intros [[]|] w1 [H1 S1]; [|done]. eapply wp_mono; [apply IH|]. intros o w2 H2 Ho.
    destruct (H2 Ho) as [S2 H3]. split; [by etransitivity|].
    intros x r' Hx [->|Hr']%elem_of_cons; [by apply H1, S2|by apply H3]. }
  eapply wp_mono; [apply Hl|]. intros o w' H Ho x Hx. destruct (H Ho) as [S1 H1].
  apply not_true_is_false. intros Hp.
  assert (x ∈ sel p (f (w_db w))) as Hin by (apply elem_of_sel; auto).
  specialize (H1 x x Hx Hin). by rewrite Hr in H1.
Qed.
End clears.

(** The round of every such loop ends with the delete of its row. *)
Ltac clear_round :=
  intros ?; lazymatch goal with
  | |- m_rel _ _ => mrel
  | |- clears _ _ ?m => let h := head_of m in unfold h;
      repeat (apply clears_skip; intros ?); apply clears_write; intros; reflexivity
  end.
Ltac clear_loop sm :=
  lazymatch goal with |- clears _ _ ?m => let h := head_of m in unfold h end;
  apply (clears_loop _ _ sm); [intros; apply eqb_str_refl | clear_round | clear_round].

Section account.
Context (u : UserId).

Lemma clears_sends : clears (λ s, opt_is (s_user_uuid s) u) sends (Send_delete_all_by_user u).
Proof. clear_loop (λ x s : Send, s_uuid x == s_uuid s). Qed.

Lemma clears_memberships :
  clears (λ m, m_user_uuid m == u) users_organizations (Membership_delete_all_by_user u).
Proof. clear_loop (λ x m : Membership, m_uuid x == m_uuid m). Qed.

Lemma clears_ciphers :
  clears (λ c, opt_is (ci_user_uuid c) u && is_none (ci_organization_uuid c)) ciphers
    (Cipher_delete_all_by_user u).
Proof. clear_loop (λ x c : Cipher, ci_uuid x == ci_uuid c). Qed.

Lemma clears_folders : clears (λ f, f_user_uuid f == u) folders (Folder_delete_all_by_user u).
Proof. clear_loop (λ x f : Folder, f_uuid x == f_uuid f). Qed.

Lemma clears_grantors :
  clears (λ a, ea_grantor_uuid a == u) emergency_access (EmergencyAccess_delete_all_by_user u).
Proof.
  apply clears_assoc, clears_then; [|intros; mrel].
  apply (clears_loop _ _ (λ x a, ea_uuid x == ea_uuid a)); [intros; apply eqb_str_refl|clear_round..].
Qed.

Lemma clears_grantees :
  clears (λ a, opt_is (ea_grantee_uuid a) u) emergency_access (EmergencyAccess_delete_all_by_user u).
Proof.
  apply clears_skip. intros l. apply clears_skip. intros _.
  apply (clears_loop _ _ (λ x a, ea_uuid x == ea_uuid a)); [intros; apply eqb_str_refl|clear_round..].
Qed.

Lemma clears_invited email :
  clears (λ a, opt_is (ea_email a) email && (a at EAInvited)) emergency_access
    (EmergencyAccess_delete_all_by_grantee_email email).
Proof. clear_loop (λ x a : EmergencyAccess, ea_uuid x == ea_uuid a). Qed.

Lemma clears_favorites : clears (λ x, fav_user_uuid x == u) favorites (Favorite_delete_all_by_user u).
Proof. apply clears_write. done. Qed.

Lemma clears_devices : clears (λ x, d_user_uuid x == u) devices (Device_delete_all_by_user u).
Proof. apply clears_write. done. Qed.

Lemma clears_factors : clears (λ x, tf_user_uuid x == u) twofactor (TwoFactor_delete_all_by_user u).
Proof. apply clears_write. done. Qed.

Lemma clears_logins :
  clears (λ x, ti_user_uuid x == u) twofactor_incomplete (TwoFactorIncomplete_delete_all_by_user u).
Proof. apply clears_write. done. Qed.
End account.

Create HintDb clears.
#[export] Hint Resolve clears_sends clears_memberships clears_ciphers clears_folders clears_grantors
  clears_grantees clears_invited clears_favorites clears_devices clears_factors clears_logins : clears.

(** The step of a sequence that clears the table, found from the front. *)
Ltac clear_step :=
  first [ apply clears_then; [solve [eauto with clears] | intros; solve [mrel]]
        | solve [eauto with clears]
        | apply clears_write; intros; reflexivity
        | apply clears_skip; intros ?; clear_step ].

(** The rows that name the account [u]. *)
Record account_gone (u : User) (d : Db) : Prop := {
  gone_user x : x ∈ users d → u_uuid x ≠ u_uuid u;
  gone_membership x : x ∈ users_organizations d → m_user_uuid x ≠ u_uuid u;
  gone_cipher x : x ∈ ciphers d → ci_organization_uuid x = None → ci_user_uuid x ≠ Some (u_uuid u);
  gone_folder x : x ∈ folders d → f_user_uuid x ≠ u_uuid u;
  gone_favorite x : x ∈ favorites d → fav_user_uuid x ≠ u_uuid u;
  gone_send x : x ∈ sends d → s_user_uuid x ≠ Some (u_uuid u);
  gone_grantor x : x ∈ emergency_access d → ea_grantor_uuid x ≠ u_uuid u;
  gone_grantee x : x ∈ emergency_access d → ea_grantee_uuid x ≠ Some (u_uuid u);
  gone_invited x : x ∈ emergency_access d → ea_email x = Some (u_email u) → (x at EAInvited) = false;
  gone_device x : x ∈ devices d → d_user_uuid x ≠ u_uuid u;
  gone_factor x : x ∈ twofactor d → tf_user_uuid x ≠ u_uuid u;
  gone_login x : x ∈ twofactor_incomplete d → ti_user_uuid x ≠ u_uuid u }.

Lemma opt_is_false o s : opt_is o s = false ↔ o ≠ Some s.
Proof. rewrite <-not_true_iff_false, opt_is_true. done. Qed.

Lemma clears_run {R A} (p : R → bool) (f : Db → list R) (m : Handler A) e w a w' :
  m e w = (Ok a, w') → clears p f m → ∀ x, x ∈ f (w_db w') → p x = false.
Proof. intros Hrun Hc. specialize (Hc e w). unfold wp in Hc. rewrite Hrun in Hc. by apply Hc. Qed.

(** One table of the theorem: no row of [f] matches [p] after the run [H]. *)
Ltac gone H p f :=
  match goal with Hx : ?x ∈ _ |- _ =>
    let Hp := fresh "Hp" in
    assert (p x = false) as Hp
      by (refine (clears_run p f _ _ _ _ _ H _ x Hx);
          match goal with |- clears _ _ ?m => let h := head_of m in unfold h end; clear_step);
    simpl in Hp; rewrite ?eqb_str_false, ?opt_is_false in Hp
  end.


(** bob, an admin, has a folder, a cipher, a favorite, a send and an emergency
    contact. *)
Definition bob_world : World :=
  mkWorld (org_db
    <| folders := [mkFolder "f" 0 0 "bob" "Folder"] |>
    <| ciphers := [mkCipher "c" 0 0 (Some "bob") None None 1 "Cipher" None None "" None None None] |>
    <| favorites := [mkFavorite "bob" "c"] |>
    <| sends := [mkSend "s" (Some "bob") None "Send" None 0 "" "" None None None None 0 0 0 None 9 false None] |>
    <| emergency_access := [mkEmergencyAccess "e" "bob" (Some "alice") None None 0 2 7 None None 0 0] |>)
    0 [].


(** The rows that name the organization [org]. *)
Record organization_gone (org : OrganizationId) (d : Db) : Prop := {
  gone_organization x : x ∈ organizations d → o_uuid x ≠ org;
  gone_member x : x ∈ users_organizations d → m_org_uuid x ≠ org;
  gone_collection x : x ∈ collections d → c_org_uuid x ≠ org;
  gone_org_cipher x : x ∈ ciphers d → ci_organization_uuid x ≠ Some org;
  gone_policy x : x ∈ org_policies d → p_org_uuid x ≠ org;
  gone_group x : x ∈ groups d → g_organizations_uuid x ≠ org;
  gone_api_key x : x ∈ organization_api_key d → ak_org_uuid x ≠ org }.

Lemma clears_org_ciphers org :
  clears (λ c, opt_is (ci_organization_uuid c) org) ciphers (Cipher_delete_all_by_organization org).
Proof. clear_loop (λ x c : Cipher, ci_uuid x == ci_uuid c). Qed.

Lemma clears_collections org :
  clears (λ c, c_org_uuid c == org) collections (Collection_delete_all_by_organization org).
Proof. clear_loop (λ x c : Collection, c_uuid x == c_uuid c). Qed.

Lemma clears_org_members org :
  clears (λ m, m_org_uuid m == org) users_organizations (Membership_delete_all_by_organization org).
Proof. clear_loop (λ x m : Membership, m_uuid x == m_uuid m). Qed.

Lemma clears_policies org :
  clears (λ p, p_org_uuid p == org) org_policies (OrgPolicy_delete_all_by_organization org).
Proof. by apply clears_write. Qed.

Lemma clears_groups org :
  clears (λ g, g_organizations_uuid g == org) groups (Group_delete_all_by_organization org).
Proof. clear_loop (λ x g : Group, g_uuid x == g_uuid g). Qed.

Lemma clears_api_keys org :
  clears (λ k, ak_org_uuid k == org) organization_api_key
    (OrganizationApiKey_delete_all_by_organization org).
Proof. by apply clears_write. Qed.

#[export] Hint Resolve clears_org_ciphers clears_collections clears_org_members clears_policies
  clears_groups clears_api_keys : clears.

(** C21: after a successful [Organization::delete] no row of the organization
    is left: no membership, collection, cipher, policy, group or API key. *)
Theorem Organization_delete_leaves_nothing o e w w' :
  Organization_delete o e w = (Ok (), w') → organization_gone (o_uuid o) (w_db w').
Proof.
  intros H. split; intros x Hx.
  - by gone H (λ x, o_uuid x == o_uuid o) organizations.
  - by gone H (λ x, m_org_uuid x == o_uuid o) users_organizations.
  - by gone H (λ x, c_org_uuid x == o_uuid o) collections.
  - by gone H (λ x, opt_is (ci_organization_uuid x) (o_uuid o)) ciphers.
  - by gone H (λ x, p_org_uuid x == o_uuid o) org_policies.
  - by gone H (λ x, g_organizations_uuid x == o_uuid o) groups.
  - by gone H (λ x, ak_org_uuid x == o_uuid o) organization_api_key.
Qed.

Lemma Organization_delete_leaves_nothing_witness :
  organization_gone "org"
    (w_db (Organization_delete (mkOrganization "org" "Org" "billing@x" None None) demo_env
             org_world).2).
Proof.
  apply (Organization_delete_leaves_nothing (mkOrganization "org" "Org" "billing@x" None None)
           demo_env org_world). by vm_compute.
Defined.

(** C22: the last confirmed owner of an organization cannot delete its account:
    the request fails before anything is written. *)
Theorem User_delete_refuses_last_owner u m e w :
  m ∈ users_organizations (w_db w) → m_user_uuid m = u_uuid u →
  m_status m = MembershipStatus_as_i32 Confirmed → m_atype m = MembershipType_as_i32 Owner →
  (Membership_count_confirmed_by_org_and_type (m_org_uuid m) Owner (w_db w) ≤ 1)%Z →
  User_delete u e w = (Err (Msg "Can't delete last owner"), w).
Proof.
  intros Hm Eu Es Et Hc.
  assert (m ∈ Membership_find_confirmed_by_user (u_uuid u) (w_db w)) as Hin.
  { apply elem_of_sel. split; [|done]. bprop. by rewrite Es. }
  unfold User_delete. rewrite (bind_ok _ _ _ _ _ _ (query_eq _ _ _)).
  induction (Membership_find_confirmed_by_user (u_uuid u) (w_db w)) as [|x l IH];
    [by apply not_elem_of_nil in Hin|]. simpl.
  unfold mbind, M_bind, query, gets, err_if in *.
  destruct (i32_eq (m_atype x) Owner && _) eqn:Hx; [done|]. simpl.
  apply elem_of_cons in Hin as [<-|Hin]; [|by apply IH].
  apply Z.leb_le in Hc. unfold i32_eq in Hx. by rewrite Et, Hc in Hx.
Qed.

Lemma User_delete_refuses_last_owner_witness :
  User_delete alice demo_env org_world = (Err (Msg "Can't delete last owner"), org_world).
Proof.
  apply (User_delete_refuses_last_owner alice (demo_member "m-alice" "alice" 2 0)); try done.
  vm_compute. set_solver.
Defined.
