(* ===== verification/VaultSpec.v ===== *)
(** Who reads and writes a cipher: the permissions computed from the data of a
    full sync against those computed by queries, writing against reading, and
    the folders, favorites and archive marks of a user. *)
From S2P Require Import Prelude Table Schema Roles Users Memberships Groups Collections Vault.
From S2P Require Import Ciphers Devices Auth Demo OrgInv Guards.

(** ** The maps of a sync *)

Lemma collect_map_acc {A} (l : list (string * A)) (m : gmap string A) k v :
  foldl (λ m kv, <[kv.1 := kv.2]> m) m l !! k = Some v → (k, v) ∈ l ∨ m !! k = Some v.
Proof.
  revert m. induction l as [|[k' v'] l IH]; intros m; simpl; [by right|].
  intros [?|H]%IH; [left; set_solver|]. destruct (decide (k' = k)) as [->|].
  - rewrite lookup_insert_eq in H. simplify_eq. left. set_solver.
  - rewrite lookup_insert_ne in H by done. by right.
Qed.

Lemma collect_map_Some {A} (l : list (string * A)) k v : collect_map l !! k = Some v → (k, v) ∈ l.
Proof. intros [|H]%collect_map_acc; [done|]. by rewrite lookup_empty in H. Qed.

Lemma collect_map_keep {A} (l : list (string * A)) (m : gmap string A) k :
  is_Some (m !! k) → is_Some (foldl (λ m kv, <[kv.1 := kv.2]> m) m l !! k).
Proof.
  revert m. induction l as [|[k' v'] l IH]; intros m Hm; simpl; [done|]. apply IH.
  destruct (decide (k' = k)) as [->|]; [by rewrite lookup_insert_eq|by rewrite lookup_insert_ne].
Qed.

Lemma collect_map_is_Some {A} (l : list (string * A)) k v :
  (k, v) ∈ l → is_Some (collect_map l !! k).
Proof.
  unfold collect_map. generalize (∅ : gmap string A).
  induction l as [|[k' v'] l IH]; intros m Hin; simpl; [by apply not_elem_of_nil in Hin|].
  apply elem_of_cons in Hin as [[= <- <-]|Hin]; [|by apply IH].
  apply collect_map_keep. by rewrite lookup_insert_eq.
Qed.

(** With distinct keys, the map holds every entry. *)
Lemma collect_map_unique {A} (l : list (string * A)) k v :
  (∀ v1 v2, (k, v1) ∈ l → (k, v2) ∈ l → v1 = v2) → (k, v) ∈ l → collect_map l !! k = Some v.
Proof.
  intros Hu Hin. destruct (collect_map_is_Some l k v Hin) as [v' Hv'].
  rewrite Hv'. f_equal. eapply Hu; [by apply collect_map_Some|done].
Qed.

Lemma collect_vecs_acc {A} (l : list (string * A)) (m : gmap string (list A)) k v :
  v ∈ default [] (foldl (λ m kv, <[kv.1 := default [] (m !! kv.1) ++ [kv.2]]> m) m l !! k) ↔
  (k, v) ∈ l ∨ v ∈ default [] (m !! k).
Proof.
  revert m. induction l as [|[k' v'] l IH]; intros m; simpl; [set_solver|].
  rewrite IH, elem_of_cons. destruct (decide (k' = k)) as [->|Hne].
  - rewrite lookup_insert_eq. simpl. rewrite elem_of_app, list_elem_of_singleton. naive_solver.
  - rewrite lookup_insert_ne by done. naive_solver.
Qed.

Lemma elem_of_collect_vecs {A} (l : list (string * A)) k v :
  v ∈ default [] (collect_vecs l !! k) ↔ (k, v) ∈ l.
Proof.
  unfold collect_vecs. rewrite collect_vecs_acc, lookup_empty. simpl. set_solver.
Qed.

(** ** Permissions *)

(** The final loop of [get_access_restrictions] depends on the set of rows. *)
Lemma combine_rows_spec rows :
  combine_rows rows = (forallb (λ r, r.1.1) rows, forallb (λ r, r.1.2) rows, existsb (λ r, r.2) rows).
Proof.
  unfold combine_rows.
  assert (∀ a b c, foldl (λ '(read_only, hide_passwords, manage) '(ro, hp, mn),
      (read_only && ro, hide_passwords && hp, manage || mn)) (a, b, c) rows =
    (a && forallb (λ r, r.1.1) rows, b && forallb (λ r, r.1.2) rows, c || existsb (λ r, r.2) rows))
    as ->; [|done].
  induction rows as [|[[x y] z] rows IH]; intros a b c; simpl.
  - by rewrite !andb_true_r, orb_false_r.
  - by rewrite IH, !andb_assoc, orb_assoc.
Qed.

Lemma forallb_ext_elem {A} (p : A → bool) l l' :
  (∀ x, x ∈ l ↔ x ∈ l') → forallb p l = forallb p l'.
Proof.
  intros H. apply eq_true_iff_eq. rewrite !forallb_forall.
  setoid_rewrite <-list_elem_of_In. naive_solver.
Qed.

Lemma existsb_ext_elem {A} (p : A → bool) l l' :
  (∀ x, x ∈ l ↔ x ∈ l') → existsb p l = existsb p l'.
Proof.
  intros H. apply eq_true_iff_eq. rewrite !existsb_exists.
  setoid_rewrite <-list_elem_of_In. naive_solver.
Qed.

Lemma restrictions_ext rows rows' :
  (∀ x, x ∈ rows ↔ x ∈ rows') →
  (if is_empty rows then None else Some (combine_rows rows)) =
  (if is_empty rows' then None else Some (combine_rows rows')).
Proof.
  intros H. rewrite !combine_rows_spec.
  rewrite (forallb_ext_elem _ _ _ H), (forallb_ext_elem _ _ _ H), (existsb_ext_elem _ _ _ H).
  assert (is_empty rows = is_empty rows') as ->; [|done].
  apply eq_true_iff_eq. rewrite <-!not_false_iff_true, !is_empty_false. naive_solver.
Qed.

Lemma in_left_join {A B} on (t : list A) (u : list B) a (G : Prop) :
  a ∈ t → (∀ ob, (a, ob) ∈ left_join on t u → G) → G.
Proof. intros Ha HG. destruct (left_join_total on t u a Ha) as [ob H]. by eapply HG. Qed.

Section sync.
Context (cf : Config) (user : UserId) (db : Db).

(** What the foreign keys and the handlers maintain: one membership per user and
    organization, one assignment per user and collection, and a user assigned to
    a collection is a member of its organization. *)
Record vault_ok : Prop := {
  ok_memberships : NoDup (map user_org (users_organizations db));
  ok_assignments : pk_unique (users_collections db);
  ok_members : ∀ cu cc, cu ∈ users_collections db → cu_user_uuid cu = user →
    cc ∈ ciphers_collections db → cc_collection_uuid cc = cu_collection_uuid cu →
    ∃ c m, c ∈ collections db ∧ c_uuid c = cc_collection_uuid cc ∧
           m ∈ users_organizations db ∧ m_org_uuid m = c_org_uuid c ∧ m_user_uuid m = user }.
Context (Hok : vault_ok).

Lemma sync_member org :
  csd_members (CipherSyncData_new cf user SyncUser db) !! org =
  Membership_find_confirmed_by_user_and_org user org db.
Proof using Hok.
  simpl. set (l := map _ _).
  assert (∀ m, (org, m) ∈ l ↔ m_org_uuid m = org ∧ m_user_uuid m = user ∧
            m_status m = MembershipStatus_as_i32 Confirmed ∧ m ∈ users_organizations db) as Hl.
  { intros m. unfold l. rewrite elem_of_map. split.
    - intros (x & [Hx ?]%elem_of_sel & [= -> ->]). bprop. naive_solver.
    - intros (<- & Eu & Es & Hm). exists m. split; [|done]. apply elem_of_sel. split; [|done].
      bprop. split; [done|]. by rewrite Es. }
  destruct (Membership_find_confirmed_by_user_and_org user org db) as [m|] eqn:Em.
  - apply find_confirmed_by_user_and_org_Some in Em as (E1 & E2 & E3 & Hm).
    apply collect_map_unique; [|by apply Hl].
    intros v1 v2 (? & ? & _ & ?)%Hl (? & ? & _ & ?)%Hl.
    apply (NoDup_map_inj user_org _ _ _ (ok_memberships Hok)); [done|done|].
    unfold user_org. congruence.
  - destruct (collect_map l !! org) as [m|] eqn:E; [|done].
    apply collect_map_Some, Hl in E as (Eo & Eu & Es & Hm).
    unfold Membership_find_confirmed_by_user_and_org in Em. rewrite first_row_None in Em.
    specialize (Em m Hm). rewrite Eo, Eu, Es, !eqb_str_refl in Em. done.
Qed.

(** The user's assignment to a collection. *)
Lemma sync_assignment col cu :
  csd_user_collections (CipherSyncData_new cf user SyncUser db) !! col = Some cu ↔
  cu ∈ users_collections db ∧ cu_user_uuid cu = user ∧ cu_collection_uuid cu = col.
Proof using Hok.
  simpl. unfold CollectionUser_find_by_user. set (l := map _ _).
  assert (∀ x, (col, x) ∈ l ↔ x ∈ users_collections db ∧ cu_user_uuid x = user ∧
                              cu_collection_uuid x = col) as Hl.
  { intros x. unfold l. rewrite elem_of_map. split.
    - intros (y & [Hy ?]%elem_of_sel & [= -> ->]). bprop. naive_solver.
    - intros (Hx & Eu & <-). exists x. split; [|done]. apply elem_of_sel. by bprop. }
  split.
  - by intros ?%collect_map_Some%Hl.
  - intros H. apply collect_map_unique; [|by apply Hl].
    intros v1 v2 (? & ? & ?)%Hl (? & ? & ?)%Hl.
    apply (pk_unique_inj _ _ _ (ok_assignments Hok)); [done|done|].
    unfold pk, CollectionUser_pk. congruence.
Qed.

(** The collections of a cipher that a sync lists contain all those the user is
    assigned to. *)
Lemma sync_collections cu cc :
  cu ∈ users_collections db → cu_user_uuid cu = user → cc ∈ ciphers_collections db →
  cc_collection_uuid cc = cu_collection_uuid cu →
  cc_collection_uuid cc ∈ default []
    (csd_cipher_collections (CipherSyncData_new cf user SyncUser db) !! cc_cipher_uuid cc).
Proof using Hok.
  intros Hcu Eu Hcc Ecol. destruct (ok_members Hok cu cc Hcu Eu Hcc Ecol)
    as (c & m & Hc & Ec & Hm & Eo & Em).
  apply elem_of_collect_vecs. unfold Cipher_get_collections_with_cipher_by_user.
  apply elem_of_map. exists cc. split; [|done]. apply elem_of_distinct, elem_of_map.
  assert ((cc, c, m, Some cu) ∈ left_join
      (λ '(cc, _, _) cu, (cu_collection_uuid cu == cc_collection_uuid cc) && (cu_user_uuid cu == user))
      (inner_join (λ '(_, c) m, (m_org_uuid m == c_org_uuid c) && (m_user_uuid m == user))
         (inner_join (λ cc c, c_uuid c == cc_collection_uuid cc) (ciphers_collections db)
            (collections db)) (users_organizations db)) (users_collections db)) as H2.
  { rewrite elem_of_left_join_Some, !elem_of_inner_join. bprop. naive_solver. }
  eapply (in_left_join _ _ (groups_users db)); [exact H2|]. intros ogu H3.
  eapply (in_left_join _ _ (groups db)); [exact H3|]. intros og H4.
  eapply (in_left_join _ _ (collections_groups db)); [exact H4|]. intros ocg H5.
  exists (cc, c, m, Some cu, ogu, og, ocg). split; [|done]. apply elem_of_sel.
  split; [|exact H5]. simpl. by rewrite Eu, eqb_str_refl.
Qed.

Lemma elem_of_flat_map {A B} (g : A → list B) l y : y ∈ flat_map g l ↔ ∃ x, x ∈ l ∧ y ∈ g x.
Proof. rewrite list_elem_of_In, in_flat_map. by setoid_rewrite list_elem_of_In. Qed.

Lemma elem_of_query_rows self f :
  f ∈ Cipher_get_user_collections_access_flags self user db ↔
  ∃ c cc cu, c ∈ ciphers db ∧ ci_uuid c = ci_uuid self ∧ cc ∈ ciphers_collections db ∧
    cc_cipher_uuid cc = ci_uuid self ∧ cu ∈ users_collections db ∧
    cu_collection_uuid cu = cc_collection_uuid cc ∧ cu_user_uuid cu = user ∧
    f = (cu_read_only cu, cu_hide_passwords cu, cu_manage cu).
Proof.
  unfold Cipher_get_user_collections_access_flags. rewrite elem_of_map. split.
  - intros ([[c cc] cu] & Hin & ->).
    apply elem_of_inner_join in Hin as (Hin & Hcu & Hon).
    apply elem_of_inner_join in Hin as ([Hc Hin]%elem_of_sel & Hcc & Hon'). bprop.
    exists c, cc, cu. naive_solver congruence.
  - intros (c & cc & cu & Hc & Ec & Hcc & Ecc & Hcu & Ecol & Eu & ->).
    exists (c, cc, cu). split; [|done]. rewrite !elem_of_inner_join, elem_of_sel. bprop.
    naive_solver congruence.
Qed.

(** Without groups, a sync's rows are the rows of the queries. *)
Lemma elem_of_sync_rows self f :
  org_groups_enabled cf = false → (∃ c, c ∈ ciphers db ∧ ci_uuid c = ci_uuid self) →
  f ∈ sync_rows (CipherSyncData_new cf user SyncUser db) self ↔
  f ∈ Cipher_get_user_collections_access_flags self user db.
Proof using Hok.
  intros Hg Hself. rewrite elem_of_query_rows. unfold sync_rows. rewrite elem_of_flat_map. split.
  - intros (col & Hcol & Hf).
    assert (csd_user_collections_groups (CipherSyncData_new cf user SyncUser db) = ∅) as Eg.
    { simpl. by rewrite Hg. }
    destruct (csd_user_collections _ !! col) as [cu|] eqn:Ecu.
    2:{ rewrite Eg, lookup_empty in Hf. by apply not_elem_of_nil in Hf. }
    apply sync_assignment in Ecu as (Hcu & Eu & Ecol). apply list_elem_of_singleton in Hf as ->.
    apply elem_of_collect_vecs, elem_of_map in Hcol as (cc & Hcc & [= E1 E2]).
    apply elem_of_distinct, elem_of_map in Hcc as ([[[[[[cc' c'] m'] ocu] ogu] og] ocg] & Hin & ->).
    apply elem_of_sel in Hin as [_ Hin]. do 4 apply elem_of_left_join_l in Hin.
    apply elem_of_inner_join in Hin as (Hin & _). apply elem_of_inner_join in Hin as (Hcc & _).
    destruct Hself as (c & Hc & Ec). exists c, cc', cu. naive_solver congruence.
  - intros (c & cc & cu & Hc & Ec & Hcc & Ecc & Hcu & Ecol & Eu & ->).
    exists (cc_collection_uuid cc). split; [rewrite <-Ecc; by eapply sync_collections|].
    assert (csd_user_collections (CipherSyncData_new cf user SyncUser db) !! cc_collection_uuid cc
            = Some cu) as -> by by apply sync_assignment.
    set_solver.
Qed.
End sync.

(** ** The theorems *)

(** C23: without groups, the permissions a full sync computes from its prefetched
    maps are those the queries compute for a single cipher: the two branches of
    [Cipher::get_access_restrictions] agree. *)
Theorem sync_restrictions_match cf user db self :
  org_groups_enabled cf = false → vault_ok user db →
  (∃ c, c ∈ ciphers db ∧ ci_uuid c = ci_uuid self) →
  Cipher_get_access_restrictions cf self user (Some (CipherSyncData_new cf user SyncUser db)) db =
  Cipher_get_access_restrictions cf self user None db.
Proof.
  intros Hg Hok Hself. unfold Cipher_get_access_restrictions.
  assert (Cipher_is_in_full_access_org self user (Some (CipherSyncData_new cf user SyncUser db)) db =
          Cipher_is_in_full_access_org self user None db) as ->.
  { unfold Cipher_is_in_full_access_org. destruct (ci_organization_uuid self); [|done].
    by rewrite sync_member. }
  assert (∀ o, Cipher_is_in_full_access_group cf self user o db = false) as Hgr.
  { intros o. unfold Cipher_is_in_full_access_group. by rewrite Hg. }
  rewrite !Hgr. destruct (_ || false); [done|].
  rewrite (restrictions_ext _ _ (λ f, elem_of_sync_rows cf user db Hok self f Hg Hself)).
  unfold Cipher_get_group_collections_access_flags. rewrite Hg.
  by destruct (Cipher_get_user_collections_access_flags self user db).
Qed.

(** carol may read one collection of the organization, with a cipher in it. *)
Definition vault_db : Db :=
  accounts_db
    <| users_organizations := [mkMembership "m-carol" "carol" "org" None false "" 2 2 None None] |>
    <| collections := [mkCollection "col" "org" "Collection" None] |>
    <| users_collections := [mkCollectionUser "carol" "col" true false false] |>
    <| ciphers := [mkCipher "c" 0 0 None (Some "org") None 1 "Cipher" None None "" None None None] |>
    <| ciphers_collections := [mkCollectionCipher "c" "col"] |>.
Definition vault_cipher : Cipher :=
  mkCipher "c" 0 0 None (Some "org") None 1 "Cipher" None None "" None None None.
Definition no_groups : Config := demo_config <| org_groups_enabled := false |>.

Lemma vault_db_ok : vault_ok "carol" vault_db.
Proof.
  split; try (apply (bool_decide_unpack (NoDup _)); by vm_compute).
  intros cu cc Hcu _ Hcc _. apply list_elem_of_singleton in Hcu as ->, Hcc as ->.
  exists (mkCollection "col" "org" "Collection" None),
    (mkMembership "m-carol" "carol" "org" None false "" 2 2 None None).
  split_and!; try done; vm_compute; set_solver.
Qed.

Lemma sync_restrictions_match_witness :
  Cipher_get_access_restrictions no_groups vault_cipher "carol" None vault_db
    = Some (true, false, false) ∧
  Cipher_get_access_restrictions no_groups vault_cipher "carol"
    (Some (CipherSyncData_new no_groups "carol" SyncUser vault_db)) vault_db
    = Some (true, false, false).
Proof.
  split; [by vm_compute|].
  rewrite (sync_restrictions_match no_groups "carol" vault_db vault_cipher); [by vm_compute|done| |].
  - apply vault_db_ok.
  - exists vault_cipher. split; [vm_compute; set_solver|done].
Defined.

(** ** Listed ciphers are accessible *)
Section listed.
Context (cf : Config) (user : UserId) (db : Db).
Context (Hnd : NoDup (map user_org (users_organizations db))).
Context (Hty : ∀ m, m ∈ users_organizations db → valid_type (m_atype m)).

(** The membership a cipher was joined with. *)
Definition joined_member (c : Cipher) (m : Membership) : Prop :=
  m ∈ users_organizations db ∧ ci_organization_uuid c = Some (m_org_uuid m) ∧
  m_user_uuid m = user ∧ m_status m = MembershipStatus_as_i32 Confirmed.

Lemma accessible_owned c : ci_user_uuid c = Some user → Cipher_is_accessible_to_user cf c user db = true.
Proof.
  intros E. unfold Cipher_is_accessible_to_user, Cipher_get_access_restrictions,
    Cipher_is_owned_by_user. by rewrite E; simpl; rewrite eqb_str_refl.
Qed.

Lemma accessible_full_member c m :
  joined_member c m → m_access_all m || (m_atype m <=? 1)%Z = true →
  Cipher_is_accessible_to_user cf c user db = true.
Proof using Hnd Hty.
  intros (Hm & Eo & Eu & Es) Hall.
  unfold Cipher_is_accessible_to_user, Cipher_get_access_restrictions, Cipher_is_in_full_access_org.
  rewrite Eo. assert (Membership_find_confirmed_by_user_and_org user (m_org_uuid m) db = Some m) as ->.
  { destruct (Membership_find_confirmed_by_user_and_org _ _ _) as [m'|] eqn:Em.
    - apply find_confirmed_by_user_and_org_Some in Em as (E1 & E2 & _ & Hin). f_equal.
      apply (NoDup_map_inj user_org _ _ _ Hnd); [done|done|]. unfold user_org. congruence.
    - unfold Membership_find_confirmed_by_user_and_org in Em. rewrite first_row_None in Em.
      specialize (Em m Hm). rewrite Eu, Es, !eqb_str_refl in Em. done. }
  rewrite (sql_le_admin _ (Hty m Hm)) in Hall.
  unfold Membership_has_full_access, Membership_has_status. rewrite Hall, Es.
  by rewrite orb_true_r.
Qed.

Lemma accessible_rows c :
  is_empty (Cipher_get_user_collections_access_flags c user db) = false ∨
  is_empty (Cipher_get_group_collections_access_flags cf c user db) = false →
  Cipher_is_accessible_to_user cf c user db = true.
Proof.
  intros H. unfold Cipher_is_accessible_to_user, Cipher_get_access_restrictions.
  destruct (_ || _ || _); [done|]. destruct (is_empty (Cipher_get_user_collections_access_flags c user db)) eqn:E.
  - destruct H as [H|H]; [congruence|]. by rewrite H.
  - by rewrite E.
Qed.

Lemma accessible_assigned c cc cu :
  c ∈ ciphers db → cc ∈ ciphers_collections db → cc_cipher_uuid cc = ci_uuid c →
  cu ∈ users_collections db → cu_collection_uuid cu = cc_collection_uuid cc → cu_user_uuid cu = user →
  Cipher_is_accessible_to_user cf c user db = true.
Proof.
  intros Hc Hcc Ecc Hcu Ecol Eu. apply accessible_rows. left. apply is_empty_false.
  eexists. apply elem_of_query_rows. exists c, cc, cu. by split_and!.
Qed.

Lemma accessible_group_all c m gu g :
  org_groups_enabled cf = true → joined_member c m → gu ∈ groups_users db →
  gu_users_organizations_uuid gu = m_uuid m → g ∈ groups db → g_uuid g = gu_groups_uuid gu →
  g_organizations_uuid g = m_org_uuid m → g_access_all g = true →
  Cipher_is_accessible_to_user cf c user db = true.
Proof.
  intros Hg (Hm & Eo & Eu & Es) Hgu E1 Hgr E2 E3 Hall.
  unfold Cipher_is_accessible_to_user, Cipher_get_access_restrictions, Cipher_is_in_full_access_group.
  rewrite Hg, Eo. simpl. assert (Group_is_in_full_access_group user (m_org_uuid m) db = true) as ->.
  2:{ by rewrite !orb_true_r. }
  unfold Group_is_in_full_access_group.
  destruct (first_row _ _) as [[[g' gu'] m']|] eqn:E; simpl.
  { apply first_row_Some in E as [E _]. apply andb_true_iff in E as [_ E]. exact E. }
  rewrite first_row_None in E. specialize (E (g, gu, m)). simpl in E.
  rewrite Eu, E3, Hall, !eqb_str_refl in E. simpl in E. symmetry. apply E.
  rewrite !elem_of_inner_join. by rewrite !eqb_str_true.
Qed.

Lemma accessible_group_assigned c cc cg m gu g :
  org_groups_enabled cf = true → c ∈ ciphers db → cc ∈ ciphers_collections db →
  cc_cipher_uuid cc = ci_uuid c → joined_member c m → gu ∈ groups_users db →
  gu_users_organizations_uuid gu = m_uuid m → g ∈ groups db → g_uuid g = gu_groups_uuid gu →
  g_organizations_uuid g = m_org_uuid m → cg ∈ collections_groups db →
  cg_collections_uuid cg = cc_collection_uuid cc → cg_groups_uuid cg = g_uuid g →
  Cipher_is_accessible_to_user cf c user db = true.
Proof.
  intros Hg Hc Hcc Ecc (Hm & Eo & Eu & Es) Hgu E1 Hgr E2 E3 Hcg E4 E5. apply accessible_rows. right.
  unfold Cipher_get_group_collections_access_flags. rewrite Hg. simpl. apply is_empty_false.
  eexists. apply elem_of_map. exists (c, cc, cg, gu, m, g). split; [|done].
  apply elem_of_sel. split; [by bprop|]. rewrite !elem_of_inner_join, elem_of_sel. bprop.
  split_and!; congruence || done.
Qed.
End listed.

(** The rows of the first joins of [find_by_user]. *)
Lemma elem_of_visible_join user db c occ om ocu :
  (c, occ, om, ocu) ∈ visible_join user db →
  c ∈ ciphers db ∧
  (∀ cc, occ = Some cc → cc ∈ ciphers_collections db ∧ cc_cipher_uuid cc = ci_uuid c) ∧
  (∀ m, om = Some m → joined_member user db c m) ∧
  (∀ cu, ocu = Some cu → ∃ cc, occ = Some cc ∧ cu ∈ users_collections db ∧
     cu_collection_uuid cu = cc_collection_uuid cc).
Proof.
  unfold visible_join. intros H.
  assert (∀ cu, ocu = Some cu → ∃ cc, occ = Some cc ∧ cu ∈ users_collections db ∧
     cu_collection_uuid cu = cc_collection_uuid cc) as Hcu.
  { intros cu ->. apply elem_of_left_join_Some in H as (_ & Hcu & Hon). bprop.
    destruct Hon as [(cc & -> & E) _]. exists cc. by bprop. }
  apply elem_of_left_join_l in H.
  assert (∀ m, om = Some m → joined_member user db c m) as Hm.
  { intros m ->. apply elem_of_left_join_Some in H as (_ & Hm & Hon). bprop.
    by destruct Hon as [[? ?] ?]. }
  apply elem_of_left_join_l in H. split_and!; [by apply elem_of_left_join_l in H| |done|done].
  intros cc ->. apply elem_of_left_join_Some in H as (_ & Hcc & Hon). by bprop.
Qed.

(** C24: every cipher that [Cipher::find_by_user] lists for a user, with or
    without groups, visible only or not, is one the user may access: what a
    client is sent it can also open. *)
Theorem listed_ciphers_are_accessible cf user visible_only ids db c :
  NoDup (map user_org (users_organizations db)) →
  (∀ m, m ∈ users_organizations db → valid_type (m_atype m)) →
  c ∈ Cipher_find_by_user cf user visible_only ids db →
  Cipher_is_accessible_to_user cf c user db = true.
Proof.
  intros Hnd Hty. unfold Cipher_find_by_user.
  assert (∀ occ om ocu, (c, occ, om, ocu) ∈ visible_join user db →
    opt_is (ci_user_uuid c) user || on_row om m_access_all ||
    on_row ocu (λ cu, cu_user_uuid cu == user) ||
    (negb visible_only && on_row om (λ m, (m_atype m <=? 1)%Z)) = true →
    Cipher_is_accessible_to_user cf c user db = true) as Hbase.
  { intros occ om ocu Hj Hcond. apply elem_of_visible_join in Hj as (Hc & Hcc & Hm & Hcu).
    rewrite !orb_true_iff, andb_true_iff, !on_row_true in Hcond.
    destruct Hcond as [[[H|(m & -> & H)]|(cu & -> & H)]|[_ (m & -> & H)]].
    - by apply accessible_owned, opt_is_true.
    - eapply accessible_full_member; [done|done|by apply Hm|]. by rewrite H.
    - destruct (Hcu cu eq_refl) as (cc & -> & Hin & Ecol). destruct (Hcc cc eq_refl) as [Hcc' Ecc].
      eapply (accessible_assigned _ _ _ _ cc cu); try done. by apply eqb_str_true.
    - eapply accessible_full_member; [done|done|by apply Hm|]. by rewrite H, orb_true_r. }
  destruct (org_groups_enabled cf) eqn:Hg; intros Hin.
  - apply elem_of_distinct, elem_of_map in Hin as ([[[[[[c' occ] om] ocu] ogu] og] ocg] & Hin & ->).
    apply elem_of_sel in Hin as [Hcond Hcg]. apply andb_true_iff in Hcond as [Hcond _].
    pose proof (elem_of_left_join_l _ _ _ _ _ Hcg) as Hgr.
    pose proof (elem_of_left_join_l _ _ _ _ _ Hgr) as Hgu.
    pose proof (elem_of_left_join_l _ _ _ _ _ Hgu) as Hj.
    assert (∀ g, og = Some g → ∃ m gu, joined_member user db c' m ∧ gu ∈ groups_users db ∧
              gu_users_organizations_uuid gu = m_uuid m ∧ g ∈ groups db ∧
              g_uuid g = gu_groups_uuid gu ∧ g_organizations_uuid g = m_org_uuid m) as Hg'.
    { intros g ->. apply elem_of_left_join_Some in Hgr as (Hgu' & Hgin & Hon).
      apply andb_true_iff in Hon as [(gu & -> & E1)%on_row_true (m & -> & E2)%on_row_true].
      apply elem_of_left_join_Some in Hgu' as (_ & Hguin & (m' & [= <-] & E3)%on_row_true).
      apply elem_of_visible_join in Hj as (_ & _ & Hm & _). apply eqb_str_true in E1, E2, E3.
      exists m, gu. split_and!; auto. }
    pose proof (elem_of_visible_join _ _ _ _ _ _ Hj) as (Hc & Hcc & _ & _).
    destruct og as [g|].
    + destruct (Hg' g eq_refl) as (m & gu & Hm & Hguin & E1 & Hgin & E2 & E3).
      destruct (g_access_all g) eqn:Hall; [by eapply accessible_group_all|].
      destruct ocg as [cg|].
      * apply elem_of_left_join_Some in Hcg as (_ & Hcgin & Hon).
        apply andb_true_iff in Hon as [(cc & -> & E4)%on_row_true E5]. simpl in E5.
        apply eqb_str_true in E4, E5. destruct (Hcc cc eq_refl). by eapply accessible_group_assigned.
      * apply (Hbase occ om ocu Hj). simpl in Hcond. rewrite Hall, !orb_false_r in Hcond. done.
    + destruct ocg as [cg|].
      * apply elem_of_left_join_Some in Hcg as (_ & _ & Hon). simpl in Hon.
        by rewrite andb_false_r in Hon.
      * apply (Hbase occ om ocu Hj). simpl in Hcond. by rewrite !orb_false_r in Hcond.
  - apply elem_of_distinct, elem_of_map in Hin as ([[[c' occ] om] ocu] & Hin & ->).
    apply elem_of_sel in Hin as [Hcond Hj]. apply andb_true_iff in Hcond as [Hcond _].
    by eapply Hbase.
Qed.

Lemma listed_ciphers_are_accessible_witness :
  Cipher_find_by_user_visible no_groups "carol" vault_db = [vault_cipher] ∧
  Cipher_is_accessible_to_user no_groups vault_cipher "carol" vault_db = true.
Proof.
  assert (Cipher_find_by_user_visible no_groups "carol" vault_db = [vault_cipher]) as E
    by by vm_compute.
  split; [done|]. apply (listed_ciphers_are_accessible no_groups "carol" true [] vault_db).
  - apply (bool_decide_unpack (NoDup _)). by vm_compute.
  - intros m Hm. apply list_elem_of_singleton in Hm as ->. by exists MUser.
  - unfold Cipher_find_by_user_visible in E. rewrite E. set_solver.
Defined.

(** ** Folders *)

(** The cipher [c] is in the user's folder [f]. *)
Definition in_folder (user : UserId) (c : CipherId) (db : Db) (f : FolderId) : Prop :=
  ∃ fc fo, fc ∈ folders_ciphers db ∧ fo ∈ folders db ∧ fc_cipher_uuid fc = c ∧
           fc_folder_uuid fc = f ∧ f_uuid fo = f ∧ f_user_uuid fo = user.

Lemma get_folder_uuid_Some user self db f :
  Cipher_get_folder_uuid self user db = Some f → in_folder user (ci_uuid self) db f.
Proof.
  unfold Cipher_get_folder_uuid. destruct (first_row _ _) as [[fc fo]|] eqn:E; [|done]. simpl.
  intros [= <-]. apply first_row_Some in E as [E Hin]. apply elem_of_inner_join in Hin as (?&?&?).
  bprop. exists fc, fo. naive_solver.
Qed.

Lemma get_folder_uuid_None user self db f :
  Cipher_get_folder_uuid self user db = None → ¬ in_folder user (ci_uuid self) db f.
Proof.
  unfold Cipher_get_folder_uuid. destruct (first_row _ _) as [|] eqn:E; [done|]. intros _.
  intros (fc & fo & H1 & H2 & E1 & E2 & E3 & E4). rewrite first_row_None in E.
  specialize (E (fc, fo)). simpl in E. rewrite E1, E4, !eqb_str_refl in E.
  discriminate E. apply elem_of_inner_join. split_and!; [done..|]. apply eqb_str_true. congruence.
Qed.

Lemma in_folder_save user c new db f :
  (∃ fo, fo ∈ folders db ∧ f_uuid fo = new ∧ f_user_uuid fo = user) →
  in_folder user c
    (db <| folders_ciphers := upsert (mkFolderCipher c new) (folders_ciphers db) |>) f ↔
  f = new ∨ in_folder user c db f.
Proof.
  intros (fo0 & Hfo0 & Eu0 & Eus0). unfold in_folder. simpl. setoid_rewrite elem_of_upsert. split.
  - intros (fc & fo & [->|[Hfc _]] & Hfo & E1 & E2 & E3 & E4); [by left|right].
    by exists fc, fo.
  - intros [->|(fc & fo & Hfc & Hfo & E1 & E2 & E3 & E4)].
    + exists (mkFolderCipher c new), fo0. simpl. split_and!; auto.
    + destruct (decide (f = new)) as [->|Hne].
      * exists (mkFolderCipher c new), fo0. simpl. split_and!; auto.
      * exists fc, fo. split_and!; auto. right. split; [done|]. unfold pk, FolderCipher_pk. simpl.
        congruence.
Qed.

Lemma in_folder_delete user c old db f :
  in_folder user c (db <| folders_ciphers :=
      delete_where (λ x, (fc_cipher_uuid x == c) && (fc_folder_uuid x == old)) (folders_ciphers db) |>) f
  ↔ in_folder user c db f ∧ f ≠ old.
Proof.
  unfold in_folder. simpl. setoid_rewrite elem_of_delete_where. split.
  - intros (fc & fo & [Hfc Hp] & Hfo & E1 & E2 & E3 & E4). split; [by exists fc, fo|].
    rewrite E1, E2, eqb_str_refl in Hp. by apply eqb_str_false.
  - intros [(fc & fo & Hfc & Hfo & E1 & E2 & E3 & E4) Hne]. exists fc, fo. split_and!; auto.
    rewrite E1, E2, eqb_str_refl. by apply eqb_str_false.
Qed.

(** The row of the old folder, and its removal. *)
Lemma find_old_folder user c old db :
  in_folder user c db old → FolderCipher_find_by_folder_and_cipher old c db = Some (mkFolderCipher c old).
Proof.
  intros (fc & fo & Hfc & _ & E1 & E2 & _). unfold FolderCipher_find_by_folder_and_cipher.
  destruct (first_row _ _) as [[c' f']|] eqn:E.
  - apply first_row_Some in E as [E _]. simpl in E. bprop. by destruct E as [-> ->].
  - rewrite first_row_None in E. specialize (E fc Hfc). by rewrite E1, E2, !eqb_str_refl in E.
Qed.

Lemma wp_FolderCipher_delete user c old e w (Q : res () → World → Prop) :
  (∀ w', (∀ f, in_folder user c (w_db w') f ↔ in_folder user c (w_db w) f ∧ f ≠ old) →
         folders (w_db w') = folders (w_db w) → Q (Ok ()) w') →
  wp (FolderCipher_delete (mkFolderCipher c old)) e w Q.
Proof. intros HQ. apply wp_write, HQ; [|done]. intros f. apply in_folder_delete. Qed.

Lemma wp_FolderCipher_save user c new e w (Q : res () → World → Prop) :
  (∃ fo, fo ∈ folders (w_db w) ∧ f_uuid fo = new ∧ f_user_uuid fo = user) →
  (∀ w', (∀ f, in_folder user c (w_db w') f ↔ f = new ∨ in_folder user c (w_db w) f) → Q (Ok ()) w') →
  wp (FolderCipher_save (mkFolderCipher c new)) e w Q.
Proof. intros Hf HQ. apply wp_write, HQ. intros f. by apply in_folder_save. Qed.

(** C25: [Cipher::move_to_folder] moves: after a successful call the cipher is in
    the requested folder of the user and in no other, or in none when none was
    requested, given that the folder is the user's and that the cipher was in at
    most one folder before. *)
Theorem move_to_folder_spec self folder user e w w' :
  (∀ f, folder = Some f → ∃ fo, fo ∈ folders (w_db w) ∧ f_uuid fo = f ∧ f_user_uuid fo = user) →
  (∀ f f', in_folder user (ci_uuid self) (w_db w) f → in_folder user (ci_uuid self) (w_db w) f' →
           f = f') →
  Cipher_move_to_folder self folder user e w = (Ok (), w') →
  ∀ f, in_folder user (ci_uuid self) (w_db w') f ↔ folder = Some f.
Proof.
  intros Hf Hone. apply (wp_Ok _ _ _ _ _ (λ _ w', ∀ f, _)).
  unfold Cipher_move_to_folder. ws.
  eapply (wp_rel (same_part (λ d, (folders d, folders_ciphers d)))); [mrel|].
  intros r w1 [= F1 F2]. destruct r as [[]|]; [|done].
  assert (∀ f, in_folder user (ci_uuid self) (w_db w1) f ↔ in_folder user (ci_uuid self) (w_db w) f) as Hin.
  { intros f. unfold in_folder. by rewrite F1, F2. }
  rewrite <-F1 in Hf. setoid_rewrite <-Hin in Hone. clear F1 F2 Hin w. ws. ws.
  destruct (Cipher_get_folder_uuid self user (w_db w1)) as [old|] eqn:Eold.
  - apply get_folder_uuid_Some in Eold. destruct folder as [new|].
    + ws.
      * apply eqb_str_true in Heqb as ->. ws. intros _ _ f.
        split; [intros; f_equal; auto|]. by intros [= <-].
      * apply eqb_str_false in Heqb. do 3 ws. rewrite (find_old_folder _ _ _ _ Eold).
        apply (wp_FolderCipher_delete user). intros w2 H2 Ef.
        apply (wp_FolderCipher_save user); [rewrite Ef; by apply Hf|].
        intros w3 H3 _ _ f. rewrite H3, H2. split; [|by intros [= <-]; left].
        intros [->|[Hx Hne]]; [done|]. destruct Hne. by apply Hone.
    + ws. ws. rewrite (find_old_folder _ _ _ _ Eold).
      apply (wp_FolderCipher_delete user). intros w2 H2 _ _ _ f. rewrite H2.
      split; [|done]. intros [Hx Hne]. destruct Hne. by apply Hone.
  - pose proof (λ f, get_folder_uuid_None user self (w_db w1) f Eold) as Hnone. destruct folder as [new|].
    + apply (wp_FolderCipher_save user); [by apply Hf|]. intros w2 H2 _ _ f. rewrite H2.
      split; [|by intros [= <-]; left]. intros [->|Hx]; [done|]. by destruct (Hnone f).
    + ws. intros _ _ f. split; [|done]. intros Hx. by destruct (Hnone f).
Qed.

Definition folder_world : World :=
  mkWorld (vault_db <| folders := [mkFolder "f1" 0 0 "carol" "One"; mkFolder "f2" 0 0 "carol" "Two"] |>
                    <| folders_ciphers := [mkFolderCipher "c" "f1"] |>) 0 [].

Lemma move_to_folder_spec_witness :
  in_folder "carol" "c"
    (w_db (Cipher_move_to_folder vault_cipher (Some "f2") "carol" demo_env folder_world).2) "f2".
Proof.
  apply (move_to_folder_spec vault_cipher (Some "f2") "carol" demo_env folder_world); [| |done|done].
  - intros f [= <-]. exists (mkFolder "f2" 0 0 "carol" "Two"). split_and!; [|done|done].
    vm_compute. set_solver.
  - intros f f' (fc & _ & Hfc & _ & _ & <- & _) (fc' & _ & Hfc' & _ & _ & <- & _).
    apply list_elem_of_singleton in Hfc as ->, Hfc' as ->. done.
Defined.

(** ** A finding: the flags of a revoked membership *)

Definition revoked_db : Db :=
  vault_db <| users_organizations :=
    [mkMembership "m-carol" "carol" "org" None false "" (-126) 2 None None] |>
    <| users_collections := [mkCollectionUser "carol" "col" false false false] |>.

(** Revoking a member hides the organization's ciphers from its sync, but the
    per-cipher permissions do not look at the status of the membership: a cipher
    of a collection it was assigned to stays readable and writable by id. *)
Lemma revoked_member_keeps_cipher_access :
  Cipher_find_by_user_visible no_groups "carol" revoked_db = [] ∧
  Cipher_is_accessible_to_user no_groups vault_cipher "carol" revoked_db = true ∧
  Cipher_is_write_accessible_to_user no_groups vault_cipher "carol" revoked_db = true.
Proof. by vm_compute. Qed.
