(* ===== verification/EmergencySpec.v ===== *)
(** The life of an emergency access: the well-formedness of its records, the
    transitions each handler and job may make and who may make them, and what a
    grantee may see or do. *)
From S2P Require Import Prelude Table Schema Roles Users Memberships Groups Collections Policies.
From S2P Require Import Vault Ciphers Util Settings Devices Auth Demo Emergency OrgInv Guards.

Abbreviation eas w := (emergency_access (w_db w)).

(** An invited record knows the address and no grantee; from the acceptance on
    it is the other way round; a recovery has a start. *)
Definition ea_wf (a : EmergencyAccess) : Prop :=
  (a at EAInvited) = true ∧ is_Some (ea_email a) ∧ ea_grantee_uuid a = None ∨
  (1 ≤ ea_status a ≤ 4)%Z ∧ ea_email a = None ∧ is_Some (ea_grantee_uuid a) ∧
  (3 ≤ ea_status a → is_Some (ea_recovery_initiated_at a))%Z.

(** The waiting time of the recovery is over. *)
Definition wait_over (t : NaiveDateTime) (a : EmergencyAccess) : Prop :=
  ∃ start delta, ea_recovery_initiated_at a = Some start ∧
    try_days (ea_wait_time_days a) = Some delta ∧ (start + delta ≤ t)%Z.

(** One transition of a record, made by a user ([Some]) or by a job ([None]). *)
Inductive ea_trans (actor : option UserId) (t : NaiveDateTime) (a a' : EmergencyAccess) : Prop :=
| trans_same : ea_status a' = ea_status a → ea_grantee_uuid a' = ea_grantee_uuid a →
    ea_trans actor t a a'
| trans_accept grantee :
    (a at EAInvited) = true → (a' at EAAccepted) = true → ea_grantee_uuid a' = Some grantee →
    ea_trans actor t a a'
| trans_confirm :
    actor = Some (ea_grantor_uuid a) → (a at EAAccepted) = true → (a' at EAConfirmed) = true →
    ea_grantee_uuid a' = ea_grantee_uuid a → ea_trans actor t a a'
| trans_initiate :
    actor = ea_grantee_uuid a → (a at EAConfirmed) = true → (a' at RecoveryInitiated) = true →
    ea_recovery_initiated_at a' = Some t → ea_grantee_uuid a' = ea_grantee_uuid a →
    ea_trans actor t a a'
| trans_approve :
    actor = Some (ea_grantor_uuid a) ∨ actor = None ∧ wait_over t a →
    (a at RecoveryInitiated) = true → (a' at RecoveryApproved) = true →
    ea_grantee_uuid a' = ea_grantee_uuid a → ea_trans actor t a a'
| trans_reject :
    actor = Some (ea_grantor_uuid a) →
    (a at RecoveryInitiated) = true ∨ (a at RecoveryApproved) = true →
    (a' at EAConfirmed) = true → ea_grantee_uuid a' = ea_grantee_uuid a → ea_trans actor t a a'.

(** The table [u] after an operation on the table [t0]: every record is an old
    one after one transition, by the same grantor, or one that the actor has
    just granted and that is not confirmed; only the grantor changes the kind of
    access and the waiting time. *)
Definition ea_change (actor : option UserId) (t : NaiveDateTime) (t0 u : list EmergencyAccess) : Prop :=
  ∀ a', a' ∈ u → ea_wf a' ∧
    ((∃ a, a ∈ t0 ∧ ea_uuid a' = ea_uuid a ∧ ea_grantor_uuid a' = ea_grantor_uuid a ∧
           (ea_atype a' = ea_atype a ∧ ea_wait_time_days a' = ea_wait_time_days a ∨
            actor = Some (ea_grantor_uuid a)) ∧ ea_trans actor t a a') ∨
     Some (ea_grantor_uuid a') = actor ∧ (ea_status a' ≤ 1)%Z).

Section changes.
Context (actor : option UserId) (e : Env) (t0 : list EmergencyAccess).
Context (Hwf : ∀ a, a ∈ t0 → ea_wf a).
Implicit Types (w : World) (a : EmergencyAccess).

Lemma ea_change_refl : ea_change actor (e_now e) t0 t0.
Proof using Hwf.
  intros a Ha. split; [by apply Hwf|left]. exists a. split_and!; try done; [by left|].
  by apply trans_same.
Qed.

Lemma ea_change_delete p : ea_change actor (e_now e) t0 (delete_where p t0).
Proof using Hwf. intros a [Ha _]%elem_of_delete_where. by apply ea_change_refl. Qed.

Lemma ea_change_upsert a a' :
  a ∈ t0 → ea_uuid a' = ea_uuid a → ea_grantor_uuid a' = ea_grantor_uuid a → ea_wf a' →
  (ea_atype a' = ea_atype a ∧ ea_wait_time_days a' = ea_wait_time_days a ∨
   actor = Some (ea_grantor_uuid a)) →
  ea_trans actor (e_now e) a a' → ea_change actor (e_now e) t0 (upsert a' t0).
Proof using Hwf.
  intros Ha Eid Eg Hw Hk Ht x [->|[Hx _]]%elem_of_upsert; [|by apply ea_change_refl].
  split; [done|left]. by exists a.
Qed.

Lemma ea_change_new a' u :
  ea_change actor (e_now e) t0 u → Some (ea_grantor_uuid a') = actor → (ea_status a' ≤ 1)%Z →
  ea_wf a' → ea_change actor (e_now e) t0 (upsert a' u).
Proof.
  intros Hu Hg Hs Hw x [->|[Hx _]]%elem_of_upsert; [|by apply Hu]. split; [done|by right].
Qed.

(** A step that leaves the table alone. *)
Definition ea_changes {A} (m : Handler A) w : Prop :=
  wp m e w (λ _ w', ea_change actor (e_now e) t0 (eas w')).

Lemma wp_EmergencyAccess_save a w (Q : res EmergencyAccess → World → Prop) :
  (∀ x w', eas w' = eas w → Q (Err x) w') →
  (∀ w', eas w' = upsert (a <| ea_updated_at := e_now e |>) (eas w) →
         Q (Ok (a <| ea_updated_at := e_now e |>)) w') →
  wp (EmergencyAccess_save a) e w Q.
Proof.
  intros HE HQ. unfold EmergencyAccess_save. ws.
  eapply (wp_rel (same_part emergency_access)); [mrel|]. intros [[]|x] w1 F; [|by apply HE].
  ws. ws. ws. apply wp_write. ws. apply HQ. simpl. by rewrite F.
Qed.

Lemma find_by_grantor id g db a :
  EmergencyAccess_find_by_uuid_and_grantor_uuid id g db = Some a →
  a ∈ emergency_access db ∧ ea_grantor_uuid a = g.
Proof. intros [Hp Hin]%first_row_Some. bprop. tauto. Qed.

Lemma find_by_grantee id g db a :
  EmergencyAccess_find_by_uuid_and_grantee_uuid id g db = Some a →
  a ∈ emergency_access db ∧ ea_grantee_uuid a = Some g.
Proof. intros [Hp Hin]%first_row_Some. bprop. tauto. Qed.

Lemma find_by_email id m db a :
  EmergencyAccess_find_by_uuid_and_grantee_email id m db = Some a →
  a ∈ emergency_access db ∧ ea_email a = Some m.
Proof. intros [Hp Hin]%first_row_Some. bprop. tauto. Qed.
End changes.

(** The symbolic execution of the handlers up to the write of a record; [HT]
    says that the table is still the initial one. *)
Ltac eframe :=
  eapply (wp_rel (same_part emergency_access)); [solve [mrel]|];
  let r := fresh "r" in let w1 := fresh "w" in let F := fresh "F" in
  intros r w1 F; unfold same_part in F;
  match goal with H : eas _ = ?t |- _ => rewrite H in F; clear H; rename F into H end;
  match goal with H : eas _ = _ |- _ => destruct r; [|try (rewrite H; by apply ea_change_refl)] end.
Ltac edone := first [done | match goal with H : eas ?w = _ |- ea_change _ _ _ (eas ?w) =>
                              rewrite H; first [assumption | by apply ea_change_refl] end].
Ltac eo :=
  cbv beta iota;
  lazymatch goal with
  | |- wp (some_or _ _) _ _ _ => apply wp_some_or
  | |- match ?x with _ => _ end => let H := fresh "Hx" in destruct x eqn:H
  | |- wp (if _ then _ else _) _ _ (λ _ w, ea_change _ _ _ (eas w)) => ws
  | |- wp (if _ then _ else _) _ _ _ => first [eframe | ws]
  | |- wp (EmergencyAccess_save _) _ _ _ => fail
  | |- wp (EmergencyAccess_new _ _ _ _ _) _ _ _ => unfold EmergencyAccess_new
  | |- _ => first [ws | eframe]
  end; cbv beta iota; try edone;
  try match goal with
      | Hf : EmergencyAccess_find_by_uuid_and_grantor_uuid _ _ (w_db ?w) = Some _, HT : eas ?w = _ |- _ =>
        apply find_by_grantor in Hf as [Hin Hg]; rewrite HT in Hin
      | Hf : EmergencyAccess_find_by_uuid_and_grantee_uuid _ _ (w_db ?w) = Some _, HT : eas ?w = _ |- _ =>
        apply find_by_grantee in Hf as [Hin Hg]; rewrite HT in Hin
      | Hf : EmergencyAccess_find_by_uuid_and_grantee_email _ _ (w_db ?w) = Some _, HT : eas ?w = _ |- _ =>
        apply find_by_email in Hf as [Hin Hg]; rewrite HT in Hin
      end.

(** The save of the record [a0] with some columns changed, and what follows it;
    left are the transition and the well-formedness. *)
Ltac esave headers a0 :=
  lazymatch goal with HT : eas ?w = ?t |- wp (EmergencyAccess_save ?a) ?e ?w _ =>
    assert (ea_change (Some (u_uuid (h_user headers))) (e_now e) t
              (upsert (a <| ea_updated_at := e_now e |>) t));
    [ refine (ea_change_upsert _ _ _ _ a0 _ _ _ _ _ _ _); try done; try by left
    | apply wp_EmergencyAccess_save;
      [ intros ? ? F; rewrite HT in F; clear HT; try edone
      | intros ? F; rewrite HT in F; clear HT; try edone; repeat eo ] ]
  end.

(** Well-formedness of a record [a0] with some columns changed. *)
Ltac ewf a0 Hwf :=
  let Hw := fresh "Hw" in
  match goal with Hin : a0 ∈ _ |- _ => pose proof (Hwf a0 Hin) as Hw end;
  unfold ea_wf in *; simpl in *; bprop; simpl in *; rewrite ?Z.eqb_eq in *;
  destruct Hw as [(?&?&?)|(?&?&?&?)];
  first [ lia | congruence | right; split_and!; [lia|lia|try done|try done|intros; try done]
        | left; split_and!; done ];
  try (eauto; lia);
  try match goal with H : (3 ≤ _)%Z → ?g |- ?g => apply H; lia end.

(** The acceptance of an invited record. *)
Lemma wp_accept_invite_change actor t0 a grantee email e w1
    (Q : res EmergencyAccess → World → Prop) :
  (∀ a, a ∈ t0 → ea_wf a) → eas w1 = t0 → a ∈ t0 →
  (∀ r w', ea_change actor (e_now e) t0 (eas w') → Q r w') →
  wp (EmergencyAccess_accept_invite a grantee email) e w1 Q.
Proof.
  intros Hwf HT Hin HQ. unfold EmergencyAccess_accept_invite.
  ws. ws. { apply HQ. rewrite HT. by apply ea_change_refl. }
  ws. ws. { apply HQ. rewrite HT. by apply ea_change_refl. }
  apply wp_EmergencyAccess_save.
  - intros x w' E. apply HQ. rewrite E, HT. by apply ea_change_refl.
  - intros w' E. apply HQ. rewrite E, HT. apply negb_false_iff, opt_is_true in H.
    destruct (Hwf a Hin) as [(Hi&?&?)|(?&?&?)]; [|congruence].
    refine (ea_change_upsert _ _ _ _ a _ _ _ _ _ _ _); try done; [|by left|].
    + right. simpl. split_and!; [lia|lia|done|done|lia].
    + by eapply trans_accept.
Qed.

(** A new record, mailed or accepted at once. *)
Lemma wp_save_new_access actor t0 a (mail_on c : bool) mail msg grantee email e w1 :
  (∀ a, a ∈ t0 → ea_wf a) → eas w1 = t0 → Some (ea_grantor_uuid a) = actor →
  (a at EAInvited) = true → is_Some (ea_email a) → ea_grantee_uuid a = None →
  wp (EmergencyAccess_save a) e w1 (λ r s',
    match r with
    | Ok a1 =>
      wp (if mail_on then address ← unwrap (ea_email a1) msg; send_mail (mail address a1)
          else if c then _ ← EmergencyAccess_accept_invite a1 grantee email; mret () else mret ())
        e s' (λ _ w', ea_change actor (e_now e) t0 (eas w'))
    | Err _ => ea_change actor (e_now e) t0 (eas s')
    end).
Proof.
  intros Hwf HT Hg Hs He Hgr. apply wp_EmergencyAccess_save.
  { intros x w' E. rewrite E, HT. by apply ea_change_refl. }
  intros w' E. rewrite HT in E. set (a1 := a <| ea_updated_at := e_now e |>) in *.
  assert (ea_change actor (e_now e) t0 (eas w')) as Hc.
  { rewrite E. apply ea_change_new; [by apply ea_change_refl|done|apply Z.eqb_eq in Hs; simpl in *; lia|].
    by left. }
  ws. { eapply (wp_rel (same_part emergency_access)); [mrel|]. intros r w2 F.
        unfold same_part in F. by rewrite F. }
  ws; [|by ws]. unfold EmergencyAccess_accept_invite. ws. ws. ws; [done|]. ws. ws; [done|].
  apply wp_EmergencyAccess_save; [intros x w2 ->; done|]. intros w2 E2. ws. rewrite E2.
  apply ea_change_new; [done|done|simpl; lia|]. right. simpl. split_and!; [lia|lia|done|done|lia].
Qed.

Section handlers.
Context (headers : Headers) (e : Env) (w : World).
Context (Hwf : ∀ a, a ∈ eas w → ea_wf a).

Abbreviation changes m := (ea_changes (Some (u_uuid (h_user headers))) e (eas w) m w).
Ltac start m :=
  unfold ea_changes; unfold m; remember (eas w) as t0 eqn:HT; symmetry in HT; repeat eo.

Lemma ea_changes_confirm emer key : changes (confirm_emergency_access emer key headers).
Proof.
  start confirm_emergency_access. esave headers e0.
  - ewf e0 Hwf.
  - apply orb_false_iff in H as [H _]. apply negb_false_iff in H.
    apply trans_confirm; [congruence|done|done|done].
Qed.

Lemma changes_initiate emer : changes (initiate_emergency_access emer headers).
Proof.
  start initiate_emergency_access. esave headers e0.
  - ewf e0 Hwf.
  - apply negb_false_iff in H. apply trans_initiate; [congruence|done..].
Qed.

Lemma changes_approve emer : changes (approve_emergency_access emer headers).
Proof.
  start approve_emergency_access. esave headers e0.
  - ewf e0 Hwf.
  - apply negb_false_iff in H. apply trans_approve; [left; congruence|done..].
Qed.

Lemma changes_reject emer : changes (reject_emergency_access emer headers).
Proof.
  start reject_emergency_access. esave headers e0.
  - ewf e0 Hwf.
  - apply andb_false_iff in H. rewrite !negb_false_iff in H. apply trans_reject; [congruence|done..].
Qed.

Lemma changes_post emer data : changes (post_emergency_access emer data headers).
Proof.
  start post_emergency_access. destruct (ud_key_encrypted data); simpl; esave headers e0.
  all: try (right; congruence). all: try by apply trans_same. all: ewf e0 Hwf.
Qed.

Lemma ea_changes_delete emer : changes (delete_emergency_access emer headers).
Proof.
  start delete_emergency_access. all: unfold EmergencyAccess_delete; ws; eframe; apply wp_write.
  all: simpl; rewrite HT; by apply ea_change_delete.
Qed.

Lemma changes_resend emer : changes (resend_invite emer headers).
Proof.
  start resend_invite. apply (wp_accept_invite_change (Some (u_uuid (h_user headers))) t0); [done..|].
  intros [] w' Hc; by repeat ws.
Qed.

Lemma changes_accept emer token : changes (ea_accept_invite emer token headers).
Proof.
  start ea_accept_invite. apply (wp_accept_invite_change (Some (u_uuid (h_user headers))) t0); [done..|].
  intros [b|] w' Hc; [|done]. remember (eas w') as u1 eqn:HT'. symmetry in HT'.
  eapply (wp_rel (same_part emergency_access)); [mrel|]. intros r w3 F. unfold same_part in F.
  by rewrite F, HT'.
Qed.

Lemma changes_invite data : changes (ea_send_invite data headers).
Proof.
  start ea_send_invite; apply (wp_save_new_access (Some (u_uuid (h_user headers))) t0); done.
Qed.
End handlers.

(** ** The jobs *)

(** One round of the timeout job, on a record of the table [t0] it was read from. *)
Definition approved (t : NaiveDateTime) (a : EmergencyAccess) : EmergencyAccess :=
  a <| ea_status := EmergencyAccessStatus_as_i32 RecoveryApproved |> <| ea_updated_at := t |>.

(** The table during the job: rows of [t0], some of them approved because their
    wait is over. *)
Definition timing_out (t : NaiveDateTime) (t0 u : list EmergencyAccess) : Prop :=
  ∀ x, x ∈ u → x ∈ t0 ∨
    ∃ a, a ∈ t0 ∧ (a at RecoveryInitiated) = true ∧ wait_over t a ∧ x = approved t a.

Lemma timing_out_step t t0 u a :
  pk_unique t0 → a ∈ t0 → (a at RecoveryInitiated) = true → wait_over t a → timing_out t t0 u →
  timing_out t t0 (update_where (λ x, ea_uuid x == ea_uuid a)
    (λ x, x <| ea_status := EmergencyAccessStatus_as_i32 RecoveryApproved |>
            <| ea_updated_at := t |>) u).
Proof.
  intros Hpk Ha Hs Hw Hu x (y & Hy & ->)%elem_of_update_where.
  destruct (ea_uuid y == ea_uuid a) eqn:E; [|by apply Hu]. apply eqb_str_true in E. right. exists a.
  split_and!; [done..|]. destruct (Hu y Hy) as [Hy0|(b & Hb & _ & _ & ->)].
  - by rewrite (pk_unique_inj t0 y a Hpk Hy0 Ha).
  - by rewrite (pk_unique_inj t0 b a Hpk Hb Ha).
Qed.

Lemma wp_timeout_one t0 emer e w :
  pk_unique t0 → emer ∈ t0 → (emer at RecoveryInitiated) = true → timing_out (e_now e) t0 (eas w) →
  wp (timeout_one (e_now e) emer) e w (λ _ w', timing_out (e_now e) t0 (eas w')).
Proof.
  intros Hpk Hin Hs HI. unfold timeout_one. ws. ws; [done|]. ws. ws; [done|]. ws. ws; [done|].
  ws; [|by ws]. assert (wait_over (e_now e) emer) as Hw.
  { unfold dt_add, dt_checked in H1. destruct (_ && _); [|done]. injection H1 as <-.
    exists a, a0. split_and!; [done..|]. by apply Z.leb_le. }
  ws. unfold EmergencyAccess_update_access_status_and_save. ws. ws; [done|]. ws.
  eapply (wp_rel (same_part emergency_access)); [mrel|]. intros [[]|] w1 F; unfold same_part in F;
    [|by rewrite F]. ws. apply wp_write. ws.
  eapply (wp_rel (same_part emergency_access)); [mrel|]. intros r w2 F2. unfold same_part in F2.
  rewrite F2. simpl. rewrite F. by apply timing_out_step.
Qed.

Lemma timing_out_change t t0 u :
  (∀ a, a ∈ t0 → ea_wf a) → timing_out t t0 u → ea_change None t t0 u.
Proof.
  intros Hwf Hu x Hx. destruct (Hu x Hx) as [Hx0|(a & Ha & Hs & Hw & ->)].
  - split; [by apply Hwf|left]. exists x. split_and!; try done; [by left|]. by apply trans_same.
  - split; [|left; exists a; split_and!; try done; [by left|]; apply trans_approve; auto].
    ewf a Hwf.
Qed.

(** The reminders touch two dates only. *)
Lemma wp_reminder_one t emer e w :
  wp (reminder_one t emer) e w (λ _ w', eas w' = eas w ∨ eas w' =
    update_where (λ x, ea_uuid x == ea_uuid emer)
      (λ x, x <| ea_last_notification_at := Some t |> <| ea_updated_at := t |>) (eas w)).
Proof.
  unfold reminder_one. ws. ws; [by left|]. ws. ws; [by left|]. ws. ws; [by left|]. ws.
  eapply (wp_rel (same_part emergency_access)); [mrel|]. intros [n|] w1 F; unfold same_part in F; [|by left].
  ws; [|ws; by left]. ws. unfold EmergencyAccess_update_last_notification_date_and_save. ws.
  apply wp_write. ws. eapply (wp_rel (same_part emergency_access)); [mrel|].
  intros r w2 F2. unfold same_part in F2. right. rewrite F2. simpl. by rewrite F.
Qed.

Lemma ea_change_reminder actor t t0 u p f :
  ea_change actor t t0 u →
  (∀ x, ∃ n d, f x = x <| ea_last_notification_at := n |> <| ea_updated_at := d |>) →
  ea_change actor t t0 (update_where p f u).
Proof.
  intros Hu Hf x (y & Hy & ->)%elem_of_update_where. destruct (p y); [|by apply Hu].
  destruct (Hf y) as (n & d & ->). destruct (Hu y Hy) as [Hw Hc]. split; [exact Hw|].
  destruct Hc as [(a & Ha & E1 & E2 & E3 & Ht)|Hn]; [left|by right].
  exists a. split_and!; [done..|]. destruct Ht.
  - by apply trans_same.
  - by eapply trans_accept.
  - by apply trans_confirm.
  - by apply trans_initiate.
  - by apply trans_approve.
  - by apply trans_reject.
Qed.

(** ** The theorems *)

(** What users may do with emergency accesses. *)
Inductive EmergencyOp :=
| E_post (emer : string) (data : EmergencyAccessUpdateData)
| E_delete (emer : string)
| E_invite (data : EmergencyAccessInviteData)
| E_resend (emer : string)
| E_accept (emer token : string)
| E_confirm (emer key : string)
| E_initiate (emer : string)
| E_approve (emer : string)
| E_reject (emer : string)
| E_view (emer : string)
| E_takeover (emer : string)
| E_password (emer hash key : string)
| E_policies (emer : string).

Definition run_emergency (op : EmergencyOp) (h : Headers) : Handler () :=
  match op with
  | E_post emer data => _ ← post_emergency_access emer data h; mret ()
  | E_delete emer => delete_emergency_access emer h
  | E_invite data => ea_send_invite data h
  | E_resend emer => resend_invite emer h
  | E_accept emer token => ea_accept_invite emer token h
  | E_confirm emer key => _ ← confirm_emergency_access emer key h; mret ()
  | E_initiate emer => _ ← initiate_emergency_access emer h; mret ()
  | E_approve emer => _ ← approve_emergency_access emer h; mret ()
  | E_reject emer => _ ← reject_emergency_access emer h; mret ()
  | E_view emer => _ ← view_emergency_access emer h; mret ()
  | E_takeover emer => _ ← takeover_emergency_access emer h; mret ()
  | E_password emer hash key => password_emergency_access emer hash key h
  | E_policies emer => _ ← policies_emergency_access emer h; mret ()
  end.

Lemma ea_changes_run {A} actor e t0 (m : Handler A) w :
  ea_changes actor e t0 m w → ea_changes actor e t0 (_ ← m; mret ()) w.
Proof.
  unfold ea_changes. intros H. ws. eapply wp_mono; [exact H|]. by intros [] w2 ?; [ws|].
Qed.

Lemma ea_changes_same {A} actor e (m : Handler A) w :
  (∀ a, a ∈ eas w → ea_wf a) → keeps emergency_access m → ea_changes actor e (eas w) m w.
Proof.
  intros Hwf Hm. eapply (wp_rel (same_part emergency_access)); [exact Hm|]. intros r w' F.
  unfold same_part in F. rewrite F. by apply ea_change_refl.
Qed.


(** alice has granted bob access, bob has started a recovery 8 days ago. *)
Definition recovery (status atype : Z) : EmergencyAccess :=
  mkEmergencyAccess "e" "alice" (Some "bob") None (Some "key") atype status 7 (Some 0%Z) None 0 0.
Definition recovery_world (status atype : Z) : World :=
  mkWorld (accounts_db <| emergency_access := [recovery status atype] |>) 0 [].
Definition late_env : Env :=
  demo_env <| e_now := (8 * 86400)%Z |>.

Lemma recovery_wf status atype :
  (1 ≤ status ≤ 4)%Z → ∀ a, a ∈ emergency_access (w_db (recovery_world status atype)) → ea_wf a.
Proof.
  intros Hs a Ha. apply list_elem_of_singleton in Ha as ->. right. simpl. split_and!; try lia; eauto.
Qed.




(** C28: what a grantee sees: [view] answers only on a record of this grantee
    that is approved and of type View, with the grantor's personal ciphers and
    nothing else, and changes nothing. *)
Theorem view_emergency_access_spec emer h e w l key w' :
  view_emergency_access emer h e w = (Ok (l, key), w') →
  w' = w ∧ ∃ a, a ∈ emergency_access (w_db w) ∧ ea_uuid a = emer ∧
    ea_grantee_uuid a = Some (u_uuid (h_user h)) ∧ (a at RecoveryApproved) = true ∧
    ea_atype a = EmergencyAccessType_as_i32 View ∧ key = ea_key_encrypted a ∧
    l = sel (λ c, opt_is (ci_user_uuid c) (ea_grantor_uuid a) && is_none (ci_organization_uuid c))
          (ciphers (w_db w)).
Proof.
  unfold view_emergency_access, check_emergency_access_enabled, some_or, mbind, M_bind, query, cfg,
    gets, err_if. destruct (negb (emergency_access_allowed _)); [done|]. simpl.
  destruct (EmergencyAccess_find_by_uuid_and_grantee_uuid _ _ _) as [a|] eqn:Ea; [|done]. simpl.
  destruct (is_valid_request a _ View) eqn:Hv; [|done]. simpl. intros [= <- <- <-]. split; [done|].
  apply first_row_Some in Ea as [Ea Hin]. unfold is_valid_request in Hv.
  apply andb_true_iff in Hv as [[H1%opt_is_true H2]%andb_true_iff H3%Z.eqb_eq].
  apply andb_true_iff in Ea as [E1%eqb_str_true _]. by exists a.
Qed.

Lemma view_emergency_access_spec_witness :
  ∃ a, a ∈ emergency_access (w_db (recovery_world 4 0)) ∧ ea_grantee_uuid a = Some "bob" ∧
       (a at RecoveryApproved) = true.
Proof.
  destruct (view_emergency_access_spec "e" (user_headers bob) demo_env (recovery_world 4 0) []
              (Some "key") (recovery_world 4 0)) as (_ & a & ?&?&?&?&_); [by vm_compute|].
  by exists a.
Defined.

(** ** The takeover *)

(** The account table up to revision dates. *)
Definition undate (u : User) : User := u <| u_updated_at := 0%Z |>.
Definition undated_users (d : Db) : list User := map undate (users d).

Lemma keeps_undated_revision u date : keeps undated_users (User_update_revision_impl u date).
Proof.
  intros e w. unfold same_part, undated_users. simpl. apply update_where_fmap. done.
Qed.
#[export] Hint Resolve keeps_undated_revision : mrel.

Lemma undated_ext d d' : users d' = users d → undated_users d' = undated_users d.
Proof. unfold undated_users. by intros ->. Qed.
#[export] Hint Extern 3 (m_rel (same_part undated_users) (modify_part _ _ _)) =>
  apply keeps_write; intros; apply undated_ext; reflexivity : mrel.

(** The account with a new password, key and security stamp. *)
Definition taken_over (e : Env) (hash key : string) (u u' : User) : Prop :=
  u_uuid u' = u_uuid u ∧ u_email u' = u_email u ∧ u_akey u' = key ∧
  u_password_hash u' = e_pbkdf2 e hash (u_salt u) (u_password_iterations u) ∧
  ∃ n, u_security_stamp u' = e_uuid e n.

Lemma wp_set_password_takeover u hash key e w (Q : res User → World → Prop) :
  (∀ x w', Q (Err x) w') →
  (∀ u' w', taken_over e hash key u u' → users (w_db w') = users (w_db w) → Q (Ok u') w') →
  wp (User_set_password u hash (Some key) true None) e w Q.
Proof.
  intros HE HQ. unfold User_set_password, User_reset_security_stamp. ws. ws; [apply HE|].
  repeat ws. eapply (wp_rel (same_part users)); [mrel|]. intros [[]|x] w1 F; [|apply HE]. ws.
  apply HQ; [|done]. unfold taken_over. simpl. eauto 10.
Qed.

(** C29: a takeover needs an approved record of type Takeover that names the
    caller as grantee, and touches only the grantor's account: revision dates
    apart, the account table afterwards is the one before with that one row
    replaced, which has the new password, key and security stamp. *)
Theorem password_emergency_access_spec emer hash key h e w w' :
  password_emergency_access emer hash key h e w = (Ok (), w') →
  ∃ a u u', a ∈ emergency_access (w_db w) ∧ ea_grantee_uuid a = Some (u_uuid (h_user h)) ∧
    (a at RecoveryApproved) = true ∧ ea_atype a = EmergencyAccessType_as_i32 Takeover ∧
    u ∈ users (w_db w) ∧ u_uuid u = ea_grantor_uuid a ∧ taken_over e hash key u u' ∧
    map undate (users (w_db w')) = map undate (upsert u' (users (w_db w))).
Proof.
  apply (wp_Ok _ _ _ _ _ (λ _ w', _)).
  unfold password_emergency_access, check_emergency_access_enabled. do 3 ws. ws; [done|].
  ws. apply wp_some_or. ws.
  destruct (EmergencyAccess_find_by_uuid_and_grantee_uuid _ _ _) as [a|] eqn:Ea; [|done].
  apply find_by_grantee in Ea as [Hin Hg]. ws. ws; [done|]. ws. apply wp_some_or. ws.
  destruct (User_find_by_uuid _ _) as [u|] eqn:Eu; [|done]. apply first_row_Some in Eu as [Eu Hu].
  apply eqb_str_true in Eu. ws. apply wp_set_password_takeover; [done|]. intros u1 w1 Ht Ew1.
  ws. apply wp_User_save; [done|]. intros _ _ u2.
  match goal with |- wp _ _ ?w _ => set (w2 := w) end.
  eapply (wp_rel (same_part undated_users)); [mrel|]. intros r w3 F _ _.
  apply negb_false_iff in H0. unfold is_valid_request in H0.
  apply andb_true_iff in H0 as [[_ H2]%andb_true_iff H3%Z.eqb_eq].
  exists a, u, (u1 <| u_updated_at := e_now e |>). split_and!; try done.
  unfold same_part, undated_users in F. rewrite F. unfold w2. simpl. by rewrite Ew1.
Qed.

Lemma password_emergency_access_spec_witness :
  ∃ a u, a ∈ emergency_access (w_db (recovery_world 4 1)) ∧ u ∈ users (w_db (recovery_world 4 1)) ∧
    u_uuid u = ea_grantor_uuid a ∧ ea_atype a = EmergencyAccessType_as_i32 Takeover.
Proof.
  destruct (password_emergency_access_spec "e" "new" "k" (user_headers bob) demo_env
    (recovery_world 4 1) (password_emergency_access "e" "new" "k" (user_headers bob) demo_env
    (recovery_world 4 1)).2) as (a & u & _ & H1 & _ & _ & H2 & H3 & H4 & _); [by vm_compute|].
  by exists a, u.
Defined.

(** ** The timeout job makes progress *)

(** The record's dates are in range and it names its grantee. *)
Definition timeout_ready (a : EmergencyAccess) : Prop :=
  is_Some (ea_grantee_uuid a) ∧
  ∃ start delta, ea_recovery_initiated_at a = Some start ∧
    try_days (ea_wait_time_days a) = Some delta ∧ dt_add start delta = Some (start + delta)%Z.

(** Every record is still there, or approved. *)
Definition covered (t : NaiveDateTime) (t0 u : list EmergencyAccess) : Prop :=
  ∀ a, a ∈ t0 → a ∈ u ∨ approved t a ∈ u.

Lemma approve_row t a u :
  covered t [a] u →
  let u' := update_where (λ x, ea_uuid x == ea_uuid a)
    (λ x, x <| ea_status := EmergencyAccessStatus_as_i32 RecoveryApproved |>
            <| ea_updated_at := t |>) u in
  approved t a ∈ u' ∧ ∀ b, (b ∈ u ∨ approved t b ∈ u → b ∈ u' ∨ approved t b ∈ u') ∧
                           (approved t b ∈ u → approved t b ∈ u').
Proof.
  intros Ha u'. assert (∀ x, x ∈ u → (if ea_uuid x == ea_uuid a then approved t x else x) ∈ u') as Hu.
  { intros x Hx. apply elem_of_update_where. by exists x. }
  assert (∀ b, approved t b ∈ u → approved t b ∈ u') as Hs.
  { intros b Hb. specialize (Hu _ Hb). by case_match. }
  split.
  - destruct (Ha a) as [H|H]; [set_solver|..]; [|by apply Hs].
    specialize (Hu _ H). by rewrite eqb_str_refl in Hu.
  - intros b. split; [|apply Hs]. intros [Hb|Hb]; [|by right; apply Hs].
    specialize (Hu _ Hb). case_match; auto.
Qed.

Lemma wp_timeout_one_ok t0 a e w :
  mail_enabled (e_cfg e) = false → timeout_ready a → covered (e_now e) (a :: t0) (eas w) →
  wp (timeout_one (e_now e) a) e w (λ r w', r = Ok () ∧ covered (e_now e) t0 (eas w') ∧
    (∀ b, approved (e_now e) b ∈ eas w → approved (e_now e) b ∈ eas w') ∧
    (wait_over (e_now e) a → approved (e_now e) a ∈ eas w')).
Proof.
  intros Hmail [[g Hg] (start & delta & Es & Ed & Et)] Hc.
  unfold timeout_one, EmergencyAccess_update_access_status_and_save, unwrap. rewrite Es, Ed, Hg.
  do 4 ws. rewrite Et. do 2 ws. ws.
  2:{ ws. split_and!; [done| |done|].
      - intros b Hb. apply Hc. set_solver.
      - intros (s1 & d1 & E1 & E2 & E3). apply Z.leb_gt in Heqb. simplify_eq. lia. }
  do 4 ws. apply wp_succeeds; [succeeds|].
  eapply (wp_rel (same_part emergency_access)); [mrel|]. intros r w1 F u1 ->. unfold same_part in F.
  ws. apply wp_write. do 3 ws. rewrite Hmail. ws.
  destruct (approve_row (e_now e) a (eas w1)) as [Ha Hb].
  { rewrite F. intros b ->%list_elem_of_singleton. apply Hc. set_solver. }
  rewrite <-F in Hc |- *. split_and!; [done| | |done].
  - intros b Hin. apply Hb, Hc. set_solver.
  - intros b. apply Hb.
Qed.

Lemma wp_timeout_all l e w :
  mail_enabled (e_cfg e) = false → (∀ a, a ∈ l → timeout_ready a) → covered (e_now e) l (eas w) →
  wp (mfor l (timeout_one (e_now e))) e w (λ r w', r = Ok () ∧
    (∀ b, approved (e_now e) b ∈ eas w → approved (e_now e) b ∈ eas w') ∧
    (∀ a, a ∈ l → wait_over (e_now e) a → approved (e_now e) a ∈ eas w')).
Proof.
  intros Hmail. revert w. induction l as [|a l IH]; intros w Hl Hc; simpl.
  { ws. split_and!; [done|done|]. intros a Ha. by apply not_elem_of_nil in Ha. }
  ws. eapply wp_mono; [apply (wp_timeout_one_ok l); [done|apply Hl; set_solver|done]|].
  intros r w1 (-> & Hc1 & Hs1 & Ha1). eapply wp_mono; [apply IH; [intros; apply Hl; set_solver|done]|].
  intros r w2 (-> & Hs2 & Ha2). split_and!; [done|auto|].
  intros b [->|Hb]%elem_of_cons Hw; auto.
Qed.

(** C30: the timeout job makes progress: when the dates of the pending
    recoveries are in range and no mail has to be sent, it ends without an
    error, and every recovery whose waiting time is over is approved. *)
Theorem timeout_job_approves e w :
  emergency_access_allowed (e_cfg e) = true → mail_enabled (e_cfg e) = false →
  (∀ a, a ∈ EmergencyAccess_find_all_recoveries_initiated (w_db w) → timeout_ready a) →
  ∃ w', emergency_request_timeout_job e w = (Ok (), w') ∧
    ∀ a, a ∈ EmergencyAccess_find_all_recoveries_initiated (w_db w) → wait_over (e_now e) a →
         approved (e_now e) a ∈ emergency_access (w_db w').
Proof.
  intros Hall Hmail Hr.
  assert (wp emergency_request_timeout_job e w (λ r w', r = Ok () ∧
    ∀ a, a ∈ EmergencyAccess_find_all_recoveries_initiated (w_db w) → wait_over (e_now e) a →
         approved (e_now e) a ∈ eas w')) as Hw.
  { unfold emergency_request_timeout_job. do 2 ws. rewrite Hall. simpl. do 4 ws.
    eapply wp_mono; [apply wp_timeout_all; [done|done|]|].
    - intros a [_ Ha]%elem_of_sel. by left.
    - intros r w' (-> & _ & H). done. }
  unfold wp in Hw. destruct (emergency_request_timeout_job e w) as [r w'] eqn:E.
  simpl in Hw. destruct Hw as [-> H]. by exists w'.
Qed.

Lemma timeout_job_approves_witness :
  ∃ w', emergency_request_timeout_job late_env (recovery_world 3 0) = (Ok (), w') ∧
    approved (8 * 86400) (recovery 3 0) ∈ emergency_access (w_db w').
Proof.
  destruct (timeout_job_approves late_env (recovery_world 3 0)) as (w' & Hrun & H); [done|done| |].
  - intros a [_ Ha]%elem_of_sel. apply list_elem_of_singleton in Ha as ->. split; [by exists "bob"|].
    exists 0%Z, (7 * 86400)%Z. by vm_compute.
  - exists w'. split; [done|]. apply (H (recovery 3 0)); [vm_compute; set_solver|].
    exists 0%Z, (7 * 86400)%Z. by vm_compute.
Defined.

(** ** A finding: one record stops the job for everyone

    [wait_time_days] comes from the request and is not checked. A grantor that
    sets it to two billion days, and whose grantee starts a recovery, makes the
    addition of the job panic; the recoveries behind it in the table are never
    approved. *)
Definition endless (a : EmergencyAccess) : EmergencyAccess :=
  a <| ea_uuid := "e0" |> <| ea_wait_time_days := 2000000000%Z |>.

Lemma huge_wait_time_blocks_timeout_job :
  let w := mkWorld (accounts_db <| emergency_access := [endless (recovery 3 0); recovery 3 0] |>) 0 [] in
  is_ok (emergency_request_timeout_job late_env w).1 = false ∧
  emergency_access (w_db (emergency_request_timeout_job late_env w).2) = emergency_access (w_db w) ∧
  is_ok (run_emergency (E_post "e0" (mkEmergencyAccessUpdateData (Number 0) 2000000000%Z None))
           (user_headers alice) late_env w).1 = true.
Proof. by vm_compute. Qed.
