(* ===== verification/TwoFactorSpec.v ===== *)
(** What the second factors the server checks itself guarantee: an authenticator
    code is accepted once and only for its time step; a code sent by e-mail
    behaves as a one-time code, an abstract machine of three operations. *)
From Stdlib Require Import Sorted.
From S2P Require Import Prelude Table Schema Roles Users Memberships Policies Util Devices Events.
From S2P Require Import Auth Demo Emergency Accounts Orgs OrgInv Guards OrgSafety TwoFactors.

(** ** Rows of second factors *)

(** The row of a user and type after a save: the saved one. *)
Lemma find_saved_factor t l :
  first_row (λ x, (tf_user_uuid x == tf_user_uuid t) && (tf_atype x =? tf_atype t)%Z)
    (upsert t (delete_where (λ x, (tf_user_uuid x == tf_user_uuid t) && (tf_atype x =? tf_atype t)%Z) l))
  = Some t.
Proof.
  set (p := λ x, _). unfold first_row, upsert. rewrite sel_app.
  assert (sel p (delete_where (same_pk t) (delete_where p l)) = []) as ->.
  { destruct (sel p _) as [|x l'] eqn:E; [done|]. assert (x ∈ x :: l') as Hx by left.
    rewrite <-E in Hx. apply elem_of_sel in Hx as [Hp Hx].
    apply elem_of_delete_where in Hx as [Hx _]. apply elem_of_delete_where in Hx as [_ Hx]. congruence. }
  unfold sel, p. simpl. by rewrite eqb_str_refl, Z.eqb_refl.
Qed.

(** Saving a row that replaces the one a query found: the query now finds it. *)
Lemma wp_resave user ty tf tf' e w (Q : res () → World → Prop) :
  TwoFactor_find_by_user_and_type user ty (w_db w) = Some tf →
  tf_user_uuid tf' = tf_user_uuid tf → tf_atype tf' = tf_atype tf →
  (∀ w', TwoFactor_find_by_user_and_type user ty (w_db w') = Some tf' → w_draws w' = w_draws w →
         Q (Ok ()) w') →
  wp (TwoFactor_save tf') e w Q.
Proof.
  intros Hf Eu Et HQ. apply wp_write, HQ; [|done]. apply first_row_Some in Hf as [Hp _]. bprop.
  destruct Hp as [<- <-]. unfold TwoFactor_find_by_user_and_type. simpl. rewrite <-Eu, <-Et.
  apply find_saved_factor.
Qed.

(** ** Authenticator codes *)

(** The time step of the clock, [step] steps off, and its code. *)
Definition time_step (e : Env) (step : Z) : Z := (Z.quot (e_now e) 30 + step)%Z.
Definition totp_matches (e : Env) (key code : string) (step : Z) : bool :=
  e_totp e key ((e_now e + step * 30) mod 2 ^ 64)%Z == code.

(** The loop decides at the first step of its window whose code was typed in. *)
Lemma totp_loop_first e key code tf steps :
  totp_loop e key code tf steps =
  match List.find (totp_matches e key code) steps with
  | Some step =>
    if (tf_last_used tf <? time_step e step)%Z
    then Ok (tf <| tf_last_used := time_step e step |>)
    else Err (MsgEvent "Invalid TOTP code!" UserFailedLogIn2fa_event)
  | None => Err (MsgEvent "Invalid TOTP code!" UserFailedLogIn2fa_event)
  end.
Proof.
  induction steps as [|s steps IH]; [done|]. simpl. unfold totp_round, totp_matches at 1.
  fold (time_step e s). destruct (e_totp e key _ == code); simpl; [|exact IH].
  destruct (tf_last_used tf <? time_step e s)%Z eqn:E; [done|].
  assert ((time_step e s <=? tf_last_used tf)%Z = true) as -> by (bprop; lia). done.
Qed.

(** The step a code is accepted for, with the row's last used step [used]. *)
Definition accepted_step (e : Env) (secret code : string) (used : Z) : option Z :=
  match e_base32_decode e secret with
  | Some key =>
    match List.find (totp_matches e key code) (totp_steps (e_cfg e)) with
    | Some step => if (used <? time_step e step)%Z then Some (time_step e step) else None
    | None => None
    end
  | None => None
  end.

Lemma validate_totp_code_row user code secret e w tf :
  TwoFactor_find_by_user_and_type user (TwoFactorType_as_i32 Authenticator) (w_db w) = Some tf →
  match accepted_step e secret code (tf_last_used tf), validate_totp_code user code secret e w with
  | Some step, (r, w') =>
    r = Ok () ∧ TwoFactor_find_by_user_and_type user (TwoFactorType_as_i32 Authenticator) (w_db w')
                = Some (tf <| tf_last_used := step |>)
  | None, (r, w') => is_ok r = false ∧ w' = w
  end.
Proof.
  intros Hf. set (find w := TwoFactor_find_by_user_and_type user (TwoFactorType_as_i32 Authenticator) (w_db w)) in *.
  assert (wp (validate_totp_code user code secret) e w (λ r w',
    match accepted_step e secret code (tf_last_used tf) with
    | Some step => r = Ok () ∧ find w' = Some (tf <| tf_last_used := step |>)
    | None => is_ok r = false ∧ w' = w
    end)) as H; [|unfold wp in H; by case_match; destruct (validate_totp_code _ _ _ _ _)].
  unfold validate_totp_code, accepted_step. ws. ws. destruct (e_base32_decode e secret) as [key|]; [|by ws]. ws. ws. ws. rewrite Hf.
  ws. ws. ws. rewrite totp_loop_first. destruct (List.find _ _) as [step|]; [|done].
  destruct (tf_last_used tf <? time_step e step)%Z; [|done]. ws.
  eapply wp_resave; [exact Hf|done|done|]. intros w' H _. by split.
Qed.


(** demo_env's code of a time is the key and a stroke per time step. *)
Definition totp_row : TwoFactor := mkTwoFactor "t1" "alice" 0 true "key" 31.
Definition totp_world : World := mkWorld ((w_db org_world) <| twofactor := [totp_row] |>) 0 [].


(** A run of attempts, each at its own time: the steps that were accepted. *)
Fixpoint accepted_steps (user : UserId) (l : list (Env * string * string)) (w : World) : list Z :=
  match l with
  | [] => []
  | (e, secret, code) :: l =>
    let (r, w') := validate_totp_code user code secret e w in
    match r, TwoFactor_find_by_user_and_type user (TwoFactorType_as_i32 Authenticator) (w_db w') with
    | Ok _, Some tf => tf_last_used tf :: accepted_steps user l w'
    | _, _ => accepted_steps user l w'
    end
  end.

(** C9: over any sequence of attempts, with any codes and at any times (the clock
    may even go back), every accepted code belongs to a later time step than all
    accepted before: no code is accepted twice, and none from before the last
    accepted one. *)
Theorem totp_codes_are_not_reused user l w tf :
  TwoFactor_find_by_user_and_type user (TwoFactorType_as_i32 Authenticator) (w_db w) = Some tf →
  StronglySorted Z.lt (tf_last_used tf :: accepted_steps user l w).
Proof.
  revert w tf. induction l as [|[[e secret] code] l IH]; intros w tf Hf; cbn [accepted_steps].
  { constructor; constructor. }
  pose proof (validate_totp_code_row user code secret e w tf Hf) as H.
  destruct (accepted_step e secret code (tf_last_used tf)) as [step|] eqn:Es;
    destruct (validate_totp_code user code secret e w) as [r w'].
  - destruct H as [-> Hf']. rewrite Hf'. specialize (IH w' _ Hf').
    assert (tf_last_used tf < step)%Z as Hlt.
    { unfold accepted_step in Es. repeat case_match; simplify_eq. by apply Z.ltb_lt. }
    constructor; [exact IH|]. constructor; [exact Hlt|].
    apply StronglySorted_inv in IH as [_ IH]. eapply Forall_impl; [exact IH|]. simpl. intros. lia.
  - destruct H as [Hr ->]. destruct r; [done|]. by apply IH.
Qed.

(** The code of step 33 is typed in twice, then the one of step 34. *)
Lemma totp_codes_are_not_reused_witness :
  let try n := (demo_env, "key", "key" +:+ tally n) in
  accepted_steps "alice" [try 33; try 33; try 32; try 34]%nat totp_world = [33%Z; 34%Z] ∧
  StronglySorted Z.lt (31%Z :: accepted_steps "alice" [try 33; try 33; try 32; try 34]%nat totp_world).
Proof.
  intros try. split; [by vm_compute|]. by apply (totp_codes_are_not_reused _ _ _ totp_row).
Defined.

(** ** Codes by e-mail: a one-time code *)

(** The abstract machine: the code that was issued last with the time it was
    sent, if it is still there, and the wrong guesses since the last reset. *)
Record OneTimeCode := mkOneTimeCode {
  otc_code : option (string * Z);
  otc_attempts : Z }.

Definition otc_issue (code : string) (t : Z) (s : OneTimeCode) : OneTimeCode :=
  mkOneTimeCode (Some (code, t)) (otc_attempts s).

(** A code sent at [sent] may still be used. *)
Definition otc_in_time (max t sent : Z) : bool :=
  match dt_from_timestamp sent, try_seconds max with
  | Some dt, Some delta => on_row (dt_add dt delta) (λ limit, t <=? limit)%Z
  | _, _ => false
  end.

(** A guess: the right code is used up, in time or not; a wrong one counts, and
    the code is withdrawn when the limit is reached. *)
Definition otc_guess (limit max t : Z) (guess : string) (s : OneTimeCode) : bool * OneTimeCode :=
  match otc_code s with
  | None => (false, s)
  | Some (code, sent) =>
    if code == guess then (otc_in_time max t sent, mkOneTimeCode None 0)
    else
      let n := saturating_add (otc_attempts s) 1 in
      (false, if (limit <=? n)%Z then mkOneTimeCode None 0 else mkOneTimeCode (Some (code, sent)) n)
  end.

(** The operations, at the time of an environment. *)
Inductive EmailOp := Issue | Guess (code : string).

(** What the server does: [send_token], and [validate_email_code_str] on the row
    the login found. *)
Definition email_step (user : UserId) (op : EmailOp) : Handler () :=
  match op with
  | Issue => email_send_token user
  | Guess code =>
    tf ← some_or (query (TwoFactor_find_by_user_and_type user (TwoFactorType_as_i32 Email)))
           "Two factor doesn't exist";
    validate_email_code_str user code (tf_data tf)
  end.

(** The guesses of a run and whether they were accepted: of the server, and of
    the machine, which takes its codes from the same source. *)
Fixpoint email_answers (user : UserId) (l : list (Env * EmailOp)) (w : World) : list bool :=
  match l with
  | [] => []
  | (e, op) :: l =>
    let (r, w') := email_step user op e w in
    match op with
    | Guess _ => is_ok r :: email_answers user l w'
    | Issue => email_answers user l w'
    end
  end.

Fixpoint otc_answers (l : list (Env * EmailOp)) (n : nat) (s : OneTimeCode) : list bool :=
  match l with
  | [] => []
  | (e, Issue) :: l => otc_answers l (S n) (otc_issue (e_random e n) (e_now e) s)
  | (e, Guess code) :: l =>
    let bs := otc_guess (email_attempts_limit (e_cfg e)) (email_expiration_time (e_cfg e))
                (e_now e) code s in
    bs.1 :: otc_answers l n bs.2
  end.

Section email.
Context (parse : string → option EmailTokenData) (print : EmailTokenData → string).
(** serde reads back what it wrote *)
Context (codec : ∀ d, parse (print d) = Some d).
Context (user : UserId).

Abbreviation email_row w :=
  (TwoFactor_find_by_user_and_type user (TwoFactorType_as_i32 Email) (w_db w)).

(** The row of the second factor stands for a state of the machine. *)
Definition stands_for (w : World) (s : OneTimeCode) : Prop :=
  ∃ tf d, email_row w = Some tf ∧ parse (tf_data tf) = Some d ∧ otc_attempts s = etd_attempts d ∧
          otc_code s = option_map (λ c, (c, etd_token_sent d)) (etd_last_token d).

Definition serde (e : Env) : Prop := e_parse_email_token e = parse ∧ e_email_token_json e = print.

(** The new row, then whatever answers. *)
Lemma wp_email_save tf d s e w (Q : res () → World → Prop) :
  serde e → email_row w = Some tf →
  otc_attempts s = etd_attempts d → otc_code s = option_map (λ c, (c, etd_token_sent d)) (etd_last_token d) →
  (∀ w', stands_for w' s → w_draws w' = w_draws w → Q (Ok ()) w') →
  wp (TwoFactor_save (tf <| tf_data := e_email_token_json e d |>)) e w Q.
Proof using codec.
  intros [Hp Hj] Hf Ea Ec HQ. eapply wp_resave; [exact Hf|done|done|]. intros w' Hf' D. apply HQ; [|done].
  exists (tf <| tf_data := e_email_token_json e d |>), d. split_and!; try done. simpl. rewrite Hj. apply codec.
Qed.

Lemma wp_email_issue s e w (Q : res () → World → Prop) :
  serde e → stands_for w s →
  (∀ r w', stands_for w' (otc_issue (e_random e (w_draws w)) (e_now e) s) → w_draws w' = S (w_draws w) →
     Q r w') →
  wp (email_step user Issue) e w Q.
Proof using codec.
  intros He (tf & d & Hf & Hd & Ea & Ec) HQ. simpl. unfold email_send_token. ws. apply wp_some_or. ws.
  rewrite Hf. ws. ws. ws. unfold EmailTokenData_from_json. apply wp_some_or. ws.
  destruct He as [Hp Hj]. rewrite Hp, Hd. unfold EmailTokenData_set_token. ws. ws. ws. ws.
  unfold EmailTokenData_to_json. ws. ws. ws.
  apply (wp_email_save tf _ (otc_issue (e_random e (w_draws w)) (e_now e) s)); try done.
  intros w' Hs D. simpl. apply wp_send_mail; intros _; by apply HQ.
Qed.

(** The expiry check at the end of a right guess answers as the machine does. *)
Lemma wp_email_expiry sent e w (Q : res () → World → Prop) :
  (∀ r, is_ok r = otc_in_time (email_expiration_time (e_cfg e)) (e_now e) sent → Q r w) →
  wp (dt ← unwrap (dt_from_timestamp sent) "Email token timestamp invalid.";
      max_time ← cfg email_expiration_time;
      delta ← unwrap (try_seconds max_time) "try_seconds";
      limit ← unwrap (dt_add dt delta) "NaiveDateTime + TimeDelta overflowed";
      t ← now;
      if (limit <? t)%Z then err_event "Token has expired" UserFailedLogIn2fa_event else mret ()) e w Q.
Proof.
  unfold otc_in_time. intros HQ. ws. ws; [apply HQ; by rewrite H|]. ws. ws. ws. rewrite H in HQ.
  ws; [apply HQ; by rewrite H0|]. ws. rewrite H0 in HQ. ws; [apply HQ; by rewrite H1|]. ws. ws.
  rewrite H1 in HQ. simpl in HQ. destruct (_ <? _)%Z eqn:E; ws; apply HQ; simpl; symmetry; bprop; lia.
Qed.

Lemma wp_email_guess code s e w (Q : res () → World → Prop) :
  serde e → stands_for w s →
  (∀ r w', let bs := otc_guess (email_attempts_limit (e_cfg e)) (email_expiration_time (e_cfg e))
                       (e_now e) code s in
     is_ok r = bs.1 → stands_for w' bs.2 → w_draws w' = w_draws w → Q r w') →
  wp (email_step user (Guess code)) e w Q.
Proof using codec.
  intros He Hs HQ. pose proof Hs as (tf & d & Hf & Hd & Ea & Ec). cbn [email_step]. unfold otc_guess in HQ.
  ws. apply wp_some_or. ws. rewrite Hf. unfold validate_email_code_str. ws.
  unfold EmailTokenData_from_json. apply wp_some_or. ws. rewrite (proj1 He), Hd. ws. apply wp_some_or. ws.
  rewrite Hf. rewrite Ec, ?Ea in HQ. destruct (etd_last_token d) as [c|] eqn:Etok; simpl in HQ; [|ws; by apply HQ].
  destruct (c == code) eqn:Ecc; simpl.
  - ws. unfold EmailTokenData_to_json. ws. ws.
    apply (wp_email_save tf _ (mkOneTimeCode None 0)); try done. intros w' Hs' D.
    apply wp_email_expiry. intros r Hr. by apply HQ.
  - ws. ws. ws. unfold EmailTokenData_to_json. ws. ws.
    set (s' := if (_ <=? _)%Z then mkOneTimeCode None 0 else _) in HQ.
    apply (wp_email_save tf _ s'); try done; unfold s', EmailTokenData_add_attempt; simpl.
    + by case_match.
    + case_match; [done|]. simpl. by rewrite Etok.
    + intros w' Hs' D. ws. by apply HQ.
Qed.
End email.

Lemma email_answers_refine parse print user l s w :
  (∀ d, parse (print d) = Some d) → (∀ e op, (e, op) ∈ l → serde parse print e) →
  stands_for parse user w s → email_answers user l w = otc_answers l (w_draws w) s.
Proof.
  intros codec. revert s w. induction l as [|[e op] l IH]; intros s w Hl Hs; [done|].
  assert (serde parse print e) as He by (apply (Hl e op); by left).
  assert (∀ e op, (e, op) ∈ l → serde parse print e) as Hl'.
  { intros e1 op1 Hin. apply (Hl e1 op1). by right. }
  cbn [email_answers otc_answers]. destruct op as [|code].
  - pose proof (wp_email_issue parse print codec user s e w (λ _ w',
      stands_for parse user w' (otc_issue (e_random e (w_draws w)) (e_now e) s) ∧
      w_draws w' = S (w_draws w)) He Hs (λ _ _ H D, conj H D)) as H.
    unfold wp in H. destruct (email_step user Issue e w) as [r w']. destruct H as [Hs' D].
    rewrite <-D. by apply IH.
  - pose proof (wp_email_guess parse print codec user code s e w (λ r w',
      let bs := otc_guess (email_attempts_limit (e_cfg e)) (email_expiration_time (e_cfg e))
                  (e_now e) code s in
      is_ok r = bs.1 ∧ stands_for parse user w' bs.2 ∧ w_draws w' = w_draws w) He Hs) as H.
    unfold wp in H. destruct (email_step user (Guess code) e w) as [r w'].
    destruct H as (Hr & Hs' & D); [by intros|]. simpl in *. rewrite Hr. f_equal. rewrite <-D. by apply IH.
Qed.

(** C10: the e-mail second factor refines the one-time code: over any sequence of
    codes sent and codes typed in, at any times and under any limits, the server
    accepts exactly the guesses the machine accepts, also when a mail cannot be
    sent or an expiry cannot be represented. *)
Theorem email_codes_refine_one_time_code parse print user l s w :
  (∀ d, parse (print d) = Some d) → (∀ e op, (e, op) ∈ l → serde parse print e) →
  stands_for parse user w s → email_answers user l w = otc_answers l (w_draws w) s.
Proof. apply email_answers_refine. Qed.

Definition email_row_of (d : EmailTokenData) : TwoFactor :=
  mkTwoFactor "t1" "alice" 1 true (email_token_text d) 0.
Definition email_world (d : EmailTokenData) : World :=
  mkWorld ((w_db org_world) <| twofactor := [email_row_of d] |>) 0 [].
Definition fresh_token : EmailTokenData := mkEmailTokenData "alice@x" None 0 0.

Lemma email_world_stands_for d :
  stands_for parse_email_token_text "alice" (email_world d)
    (mkOneTimeCode (option_map (λ c, (c, etd_token_sent d)) (etd_last_token d)) (etd_attempts d)).
Proof. exists (email_row_of d), d. split_and!; [done|apply parse_email_token_codec|done|done]. Qed.

(** A code is sent, guessed wrong, typed in, and typed in again. *)
Definition email_run : list (Env * EmailOp) :=
  map (pair token_env) [Issue; Guess "?"; Guess "r"; Guess "r"].

Lemma run_serde (ops : list EmailOp) e op :
  (e, op) ∈ map (pair token_env) ops → serde parse_email_token_text email_token_text e.
Proof. intros (o & _ & [= -> _])%elem_of_map. by split. Qed.

Lemma email_codes_refine_one_time_code_witness :
  email_answers "alice" email_run (email_world fresh_token) = [false; true; false].
Proof.
  rewrite (email_codes_refine_one_time_code parse_email_token_text email_token_text "alice" _
             (mkOneTimeCode None 0)); [by vm_compute|apply parse_email_token_codec|apply run_serde|].
  apply (email_world_stands_for fresh_token).
Defined.

(** *** What the machine promises *)

(** Only guesses, all under the limit [limit]. *)
Definition only_guesses (limit : Z) (l : list (Env * EmailOp)) : Prop :=
  ∀ e op, (e, op) ∈ l → op ≠ Issue ∧ email_attempts_limit (e_cfg e) = limit.

Lemma only_guesses_cons limit e op l :
  only_guesses limit ((e, op) :: l) → op ≠ Issue ∧ email_attempts_limit (e_cfg e) = limit ∧ only_guesses limit l.
Proof. intros H. split_and!; [by apply (H e op); left..|]. intros e1 o1 Hin. apply H. by right. Qed.

Lemma otc_spent limit l n k i :
  only_guesses limit l → otc_answers l n (mkOneTimeCode None k) !! i ≠ Some true.
Proof.
  revert i. induction l as [|[e [|code]] l IH]; intros i Hl; [done|by apply only_guesses_cons in Hl as [? _]|].
  apply only_guesses_cons in Hl as (_ & _ & Hl). destruct i; [done|]. by apply IH.
Qed.

Lemma otc_accepts_once limit l n s i :
  only_guesses limit l → (0 ≤ otc_attempts s)%Z → (limit ≤ u64_MAX)%Z →
  otc_answers l n s !! i = Some true →
  (Z.of_nat i < Z.max 1 (limit - otc_attempts s))%Z ∧
  ∀ j, otc_answers l n s !! j = Some true → j = i.
Proof.
  revert s i. induction l as [|[e [|code]] l IH]; intros s i Hl H0 Hmax Hi;
    [done|by apply only_guesses_cons in Hl as [? _]|].
  destruct s as [[[c sent]|] k]; [|by apply (otc_spent limit) in Hi].
  apply only_guesses_cons in Hl as (_ & El & Hl). cbn [otc_answers] in *. rewrite El in *.
  unfold otc_guess in *. cbn [otc_code otc_attempts] in *. destruct (c == code); cbn [fst snd] in *.
  - assert (∀ j, otc_answers l n (mkOneTimeCode None 0) !! j ≠ Some true) as Hn by (intros j; by eapply otc_spent).
    destruct i as [|i]; [|by destruct (Hn i)]. split; [lia|]. intros [|j] Hj; [done|by destruct (Hn j)].
  - destruct i as [|i]; [done|]. simpl in Hi.
    destruct (limit <=? saturating_add k 1)%Z eqn:E; [by apply (otc_spent limit) in Hi|].
    unfold saturating_add in *. bprop. assert (0 ≤ (k + 1) `min` u64_MAX)%Z as H1 by lia. destruct (IH (mkOneTimeCode (Some (c, sent)) _) i Hl H1 Hmax Hi) as [Hb Hj].
    simpl in Hb. split; [lia|]. intros [|j] Hj'; [done|]. f_equal. by apply Hj.
Qed.

(** C11: a code sent by e-mail is accepted at most once, and only among the first
    guesses that are within the limit of attempts: whatever is typed in and when,
    a code is used up by the guess that hits it, and withdrawn when as many wrong
    guesses as the limit have been made. *)
Theorem email_codes_are_one_time parse print user limit l s w i :
  (∀ d, parse (print d) = Some d) → (∀ e op, (e, op) ∈ l → serde parse print e) →
  stands_for parse user w s → only_guesses limit l → (0 ≤ otc_attempts s)%Z → (limit ≤ u64_MAX)%Z →
  email_answers user l w !! i = Some true →
  (Z.of_nat i < Z.max 1 (limit - otc_attempts s))%Z ∧
  ∀ j, email_answers user l w !! j = Some true → j = i.
Proof.
  intros codec Hl Hs Hg H0 Hmax. rewrite (email_answers_refine parse print user l s w); [|done..].
  by apply otc_accepts_once.
Qed.

(** Two wrong guesses, then the code, with a limit of three. *)
Definition sent_token : EmailTokenData := mkEmailTokenData "alice@x" (Some "code") 900 0.
Definition guess_run : list (Env * EmailOp) :=
  map (pair token_env) [Guess "a"; Guess "b"; Guess "code"; Guess "code"].

Lemma email_codes_are_one_time_witness :
  email_answers "alice" guess_run (email_world sent_token) !! 2%nat = Some true ∧
  ∀ j, email_answers "alice" guess_run (email_world sent_token) !! j = Some true → j = 2%nat.
Proof.
  assert (email_answers "alice" guess_run (email_world sent_token) !! 2%nat = Some true) as H by by vm_compute.
  split; [done|].
  apply (email_codes_are_one_time parse_email_token_text email_token_text "alice" 3 guess_run
           (mkOneTimeCode (Some ("code", 900%Z)) 0) (email_world sent_token) 2);
    [apply parse_email_token_codec| |apply (email_world_stands_for sent_token)| |done|done|done].
  - apply run_serde.
  - intros e op (o & Ho & [= -> ->])%elem_of_map. split; [|reflexivity]. clear H.
    by repeat (apply elem_of_cons in Ho as [->|Ho]; [done|]); apply elem_of_nil in Ho.
Defined.
