(* ===== verification/LoginSpec.v ===== *)
(** What a successful sign-in proves about the client: the secret of an enabled
    account, and its second factor when it has one. *)
From S2P Require Import Prelude Table Schema Roles Users Memberships Policies Util Devices Events.
From S2P Require Import AuthRequests Auth Demo Emergency Accounts Orgs TwoFactors Login OrgInv Guards.
From S2P Require Import OrgSafety TwoFactorSpec.

(** ** What the client has to show *)

(** An approval of another device of the same user, at most five minutes old,
    asked for from the same address, and its access code. *)
Definition approved_request (e : Env) (db : Db) (user : User) (id code ip : string) : Prop :=
  ∃ r, r ∈ auth_requests db ∧ aq_uuid r = id ∧ aq_user_uuid r = u_uuid user ∧
       aq_approved r = Some true ∧ (e_now e < aq_creation_date r + 300)%Z ∧ aq_request_ip r = ip ∧
       aq_access_code r = code.

(** The master password, or such an approval. *)
Definition secret_shown (e : Env) (db : Db) (user : User) (auth_request : option string)
    (password ip : string) : Prop :=
  match auth_request with
  | Some id => approved_request e db user id password ip
  | None => e_pbkdf2 e password (u_salt user) (u_password_iterations user) = u_password_hash user
  end.

(** The factor of the given type, switched on and usable. *)
Definition factor_row (e : Env) (db : Db) (user : User) (ty : TwoFactorType) (tf : TwoFactor) : Prop :=
  tf ∈ twofactor db ∧ tf_user_uuid tf = u_uuid user ∧ tf_atype tf = TwoFactorType_as_i32 ty ∧
  tf_enabled tf = true.

(** What counts as showing a factor, by its kind; the checks of WebAuthn and Duo
    are those of their libraries and services. *)
Definition factor_shown (pv : Providers) (e : Env) (db : Db) (user : User) (data : ConnectData)
    (ty : TwoFactorType) (code : string) : Prop :=
  match ty with
  | Authenticator =>
    ∃ tf tf', factor_row e db user ty tf ∧
      TwoFactor_find_by_user_and_type (u_uuid user) (TwoFactorType_as_i32 Authenticator) db = Some tf' ∧
      is_Some (accepted_step e (tf_data tf) code (tf_last_used tf'))
  | Email =>
    ∃ tf d, factor_row e db user ty tf ∧ e_parse_email_token e (tf_data tf) = Some d ∧
      etd_last_token d = Some code ∧
      otc_in_time (email_expiration_time (e_cfg e)) (e_now e) (etd_token_sent d) = true
  | YubiKey =>
    ∃ tf keys, factor_row e db user ty tf ∧ e_yubikey_keys e (tf_data tf) = Some keys ∧
      String.substring 0 12 code ∈ keys ∧ e_yubikey_verify e code = true
  | Webauthn => ∃ w1 w2, validate_webauthn_login pv (u_uuid user) code e w1 = (Ok (), w2)
  | Duo => ∃ w1 w2, validate_duo_login pv (u_email user) code data e w1 = (Ok (), w2)
  | Remember =>
    disable_2fa_remember (e_cfg e) = false ∧
    ∃ d c, d ∈ devices db ∧ cd_device_identifier data = Some (d_uuid d) ∧
      d_user_uuid d = u_uuid user ∧ d_twofactor_remember d = Some code ∧
      e_decode_2fa_remember e code = Some c ∧ c = (d_uuid d, u_uuid user)
  | RecoveryCode => User_check_valid_recovery_code e user code = true
  | _ => False
  end.

(** The account has no second factor, or one of its usable factors was shown, or
    a device it remembers, or its recovery code. *)
Definition second_factor_shown (pv : Providers) (e : Env) (db : Db) (user : User)
    (data : ConnectData) : Prop :=
  TwoFactor_find_by_user (u_uuid user) db = [] ∨
  ∃ ty code, cd_two_factor_token data = Some code ∧
    (ty = Remember ∨ ty = RecoveryCode ∨
     TwoFactorType_as_i32 ty ∈ usable_factors e (TwoFactor_find_by_user (u_uuid user) db)) ∧
    factor_shown pv e db user data ty code.

(** ** The account along the way *)

(** What a login leaves alone of the account it signs in: all that its checks and
    its tokens depend on. *)
Definition same_account (u u' : User) : Prop :=
  u_uuid u' = u_uuid u ∧ u_security_stamp u' = u_security_stamp u ∧ u_email u' = u_email u ∧
  u_verified_at u' = u_verified_at u.
Definition same_login (u u' : User) : Prop :=
  same_account u u' ∧ u_totp_recover u' = u_totp_recover u.

Ltac same_login := unfold same_login, same_account in *; destruct_and?; simpl in *; split_and?; congruence.

(** A property that does not look at the revision date survives a save. *)
Lemma ret_save (P : User → Prop) u0 :
  (∀ t, P (u0 <| u_updated_at := t |>)) → m_ret P (User_save u0).
Proof.
  intros H e w u' w' E. assert (wp (User_save u0) e w (λ r _, ∀ a, r = Ok a → P a)) as Hw.
  { apply wp_User_save; [by intros|]. intros _ _ u1 a [= <-]. apply H. }
  unfold wp in Hw. rewrite E in Hw. by apply Hw.
Qed.

Lemma ret_save_login u u0 : same_login u u0 → m_ret (same_login u) (User_save u0).
Proof. intros. apply ret_save. intros. same_login. Qed.
Lemma ret_save_account u u0 : same_account u u0 → m_ret (same_account u) (User_save u0).
Proof. intros. apply ret_save. intros. same_login. Qed.

Lemma ret_save_or_log_login u u0 : same_login u u0 → m_ret (same_login u) (save_or_log u0).
Proof.
  intros H e w u' w'. unfold save_or_log, mbind, M_bind, try_.
  pose proof (ret_save_login u u0 H e w). destruct (User_save u0 e w) as [[a|[]] s']; intros [= <- _]; eauto.
Qed.
#[export] Hint Extern 1 (same_login _ _) => same_login : mret.
#[export] Hint Extern 1 (same_account _ _) => same_login : mret.
#[export] Hint Resolve ret_save_login ret_save_account ret_save_or_log_login : mret.

Lemma ret_kdf_upgrade_login u pwd : m_ret (same_login u) (kdf_upgrade u pwd).
Proof. assert (same_login u u) by same_login. mrets ltac:(same_login). Qed.

(** ** Runs that end well *)

(** [ok_gives m e w P]: if [m] answers [Ok a] from [w], then [P a]. *)
Definition ok_gives {A} (m : Handler A) e w (P : A → Prop) : Prop :=
  wp m e w (λ r _, ∀ a, r = Ok a → P a).

Lemma ok_ret {A} (m : Handler A) e w (P : A → Prop) : m_ret P m → ok_gives m e w P.
Proof. intros H a Ha. eapply H. by rewrite (surjective_pairing (m e w)), Ha. Qed.

Lemma ok_never {A} (m : Handler A) e w (P : A → Prop) : m_ret (λ _, False) m → ok_gives m e w P.
Proof. intros H. apply ok_ret. intros e1 s a s' E. by destruct (H e1 s a s'). Qed.

Lemma ok_bind {A B} (m : Handler A) (k : A → Handler B) e w (P : B → Prop) :
  wp m e w (λ r w', ∀ a, r = Ok a → ok_gives (k a) e w' P) → ok_gives (m ≫= k) e w P.
Proof. intros H. apply wp_bind. eapply wp_mono; [exact H|]. intros [a|x] w' Hr; [by apply Hr|done]. Qed.

(** A step of which only the frame and the result are known. *)
Lemma ok_step {A B} R (Q : A → Prop) (m : Handler A) (k : A → Handler B) e w (P : B → Prop) :
  m_rel R m → m_ret Q m → (∀ a w', R e w w' → Q a → ok_gives (k a) e w' P) → ok_gives (m ≫= k) e w P.
Proof.
  intros HR HQ Hk. apply ok_bind. intros a Ha. apply Hk; [apply HR|].
  eapply HQ. by rewrite (surjective_pairing (m e w)), Ha.
Qed.

(** The tables a login reads before it checks the second factor. *)
Abbreviation login_tables := (λ d, (twofactor d, auth_requests d)).

Ltac ok_err := first [done | apply ok_never; apply m_ret_err || apply m_ret_err_event || apply m_ret_panic].

(** ** The second factor *)
Section factor.
Context (pv : Providers).

Lemma never_err_twofactor {A} ids u d v msg : m_ret (λ _, False) (err_twofactor pv ids u d v msg : Handler A).
Proof. unfold err_twofactor. eapply m_ret_bind; [apply m_ret_any|]. intros. apply m_ret_err. Qed.

Lemma ret_err_twofactor {A} (P : A → Prop) ids u d v msg : m_ret P (err_twofactor pv ids u d v msg).
Proof. intros e w a w' H. by destruct (never_err_twofactor ids u d v msg e w a w' H). Qed.
Hint Resolve ret_err_twofactor : mret.

Lemma factor_from_i32_Some id ty : TwoFactorType_from_i32 id = Some ty → id = TwoFactorType_as_i32 ty.
Proof. unfold TwoFactorType_from_i32. intros H. repeat case_match; simplify_eq; by bprop. Qed.

(** The factor the handler selects from the rows of the user. *)
Lemma selected_row e db user id ty tf :
  List.find (λ tf, (tf_atype tf =? id)%Z && tf_enabled tf) (TwoFactor_find_by_user (u_uuid user) db) = Some tf →
  TwoFactorType_from_i32 id = Some ty → factor_row e db user ty tf.
Proof.
  intros [Hin Hp]%List.find_some Hty%factor_from_i32_Some. apply list_elem_of_In, elem_of_sel in Hin as [Hu Hin]. bprop.
  destruct Hu as [Hu _], Hp as [Ht He]. split_and!; [done..|congruence|done].
Qed.

Lemma ok_totp user code secret tf' e w :
  TwoFactor_find_by_user_and_type user (TwoFactorType_as_i32 Authenticator) (w_db w) = Some tf' →
  ok_gives (validate_totp_code_str user code secret) e w
    (λ _, is_Some (accepted_step e secret code (tf_last_used tf'))).
Proof.
  intros Hf. unfold validate_totp_code_str. apply ok_bind. ws. intros numeric _. apply ok_bind.
  ws; [done|]. intros _ _. intros a.
  pose proof (validate_totp_code_row user code secret e w tf' Hf) as Hv.
  destruct (accepted_step _ _ _ _); [eauto|]. destruct (validate_totp_code user code secret e w) as [r w'].
  destruct Hv as [Hr _]. simpl. intros ->. done.
Qed.

Lemma ok_email user code data e w :
  ok_gives (validate_email_code_str user code data) e w
    (λ _, ∃ d, e_parse_email_token e data = Some d ∧ etd_last_token d = Some code ∧
       otc_in_time (email_expiration_time (e_cfg e)) (e_now e) (etd_token_sent d) = true).
Proof.
  unfold ok_gives, validate_email_code_str. ws. unfold EmailTokenData_from_json. apply wp_some_or. ws.
  destruct (e_parse_email_token e data) as [d|] eqn:Ed; [|done].
  ws. apply wp_some_or. ws. destruct (TwoFactor_find_by_user_and_type _ _ _); [|done].
  destruct (etd_last_token d) as [c|] eqn:Ec; [|done].
  destruct (c == code) eqn:Eq; simpl;
    [|by repeat first [ws | unfold EmailTokenData_to_json, TwoFactor_save | apply wp_write]].
  bprop. subst c. unfold EmailTokenData_to_json, TwoFactor_save. do 3 ws. apply wp_write.
  apply wp_email_expiry. intros [[]|x] Hr; [|done]. intros a _. exists d. by split_and!.
Qed.

Lemma ok_yubikey code data e w :
  ok_gives (validate_yubikey_login code data) e w
    (λ _, ∃ keys, e_yubikey_keys e data = Some keys ∧ String.substring 0 12 code ∈ keys ∧
                  e_yubikey_verify e code = true).
Proof.
  unfold ok_gives, validate_yubikey_login. ws. ws; [done|]. ws. ws. ws. ws; [done|].
  ws. ws; [|done]. ws. ws. ws; [done|]. ws. ws. ws; [done|]. intros _ _. exists a.
  bprop. apply existsb_eqb in H1. done.
Qed.
(** The result of a factor check: the same account, on the same device. *)
Definition checked (user : User) (device : Device) (r : User * Device) : Prop :=
  same_account user r.1 ∧ d_uuid r.2 = d_uuid device.

Lemma checked_refl user device : checked user device (user, device).
Proof. by split. Qed.

(** The device of the login, as the database knows it when the client is
    remembered on it. *)
Definition device_of (db : Db) (user : User) (data : ConnectData) (device : Device) : Prop :=
  cd_device_identifier data = Some (d_uuid device) ∧ d_user_uuid device = u_uuid user ∧
  (is_Some (d_twofactor_remember device) → device ∈ devices db).

(** A check that leaves the account and the device as they were. *)
Lemma ok_then_same user device {A} (m : Handler A) e w (P : Prop) :
  ok_gives m e w (λ _, P) →
  ok_gives (_ ← m; mret (user, device)) e w (λ r, checked user device r ∧ P).
Proof.
  intros H. apply ok_bind. intros a Ha. unfold ok_gives. ws. intros r [= <-]. split; [apply checked_refl|by eapply H].
Qed.

Lemma ok_selected {A} tf (k : string → Handler A) e w (P : A → Prop) :
  (∀ t, tf = Some t → ok_gives (k (tf_data t)) e w P) → ok_gives (d ← selected_data tf; k d) e w P.
Proof. intros H. unfold ok_gives, selected_data. ws. destruct tf as [t|]; ws; [by apply H|done]. Qed.

Lemma ok_check_factor user data device ip v ids id code db e w :
  device_of db user data device → twofactor (w_db w) = twofactor db →
  ok_gives (check_factor pv user data device ip v (TwoFactor_find_by_user (u_uuid user) db) ids id code)
    e w (λ r, checked user device r ∧
      ∃ ty, TwoFactorType_from_i32 id = Some ty ∧ factor_shown pv e db user data ty code).
Proof.
  intros (Hid & Hdu & Hdev) Htf. unfold check_factor.
  destruct (TwoFactorType_from_i32 id) as [ty|] eqn:Ety; [|done].
  assert (∀ m, ok_gives m e w (λ r, checked user device r ∧ factor_shown pv e db user data ty code) →
    ok_gives m e w (λ r, checked user device r ∧
      ∃ ty', Some ty = Some ty' ∧ factor_shown pv e db user data ty' code)) as Hw.
  { intros m Hm a Ha. destruct (Hm a Ha) as [Hc Hp]. eauto. }
  destruct ty; try done; apply Hw; clear Hw.
  - apply ok_selected. intros tf Hf. apply ok_then_same.
    pose proof (selected_row e _ _ _ _ _ Hf Ety) as Hrow.
    assert (is_Some (TwoFactor_find_by_user_and_type (u_uuid user) (TwoFactorType_as_i32 Authenticator) db)) as [tf' Hf'].
    { apply first_row_is_Some. exists tf. destruct Hrow as (? & ? & ? & _). by bprop. }
    eapply wp_mono; [apply (ok_totp _ _ _ tf')|].
    { unfold TwoFactor_find_by_user_and_type in *. by rewrite Htf. }
    intros r w' Hr a Ha. exists tf, tf'. by eauto.
  - apply ok_selected. intros tf Hf. apply ok_then_same.
    pose proof (selected_row e _ _ _ _ _ Hf Ety) as Hrow.
    eapply wp_mono; [apply ok_email|]. intros r w' Hr a Ha.
    destruct (Hr a Ha) as (d & ? & ? & ?). by exists tf, d.
  - apply ok_then_same. intros a Ha. eexists w, _. by rewrite (surjective_pairing (_ e w)), Ha; destruct a.
  - apply ok_selected. intros tf Hf. apply ok_then_same.
    pose proof (selected_row e _ _ _ _ _ Hf Ety) as Hrow.
    eapply wp_mono; [apply ok_yubikey|]. intros r w' Hr a Ha.
    destruct (Hr a Ha) as (keys & ? & ? & ?). by exists tf, keys.
  - unfold ok_gives. ws. ws. ws. ws. ws.
    + ws. intros r [= <-]. split; [apply checked_refl|].
      apply on_row_true in Heqb as (token & Et & Hp). bprop.
      destruct Hp as [[Hoff ->] ([d1 u1] & Ec & Hc)]. simpl in Hc. bprop. destruct Hc as [-> ->].
      split; [done|]. exists device. eexists. by split_and!; eauto.
    + ws. apply (wp_rel (same_part users)); [mrel|]. intros [a|x] w1 _; [|done].
      apply ok_never, never_err_twofactor.
  - apply ok_then_same. intros a Ha. eexists w, _. by rewrite (surjective_pairing (_ e w)), Ha; destruct a.
  - unfold ok_gives. ws. ws. ws. ws; [done|]. apply negb_false_iff in H.
    match goal with |- wp ?m ?e ?w _ => change (ok_gives m e w (λ r, checked user device r ∧
      factor_shown pv e db user data RecoveryCode code)) end.
    intros r Hr. split; [|exact H].
    assert (same_account user (user <| u_totp_recover := None |>)) as Hs by same_login.
    match type of Hr with (?m _ _).1 = _ => assert (m_ret (checked user device) m) as Hm end.
    { eapply m_ret_bind; [apply m_ret_any|intros ? _]. eapply m_ret_bind; [apply m_ret_any|intros ? _].
      eapply m_ret_bind; [apply m_ret_any|intros ? _].
      eapply m_ret_bind; [by apply ret_save_account|]. intros u' Hu'. apply m_ret_ret. by split. }
    exact (ok_ret _ e w _ Hm r Hr).
Qed.
Lemma ok_twofactor_auth user data device ip v db e w :
  device_of db user data device → twofactor (w_db w) = twofactor db →
  ok_gives (twofactor_auth pv user data device ip v) e w (λ r,
    checked user device r.1 ∧ second_factor_shown pv e db user data).
Proof.
  intros Hdev Htf. unfold twofactor_auth.
  assert (TwoFactor_find_by_user (u_uuid user) (w_db w) = TwoFactor_find_by_user (u_uuid user) db) as Ef.
  { unfold TwoFactor_find_by_user. by rewrite Htf. }
  apply ok_bind. ws. rewrite Ef. intros l [= <-].
  destruct (is_empty _) eqn:Hempty.
  { apply is_empty_true in Hempty. apply ok_ret. eapply m_ret_bind; [apply m_ret_any|intros ? _].
    apply m_ret_ret. split; [apply checked_refl|by left]. }
  apply (ok_step (same_part twofactor) (λ _, True)); [mrel|apply m_ret_any|]. intros [] w1 F _.
  apply ok_bind. ws. intros ids [= Eids]. destruct ids as [|first_id ids']; [done|]. rewrite <-Eids in *.
  set (id := default first_id (cd_two_factor_provider data)). clearbody id. cbv zeta.
  apply ok_bind. destruct (negb _ && negb _) eqn:Hid.
  { intros a Ha. by destruct (ok_never _ _ _ (λ _, False) (never_err_twofactor _ _ _ _ _) a Ha). }
  intros _ _. destruct (cd_two_factor_token data) as [code|] eqn:Ecode; [|apply ok_never, never_err_twofactor].
  apply ok_bind. eapply wp_mono.
  { apply ok_check_factor; [exact Hdev|exact (eq_trans F Htf)]. }
  intros r w2 Hr [u d] Er. destruct (Hr _ Er) as [[Hu Hd] (ty & Hty%factor_from_i32_Some & Hshown)].
  apply ok_ret. eapply m_ret_bind; [apply m_ret_any|intros ? _]. eapply m_ret_bind; [apply m_ret_any|intros off _].
  assert (second_factor_shown pv e db user data) as Hs.
  { right. exists ty, code. split_and!; [done| |done].
    apply andb_false_iff in Hid. rewrite !negb_false_iff, orb_true_iff, !Z.eqb_eq in Hid.
    destruct Hid as [[Hid|Hid]|Hid].
    - left. by destruct ty; subst.
    - right; left. by destruct ty; subst.
    - right; right. apply existsb_exists in Hid as (x & Hx%list_elem_of_In & <-%Z.eqb_eq). by rewrite <-Hty. }
  destruct (negb off && _); [|by apply m_ret_ret].
  unfold Device_refresh_twofactor_remember.
  eapply (m_ret_bind (λ r, d_uuid r.1 = d_uuid d)); [eapply m_ret_bind; [apply m_ret_any|intros ? _]; by apply m_ret_ret|].
  intros [d' token] Hd'. apply m_ret_ret. simpl in *. split; [split; simpl; congruence|done].
Qed.

(** ** The password grant *)

Lemma ok_check_login_secret user auth_request password ip e w :
  wp (check_login_secret user auth_request password ip) e w
    (λ r w', ∀ a, r = Ok a → w' = w ∧ secret_shown e (w_db w) user auth_request password ip).
Proof.
  unfold check_login_secret, secret_shown. destruct auth_request as [id|].
  - ws. ws. destruct (AuthRequest_find_by_uuid_and_user _ _ _) as [r|] eqn:Er; [|done].
    apply first_row_Some in Er as [Hp Hr]. ws. ws; [done|]. ws. ws. ws; [done|]. ws. intros _ _.
    bprop. destruct Hp as [Eid Eu], Heqb as [[[[_ Hap] Hexp] Hip] Hc].
    split; [done|]. exists r. split_and!; try done.
    + destruct (aq_approved r) as [[]|]; done.
    + unfold dt_add, dt_checked in H. destruct (_ && _); simplify_eq. simpl in *. lia.
    + by apply eqb_str_true in Hc.
  - unfold User_check_valid_password. ws. ws. ws; [done|]. ws. ws. ws; [|done]. ws. intros _ _. split; [done|].
    unfold verify_password_hash in Heqb0. by bprop.
Qed.

(** The address is verified, or it need not be. *)
Definition address_verified (e : Env) (user : User) : Prop :=
  is_Some (u_verified_at user) ∨ mail_enabled (e_cfg e) = false ∨ signups_verify (e_cfg e) = false.

Lemma ok_check_verified user e w :
  wp (check_verified user) e w (λ r w', ∀ a, r = Ok a → w' = w ∧ address_verified e user).
Proof.
  unfold check_verified, address_verified. ws. ws. ws. ws.
  destruct (is_none _ && _ && _) eqn:Hc.
  - intros a. match goal with |- (?m _ _).1 = _ → _ => assert (m_ret (λ _, False) m) as Hm end.
    { do 4 (eapply m_ret_bind; [apply m_ret_any|intros ? _]). apply m_ret_err_event. }
    intros Ha. by destruct (ok_ret _ e w _ Hm a Ha).
  - ws. intros _ _. split; [done|]. destruct (u_verified_at user); [left; eauto|]. right. simpl in Hc. by bprop.
Qed.

Lemma ok_get_device data user e w :
  wp (get_device data user) e w (λ r w', twofactor (w_db w') = twofactor (w_db w) ∧
    ∀ d, r = Ok d → device_of (w_db w) user data d).
Proof.
  unfold get_device, device_of. ws. ws; [done|]. ws. ws; [done|]. ws. ws.
  destruct (Device_find_by_uuid_and_user _ _ _) as [d|] eqn:Ed.
  - ws. split; [done|]. intros d' [= <-]. apply first_row_Some in Ed as [Hp Hin]. bprop.
    destruct Hp as [-> ->]. done.
  - ws. unfold Device_new. repeat ws. unfold Device_save. ws. ws. ws. apply wp_write. ws.
    split; [done|]. intros d [= <-]. simpl. split_and!; [done|done|by intros []].
Qed.
(** Neither the factors nor the devices change before the device is looked up. *)
Abbreviation login_frame := (same_part (λ d, (twofactor d, devices d))).

Lemma login_frame_kdf_upgrade user pwd : m_rel login_frame (kdf_upgrade user pwd).
Proof.
  unfold kdf_upgrade, User_set_password. cbn [mbind]. mrel. all: try discriminate.
Qed.

Lemma second_factor_of u u' e db data :
  same_login u u' → second_factor_shown pv e db u' data → second_factor_shown pv e db u data.
Proof.
  intros [(Eu & _ & Em & _) Er]. unfold second_factor_shown. rewrite Eu.
  intros [H|(ty & code & Hc & Hs & H)]; [by left|]. right. exists ty, code. split_and!; [done|done|].
  unfold factor_shown, factor_row, User_check_valid_recovery_code in *.
  by destruct ty; rewrite ?Eu, ?Em, ?Er in H.
Qed.

(** What a sign-in with a password proves of the client. *)
Definition signed_in (e : Env) (db : Db) (user : User) (data : ConnectData) (ip : string)
    (claims : LoginJwtClaims) : Prop :=
  u_enabled user = true ∧
  (∃ password, cd_password data = Some password ∧
     secret_shown e db user (cd_auth_request data) password ip) ∧
  address_verified e user ∧ second_factor_shown pv e db user data ∧
  lc_sub claims = u_uuid user ∧ lc_sstamp claims = u_security_stamp user ∧
  cd_device_identifier data = Some (lc_device claims).

Lemma ok_password_login_as user data ip v e w :
  ok_gives (password_login_as pv user data ip v) e w (λ resp,
    ∃ tokens token, resp = LoggedIn tokens token ∧
      signed_in e (w_db w) user data ip (at_access_claims tokens)).
Proof.
  unfold password_login_as. destruct (u_enabled user) eqn:Een; simpl; [|done].
  apply ok_bind. ws; [done|]. intros password [= ->].
  apply ok_bind. eapply wp_mono; [apply ok_check_login_secret|]. intros r1 w1 H1 a1 E1.
  destruct (H1 a1 E1) as [-> Hsecret]. clear H1.
  assert (same_login user user) as Hrefl by same_login.
  apply (ok_step login_frame (same_login user)).
  { destruct (is_none _); [apply login_frame_kdf_upgrade|mrel]. }
  { destruct (is_none _); [apply ret_kdf_upgrade_login|by apply m_ret_ret]. }
  intros user1 w2 F Hu1. apply (f_equal fst) in F as Ftf. apply (f_equal snd) in F as Fd. simpl in Ftf, Fd.
  apply ok_bind. eapply wp_mono; [apply ok_check_verified|]. intros r2 w3 H2 a2 E2.
  destruct (H2 a2 E2) as [-> Hver]. clear H2.
  apply ok_bind. eapply wp_mono; [apply ok_get_device|]. intros r3 w4 [Ftf4 H3] device E3.
  specialize (H3 _ E3). assert (device_of (w_db w) user1 data device) as Hdev.
  { unfold device_of in *. by rewrite <-Fd. }
  apply ok_bind. eapply wp_mono; [apply (ok_twofactor_auth _ _ _ _ _ (w_db w)); [exact Hdev|congruence]|].
  intros r5 w5 H5 [[user2 device2] token] E5. destruct (H5 _ E5) as [[Hu2 Hd2] Hfac]. simpl in *.
  apply ok_ret. unfold authenticated_response.
  do 3 (eapply m_ret_bind; [apply m_ret_any|intros ? _]). apply m_ret_ret.
  eexists _, _. split; [reflexivity|]. destruct Hdev as (Hid & _).
  assert (same_account user user2) as (Eu & Es & _) by same_login.
  split_and!; [reflexivity || exact Een|by exists password|by unfold address_verified in *; destruct Hu1 as [(_ & _ & _ & <-) _]
              |by eapply second_factor_of|done|done|simpl; congruence].
Qed.
(** The grant, from the request to the account. *)
Lemma ok_password_login data ip v e w :
  ok_gives (password_login pv data ip v) e w (λ r, ∃ user,
    r.1 = u_uuid user ∧ user ∈ users (w_db w) ∧
    (∃ name, cd_username data = Some name ∧ u_email user = e_lowercase e (e_trim e name)) ∧
    ∀ resp, r.2 = inr resp → ∃ tokens token, resp = LoggedIn tokens token ∧
      signed_in e (w_db w) user data ip (at_access_claims tokens)).
Proof.
  unfold ok_gives, password_login. ws. unfold AuthMethod_check_scope. ws; [|done]. ws; [|done]. ws.
  ws. unfold check_limit_login. ws. ws. ws; [done|]. ws. ws; [done|]. ws. ws. ws. apply wp_some_or.
  unfold User_find_by_mail. ws. destruct (first_row _ _) as [user|] eqn:Eu; [|done].
  apply first_row_Some in Eu as [Em%eqb_str_true Hin]. unfold attempt. ws. apply wp_try_event.
  eapply wp_mono; [apply ok_password_login_as|].
  intros [resp|[m|m ev|m]] w1 H1; [| | |done]; ws; intros r [= <-]; exists user; simpl.
  - split_and!; [done|done|by exists a|]. intros resp' [= <-]. by apply H1.
  - split_and!; [done|done|by exists a|done].
  - split_and!; [done|done|by exists a|done].
Qed.

Lemma ok_login_result sso data client v e w :
  cd_grant_type data = "password" →
  ok_gives (login_result pv sso data client v) e w (λ r, ∃ user,
    user ∈ users (w_db w) ∧
    (∃ name, cd_username data = Some name ∧ u_email user = e_lowercase e (e_trim e name)) ∧
    sso_enabled (e_cfg e) && sso_only (e_cfg e) = false ∧
    ∀ resp, r.2 = inr resp → ∃ tokens token, resp = LoggedIn tokens token ∧
      signed_in e (w_db w) user data (ch_ip client) (at_access_claims tokens)).
Proof.
  intros Hg. unfold ok_gives, login_result. ws. ws. ws. ws. rewrite Hg. simpl. ws. ws; [done|].
  unfold check_is_some. do 4 (ws; ws; [done|]). ws. do 2 (ws; ws; [done|]). ws; [done|].
  unfold of_account. ws. eapply wp_mono; [apply ok_password_login|]. intros [[u r]|x] w1 Hr1; [|done].
  ws. intros ? [= <-]. destruct (Hr1 _ eq_refl) as (user & _ & Hin & Hn & Hr). by exists user.
Qed.
End factor.

(** C5: a sign-in with the password grant that succeeds was made by somebody who
    knows the account's master password, or an access code another device of the
    account approved within five minutes for the same address; the account is
    enabled, its address verified if that is required, and if it has second
    factors the client has shown one: a code of a factor that is switched on and
    usable, a device the server remembers, or the recovery code.  The tokens are
    for that account, its current security stamp and the client's device. *)
Theorem password_login_sound pv sso data client v e w resp w' :
  cd_grant_type data = "password" → login pv sso data client v e w = (Ok resp, w') →
  ∃ user tokens token, resp = LoggedIn tokens token ∧ user ∈ users (w_db w) ∧
    (∃ name, cd_username data = Some name ∧ u_email user = e_lowercase e (e_trim e name)) ∧
    signed_in pv e (w_db w) user data (ch_ip client) (at_access_claims tokens).
Proof.
  intros Hg. apply (wp_Ok _ _ _ _ _ (λ resp w', _)). unfold login. ws.
  eapply wp_mono; [by apply ok_login_result|]. intros [[uid r]|x] w1 H1; [|done].
  destruct (H1 _ eq_refl) as (user & Hin & Hn & _ & Hr). ws.
  apply (wp_rel (same_part users)); [mrel|]. intros [a|x] w2 _; [|done].
  destruct r as [[msg [ev|]]|resp1]; cbn [fail_with]; ws; try done. intros ? [= <-].
  destruct (Hr _ eq_refl) as (tokens & token & -> & Hs). by exists user, tokens, token.
Qed.

(** alice signs in with her password and the code of the current time step. *)
Definition password_grant (user password : string) (code : option string) : ConnectData :=
  mkConnectData "password" None (Some "web") None (Some password) (Some "api offline_access")
    (Some user) (Some "dev") (Some "browser") (Some "9") None code None None None None.

Lemma password_login_sound_witness :
  let data := password_grant "alice@x" "alice" (Some ("key" +:+ tally 33)) in
  let run := login no_providers no_sso data (mkClientHeaders 9 "ip") None demo_env in
  is_ok (run totp_world).1 = true ∧
  ∃ user, user ∈ users (w_db totp_world) ∧ u_enabled user = true ∧
          second_factor_shown no_providers demo_env (w_db totp_world) user data.
Proof.
  intros data run. split; [by vm_compute|].
  destruct (run totp_world) as [[resp|x] w'] eqn:E; [|by vm_compute in E].
  destruct (password_login_sound no_providers no_sso data _ None demo_env totp_world resp w' eq_refl E)
    as (user & tokens & token & _ & Hin & _ & Hs).
  exists user. by destruct Hs as (? & _ & _ & ? & _).
Defined.
