(* ===== verification/AccountSpec.v ===== *)
(** Accounts: what a change of the password, of the KDF settings or of the keys
    means for the sessions that are open, whom a registration may touch, and what
    a rotation of the keys has to bring along. *)
From S2P Require Import Prelude Table Schema Roles Users Memberships Policies Vault Ciphers Util.
From S2P Require Import Settings Devices Events AuthRequests Auth Demo Sends Emergency Accounts Orgs.
From S2P Require Import TwoFactors Login AccountOps CipherOps KeyRotation OrgInv Guards OrgSafety.
From S2P Require Import AccountSafety VaultSpec EmergencySpec TwoFactorSpec LoginSpec.

(** ** A new security stamp ends the sessions *)

(** The requests that give the account a new stamp. *)
Inductive NewStamp :=
| NS_password (data : ChangePassData)
| NS_kdf (data : ChangeKdfData)
| NS_sstamp (data : PasswordOrOtpData)
| NS_email (data : ChangeEmailData)
| NS_rotatekey (data : KeyData).

Definition new_stamp (op : NewStamp) (h : Headers) : Handler () :=
  match op with
  | NS_password data => post_password data h
  | NS_kdf data => post_kdf data h
  | NS_sstamp data => post_sstamp data h
  | NS_email data => post_email data h
  | NS_rotatekey data => post_rotatekey data h
  end.

(** The routes an old token may still be used on after a change of the password,
    for two minutes: the client finishes its work with it. *)
Definition routes_after_password : list string :=
  ["post_rotatekey"; "get_contacts"; "get_public_keys"; "get_api_webauthn"].

(** The stamp exception the account has afterwards: the other requests leave the
    one it had. *)
Definition exception_text (op : NewStamp) (u : User) (e : Env) : option string :=
  match op with
  | NS_password _ =>
    Some (e_stamp_json e (mkUserStampException routes_after_password (u_security_stamp u) (e_now e + 120)%Z))
  | _ => u_stamp_exception u
  end.

(** Every row with the account's id has a stamp drawn not before the [n0]-th id,
    and the exception [exc]. *)
Definition restamped (e : Env) (n0 : nat) (uid : UserId) (exc : option string) (w : World) : Prop :=
  ∃ n, n0 ≤ n ∧ ∀ x, x ∈ users (w_db w) → u_uuid x = uid →
    u_security_stamp x = e_uuid e n ∧ u_stamp_exception x = exc.

Section stamp.
Implicit Types (e : Env) (w : World) (u : User).

Lemma restamped_saved e n u exc w t :
  u_security_stamp u = e_uuid e n → u_stamp_exception u = exc → users (w_db w) = upsert u t →
  ∀ n0, n0 ≤ n → restamped e n0 (u_uuid u) exc w.
Proof.
  intros Es Ee Ew n0 Hn. exists n. split; [done|]. intros x Hx Eid. rewrite Ew in Hx.
  apply elem_of_upsert in Hx as [->|[_ Hne]]; [done|]. by destruct Hne.
Qed.

Lemma ok_reset_stamp u e w :
  wp (User_reset_security_stamp u) e w (λ r w', ∀ u', r = Ok u' →
    u' = u <| u_security_stamp := e_uuid e (w_draws w) |>).
Proof.
  unfold User_reset_security_stamp. ws. ws. ws. eapply (wp_rel (same_part users)); [mrel|].
  intros [[]|x] w1 _; [|done]. ws. by intros u' [= <-].
Qed.

Lemma ok_set_password u pw key routes e w :
  wp (User_set_password u pw key true routes) e w (λ r w', ∀ u', r = Ok u' →
    u_uuid u' = u_uuid u ∧ u_security_stamp u' = e_uuid e (w_draws w) ∧
    u_stamp_exception u' = match routes with
      | Some l => Some (e_stamp_json e (mkUserStampException l (u_security_stamp u) (e_now e + 120)%Z))
      | None => u_stamp_exception u
      end).
Proof.
  unfold User_set_password. ws. ws; [done|]. ws. ws. ws. ws. unfold User_set_stamp_exception. destruct routes as [l|].
  - repeat ws. eapply wp_mono; [apply ok_reset_stamp|]. intros r w1 H u' E. rewrite (H u' E).
    destruct key; by split_and!.
  - ws. eapply wp_mono; [apply ok_reset_stamp|]. intros r w1 H u' E. rewrite (H u' E).
    destruct key; by split_and!.
Qed.

Lemma ok_save_then_logout e n u exc w n0 :
  u_security_stamp u = e_uuid e n → u_stamp_exception u = exc → n0 ≤ n →
  wp (save_then_logout u) e w (λ r w', r = Ok () → restamped e n0 (u_uuid u) exc w').
Proof.
  intros Es Ee Hn. unfold save_then_logout. ws. ws. apply wp_User_save.
  { intros msg. ws. eapply (wp_rel (same_part users)); [unfold send_logout; mrel|]. intros [[]|x] w1 _; [by ws|done]. }
  intros _ _ u'. ws. eapply (wp_rel (same_part users)); [unfold send_logout; mrel|].
  intros [[]|x] w1 F; [|done]. ws. intros _.
  exact (restamped_saved e n u' exc w1 (users (w_db w)) Es Ee F n0 Hn).
Qed.

(** The common end of the requests. *)
Lemma ok_new_password u pw key routes uid exc e w n0 :
  u_uuid u = uid → n0 ≤ w_draws w →
  exc = match routes with
        | Some l => Some (e_stamp_json e (mkUserStampException l (u_security_stamp u) (e_now e + 120)%Z))
        | None => u_stamp_exception u
        end →
  wp (user ← User_set_password u pw key true routes; save_then_logout user) e w
    (λ r w', r = Ok () → restamped e n0 uid exc w').
Proof.
  intros Eu Hn Ee. ws. eapply wp_mono; [apply ok_set_password|]. intros [u'|x] w1 H; [|done].
  destruct (H u' eq_refl) as (E1 & E2 & E3). rewrite <-Eu, <-E1.
  apply (ok_save_then_logout e (w_draws w)); [done|congruence|done].
Qed.

(** A step of which only the supply of ids matters. *)
Lemma wp_draws {A} (Q : A → Prop) (m : Handler A) (k : A → Handler ()) (P : World → Prop) e w n0 :
  n0 ≤ w_draws w → m_rel draws_grow m → m_ret Q m →
  (∀ a w', n0 ≤ w_draws w' → Q a → wp (k a) e w' (λ r w', r = Ok () → P w')) →
  wp (m ≫= k) e w (λ r w', r = Ok () → P w').
Proof.
  intros Hn Hm HQ Hk. ws. unfold wp. pose proof (Hm e w) as D. unfold draws_grow in D.
  destruct (m e w) as [[a|x] w1] eqn:Em; simpl in *; [|done].
  apply Hk; [lia|by eapply HQ].
Qed.

Lemma ret_kdf_session u d :
  m_ret (λ u', u_uuid u' = u_uuid u ∧ u_stamp_exception u' = u_stamp_exception u) (set_kdf_data u d).
Proof. mrets ltac:(destruct_and?; simpl in *; split; congruence). Qed.

Ltac draws := eapply (wp_draws (λ _, True)); [eassumption|mrel|apply m_ret_any|intros ? ? ? _].

Lemma ok_new_stamp op h e w :
  wp (new_stamp op h) e w (λ r w', r = Ok () →
    restamped e (w_draws w) (u_uuid (h_user h)) (exception_text op (h_user h) e) w').
Proof.
  assert (w_draws w ≤ w_draws w) as Hn by lia. revert Hn. generalize (w_draws w) at 1 3. intros n0 Hn.
  destruct op as [data|data|data|data|data]; cbn [new_stamp].
  - unfold post_password. do 5 draws. eapply ok_new_password; [done|done|done].
  - unfold post_kdf. do 4 draws. eapply wp_draws; [eassumption|mrel|apply ret_kdf_session|].
    intros u w4 D [Eu Ee]. eapply ok_new_password; [done|done|by rewrite Ee].
  - unfold post_sstamp. draws. ws. eapply wp_mono; [apply ok_reset_stamp|]. intros [u|x] w2 Hu; [|done].
    rewrite (Hu u eq_refl). ws. ws. apply wp_User_save.
    { intros msg. ws. eapply (wp_rel (same_part users)); [unfold send_logout; mrel|]. intros [[]|x] w3 _; [|done].
      ws. eapply (wp_rel (same_part users)); [mrel|]. intros [[]|x] w4 _; [by ws|done]. }
    intros _ _ u'. ws. eapply (wp_rel (same_part users)); [unfold send_logout; mrel|]. intros [[]|x] w3 F3; [|done].
    ws. eapply (wp_rel (same_part users)); [mrel|]. intros [[]|x] w4 F4; [|done]. ws. intros _.
    apply (restamped_saved e _ u' _ w4 (users (w_db w2)) eq_refl eq_refl);
      [exact (eq_trans F4 F3)|lia].
  - unfold post_email. do 8 draws.
    eapply (wp_draws (λ u, u_uuid u = u_uuid (h_user h) ∧ u_stamp_exception u = u_stamp_exception (h_user h)));
      [eassumption|mrel|mrets ltac:(by split)|].
    intros u w8 D [Eu Ee]. eapply ok_new_password; [exact Eu|done|exact (eq_sym Ee)].
  - unfold post_rotatekey. do 10 draws. eapply ok_new_password; done.
Qed.
End stamp.



(** ** Registration *)

(** Why somebody may register the address: an invitation to an organization for
    it, an invitation of the server, open sign-ups, or an emergency access it was
    invited to, known to the server or shown by its token. *)
Definition may_register (e : Env) (db : Db) (data : RegisterData) (email : string) : Prop :=
  (∃ token claims, rd_org_invite_token data = Some token ∧ e_decode_invite e token = Some claims ∧
     ic_email claims = email) ∨
  (∃ i, i ∈ invitations db ∧ inv_email i = e_lowercase e email) ∨
  is_signup_allowed e email = true ∨
  (emergency_access_allowed (e_cfg e) = true ∧
   is_Some (EmergencyAccess_find_invited_by_grantee_email email db)) ∨
  (∃ token claims, rd_accept_emergency_access_invite_token data = Some token ∧
     e_decode_emergency_invite e token = Some claims ∧ ec_email claims = rd_email data).

Abbreviation kept_users := (same_part undated_users).

(** The row a registration writes is nobody's who has a password. *)
Definition registrable (db : Db) (u : User) : Prop :=
  ∀ u0, u0 ∈ users db → u_password_hash u0 ≠ "" → u_uuid u0 ≠ u_uuid u.

Section register.
Implicit Types (e : Env) (w : World) (u : User).

Lemma ok_check_register_tokens data e w :
  wp (check_register_tokens data) e w (λ r w', w' = w ∧ ∀ a, r = Ok a → a.2 = true →
    ∃ token claims, rd_accept_emergency_access_invite_token data = Some token ∧
      e_decode_emergency_invite e token = Some claims ∧ ec_email claims = rd_email data).
Proof.
  unfold check_register_tokens.
  destruct (rd_email_verification_token data), (rd_accept_emergency_access_id data),
    (rd_accept_emergency_access_invite_token data) as [token|] eqn:Et,
    (rd_organization_user_id data), (rd_org_invite_token data); try (ws; by split).
  - ws. apply wp_some_or. ws. case_match; [|by split]. ws. ws; [by split|]. ws. split; [done|]. by intros ? [= <-].
  - ws. ws. ws. ws; [by split|]. ws. apply wp_some_or. ws.
    destruct (e_decode_emergency_invite e token) as [claims|] eqn:Ec; [|by split].
    ws. ws; [by split|]. ws. ws; [by split|]. ws. split; [done|]. intros ? [= <-] _. bprop. by exists token, claims.
  - ws. apply wp_some_or. ws. case_match; [|by split]. ws. ws; [by split|]. ws. ws; [by split|].
    ws. split; [done|]. by intros ? [= <-].
Qed.

Lemma ok_take_invitation email e w :
  wp (Invitation_take email) e w (λ r w', kept_users e w w' ∧
    emergency_access (w_db w') = emergency_access (w_db w) ∧ w_draws w' = w_draws w ∧
    (r = Ok true → ∃ i, i ∈ invitations (w_db w) ∧ inv_email i = e_lowercase e email)).
Proof.
  unfold Invitation_take, Invitation_find_by_mail. ws. ws. ws; [|by ws].
  apply first_row_Some in Heqo as [Hi Hin]. bprop. unfold Invitation_delete. ws. ws. apply wp_write. ws.
  split_and!; try done. intros _. eauto.
Qed.

Lemma ok_register_user data email verified pending e w :
  pk_unique (users (w_db w)) → (∀ u, u ∈ users (w_db w) → unused (e_uuid e) w (u_uuid u)) →
  (pending = true → ∃ token claims, rd_accept_emergency_access_invite_token data = Some token ∧
     e_decode_emergency_invite e token = Some claims ∧ ec_email claims = rd_email data) →
  wp (register_user data email verified pending) e w (λ r w', kept_users e w w' ∧ ∀ a, r = Ok a →
    registrable (w_db w) a.1 ∧ u_email a.1 = e_lowercase e email ∧ may_register e (w_db w) data email).
Proof.
  intros Hpk Hids Hpend. unfold register_user, may_register. ws. unfold User_find_by_mail. ws. ws.
  - apply first_row_Some in Heqo as [Hm Hin]. bprop. ws. ws; [by split|]. apply negb_false_iff in H.
    unfold str_is_empty in H. bprop.
    assert (registrable (w_db w) u) as Hreg.
    { intros u0 Hu0 Hne E. apply Hne. by rewrite (pk_unique_inj (users (w_db w)) u0 u). }
    ws.
    + ws. apply wp_some_or. ws. destruct (e_decode_invite e s) as [claims|] eqn:Ec; [|by split].
      ws. ws; [by split|]. ws. split; [done|]. intros a [= <-].
      bprop. split_and!; [done|done|]. left. by exists s, claims.
    + ws. eapply wp_mono; [apply ok_take_invitation|]. intros [[]|x] w1 (F & Fe & _ & Hi); [| |by split].
      * ws. eapply (wp_rel kept_users); [mrel|]. intros [[]|x] w2 F2; [|by split; [by etransitivity|]].
        ws. split; [by etransitivity|]. intros a [= <-]. split_and!; [done|done|]. right; left. by apply Hi.
      * ws. ws. ws. ws. ws. ws. ws; ws; [|by split]. split; [done|]. intros a [= <-].
        split_and!; [done|done|]. right; right. bprop. destruct Heqb as [?|[? Hs]]; [by left|right; left].
        split; [done|]. unfold EmergencyAccess_find_invited_by_grantee_email in *. by rewrite <-Fe.
  - ws. eapply wp_mono; [apply ok_take_invitation|]. intros [taken|x] w1 (F & _ & D & Hi); [|by split].
    ws. ws. ws; [|ws; by split]. unfold User_new. repeat ws. split; [done|].
    intros a [= <-]. split_and!; [|done|].
    + intros u0 Hu0 _ E. simpl in E. symmetry in E. revert E. apply (Hids u0 Hu0). lia.
    + bprop. destruct Heqb as [[->|?]|Hp]; [right; left; by apply Hi|by right; right; left|].
      right; right; right; right. by apply Hpend.
Qed.

(** Saving the registered row leaves the rows of the others. *)
Lemma others_saved db db' u u0 :
  registrable db u → undated_users db' = undated_users db → u0 ∈ users db → u_password_hash u0 ≠ "" →
  undate u0 ∈ map undate (upsert u (users db')).
Proof.
  intros Hreg E Hu0 Hne. assert (undate u0 ∈ map undate (users db')) as (x & Hx & Ex)%elem_of_map.
  { unfold undated_users in E. rewrite E. apply elem_of_map. eauto. }
  apply elem_of_map. exists x. split; [|done]. apply elem_of_upsert. right. split; [done|].
  unfold pk, User_pk. apply (f_equal u_uuid) in Ex. simpl in Ex. rewrite <-Ex. by apply Hreg.
Qed.

(** The account after [User_set_password], without looking at its stamp. *)
Lemma ok_set_password_hash u pw key reset routes e w :
  wp (User_set_password u pw key reset routes) e w (λ r w', kept_users e w w' ∧ ∀ u', r = Ok u' →
    u_uuid u' = u_uuid u ∧ u_email u' = u_email u ∧
    u_password_hash u' = e_pbkdf2 e pw (u_salt u') (u_password_iterations u')).
Proof.
  apply wp_and; [apply (wp_rel kept_users); [mrel|done]|].
  unfold User_set_password. ws. ws; [done|]. ws. ws. ws.
  set (P := λ u' : User, u_uuid u' = u_uuid u ∧ u_email u' = u_email u ∧
    u_password_hash u' = e_pbkdf2 e pw (u_salt u') (u_password_iterations u')).
  match goal with |- wp ?m e w _ => assert (m_ret P m) as Hm end.
  { assert (P (u <| u_password_hash := e_pbkdf2 e pw (u_salt u) (u_password_iterations u) |>)) by by split_and!.
    unfold P in *. mrets ltac:(destruct_and?; repeat case_match; simpl in *; split_and!; congruence). }
  exact (ok_ret _ e w _ Hm).
Qed.

(** The account with the password of the request. *)
Definition registered (e : Env) (data : RegisterData) (uid : UserId) (mail : string) (u : User) : Prop :=
  u_uuid u = uid ∧ u_email u = mail ∧
  u_password_hash u = e_pbkdf2 e (rd_master_password_hash data) (u_salt u) (u_password_iterations u).

Ltac registered := unfold registered, set_keys in *; destruct_and?; repeat case_match; simpl in *; split_and!; congruence.

Lemma ret_welcome e d uid mail data u b :
  registered e d uid mail u → m_ret (registered e d uid mail) (welcome data u b).
Proof. intros H. mrets ltac:(registered). Qed.

Lemma ret_kdf_identity u d : m_ret (λ u', u_uuid u' = u_uuid u ∧ u_email u' = u_email u) (set_kdf_data u d).
Proof. mrets ltac:(destruct_and?; simpl in *; split; congruence). Qed.

(** A step that only leaves the rows alone, in the middle of a registration. *)
Lemma ok_kept {A B} (Q : A → Prop) (P : res B → World → Prop) (m : Handler A) (k : A → Handler B) db e w :
  undated_users (w_db w) = undated_users db → m_rel kept_users m → m_ret Q m →
  (∀ x w', undated_users (w_db w') = undated_users db → P (Err x) w') →
  (∀ a w', undated_users (w_db w') = undated_users db → Q a → wp (k a) e w' P) →
  wp (m ≫= k) e w P.
Proof.
  intros Hw Hm HQ HE Hk. ws. unfold wp. pose proof (Hm e w) as F. unfold same_part in F.
  destruct (m e w) as [[a|x] w1] eqn:Em; simpl in *; [|by apply HE; congruence].
  apply Hk; [congruence|by eapply HQ].
Qed.

(** What holds after a registration from [db]: the rows of those who have a
    password are there, and the new one is if it succeeded. *)
Definition register_post (e : Env) (db : Db) (data : RegisterData) (r : res ()) (w' : World) : Prop :=
  (∀ u, u ∈ users db → u_password_hash u ≠ "" → undate u ∈ undated_users (w_db w')) ∧
  (r = Ok () → may_register e db data (e_lowercase e (rd_email data)) ∧
     ∃ u, u ∈ users (w_db w') ∧ u_email u = e_lowercase e (e_lowercase e (rd_email data)) ∧
          u_password_hash u = e_pbkdf2 e (rd_master_password_hash data) (u_salt u) (u_password_iterations u)).

Lemma register_post_err e db data x w' :
  undated_users (w_db w') = undated_users db → register_post e db data (Err x) w'.
Proof. intros E. split; [|done]. intros u Hu _. rewrite E. apply elem_of_map. eauto. Qed.

(** The save, and what follows it. *)
Lemma ok_register_save db data user (rest : User → Handler ()) e w :
  undated_users (w_db w) = undated_users db → registrable db user →
  may_register e db data (e_lowercase e (rd_email data)) →
  registered e data (u_uuid user) (e_lowercase e (e_lowercase e (rd_email data))) user →
  (∀ u, m_rel kept_users (rest u)) →
  wp (user ← User_save user; rest user) e w (register_post e db data).
Proof.
  intros Hw Hreg Hmay (_ & Em & Eh) Hrest. ws. apply wp_User_save; [intros; by apply register_post_err|].
  intros _ _ u'. apply (wp_rel kept_users); [apply Hrest|]. intros r w2 F.
  unfold same_part, undated_users in F. simpl in F. split.
  - intros u Hu Hne. unfold undated_users. rewrite F. by eapply (others_saved db).
  - intros _. split; [done|].
    assert (undate u' ∈ map undate (users (w_db w2))) as (x & Hx & Ex)%elem_of_map.
    { rewrite F. apply elem_of_map. exists u'. split; [|done]. apply elem_of_upsert. by left. }
    exists x. split; [done|]. pose proof (f_equal u_email Ex) as E1. pose proof (f_equal u_salt Ex) as E2.
    pose proof (f_equal u_password_iterations Ex) as E3. pose proof (f_equal u_password_hash Ex) as E4.
    simpl in *. split; congruence.
Qed.

Lemma ok_register data v e w :
  pk_unique (users (w_db w)) → (∀ u, u ∈ users (w_db w) → unused (e_uuid e) w (u_uuid u)) →
  wp (register data v) e w (register_post e (w_db w) data).
Proof.
  intros Hpk Hids. unfold register. ws. ws. ws.
  eapply (wp_mono _ _ _ (λ r w', w' = w ∧ ∀ a, r = Ok a → a.2 = true → ∃ token claims,
    rd_accept_emergency_access_invite_token data = Some token ∧
    e_decode_emergency_invite e token = Some claims ∧ ec_email claims = rd_email data)).
  { destruct v; [apply ok_check_register_tokens|]. ws. split; [done|]. by intros ? [= <-]. }
  intros [[[name verified] pending]|x] w1 [-> Hp]; [|by apply register_post_err]. specialize (Hp _ eq_refl). simpl in Hp.
  ws. ws; [by apply register_post_err|]. ws. ws. ws. unfold enforce_password_hint_setting. ws. ws. ws; [by apply register_post_err|].
  ws. eapply (wp_mono _ _ _ (λ r w', undated_users (w_db w') = undated_users (w_db w) ∧ ∀ a, r = Ok a →
    registrable (w_db w) a.1 ∧ u_email a.1 = e_lowercase e (e_lowercase e (rd_email data)) ∧
    may_register e (w_db w) data (e_lowercase e (rd_email data)))).
  { by apply ok_register_user. }
  intros [[user verified']|x] w3 [E3 Hu]; [|by apply register_post_err].
  destruct (Hu _ eq_refl) as (Hreg & Em & Hmay). simpl in *. clear Hu.
  apply (ok_kept (λ _, True) _ _ _ (w_db w)); [done|mrel|apply m_ret_any|intros; by apply register_post_err|].
  intros _ w4 E4 _.
  eapply (ok_kept _ _ _ _ (w_db w)); [done|mrel|apply ret_kdf_identity|intros; by apply register_post_err|]. intros user1 w5 E5 [Eu1 Em1].
  ws. eapply wp_mono; [apply ok_set_password_hash|]. intros [user2|x] w6 [F6 H2];
    [|apply register_post_err; exact (eq_trans F6 E5)].
  destruct (H2 _ eq_refl) as (Eu2 & Em2 & Eh2). clear H2. ws. ws.
  set (user3 := if verified' then _ else _).
  assert (registered e data (u_uuid user) (e_lowercase e (e_lowercase e (rd_email data))) user3) as H3.
  { unfold user3. clear -Eu1 Em1 Eu2 Em2 Eh2 Em. registered. }
  clearbody user3.
  eapply (ok_kept _ _ _ _ (w_db w));
    [exact (eq_trans F6 E5)|mrel|by apply (ret_welcome e data)|intros; by apply register_post_err|]. intros user4 w7 E7 H4.
  apply ok_register_save; [done| |done| |intros; mrel].
  - intros u0 Hu0 Hne. destruct H4 as [-> _]. by apply Hreg.
  - destruct H4 as (_ & ? & ?). by split_and!.
Qed.
End register.

(** C7: a registration never touches the account of somebody who has a password:
    on every path, errors included, all its columns but the revision date stay.
    It succeeds only for an address that was invited, may sign up, or shows the
    token of an emergency access; then there is an account with that address and
    the password of the request. *)
Theorem register_spec data v e w r w' :
  pk_unique (users (w_db w)) → (∀ u, u ∈ users (w_db w) → unused (e_uuid e) w (u_uuid u)) →
  register data v e w = (r, w') →
  (∀ u, u ∈ users (w_db w) → u_password_hash u ≠ "" → undate u ∈ map undate (users (w_db w'))) ∧
  (r = Ok () → may_register e (w_db w) data (e_lowercase e (rd_email data)) ∧
     ∃ u, u ∈ users (w_db w') ∧ u_email u = e_lowercase e (e_lowercase e (rd_email data)) ∧
          u_password_hash u = e_pbkdf2 e (rd_master_password_hash data) (u_salt u) (u_password_iterations u)).
Proof.
  intros Hpk Hids E. pose proof (ok_register data v e w Hpk Hids) as H. unfold wp in H. by rewrite E in H.
Qed.

Lemma accounts_unused u : u ∈ users (w_db org_world) → unused tally org_world (u_uuid u).
Proof.
  intros Hu n _ E. apply (f_equal (String.substring 0 1)) in E. simpl in Hu. destruct n; set_solver.
Qed.

(** dave signs up; alice's account is as it was. *)
Definition sign_up (mail : string) : RegisterData :=
  mkRegisterData mail (mkKDFData 0 600000 None None) "k" None "pw" None None None None None None None.

Lemma register_spec_witness :
  let run := register (sign_up "dave@x") false demo_env org_world in
  is_ok run.1 = true ∧ undate alice ∈ map undate (users (w_db run.2)).
Proof.
  intros run. split; [by vm_compute|].
  destruct (register_spec (sign_up "dave@x") false demo_env org_world run.1 run.2) as [H _].
  - apply (bool_decide_unpack (NoDup _)). by vm_compute.
  - apply accounts_unused.
  - by rewrite <-surjective_pairing.
  - apply H; [vm_compute; left|done].
Defined.

(** ** KDF settings *)

(** The settings the server accepts; it knows the bounds of PBKDF2 and Argon2
    only. *)
Definition kdf_allowed (d : KDFData) : Prop :=
  (kdf d = 0 → 100000 ≤ kdf_iterations d)%Z ∧
  (kdf d = 1%Z → (1 ≤ kdf_iterations d)%Z ∧
     (∃ m, kdf_memory d = Some m ∧ 15 ≤ m ≤ 1024)%Z ∧
     (∃ p, kdf_parallelism d = Some p ∧ 1 ≤ p ≤ 16)%Z).

(** C13: exactly the settings within the bounds are taken over: PBKDF2 with at
    least 100000 iterations; Argon2 with at least one, 15 to 1024 MB of memory and
    1 to 16 lanes.  Memory and parallelism are kept for Argon2 and cleared
    otherwise; a refusal changes nothing.  A type that is neither is not
    checked. *)
Theorem set_kdf_data_spec u d e w :
  match set_kdf_data u d e w with
  | (Ok u', w') =>
    w' = w ∧ kdf_allowed d ∧
    u' = u <| u_client_kdf_memory := if (kdf d =? 1)%Z then kdf_memory d else None |>
           <| u_client_kdf_parallelism := if (kdf d =? 1)%Z then kdf_parallelism d else None |>
           <| u_client_kdf_iter := kdf_iterations d |> <| u_client_kdf_type := kdf d |>
  | (Err _, w') => w' = w ∧ ¬ kdf_allowed d
  end.
Proof.
  unfold set_kdf_data, kdf_allowed, mbind, M_bind, err_if, err, mret, M_ret.
  destruct d as [ty it me pa]; simpl.
  destruct ((ty =? 0) && (it <? 100000))%Z eqn:E0; [split; [done|]; bprop; lia|].
  destruct (ty =? 1)%Z eqn:E1; [|bprop; split_and!; [done|lia|lia|by destruct u]].
  destruct (it <? 1)%Z eqn:E2; [split; [done|]; intros [_ H]; lia|].
  destruct me as [m|]; [|split; [done|]; intros [_ H]; destruct H as (_ & (? & ? & _) & _); [lia|done]].
  destruct (negb ((15 <=? m) && (m <=? 1024))%Z) eqn:E3.
  { split; [done|]. intros [_ H]. destruct H as (_ & (? & [= <-] & ?) & _); [lia|]. bprop. lia. }
  destruct pa as [p|]; [|split; [done|]; intros [_ H]; destruct H as (_ & _ & ? & ? & _); [lia|done]].
  destruct (negb ((1 <=? p) && (p <=? 16))%Z) eqn:E4.
  { split; [done|]. intros [_ H]. destruct H as (_ & _ & ? & [= <-] & ?); [lia|]. bprop. lia. }
  bprop. split_and!; [done|lia| |by destruct u]. intros _. split_and!; [lia|exists m; split; [done|lia]|exists p; split; [done|lia]].
Qed.

(** ** A rotation of the keys is complete *)

Lemma is_superset_spec l l' : is_superset l l' = true ↔ ∀ x, x ∈ l' → x ∈ l.
Proof.
  unfold is_superset. rewrite forallb_forall. split; intros H x Hx.
  - apply list_elem_of_In, H in Hx. by apply existsb_eqb in Hx.
  - apply existsb_eqb, H. by apply list_elem_of_In.
Qed.

(** The data of the request covers the rows [ex], by their ids. *)
Definition covers {A} (ids : list string) (id : A → string) (ex : list A) : Prop :=
  ∀ x, x ∈ ex → id x ∈ ids.

Lemma covers_superset {A} ids (id : A → string) ex : is_superset ids (map id ex) = true → covers ids id ex.
Proof. intros H x Hx. apply (proj1 (is_superset_spec _ _) H), elem_of_map. eauto. Qed.

(** The settings of the account the request must not change. *)
Definition same_settings (u : User) (data : KeyData) : Prop :=
  let mpu := master_password_unlock_data (account_unlock_data data) in
  u_client_kdf_type u = mpu_kdf_type mpu ∧ u_client_kdf_iter u = mpu_kdf_iterations mpu ∧
  u_client_kdf_memory u = mpu_kdf_memory mpu ∧ u_client_kdf_parallelism u = mpu_kdf_parallelism mpu ∧
  u_email u = mpu_email mpu ∧ u_public_key u = Some (account_public_key (account_keys data)).

Lemma ok_validate_keydata data ex u e w :
  wp (validate_keydata data ex u) e w (λ r w', w' = w ∧ (r = Ok () →
    same_settings u data ∧
    covers (provided_cipher_ids data) ci_uuid (ex_ciphers ex) ∧
    covers (provided_folder_ids data) f_uuid (ex_folders ex) ∧
    covers (provided_emergency_access_ids data) ea_uuid (ex_emergency_access ex) ∧
    covers (provided_reset_password_ids data) m_org_uuid (ex_memberships ex) ∧
    covers (provided_send_ids data) s_uuid (ex_sends ex))).
Proof.
  unfold validate_keydata, same_settings. cbv zeta.
  do 6 (ws; ws; [by split|]). ws; [by split|]. split; [done|]. intros _.
  rewrite !orb_false_iff, !negb_false_iff, !bool_decide_eq_true, !Z.eqb_eq, eqb_str_true in H.
  apply negb_false_iff, opt_is_true in H0.
  rewrite negb_false_iff in *. split_and!; try tauto; by apply covers_superset.
Qed.


(** carol rotates her keys, with both of her folders and a send. *)
Definition carol_keys : KeyData :=
  mkKeyData (mkRotateAccountUnlockData []
      (mkMasterPasswordUnlockData 0 600000 None None "carol@x" "pw2" "key2") [])
    (mkRotateAccountKeys "private2" "pub") 
    (mkRotateAccountData [] [mkUpdateFolderData (Some "f2") "Dos"; mkUpdateFolderData (Some "f1") "Uno"] [])
    "carol".
Definition carol_with_key : User := (demo_user "carol" "carol@x") <| u_public_key := Some "pub" |>.

