(* ===== verification/SendSpec.v ===== *)
(** What an anonymous visitor gets of a send, and how often; who may change a
    send; the upload limits; the clean-up. *)
From S2P Require Import Prelude Table Schema Roles Users Memberships Policies Util Devices Auth.
From S2P Require Import Demo Sends OrgInv Guards.

(** ** Anonymous access *)

(** A send can be opened: accesses are left, it has neither expired nor reached
    its deletion date, it is not disabled, and the password, if it has one, was
    given. *)
Definition open_for (e : Env) (s : Send) (password : option string) : Prop :=
  (∀ m, s_max_access_count s = Some m → (s_access_count s < m)%Z) ∧
  (∀ x, s_expiration_date s = Some x → (e_now e < x)%Z) ∧
  (e_now e < s_deletion_date s)%Z ∧ s_disabled s = false ∧
  (∀ hash, s_password_hash s = Some hash → ∃ p salt iter,
     password = Some p ∧ s_password_salt s = Some salt ∧ s_password_iter s = Some iter ∧
     iter ≠ 0%Z ∧ verify_password_hash e p salt hash iter = true).

Lemma Send_check_password_true s password e w (Q : res bool → World → Prop) hash :
  s_password_hash s = Some hash →
  (∀ x, ¬ (∃ salt iter, s_password_salt s = Some salt ∧ s_password_iter s = Some iter ∧ iter ≠ 0%Z ∧
              verify_password_hash e password salt hash iter = true) → Q (Err x) w) →
  (¬ (∃ salt iter, s_password_salt s = Some salt ∧ s_password_iter s = Some iter ∧ iter ≠ 0%Z ∧
              verify_password_hash e password salt hash iter = true) → Q (Ok false) w) →
  ((∃ salt iter, s_password_salt s = Some salt ∧ s_password_iter s = Some iter ∧ iter ≠ 0%Z ∧
              verify_password_hash e password salt hash iter = true) → Q (Ok true) w) →
  wp (Send_check_password s password) e w Q.
Proof.
  intros Eh HE HF HT. unfold Send_check_password. rewrite Eh.
  destruct (s_password_salt s) as [salt|]; [|ws; apply HF; naive_solver].
  destruct (s_password_iter s) as [iter|]; [|ws; apply HF; naive_solver].
  ws. ws; bprop; [ws; apply HE; intros (?&?&?&?&?&?); by simplify_eq|].
  ws. ws. destruct (verify_password_hash e password salt hash iter) eqn:Ev; [apply HT; eauto 10|].
  apply HF. naive_solver congruence.
Qed.

Lemma wp_send_access_checks s password e w (Q : res () → World → Prop) :
  (∀ x, ¬ open_for e s password → Q (Err x) w) → (open_for e s password → Q (Ok ()) w) →
  wp (send_access_checks s password) e w Q.
Proof.
  intros HE HQ. unfold send_access_checks, open_for in *. ws. ws.
  { apply HE. intros (Hm & _). apply on_row_true in H as (m & Em & Hle%Z.leb_le).
    specialize (Hm m Em). lia. }
  ws. ws. ws. ws.
  { apply HE. intros (_ & Hx & _). apply on_row_true in H0 as (x & Ex & Hle%Z.leb_le).
    specialize (Hx x Ex). lia. }
  ws. ws; [apply HE; intros (_ & _ & ? & _); lia|]. ws. ws; [apply HE; naive_solver congruence|].
  assert (∀ m, s_max_access_count s = Some m → (s_access_count s < m)%Z) as H1'.
  { intros m Hm. rewrite Hm in H. by apply Z.leb_gt. }
  assert (∀ x, s_expiration_date s = Some x → (e_now e < x)%Z) as H2'.
  { intros x Hx. rewrite Hx in H0. by apply Z.leb_gt. }
  apply Z.leb_gt in H1.
  destruct (s_password_hash s) as [hash|] eqn:Eh; simpl.
  2:{ ws. apply HQ. split_and!; try done. }
  destruct password as [p|].
  2:{ ws. apply HE. intros (_ & _ & _ & _ & H3). destruct (H3 _ eq_refl) as (?&?&?&?&?). done. }
  ws. apply (Send_check_password_true _ _ _ _ _ hash Eh).
  - intros x Hn. apply HE. intros (_ & _ & _ & _ & H3). apply Hn.
    destruct (H3 _ eq_refl) as (q & salt & iter & [= <-] & H4). by exists salt, iter.
  - intros Hn. apply HE. intros (_ & _ & _ & _ & H3). apply Hn.
    destruct (H3 _ eq_refl) as (q & salt & iter & [= <-] & H4). by exists salt, iter.
  - intros (salt & iter & H3). apply HQ. split_and!; try done. intros ? [= <-]. naive_solver.
Qed.

(** The rest of a handler touches neither the sends nor the supply of ids. *)
Definition sends_frame (e : Env) (w w' : World) : Prop :=
  sends (w_db w') = sends (w_db w) ∧ w_draws w' = w_draws w.

#[export] Instance sends_frame_preorder e : PreOrder (sends_frame e).
Proof. split; [done|]. intros w1 w2 w3 [H1 H2] [H3 H4]. split; congruence. Qed.

Lemma sends_frame_emit x : m_rel sends_frame (emit x).
Proof. apply m_rel_modify. by intros. Qed.
#[export] Hint Resolve sends_frame_emit : mrel.
#[export] Hint Extern 2 (m_rel sends_frame (modify_part _ _ _)) =>
  (apply m_rel_modify; by intros) : mrel.

(** Saving a send: nothing else of the table changes. *)
Lemma wp_Send_save s e w (Q : res Send → World → Prop) :
  (∀ w', sends (w_db w') = upsert (s <| s_revision_date := e_now e |>) (sends (w_db w)) →
         w_draws w' = w_draws w → Q (Ok (s <| s_revision_date := e_now e |>)) w') →
  wp (Send_save s) e w Q.
Proof.
  intros HQ. unfold Send_save. ws. apply wp_succeeds; [succeeds|].
  eapply (wp_rel sends_frame); [mrel|]. intros r w1 [F D] l ->.
  ws. ws. ws. apply wp_write. ws. apply HQ; simpl; [by rewrite F|done].
Qed.

(** The send after an access. *)
Definition accessed (e : Env) (s : Send) (n : Z) : Send :=
  s <| s_access_count := n |> <| s_revision_date := e_now e |>.

Definition bump (s : Send) : Z := i32_wrap (s_access_count s + 1).

(** The send a visitor may open, if there is one. *)
Definition opens (e : Env) (w : World) (id : option string) (password : option string) (s : Send)
    : Prop :=
  (id ≫= λ id, Send_find_by_uuid id (w_db w)) = Some s ∧ open_for e s password.

Lemma wp_post_access_file id file password e w (Q : res string → World → Prop) :
  (∀ x, (¬ ∃ s, opens e w (Some id) password s) → Q (Err x) w) →
  (∀ s w', opens e w (Some id) password s →
     sends (w_db w') = upsert (accessed e s (bump s)) (sends (w_db w)) →
     w_draws w' = w_draws w → Q (Ok (id +:+ "/" +:+ file)) w') →
  wp (post_access_file id file password) e w Q.
Proof.
  intros HE HQ. unfold opens in *. unfold post_access_file. ws. ws. simpl in *.
  destruct (Send_find_by_uuid id (w_db w)) as [s|] eqn:Es; [|ws; apply HE; naive_solver].
  ws. apply wp_send_access_checks; [intros; apply HE; naive_solver|]. intros Ho.
  ws. apply wp_Send_save. intros w1 E1 D1.
  ws. unfold send_send_update. apply wp_succeeds; [succeeds|].
  eapply (wp_rel sends_frame); [mrel|]. intros r w2 [F D] [] ->.
  ws. apply (HQ s); [done| |congruence]. by rewrite F, E1.
Qed.

(** The send an access leaves behind: only the text of a text send counts as an
    access here, a file is counted when its download link is handed out. *)
Definition opened (e : Env) (s : Send) : Send :=
  accessed e s (if (s_atype s =? SendType_as_i32 SendText)%Z then bump s else s_access_count s).

Lemma wp_post_access aid password e w (Q : res (Send * option string) → World → Prop) :
  (∀ x, (¬ ∃ s, opens e w (e_access_id e aid) password s) → Q (Err x) w) →
  (∀ s w', opens e w (e_access_id e aid) password s →
     sends (w_db w') = upsert (opened e s) (sends (w_db w)) → w_draws w' = w_draws w →
     Q (Ok (opened e s, Send_creator_identifier (opened e s) (w_db w'))) w') →
  wp (post_access aid password) e w Q.
Proof.
  intros HE HQ. unfold opens in *. unfold post_access. ws. unfold Send_find_by_access_id. ws.
  destruct (e_access_id e aid) as [id|] eqn:Ei; simpl in *; [|ws; apply HE; naive_solver].
  destruct (Send_find_by_uuid id (w_db w)) as [s|] eqn:Es; [|ws; apply HE; naive_solver].
  ws. apply wp_send_access_checks; [intros; apply HE; naive_solver|]. intros Ho.
  specialize (HQ s). unfold opened in HQ. simpl in HQ. destruct (s_atype s =? 0)%Z;
    ws; apply wp_Send_save; intros w1 E1 D1; ws; unfold send_send_update; apply wp_succeeds;
    (try by succeeds); (eapply (wp_rel sends_frame); [mrel|]); intros r w2 [F D] [] ->;
    repeat ws.
  - apply HQ; [done| |congruence]. by rewrite F, E1.
  - assert (accessed e s (s_access_count s) = s <| s_revision_date := e_now e |>) as En by by destruct s.
    rewrite <-En in *. apply HQ; [done| |congruence]. by rewrite F, E1.
Qed.

(** ** Who changes a send *)

(** What a request of the user [u] does to the sends: nothing; it adds a send of
    [u] under an id drawn by this request; it rewrites or deletes a send of [u].
    Only an [edited] send may get other limits or another access count. *)
Inductive send_effect (e : Env) (u : UserId) (edited : list string) (w w' : World) : Prop :=
| effect_none :
  sends (w_db w') = sends (w_db w) → w_draws w ≤ w_draws w' → send_effect e u edited w w'
| effect_create n s' :
  s_uuid s' = e_uuid e n → w_draws w ≤ n < w_draws w' → s_user_uuid s' = Some u →
  sends (w_db w') = upsert s' (sends (w_db w)) → send_effect e u edited w w'
| effect_rewrite s s' :
  s ∈ sends (w_db w) → s_user_uuid s = Some u → s_uuid s' = s_uuid s → s_user_uuid s' = Some u →
  s_uuid s ∈ edited ∨
    (s_max_access_count s' = s_max_access_count s ∧ s_access_count s' = s_access_count s) →
  sends (w_db w') = upsert s' (sends (w_db w)) → w_draws w ≤ w_draws w' → send_effect e u edited w w'
| effect_delete s :
  s ∈ sends (w_db w) → s_user_uuid s = Some u →
  sends (w_db w') = delete_where (λ x, s_uuid x == s_uuid s) (sends (w_db w)) →
  w_draws w ≤ w_draws w' → send_effect e u edited w w'.

(** The sends are as before; ids may have been drawn. *)
Definition sends_kept (e : Env) (w w' : World) : Prop :=
  sends (w_db w') = sends (w_db w) ∧ w_draws w ≤ w_draws w'.

#[export] Instance sends_kept_preorder e : PreOrder (sends_kept e).
Proof. split; [done|]. intros w1 w2 w3 [H1 H2] [H3 H4]. split; [congruence|lia]. Qed.

Lemma sends_kept_get_uuid : m_rel sends_kept get_uuid.
Proof. intros e w. split; [done|]. simpl. lia. Qed.
Lemma sends_kept_get_random : m_rel sends_kept get_random.
Proof. intros e w. split; [done|]. simpl. lia. Qed.
Lemma sends_kept_emit x : m_rel sends_kept (emit x).
Proof. apply m_rel_modify. by intros. Qed.
Lemma sends_kept_mail x : m_rel sends_kept (send_mail x).
Proof. intros e w. unfold send_mail. by destruct (e_smtp e x). Qed.
#[export] Hint Resolve sends_kept_get_uuid sends_kept_get_random sends_kept_emit sends_kept_mail
  : mrel.
#[export] Hint Extern 2 (m_rel sends_kept (modify_part _ _ _)) =>
  (apply m_rel_modify; by intros) : mrel.

Section owner.
Context (h : Headers).
Abbreviation u := (u_uuid (h_user h)).
Implicit Types (e : Env) (w : World).

(** The send [create_send] builds, not saved yet. *)
Lemma wp_create_send data e w (Q : res Send → World → Prop) :
  (∀ x w', sends_kept e w w' → Q (Err x) w') →
  (∀ s n w', s_uuid s = e_uuid e n → w_draws w ≤ n < w_draws w' → s_user_uuid s = Some u →
     sends_kept e w w' → Q (Ok s) w') →
  wp (create_send data u) e w Q.
Proof.
  intros HE HQ. unfold create_send. ws.
  apply (wp_rel sends_kept); [mrel|]. intros [v|x] w1 F1; [|by apply HE]. ws.
  apply (wp_rel sends_kept); [mrel|]. intros [d|x] w2 F2; [|apply HE; by etransitivity].
  assert (sends_kept e w w2) as F by by etransitivity.
  ws. ws. ws. ws; [by apply HE|]. ws. unfold Send_new. repeat ws.
  set (w3 := w2 <| w_draws := S (w_draws w2) |>).
  assert (sends_kept e w w3) as F3 by (etransitivity; [exact F|split; simpl; [done|lia]]).
  apply (wp_rel sends_kept); [mrel|]. intros [m|x] w4 F4; [|apply HE; by etransitivity].
  assert (sends_kept e w w4) as Fw by by etransitivity.
  assert (w_draws w ≤ w_draws w2 < w_draws w4) as D.
  { destruct F as [_ F], F4 as [_ F4]. simpl in F4. lia. }
  unfold Send_set_password. destruct (sd_password data); repeat ws.
  - apply (HQ _ (w_draws w2)); try done; [simpl; lia|]. etransitivity; [exact Fw|split; simpl; [done|lia]].
  - by apply (HQ _ (w_draws w2)).
Qed.

(** Saving a send under a drawn id, and what follows. *)
Lemma effect_save_new {A} edited s n e w w1 (k : Send → Handler A) :
  s_uuid s = e_uuid e n → w_draws w ≤ n < w_draws w1 → s_user_uuid s = Some u →
  sends_kept e w w1 → (∀ s, m_rel sends_kept (k s)) →
  wp (s ← Send_save s; k s) e w1 (λ _ w', send_effect e u edited w w').
Proof.
  intros Eid D Eu [F _] Hk. ws. apply wp_Send_save. intros w2 E2 D2.
  apply (wp_rel sends_kept); [apply Hk|]. intros r w3 [F3 D3].
  apply (effect_create _ _ _ _ _ n (s <| s_revision_date := e_now e |>)); [exact Eid|lia|exact Eu|]. by rewrite F3, E2, F.
Qed.

(** Saving a send of the user, and what follows. *)
Lemma effect_save_own {A} edited s s' e w w1 (k : Send → Handler A) :
  s ∈ sends (w_db w) → s_user_uuid s = Some u → s_uuid s' = s_uuid s → s_user_uuid s' = Some u →
  s_uuid s ∈ edited ∨
    (s_max_access_count s' = s_max_access_count s ∧ s_access_count s' = s_access_count s) →
  sends_kept e w w1 → (∀ s, m_rel sends_kept (k s)) →
  wp (s ← Send_save s'; k s) e w1 (λ _ w', send_effect e u edited w w').
Proof.
  intros Hs Eu Eid Eu' Hl [F D] Hk. ws. apply wp_Send_save. intros w2 E2 D2.
  apply (wp_rel sends_kept); [apply Hk|]. intros r w3 [F3 D3].
  apply (effect_rewrite _ _ _ _ _ s (s' <| s_revision_date := e_now e |>)); try done; [|lia].
  by rewrite F3, E2, F.
Qed.

Lemma effect_kept edited e w w' : sends_kept e w w' → send_effect e u edited w w'.
Proof. intros []. by apply effect_none. Qed.

Lemma kept_draws e w w' : sends_kept e w w' → w_draws w ≤ w_draws w'.
Proof. by intros []. Qed.

Ltac kept := solve [repeat first [reflexivity | eassumption | etransitivity; [eassumption|]]].
Ltac draws :=
  repeat match goal with H : sends_kept _ _ _ |- _ => apply kept_draws in H end; simpl in *; lia.
Ltac fail_kept :=
  ws; apply (wp_rel sends_kept); [mrel|]; intros [?|?] ? ?; [|apply effect_kept; kept].

Lemma effect_post_send data edited e w :
  wp (post_send data h) e w (λ _ w', send_effect e u edited w w').
Proof.
  unfold post_send. fail_kept. fail_kept. ws. ws; [apply effect_kept; kept|].
  ws. apply wp_create_send; [intros; apply effect_kept; kept|]. intros s n w3 Es D Eu F.
  eapply effect_save_new; [exact Es| |exact Eu|kept|intros; mrel].
  draws.
Qed.

Lemma effect_post_send_file ds model size edited e w :
  wp (post_send_file ds model size h) e w (λ _ w', send_effect e u edited w w').
Proof.
  unfold post_send_file. fail_kept. ws. ws; [apply effect_kept; kept|]. ws. ws; [apply effect_kept; kept|].
  fail_kept. fail_kept. ws. ws; [apply effect_kept; kept|].
  ws. apply wp_create_send; [intros; apply effect_kept; kept|]. intros s n w3 Es D Eu F.
  ws. ws; [apply effect_kept; kept|]. fail_kept. fail_kept. ws. ws; [apply effect_kept; kept|].
  fail_kept. ws. ws. ws; [|ws; apply effect_kept; kept]. ws. ws.
  eapply effect_save_new; [exact Es| |exact Eu|kept|intros; mrel]. draws.
Qed.

Lemma effect_post_send_file_v2 ds data edited e w :
  wp (post_send_file_v2 ds data h) e w (λ _ w', send_effect e u edited w w').
Proof.
  unfold post_send_file_v2. fail_kept. ws. ws; [apply effect_kept; kept|].
  fail_kept. fail_kept. ws. ws; [apply effect_kept; kept|]. fail_kept. ws. ws; [apply effect_kept; kept|].
  ws. apply wp_create_send; [intros; apply effect_kept; kept|]. intros s n w3 Es D Eu F.
  fail_kept. ws. ws. ws; [|ws; apply effect_kept; kept]. ws. ws.
  eapply effect_save_new; [exact Es| |exact Eu|kept|intros; mrel]. draws.
Qed.

Lemma find_own_send id db s :
  Send_find_by_uuid_and_user id u db = Some s →
  s ∈ sends db ∧ s_uuid s = id ∧ s_user_uuid s = Some u.
Proof. by intros [[?%eqb_str_true ?%opt_is_true]%andb_true_iff Hin]%first_row_Some. Qed.

(** A step that neither saves the send nor changes its id and its owner. *)
Definition same_send (s : Send) (e : Env) (w : World) (r : res Send) (w' : World) : Prop :=
  sends_kept e w w' ∧
  ∀ s', r = Ok s' → s_uuid s' = s_uuid s ∧ s_user_uuid s' = s_user_uuid s.

(** Rewriting a send from the client's data: it fails before anything is written,
    or the row is saved under the same id and owner. *)
Definition send_rewritten (s : Send) (e : Env) (w : World) (r : res Send) (w' : World) : Prop :=
  sends_kept e w w' ∧ is_ok r = false ∨
  ∃ s', s_uuid s' = s_uuid s ∧ s_user_uuid s = Some u ∧ s_user_uuid s' = Some u ∧
        sends (w_db w') = upsert s' (sends (w_db w)) ∧ w_draws w ≤ w_draws w' ∧
        ∀ x, r = Ok x → x = s'.

Lemma wp_update_send_from_data s data ut e w :
  wp (update_send_from_data s data h ut) e w (send_rewritten s e w).
Proof.
  unfold update_send_from_data.
  ws. ws; [by left|]. apply negb_false_iff, opt_is_true in H.
  ws. ws; [by left|]. ws. ws. ws. ws; [by left|]. ws.
  eapply (wp_mono _ _ _ (same_send s e w)).
  { ws; [ws|]; repeat ws; (split; [reflexivity|]); intros ? [=]; subst; try done. }
  intros [s1|x] w1 [F1 Hs1]; [|by left]. destruct (Hs1 _ eq_refl) as [Eid1 Eu1].
  ws. apply (wp_rel sends_kept); [mrel|]. intros [m|x] w2 F2; [|left; split; [kept|done]]. ws.
  eapply (wp_mono _ _ _ (same_send s1 e w2)).
  { unfold Send_set_password. ws; repeat ws; (split; [split; simpl; [done|lia]|]); intros ? [=]; by subst. }
  intros [s2|x] w3 [F3 Hs2]; [|left; split; [kept|done]]. destruct (Hs2 _ eq_refl) as [Eid2 Eu2].
  ws. apply wp_Send_save. intros w4 E4 D4.
  assert (sends_kept e w w3) as [Fa Da] by kept.
  ws. apply (wp_rel sends_kept); [mrel|]. intros [v|x] w5 [Fb Db]; [ws|];
    right; exists (s2 <| s_revision_date := e_now e |>);
    (split_and!; simpl; [congruence..|by rewrite Fb, E4, Fa|lia|congruence]).
Qed.

Lemma effect_put_send id data e w :
  wp (put_send id data h) e w (λ _ w', send_effect e u [id] w w').
Proof.
  unfold put_send. fail_kept. fail_kept. ws. ws.
  destruct (Send_find_by_uuid_and_user _ _ _) as [s|] eqn:Es; [|ws; apply effect_kept; kept].
  assert (sends_kept e w s'0) as Fw by kept.
  apply find_own_send in Es as (Hs & Eid & Eu). rewrite (proj1 Fw) in Hs.
  eapply wp_mono; [apply wp_update_send_from_data|].
  intros r w' [[F _]|(s2 & Es2 & _ & Eu2 & E & D & _)]; [apply effect_kept; kept|].
  apply (effect_rewrite _ _ _ _ _ s s2); try done; [left; rewrite Eid; left| |destruct Fw; lia].
  by rewrite E, (proj1 Fw).
Qed.

Lemma effect_v2_data id f name size edited e w :
  wp (post_send_file_v2_data id f name size h) e w (λ _ w', send_effect e u edited w w').
Proof. apply (wp_rel sends_kept); [mrel|]. intros. by apply effect_kept. Qed.

Lemma effect_delete_send id edited e w :
  wp (delete_send id h) e w (λ _ w', send_effect e u edited w w').
Proof.
  unfold delete_send. ws. ws.
  destruct (Send_find_by_uuid_and_user _ _ _) as [s|] eqn:Es; [|ws; apply effect_kept; kept].
  apply find_own_send in Es as (Hs & Eid & Eu). ws. unfold Send_delete.
  fail_kept. fail_kept. apply wp_write.
  apply (wp_rel sends_kept); [mrel|]. intros r w3 [F3 D3].
  apply (effect_delete _ _ _ _ _ s); [exact Hs|exact Eu| |].
  - rewrite F3. simpl. by rewrite (proj1 H0), (proj1 H).
  - simpl in D3. draws.
Qed.

Lemma effect_put_remove_password id edited e w :
  wp (put_remove_password id h) e w (λ _ w', send_effect e u edited w w').
Proof.
  unfold put_remove_password. fail_kept. ws. ws.
  destruct (Send_find_by_uuid_and_user _ _ _) as [s|] eqn:Es; [|ws; apply effect_kept; kept].
  apply find_own_send in Es as (Hs & Eid & Eu). rewrite (proj1 H) in Hs. ws. unfold Send_set_password. ws.
  apply (effect_save_own _ s); try done; [by right|]. intros; mrel.
Qed.
End owner.

(** ** The theorems *)

(** C31: a visitor is answered exactly when the link names a send that is open:
    accesses left, neither expired nor past its deletion date, enabled, and the
    right password given.  The answer is that send with the visit counted when it
    is a text, the same row is what the database then holds, and the creator's
    address is not part of it when the creator hides it. *)
Theorem post_access_spec aid password e w :
  match post_access aid password e w with
  | (Ok (s, creator), w') =>
    ∃ s0, opens e w (e_access_id e aid) password s0 ∧ s = opened e s0 ∧
          sends (w_db w') = upsert s (sends (w_db w)) ∧ (s_hide_email s0 = Some true → creator = None)
  | (Err _, w') => w' = w ∧ ¬ ∃ s0, opens e w (e_access_id e aid) password s0
  end.
Proof.
  pose (Q := λ (r : res (Send * option string)) w', match r with
    | Ok (s, creator) =>
      ∃ s0, opens e w (e_access_id e aid) password s0 ∧ s = opened e s0 ∧
            sends (w_db w') = upsert s (sends (w_db w)) ∧ (s_hide_email s0 = Some true → creator = None)
    | Err _ => w' = w ∧ ¬ ∃ s0, opens e w (e_access_id e aid) password s0
    end).
  assert (wp (post_access aid password) e w Q) as H.
  { apply wp_post_access; [intros x Hn; by split|]. intros s w' Ho E _. exists s.
    split_and!; try done. intros Hh. unfold Send_creator_identifier. simpl. by rewrite Hh. }
  unfold wp, Q in H. by destruct (post_access aid password e w) as [[[s c]|x] w'].
Qed.


(** ** Clean-up *)

Lemma wp_Send_delete s e w (Q : res () → World → Prop) :
  (∀ w', sends (w_db w') = delete_where (λ x, s_uuid x == s_uuid s) (sends (w_db w)) → Q (Ok ()) w') →
  wp (Send_delete s) e w Q.
Proof.
  intros HQ. unfold Send_delete. ws. apply wp_succeeds; [succeeds|].
  eapply (wp_rel sends_kept); [mrel|]. intros r w1 [F1 _] l ->. ws. apply wp_succeeds; [succeeds|].
  eapply (wp_rel sends_kept); [mrel|]. intros r w2 [F2 _] u ->.
  apply wp_write. apply HQ. simpl. by rewrite F2, F1.
Qed.

Lemma wp_delete_sends l e w :
  wp (mfor l (λ s, ignore (Send_delete s))) e w (λ r w', r = Ok () ∧
    sends (w_db w') = delete_where (λ x, existsb (λ s, s_uuid x == s_uuid s) l) (sends (w_db w))).
Proof.
  revert w. induction l as [|s l IH]; intros w; simpl.
  - ws. split; [done|]. by rewrite delete_where_none.
  - ws. unfold ignore. ws. ws. apply wp_Send_delete. intros w1 E1. ws.
    eapply wp_mono; [apply IH|]. intros r w' [-> E]. split; [done|].
    rewrite E, E1, delete_where_twice. done.
Qed.


