(* ===== verification/Server.v ===== *)
(** The server as a transition system: the routes of the modelled handlers with
    their guards, the scheduled jobs, and the states they reach.

    One step serves one request (or runs one job) to its end, on every path,
    errors and panics included; [e] is the environment at that moment, so the
    clock, the configuration and the services may differ at every step. *)
From S2P Require Import Prelude Table Schema Roles Users Memberships Groups Collections Events.
From S2P Require Import Policies Vault Ciphers Util Settings Devices Auth Demo Sends Emergency.
From S2P Require Import AuthRequests Accounts Orgs TwoFactors Login AccountOps CipherOps.
From S2P Require Import KeyRotation OrgCollections OrgInv Guards OrgSafety RecoverySafety AccountSafety.

(** ** Routes *)
Inductive Route :=
(* src/src/api/core/organizations.rs *)
| R_create_organization (data : OrgData)
| R_delete_organization (org : OrganizationId) (data : PasswordOrOtpData)
| R_leave_organization (org : OrganizationId)
| R_post_organization (org : OrganizationId) (name billing_email : string)
| R_send_invite (org : OrganizationId) (data : InviteData)
| R_reinvite_member (org : OrganizationId) (member : MembershipId)
| R_bulk_reinvite_members (org : OrganizationId) (ids : list MembershipId)
| R_accept_invite (org : OrganizationId) (member : MembershipId) (token : string)
    (reset_password_key : option string)
| R_confirm_invite (org : OrganizationId) (member : MembershipId) (key : option string)
| R_bulk_confirm_invite (org : OrganizationId)
    (keys : option (list (option MembershipId * option string)))
| R_edit_member (org : OrganizationId) (member : MembershipId) (data : EditUserData)
| R_delete_member (org : OrganizationId) (member : MembershipId)
| R_bulk_delete_member (org : OrganizationId) (ids : list MembershipId)
| R_revoke_member (org : OrganizationId) (member : MembershipId)
| R_bulk_revoke_members (org : OrganizationId) (ids : option (list MembershipId))
| R_restore_member (org : OrganizationId) (member : MembershipId)
| R_bulk_restore_members (org : OrganizationId) (ids : list MembershipId)
| R_put_policy (org : OrganizationId) (pol_type : Z) (data : PolicyData)
| R_post_organization_collections (org : OrganizationId) (data : FullCollectionData)
| R_post_bulk_access_collections (org : OrganizationId) (data : BulkCollectionAccessData)
| R_post_organization_collection_update (org : OrganizationId) (col : CollectionId)
    (data : FullCollectionData)
| R_delete_organization_collection (org : OrganizationId) (col : CollectionId)
| R_bulk_delete_organization_collections (org : OrganizationId) (ids : list CollectionId)
| R_post_groups (org : OrganizationId) (data : GroupRequest)
| R_put_group (org : OrganizationId) (group : GroupId) (data : GroupRequest)
| R_delete_group (org : OrganizationId) (group : GroupId)
| R_bulk_delete_groups (org : OrganizationId) (ids : list GroupId)
| R_put_group_members (org : OrganizationId) (group : GroupId) (members : list MembershipId)
| R_post_delete_group_member (org : OrganizationId) (group : GroupId) (member : MembershipId)
| R_post_org_import (org : OrganizationId) (data : OrgImportData)
| R_post_bulk_collections (data : BulkCollectionsData)
| R_post_org_keys (org : OrganizationId) (data : OrgKeyData)
| R_put_reset_password (org : OrganizationId) (member : MembershipId)
    (data : OrganizationUserResetPasswordRequest)
| R_put_reset_password_enrollment (org : OrganizationId) (user : UserId)
    (data : ResetPasswordEnrollmentRequest)
| R_org_api_key (org : OrganizationId) (data : PasswordOrOtpData) (rotate : bool)
(* src/src/api/core/two_factor *)
| R_disable_twofactor (data : PasswordOrOtpData) (type_ : NumberOrString)
| R_request_otp
| R_verify_otp (otp : string)
(* src/src/api/core/emergency_access.rs *)
| R_post_emergency_access (emer : string) (data : EmergencyAccessUpdateData)
| R_delete_emergency_access (emer : string)
| R_ea_send_invite (data : EmergencyAccessInviteData)
| R_resend_invite (emer : string)
| R_ea_accept_invite (emer token : string)
| R_confirm_emergency_access (emer key : string)
| R_initiate_emergency_access (emer : string)
| R_approve_emergency_access (emer : string)
| R_reject_emergency_access (emer : string)
| R_view_emergency_access (emer : string)
| R_takeover_emergency_access (emer : string)
| R_password_emergency_access (emer hash key : string)
| R_policies_emergency_access (emer : string)
(* src/src/api/core/sends.rs *)
| R_post_send (data : SendData)
| R_post_send_file (display_size : Z → string) (data : SendData) (size : Z)
| R_post_send_file_v2 (display_size : Z → string) (data : SendData)
| R_post_send_file_v2_data (send file : string) (raw_name : option string) (size : Z)
| R_post_access (access_id : string) (password : option string)
| R_post_access_file (send file : string) (password : option string)
| R_put_send (send : string) (data : SendData)
| R_delete_send (send : string)
| R_put_remove_password (send : string)
(* src/src/api/identity.rs and src/src/api/core/accounts.rs *)
| R_login (data : ConnectData) (client : ClientHeaders) (version : option string)
| R_register (data : RegisterData) (email_verification : bool)
| R_register_verification_email (email : string) (name : option string)
| R_post_set_password (data : SetPasswordData)
| R_post_profile (name : string)
| R_put_avatar (color : option string)
| R_get_public_keys (user : UserId)
| R_post_keys (data : KeysData)
| R_post_password (data : ChangePassData)
| R_post_kdf (data : ChangeKdfData)
| R_post_rotatekey (data : KeyData)
| R_post_sstamp (data : PasswordOrOtpData)
| R_post_email_token (data : EmailChangeData)
| R_post_email (data : ChangeEmailData)
| R_post_verify_email
| R_post_verify_email_token (user : UserId) (token : string)
| R_post_delete_recover (email : string)
| R_post_delete_recover_token (user : UserId) (token : string)
| R_delete_account (data : PasswordOrOtpData)
| R_password_hint (email : string)
| R_verify_password (hash : string)
| R_update_api_key (data : PasswordOrOtpData) (rotate : bool)
| R_put_device_token (device : DeviceId) (token : string)
| R_put_clear_device_token (device : DeviceId)
| R_post_auth_request (data : AuthRequestRequest) (client : ClientHeaders)
| R_put_auth_request (id : string) (data : AuthResponseRequest)
(* src/src/api/core/two_factor *)
| R_get_recover (data : PasswordOrOtpData)
| R_generate_authenticator (data : PasswordOrOtpData)
| R_activate_authenticator (data : EnableAuthenticatorData)
| R_disable_authenticator (data : DisableAuthenticatorData)
| R_send_email_login (data : SendEmailLoginData) (client : ClientHeaders)
| R_send_email (data : SendEmailData)
| R_email_activate (data : EmailData)
(* src/src/api/core/ciphers.rs and src/src/api/core/folders.rs *)
| R_post_ciphers (data : CipherData)
| R_post_ciphers_create (data : ShareCipherData)
| R_post_ciphers_import (data : ImportData)
| R_put_cipher (cipher : CipherId) (data : CipherData)
| R_put_cipher_partial (cipher : CipherId) (data : PartialCipherData)
| R_post_cipher_share (cipher : CipherId) (data : ShareCipherData)
| R_put_cipher_share_selected (ciphers : list CipherData) (cols : list CollectionId)
| R_post_collections_update (cipher : CipherId) (cols : list CollectionId)
| R_post_collections_admin (cipher : CipherId) (cols : list CollectionId)
| R_delete_cipher (cipher : CipherId) (options : CipherDeleteOptions)
| R_delete_multiple_ciphers (ids : list CipherId) (options : CipherDeleteOptions)
| R_restore_cipher (cipher : CipherId)
| R_restore_multiple_ciphers (ids : list CipherId)
| R_move_cipher_selected (folder : option FolderId) (ids : list CipherId)
| R_purge_org_vault (org : OrganizationId) (data : PasswordOrOtpData)
| R_purge_personal_vault (data : PasswordOrOtpData)
| R_archive_cipher (cipher : CipherId)
| R_archive_multiple_ciphers (ids : list CipherId)
| R_unarchive_cipher (cipher : CipherId)
| R_unarchive_multiple_ciphers (ids : list CipherId)
| R_post_attachment_v2 (cipher : CipherId) (data : AttachmentRequestData)
| R_post_attachment_v2_data (cipher : CipherId) (attachment : string) (data : UploadData)
| R_post_attachment (cipher : CipherId) (data : UploadData)
| R_post_attachment_share (cipher : CipherId) (attachment : string) (data : UploadData)
| R_delete_attachment (cipher : CipherId) (attachment : string)
| R_post_folders (data : FolderData)
| R_put_folder (folder : FolderId) (data : FolderData)
| R_delete_folder (folder : FolderId)
(* the scheduled jobs of src/src/main.rs *)
| J_purge_trash
| J_event_cleanup
| J_incomplete_2fa_notifications
| J_purge_auth_requests
| J_emergency_request_timeout
| J_emergency_notification_reminder
| J_send_purge.

(** The handler's answer is not part of the state. *)
Definition run {A} (m : Handler A) : Handler () := _ ← m; mret ().

(** A route below [/organizations/<org_id>]: the guard reads the first path
    parameter. *)
Definition at_org (org : OrganizationId) (rq : Request) : Request :=
  mkRequest (rq_authorization rq) (rq_route rq) (rq_host rq) (rq_ip rq) (Some org)
    (rq_query_org rq) (rq_param_col rq) (rq_query_col rq).

Definition as_user (rq : Request) {A} (f : Headers → Handler A) : Handler () :=
  h ← Headers_from_request rq; run (f h).
Definition as_admin (org : OrganizationId) (rq : Request) {A} (f : AdminHeaders → Handler A)
    : Handler () :=
  h ← AdminHeaders_from_request (at_org org rq); run (f h).
Definition as_owner (org : OrganizationId) (rq : Request) {A} (f : OwnerHeaders → Handler A)
    : Handler () :=
  h ← OwnerHeaders_from_request (at_org org rq); run (f h).
Definition as_org_member (org : OrganizationId) (rq : Request) {A}
    (f : OrgMemberHeaders → Handler A) : Handler () :=
  h ← OrgMemberHeaders_from_request (at_org org rq); run (f h).

Definition as_manager (org : OrganizationId) (rq : Request) {A}
    (f : ManagerHeadersLoose → Handler A) : Handler () :=
  h ← ManagerHeadersLoose_from_request (at_org org rq); run (f h).

(** [/organizations/<org_id>/collections/<col_id>]: the guard reads both. *)
Definition at_collection (org : OrganizationId) (col : CollectionId) (rq : Request) : Request :=
  mkRequest (rq_authorization rq) (rq_route rq) (rq_host rq) (rq_ip rq) (Some org)
    (rq_query_org rq) (Some col) (rq_query_col rq).
Definition as_collection_manager (org : OrganizationId) (col : CollectionId) (rq : Request) {A}
    (f : ManagerHeaders → Handler A) : Handler () :=
  h ← ManagerHeaders_from_request (at_collection org col rq); run (f h).

(** [/ciphers/purge?organizationId=<org>]: the guard reads the query. *)
Definition at_query (org : OrganizationId) (rq : Request) : Request :=
  mkRequest (rq_authorization rq) (rq_route rq) (rq_host rq) (rq_ip rq) None
    (Some org) (rq_param_col rq) (rq_query_col rq).

Definition serve (pv : Providers) (rq : Request) (r : Route) : Handler () :=
  match r with
  | R_login data client version => run (login pv no_sso data client version)
  | R_register data verification => run (register data verification)
  | R_register_verification_email email name => run (register_verification_email email name)
  | R_post_set_password data => as_user rq (post_set_password data)
  | R_post_profile name => as_user rq (post_profile name)
  | R_put_avatar color => as_user rq (put_avatar color)
  | R_get_public_keys user => as_user rq (get_public_keys user)
  | R_post_keys data => as_user rq (post_keys data)
  | R_post_password data => as_user rq (post_password data)
  | R_post_kdf data => as_user rq (post_kdf data)
  | R_post_rotatekey data => as_user rq (post_rotatekey data)
  | R_post_sstamp data => as_user rq (post_sstamp data)
  | R_post_email_token data => as_user rq (post_email_token data)
  | R_post_email data => as_user rq (post_email data)
  | R_post_verify_email => as_user rq post_verify_email
  | R_post_verify_email_token user token => run (post_verify_email_token user token)
  | R_post_delete_recover email => run (post_delete_recover email)
  | R_post_delete_recover_token user token => run (post_delete_recover_token user token)
  | R_delete_account data => as_user rq (delete_account data)
  | R_password_hint email => run (password_hint email)
  | R_verify_password hash => as_user rq (verify_password hash)
  | R_update_api_key data rotate => as_user rq (update_api_key data rotate)
  | R_put_device_token device token => as_user rq (put_device_token device token)
  | R_put_clear_device_token device => run (put_clear_device_token device)
  | R_post_auth_request data client => run (post_auth_request data client)
  | R_put_auth_request id data => as_user rq (put_auth_request id data)
  | R_get_recover data => as_user rq (get_recover data)
  | R_generate_authenticator data => as_user rq (generate_authenticator data)
  | R_activate_authenticator data => as_user rq (activate_authenticator data)
  | R_disable_authenticator data => as_user rq (disable_authenticator data)
  | R_send_email_login data client => run (send_email_login data client)
  | R_send_email data => as_user rq (send_email data)
  | R_email_activate data => as_user rq (email_activate data)
  | R_post_ciphers data => as_user rq (post_ciphers data)
  | R_post_ciphers_create data => as_user rq (post_ciphers_create data)
  | R_post_ciphers_import data => as_user rq (post_ciphers_import data)
  | R_put_cipher c data => as_user rq (put_cipher c data)
  | R_put_cipher_partial c data => as_user rq (put_cipher_partial c data)
  | R_post_cipher_share c data => as_user rq (post_cipher_share c data)
  | R_put_cipher_share_selected l cols => as_user rq (put_cipher_share_selected l cols)
  | R_post_collections_update c cols => as_user rq (post_collections_update c cols)
  | R_post_collections_admin c cols => as_user rq (post_collections_admin c cols)
  | R_delete_cipher c options => as_user rq (λ h, delete_cipher_by_uuid c h options)
  | R_delete_multiple_ciphers ids options => as_user rq (delete_multiple_ciphers ids options)
  | R_restore_cipher c => as_user rq (λ h, restore_cipher_by_uuid c h false)
  | R_restore_multiple_ciphers ids => as_user rq (restore_multiple_ciphers ids)
  | R_move_cipher_selected folder ids => as_user rq (move_cipher_selected folder ids)
  | R_purge_org_vault org data =>
    h ← OwnerHeaders_from_request (at_query org rq); run (purge_org_vault org data h)
  | R_purge_personal_vault data => as_user rq (purge_personal_vault data)
  | R_archive_cipher c => as_user rq (λ h, archive_cipher c h false)
  | R_archive_multiple_ciphers ids => as_user rq (archive_multiple_ciphers ids)
  | R_unarchive_cipher c => as_user rq (λ h, unarchive_cipher c h false)
  | R_unarchive_multiple_ciphers ids => as_user rq (unarchive_multiple_ciphers ids)
  | R_post_attachment_v2 c data => as_user rq (post_attachment_v2 c data)
  | R_post_attachment_v2_data c a data => as_user rq (post_attachment_v2_data c a data)
  | R_post_attachment c data => as_user rq (post_attachment c data)
  | R_post_attachment_share c a data => as_user rq (post_attachment_share c a data)
  | R_delete_attachment c a => as_user rq (delete_cipher_attachment_by_id c a)
  | R_post_folders data => as_user rq (post_folders data)
  | R_put_folder f data => as_user rq (put_folder f data)
  | R_delete_folder f => as_user rq (delete_folder f)
  | J_purge_trash => Cipher_purge_trash
  | J_event_cleanup => Event_clean_events
  | J_incomplete_2fa_notifications => send_incomplete_2fa_notifications
  | J_purge_auth_requests => AuthRequest_purge_expired_auth_requests
  | R_create_organization data => as_user rq (λ h, create_organization h data)
  | R_delete_organization org data => as_owner org rq (delete_organization org data)
  | R_leave_organization org => as_org_member org rq (leave_organization org)
  | R_post_organization org name mail => as_owner org rq (λ h, post_organization org h name mail)
  | R_send_invite org data => as_admin org rq (org_send_invite org data)
  | R_reinvite_member org m => as_admin org rq (reinvite_member org m)
  | R_bulk_reinvite_members org ids => as_admin org rq (bulk_reinvite_members org ids)
  | R_accept_invite org m token key => as_user rq (accept_invite org m token key)
  | R_confirm_invite org m key => as_admin org rq (confirm_invite org m key)
  | R_bulk_confirm_invite org keys => as_admin org rq (bulk_confirm_invite org keys)
  | R_edit_member org m data => as_admin org rq (edit_member org m data)
  | R_delete_member org m => as_admin org rq (delete_member org m)
  | R_bulk_delete_member org ids => as_admin org rq (bulk_delete_member org ids)
  | R_revoke_member org m => as_admin org rq (revoke_member org m)
  | R_bulk_revoke_members org ids => as_admin org rq (bulk_revoke_members org ids)
  | R_restore_member org m => as_admin org rq (restore_member org m)
  | R_bulk_restore_members org ids => as_admin org rq (bulk_restore_members org ids)
  | R_put_policy org t data => as_admin org rq (put_policy org t data)
  | R_post_organization_collections org data => as_manager org rq (post_organization_collections org data)
  | R_post_bulk_access_collections org data => as_manager org rq (post_bulk_access_collections org data)
  | R_post_organization_collection_update org c data =>
    as_collection_manager org c rq (post_organization_collection_update org c data)
  | R_delete_organization_collection org c =>
    as_collection_manager org c rq (delete_organization_collection_impl org c)
  | R_bulk_delete_organization_collections org ids =>
    as_manager org rq (bulk_delete_organization_collections org ids)
  | R_post_groups org data => as_admin org rq (post_groups org data)
  | R_put_group org g data => as_admin org rq (put_group org g data)
  | R_delete_group org g => as_admin org rq (delete_group_impl org g)
  | R_bulk_delete_groups org ids => as_admin org rq (bulk_delete_groups org ids)
  | R_put_group_members org g ms => as_admin org rq (put_group_members org g ms)
  | R_post_delete_group_member org g m => as_admin org rq (post_delete_group_member org g m)
  | R_post_org_import org data =>
    h ← OrgMemberHeaders_from_request (at_query org rq); run (post_org_import org data h)
  | R_post_bulk_collections data => as_user rq (post_bulk_collections data)
  | R_post_org_keys org data => as_admin org rq (post_org_keys org data)
  | R_put_reset_password org m data => as_admin org rq (put_reset_password org m data)
  | R_put_reset_password_enrollment org u data =>
    as_org_member org rq (put_reset_password_enrollment org u data)
  | R_org_api_key org data rotate => as_admin org rq (org_api_key org data rotate)
  | R_disable_twofactor data t => as_user rq (disable_twofactor data t)
  | R_request_otp => as_user rq request_otp
  | R_verify_otp otp => as_user rq (verify_otp otp)
  | R_post_emergency_access emer data => as_user rq (post_emergency_access emer data)
  | R_delete_emergency_access emer => as_user rq (delete_emergency_access emer)
  | R_ea_send_invite data => as_user rq (ea_send_invite data)
  | R_resend_invite emer => as_user rq (resend_invite emer)
  | R_ea_accept_invite emer token => as_user rq (ea_accept_invite emer token)
  | R_confirm_emergency_access emer key => as_user rq (confirm_emergency_access emer key)
  | R_initiate_emergency_access emer => as_user rq (initiate_emergency_access emer)
  | R_approve_emergency_access emer => as_user rq (approve_emergency_access emer)
  | R_reject_emergency_access emer => as_user rq (reject_emergency_access emer)
  | R_view_emergency_access emer => as_user rq (view_emergency_access emer)
  | R_takeover_emergency_access emer => as_user rq (takeover_emergency_access emer)
  | R_password_emergency_access emer hash key =>
    as_user rq (password_emergency_access emer hash key)
  | R_policies_emergency_access emer => as_user rq (policies_emergency_access emer)
  | R_post_send data => as_user rq (post_send data)
  | R_post_send_file ds data size => as_user rq (post_send_file ds data size)
  | R_post_send_file_v2 ds data => as_user rq (post_send_file_v2 ds data)
  | R_post_send_file_v2_data s f name size => as_user rq (post_send_file_v2_data s f name size)
  | R_post_access id pw => run (post_access id pw)
  | R_post_access_file s f pw => run (post_access_file s f pw)
  | R_put_send s data => as_user rq (put_send s data)
  | R_delete_send s => as_user rq (delete_send s)
  | R_put_remove_password s => as_user rq (put_remove_password s)
  | J_emergency_request_timeout => emergency_request_timeout_job
  | J_emergency_notification_reminder => emergency_notification_reminder_job
  | J_send_purge => Send_purge
  end.

(** ** Reachable states *)
Section reachable.
Context (pv : Providers) (uuid : nat → string).

Inductive step (w : World) : World → Prop :=
| step_serve e rq r : e_uuid e = uuid → step w (serve pv rq r e w).2.

Inductive reachable (w0 : World) : World → Prop :=
| reachable_init : reachable w0 w0
| reachable_step w w' : reachable w0 w → step w w' → reachable w0 w'.
End reachable.

(** Accounts may be there, an organization is not; the ids of the accounts are
    not drawn again. *)
Definition no_orgs_yet (uuid : nat → string) (w : World) : Prop :=
  organizations (w_db w) = [] ∧ users_organizations (w_db w) = [] ∧
  ∀ u, u ∈ users (w_db w) → unused uuid w (u_uuid u).

(** ** Every step keeps the invariant *)
Section steps.
Context (uuid : nat → string) (uuid_inj : ∀ i j, uuid i = uuid j → i = j).
Implicit Types (rq : Request) (e : Env) (w : World).

Lemma keeps_run {A} (m : Handler A) e w : keeps_inv uuid m e w → keeps_inv uuid (run m) e w.
Proof. intros H. unfold run. ws. eapply wp_mono; [exact H|]. by intros [] ? ?. Qed.

Lemma keeps_of_frame {A} (m : Handler A) e w :
  org_inv uuid w → m_rel org_frame m → keeps_inv uuid m e w.
Proof. intros HI Hm. eapply wp_rel; [exact Hm|]. intros. by eapply inv_frame. Qed.

Lemma keeps_as_user rq {A} (f : Headers → Handler A) e w :
  org_inv uuid w → (∀ h, h_user h ∈ users (w_db w) → keeps_inv uuid (f h) e w) →
  keeps_inv uuid (as_user rq f) e w.
Proof.
  intros HI Hf. unfold as_user. ws. apply wp_Headers; [intros; by eapply inv_frame|].
  intros h (a & cl & _ & _ & Hu & _). by apply keeps_run, Hf.
Qed.

Lemma keeps_as_user_frame rq {A} (f : Headers → Handler A) e w :
  org_inv uuid w → (∀ h, m_rel org_frame (f h)) → keeps_inv uuid (as_user rq f) e w.
Proof. intros HI Hf. apply keeps_as_user; [done|]. intros. by apply keeps_of_frame. Qed.

Lemma keeps_of_user_frame {A} (m : Handler A) u e w :
  org_inv uuid w → u ∈ users (w_db w) → m_rel (user_frame (u_uuid u)) m → keeps_inv uuid m e w.
Proof.
  intros HI Hu Hm. eapply wp_rel; [exact Hm|]. intros. eapply inv_user_frame; [done| |done].
  by apply (inv_user_ids _ _ HI).
Qed.

Lemma keeps_post_set_password d h e w :
  e_uuid e = uuid → org_inv uuid w → h_user h ∈ users (w_db w) →
  keeps_inv uuid (post_set_password d h) e w.
Proof. intros. by eapply keeps_for_user, preserves_post_set_password. Qed.

Lemma keeps_disable_authenticator d h e w :
  e_uuid e = uuid → org_inv uuid w → h_user h ∈ users (w_db w) →
  keeps_inv uuid (disable_authenticator d h) e w.
Proof. intros. by eapply keeps_for_user, preserves_disable_authenticator. Qed.

Lemma keeps_login_no_sso pv data client v e w :
  e_uuid e = uuid → org_inv uuid w → keeps_inv uuid (login pv no_sso data client v) e w.
Proof. intros. by apply keeps_login. Qed.

Lemma keeps_purge_org_vault org rq data e w :
  org_inv uuid w →
  keeps_inv uuid (h ← OwnerHeaders_from_request (at_query org rq); run (purge_org_vault org data h)) e w.
Proof.
  intros HI. ws. apply wp_OwnerHeaders; [intros; by eapply inv_frame|].
  intros h m _ _. apply keeps_of_frame; [done|mrel].
Qed.

Lemma keeps_as_admin org rq {A} (f : AdminHeaders → Handler A) e w :
  org_inv uuid w → (∀ h, unused uuid w org → keeps_inv uuid (f h) e w) →
  keeps_inv uuid (as_admin org rq f) e w.
Proof.
  intros HI Hf. unfold as_admin. ws. apply wp_AdminHeaders; [intros; by eapply inv_frame|].
  intros h m (_ & [= ->] & Hm & _) _ _. apply keeps_run, Hf. by apply (inv_member_ids _ _ HI).
Qed.

Lemma keeps_as_owner org rq {A} (f : OwnerHeaders → Handler A) e w :
  org_inv uuid w → (∀ h, keeps_inv uuid (f h) e w) → keeps_inv uuid (as_owner org rq f) e w.
Proof.
  intros HI Hf. unfold as_owner. ws. apply wp_OwnerHeaders; [intros; by eapply inv_frame|].
  intros h m _ _. apply keeps_run, Hf.
Qed.

Lemma keeps_as_org_member org rq {A} (f : OrgMemberHeaders → Handler A) e w :
  org_inv uuid w →
  (∀ h, om_membership h ∈ ms w → m_org_uuid (om_membership h) = org → keeps_inv uuid (f h) e w) →
  keeps_inv uuid (as_org_member org rq f) e w.
Proof.
  intros HI Hf. unfold as_org_member. ws. apply wp_OrgMemberHeaders; [intros; by eapply inv_frame|].
  intros h t s (_ & [= Eorg] & Hm & _). by apply keeps_run, Hf.
Qed.

Lemma keeps_as_manager org rq {A} (f : ManagerHeadersLoose → Handler A) e w :
  org_inv uuid w → (∀ h, keeps_inv uuid (f h) e w) → keeps_inv uuid (as_manager org rq f) e w.
Proof.
  intros HI Hf. unfold as_manager. ws. apply wp_ManagerHeadersLoose; [intros; by eapply inv_frame|].
  intros h t _ _. apply keeps_run, Hf.
Qed.

Lemma keeps_as_collection_manager org col rq {A} (f : ManagerHeaders → Handler A) e w :
  org_inv uuid w → (∀ h, keeps_inv uuid (f h) e w) →
  keeps_inv uuid (as_collection_manager org col rq f) e w.
Proof.
  intros HI Hf. unfold as_collection_manager. ws.
  apply wp_ManagerHeaders; [intros; by eapply inv_frame|].
  intros h m t c _ _ _ _ _. apply keeps_run, Hf.
Qed.

Lemma keeps_post_org_import org rq data e w :
  org_inv uuid w →
  keeps_inv uuid (h ← OrgMemberHeaders_from_request (at_query org rq); run (post_org_import org data h)) e w.
Proof.
  intros HI. ws. apply wp_OrgMemberHeaders; [intros; by eapply inv_frame|].
  intros h t s _. apply keeps_of_frame; [done|mrel].
Qed.

(** The bulk handlers check the organization, then run the single operation. *)
Lemma keeps_bulk_checked {A} (ids : list A) key (op : A → Handler ()) c msg e w :
  org_inv uuid w → (∀ x w, org_inv uuid w → keeps_inv uuid (op x) e w) →
  keeps_inv uuid (_ ← err_if c msg; bulk ids key op) e w.
Proof. intros HI Hop. ws. ws; [done|]. by apply keeps_bulk. Qed.

Lemma keeps_reinvite_member org m h e w :
  org_inv uuid w → keeps_inv uuid (reinvite_member org m h) e w.
Proof. intros HI. unfold reinvite_member. ws. ws; [done|]. by apply keeps_reinvite_member_impl. Qed.

End steps.

Create HintDb keeps discriminated.
#[export] Hint Constants Opaque : keeps.
#[export] Hint Resolve keeps_create_organization keeps_delete_organization
  keeps_leave_organization keeps_post_organization keeps_org_send_invite
  keeps_reinvite_member_impl keeps_reinvite_member keeps_accept_invite keeps_confirm_invite_impl
  keeps_bulk_confirm_invite keeps_edit_member keeps_delete_member_impl
  keeps_revoke_member_impl keeps_restore_member_impl keeps_put_policy
  keeps_disable_twofactor keeps_ea_send_invite keeps_password_emergency_access
  keeps_bulk_checked keeps_register keeps_login_no_sso keeps_post_verify_email_token
  keeps_post_delete_recover_token keeps_delete_account keeps_post_rotatekey
  keeps_post_set_password keeps_disable_authenticator keeps_purge_org_vault
  keeps_post_org_import keeps_post_org_keys keeps_put_reset_password keeps_put_reset_password_enrollment : keeps.
#[export] Hint Resolve user_frame_activate_authenticator user_frame_email_activate : mrel.

Section serve.
Context (pv : Providers) (uuid : nat → string) (uuid_inj : ∀ i j, uuid i = uuid j → i = j).

(** The handlers that touch memberships or organizations keep the invariant by
    their lemmas; the others touch neither. *)
Lemma keeps_serve rq r e w :
  e_uuid e = uuid → org_inv uuid w → keeps_inv uuid (serve pv rq r) e w.
Proof.
  intros He HI. destruct r; unfold serve, confirm_invite, delete_member, revoke_member,
    restore_member, bulk_reinvite_members, bulk_delete_member, bulk_revoke_members,
    bulk_restore_members;
    first [ apply keeps_as_admin; [done|intros h Hu]
          | apply keeps_as_owner; [done|intros h]
          | apply keeps_as_org_member; [done|intros h Hm Ho]
          | apply keeps_as_manager; [done|intros h]
          | apply keeps_as_collection_manager; [done|intros h]
          | apply keeps_as_user; [done|intros h Hu]
          | apply keeps_run; solve [eauto with keeps]
          | solve [eauto with keeps]
          | apply keeps_of_frame; [done|mrel] ];
    first [ solve [eauto with keeps]
          | apply keeps_of_user_frame with (u := h_user h); [done|done|solve [eauto with mrel]]
          | apply keeps_of_frame; [done|mrel] ].
Qed.

Lemma reachable_inv w0 w : org_inv uuid w0 → reachable pv uuid w0 w → org_inv uuid w.
Proof.
  intros H0. induction 1 as [|w w' _ IH [e rq r He]]; [done|]. by apply keeps_serve.
Qed.

Lemma no_orgs_yet_inv w : no_orgs_yet uuid w → org_inv uuid w.
Proof.
  intros (Ho & Hm & Hu). split; rewrite ?Ho, ?Hm; simpl; try (apply NoDup_nil_2); set_solver.
Qed.
End serve.

(** ** The theorems *)


Definition create_request : Route :=
  R_create_organization (mkOrgData "billing@x" "Default" "key" "Org" None).

Lemma accounts_world_start : no_orgs_yet tally accounts_world.
Proof.
  split_and!; [done|done|]. intros u Hu n _ E. apply (f_equal (String.substring 0 1)) in E.
  simpl in Hu. destruct n; set_solver.
Qed.



