(* ===== verification/SendTrace.v ===== *)
(** The sends of a running server: a request changes the sends of its caller
    only, and a send is disclosed at most as often as its limit allows, whatever
    requests and jobs the server runs. *)
From S2P Require Import Prelude Table Schema Roles Users Memberships Groups Collections Events.
From S2P Require Import Policies Vault Ciphers Util Settings Devices Auth Demo Sends Emergency.
From S2P Require Import AuthRequests Accounts Orgs TwoFactors Login AccountOps CipherOps.
From S2P Require Import KeyRotation OrgCollections OrgInv Guards OrgSafety AccountSafety SendSpec Server.

(** The requests with which an account manages its sends. *)
Definition manages_sends (r : Route) : bool :=
  match r with
  | R_post_send _ | R_post_send_file _ _ _ | R_post_send_file_v2 _ _
  | R_post_send_file_v2_data _ _ _ _ | R_put_send _ _ | R_delete_send _
  | R_put_remove_password _ | R_post_rotatekey _ => true
  | _ => false
  end.

(** The sends a request may give other limits. *)
Definition edits (r : Route) : list string :=
  match r with
  | R_put_send id _ => [id]
  | R_post_rotatekey data => provided_send_ids data
  | _ => []
  end.

(** What a request does to the sends of the user [u], one send after the other. *)
Definition send_effects (e : Env) (u : UserId) (edited : list string) : World → World → Prop :=
  rtc (send_effect e u edited).

Lemma sends_kept_Headers rq : m_rel sends_kept (Headers_from_request rq).
Proof. mrel. Qed.
#[export] Hint Resolve sends_kept_Headers : mrel.

Lemma effects_kept e u edited w w' : sends_kept e w w' → send_effects e u edited w w'.
Proof. intros []. by apply rtc_once, effect_none. Qed.

Lemma effects_then e u edited w1 w2 w3 :
  send_effects e u edited w1 w2 → sends_kept e w2 w3 → send_effects e u edited w1 w3.
Proof. intros H F. etransitivity; [exact H|]. by apply effects_kept. Qed.

Lemma wp_one_effect {A} (m : Handler A) e u edited w :
  wp m e w (λ _ w', send_effect e u edited w w') → wp m e w (λ _ w', send_effects e u edited w w').
Proof. intros H. eapply wp_mono; [exact H|]. intros r w1 He. by apply rtc_once. Qed.

(** *** The rotation of the account keys re-encrypts the caller's sends *)

Lemma elem_of_filter_map {A B} (f : A → option B) l a b : a ∈ l → f a = Some b → b ∈ filter_map f l.
Proof.
  intros Ha Eb. unfold filter_map. apply list_elem_of_In, in_flat_map. exists a.
  rewrite Eb. split; [by apply list_elem_of_In|by left].
Qed.

Lemma sends_kept_rotate_ciphers h ex l : m_rel sends_kept (rotate_ciphers h ex l).
Proof. mrel. Qed.
#[export] Hint Resolve sends_kept_rotate_ciphers : mrel.

(** The rows of the user the handler holds are rows of the database. *)
Definition held (u : UserId) (ex : list Send) (w : World) : Prop :=
  ∀ x, x ∈ ex → ∃ s, s ∈ sends (w_db w) ∧ s_uuid s = s_uuid x ∧ s_user_uuid s = Some u.

Lemma effects_rotate_sends h ex l e w :
  held (u_uuid (h_user h)) ex w →
  wp (rotate_sends h ex l) e w
    (λ _ w', send_effects e (u_uuid (h_user h)) (filter_map sd_id l) w w').
Proof.
  intros Hex. set (u := u_uuid (h_user h)) in *. unfold rotate_sends.
  set (I := λ ex w', held u ex w' ∧ send_effects e u (filter_map sd_id l) w w').
  eapply wp_mono; [apply (wp_fold I (send_effects e u (filter_map sd_id l) w))|].
  - by split.
  - by intros ? ? [].
  - intros ex1 d w1 Hd [Hex1 Hw]. ws. unfold id_of.
    destruct ex1 as [|x0 ex1]; [by repeat ws|]. destruct (sd_id d) as [id|] eqn:Eid; [|by ws]. ws.
    apply wp_update_found; [done|]. intros s Hs Es%eqb_str_true.
    eapply wp_mono; [apply wp_update_send_from_data|]. fold u.
    intros r w2 [[F Hr]|(s' & Es' & _ & Eu' & E & D & Hr)].
    { destruct r; [done|]. by apply (effects_then e u _ w w1). }
    destruct (Hex1 s Hs) as (s0 & Hs0 & Eid0 & Eu0).
    assert (send_effects e u (filter_map sd_id l) w w2) as Hw2.
    { etransitivity; [exact Hw|]. apply rtc_once, (effect_rewrite _ _ _ _ _ s0 s'); try done; [congruence|].
      left. rewrite Eid0, Es. by eapply elem_of_filter_map. }
    destruct r as [a|?]; [|done]. rewrite (Hr a eq_refl). intros l' Hl'. split; [|done].
    assert (∀ y, (∃ s, s ∈ sends (w_db w1) ∧ s_uuid s = y ∧ s_user_uuid s = Some u) →
                 ∃ s, s ∈ sends (w_db w2) ∧ s_uuid s = y ∧ s_user_uuid s = Some u) as Hup.
    { intros y (s1 & Hs1 & E1 & Eu1). rewrite E. destruct (decide (s_uuid s' = y)) as [<-|Hne].
      - exists s'. split_and!; [apply elem_of_upsert; by left|done|done].
      - exists s1. split_and!; [apply elem_of_upsert; right|done|done]. split; [done|].
        unfold pk, Send_pk. congruence. }
    intros x Hx. apply Hup. destruct (Hl' x Hx) as [->|Hx']; [exists s0; by rewrite Es'|by apply Hex1].
  - intros [ex2|?] w2 Hw; [by destruct Hw|done].
Qed.

Lemma effects_post_rotatekey data h e w :
  wp (post_rotatekey data h) e w
    (λ _ w', send_effects e (u_uuid (h_user h)) (provided_send_ids data) w w').
Proof.
  unfold post_rotatekey.
  ws. apply (wp_rel sends_kept); [mrel|]. intros [ok|x] w1 F1; [|by apply effects_kept].
  ws. ws; [by apply effects_kept|].
  ws. apply (wp_rel sends_kept); [mrel|].
  intros [?|?] w2 F2; [|apply effects_kept; by etransitivity].
  ws. ws. set (ex := find_existing _ _).
  assert (held (u_uuid (h_user h)) (ex_sends ex) w2) as Hex.
  { intros x [Ho%opt_is_true Hx]%elem_of_sel. by exists x. }
  clearbody ex.
  assert (sends_kept e w w2) as F by by etransitivity. clear F1 F2. revert F Hex.
  do 4 (let H := fresh "G" in intros F Hex; ws; apply (wp_rel sends_kept); [mrel|];
        intros [?|?] ? H; [|apply effects_kept; by etransitivity];
        lazymatch goal with
        | H : sends_kept e ?w1 ?w2, F : sends_kept e w ?w1, Hex : held ?u ?l ?w1 |- _ =>
          assert (sends_kept e w w2) as F' by (etransitivity; [exact F|exact H]);
          assert (held u l w2) as Hex' by (unfold held; rewrite (proj1 H); exact Hex);
          clear F H Hex; revert F' Hex'
        end).
  intros F Hex. ws. eapply wp_mono; [apply effects_rotate_sends; exact Hex|].
  intros r w4 Hw4.
  assert (send_effects e (u_uuid (h_user h)) (provided_send_ids data) w w4) as Hw.
  { etransitivity; [by apply effects_kept|exact Hw4]. }
  destruct r as [?|?]; [|done].
  apply (wp_rel sends_kept); [mrel|]. intros r w5 F5. by eapply effects_then.
Qed.

Lemma effect_as_user rq {A} (f : Headers → Handler A) edited e w :
  (∀ h, wp (f h) e w (λ _ w', send_effects e (u_uuid (h_user h)) edited w w')) →
  wp (as_user rq f) e w (λ _ w', sends_kept e w w' ∨
     ∃ h, authenticated e w rq h ∧ send_effects e (u_uuid (h_user h)) edited w w').
Proof.
  intros Hf. unfold as_user. ws.
  eapply (wp_mono _ _ _ (λ r w', sends_kept e w w' ∧ ∀ h, r = Ok h → w' = w ∧ authenticated e w rq h)).
  - apply wp_and; [apply (wp_rel sends_kept); [mrel|done]|].
    apply wp_Headers; [done|]. by intros h Hh ? [= <-].
  - intros [h|x] w1 [F H]; [|by left]. destruct (H h eq_refl) as [-> Hh]. unfold run. ws.
    eapply wp_mono; [apply Hf|]. intros [a|x] w2 He; [ws|]; right; eauto.
Qed.

Lemma serve_send_effect pv rq r e w :
  manages_sends r = true →
  wp (serve pv rq r) e w (λ _ w', sends_kept e w w' ∨
     ∃ h, authenticated e w rq h ∧ send_effects e (u_uuid (h_user h)) (edits r) w w').
Proof.
  destruct r; intros [=]; apply effect_as_user; intros.
  - apply wp_one_effect, effect_post_send.
  - apply wp_one_effect, effect_post_send_file.
  - apply wp_one_effect, effect_post_send_file_v2.
  - apply wp_one_effect, effect_v2_data.
  - apply wp_one_effect, effect_put_send.
  - apply wp_one_effect, effect_delete_send.
  - apply wp_one_effect, effect_put_remove_password.
  - apply effects_post_rotatekey.
Qed.

(** The other requests and jobs save no send: they delete some, or none. *)
Definition sends_shrink (e : Env) (w w' : World) : Prop :=
  (∀ s, s ∈ sends (w_db w') → s ∈ sends (w_db w)) ∧ w_draws w ≤ w_draws w'.

#[export] Instance sends_shrink_preorder e : PreOrder (sends_shrink e).
Proof. split; [done|]. intros w1 w2 w3 [H1 H2] [H3 H4]. split; [auto|lia]. Qed.

Lemma sends_shrink_kept {A} (m : Handler A) : m_rel sends_kept m → m_rel sends_shrink m.
Proof. apply m_rel_weaken. intros e w w' [H ?]. split; [by rewrite H|done]. Qed.

Lemma sends_shrink_get_uuid : m_rel sends_shrink get_uuid.
Proof. apply sends_shrink_kept. eauto with mrel. Qed.
Lemma sends_shrink_get_random : m_rel sends_shrink get_random.
Proof. apply sends_shrink_kept. eauto with mrel. Qed.
Lemma sends_shrink_emit x : m_rel sends_shrink (emit x).
Proof. apply sends_shrink_kept. eauto with mrel. Qed.
Lemma sends_shrink_mail x : m_rel sends_shrink (send_mail x).
Proof. apply sends_shrink_kept. eauto with mrel. Qed.
Lemma sends_shrink_Headers rq : m_rel sends_shrink (Headers_from_request rq).
Proof. apply sends_shrink_kept. eauto with mrel. Qed.
#[export] Hint Resolve sends_shrink_get_uuid sends_shrink_get_random sends_shrink_emit
  sends_shrink_mail sends_shrink_Headers : mrel.
#[export] Hint Extern 2 (m_rel sends_shrink (modify_part _ _ _)) =>
  (apply m_rel_modify; intros; split; [|done]; first [done | intros ?; simpl; by intros []%elem_of_delete_where])
  : mrel.

(** The larger operations, once for all routes. *)
Lemma sends_kept_provider {A} (m : Handler A) : m_rel provider_frame m → m_rel sends_kept m.
Proof. apply m_rel_weaken. intros e w w' (E & _ & D & _). split; [by rewrite E|done]. Qed.

Lemma sends_kept_update_cipher c d h s u : m_rel sends_kept (update_cipher_from_data c d h s u).
Proof. mrel. Qed.
#[export] Hint Resolve sends_kept_update_cipher : mrel.
Lemma sends_kept_share_cipher i d h u : m_rel sends_kept (share_cipher_by_uuid i d h u).
Proof. mrel. Qed.
Lemma sends_kept_save_attachment a i d h : m_rel sends_kept (save_attachment a i d h).
Proof. mrel. Qed.
Lemma sends_kept_login pv data client v : m_rel sends_kept (login pv no_sso data client v).
Proof.
  pose proof (λ u, sends_kept_provider _ (generate_webauthn_frame pv u)).
  pose proof (λ u c, sends_kept_provider _ (validate_webauthn_frame pv u c)).
  pose proof (λ m d, sends_kept_provider _ (generate_duo_frame pv m d)).
  pose proof (λ m c d, sends_kept_provider _ (validate_duo_frame pv m c d)).
  mrel.
Qed.
#[export] Hint Resolve sends_kept_share_cipher sends_kept_save_attachment sends_kept_login : mrel.
#[export] Hint Resolve sends_shrink_kept | 5 : mrel.

Lemma serve_sends_shrink pv rq r :
  match r with R_post_access _ _ | R_post_access_file _ _ _ => False | _ => True end →
  manages_sends r = false → m_rel sends_shrink (serve pv rq r).
Proof. intros Hr [=]; destruct r; try done; unfold serve; mrel. Qed.

(** ** Whose sends *)

(** The ids of the sends were drawn before. *)
Definition sends_ok (uuid : nat → string) (w : World) : Prop :=
  pk_unique (sends (w_db w)) ∧ ∀ s, s ∈ sends (w_db w) → unused uuid w (s_uuid s).

(** A send of somebody else is not added. *)
Lemma others_not_added e u edited s w w' :
  s_user_uuid s ≠ Some u → send_effects e u edited w w' → s ∈ sends (w_db w') → s ∈ sends (w_db w).
Proof.
  intros Hs. induction 1 as [|w w1 w' H _ IH]; [done|]. intros Hin%IH. revert Hin.
  destruct H as [H _|n s' _ _ Eu' H|s0 s' _ _ _ Eu' _ H _|s0 _ _ H _]; rewrite H; [done|..].
  - intros [->|[]]%elem_of_upsert; [congruence|done].
  - intros [->|[]]%elem_of_upsert; [congruence|done].
  - by intros []%elem_of_delete_where.
Qed.

(** Nor removed, nor replaced. *)
Lemma others_not_removed e u edited s w w' :
  s_user_uuid s ≠ Some u → send_effects e u edited w w' →
  pk_unique (sends (w_db w)) ∧ s ∈ sends (w_db w) ∧ unused (e_uuid e) w (s_uuid s) →
  s ∈ sends (w_db w').
Proof.
  intros Hs. induction 1 as [|w w1 w' H _ IH]; [by intros (_&?&_)|].
  intros (Hpk & Hin & Hid). apply IH.
  destruct H as [H D|n s' Es' [Hn ?] Eu' H|s0 s' Hs0 Eu0 Eid Eu' _ H D|s0 Hs0 Eu0 H D];
    unfold unused in *; rewrite H; split_and!; try (intros; apply Hid; lia); try done.
  - by apply pk_unique_upsert.
  - apply elem_of_upsert. right. split; [done|]. unfold pk, Send_pk. rewrite Es'. intros E. by apply (Hid n Hn).
  - by apply pk_unique_upsert.
  - apply elem_of_upsert. right. split; [done|]. intros E. assert (s = s0) as ->; [|congruence].
    apply (pk_unique_inj (sends (w_db w))); [done|done|done|]. unfold pk, Send_pk in *. congruence.
  - by apply pk_unique_delete_where.
  - apply elem_of_delete_where. split; [done|].
    apply not_true_iff_false. rewrite eqb_str_true. intros E. assert (s = s0) as ->; [|congruence].
    by apply (pk_unique_inj (sends (w_db w))).
Qed.

(** C33: a request that manages sends touches the caller's sends only: a send of
    somebody else is there after it exactly when it was there before, with the
    same content, on the error paths too; and so for a caller whose token is
    refused. *)
Theorem sends_are_managed_by_their_owner pv uuid rq r e w s :
  e_uuid e = uuid → manages_sends r = true → sends_ok uuid w →
  (∀ h, authenticated e w rq h → s_user_uuid s ≠ Some (u_uuid (h_user h))) →
  s ∈ sends (w_db (serve pv rq r e w).2) ↔ s ∈ sends (w_db w).
Proof.
  intros <- Hr [Hpk Hids] Hs. pose proof (serve_send_effect pv rq r e w Hr) as H. unfold wp in H.
  destruct H as [[H _]|(h & Hh & H)]; [by rewrite H|]. split.
  - apply (others_not_added e (u_uuid (h_user h)) (edits r)); [by apply Hs|done].
  - intros Hin. apply (others_not_removed e (u_uuid (h_user h)) (edits r) s w); [by apply Hs|done|].
    split_and!; [done|done|by apply Hids].
Qed.

(** alice shares a text three times at most; bob has a send of his own. *)
Definition alice_send : Send :=
  mkSend "sa" (Some "alice") None "Note" None 0 "{}" "key" None None None (Some 3%Z) 1 0 0 None 90000
    false None.
Definition bob_send : Send :=
  mkSend "sb" (Some "bob") None "Note" None 0 "{}" "key" None None None None 0 0 0 None 90000 false
    None.
Definition send_world : World :=
  mkWorld ((w_db org_world) <| sends := [alice_send; bob_send] |>) 0 [].

Lemma send_world_ok : sends_ok tally send_world.
Proof.
  split; [apply (bool_decide_unpack (NoDup _)); by vm_compute|].
  intros s Hs n _ E. apply (f_equal (String.substring 0 1)) in E.
  simpl in Hs. destruct n; set_solver.
Qed.

(** bob deletes his send; alice's is still there. *)
Lemma sends_are_managed_by_their_owner_witness :
  let w' := (serve no_providers (demo_request "bob") (R_delete_send "sb") demo_env send_world).2 in
  sends (w_db w') = [alice_send] ∧ alice_send ∈ sends (w_db w').
Proof.
  split; [by vm_compute|].
  apply (sends_are_managed_by_their_owner no_providers tally); [done|done|apply send_world_ok| |vm_compute; set_solver].
  intros h (a & cl & [= <-] & [= <-] & _ & E & _) [= E']. by rewrite E in E'.
Defined.

(** ** How often *)

(** Whether this request gives a visitor the send's content: the text of a text
    send, or the link to a file. *)
Definition discloses (id : string) (e : Env) (r : Route) (w : World) : Z :=
  match r with
  | R_post_access aid password =>
    match (post_access aid password e w).1 with
    | Ok (s, _) => if (s_uuid s == id) && (s_atype s =? SendType_as_i32 SendText)%Z then 1 else 0
    | Err _ => 0
    end
  | R_post_access_file send file password =>
    if (send == id) && is_ok (post_access_file send file password e w).1 then 1 else 0
  | _ => 0
  end.

Fixpoint disclosures (pv : Providers) (id : string) (l : list (Env * Request * Route)) (w : World)
    : Z :=
  match l with
  | [] => 0
  | (e, rq, r) :: l => discloses id e r w + disclosures pv id l (serve pv rq r e w).2
  end.

(** At most [k] disclosures of the send are left. *)
Definition left_at_most (uuid : nat → string) (id : string) (k : Z) (w : World) : Prop :=
  unused uuid w id ∧
  ∀ s, s ∈ sends (w_db w) → s_uuid s = id →
    ∃ m, s_max_access_count s = Some m ∧ (0 ≤ s_access_count s)%Z ∧ (m ≤ i32_MAX)%Z ∧
         (m - s_access_count s ≤ k)%Z.

Section limit.
Context (pv : Providers) (uuid : nat → string) (id : string).

Lemma left_shrink e k w w' : sends_shrink e w w' → left_at_most uuid id k w → left_at_most uuid id k w'.
Proof. intros [H D] [Hu Hl]. split; [intros n Hn; apply Hu; lia|]. intros s Hs. by apply Hl, H. Qed.

Lemma left_kept e k w w' : sends_kept e w w' → left_at_most uuid id k w → left_at_most uuid id k w'.
Proof. intros [H D]. apply (left_shrink e). split; [by rewrite H|done]. Qed.

(** Managing sends, with this one's limits left alone, leaves as many. *)
Lemma left_effect e u edited k w w' :
  e_uuid e = uuid → id ∉ edited → send_effect e u edited w w' →
  left_at_most uuid id k w → left_at_most uuid id k w'.
Proof.
  intros He Hne Heff Hk. destruct Heff as [H D|n s' Es' [Hn ?] Eu' H|s0 s' Hs0 Eu0 Eid Eu' Hl H D|s0 Hs0 Eu0 H D].
  - by apply (left_kept e k w).
  - destruct Hk as [Hu Hk]. split; [intros ? ?; apply Hu; lia|].
    intros s Hs E. rewrite H in Hs. apply elem_of_upsert in Hs as [->|[Hs _]]; [|by apply Hk].
    destruct (Hu n Hn). congruence.
  - destruct Hk as [Hu Hk]. split; [intros ? ?; apply Hu; lia|].
    intros s Hs E. rewrite H in Hs. apply elem_of_upsert in Hs as [->|[Hs _]]; [|by apply Hk].
    destruct Hl as [Hl|[-> ->]]; [by rewrite <-Eid, E in Hl|]. apply Hk; [done|congruence].
  - apply (left_shrink e k w); [|done]. split; [|done]. intros s. rewrite H. by intros []%elem_of_delete_where.
Qed.

Lemma left_effects e u edited k w w' :
  e_uuid e = uuid → id ∉ edited → send_effects e u edited w w' →
  left_at_most uuid id k w → left_at_most uuid id k w'.
Proof. intros He Hne. induction 1; eauto using left_effect. Qed.

(** A visit leaves one less, if it counts. *)
Lemma left_visit e password k w w' s (counts : bool) :
  s ∈ sends (w_db w) → open_for e s password → w_draws w' = w_draws w →
  sends (w_db w') =
    upsert (accessed e s (if counts then bump s else s_access_count s)) (sends (w_db w)) →
  left_at_most uuid id k w →
  left_at_most uuid id (if (s_uuid s == id) && counts then k - 1 else k) w' ∧
  ((s_uuid s == id) = true → (1 ≤ k)%Z).
Proof.
  intros Hs (Hm & _) D H [Hu Hl]. unfold left_at_most, unused. rewrite D, H.
  destruct (s_uuid s == id) eqn:Eid; simpl; bprop.
  - destruct (Hl s Hs Eid) as (m & Em & H0 & Hmax & Hk). specialize (Hm m Em).
    assert (bump s = (s_access_count s + 1)%Z) as Eb by (apply i32_wrap_id; unfold i32_MIN; lia).
    split; [|lia]. split; [done|]. intros x [->|[Hx Hne]]%elem_of_upsert Ex.
    + exists m. simpl. rewrite Eb. destruct counts; split_and!; (done || lia).
    + destruct Hne. unfold pk, Send_pk, accessed. simpl. congruence.
  - split; [|by intros]. split; [done|]. intros x [->|[Hx Hne]]%elem_of_upsert Ex; [|by apply Hl].
    by destruct Eid.
Qed.

(** What an answered visit disclosed. *)
Definition shown (r : res (Send * option string)) : Z :=
  match r with
  | Ok (s, _) => if (s_uuid s == id) && (s_atype s =? SendType_as_i32 SendText)%Z then 1 else 0
  | Err _ => 0
  end.

Lemma left_post_access aid password e k w :
  (0 ≤ k)%Z → left_at_most uuid id k w →
  wp (post_access aid password) e w
    (λ r w', (0 ≤ k - shown r)%Z ∧ left_at_most uuid id (k - shown r) w').
Proof.
  intros H0 Hk. apply wp_post_access.
  - intros x _. simpl. by rewrite Z.sub_0_r.
  - intros s w' [Hs Ho] H D. destruct (e_access_id e aid) as [i|]; [|done].
    apply first_row_Some in Hs as [_ Hs]. unfold shown, opened in *. simpl.
    destruct (left_visit e password k w w' s _ Hs Ho D H Hk) as [Hl H1]. simpl in Hl.
    destruct (s_uuid s == id), (s_atype s =? 0)%Z; simpl in *;
      rewrite ?Z.sub_0_r; split; try done; specialize (H1 eq_refl); lia.
Qed.

Lemma left_post_access_file send file password e k w :
  (0 ≤ k)%Z → left_at_most uuid id k w →
  wp (post_access_file send file password) e w
    (λ r w', let d := if (send == id) && is_ok r then 1%Z else 0%Z in
             (0 ≤ k - d)%Z ∧ left_at_most uuid id (k - d) w').
Proof.
  intros H0 Hk. apply wp_post_access_file.
  - intros x _. simpl. by rewrite andb_false_r, Z.sub_0_r.
  - intros s w' [Hs Ho] H D. apply first_row_Some in Hs as [Es%eqb_str_true Hs].
    destruct (left_visit e password k w w' s true Hs Ho D H Hk) as [Hl H1]. rewrite Es in *. simpl.
    destruct (send == id); simpl in *; [split; [by specialize (H1 eq_refl); lia|done]|].
    by rewrite Z.sub_0_r.
Qed.

Lemma left_run {A} (m : Handler A) (P : res A → World → Prop) e w :
  wp m e w P → ∃ r, r = (m e w).1 ∧ P r (run m e w).2.
Proof.
  unfold wp, run, mbind, M_bind. destruct (m e w) as [[a|x] w']; simpl; eauto.
Qed.

Lemma left_step e rq r k w :
  e_uuid e = uuid → id ∉ edits r → (0 ≤ k)%Z → left_at_most uuid id k w →
  (0 ≤ k - discloses id e r w)%Z ∧
  left_at_most uuid id (k - discloses id e r w) (serve pv rq r e w).2.
Proof.
  intros He Hr H0 Hk. destruct (manages_sends r) eqn:Hman.
  { assert (discloses id e r w = 0%Z) as -> by by destruct r. rewrite Z.sub_0_r. split; [done|].
    pose proof (serve_send_effect pv rq r e w Hman) as [H|(h & _ & H)];
      [by apply (left_kept e k w) | by apply (left_effects e _ _ _ _ _ He Hr H)]. }
  destruct r; try discriminate Hman;
    try (simpl discloses; rewrite Z.sub_0_r; split; [done|];
         apply (left_shrink e k w); [by apply serve_sends_shrink|done]).
  - by destruct (left_run _ _ _ _ (left_post_access access_id password e k w H0 Hk)) as (r & -> & H).
  - by destruct (left_run _ _ _ _ (left_post_access_file send file password e k w H0 Hk))
      as (r & -> & H).
Qed.
End limit.


(** Four visits to alice's note, two accesses left: two are answered. *)
Definition visits : list (Env * Request * Route) :=
  repeat (demo_env, demo_request "nobody", R_post_access "sa" None) 4.

